(* ===== verification/_CoqProject ===== *)
-Q . S2P
Prelude.v
Mem.v
CTypes.v
HeaderTypes.v
Platform.v
Trace.v
Hexdump.v
Memory.v
Spinlock.v
Registers.v
TypeTables.v
RegProps.v
HeaderProps.v
Device.v
Pci.v
Ixgbe.v
IxgbeCpp.v
Stats.v
Apps.v
Ring.v
TxRing.v
RxRing.v
RxFill.v
Sim.v
MemoryProps.v
TxProps.v
RxProps.v
CppProps.v
AppProps.v
Forward.v
TxEngine.v
PktGen.v
TxDevice.v
PktGenProps.v
Card.v
CardRuns.v
DeviceProps.v
IxgbeProps.v
PciProps.v
Startup.v
TxStart.v
RxStart.v
PktStart.v
PktMain.v
TxCard.v
TxStartProps.v
InitProps.v
PktMainProps.v
Alloc.v
Layout.v
DmaAlloc.v
Vfs.v
StackSpec.v
AllocLaws.v
AllocInst.v
StackInst.v
FallbackInst.v
NewInst.v
AllocSim.v
AllocProps.v
DmaProps.v
SpinThreads.v
SpinProps.v
SpinWorkers.v
AllocTests.v
