(* ===== verification/Prelude.v ===== *)
(** * Verification of ixy, a userspace driver for the Intel 82599

    ixy drives a network card from a normal Linux process: it maps the card's
    registers, hands the card buffers in DMA memory through descriptor rings,
    and polls.  This development models its C code, the C++ port of the
    driver, its memory allocators and its applications as executable
    definitions over a byte memory and an abstract device, and proves what
    they do to them.

    ** The program and its model

    A program is [M W A], a function from a state to a result and a state, a
    failure, or exhausted fuel (Prelude.v).  Failures are the values [Fault]
    (an access outside every mapped region, or undefined behaviour), [Abort]
    (the macro error of log.h, a failed assert) and [Exit] (check_err).  The
    state is [world] (Platform.v): the process memory of Mem.v, the state of
    everything outside the process, and the one static counter.  Registers,
    DMA, system calls, malloc and free are the class [Platform], a parameter;
    what the theorems need of them is stated by the classes [HostLaws] (pages
    of 4 KB, page frame numbers of 40 bits, and mmap and malloc fail or return
    x86-64 user addresses), [HeapLaws] (blocks of malloc are apart until they are freed),
    [NicOwnership] and [NicWriteback] (the card).  Sim.v and AllocSim.v give a
    machine that has all of these laws, on which the witnesses run.  The
    theorems about initialisation and whole programs need more of their
    surroundings, in classes of their own: [TxEngine] (a transmit queue that
    runs sends what it is given, TxEngine.v), [StartLaws] (memory that mmap and
    malloc return is apart from what is in use, the page map is right, and malloc
    succeeds as long as the requests add up to no more than a given room,
    Startup.v), [TxStart] (the registers of a transmit queue, TxStart.v),
    [CardStart] (reset, the states the driver polls for, and a link on which
    nothing arrives, RxStart.v) and [TxRun] (a queue programmed as TxStart says
    runs as TxEngine says, PktStart.v).  The room is an assumption about the
    machine, the rest documented behaviour.  The card of TxDevice.v is
    an instance of the first, the card and host of TxCard.v of all of them.

    Integers are [Z] with the C conversions written out (u8, u16, u32, u64,
    i32, i64); pointers are addresses; a structure is a list of [field]s from
    which Mem.v computes x86-64 offsets, so one structure that overlaps
    another is two views of the same bytes.  The card may write to memory
    before each access through a volatile pointer to a descriptor ([vload],
    [vstore]), which is where the program can observe it.

    File by file (C file under src/, definitions, proofs):
    - memory.c, memory.h: Memory.v, MemoryProps.v, InitProps.v;
    - pci.c: Pci.v, PciProps.v; Trace.v has the sequences of system calls, with
      their answers, that theorems about both are stated with;
    - driver/device.h: Device.v, DeviceProps.v;
    - driver/ixgbe_type.h: Registers.v (what the driver uses), TypeTables.v
      (the macros of the whole header), RegProps.v; its enumerations,
      structures and unions in HeaderTypes.v, over the nested C types of
      CTypes.v, HeaderProps.v;
    - driver/ixgbe.c: Ixgbe.v; ring arithmetic Ring.v, the transmit ring
      TxRing.v and TxProps.v, the receive ring RxRing.v, RxFill.v and
      RxProps.v, initialisation IxgbeProps.v and InitProps.v, the start of a
      transmit queue TxStart.v and TxStartProps.v, of the rest of the card
      RxStart.v;
    - driver/device.hpp, ixgbe.hpp, ixgbe.cpp: IxgbeCpp.v, CppProps.v;
    - stats.c, stats.cpp: Stats.v; log.h: [error] in Prelude.v, [check_err] in
      Platform.v, [assert_] in Pci.v, hexdump and the lines the macros print
      in Hexdump.v;
    - libseccomp_init.c and the programs in app/: Apps.v, AppProps.v,
      Forward.v (one turn of ixy-fwd).  The main loop of ixy-pktgen: what it
      needs of the card is the class [TxEngine] of TxEngine.v, its invariant
      PktGen.v, a card that is one TxDevice.v, the theorem PktGenProps.v.
      The program as a whole is PktMain.v: PktStart.v takes the card from its
      reset to the loop's invariant, Startup.v says what survives meanwhile;
      the theorem is PktMainProps.v, on the card of TxCard.v.
      Card.v is an executable 82599 with its host, registers at their reset
      values, and CardRuns.v runs ixy-fwd on it from power-on;
    - allocator/: the structures and the null, malloc and stack allocators in
      Alloc.v, calls through struct allocator, the fallback allocator, the
      constructors and destructors in Vfs.v, the DMA allocator and
      allocator-example.c in DmaAlloc.v, rte_spinlock.h in Spinlock.v.
      Specifications in StackSpec.v; the contract of an allocator is the class
      [AllocatorLaws] of AllocLaws.v, kept by every implementation
      (AllocInst.v, StackInst.v, FallbackInst.v, NewInst.v) and the only thing
      clients are verified against; AllocProps.v, DmaProps.v.  SpinThreads.v
      and SpinProps.v are about threads that share a spinlock stack allocator,
      SpinWorkers.v about threads that allocate and release in turn, and
      AllocTests.v is the test program allocator/tests/ with such threads;
    - Layout.v: the layout of all these structures.

    A definition has the name of the function it models; a part of a function
    that has a definition of its own (a loop, a branch) is composed by the
    definition of the whole function as the code composes it.

    ** What is shown

    - The rings.  [txq] and [rxq] are abstract rings, [tx_inv] and [rx_inv]
      relate them to the bytes; ixgbe_tx_packet and ixgbe_rx_packet refine the
      queue operations from every state of the invariant, whatever the card
      does within what it was given, and buffers are neither lost nor
      duplicated.  The ring positions are 16 bit and the sizes powers of two.
      The receive path as written returns a stale buffer the second time a
      slot is used; the theorem about it says so.
    - The pool.  pkt_buf_alloc and pkt_buf_free refine a stack of free
      entries; no sequence of calls hands a buffer out twice; a new pool holds
      every entry, in the block and the DMA region that were allocated for it.
    - The kernel.  memory_allocate_dma and pci_map_resource make an exact
      sequence of calls, given with the kernel's answers; the addresses they
      return are the ones in those answers, and a failed check ends the sequence.
    - Forwarding.  One turn of ixy-fwd over a receive and a transmit ring that
      share a pool composes what the two driver functions promise, down to the
      descriptors and both tail registers, keeps both invariants, and says when a
      packet is dropped.
    - Generating.  The loop of ixy-pktgen runs any number of turns, each of
      which sends its packet, on every card that completes what it was given
      ([turn] is one turn, with the ring's descriptor and the tail register).
      main of ixy-pktgen, composed of the packet pool, the start of the card,
      the system call filter and the loop, reaches the loop's invariant from a
      process with room on its heap, and sends; every end before that is named
      ([startup_failure]).  [booted] is the frame of that proof: between two
      states the process wrote, of what was reserved before, only given bytes.
    - Initialisation.  The registers each queue gets, the filled receive ring,
      the limits checked, and which queues are left out or overlap: a packet sent
      on a queue that was left out faults.  A transmit
      queue that was initialised and started satisfies the invariant of the
      transmit path, for an empty ring, on a kernel and a card with the laws of
      [StartLaws] and [TxStart] (fresh mappings, the page map, a queue that was
      reset).
    - Polling loops and the link timeout: how often they read, and that they
      end when the register does what it is polled for.
    - The port.  The C++ member functions equal the C functions except
      rx_packet (same contract), init_tx (another TXDCTL value) and init_link
      (which does not select the link mode).
    - The allocators: every branch of the stack allocator, the contract of
      each implementation, whole lifecycles of a client, physical contiguity
      of DMA blocks, mutual exclusion and exclusive ownership of blocks under
      every interleaving of threads, and that the threads' steps are the code.
      The test program passes under every schedule of its threads.  The theorems
      on lifecycles are for allocators whose size in bytes fits 32 bits; what the
      constructor does beyond that, by the wrap-around of its product, is a
      theorem of its own.

    Besides these there are checks of the model itself, computed on fixed inputs
    or instances of a general lemma, which are not claims about the program:
    ixy-fwd from power-on on the card of Card.v, which sends from an address a
    received packet chose and then faults, as the rings are filled with the
    addresses of the buffers' headers (CardRuns.v); the allocator example
    (DmaProps.v); the layouts (Layout.v, HeaderProps.v); each constant of
    Registers.v against the tables of TypeTables.v (RegProps.v).

    ** Fuel

    Loops bounded by their data are structural.  The clean-up loop of the
    transmit path has [clean_fuel] = 2^16, the number of values of its index;
    the theorems show it ends.  The link timeout has fuel 102 for its at most
    101 polls, shown to suffice.  Loops that wait for the card, for a lock or
    for room in a ring take their fuel as an argument ([poll_fuel], [spin],
    ...): the theorems give the number of polls when the card answers in time,
    or need one unit when the lock is free; the loop of ixy-pktgen needs more
    fuel per packet than the card's latency, its bound on the polls that find
    no finished descriptor, and its start more than the card's latencies for a
    reset and for enabling a queue.  The page loops of the DMA
    allocator have one unit per page, calls through a fallback allocator one
    per level of nesting, hexdump one per line.  [Hang], fuel used up, is
    excluded by [wp].

    ** Threads

    SpinThreads.v interleaves steps that make one access to a shared word
    each, in one order that all threads see.  On x86-64 this is what the code
    relies on: the locked instructions order everything around them.

    ** Not modelled

    - Where the functions write log messages (debug, info, warn), and printf's
      formatting: streams, not state; the lines themselves are in Hexdump.v.  Two of the driver's messages pass the mapped registers to a %s
      and so read them; these reads are left out.
    - libseccomp, the kernel, the C library and the card: parameters.
    - C++ templates that are never instantiated (device.hpp), exceptions of
      operator new, padding bytes in structure copies.
    - setup-hugetlbfs.sh and the build files; rte_per_lcore.h, three macros for
      thread-local variables: the one variable made with them is [thread_id] of
      Spinlock.v, the address of the calling thread's own copy.
    - Packets that arrive while ixy-pktgen runs.  The program never looks at its
      receive queue, but the card would write to that queue's buffers; the
      theorem about main is for a link on which nothing arrives.
    - The applications' main loops do not end; they are modelled up to any
      number of turns. *)
From stdpp Require Export base tactics numbers list gmap strings pretty.

From Stdlib Require Export ZArith Lia.
#[export] Set Default Goal Selector "!".
#[global] Open Scope Z_scope.

Declare Scope ixy_scope.
Delimit Scope ixy_scope with ixy.

(** ** The failure and state monad

    A C function that can abort, exit, fault or spin is a function from the
    state it runs in to an outcome.  [Err] carries the state reached when the
    program stopped; [Hang] is the outcome of a polling loop whose fuel ran
    out. *)
Inductive failure :=
  | Abort (msg : string)   (* error(...) : message, then abort() *)
  | Exit (code : Z)        (* check_err(...) : exit(errno) *)
  | Fault (what : string). (* undefined behaviour: unmapped access, bad index *)

Inductive outcome (S A : Type) :=
  | Ok (a : A) (s : S)
  | Err (e : failure) (s : S)
  | Hang.
Arguments Ok {S A} a s.
Arguments Err {S A} e s.
Arguments Hang {S A}.

Definition M (S A : Type) : Type := S -> outcome S A.

#[export] Instance M_ret S : MRet (M S) := fun A a s => Ok a s.
#[export] Instance M_bind S : MBind (M S) := fun A B k m s =>
  match m s with
  | Ok a s' => k a s'
  | Err e s' => Err e s'
  | Hang => Hang
  end.

Definition get {S} : M S S := fun s => Ok s s.
Definition put {S} (s : S) : M S unit := fun _ => Ok tt s.
Definition gets {S A} (f : S -> A) : M S A := fun s => Ok (f s) s.
Definition modify {S} (f : S -> S) : M S unit := fun s => Ok tt (f s).
Definition fail {S A} (e : failure) : M S A := fun s => Err e s.
Definition hang {S A} : M S A := fun _ => Hang.
(** [error("...")] of log.h prints the message and calls abort(). *)
Definition error {S A} (msg : string) : M S A := fail (Abort msg).

(** [for (i = lo; i < lo + n; i++) body] *)
Fixpoint for_loop {S} (n : nat) (lo : Z) (body : Z -> M S unit) : M S unit :=
  match n with
  | O => mret tt
  | S n' => body lo ;; for_loop n' (lo + 1) body
  end.

(** ** Weakest preconditions

    [wp c Q E s]: from [s], [c] ends normally in a state satisfying [Q], or
    fails in a state satisfying [E]; it never runs out of fuel. *)
Definition wp {S A} (c : M S A) (Q : A -> S -> Prop) (E : failure -> S -> Prop) (s : S) : Prop :=
  match c s with
  | Ok a s' => Q a s'
  | Err e s' => E e s'
  | Hang => False
  end.

(** No failure is allowed. *)
Definition never {S} : failure -> S -> Prop := fun _ _ => False.
Notation "'total' c Q" := (wp c Q never) (at level 10, c at level 9, Q at level 9, only parsing) : ixy_scope.

Section wp.
Context {S : Type}.
Implicit Types (E : failure -> S -> Prop) (s : S).

Lemma wp_ret {A} (a : A) (Q : A -> S -> Prop) E s : Q a s -> wp (mret a) Q E s.
Proof. done. Qed.

Lemma wp_bind {A B} (c : M S A) (k : A -> M S B) (Q : B -> S -> Prop) E s :
  wp c (fun a s' => wp (k a) Q E s') E s -> wp (c ≫= k) Q E s.
Proof. unfold wp, mbind, M_bind. by destruct (c s). Qed.

Lemma wp_bind_inv {A B} (c : M S A) (k : A -> M S B) (Q : B -> S -> Prop) E s :
  wp (c ≫= k) Q E s -> wp c (fun a s' => wp (k a) Q E s') E s.
Proof. unfold wp, mbind, M_bind. by destruct (c s). Qed.

Lemma wp_mono {A} (c : M S A) (Q Q' : A -> S -> Prop) E E' s :
  wp c Q E s -> (forall a s', Q a s' -> Q' a s') -> (forall e s', E e s' -> E' e s') ->
  wp c Q' E' s.
Proof. unfold wp. destruct (c s); naive_solver. Qed.

Lemma wp_conseq {A} (c : M S A) (Q Q' : A -> S -> Prop) E s :
  wp c Q E s -> (forall a s', Q a s' -> Q' a s') -> wp c Q' E s.
Proof. intros H HQ. by eapply wp_mono. Qed.

Lemma wp_both {A} (c : M S A) (Q1 Q2 : A -> S -> Prop) E s :
  wp c Q1 E s -> wp c Q2 E s -> wp c (fun a s' => Q1 a s' /\ Q2 a s') E s.
Proof. unfold wp. by destruct (c s). Qed.

Lemma wp_gets {A} (f : S -> A) (Q : A -> S -> Prop) E s : Q (f s) s -> wp (gets f) Q E s.
Proof. done. Qed.

Lemma wp_modify (f : S -> S) (Q : unit -> S -> Prop) E s : Q tt (f s) -> wp (modify f) Q E s.
Proof. done. Qed.

Lemma wp_fail {A} e (Q : A -> S -> Prop) E s : E e s -> wp (fail e) Q E s.
Proof. done. Qed.

Lemma wp_ok {A} (c : M S A) (Q : A -> S -> Prop) s :
  wp c Q never s -> exists a s', c s = Ok a s' /\ Q a s'.
Proof. unfold wp, never. destruct (c s); naive_solver. Qed.

Lemma ok_wp {A} (c : M S A) (Q : A -> S -> Prop) E s a s' :
  c s = Ok a s' -> Q a s' -> wp c Q E s.
Proof. unfold wp. by intros ->. Qed.

(** Loop rule: [I i s] holds before iteration [i]. *)
Lemma wp_for (body : Z -> M S unit) (I : Z -> S -> Prop) E n lo s :
  I lo s ->
  (forall i s', lo <= i < lo + Z.of_nat n -> I i s' -> wp (body i) (fun _ => I (i + 1)) E s') ->
  wp (for_loop n lo body) (fun _ => I (lo + Z.of_nat n)) E s.
Proof.
  revert lo s. induction n as [|n IH]; intros lo s HI Hb; cbn [for_loop].
  - apply wp_ret. by rewrite Z.add_0_r.
  - apply wp_bind. eapply wp_conseq; [apply Hb; [lia|done]|].
    intros ? s' HI'. cbn beta in HI' |- *.
    replace (lo + Z.of_nat (Datatypes.S n)) with (lo + 1 + Z.of_nat n) by lia.
    apply IH; [done|]. intros. apply Hb; [lia|done].
Qed.
End wp.

Lemma M_bind_assoc {S A B C} (m : M S A) (f : A -> M S B) (g : B -> M S C) s :
  ((m ≫= f) ≫= g) s = (m ≫= (fun a => f a ≫= g)) s.
Proof. unfold mbind, M_bind. by destruct (m s). Qed.

Lemma wp_assoc {S A B C} (m : M S A) (f : A -> M S B) (g : B -> M S C) Q E s :
  wp ((m ≫= f) ≫= g) Q E s -> wp (m ≫= (fun a => f a ≫= g)) Q E s.
Proof. unfold wp. by rewrite M_bind_assoc. Qed.

(** ** Equality of programs: the same outcome from every state *)
#[export] Instance M_equiv S A : Equiv (M S A) := fun c c' => forall s, c s = c' s.
#[export] Instance M_equivalence S A : Equivalence (≡@{M S A}).
Proof. split; [by intros c s|by intros c c' Hc s|intros c1 c2 c3 H1 H2 s; by rewrite H1]. Qed.
#[export] Instance M_bind_proper S A B :
  Proper (pointwise_relation A (≡@{M S B}) ==> (≡@{M S A}) ==> (≡)) mbind.
Proof. intros k k' Hk c c' Hc s. unfold mbind, M_bind. rewrite Hc. destruct (c' s); [apply Hk|done..]. Qed.
#[export] Instance for_loop_proper S n lo :
  Proper (pointwise_relation Z (≡@{M S unit}) ==> (≡)) (for_loop n lo).
Proof.
  intros b b' Hb. revert lo. induction n as [|n IH]; intros lo; cbn [for_loop]; [done|].
  apply M_bind_proper; [intros ?; apply IH|apply Hb].
Qed.
#[export] Instance wp_proper S A (Q : A -> S -> Prop) E s : Proper ((≡@{M S A}) ==> iff) (fun c => wp c Q E s).
Proof. intros c c' Hc. unfold wp. by rewrite Hc. Qed.

(** ** Machine integers: the value of a C expression of w bits *)
Definition u8 (x : Z) : Z := x mod 2 ^ 8.
Definition u16 (x : Z) : Z := x mod 2 ^ 16.
Definition u32 (x : Z) : Z := x mod 2 ^ 32.
Definition u64 (x : Z) : Z := x mod 2 ^ 64.
(** conversion of a 32-bit pattern to [int] *)
Definition i32 (x : Z) : Z := if u32 x <? 2 ^ 31 then u32 x else u32 x - 2 ^ 32.
(** conversion of a 64-bit pattern to [int64_t] *)
Definition i64 (x : Z) : Z := if u64 x <? 2 ^ 63 then u64 x else u64 x - 2 ^ 64.
(** [~x] on [uint32_t] *)
Definition not32 (x : Z) : Z := 2 ^ 32 - 1 - u32 x.

Lemma u16_small x : 0 <= x < 2 ^ 16 -> u16 x = x.
Proof. apply Z.mod_small. Qed.
Lemma u32_small x : 0 <= x < 2 ^ 32 -> u32 x = x.
Proof. apply Z.mod_small. Qed.
Lemma u64_small x : 0 <= x < 2 ^ 64 -> u64 x = x.
Proof. apply Z.mod_small. Qed.
Lemma u16_range x : 0 <= u16 x < 2 ^ 16.
Proof. by apply Z.mod_pos_bound. Qed.
Lemma u32_range x : 0 <= u32 x < 2 ^ 32.
Proof. by apply Z.mod_pos_bound. Qed.
Lemma u64_range x : 0 <= u64 x < 2 ^ 64.
Proof. by apply Z.mod_pos_bound. Qed.

Lemma not32_lnot x : not32 x = u32 (Z.lnot x).
Proof.
  unfold not32, u32.
  unfold Z.lnot. pose proof (Z.mod_pos_bound x (2 ^ 32) eq_refl).
  apply Z.mod_unique with (- (x / 2 ^ 32) - 1); [lia|].
  pose proof (Z.div_mod x (2 ^ 32)). lia.
Qed.

(** Flag tests.  [Z.testbit]-level facts about the masks the driver uses. *)
Lemma land_ones_mod x k : 0 <= k -> Z.land x (2 ^ k - 1) = x mod 2 ^ k.
Proof. intros. rewrite <- Z.land_ones by done. by rewrite Z.ones_equiv. Qed.

Lemma land_pow2_testbit x k : 0 <= k -> (Z.land x (2 ^ k) =? 0) = negb (Z.testbit x k).
Proof.
  intros Hk. destruct (Z.testbit x k) eqn:E; cbn.
  - apply Z.eqb_neq. intros H.
    assert (Z.testbit (Z.land x (2 ^ k)) k = true) as Ht.
    { by rewrite Z.land_spec, E, Z.pow2_bits_true. }
    by rewrite H, Z.testbit_0_l in Ht.
  - apply Z.eqb_eq. apply Z.bits_inj_0. intros j. rewrite Z.land_spec, Z.pow2_bits_eqb by done.
    destruct (Z.eqb_spec k j) as [<-|]; [by rewrite E | by rewrite andb_false_r].
Qed.

(** a value below the bits of another: [lor] is addition *)
Lemma lor_shiftl_add h n x : 0 <= n -> 0 <= x < 2 ^ n -> Z.lor (Z.shiftl h n) x = h * 2 ^ n + x.
Proof.
  intros Hn Hx. rewrite <- Z.add_lor_land, Z.shiftl_mul_pow2 by done.
  assert (Z.land (h * 2 ^ n) x = 0) as ->; [|lia].
  apply Z.bits_inj_0. intros j. rewrite Z.land_spec. destruct (decide (j < n)) as [Hj|Hj].
  - by rewrite Z.mul_pow2_bits_low.
  - rewrite <- (Z.mod_small x (2 ^ n)) by done. rewrite Z.mod_pow2_bits_high by lia. apply andb_false_r.
Qed.

(** ** Tactics *)
(** one step of a monadic program: descend into the head of the sequence *)
Ltac wp_unbind := match goal with
  | |- wp (mbind _ _) _ _ _ => apply wp_bind
  | |- wp (mret _) _ _ _ => apply wp_ret
  | |- wp (gets _) _ _ _ => apply wp_gets
  | |- wp (modify _) _ _ _ => apply wp_modify
  end; cbn beta.

Create HintDb ixy discriminated.
#[export] Hint Resolve u16_range u32_range u64_range : ixy.

(** arithmetic with the integer wraps and the truncating operators in view *)
Ltac zify_pre :=
  change (2 ^ 8) with 256 in *; change (2 ^ 16) with 65536 in *;
  change (2 ^ 32) with 4294967296 in *; change (2 ^ 64) with 18446744073709551616 in *.
Ltac ulia := zify_pre; lia.
#[global] Arguments wp : simpl never.
