(* ===== verification/Mem.v ===== *)
(** * Byte-addressed process memory

    The C program's memory: a byte at each address, and the list of the
    regions (base, length) that are mapped or allocated.  An access outside
    every region is a fault.  Scalars are stored little-endian, as on the
    x86-64 machines the driver runs on; the driver's unions (the two formats
    of a DMA descriptor) and its overlapping structures are then the same
    bytes read at two widths. *)
From S2P Require Import Prelude.

Record mem := Mem { bytes : gmap Z Z; regions : list (Z * Z) }.

(** One byte.  A byte that was never written reads as 0; the device and the
    allocator choose the initial contents by writing them. *)
Definition rd (m : mem) (a : Z) : Z := u8 (default 0 (bytes m !! a)).
Definition wr (a v : Z) (m : mem) : mem := Mem (<[a := u8 v]> (bytes m)) (regions m).

(** Little-endian scalars of [n] bytes. *)
Fixpoint ld (n : nat) (m : mem) (a : Z) : Z :=
  match n with
  | O => 0
  | S n' => rd m a + 2 ^ 8 * ld n' m (a + 1)
  end.
Fixpoint st (n : nat) (a v : Z) (m : mem) : mem :=
  match n with
  | O => m
  | S n' => st n' (a + 1) (v / 2 ^ 8) (wr a v m)
  end.

(** [memset(a, v, n)] *)
Fixpoint fill (n : nat) (a v : Z) (m : mem) : mem :=
  match n with
  | O => m
  | S n' => fill n' (a + 1) v (wr a v m)
  end.

(** zeroing of a whole region, as calloc and a fresh mapping do *)
Definition zero_fill (a n : Z) (m : mem) : mem :=
  Mem (filter (fun kv => ~ (a <= kv.1 < a + n)) (bytes m)) (regions m).

Definition add_region (a n : Z) (m : mem) : mem := Mem (bytes m) ((a, n) :: regions m).

Definition in_region (a n : Z) (r : Z * Z) : bool := (r.1 <=? a) && (a + n <=? r.1 + r.2).
Definition mapped (m : mem) (a n : Z) : bool := existsb (in_region a n) (regions m).

(** A list of byte writes, as one burst of device activity produces it. *)
Definition wr_all (ws : list (Z * Z)) (m : mem) : mem :=
  foldl (fun m aw => wr aw.1 aw.2 m) m ws.

(** ** Bytes *)
Lemma rd_wr m a v b : rd (wr a v m) b = if decide (a = b) then u8 v else rd m b.
Proof.
  unfold rd, wr; cbn. rewrite lookup_insert. case_decide; [|done]. cbn.
  unfold u8. by rewrite Z.mod_mod.
Qed.
Lemma rd_range m a : 0 <= rd m a < 2 ^ 8.
Proof. by apply Z.mod_pos_bound. Qed.
#[export] Hint Resolve rd_range : ixy.

Lemma rd_st n m a v b :
  rd (st n a v m) b =
    if decide (a <= b < a + Z.of_nat n) then (v / 2 ^ (8 * (b - a))) mod 2 ^ 8 else rd m b.
Proof.
  revert m a v. induction n as [|n IH]; intros m a v; cbn [st].
  - rewrite decide_False by lia. done.
  - rewrite IH, rd_wr. destruct (decide (a = b)) as [->|Hne].
    + rewrite decide_False by lia. rewrite decide_True by lia.
      rewrite Z.sub_diag, Z.mul_0_r, Z.div_1_r. done.
    + destruct (decide (a + 1 <= b < a + 1 + Z.of_nat n)).
      * rewrite decide_True by lia. rewrite Z.div_div by lia.
        rewrite <- Z.pow_add_r by lia. do 3 f_equal. lia.
      * rewrite decide_False by lia. done.
Qed.

Lemma rd_st_out n m a v b : ~ (a <= b < a + Z.of_nat n) -> rd (st n a v m) b = rd m b.
Proof. intros. by rewrite rd_st, decide_False. Qed.

Lemma rd_fill n m a v b :
  rd (fill n a v m) b = if decide (a <= b < a + Z.of_nat n) then u8 v else rd m b.
Proof.
  revert m a. induction n as [|n IH]; intros m a; cbn [fill].
  - rewrite decide_False by lia. done.
  - rewrite IH, rd_wr. repeat case_decide; try done; lia.
Qed.

Lemma rd_zero_fill m a n b : rd (zero_fill a n m) b = if decide (a <= b < a + n) then 0 else rd m b.
Proof.
  unfold rd, zero_fill; cbn. rewrite map_lookup_filter.
  destruct (bytes m !! b) as [x|]; cbn; repeat case_guard; repeat case_decide; try done; lia.
Qed.

Lemma regions_wr m a v : regions (wr a v m) = regions m.
Proof. done. Qed.
Lemma regions_st n a v m : regions (st n a v m) = regions m.
Proof. revert a v m. induction n as [|n IH]; intros; cbn; [done|]. by rewrite IH. Qed.
Lemma regions_fill n a v m : regions (fill n a v m) = regions m.
Proof. revert a m. induction n as [|n IH]; intros; cbn; [done|]. by rewrite IH. Qed.
Lemma regions_wr_all ws m : regions (wr_all ws m) = regions m.
Proof. revert m. induction ws as [|[a v] ws IH]; intros m; [done|]. apply (IH (wr a v m)). Qed.

Lemma rd_wr_all_out ws m b : b ∉ ws.*1 -> rd (wr_all ws m) b = rd m b.
Proof.
  revert m. induction ws as [|[a v] ws IH]; intros m Hb; [done|].
  apply not_elem_of_cons in Hb as [Hne Hb]. cbn in Hne.
  transitivity (rd (wr a v m) b); [by apply IH|]. by rewrite rd_wr, decide_False.
Qed.

Lemma mapped_regions m m' a n : regions m = regions m' -> mapped m a n = mapped m' a n.
Proof. unfold mapped. by intros ->. Qed.
Lemma mapped_st n a v m b k : mapped (st n a v m) b k = mapped m b k.
Proof. apply mapped_regions, regions_st. Qed.
Lemma mapped_wr_all ws m b k : mapped (wr_all ws m) b k = mapped m b k.
Proof. apply mapped_regions, regions_wr_all. Qed.

(** A sub-range of a mapped range is mapped. *)
Lemma mapped_sub m a n b k :
  mapped m a n = true -> a <= b -> b + k <= a + n -> mapped m b k = true.
Proof.
  unfold mapped. rewrite !existsb_exists. intros ([r l] & Hin & Hr) H1 H2.
  exists (r, l). split; [done|]. unfold in_region in *; cbn in *. lia.
Qed.
Lemma mapped_add_region m a n b k : mapped m b k = true -> mapped (add_region a n m) b k = true.
Proof. unfold mapped, add_region; cbn. intros ->. by rewrite orb_true_r. Qed.
Lemma mapped_head m a n k l : regions m = (a, n) :: l -> k <= n -> mapped m a k = true.
Proof.
  intros Hr Hk. unfold mapped. rewrite Hr. cbn [existsb]. apply orb_true_iff. left.
  unfold in_region. cbn [fst snd]. lia.
Qed.
Lemma mapped_new m a n : mapped (add_region a n m) a n = true.
Proof. unfold mapped, add_region, in_region; cbn. rewrite (proj2 (Z.leb_le _ _)) by lia.
  rewrite (proj2 (Z.leb_le _ _)) by lia. done. Qed.

(** ** Scalars *)
Lemma ld_range n m a : 0 <= ld n m a < 2 ^ (8 * Z.of_nat n).
Proof.
  revert a. induction n as [|n IH]; intros a; cbn [ld]; [done|].
  specialize (IH (a + 1)). pose proof (rd_range m a).
  replace (8 * Z.of_nat (S n)) with (8 + 8 * Z.of_nat n) by lia.
  rewrite Z.pow_add_r by lia. nia.
Qed.

Lemma ld_ext n m m' a :
  (forall b, a <= b < a + Z.of_nat n -> rd m b = rd m' b) -> ld n m a = ld n m' a.
Proof.
  revert a. induction n as [|n IH]; intros a H; cbn [ld]; [done|].
  rewrite H by lia. rewrite IH; [done|]. intros; apply H; lia.
Qed.

Lemma ld_zero n m a : (forall b, a <= b < a + Z.of_nat n -> rd m b = 0) -> ld n m a = 0.
Proof.
  revert a. induction n as [|n IH]; intros a H; cbn [ld]; [done|].
  rewrite H by lia. rewrite IH; [done|]. intros; apply H; lia.
Qed.
Lemma ld_shift n m a j v :
  (forall b, a + j <= b < a + j + Z.of_nat n -> rd m b = (v / 2 ^ (8 * (b - a))) mod 2 ^ 8) ->
  0 <= j -> ld n m (a + j) = (v / 2 ^ (8 * j)) mod 2 ^ (8 * Z.of_nat n).
Proof.
  revert j. induction n as [|n IH]; intros j H Hj; cbn [ld]; [by rewrite Z.mod_1_r|].
  rewrite H by lia. rewrite <- Z.add_assoc, IH by (try (intros; apply H); lia).
  replace (a + j - a) with j by lia.
  replace (8 * Z.of_nat (S n)) with (8 + 8 * Z.of_nat n) by lia.
  replace (8 * (j + 1)) with (8 * j + 8) by lia.
  rewrite !Z.pow_add_r by lia. rewrite <- Z.div_div by lia.
  set (x := v / 2 ^ (8 * j)).
  rewrite Z.rem_mul_r by (try apply Z.pow_nonzero; lia). lia.
Qed.

(** A narrow load reads a slice of a wider one: the two views of a union. *)
Lemma rd_of_ld n m a i : 0 <= i < Z.of_nat n -> rd m (a + i) = (ld n m a / 2 ^ (8 * i)) mod 2 ^ 8.
Proof.
  revert a i. induction n as [|n IH]; intros a i Hi; [lia|]. cbn [ld].
  pose proof (rd_range m a). destruct (decide (i = 0)) as [->|].
  - rewrite Z.mul_0_r, Z.div_1_r, Z.add_0_r, Z.mul_comm, Z.mod_add by done.
    by rewrite Z.mod_small.
  - replace (a + i) with (a + 1 + (i - 1)) by lia. rewrite IH by lia.
    replace (8 * i) with (8 + 8 * (i - 1)) by lia. rewrite Z.pow_add_r by lia.
    rewrite <- Z.div_div by lia. do 2 f_equal.
    rewrite Z.mul_comm, Z.div_add by done. rewrite Z.div_small by done. lia.
Qed.
Lemma ld_slice n k m a j :
  0 <= j -> j + Z.of_nat k <= Z.of_nat n ->
  ld k m (a + j) = (ld n m a / 2 ^ (8 * j)) mod 2 ^ (8 * Z.of_nat k).
Proof.
  intros. apply ld_shift; [|done]. intros b Hb.
  replace b with (a + (b - a)) at 1 by lia. apply rd_of_ld. lia.
Qed.

(** A load inside the bytes of the last store reads a slice of its value. *)
Lemma ld_st_sub n k m a v j :
  0 <= j -> j + Z.of_nat k <= Z.of_nat n ->
  ld k (st n a v m) (a + j) = (v / 2 ^ (8 * j)) mod 2 ^ (8 * Z.of_nat k).
Proof.
  intros Hj Hk. apply ld_shift; [|done]. intros b Hb. rewrite rd_st, decide_True by lia. done.
Qed.

Lemma ld_st_eq n m a v : ld n (st n a v m) a = v mod 2 ^ (8 * Z.of_nat n).
Proof.
  pose proof (ld_st_sub n n m a v 0) as H. rewrite Z.add_0_r in H.
  rewrite H by lia. by rewrite Z.mul_0_r, Z.div_1_r.
Qed.

Lemma ld_st_out n k m a v b :
  b + Z.of_nat k <= a \/ a + Z.of_nat n <= b -> ld k (st n a v m) b = ld k m b.
Proof. intros H. apply ld_ext. intros. apply rd_st_out. lia. Qed.

Lemma ld_wr_all_out n ws m a :
  (forall b, a <= b < a + Z.of_nat n -> b ∉ ws.*1) -> ld n (wr_all ws m) a = ld n m a.
Proof. intros H. apply ld_ext. intros. apply rd_wr_all_out. auto. Qed.

(** Two memories agree outside a set of addresses. *)
Definition agree_off (F : Z -> Prop) (m m' : mem) : Prop :=
  regions m = regions m' /\ forall a, ~ F a -> rd m a = rd m' a.

Lemma agree_off_refl F m : agree_off F m m.
Proof. done. Qed.
Lemma agree_off_trans F m1 m2 m3 : agree_off F m1 m2 -> agree_off F m2 m3 -> agree_off F m1 m3.
Proof. intros [R1 H1] [R2 H2]. split; [congruence|]. intros. by rewrite H1, H2. Qed.
Lemma agree_off_sym F m1 m2 : agree_off F m1 m2 -> agree_off F m2 m1.
Proof. intros [R1 H1]. split; [done|]. intros. by rewrite H1. Qed.
Lemma agree_off_mono (F G : Z -> Prop) m m' :
  (forall a, F a -> G a) -> agree_off F m m' -> agree_off G m m'.
Proof. intros HFG [Hr H]. split; [done|]. intros a Ha. apply H. auto. Qed.

#[export] Instance agree_off_equiv F : Equivalence (agree_off F).
Proof. split; red; eauto using agree_off_refl, agree_off_sym, agree_off_trans. Qed.

Lemma agree_off_st (F : Z -> Prop) n a v m :
  (forall b, a <= b < a + Z.of_nat n -> F b) -> agree_off F m (st n a v m).
Proof.
  intros H. split; [by rewrite regions_st|]. intros b Hb. symmetry. apply rd_st_out.
  intros ?. by apply Hb, H.
Qed.
Lemma agree_off_ld F m m' n a :
  agree_off F m m' -> (forall b, a <= b < a + Z.of_nat n -> ~ F b) -> ld n m a = ld n m' a.
Proof. intros [_ H] HF. apply ld_ext. intros. apply H. by apply HF. Qed.
Lemma agree_off_mapped F m m' a n : agree_off F m m' -> mapped m a n = mapped m' a n.
Proof. intros [H _]. by apply mapped_regions. Qed.

(** Address ranges. *)
Definition range (a n b : Z) : Prop := a <= b < a + n.
Definition disj (a n b k : Z) : Prop := a + n <= b \/ b + k <= a.
Lemma disj_range a n b k x : disj a n b k -> range a n x -> ~ range b k x.
Proof. unfold disj, range. lia. Qed.

#[global] Arguments ld : simpl never.
#[global] Arguments st : simpl never.
#[global] Arguments mapped : simpl never.
#[export] Hint Resolve ld_range agree_off_refl : ixy.

(** ** C structure layout

    A structure is its list of fields (name, size, alignment); offsets and
    sizes follow the System V x86-64 rules: each field at the next multiple of
    its alignment, the whole padded to the largest alignment.  A flexible
    array member is a field of size 0. *)
Record field := Field { f_name : string; f_size : Z; f_align : Z }.
Definition align_up (a n : Z) : Z := (n + a - 1) / a * a.
Fixpoint offsets (o : Z) (fs : list field) : list (string * Z) :=
  match fs with
  | [] => []
  | f :: fs' => let o' := align_up (f_align f) o in (f_name f, o') :: offsets (o' + f_size f) fs'
  end.
Fixpoint struct_end (o : Z) (fs : list field) : Z :=
  match fs with
  | [] => o
  | f :: fs' => struct_end (align_up (f_align f) o + f_size f) fs'
  end.
Definition struct_align (fs : list field) : Z := foldr (fun f a => Z.max (f_align f) a) 1 fs.
Definition sizeof (fs : list field) : Z := align_up (struct_align fs) (struct_end 0 fs).
Definition offsetof (fs : list field) (name : string) : Z :=
  match find (fun no => String.eqb name no.1) (offsets 0 fs) with
  | Some no => no.2
  | None => -1
  end.

(** C types of the fields *)
Definition f_ptr (name : string) : field := Field name 8 8.
Definition f_u64 (name : string) : field := Field name 8 8.
Definition f_u32 (name : string) : field := Field name 4 4.
Definition f_u16 (name : string) : field := Field name 2 2.
Definition f_u8 (name : string) : field := Field name 1 1.
Definition f_flex (name : string) (align : Z) : field := Field name 0 align.
