(* ===== verification/CTypes.v ===== *)
(** * C types: nested structures, unions and enumerations

    Mem.v lays out flat lists of fields.  The register header declares types
    that nest: structures in unions, arrays of structures, packed structures.
    [ctype] is such a declaration; sizes, alignments and offsets follow the
    System V x86-64 rules, with every alignment inside a [#pragma pack(1)]
    region capped at 1.  [field_at] finds a member by the names on the way to
    it, and the lemmas say that whatever it finds lies inside the type, aligned,
    and apart from its siblings in a structure. *)
From S2P Require Import Prelude Mem.
Local Open Scope Z_scope.

Inductive ctype :=
  | Scalar (size : Z)
  | Array (t : ctype) (n : Z)
  | Struct (packed : bool) (ms : list (string * ctype))
  | Union (packed : bool) (ms : list (string * ctype)).

Definition max_over {A} (f : A -> Z) (low : Z) : list A -> Z :=
  fix go l := match l with [] => low | x :: l' => Z.max (f x) (go l') end.

Fixpoint ct_align (t : ctype) : Z :=
  match t with
  | Scalar n => n
  | Array t _ => ct_align t
  | Struct packed ms | Union packed ms =>
      if packed then 1 else max_over (fun '(_, t) => ct_align t) 1 ms
  end.
Definition member_align (packed : bool) (t : ctype) : Z := if packed then 1 else ct_align t.

(** where the last of the members placed from [o] on ends *)
Definition place_end (sz al : ctype -> Z) : Z -> list (string * ctype) -> Z :=
  fix go o ms := match ms with
  | [] => o
  | (_, t) :: ms' => go (align_up (al t) o + sz t) ms'
  end.

Fixpoint ct_size (t : ctype) : Z :=
  match t with
  | Scalar n => n
  | Array t n => n * ct_size t
  | Struct packed ms => align_up (ct_align t) (place_end ct_size (member_align packed) 0 ms)
  | Union packed ms => align_up (ct_align t) (max_over (fun '(_, t) => ct_size t) 0 ms)
  end.

Fixpoint place (packed : bool) (o : Z) (ms : list (string * ctype)) : list (string * Z * ctype) :=
  match ms with
  | [] => []
  | (n, t) :: ms' =>
      let o' := align_up (member_align packed t) o in
      (n, o', t) :: place packed (o' + ct_size t) ms'
  end.

(** members with their offsets *)
Definition members (t : ctype) : list (string * Z * ctype) :=
  match t with
  | Struct packed ms => place packed 0 ms
  | Union _ ms => (fun '(n, t) => (n, 0, t)) <$> ms
  | _ => []
  end.
Fixpoint find_member (name : string) (l : list (string * Z * ctype)) : option (Z * ctype) :=
  match l with
  | [] => None
  | (n, o, t) :: l' => if String.eqb n name then Some (o, t) else find_member name l'
  end.
Fixpoint field_at (t : ctype) (path : list string) : option (Z * ctype) :=
  match path with
  | [] => Some (0, t)
  | n :: path' =>
      match find_member n (members t) with
      | Some (o, u) => (fun '(o', u') => (o + o', u')) <$> field_at u path'
      | None => None
      end
  end.

(** scalars of the sizes C has, and members with different names *)
Fixpoint ct_ok (t : ctype) : bool :=
  match t with
  | Scalar n => existsb (Z.eqb n) [1; 2; 4; 8]
  | Array t n => ct_ok t && (0 <=? n)
  | Struct _ ms | Union _ ms => forallb (fun '(_, t) => ct_ok t) ms && bool_decide (NoDup ms.*1)
  end.
Fixpoint natural (t : ctype) : bool :=
  match t with
  | Scalar _ => true
  | Array t _ => natural t
  | Struct packed ms | Union packed ms => negb packed && forallb (fun '(_, t) => natural t) ms
  end.

(** ** Lemmas *)
Section ind.
Context (Q : ctype -> Prop)
  (HS : forall n, Q (Scalar n)) (HA : forall t n, Q t -> Q (Array t n))
  (HT : forall p ms, Forall (fun m => Q m.2) ms -> Q (Struct p ms))
  (HU : forall p ms, Forall (fun m => Q m.2) ms -> Q (Union p ms)).
Fixpoint ctype_nested_ind (t : ctype) : Q t :=
  let go := fix go (ms : list (string * ctype)) : Forall (fun m => Q m.2) ms :=
    match ms with
    | [] => Forall_nil_2 _
    | m :: ms' => Forall_cons_2 _ m ms' (ctype_nested_ind m.2) (go ms')
    end in
  match t with
  | Scalar n => HS n
  | Array t n => HA t n (ctype_nested_ind t)
  | Struct p ms => HT p ms (go ms)
  | Union p ms => HU p ms (go ms)
  end.
End ind.

Definition pow2 (a : Z) : Prop := exists k, 0 <= k /\ a = 2 ^ k.
Lemma pow2_1 : pow2 1.
Proof. by exists 0. Qed.
Lemma pow2_pos a : pow2 a -> 0 < a.
Proof. intros (k & Hk & ->). by apply Z.pow_pos_nonneg. Qed.
Lemma pow2_divide a b : pow2 a -> pow2 b -> a <= b -> (a | b).
Proof.
  intros (j & Hj & ->) (k & Hk & ->) Hle. destruct (decide (j <= k)) as [|Hn].
  - exists (2 ^ (k - j)). rewrite <- Z.pow_add_r by lia. f_equal. lia.
  - assert (2 ^ k < 2 ^ j) by (apply Z.pow_lt_mono_r; lia). lia.
Qed.

Lemma align_up_spec a n : 0 < a -> n <= align_up a n /\ (a | align_up a n).
Proof.
  intros Ha. unfold align_up. split; [|by apply Z.divide_factor_r].
  pose proof (Z.div_mod (n + a - 1) a). pose proof (Z.mod_pos_bound (n + a - 1) a). lia.
Qed.

Lemma max_over_ge {A} (f : A -> Z) low l : low <= max_over f low l.
Proof. induction l; cbn; lia. Qed.
Lemma max_over_elem {A} (f : A -> Z) low l x : x ∈ l -> f x <= max_over f low l.
Proof. intros Hx. induction l as [|y l IH]; [by apply elem_of_nil in Hx|]. cbn. apply elem_of_cons in Hx as [->|Hx]; [lia|]. specialize (IH Hx). lia. Qed.
Lemma max_over_pred {A} (R : Z -> Prop) (f : A -> Z) low l : R low -> Forall (fun x => R (f x)) l -> R (max_over f low l).
Proof. intros Hl. induction 1; cbn; [done|]. by destruct (Z.max_spec (f x) (max_over f low l)) as [[_ ->]|[_ ->]]. Qed.

Lemma ct_ok_members p ms : (ct_ok (Struct p ms) = true \/ ct_ok (Union p ms) = true) ->
  Forall (fun m => ct_ok m.2 = true) ms /\ NoDup ms.*1.
Proof.
  assert (forallb (fun '(_, t) => ct_ok t) ms && bool_decide (NoDup ms.*1) = true ->
    Forall (fun m => ct_ok m.2 = true) ms /\ NoDup ms.*1) as Hm.
  { rewrite andb_true_iff, bool_decide_eq_true, forallb_forall. intros [Hf Hn]. split; [|done].
    apply Forall_forall. intros [n t] Hin%list_elem_of_In. exact (Hf _ Hin). }
  by intros [?|?]; apply Hm.
Qed.

Lemma ct_align_pow2 t : ct_ok t = true -> pow2 (ct_align t).
Proof.
  assert (forall (p : bool) (ms : list (string * ctype)), Forall (fun m => ct_ok m.2 = true) ms ->
    Forall (fun m => ct_ok m.2 = true -> pow2 (ct_align m.2)) ms ->
    pow2 (if p then 1 else max_over (fun '(_, t) => ct_align t) 1 ms)) as Hms.
  { intros [] ms Hok IH; [apply pow2_1|]. apply max_over_pred; [apply pow2_1|].
    rewrite Forall_forall in *. intros [n u] Hin. by apply (IH (n, u)), (Hok (n, u)). }
  induction t as [n|t n IH|p ms IH|p ms IH] using ctype_nested_ind; intros Hok.
  - cbn in *. rewrite !orb_true_iff, !Z.eqb_eq in Hok.
    destruct Hok as [->|[->|[->|[->|]]]]; [by exists 0|by exists 1|by exists 2|by exists 3|done].
  - cbn in *. apply andb_true_iff in Hok as [Hok _]. by apply IH.
  - by apply (Hms p), IH; apply (ct_ok_members p); left.
  - by apply (Hms p), IH; apply (ct_ok_members p); right.
Qed.
Lemma ct_align_pos t : ct_ok t = true -> 0 < ct_align t.
Proof. intros Hok. by apply pow2_pos, ct_align_pow2. Qed.
Lemma member_align_pos p t : ct_ok t = true -> 0 < member_align p t.
Proof. destruct p; [done|apply ct_align_pos]. Qed.

Lemma ct_size_align t : ct_ok t = true -> (ct_align t | ct_size t).
Proof.
  intros Hok. pose proof (ct_align_pos t Hok) as Ha. revert Hok Ha.
  induction t as [n|t n IH|p ms _|p ms _] using ctype_nested_ind; intros Hok Ha.
  - by exists 1; cbn; lia.
  - cbn in *. apply andb_true_iff in Hok as [Hok _]. by apply Z.divide_mul_r, IH.
  - by apply align_up_spec.
  - by apply align_up_spec.
Qed.

(** placing members moves forward *)
Lemma place_bounds p ms o : Forall (fun m => ct_ok m.2 = true /\ 0 <= ct_size m.2) ms ->
  o <= place_end ct_size (member_align p) o ms /\
  forall n oi t, (n, oi, t) ∈ place p o ms ->
    o <= oi /\ (member_align p t | oi) /\ oi + ct_size t <= place_end ct_size (member_align p) o ms.
Proof.
  intros Hms. revert o. induction Hms as [|[n t] ms [Hok Hsz] _ IH]; intros o; cbn.
  - split; [lia|]. intros n oi t Hin. by apply elem_of_nil in Hin.
  - cbn in Hok, Hsz. destruct (align_up_spec (member_align p t) o (member_align_pos p t Hok)) as [Hge Hdiv].
    destruct (IH (align_up (member_align p t) o + ct_size t)) as [He Hin]. split; [lia|].
    intros m oi u [[= -> -> ->]|Hu]%elem_of_cons; [split_and!; [lia|done|lia]|].
    apply Hin in Hu as (? & ? & ?). split_and!; [lia|done|lia].
Qed.

Lemma place_order p ms o n oi t m oj u : Forall (fun m => ct_ok m.2 = true /\ 0 <= ct_size m.2) ms ->
  (n, oi, t) ∈ place p o ms -> (m, oj, u) ∈ place p o ms -> n <> m ->
  oi + ct_size t <= oj \/ oj + ct_size u <= oi.
Proof.
  intros Hms. revert o. induction Hms as [|[k v] ms [Hok Hsz] Hms IH]; intros o Hi Hj Hne; [by apply elem_of_nil in Hi|].
  cbn in Hi, Hj. destruct (place_bounds p ms (align_up (member_align p v) o + ct_size v) Hms) as [_ Hb].
  apply elem_of_cons in Hi as [[= -> -> ->]|Hi], Hj as [[= -> -> ->]|Hj].
  - done.
  - left. by apply Hb in Hj as (? & _).
  - right. by apply Hb in Hi as (? & _).
  - by eapply IH.
Qed.

Lemma ct_size_nonneg t : ct_ok t = true -> 0 <= ct_size t.
Proof.
  assert (forall (ms : list (string * ctype)), Forall (fun m => ct_ok m.2 = true) ms ->
    Forall (fun m => ct_ok m.2 = true -> 0 <= ct_size m.2) ms ->
    Forall (fun m => ct_ok m.2 = true /\ 0 <= ct_size m.2) ms) as Hall.
  { intros ms Hok IH. rewrite Forall_forall in *. intros m Hm. split; [by apply Hok|by apply IH, Hok]. }
  induction t as [n|t n IH|p ms IH|p ms IH] using ctype_nested_ind; intros Hok.
  - apply (ct_align_pos _) in Hok. cbn in *. lia.
  - cbn in *. apply andb_true_iff in Hok as [Hok ?%Z.leb_le]. specialize (IH Hok). by apply Z.mul_nonneg_nonneg.
  - pose proof (ct_align_pos _ Hok) as Ha. destruct (ct_ok_members p ms (or_introl Hok)) as [Hms _].
    destruct (place_bounds p ms 0 (Hall ms Hms IH)) as [He _].
    pose proof (proj1 (align_up_spec (ct_align (Struct p ms)) (place_end ct_size (member_align p) 0 ms) Ha)).
    cbn in *. lia.
  - pose proof (ct_align_pos _ Hok) as Ha. pose proof (max_over_ge (fun '((_, t) : string * ctype) => ct_size t) 0 ms).
    pose proof (proj1 (align_up_spec (ct_align (Union p ms)) (max_over (fun '((_, t) : string * ctype) => ct_size t) 0 ms) Ha)).
    cbn in *. lia.
Qed.

Definition packed_of (t : ctype) : bool :=
  match t with Struct p _ | Union p _ => p | _ => false end.

Lemma sized_members (ms : list (string * ctype)) : Forall (fun m => ct_ok m.2 = true) ms ->
  Forall (fun m => ct_ok m.2 = true /\ 0 <= ct_size m.2) ms.
Proof. intros Hms. eapply Forall_impl; [exact Hms|]. cbn. intros m Hm. split; [done|by apply ct_size_nonneg]. Qed.

Lemma place_in p ms x n o u : (n, o, u) ∈ place p x ms -> (n, u) ∈ ms.
Proof.
  revert x. induction ms as [|[k v] ms IH]; intros x Hin; [by apply elem_of_nil in Hin|]. cbn in Hin.
  apply elem_of_cons in Hin as [[= -> -> ->]|Hin]; [by left|right; by eapply IH].
Qed.

(** one level: a member lies inside, aligned *)
Lemma members_inside t n o u : ct_ok t = true -> (n, o, u) ∈ members t ->
  0 <= o /\ o + ct_size u <= ct_size t /\ (member_align (packed_of t) u | o) /\ ct_ok u = true.
Proof.
  intros Hok Hin. pose proof (ct_align_pos t Hok) as Ha. destruct t as [| |p ms|p ms]; try by apply elem_of_nil in Hin.
  - destruct (ct_ok_members p ms (or_introl Hok)) as [Hms _]. cbn [members] in Hin.
    destruct (place_bounds p ms 0 (sized_members ms Hms)) as [_ Hb]. destruct (Hb n o u Hin) as (? & ? & Hend).
    pose proof (proj1 (align_up_spec _ (place_end ct_size (member_align p) 0 ms) Ha)).
    split_and!; [done|cbn in *; lia|done|].
    rewrite Forall_forall in Hms. apply (Hms (n, u)). by eapply place_in.
  - destruct (ct_ok_members p ms (or_intror Hok)) as [Hms _]. cbn [members] in Hin.
    apply list_elem_of_fmap in Hin as ([k v] & [= -> -> ->] & Hin).
    pose proof (max_over_elem (fun '((_, t) : string * ctype) => ct_size t) 0 ms (k, v) Hin) as Hmax. cbn in Hmax.
    pose proof (proj1 (align_up_spec _ (max_over (fun '((_, t) : string * ctype) => ct_size t) 0 ms) Ha)).
    rewrite Forall_forall in Hms. split_and!; [done|cbn in *; lia|by apply Z.divide_0_r|by apply (Hms (k, v))].
Qed.

(** a member's alignment divides that of a type that is not packed *)
Lemma members_align t n o u : ct_ok t = true -> natural t = true -> (n, o, u) ∈ members t ->
  (ct_align u | ct_align t) /\ natural u = true.
Proof.
  assert (forall ms : list (string * ctype), forallb (fun '(_, t) => natural t) ms = true ->
    (exists v, (n, v) ∈ ms /\ v = u) -> pow2 (max_over (fun '((_, t) : string * ctype) => ct_align t) 1 ms) ->
    ct_ok u = true -> (ct_align u | max_over (fun '((_, t) : string * ctype) => ct_align t) 1 ms) /\ natural u = true) as Hms.
  { intros ms Hn (v & Hin & ->) Hp Hok. split.
    - apply pow2_divide; [by apply ct_align_pow2|done|]. exact (max_over_elem (fun '((_, t) : string * ctype) => ct_align t) 1 ms _ Hin).
    - rewrite forallb_forall in Hn. exact (Hn _ (proj1 (list_elem_of_In _ _) Hin)). }
  intros Hok Hnat Hin. destruct (members_inside t n o u Hok Hin) as (_ & _ & _ & Hu). pose proof (ct_align_pow2 t Hok) as Hp.
  destruct t as [| |p ms|p ms]; try by apply elem_of_nil in Hin.
  - cbn [natural] in Hnat. apply andb_true_iff in Hnat as [->%negb_true_iff Hnat]. apply (Hms ms); [exact Hnat| |exact Hp|exact Hu].
    exists u. split; [|done]. by eapply place_in.
  - cbn [natural] in Hnat. apply andb_true_iff in Hnat as [->%negb_true_iff Hnat]. apply (Hms ms); [exact Hnat| |exact Hp|exact Hu].
    cbn [members] in Hin. apply list_elem_of_fmap in Hin as ([k v] & [= -> -> ->] & Hin). by exists v.
Qed.

Lemma find_member_in n l o t : find_member n l = Some (o, t) -> (n, o, t) ∈ l.
Proof.
  induction l as [|[[m x] u] l IH]; cbn; [done|]. destruct (String.eqb_spec m n) as [->|].
  - intros [= -> ->]. by left.
  - intros Hf. right. by apply IH.
Qed.

(** every path: inside the type, and aligned where nothing is packed *)
Lemma field_at_sound path t o u : ct_ok t = true -> field_at t path = Some (o, u) ->
  0 <= o /\ o + ct_size u <= ct_size t /\ ct_ok u = true /\
  (natural t = true -> (ct_align u | ct_align t) /\ (ct_align u | o)).
Proof.
  revert t o u. induction path as [|n path IH]; intros t o u Hok Hf; cbn in Hf.
  - injection Hf as <- <-. pose proof (ct_size_nonneg t Hok). split_and!; [lia|lia|done|].
    intros _. split; [done|by apply Z.divide_0_r].
  - destruct (find_member n (members t)) as [[o1 t1]|] eqn:Hm; [|done]. apply find_member_in in Hm.
    destruct (members_inside t n o1 t1 Hok Hm) as (H1 & H2 & H3 & Hok1).
    destruct (field_at t1 path) as [[o2 u']|] eqn:Hf2; [|done]. injection Hf as <- <-.
    destruct (IH t1 o2 u' Hok1 Hf2) as (H4 & H5 & H6 & H7). split_and!; [lia|lia|done|]. intros Hnat.
    destruct (members_align t n o1 t1 Hok Hnat Hm) as [Ha Hn1]. destruct (H7 Hn1) as [Hd1 Hd2].
    split; [by apply (Z.divide_trans _ (ct_align t1))|]. apply Z.divide_add_r; [|done].
    assert (packed_of t = false) as Hp. { destruct t as [| |[]|[]]; done. }
    rewrite Hp in H3. by apply (Z.divide_trans _ (ct_align t1)).
Qed.

(** different members of a structure do not overlap *)
Lemma members_apart p ms n o u m o' u' : ct_ok (Struct p ms) = true ->
  (n, o, u) ∈ members (Struct p ms) -> (m, o', u') ∈ members (Struct p ms) -> n <> m ->
  disj o (ct_size u) o' (ct_size u').
Proof.
  intros Hok Hi Hj Hne. destruct (ct_ok_members p ms (or_introl Hok)) as [Hms _].
  exact (place_order p ms 0 n o u m o' u' (sized_members ms Hms) Hi Hj Hne).
Qed.

(** ** Enumerations

    An enumerator without a value is one more than the one before it. *)
Fixpoint enumerators (next : Z) (es : list (string * option Z)) : list (string * Z) :=
  match es with
  | [] => []
  | (n, v) :: es' => let x := default next v in (n, x) :: enumerators (x + 1) es'
  end.
