(* ===== verification/HeaderTypes.v ===== *)
(** * ixgbe_type.h: enumerations, structures and unions

    Every enumeration, structure and union of Intel's register header, member by
    member and in the order of the declarations, as [ctype]s of CTypes.v; and the
    scalar types they are built from.  An enumeration is its list of enumerators,
    with the value where the declaration gives one.  [bool] and [char] take one
    byte and an object of enumerated type four, as the System V ABI has them;
    the types of the firmware interface (3096-3217) are packed to one byte. *)
From S2P Require Import Prelude Mem CTypes.
Local Open Scope string_scope.
Local Open Scope Z_scope.

(** ** Scalars *)
Definition c_u8 : ctype := Scalar 1.
Definition c_s8 : ctype := Scalar 1.
Definition c_u16 : ctype := Scalar 2.
Definition c_s16 : ctype := Scalar 2.
Definition c_u32 : ctype := Scalar 4.
Definition c_s32 : ctype := Scalar 4.
Definition c_u64 : ctype := Scalar 8.
Definition c_s64 : ctype := Scalar 8.
Definition c_le16 : ctype := c_u16.
Definition c_le32 : ctype := c_u32.
Definition c_le64 : ctype := c_u64.
Definition c_be16 : ctype := c_u16.
Definition c_be32 : ctype := c_u32.
Definition c_be64 : ctype := c_u64.
Definition ixgbe_autoneg_advertised : ctype := c_u32.
Definition ixgbe_link_speed : ctype := c_u32.
Definition ixgbe_physical_layer : ctype := c_u64.
Definition c_char : ctype := Scalar 1.
Definition c_bool : ctype := Scalar 1.
Definition c_enum : ctype := Scalar 4.

(** ** Address tests *)
Definition IXGBE_IS_MULTICAST (a : list Z) : bool := negb (Z.land (a !!! 0%nat) 0x01 =? 0).
Definition IXGBE_IS_BROADCAST (a : list Z) : bool := (a !!! 0%nat =? 0xff) && (a !!! 1%nat =? 0xff).

(** ** Enumerations *)
Definition ixgbe_anonymous_enum : list (string * option Z) := [
  ("PBA_STRATEGY_EQUAL", Some 0); ("PBA_STRATEGY_WEIGHTED", Some 1)].
Definition ixgbe_fdir_pballoc_type : list (string * option Z) := [
  ("IXGBE_FDIR_PBALLOC_NONE", Some 0); ("IXGBE_FDIR_PBALLOC_64K", Some 1);
  ("IXGBE_FDIR_PBALLOC_128K", Some 2); ("IXGBE_FDIR_PBALLOC_256K", Some 3)].
Definition ixgbe_atr_flow_type : list (string * option Z) := [
  ("IXGBE_ATR_FLOW_TYPE_IPV4", Some 0x0); ("IXGBE_ATR_FLOW_TYPE_UDPV4", Some 0x1);
  ("IXGBE_ATR_FLOW_TYPE_TCPV4", Some 0x2); ("IXGBE_ATR_FLOW_TYPE_SCTPV4", Some 0x3);
  ("IXGBE_ATR_FLOW_TYPE_IPV6", Some 0x4); ("IXGBE_ATR_FLOW_TYPE_UDPV6", Some 0x5);
  ("IXGBE_ATR_FLOW_TYPE_TCPV6", Some 0x6); ("IXGBE_ATR_FLOW_TYPE_SCTPV6", Some 0x7);
  ("IXGBE_ATR_FLOW_TYPE_TUNNELED_IPV4", Some 0x10);
  ("IXGBE_ATR_FLOW_TYPE_TUNNELED_UDPV4", Some 0x11);
  ("IXGBE_ATR_FLOW_TYPE_TUNNELED_TCPV4", Some 0x12);
  ("IXGBE_ATR_FLOW_TYPE_TUNNELED_SCTPV4", Some 0x13);
  ("IXGBE_ATR_FLOW_TYPE_TUNNELED_IPV6", Some 0x14);
  ("IXGBE_ATR_FLOW_TYPE_TUNNELED_UDPV6", Some 0x15);
  ("IXGBE_ATR_FLOW_TYPE_TUNNELED_TCPV6", Some 0x16);
  ("IXGBE_ATR_FLOW_TYPE_TUNNELED_SCTPV6", Some 0x17)].
Definition IXGBE_CAT (r m : string) : string := "IXGBE_" ++ r ++ m.
Definition IXGBE_MVALS_INIT (m : string) : list string := (fun r => IXGBE_CAT r m) <$> [
  "EEC"; "FLA"; "GRC"; "SRAMREL"; "FACTPS"; "SWSM"; "SWFW_SYNC"; "FWSM"; "SDP0_GPIEN";
  "SDP1_GPIEN"; "SDP2_GPIEN"; "EICR_GPI_SDP0"; "EICR_GPI_SDP1"; "EICR_GPI_SDP2"; "CIAA"; "CIAD";
  "I2C_CLK_IN"; "I2C_CLK_OUT"; "I2C_DATA_IN"; "I2C_DATA_OUT"; "I2C_DATA_OE_N_EN"; "I2C_BB_EN";
  "I2C_CLK_OE_N_EN"; "I2CCTL"].
Definition ixgbe_mvals : list (string * option Z) :=
  (((fun n => (n, None)) <$> IXGBE_MVALS_INIT "_IDX") ++ [("IXGBE_MVALS_IDX_LIMIT", None)])%list.
Definition ixgbe_fcoe_boot_status : list (string * option Z) := [
  ("ixgbe_fcoe_bootstatus_disabled", Some 0); ("ixgbe_fcoe_bootstatus_enabled", Some 1);
  ("ixgbe_fcoe_bootstatus_unavailable", Some 0xFFFF)].
Definition ixgbe_eeprom_type : list (string * option Z) := [
  ("ixgbe_eeprom_uninitialized", Some 0); ("ixgbe_eeprom_spi", None); ("ixgbe_flash", None);
  ("ixgbe_eeprom_none", None)].
Definition ixgbe_mac_type : list (string * option Z) := [
  ("ixgbe_mac_unknown", Some 0); ("ixgbe_mac_82598EB", None); ("ixgbe_mac_82599EB", None);
  ("ixgbe_mac_82599_vf", None); ("ixgbe_mac_X540", None); ("ixgbe_mac_X540_vf", None);
  ("ixgbe_mac_X550", None); ("ixgbe_mac_X550EM_x", None); ("ixgbe_mac_X550EM_a", None);
  ("ixgbe_mac_X550_vf", None); ("ixgbe_mac_X550EM_x_vf", None); ("ixgbe_mac_X550EM_a_vf", None);
  ("ixgbe_num_macs", None)].
Definition ixgbe_phy_type : list (string * option Z) := [
  ("ixgbe_phy_unknown", Some 0); ("ixgbe_phy_none", None); ("ixgbe_phy_tn", None);
  ("ixgbe_phy_aq", None); ("ixgbe_phy_x550em_kr", None); ("ixgbe_phy_x550em_kx4", None);
  ("ixgbe_phy_x550em_xfi", None); ("ixgbe_phy_x550em_ext_t", None); ("ixgbe_phy_ext_1g_t", None);
  ("ixgbe_phy_cu_unknown", None); ("ixgbe_phy_qt", None); ("ixgbe_phy_xaui", None);
  ("ixgbe_phy_nl", None); ("ixgbe_phy_sfp_passive_tyco", None);
  ("ixgbe_phy_sfp_passive_unknown", None); ("ixgbe_phy_sfp_active_unknown", None);
  ("ixgbe_phy_sfp_avago", None); ("ixgbe_phy_sfp_ftl", None); ("ixgbe_phy_sfp_ftl_active", None);
  ("ixgbe_phy_sfp_unknown", None); ("ixgbe_phy_sfp_intel", None);
  ("ixgbe_phy_qsfp_passive_unknown", None); ("ixgbe_phy_qsfp_active_unknown", None);
  ("ixgbe_phy_qsfp_intel", None); ("ixgbe_phy_qsfp_unknown", None);
  ("ixgbe_phy_sfp_unsupported", None); ("ixgbe_phy_sgmii", None); ("ixgbe_phy_fw", None);
  ("ixgbe_phy_generic", None)].
Definition ixgbe_sfp_type : list (string * option Z) := [
  ("ixgbe_sfp_type_da_cu", Some 0); ("ixgbe_sfp_type_sr", Some 1); ("ixgbe_sfp_type_lr", Some 2);
  ("ixgbe_sfp_type_da_cu_core0", Some 3); ("ixgbe_sfp_type_da_cu_core1", Some 4);
  ("ixgbe_sfp_type_srlr_core0", Some 5); ("ixgbe_sfp_type_srlr_core1", Some 6);
  ("ixgbe_sfp_type_da_act_lmt_core0", Some 7); ("ixgbe_sfp_type_da_act_lmt_core1", Some 8);
  ("ixgbe_sfp_type_1g_cu_core0", Some 9); ("ixgbe_sfp_type_1g_cu_core1", Some 10);
  ("ixgbe_sfp_type_1g_sx_core0", Some 11); ("ixgbe_sfp_type_1g_sx_core1", Some 12);
  ("ixgbe_sfp_type_1g_lx_core0", Some 13); ("ixgbe_sfp_type_1g_lx_core1", Some 14);
  ("ixgbe_sfp_type_not_present", Some 0xFFFE); ("ixgbe_sfp_type_unknown", Some 0xFFFF)].
Definition ixgbe_media_type : list (string * option Z) := [
  ("ixgbe_media_type_unknown", Some 0); ("ixgbe_media_type_fiber", None);
  ("ixgbe_media_type_fiber_qsfp", None); ("ixgbe_media_type_fiber_lco", None);
  ("ixgbe_media_type_copper", None); ("ixgbe_media_type_backplane", None);
  ("ixgbe_media_type_cx4", None); ("ixgbe_media_type_virtual", None)].
Definition ixgbe_fc_mode : list (string * option Z) := [
  ("ixgbe_fc_none", Some 0); ("ixgbe_fc_rx_pause", None); ("ixgbe_fc_tx_pause", None);
  ("ixgbe_fc_full", None); ("ixgbe_fc_default", None)].
Definition ixgbe_smart_speed : list (string * option Z) := [
  ("ixgbe_smart_speed_auto", Some 0); ("ixgbe_smart_speed_on", None);
  ("ixgbe_smart_speed_off", None)].
Definition ixgbe_bus_type : list (string * option Z) := [
  ("ixgbe_bus_type_unknown", Some 0); ("ixgbe_bus_type_pci", None); ("ixgbe_bus_type_pcix", None);
  ("ixgbe_bus_type_pci_express", None); ("ixgbe_bus_type_internal", None);
  ("ixgbe_bus_type_reserved", None)].
Definition ixgbe_bus_speed : list (string * option Z) := [
  ("ixgbe_bus_speed_unknown", Some 0); ("ixgbe_bus_speed_33", Some 33);
  ("ixgbe_bus_speed_66", Some 66); ("ixgbe_bus_speed_100", Some 100);
  ("ixgbe_bus_speed_120", Some 120); ("ixgbe_bus_speed_133", Some 133);
  ("ixgbe_bus_speed_2500", Some 2500); ("ixgbe_bus_speed_5000", Some 5000);
  ("ixgbe_bus_speed_8000", Some 8000); ("ixgbe_bus_speed_reserved", None)].
Definition ixgbe_bus_width : list (string * option Z) := [
  ("ixgbe_bus_width_unknown", Some 0); ("ixgbe_bus_width_pcie_x1", Some 1);
  ("ixgbe_bus_width_pcie_x2", Some 2); ("ixgbe_bus_width_pcie_x4", Some 4);
  ("ixgbe_bus_width_pcie_x8", Some 8); ("ixgbe_bus_width_32", Some 32);
  ("ixgbe_bus_width_64", Some 64); ("ixgbe_bus_width_reserved", None)].

(** ** Structures and unions *)
Definition IXGBE_MAX_SENSORS : Z := 3.
Definition IXGBE_DCB_MAX_TRAFFIC_CLASS : Z := 8.
Definition FW_CEM_DRIVER_VERSION_SIZE : Z := 39.
Definition FW_PHY_ACT_DATA_COUNT : Z := 4.
Definition ixgbe_thermal_diode_data : ctype := Struct false [
  ("location", c_u8);
  ("temp", c_u8);
  ("caution_thresh", c_u8);
  ("max_op_thresh", c_u8)].
Definition ixgbe_thermal_sensor_data : ctype := Struct false [
  ("sensor", Array ixgbe_thermal_diode_data IXGBE_MAX_SENSORS)].
Definition ixgbe_dmac_config : ctype := Struct false [
  ("watchdog_timer", c_u16);
  ("fcoe_en", c_bool);
  ("link_speed", c_u32);
  ("fcoe_tc", c_u8);
  ("num_tcs", c_u8)].
Definition ixgbe_hic_hdr : ctype := Struct true [
  ("cmd", c_u8);
  ("buf_len", c_u8);
  ("cmd_or_resp", Union true [
    ("cmd_resv", c_u8);
    ("ret_status", c_u8)]);
  ("checksum", c_u8)].
Definition ixgbe_hic_hdr2_req : ctype := Struct true [
  ("cmd", c_u8);
  ("buf_lenh", c_u8);
  ("buf_lenl", c_u8);
  ("checksum", c_u8)].
Definition ixgbe_hic_hdr2_rsp : ctype := Struct true [
  ("cmd", c_u8);
  ("buf_lenl", c_u8);
  ("buf_lenh_status", c_u8);
  ("checksum", c_u8)].
Definition ixgbe_hic_hdr2 : ctype := Union true [
  ("req", ixgbe_hic_hdr2_req);
  ("rsp", ixgbe_hic_hdr2_rsp)].
Definition ixgbe_hic_drv_info : ctype := Struct true [
  ("hdr", ixgbe_hic_hdr);
  ("port_num", c_u8);
  ("ver_sub", c_u8);
  ("ver_build", c_u8);
  ("ver_min", c_u8);
  ("ver_maj", c_u8);
  ("pad", c_u8);
  ("pad2", c_u16)].
Definition ixgbe_hic_drv_info2 : ctype := Struct true [
  ("hdr", ixgbe_hic_hdr);
  ("port_num", c_u8);
  ("ver_sub", c_u8);
  ("ver_build", c_u8);
  ("ver_min", c_u8);
  ("ver_maj", c_u8);
  ("driver_string", Array c_char FW_CEM_DRIVER_VERSION_SIZE)].
Definition ixgbe_hic_read_shadow_ram : ctype := Struct true [
  ("hdr", ixgbe_hic_hdr2);
  ("address", c_u32);
  ("length", c_u16);
  ("pad2", c_u16);
  ("data", c_u16);
  ("pad3", c_u16)].
Definition ixgbe_hic_write_shadow_ram : ctype := Struct true [
  ("hdr", ixgbe_hic_hdr2);
  ("address", c_u32);
  ("length", c_u16);
  ("pad2", c_u16);
  ("data", c_u16);
  ("pad3", c_u16)].
Definition ixgbe_hic_disable_rxen : ctype := Struct true [
  ("hdr", ixgbe_hic_hdr);
  ("port_number", c_u8);
  ("pad2", c_u8);
  ("pad3", c_u16)].
Definition ixgbe_hic_phy_token_req : ctype := Struct true [
  ("hdr", ixgbe_hic_hdr);
  ("port_number", c_u8);
  ("command_type", c_u8);
  ("pad", c_u16)].
Definition ixgbe_hic_internal_phy_req : ctype := Struct true [
  ("hdr", ixgbe_hic_hdr);
  ("port_number", c_u8);
  ("command_type", c_u8);
  ("address", c_be16);
  ("rsv1", c_u16);
  ("write_data", c_be32);
  ("pad", c_u16)].
Definition ixgbe_hic_internal_phy_resp : ctype := Struct true [
  ("hdr", ixgbe_hic_hdr);
  ("read_data", c_be32)].
Definition ixgbe_hic_phy_activity_req : ctype := Struct true [
  ("hdr", ixgbe_hic_hdr);
  ("port_number", c_u8);
  ("pad", c_u8);
  ("activity_id", c_le16);
  ("data", Array c_be32 FW_PHY_ACT_DATA_COUNT)].
Definition ixgbe_hic_phy_activity_resp : ctype := Struct true [
  ("hdr", ixgbe_hic_hdr);
  ("data", Array c_be32 FW_PHY_ACT_DATA_COUNT)].
Definition ixgbe_legacy_tx_desc : ctype := Struct false [
  ("buffer_addr", c_u64);
  ("lower", Union false [
    ("data", c_le32);
    ("flags", Struct false [
      ("length", c_le16);
      ("cso", c_u8);
      ("cmd", c_u8)])]);
  ("upper", Union false [
    ("data", c_le32);
    ("fields", Struct false [
      ("status", c_u8);
      ("css", c_u8);
      ("vlan", c_le16)])])].
Definition ixgbe_adv_tx_desc : ctype := Union false [
  ("read", Struct false [
    ("buffer_addr", c_le64);
    ("cmd_type_len", c_le32);
    ("olinfo_status", c_le32)]);
  ("wb", Struct false [
    ("rsvd", c_le64);
    ("nxtseq_seed", c_le32);
    ("status", c_le32)])].
Definition ixgbe_legacy_rx_desc : ctype := Struct false [
  ("buffer_addr", c_le64);
  ("length", c_le16);
  ("csum", c_le16);
  ("status", c_u8);
  ("errors", c_u8);
  ("vlan", c_le16)].
Definition ixgbe_adv_rx_desc : ctype := Union false [
  ("read", Struct false [
    ("pkt_addr", c_le64);
    ("hdr_addr", c_le64)]);
  ("wb", Struct false [
    ("lower", Struct false [
      ("lo_dword", Union false [
        ("data", c_le32);
        ("hs_rss", Struct false [
          ("pkt_info", c_le16);
          ("hdr_info", c_le16)])]);
      ("hi_dword", Union false [
        ("rss", c_le32);
        ("csum_ip", Struct false [
          ("ip_id", c_le16);
          ("csum", c_le16)])])]);
    ("upper", Struct false [
      ("status_error", c_le32);
      ("length", c_le16);
      ("vlan", c_le16)])])].
Definition ixgbe_adv_tx_context_desc : ctype := Struct false [
  ("vlan_macip_lens", c_le32);
  ("seqnum_seed", c_le32);
  ("type_tucmd_mlhl", c_le32);
  ("mss_l4len_idx", c_le32)].
Definition ixgbe_atr_input : ctype := Union false [
  ("formatted", Struct false [
    ("vm_pool", c_u8);
    ("flow_type", c_u8);
    ("vlan_id", c_be16);
    ("dst_ip", Array c_be32 4);
    ("src_ip", Array c_be32 4);
    ("inner_mac", Array c_u8 6);
    ("tunnel_type", c_be16);
    ("tni_vni", c_be32);
    ("src_port", c_be16);
    ("dst_port", c_be16);
    ("flex_bytes", c_be16);
    ("bkt_hash", c_be16)]);
  ("dword_stream", Array c_be32 14)].
Definition ixgbe_atr_hash_dword : ctype := Union false [
  ("formatted", Struct false [
    ("vm_pool", c_u8);
    ("flow_type", c_u8);
    ("vlan_id", c_be16)]);
  ("ip", c_be32);
  ("port", Struct false [
    ("src", c_be16);
    ("dst", c_be16)]);
  ("flex_bytes", c_be16);
  ("dword", c_be32)].
Definition ixgbe_addr_filter_info : ctype := Struct false [
  ("num_mc_addrs", c_u32);
  ("rar_used_count", c_u32);
  ("mta_in_use", c_u32);
  ("overflow_promisc", c_u32);
  ("user_set_promisc", c_bool)].
Definition ixgbe_bus_info : ctype := Struct false [
  ("speed", c_enum);
  ("width", c_enum);
  ("type", c_enum);
  ("func", c_u16);
  ("lan_id", c_u8);
  ("instance_id", c_u16)].
Definition ixgbe_fc_info : ctype := Struct false [
  ("high_water", Array c_u32 IXGBE_DCB_MAX_TRAFFIC_CLASS);
  ("low_water", Array c_u32 IXGBE_DCB_MAX_TRAFFIC_CLASS);
  ("pause_time", c_u16);
  ("send_xon", c_bool);
  ("strict_ieee", c_bool);
  ("disable_fc_autoneg", c_bool);
  ("fc_was_autonegged", c_bool);
  ("current_mode", c_enum);
  ("requested_mode", c_enum)].
Definition ixgbe_hw_stats : ctype := Struct false [
  ("crcerrs", c_u64);
  ("illerrc", c_u64);
  ("errbc", c_u64);
  ("mspdc", c_u64);
  ("mpctotal", c_u64);
  ("mpc", Array c_u64 8);
  ("mlfc", c_u64);
  ("mrfc", c_u64);
  ("rlec", c_u64);
  ("lxontxc", c_u64);
  ("lxonrxc", c_u64);
  ("lxofftxc", c_u64);
  ("lxoffrxc", c_u64);
  ("pxontxc", Array c_u64 8);
  ("pxonrxc", Array c_u64 8);
  ("pxofftxc", Array c_u64 8);
  ("pxoffrxc", Array c_u64 8);
  ("prc64", c_u64);
  ("prc127", c_u64);
  ("prc255", c_u64);
  ("prc511", c_u64);
  ("prc1023", c_u64);
  ("prc1522", c_u64);
  ("gprc", c_u64);
  ("bprc", c_u64);
  ("mprc", c_u64);
  ("gptc", c_u64);
  ("gorc", c_u64);
  ("gotc", c_u64);
  ("rnbc", Array c_u64 8);
  ("ruc", c_u64);
  ("rfc", c_u64);
  ("roc", c_u64);
  ("rjc", c_u64);
  ("mngprc", c_u64);
  ("mngpdc", c_u64);
  ("mngptc", c_u64);
  ("tor", c_u64);
  ("tpr", c_u64);
  ("tpt", c_u64);
  ("ptc64", c_u64);
  ("ptc127", c_u64);
  ("ptc255", c_u64);
  ("ptc511", c_u64);
  ("ptc1023", c_u64);
  ("ptc1522", c_u64);
  ("mptc", c_u64);
  ("bptc", c_u64);
  ("xec", c_u64);
  ("qprc", Array c_u64 16);
  ("qptc", Array c_u64 16);
  ("qbrc", Array c_u64 16);
  ("qbtc", Array c_u64 16);
  ("qprdc", Array c_u64 16);
  ("pxon2offc", Array c_u64 8);
  ("fdirustat_add", c_u64);
  ("fdirustat_remove", c_u64);
  ("fdirfstat_fadd", c_u64);
  ("fdirfstat_fremove", c_u64);
  ("fdirmatch", c_u64);
  ("fdirmiss", c_u64);
  ("fccrc", c_u64);
  ("fclast", c_u64);
  ("fcoerpdc", c_u64);
  ("fcoeprc", c_u64);
  ("fcoeptc", c_u64);
  ("fcoedwrc", c_u64);
  ("fcoedwtc", c_u64);
  ("fcoe_noddp", c_u64);
  ("fcoe_noddp_ext_buff", c_u64);
  ("ldpcec", c_u64);
  ("pcrc8ec", c_u64);
  ("b2ospc", c_u64);
  ("b2ogprc", c_u64);
  ("o2bgptc", c_u64);
  ("o2bspc", c_u64)].

(** ** All of them *)
Definition all_types : list (string * ctype) := [
  ("ixgbe_thermal_diode_data", ixgbe_thermal_diode_data);
  ("ixgbe_thermal_sensor_data", ixgbe_thermal_sensor_data);
  ("ixgbe_dmac_config", ixgbe_dmac_config); ("ixgbe_hic_hdr", ixgbe_hic_hdr);
  ("ixgbe_hic_hdr2_req", ixgbe_hic_hdr2_req); ("ixgbe_hic_hdr2_rsp", ixgbe_hic_hdr2_rsp);
  ("ixgbe_hic_hdr2", ixgbe_hic_hdr2); ("ixgbe_hic_drv_info", ixgbe_hic_drv_info);
  ("ixgbe_hic_drv_info2", ixgbe_hic_drv_info2);
  ("ixgbe_hic_read_shadow_ram", ixgbe_hic_read_shadow_ram);
  ("ixgbe_hic_write_shadow_ram", ixgbe_hic_write_shadow_ram);
  ("ixgbe_hic_disable_rxen", ixgbe_hic_disable_rxen);
  ("ixgbe_hic_phy_token_req", ixgbe_hic_phy_token_req);
  ("ixgbe_hic_internal_phy_req", ixgbe_hic_internal_phy_req);
  ("ixgbe_hic_internal_phy_resp", ixgbe_hic_internal_phy_resp);
  ("ixgbe_hic_phy_activity_req", ixgbe_hic_phy_activity_req);
  ("ixgbe_hic_phy_activity_resp", ixgbe_hic_phy_activity_resp);
  ("ixgbe_legacy_tx_desc", ixgbe_legacy_tx_desc); ("ixgbe_adv_tx_desc", ixgbe_adv_tx_desc);
  ("ixgbe_legacy_rx_desc", ixgbe_legacy_rx_desc); ("ixgbe_adv_rx_desc", ixgbe_adv_rx_desc);
  ("ixgbe_adv_tx_context_desc", ixgbe_adv_tx_context_desc); ("ixgbe_atr_input", ixgbe_atr_input);
  ("ixgbe_atr_hash_dword", ixgbe_atr_hash_dword);
  ("ixgbe_addr_filter_info", ixgbe_addr_filter_info); ("ixgbe_bus_info", ixgbe_bus_info);
  ("ixgbe_fc_info", ixgbe_fc_info); ("ixgbe_hw_stats", ixgbe_hw_stats)].
Definition all_enums : list (list (string * option Z)) := [
  ixgbe_anonymous_enum; ixgbe_fdir_pballoc_type; ixgbe_atr_flow_type; ixgbe_mvals;
  ixgbe_fcoe_boot_status; ixgbe_eeprom_type; ixgbe_mac_type; ixgbe_phy_type; ixgbe_sfp_type;
  ixgbe_media_type; ixgbe_fc_mode; ixgbe_smart_speed; ixgbe_bus_type; ixgbe_bus_speed;
  ixgbe_bus_width].
