(* ===== verification/Platform.v ===== *)
(** * The world the driver runs in

    Everything that is not ixy's own code: the device behind the memory-mapped
    registers, its DMA engine, the kernel and the C library.  [Platform] is the
    interface the driver's definitions are parameterised by; [NicOwnership]
    states the documented behaviour of the DMA engine (82599 datasheet 7.1 and
    7.2): the device writes only to memory that was handed to it. *)
From S2P Require Import Prelude Mem.

(** System calls, with the arguments ixy passes. *)
Inductive syscall :=
  | Sys_getpid
  | Sys_getuid
  | Sys_gettid
  | Sys_sysconf_pagesize
  | Sys_usleep (usec : Z)
  | Sys_open (path : string) (flags mode : Z)
  | Sys_close (fd : Z)
  | Sys_unlink (path : string)
  | Sys_lseek (fd off whence : Z)
  | Sys_ftruncate (fd size : Z)
  | Sys_mmap (size prot flags fd off : Z)
  | Sys_munmap (addr size : Z)
  | Sys_mlock (addr size : Z)
  | Sys_write (fd : Z) (buf : string)
  | Sys_write16 (fd v : Z)
  | Sys_fstat_size (fd : Z)
  | Sys_clock_gettime. (* CLOCK_MONOTONIC: tv_sec * 10^9 + tv_nsec *)

Class Platform (H : Type) := {
  (* registers of the devices on the bus, by CPU address *)
  mmio_read : Z -> H -> Z * H;
  mmio_write : Z -> Z -> H -> H;
  (* device activity on host memory since the last look: a burst of byte writes *)
  dma : H -> mem -> H * list (Z * Z);
  (* the kernel: result as int64, -1 on failure with errno set *)
  sys : syscall -> H -> Z * H;
  (* read(fd, &x, n) into a scalar: the call's result and the value read *)
  sys_read : Z -> Z -> H -> Z * Z * H;
  errno : H -> Z;
  (* the C library's heap: an address, NULL (0) on failure *)
  malloc : Z -> H -> Z * H;
  heap_free : Z -> H -> H
}.

Record world (H : Type) := World {
  w_mem : mem;
  w_hw : H;
  (* static uint32_t huge_pg_id: of memory.c, or of dma_allocator.c in the
     programs that link the allocators instead *)
  huge_pg_id : Z
}.
Arguments World {H}.
Arguments w_mem {H}.
Arguments w_hw {H}.
Arguments huge_pg_id {H}.

Section ops.
Context {H : Type} `{Platform H}.
Local Abbreviation W := (world H).

Definition set_mem (m : mem) (w : W) : W := World m (w_hw w) (huge_pg_id w).
Definition set_hw (h : H) (w : W) : W := World (w_mem w) h (huge_pg_id w).

Definition load (n : nat) (a : Z) : M W Z := fun w =>
  if mapped (w_mem w) a (Z.of_nat n) then Ok (ld n (w_mem w) a) w
  else Err (Fault "load") w.
Definition store (n : nat) (a v : Z) : M W unit := fun w =>
  if mapped (w_mem w) a (Z.of_nat n) then Ok tt (set_mem (st n a v (w_mem w)) w)
  else Err (Fault "store") w.

(** The device may act before any access it can observe or be observed by. *)
Definition dma_tick : M W unit := fun w =>
  let '(h, ws) := dma (w_hw w) (w_mem w) in
  Ok tt (World (wr_all ws (w_mem w)) h (huge_pg_id w)).
(** accesses through a [volatile] pointer to DMA memory *)
Definition vload (n : nat) (a : Z) : M W Z := dma_tick ;; load n a.
Definition vstore (n : nat) (a v : Z) : M W unit := dma_tick ;; store n a v.

Definition mmio_get (a : Z) : M W Z := fun w =>
  let '(v, h) := mmio_read a (w_hw w) in Ok (u32 v) (set_hw h w).
Definition mmio_set (a v : Z) : M W unit := fun w =>
  Ok tt (set_hw (mmio_write a (u32 v) (w_hw w)) w).

Definition syscall_ (c : syscall) : M W Z := fun w =>
  let '(r, h) := sys c (w_hw w) in Ok r (set_hw h w).

(** check_err(expr, op) of log.h: exit(errno) when the int64 result is -1 *)
Definition check_err (c : M W Z) : M W Z :=
  r ← c;
  if r =? -1 then (e ← gets (fun w : W => errno (w_hw w)); fail (Exit e)) else mret r.

(** A heap block: its region becomes accessible, its contents are whatever
    the allocator leaves there. *)
Definition malloc_ (size : Z) : M W Z := fun w =>
  let '(p, h) := malloc size (w_hw w) in
  let m := if p =? 0 then w_mem w else add_region p size (w_mem w) in
  Ok p (World m h (huge_pg_id w)).
Definition calloc_ (n size : Z) : M W Z := fun w =>
  let '(p, h) := malloc (n * size) (w_hw w) in
  let m := if p =? 0 then w_mem w
           else zero_fill p (n * size) (add_region p (n * size) (w_mem w)) in
  Ok p (World m h (huge_pg_id w)).

(** free(p) of a block that is live (NULL is allowed), and the unmapping of a
    whole mapping: its region is no longer accessible. *)
Definition drop_region (a : Z) (m : mem) : mem :=
  Mem (bytes m) (filter (fun r => r.1 <> a) (regions m)).
Definition free_ (p : Z) : M W unit := fun w =>
  if p =? 0 then Ok tt w
  else if existsb (fun r => r.1 =? p) (regions (w_mem w))
  then Ok tt (World (drop_region p (w_mem w)) (heap_free p (w_hw w)) (huge_pg_id w))
  else Err (Fault "free") w.

(** memset(a, v, n) *)
Definition memset (a v : Z) (n : nat) : M W unit := fun w =>
  if mapped (w_mem w) a (Z.of_nat n) then Ok tt (set_mem (fill n a v (w_mem w)) w)
  else Err (Fault "memset") w.

(** *** Rules *)
Lemma wp_load n a Q E w :
  mapped (w_mem w) a (Z.of_nat n) = true -> Q (ld n (w_mem w) a) w -> wp (load n a) Q E w.
Proof. unfold wp, load. by intros ->. Qed.
Lemma wp_store n a v Q E w :
  mapped (w_mem w) a (Z.of_nat n) = true -> Q tt (set_mem (st n a v (w_mem w)) w) ->
  wp (store n a v) Q E w.
Proof. unfold wp, store. by intros ->. Qed.
Lemma wp_mmio_read a (Q : Z -> W -> Prop) E w :
  (forall v h, mmio_read a (w_hw w) = (v, h) -> Q (u32 v) (set_hw h w)) -> wp (mmio_get a) Q E w.
Proof. intros HQ. unfold wp, mmio_get. destruct (mmio_read a (w_hw w)) as [v h] eqn:E1. by apply HQ. Qed.
Lemma wp_mmio_set a v Q E w :
  Q tt (set_hw (mmio_write a (u32 v) (w_hw w)) w) -> wp (mmio_set a v) Q E w.
Proof. done. Qed.
End ops.

(** ** The process's address space

    Documented behaviour of the kernel and the C library on x86-64 Linux that
    the allocation code relies on: 4 KB pages, physical page numbers of at most
    40 bits, and user addresses that are positive and in the lower 47-bit half. *)
Class HostLaws (H : Type) `{Platform H} := {
  page_size_4k : forall h, (sys Sys_sysconf_pagesize h).1 = 4096;
  pagemap_frames : forall fd h, Z.land (u64 (sys_read fd 8 h).1.2) 0x7fffffffffffff < 2 ^ 40;
  mmap_area : forall size prot flags fd off h,
    let p := (sys (Sys_mmap size prot flags fd off) h).1 in
    p = -1 \/ (0 < p /\ p + size < 2 ^ 47);
  heap_area : forall n h, let p := (malloc n h).1 in p = 0 \/ (0 < p /\ p + n < 2 ^ 47)
}.

Section host_rules.
Context {H : Type} `{Platform H}.
Implicit Types w : world H.

Lemma wp_syscall c (Q : Z -> world H -> Prop) E w :
  (forall r h, sys c (w_hw w) = (r, h) -> Q r (set_hw h w)) -> wp (syscall_ c) Q E w.
Proof. intros HQ. unfold wp, syscall_. destruct (sys c (w_hw w)) as [r h] eqn:Hs. by apply HQ. Qed.

Lemma wp_check_err (c : M (world H) Z) (Q : Z -> world H -> Prop) E w :
  wp c (fun r w' => (r = -1 -> E (Exit (errno (w_hw w'))) w') /\ (r <> -1 -> Q r w')) E w ->
  wp (check_err c) Q E w.
Proof.
  intros Hc. apply wp_bind. eapply wp_conseq; [exact Hc|]. cbn beta. intros r w' [He HQ].
  destruct (Z.eqb_spec r (-1)); [apply wp_bind, wp_gets, wp_fail; auto|apply wp_ret; auto].
Qed.

(** a system call whose result is checked *)
Lemma wp_check_syscall c (Q : Z -> world H -> Prop) (E : failure -> world H -> Prop) w :
  (forall h, sys c (w_hw w) = (-1, h) -> E (Exit (errno h)) (set_hw h w)) ->
  (forall r h, sys c (w_hw w) = (r, h) -> r <> -1 -> Q r (set_hw h w)) ->
  wp (check_err (syscall_ c)) Q E w.
Proof.
  intros HE HQ. apply wp_check_err, wp_syscall. intros r h Hs. split; [|by apply HQ].
  intros ->. by apply HE.
Qed.

(** Device activity changes neither the memory map nor the program's globals. *)
Lemma wp_tick (Q : unit -> world H -> Prop) E w :
  (forall w', regions (w_mem w') = regions (w_mem w) -> huge_pg_id w' = huge_pg_id w ->
    w_hw w' = (dma (w_hw w) (w_mem w)).1 -> Q tt w') ->
  wp dma_tick Q E w.
Proof.
  intros HQ. unfold wp, dma_tick. destruct (dma (w_hw w) (w_mem w)) as [h ws].
  apply HQ; [apply regions_wr_all|done|done].
Qed.
End host_rules.

(** ** What the device may touch

    [nic_owns h a]: in hardware state [h] byte [a] of host memory is the
    device's to write.  Ownership passes to the device only by a register
    write (advancing a ring's tail): [grants] names what a write hands over. *)
Class NicOwnership (H : Type) `{Platform H} := {
  nic_owns : H -> Z -> Prop;
  grants : H -> Z -> Z -> Z -> Prop;
  dma_writes_owned : forall h m a v, (a, v) ∈ (dma h m).2 -> nic_owns h a;
  dma_own : forall h m a, nic_owns (dma h m).1 a -> nic_owns h a;
  mmio_read_own : forall h r a, nic_owns (mmio_read r h).2 a -> nic_owns h a;
  mmio_write_own : forall h r v a,
    nic_owns (mmio_write r v h) a -> nic_owns h a \/ grants h r v a
}.

Section ownership.
Context {H : Type} `{NicOwnership H}.
Local Abbreviation W := (world H).

(** What the hardware does on its own or when a register is read. *)
Definition hw_step (h h' : H) : Prop :=
  (exists m, h' = (dma h m).1) \/ (exists r, h' = (mmio_read r h).2).

Lemma hw_steps_own h h' a : rtc hw_step h h' -> nic_owns h' a -> nic_owns h a.
Proof.
  induction 1 as [|h1 h2 h3 [[m ->]|[r ->]] _ IH]; [done| |]; intros Ha.
  - by apply (dma_own _ m), IH.
  - by apply (mmio_read_own _ r), IH.
Qed.

(** One step of the world while driver code runs: the device acts, a
    register is read, or the driver stores inside [F]. *)
Inductive wstep (F : Z -> Prop) : W -> W -> Prop :=
  | ws_tick w w' : dma_tick w = Ok tt w' -> wstep F w w'
  | ws_read w r v w' : mmio_get r w = Ok v w' -> wstep F w w'
  | ws_store w n a v :
      (forall b, range a (Z.of_nat n) b -> F b) -> wstep F w (set_mem (st n a v (w_mem w)) w).

Definition evolve (F : Z -> Prop) : W -> W -> Prop := rtc (wstep F).

#[export] Instance evolve_preorder F : PreOrder (evolve F).
Proof. unfold evolve. split; apply _. Qed.

Lemma evolve_mono (F G : Z -> Prop) w w' :
  (forall a, F a -> G a) -> evolve F w w' -> evolve G w w'.
Proof.
  intros HFG. induction 1 as [|w1 w2 w3 Hs _ IH]; [done|]. eapply rtc_l, IH.
  destruct Hs; eauto using wstep.
Qed.

Lemma evolve_store (F : Z -> Prop) n a v w :
  (forall b, range a (Z.of_nat n) b -> F b) -> evolve F w (set_mem (st n a v (w_mem w)) w).
Proof. intros HF. by apply rtc_once, ws_store. Qed.

Lemma evolve_stores (F : Z -> Prop) n a v m w :
  (forall b, range a (Z.of_nat n) b -> F b) -> evolve F w (set_mem m w) ->
  evolve F w (set_mem (st n a v m) w).
Proof.
  intros HF Hev. etransitivity; [exact Hev|].
  exact (evolve_store F n a v (set_mem m w) HF).
Qed.
Lemma evolve_same (F : Z -> Prop) w : evolve F w (set_mem (w_mem w) w).
Proof. by destruct w. Qed.

(** What such steps leave alone. *)
Record changes (F : Z -> Prop) (w w' : W) : Prop := {
  ch_mem : agree_off (fun a => F a \/ nic_owns (w_hw w) a) (w_mem w) (w_mem w');
  ch_hw : rtc hw_step (w_hw w) (w_hw w');
  ch_pg : huge_pg_id w' = huge_pg_id w
}.

Lemma tick_changes F w w' : dma_tick w = Ok tt w' -> changes F w w'.
Proof.
  unfold dma_tick. destruct (dma (w_hw w) (w_mem w)) as [h ws] eqn:E.
  intros [= <-]. split; cbn; [| |done].
  - split; [by rewrite regions_wr_all|]. intros a Ha. symmetry. apply rd_wr_all_out.
    intros ([a' v] & -> & Hin)%list_elem_of_fmap. apply Ha. right.
    eapply dma_writes_owned. by rewrite E.
  - apply rtc_once. left. exists (w_mem w). by rewrite E.
Qed.

Lemma evolve_changes F w w' : evolve F w w' -> changes F w w'.
Proof.
  induction 1 as [w|w1 w2 w3 Hs _ [M2 O2 P2]]; [split; auto with ixy; apply rtc_refl|].
  assert (changes F w1 w2) as [M1 O1 P1].
  { destruct Hs as [w w' Ht|w r v w' Hr|w n a v HF]; [by apply tick_changes| |].
    - unfold mmio_get in Hr. destruct (mmio_read r (w_hw w)) as [v' h] eqn:E. injection Hr as <- <-.
      split; cbn; auto with ixy. apply rtc_once. right. exists r. by rewrite E.
    - split; cbn; [|apply rtc_refl|done]. apply agree_off_st. intros b Hb. left. by apply HF. }
  split; [|by etransitivity|congruence].
  eapply agree_off_trans; [exact M1|]. eapply agree_off_mono, M2. cbn.
  intros a [?|?]; eauto using hw_steps_own.
Qed.

Lemma evolve_own F w w' a : evolve F w w' -> nic_owns (w_hw w') a -> nic_owns (w_hw w) a.
Proof. intros [_ ? _]%evolve_changes. by apply hw_steps_own. Qed.

(** A field outside the footprint keeps its value. *)
Lemma evolve_ld F w w' n a :
  evolve F w w' -> (forall b, range a (Z.of_nat n) b -> ~ F b /\ ~ nic_owns (w_hw w) b) ->
  ld n (w_mem w') a = ld n (w_mem w) a.
Proof.
  intros [M1 _ _]%evolve_changes HF. symmetry. eapply agree_off_ld; [exact M1|]. intros b Hb.
  destruct (HF b Hb). tauto.
Qed.

Lemma evolve_mapped F w w' a n : evolve F w w' -> mapped (w_mem w') a n = mapped (w_mem w) a n.
Proof. intros [M1 _ _]%evolve_changes. symmetry. by eapply agree_off_mapped. Qed.

Lemma dma_tick_ok w : exists w', dma_tick w = Ok tt w'.
Proof. unfold dma_tick. destruct (dma _ _). by eexists. Qed.

Lemma evolve_tick F w w' : dma_tick w = Ok tt w' -> evolve F w w'.
Proof. intros Ht. by apply rtc_once, ws_tick. Qed.

Lemma wp_vload_tick n a Q E w :
  mapped (w_mem w) a (Z.of_nat n) = true ->
  (forall w', dma_tick w = Ok tt w' -> Q (ld n (w_mem w') a) w') ->
  wp (vload n a) Q E w.
Proof.
  intros Hm HQ. apply wp_bind. destruct (dma_tick_ok w) as (w' & Hw).
  eapply ok_wp; [exact Hw|]. apply wp_load; [|by apply HQ].
  by rewrite (evolve_mapped _ _ _ _ _ (evolve_tick (fun _ => False) _ _ Hw)).
Qed.
Lemma wp_vload F n a Q E w :
  mapped (w_mem w) a (Z.of_nat n) = true ->
  (forall w', evolve F w w' -> Q (ld n (w_mem w') a) w') ->
  wp (vload n a) Q E w.
Proof.
  intros Hm HQ. apply wp_vload_tick; [done|]. intros w' Ht. apply HQ. by apply evolve_tick.
Qed.

Lemma wp_vstore F n a v Q E w :
  mapped (w_mem w) a (Z.of_nat n) = true ->
  (forall w', evolve F w w' -> Q tt (set_mem (st n a v (w_mem w')) w')) ->
  wp (vstore n a v) Q E w.
Proof.
  intros Hm HQ. apply wp_bind. destruct (dma_tick_ok w) as (w' & Hw).
  assert (evolve F w w') as Hev by (by apply rtc_once, ws_tick).
  eapply ok_wp; [exact Hw|]. apply wp_store; [|by apply HQ]. by rewrite (evolve_mapped _ _ _ _ _ Hev).
Qed.

(** *** A sixteen byte slot that is the driver's *)
Record own_slot (w : W) (d : Z) : Prop := {
  os_map : mapped (w_mem w) d 16 = true;
  os_own : forall a, range d 16 a -> ~ nic_owns (w_hw w) a
}.

Lemma own_slot_evolve F w w' d : own_slot w d -> evolve F w w' -> own_slot w' d.
Proof.
  intros [Hm Ho] Hev. split; [by rewrite (evolve_mapped _ _ _ _ _ Hev)|].
  intros a Ha Hn. eapply Ho; [exact Ha|]. by eapply evolve_own.
Qed.

(** its fields keep their values while the driver writes elsewhere *)
Lemma own_slot_ld F w w' d n o :
  own_slot w d -> evolve F w w' -> 0 <= o -> o + Z.of_nat n <= 16 ->
  (forall a, F a -> ~ range (d + o) (Z.of_nat n) a) ->
  ld n (w_mem w') (d + o) = ld n (w_mem w) (d + o).
Proof.
  intros Hs Hev ?? HF. eapply evolve_ld; [exact Hev|]. intros b Hb. split; [by intros ?%HF|].
  apply (os_own _ _ Hs). unfold range in *. lia.
Qed.

(** and hold what the driver writes *)
Lemma wp_slot_store n d o v Q E w :
  own_slot w d -> 0 <= o -> o + Z.of_nat n <= 16 ->
  (forall w', own_slot w' d -> evolve (range (d + o) (Z.of_nat n)) w w' ->
    ld n (w_mem w') (d + o) = v mod 2 ^ (8 * Z.of_nat n) -> Q tt w') ->
  wp (vstore n (d + o) v) Q E w.
Proof.
  intros Hs ?? HQ. apply (wp_vstore (range (d + o) (Z.of_nat n))).
  { eapply mapped_sub; [apply (os_map _ _ Hs)|lia|lia]. }
  intros w' Hev. assert (evolve (range (d + o) (Z.of_nat n)) w
    (set_mem (st n (d + o) v (w_mem w')) w')) as Hev'.
  { etransitivity; [exact Hev|]. by apply evolve_store. }
  apply HQ; [by eapply own_slot_evolve|exact Hev'|apply ld_st_eq].
Qed.

Lemma wp_mmio_get F a Q E w :
  (forall v w', 0 <= v < 2 ^ 32 -> evolve F w w' -> w_mem w' = w_mem w -> Q v w') ->
  wp (mmio_get a) Q E w.
Proof.
  intros HQ. unfold wp. destruct (mmio_get a w) as [v w'|e w'|] eqn:E'; unfold mmio_get in E';
    destruct (mmio_read a (w_hw w)) as [v0 h] eqn:E''; try done.
  apply HQ.
  - injection E' as <- <-. auto with ixy.
  - apply rtc_once, (ws_read _ _ a v). unfold mmio_get. by rewrite E''.
  - by injection E' as <- <-.
Qed.
End ownership.

(** ** Descriptor write-back

    [desc_at h d o]: the device was given the 16-byte descriptor at [d], whose
    done bit is bit 0 of the word at [d + o].  When it sets that bit it has
    finished with the descriptor (datasheet 7.1.5 and 7.2.3.2.4). *)
Definition dd_set (m : mem) (d o : Z) : bool := Z.testbit (ld 4 m (d + o)) 0.

Class NicWriteback (H : Type) `{NicOwnership H} := {
  desc_at : H -> Z -> Z -> Prop;
  desc_at_step : forall h h' d o, hw_step h h' -> desc_at h d o -> desc_at h' d o;
  desc_at_write : forall h r v d o, desc_at h d o -> desc_at (mmio_write r v h) d o;
  dma_writeback : forall h m d o a,
    desc_at h d o -> dd_set m d o = false -> dd_set (wr_all (dma h m).2 m) d o = true ->
    range d 16 a -> ~ nic_owns (dma h m).1 a
}.

Section writeback.
Context {H : Type} `{NicWriteback H}.

(** a descriptor that is either still the device's or marked done *)
Definition dd_owned (w : world H) (d o : Z) : Prop :=
  desc_at (w_hw w) d o /\
  (dd_set (w_mem w) d o = true -> forall a, range d 16 a -> ~ nic_owns (w_hw w) a).

Lemma hw_steps_desc h h' d o : rtc hw_step h h' -> desc_at h d o -> desc_at h' d o.
Proof. induction 1; eauto using desc_at_step. Qed.

Lemma dd_set_ext m m' d o : (forall a, range (d + o) 4 a -> rd m a = rd m' a) ->
  dd_set m d o = dd_set m' d o.
Proof. intros Hrd. unfold dd_set. f_equal. apply ld_ext. intros b Hb. by apply Hrd. Qed.

(** The world's steps keep [dd_owned], as long as the driver does not store
    into the descriptor. *)
Lemma dd_owned_evolve F w w' d o :
  0 <= o -> o + 4 <= 16 -> (forall a, range d 16 a -> ~ F a) ->
  evolve F w w' -> dd_owned w d o -> dd_owned w' d o.
Proof.
  intros Ho1 Ho2 HF. induction 1 as [|w1 w2 w3 Hs _ IH]; [done|]. intros Hd. apply IH. clear IH.
  destruct Hd as [Hd Hown]. destruct Hs as [w w' Ht|w r v w' Hr|w n a v Hst].
  - unfold dma_tick in Ht. destruct (dma (w_hw w) (w_mem w)) as [h ws] eqn:E.
    injection Ht as <-. split; cbn.
    + eapply desc_at_step, Hd. left. exists (w_mem w). by rewrite E.
    + intros Hdd a Ha Hna. destruct (dd_set (w_mem w) d o) eqn:Hold.
      * eapply Hown; [done|exact Ha|]. apply (dma_own _ (w_mem w)). by rewrite E.
      * eapply (dma_writeback (w_hw w) (w_mem w) d o a); try done; by rewrite E.
  - unfold mmio_get in Hr. destruct (mmio_read r (w_hw w)) as [v' h] eqn:E. injection Hr as <- <-.
    split; cbn.
    + eapply desc_at_step, Hd. right. exists r. by rewrite E.
    + intros Hdd a Ha Hna. eapply Hown; [done|exact Ha|]. apply (mmio_read_own _ r). by rewrite E.
  - split; cbn; [done|]. intros Hdd. apply Hown. rewrite <- Hdd. apply dd_set_ext.
    intros b Hb. symmetry. apply rd_st_out. intros Hin. apply (HF b); [unfold range in *; lia|].
    by apply Hst.
Qed.
End writeback.
#[global] Arguments dd_set : simpl never.
