(* ===== verification/Trace.v ===== *)
(** * What a program asked of the outside, and what it was told

    A list of events says what happened between two states of everything outside
    the process: the system calls in order with their results, reads into a
    scalar, and activity of the card.  The answers are the ones the kernel gives
    in the states it passes through, so [answers h l h'] leaves nothing in [l]
    open but when the card was active. *)
From S2P Require Import Prelude Mem Platform.

Inductive event :=
  | Call (c : syscall) (r : Z)
  | Read (fd n r v : Z)   (* read(fd, &x, n): the result and the value read *)
  | Act.                  (* the card was active *)

Section trace.
Context {H : Type} `{Platform H}.
Implicit Types (h : H) (w : world H) (l : list event).

Fixpoint answers h l h' : Prop :=
  match l with
  | [] => h' = h
  | Call c r :: l => exists h1, sys c h = (r, h1) /\ answers h1 l h'
  | Read fd n r v :: l => exists h1, sys_read fd n h = (r, v, h1) /\ answers h1 l h'
  | Act :: l => exists m, answers (dma h m).1 l h'
  end.

Lemma answers_app h l1 h1 l2 h2 : answers h l1 h1 -> answers h1 l2 h2 -> answers h (l1 ++ l2) h2.
Proof.
  revert h. induction l1 as [|[c r|fd n r v|] l1 IH]; intros h; cbn [answers app].
  - by intros ->.
  - intros (h' & Hs & Hl) H2. exists h'. split; [exact Hs|by apply IH].
  - intros (h' & Hs & Hl) H2. exists h'. split; [exact Hs|by apply IH].
  - intros (m & Hl) H2. exists m. by apply IH.
Qed.
Lemma answers_inv h l1 l2 h2 : answers h (l1 ++ l2) h2 -> exists h1, answers h l1 h1 /\ answers h1 l2 h2.
Proof.
  revert h. induction l1 as [|[c r|fd n r v|] l1 IH]; intros h; cbn [answers app].
  - intros Hl. by exists h.
  - intros (h' & Hs & (h1 & Ha & Hb)%IH). exists h1. split; [by exists h'|done].
  - intros (h' & Hs & (h1 & Ha & Hb)%IH). exists h1. split; [by exists h'|done].
  - intros (m & (h1 & Ha & Hb)%IH). exists h1. split; [by exists m|done].
Qed.
End trace.

(** a run is replayed from the equations of its calls *)
Ltac replay := cbn [answers app]; repeat first
  [ reflexivity
  | match goal with Hs : sys _ _ = (_, _) |- exists _, sys _ _ = _ /\ _ => eexists; split; [exact Hs|] end
  | match goal with Hs : sys_read _ _ _ = _ |- exists _, sys_read _ _ _ = _ /\ _ => eexists; split; [exact Hs|] end
  | match goal with |- exists m, _ => eexists end ].
