(* ===== verification/Hexdump.v ===== *)
(** * The output of log.h

    The lines the macros print, as functions of the place they are written at,
    the formatted message and whether NDEBUG is defined, and hexdump.  The
    programs' messages are output only; the model of a function leaves them out.

    hexdump: the printed text, one string per line without its newline.  The loop
    counter is a uint32_t compared with a size_t, so it comes around for
    lengths above 2^32 - 16; the fuel is one more than the number of lines of
    any shorter length. *)
From S2P Require Import Prelude Mem Platform.

Inductive stream := stdout | stderr.
(** __FILE__, __LINE__ and __func__ where a macro is used *)
Record site := Site { site_file : string; site_line : Z; site_func : string }.
Definition log_line (tag : string) (s : site) (msg : string) : string :=
  "[" +:+ tag +:+ "] " +:+ site_file s +:+ ":" +:+ pretty (site_line s) +:+ " " +:+ site_func s +:+ "(): " +:+ msg.
Definition debug (NDEBUG : bool) (s : site) (msg : string) : list (stream * string) :=
  if NDEBUG then [] else [(stderr, log_line "DEBUG" s msg)].
Definition info (s : site) (msg : string) : list (stream * string) := [(stdout, log_line "INFO " s msg)].
Definition warn (s : site) (msg : string) : list (stream * string) := [(stderr, log_line "WARN " s msg)].
(** what error prints before it aborts *)
Definition error_output (s : site) (msg : string) : list (stream * string) := [(stderr, log_line "ERROR" s msg)].
(** what check_err prints before it exits, [reason] being strerror_r's text *)
Definition check_err_output (s : site) (op reason : string) : list (stream * string) :=
  error_output s ("Failed to " +:+ op +:+ ": " +:+ reason).

Definition hex_digit (n : Z) : string :=
  match String.get (Z.to_nat n) "0123456789abcdef" with
  | Some c => String c EmptyString
  | None => EmptyString
  end.
(** the hexadecimal digits of [n], at least [width] of them: %0<width>x *)
Fixpoint hex (width fuel : nat) (n : Z) : string :=
  match fuel with
  | O => EmptyString
  | S fuel' =>
      if (n =? 0) && (Nat.eqb width 0) then EmptyString
      else hex (pred width) fuel' (n / 16) +:+ hex_digit (n mod 16)
  end.
Definition hex06 (n : Z) : string := hex 6 8 n.
Definition hex02 (n : Z) : string := hex 2 2 n.
Definition isprint (c : Z) : bool := (32 <=? c) && (c <=? 126).
Definition char_of (c : Z) : string := String (Ascii.ascii_of_N (Z.to_N c)) EmptyString.

Section code.
Context {H : Type} `{Platform H}.
Local Abbreviation W := (world H).

(** the bytes of one line from [j] on: their hex digits and characters; past
    the end two spaces stand for a byte; a space follows every second one *)
Fixpoint hexdump_bytes (n : nat) (ptr len i j : Z) : M W (string * string) :=
  match n with
  | O => mret (EmptyString, EmptyString)
  | S n' =>
      let sep : string := if j mod 2 =? 0 then EmptyString else " " in
      if u32 (i + j) <? len then
        b ← load 1 (ptr + u32 (i + j));
        '(hexes, ascii) ← hexdump_bytes n' ptr len i (j + 1);
        mret (hex02 b +:+ sep +:+ hexes, (if isprint b then char_of b else ".") +:+ ascii)
      else
        '(hexes, ascii) ← hexdump_bytes n' ptr len i (j + 1);
        mret ("  " +:+ sep +:+ hexes, ascii)
  end.

Fixpoint hexdump_from (fuel : nat) (ptr len i : Z) : M W (list string) :=
  match fuel with
  | O => hang
  | S fuel' =>
      if i <? len then
        '(hexes, ascii) ← hexdump_bytes 16 ptr len i 0;
        rest ← hexdump_from fuel' ptr len (u32 (i + 16));
        mret ((hex06 i +:+ ": " +:+ hexes +:+ "  " +:+ ascii) :: rest)
      else mret []
  end.
Definition hexdump (void_ptr len : Z) : M W (list string) :=
  hexdump_from (S (Z.to_nat ((len + 15) / 16))) void_ptr len 0.
End code.

(** it reads exactly the bytes it is given and ends *)
Lemma hexdump_bytes_spec {H} `{Platform H} n ptr len i j (w : world H) :
  0 <= i -> 0 <= j -> i + j + Z.of_nat n < 2 ^ 32 -> mapped (w_mem w) ptr len = true ->
  wp (hexdump_bytes n ptr len i j) (fun _ w' => w' = w) never w.
Proof.
  intros Hi. revert j. induction n as [|n IH]; intros j Hj Hb Hm; cbn [hexdump_bytes]; [by apply wp_ret|].
  rewrite u32_small by lia.
  destruct (Z.ltb_spec (i + j) len).
  - apply wp_bind, wp_load; [eapply mapped_sub; [exact Hm|lia|lia]|].
    apply wp_bind. eapply wp_conseq; [apply IH; [lia|lia|done]|]. cbn beta. intros [hx asc] w' ->. by apply wp_ret.
  - apply wp_bind. eapply wp_conseq; [apply IH; [lia|lia|done]|]. cbn beta. intros [hx asc] w' ->. by apply wp_ret.
Qed.
Lemma hexdump_from_spec {H} `{Platform H} fuel ptr len i (w : world H) :
  0 <= i -> len < 2 ^ 32 - 32 -> len <= i + 16 * (Z.of_nat fuel - 1) -> (0 < fuel)%nat -> i <= len + 15 ->
  mapped (w_mem w) ptr len = true ->
  wp (hexdump_from fuel ptr len i) (fun out w' => w' = w /\ Z.of_nat (length out) = Z.max 0 ((len - i + 15) / 16)) never w.
Proof.
  change (2 ^ 32) with 4294967296.
  revert i. induction fuel as [|fuel IH]; intros i Hi Hl Hf H0f Hil Hm; [lia|]. cbn [hexdump_from].
  destruct (Z.ltb_spec i len) as [Hlt|Hge].
  - apply wp_bind. eapply wp_conseq; [apply hexdump_bytes_spec; [lia|lia|change (2 ^ 32) with 4294967296; lia|done]|].
    cbn beta. intros [hx asc] w' ->. apply wp_bind.
    rewrite u32_small by (change (2 ^ 32) with 4294967296; lia).
    eapply wp_conseq; [apply (IH (i + 16)); try lia; done|]. cbn beta. intros out w' [-> Hn]. apply wp_ret. split; [done|].
    cbn [length]. rewrite Nat2Z.inj_succ, Hn. replace (len - i + 15) with (len - (i + 16) + 15 + 1 * 16) by lia.
    rewrite Z.div_add by lia. pose proof (Z.div_pos (len - (i + 16) + 15) 16). lia.
  - apply wp_ret. split; [done|]. cbn.
    assert ((len - i + 15) / 16 < 1) by (apply Z.div_lt_upper_bound; lia). lia.
Qed.

Example hexdump_line :
  match hexdump 100 18 (World (st 8 108 0x3130003332317a41 (st 8 100 0x6867666564636261 (add_region 100 18 (Mem ∅ [])))) tt 0) with
  | Ok out _ => out
  | _ => []
  end = ["000000: 6162 6364 6566 6768 417a 3132 3300 3031   abcdefghAz123.01";
         "000010: 0000                                      .."]%string.
Proof. by vm_compute. Qed.
