(* ===== verification/Memory.v ===== *)
(** * memory.c: DMA memory and the packet buffer pool

    A mempool is one malloc'ed [struct mempool] with its stack of free entry
    ids and one block of DMA memory holding the packet buffers, each headed by
    a [struct pkt_buf].  The definitions are the C functions over the process
    memory; [pool] is the abstract pool, [pool_ok] the representation
    predicate, and the refinement theorems relate the two. *)
From S2P Require Import Prelude Mem Platform.

(** ** Structures of memory.h *)
Definition pkt_buf : list field :=
  [f_u64 "buf_addr_phy"; f_ptr "mempool"; f_u32 "mempool_idx"; f_u32 "size"; f_flex "data" 64].
Definition mempool : list field :=
  [f_ptr "base_addr"; f_u64 "base_addr_phy"; f_u32 "buf_size"; f_u32 "num_entries";
   f_u32 "free_stack_top"; f_flex "free_stack" 4].
Record dma_memory := DmaMemory { virt : Z; phy : Z }.

Definition pb_buf_addr_phy : Z := Eval cbv in offsetof pkt_buf "buf_addr_phy".
Definition pb_mempool : Z := Eval cbv in offsetof pkt_buf "mempool".
Definition pb_mempool_idx : Z := Eval cbv in offsetof pkt_buf "mempool_idx".
Definition pb_size : Z := Eval cbv in offsetof pkt_buf "size".
Definition pb_data : Z := Eval cbv in offsetof pkt_buf "data".
Definition mp_base_addr : Z := Eval cbv in offsetof mempool "base_addr".
Definition mp_base_addr_phy : Z := Eval cbv in offsetof mempool "base_addr_phy".
Definition mp_buf_size : Z := Eval cbv in offsetof mempool "buf_size".
Definition mp_num_entries : Z := Eval cbv in offsetof mempool "num_entries".
Definition mp_free_stack_top : Z := Eval cbv in offsetof mempool "free_stack_top".
Definition mp_free_stack : Z := Eval cbv in offsetof mempool "free_stack".
Definition sizeof_mempool : Z := Eval cbv in sizeof mempool.

Ltac unlayout := unfold pb_buf_addr_phy, pb_mempool, pb_mempool_idx, pb_size, pb_data,
  mp_base_addr, mp_base_addr_phy, mp_buf_size, mp_num_entries, mp_free_stack_top, mp_free_stack,
  sizeof_mempool in *.

Definition NULL : Z := 0.
Definition O_RDONLY : Z := 0.
Definition O_WRONLY : Z := 1.
Definition O_RDWR : Z := 2.
Definition O_CREAT : Z := 64.
Definition S_IRWXU : Z := 448.
Definition SEEK_SET : Z := 0.
Definition PROT_RW : Z := 3.        (* PROT_READ | PROT_WRITE *)
Definition MAP_SHARED : Z := 1.
Definition MAP_HUGETLB : Z := 262144.

Section code.
Context {H : Type} `{Platform H}.
Local Abbreviation W := (world H).

Definition virt_to_phys (virt : Z) : M W Z :=
  pagesize ← syscall_ Sys_sysconf_pagesize;
  fd ← check_err (syscall_ (Sys_open "/proc/self/pagemap" O_RDONLY 0));
  _ ← check_err (syscall_ (Sys_lseek fd (u64 (virt / u64 pagesize * 8)) SEEK_SET));
  '(r, phy) ← (fun w : W => let '(rp, h) := sys_read fd 8 (w_hw w) in Ok rp (set_hw h w));
  _ ← check_err (mret r);
  _ ← syscall_ (Sys_close fd);
  if u64 phy =? 0 then error "failed to translate virtual address to physical address"
  else mret (u64 (Z.land (u64 phy) 0x7fffffffffffff * u64 pagesize + virt mod u64 pagesize)).

(** rounding of the request up to whole 2 MB pages, in size_t *)
Definition round_2mb (size : Z) : Z :=
  if size mod Z.shiftl 1 21 =? 0 then size
  else u64 (Z.shiftl (u64 (Z.shiftr size 21 + 1)) 21).

Definition huge_path (pid id : Z) : string :=
  "/mnt/huge/ixy-" +:+ (pretty pid +:+ ("-" +:+ pretty (i32 id))).

(** mmap of a new file: the pages become accessible and read as zeros *)
Definition mmap_huge (size fd : Z) : M W Z :=
  p ← check_err (syscall_ (Sys_mmap size PROT_RW (Z.lor MAP_SHARED MAP_HUGETLB) fd 0));
  modify (fun w => set_mem (zero_fill p size (add_region p size (w_mem w))) w) ;;
  mret p.

Definition memory_allocate_dma (size0 : Z) : M W dma_memory :=
  let size := round_2mb size0 in
  id ← gets huge_pg_id;
  modify (fun w : W => World (w_mem w) (w_hw w) (u32 (huge_pg_id w + 1))) ;;
  pid ← syscall_ Sys_getpid;
  let path := huge_path pid id in
  fd ← check_err (syscall_ (Sys_open path (Z.lor O_CREAT O_RDWR) S_IRWXU));
  _ ← check_err (syscall_ (Sys_ftruncate fd size));
  virt_addr ← mmap_huge size fd;
  _ ← check_err (syscall_ (Sys_mlock virt_addr size));
  _ ← syscall_ (Sys_close fd);
  _ ← syscall_ (Sys_unlink path);
  temp ← vload 1 virt_addr;
  vstore 1 virt_addr temp ;;
  phy ← virt_to_phys virt_addr;
  mret (DmaMemory virt_addr phy).

(** body of the initialisation loop of memory_allocate_mempool *)
Definition init_entry (mempool entry_size i : Z) : M W unit :=
  store 4 (mempool + mp_free_stack + 4 * i) i ;;
  base ← load 8 (mempool + mp_base_addr);
  let buf := base + u32 (i * entry_size) in
  base_phy ← load 8 (mempool + mp_base_addr_phy);
  store 8 (buf + pb_buf_addr_phy) (u64 (base_phy + u32 (i * entry_size))) ;;
  store 4 (buf + pb_mempool_idx) i ;;
  store 8 (buf + pb_mempool) mempool ;;
  store 4 (buf + pb_size) 0.

(** the part of memory_allocate_mempool after its two allocations *)
Definition init_mempool (mempool : Z) (mem : dma_memory) (num_entries entry_size : Z) : M W unit :=
  store 4 (mempool + mp_num_entries) num_entries ;;
  store 4 (mempool + mp_buf_size) entry_size ;;
  store 8 (mempool + mp_base_addr_phy) (phy mem) ;;
  store 8 (mempool + mp_base_addr) (virt mem) ;;
  store 4 (mempool + mp_free_stack_top) num_entries ;;
  for_loop (Z.to_nat num_entries) 0 (init_entry mempool entry_size).

Definition memory_allocate_mempool (num_entries entry_size0 : Z) : M W Z :=
  let entry_size := if entry_size0 =? 0 then 2048 else entry_size0 in
  mempool ← malloc_ (sizeof_mempool + num_entries * 4);
  mem ← memory_allocate_dma (u32 (num_entries * entry_size));
  init_mempool mempool mem num_entries entry_size ;;
  mret mempool.

Definition pkt_buf_alloc (mempool : Z) : M W Z :=
  top ← load 4 (mempool + mp_free_stack_top);
  if top =? 0 then mret NULL
  else
    let top' := u32 (top - 1) in
    store 4 (mempool + mp_free_stack_top) top' ;;
    entry_id ← load 4 (mempool + mp_free_stack + 4 * top');
    base ← load 8 (mempool + mp_base_addr);
    buf_size ← load 4 (mempool + mp_buf_size);
    mret (base + u32 (entry_id * buf_size)).

Definition pkt_buf_free (buf : Z) : M W unit :=
  mempool ← load 8 (buf + pb_mempool);
  top ← load 4 (mempool + mp_free_stack_top);
  store 4 (mempool + mp_free_stack_top) (u32 (top + 1)) ;;
  idx ← load 4 (buf + pb_mempool_idx);
  store 4 (mempool + mp_free_stack + 4 * top) idx.
End code.

(** ** The abstract pool

    What memory.c promises: a pool of [p_num] entries, some of them free, the
    free ones kept in a stack (last element on top). *)
Record pool := Pool {
  p_addr : Z;        (* the struct mempool *)
  p_base : Z;        (* virtual address of the buffers *)
  p_phy : Z;         (* their physical address *)
  p_bufsz : Z;
  p_num : Z;
  p_free : list Z
}.

Definition entry (P : pool) (i : Z) : Z := p_base P + i * p_bufsz P.
Definition entry_phy (P : pool) (i : Z) : Z := p_phy P + i * p_bufsz P.
Definition set_free (l : list Z) (P : pool) : pool :=
  Pool (p_addr P) (p_base P) (p_phy P) (p_bufsz P) (p_num P) l.

Definition pool_alloc (P : pool) : option (Z * pool) :=
  match last (p_free P) with
  | Some i => Some (i, set_free (removelast (p_free P)) P)
  | None => None
  end.
Definition pool_free (i : Z) (P : pool) : pool := set_free (p_free P ++ [i]) P.

(** Sizes that do not wrap, and free entries that exist and are distinct. *)
Record pool_shape (P : pool) : Prop := {
  ps_num : 0 <= p_num P;
  ps_bufsz : pb_data <= p_bufsz P < 2 ^ 32;
  ps_total : p_num P * p_bufsz P < 2 ^ 32;
  ps_base : 0 < p_base P /\ p_base P + p_num P * p_bufsz P < 2 ^ 64;
  ps_phy : 0 <= p_phy P /\ p_phy P + p_num P * p_bufsz P < 2 ^ 64;
  ps_addr : 0 < p_addr P < 2 ^ 64;
  ps_disj : disj (p_addr P) (sizeof_mempool + 4 * p_num P) (p_base P) (p_num P * p_bufsz P);
  ps_nodup : NoDup (p_free P);
  ps_bound : Forall (fun i => 0 <= i < p_num P) (p_free P)
}.

(** The header of entry [i] as initialised. *)
Record hdr_ok (m : mem) (P : pool) (i : Z) : Prop := {
  ho_phy : ld 8 m (entry P i + pb_buf_addr_phy) = entry_phy P i;
  ho_pool : ld 8 m (entry P i + pb_mempool) = p_addr P;
  ho_idx : ld 4 m (entry P i + pb_mempool_idx) = i
}.

(** The [struct mempool] in memory. *)
Record pool_struct (m : mem) (P : pool) : Prop := {
  po_base : ld 8 m (p_addr P + mp_base_addr) = p_base P;
  po_phy : ld 8 m (p_addr P + mp_base_addr_phy) = p_phy P;
  po_bufsz : ld 4 m (p_addr P + mp_buf_size) = p_bufsz P;
  po_num : ld 4 m (p_addr P + mp_num_entries) = p_num P;
  po_top : ld 4 m (p_addr P + mp_free_stack_top) = Z.of_nat (length (p_free P));
  po_stack : forall k i, p_free P !! k = Some i ->
    ld 4 m (p_addr P + mp_free_stack + 4 * Z.of_nat k) = i
}.

Record pool_ok (m : mem) (P : pool) : Prop := {
  pk_shape : pool_shape P;
  pk_map : mapped m (p_addr P) (sizeof_mempool + 4 * p_num P) = true;
  pk_map_bufs : mapped m (p_base P) (p_num P * p_bufsz P) = true;
  pk_struct : pool_struct m P;
  pk_hdr : forall i, 0 <= i < p_num P -> hdr_ok m P i
}.

(** The bytes [pool_ok] depends on: the pool structure and the first 20 bytes
    of each header; the size field and the packet data are the client's. *)
Definition pool_fp (P : pool) (a : Z) : Prop :=
  range (p_addr P) (sizeof_mempool + 4 * p_num P) a \/
  exists i, 0 <= i < p_num P /\ range (entry P i) pb_size a.

(** all of the pool's memory: its structure and its buffers *)
Definition pool_mem (P : pool) (a : Z) : Prop :=
  range (p_addr P) (sizeof_mempool + 4 * p_num P) a \/ range (p_base P) (p_num P * p_bufsz P) a.

Section pool.
Implicit Types (m : mem) (P : pool).

Lemma entry_bound P i :
  pool_shape P -> 0 <= i < p_num P ->
  p_base P <= entry P i /\ entry P i + p_bufsz P <= p_base P + p_num P * p_bufsz P.
Proof. intros [] ?. unlayout. unfold entry. nia. Qed.

Lemma entry_idx32 P i : pool_shape P -> 0 <= i < p_num P -> u32 (i * p_bufsz P) = i * p_bufsz P.
Proof. intros [] ?. apply u32_small. unlayout. nia. Qed.

Lemma num32 P : pool_shape P -> 0 <= p_num P < 2 ^ 26.
Proof. intros []. unlayout. split; [lia|]. change (2 ^ 32) with 4294967296 in *.
  change (2 ^ 26) with 67108864. nia. Qed.

Lemma free_length P : pool_shape P -> Z.of_nat (length (p_free P)) <= p_num P.
Proof.
  intros []. assert (length (p_free P) <= length (seqZ 0 (p_num P)))%nat as Hl.
  { apply submseteq_length, NoDup_submseteq; [done|]. intros x Hx.
    rewrite Forall_forall in ps_bound0. apply elem_of_seqZ. apply ps_bound0 in Hx. lia. }
  rewrite length_seqZ in Hl. lia.
Qed.

Lemma pool_shape_set_free P l :
  pool_shape P -> NoDup l -> Forall (fun i => 0 <= i < p_num P) l -> pool_shape (set_free l P).
Proof. intros [] ? ?. split; cbn; assumption. Qed.

Lemma pool_shape_free P i :
  pool_shape P -> 0 <= i < p_num P -> i ∉ p_free P -> pool_shape (pool_free i P).
Proof.
  intros Hs Hi Hn. apply pool_shape_set_free; [done| |].
  - apply NoDup_app. split; [apply Hs|]. split; [|apply NoDup_singleton].
    intros x Hx ->%list_elem_of_singleton. done.
  - apply Forall_app. split; [apply Hs|]. by apply Forall_singleton.
Qed.

(** A missing entry leaves room on the stack. *)
Lemma free_length_lt P i :
  pool_shape P -> 0 <= i < p_num P -> i ∉ p_free P -> Z.of_nat (length (p_free P)) < p_num P.
Proof.
  intros Hs Hi Hn. pose proof (pool_shape_free P i Hs Hi Hn) as Hs'.
  apply free_length in Hs'. cbn in Hs'. rewrite length_app in Hs'. cbn in Hs'. lia.
Qed.

Lemma pool_shape_alloc P i P' : pool_shape P -> pool_alloc P = Some (i, P') ->
  pool_shape P' /\ 0 <= i < p_num P /\ (i ∉ p_free P') /\ p_free P = (p_free P' ++ [i]) /\
  P' = set_free (p_free P') P.
Proof.
  unfold pool_alloc. intros Hs Ha. pose proof (ps_nodup _ Hs) as Hnd.
  pose proof (ps_bound _ Hs) as Hb.
  destruct (p_free P) as [|x l _] eqn:E using rev_ind; [done|].
  rewrite last_snoc, removelast_last in Ha. injection Ha as <- <-. cbn.
  apply NoDup_app in Hnd as (? & Hd & ?). apply Forall_app in Hb as [? Hx].
  apply Forall_cons in Hx as [Hx _].
  assert (x ∉ l) by (intros Hin; eapply Hd; [done|]; by apply list_elem_of_singleton).
  split_and!; try done; [by apply pool_shape_set_free|lia|lia].
Qed.

Lemma entry_sep P i j :
  pool_shape P -> 0 <= i < p_num P -> 0 <= j < p_num P -> i <> j ->
  disj (entry P i) (p_bufsz P) (entry P j) (p_bufsz P).
Proof. intros [] ???. unfold disj, entry. unlayout. nia. Qed.

Lemma pool_fp_bound P a : pool_shape P -> pool_fp P a ->
  range (p_addr P) (sizeof_mempool + 4 * p_num P) a \/
  range (p_base P) (p_num P * p_bufsz P) a.
Proof.
  intros Hs [Ha|(j & Hj & Ha)]; [by left|right].
  pose proof (entry_bound P j Hs Hj). pose proof (ps_bufsz _ Hs).
  clear Hs. unlayout. unfold range in *. lia.
Qed.

(** The length field of a buffer is not part of the footprint. *)
Lemma size_off_fp P i a : pool_shape P -> 0 <= i < p_num P ->
  range (entry P i + pb_size) 4 a -> ~ pool_fp P a.
Proof.
  intros Hs Hi Ha. pose proof (entry_bound P i Hs Hi) as Hb. pose proof (ps_bufsz _ Hs) as Hbs.
  intros [Hp|(j & Hj & Hp)].
  - pose proof (ps_disj _ Hs) as Hd. clear Hs. unlayout. unfold disj, range in *. lia.
  - destruct (decide (i = j)) as [->|Hne]; [unlayout; unfold range in *; lia|].
    pose proof (entry_sep P i j Hs Hi Hj Hne) as Hd. clear Hs. unlayout. unfold disj, range in *. lia.
Qed.

(** [pool_ok] survives any change outside its footprint. *)
Lemma pool_ok_frame P m m' :
  (forall a, pool_fp P a -> rd m a = rd m' a) -> regions m = regions m' ->
  pool_ok m P -> pool_ok m' P.
Proof.
  intros Hrd Hreg [Hs Hm1 Hm2 Hst Hh].
  assert (forall n o, 0 <= o -> o + Z.of_nat n <= sizeof_mempool + 4 * p_num P ->
    ld n m' (p_addr P + o) = ld n m (p_addr P + o)) as Hp.
  { intros. symmetry. apply ld_ext. intros. apply Hrd. left. unfold range. lia. }
  assert (forall n o i, 0 <= i < p_num P -> 0 <= o -> o + Z.of_nat n <= pb_size ->
    ld n m' (entry P i + o) = ld n m (entry P i + o)) as Hb.
  { intros n o i Hi ??. symmetry. apply ld_ext. intros. apply Hrd. right. exists i.
    split; [done|]. unfold range. lia. }
  pose proof (free_length P Hs) as Hfl. pose proof (ps_num _ Hs).
  split; [done| | | |].
  - by rewrite <- (mapped_regions m).
  - by rewrite <- (mapped_regions m).
  - destruct Hst as [? ? ? ? ? Hstk]. unlayout.
    split; unlayout; try (rewrite Hp by lia; done).
    intros k i Hk. rewrite <- Z.add_assoc, Hp.
    + rewrite Z.add_assoc. by apply Hstk.
    + lia.
    + apply lookup_lt_Some in Hk. lia.
  - intros i Hi. destruct (Hh i Hi). split; unlayout; (rewrite Hb by lia); done.
Qed.
End pool.

Section ops.
Context {H : Type} `{Platform H}.
Implicit Types (w : world H) (P : pool).

(** Lowering the stack pointer pops entries. *)
Lemma pool_ok_set_top P l m :
  pool_ok m P -> pool_shape (set_free l P) ->
  (forall k i, l !! k = Some i -> p_free P !! k = Some i) ->
  pool_ok (st 4 (p_addr P + mp_free_stack_top) (Z.of_nat (length l)) m) (set_free l P).
Proof.
  intros [Hs Hm1 Hm2 [] Hh] Hs' Hsub. cbn in *.
  pose proof (free_length _ Hs') as Hl. pose proof (num32 _ Hs). cbn in Hl.
  split; cbn; [done| | | |].
  - by rewrite mapped_st.
  - by rewrite mapped_st.
  - unlayout. split; unlayout; cbn; try (rewrite ld_st_out by lia; done).
    + rewrite ld_st_eq. apply Z.mod_small. lia.
    + intros k i Hk. rewrite ld_st_out by lia. by apply po_stack0, Hsub.
  - intros i Hi. destruct (Hh i Hi) as [h1 h2 h3].
    pose proof (entry_bound P i Hs Hi) as He. pose proof (ps_bufsz _ Hs). pose proof (ps_disj _ Hs) as Hd.
    unfold disj in Hd. pose proof (ps_num _ Hs).
    split; unfold entry, entry_phy in *; cbn; unlayout; rewrite ld_st_out by lia; done.
Qed.

(** Pushing an entry: the top is bumped, then the slot is written. *)
Lemma pool_ok_push P i m :
  pool_ok m P -> pool_shape (pool_free i P) ->
  pool_ok (st 4 (p_addr P + mp_free_stack + 4 * Z.of_nat (length (p_free P))) i
            (st 4 (p_addr P + mp_free_stack_top) (Z.of_nat (length (p_free P)) + 1) m))
          (pool_free i P).
Proof.
  intros [Hs Hm1 Hm2 [] Hh] Hs'. pose proof (free_length _ Hs') as Hl.
  pose proof (num32 _ Hs) as Hn. cbn in Hl. rewrite length_app in Hl. cbn in Hl.
  split; cbn; [done| | | |].
  - by rewrite !mapped_st.
  - by rewrite !mapped_st.
  - unlayout. split; unlayout; cbn; try (rewrite !ld_st_out by lia; done).
    + rewrite ld_st_out, ld_st_eq, length_app by lia. cbn. rewrite Z.mod_small by lia. lia.
    + intros k j [Hk|[Hk Hj]]%lookup_app_Some.
      * apply lookup_lt_Some in Hk as Hlt. rewrite !ld_st_out by lia. by apply po_stack0.
      * apply list_lookup_singleton_Some in Hj as [Hk0 <-].
        replace k with (length (p_free P)) by lia. rewrite ld_st_eq. apply Z.mod_small.
        pose proof (ps_bound _ Hs') as Hb. apply Forall_app in Hb as [_ Hb].
        apply Forall_cons in Hb as [Hb _]. cbn in Hb. lia.
  - intros j Hj. destruct (Hh j Hj) as [h1 h2 h3].
    pose proof (entry_bound P j Hs Hj) as He. pose proof (ps_bufsz _ Hs). pose proof (ps_disj _ Hs) as Hd.
    unfold disj in Hd.
    split; unfold entry, entry_phy in *; cbn; unlayout; rewrite !ld_st_out by lia; done.
Qed.

Lemma pkt_buf_alloc_spec P w :
  pool_ok (w_mem w) P ->
  wp (pkt_buf_alloc (p_addr P)) (fun r w' =>
    match pool_alloc P with
    | None => r = NULL /\ w' = w
    | Some (i, P') => r = entry P i /\ pool_ok (w_mem w') P' /\
        w' = set_mem (st 4 (p_addr P + mp_free_stack_top)
                        (Z.of_nat (length (p_free P'))) (w_mem w)) w
    end) never w.
Proof.
  intros Hok. pose proof Hok as [Hs Hm1 Hm2 [] Hh].
  pose proof (free_length P Hs). pose proof (num32 P Hs) as Hn.
  unfold pkt_buf_alloc. apply wp_bind, wp_load.
  { eapply mapped_sub; [exact Hm1| |]; unlayout; lia. }
  rewrite po_top0. destruct (pool_alloc P) as [[i P']|] eqn:Ha.
  - destruct (pool_shape_alloc P i P' Hs Ha) as (Hs' & Hi & Hni & Hf & HP').
    pose proof Hf as Hlen%(f_equal length). rewrite length_app in Hlen. cbn in Hlen.
    rewrite (proj2 (Z.eqb_neq _ _)) by lia.
    replace (u32 _) with (Z.of_nat (length (p_free P'))) by (rewrite u32_small; lia).
    apply wp_bind, wp_store.
    { eapply mapped_sub; [exact Hm1| |]; unlayout; lia. }
    assert (p_free P !! length (p_free P') = Some i) as Hlast.
    { rewrite Hf. by rewrite lookup_app_r, Nat.sub_diag. }
    apply wp_bind, wp_load; cbn.
    { rewrite mapped_st. eapply mapped_sub; [exact Hm1| |]; unlayout; lia. }
    rewrite ld_st_out by (unlayout; lia). rewrite (po_stack0 _ _ Hlast).
    apply wp_bind, wp_load; cbn.
    { rewrite mapped_st. eapply mapped_sub; [exact Hm1| |]; unlayout; lia. }
    rewrite ld_st_out, po_base0 by (unlayout; lia).
    apply wp_bind, wp_load; cbn.
    { rewrite mapped_st. eapply mapped_sub; [exact Hm1| |]; unlayout; lia. }
    rewrite ld_st_out, po_bufsz0 by (unlayout; lia).
    apply wp_ret. rewrite (entry_idx32 P i Hs Hi). split_and!; [done| |done].
    cbn. rewrite HP' at 2. apply pool_ok_set_top; [done|by rewrite <- HP'|].
    intros k j Hk. rewrite Hf. by apply lookup_app_l_Some.
  - assert (p_free P = []) as Hnil.
    { unfold pool_alloc in Ha. destruct (last (p_free P)) eqn:E; [done|]. by apply last_None. }
    rewrite Hnil. cbn. by apply wp_ret.
Qed.

Lemma pkt_buf_free_spec P i w :
  pool_ok (w_mem w) P -> 0 <= i < p_num P -> i ∉ p_free P ->
  wp (pkt_buf_free (entry P i)) (fun _ w' =>
    pool_ok (w_mem w') (pool_free i P) /\
    w' = set_mem
      (st 4 (p_addr P + mp_free_stack + 4 * Z.of_nat (length (p_free P))) i
        (st 4 (p_addr P + mp_free_stack_top) (Z.of_nat (length (p_free P)) + 1) (w_mem w))) w)
    never w.
Proof.
  intros Hok Hi Hni. pose proof Hok as [Hs Hm1 Hm2 [] Hh].
  pose proof (free_length_lt P i Hs Hi Hni) as Hl. pose proof (num32 P Hs) as Hn.
  pose proof (pool_shape_free P i Hs Hi Hni) as Hs'.
  pose proof (entry_bound P i Hs Hi) as He. pose proof (ps_bufsz _ Hs) as Hbs.
  pose proof (ps_disj _ Hs) as Hd. unfold disj in Hd. destruct (Hh i Hi) as [h1 h2 h3].
  unfold pkt_buf_free. apply wp_bind, wp_load.
  { eapply mapped_sub; [exact Hm2| |]; unlayout; lia. }
  rewrite h2. apply wp_bind, wp_load.
  { eapply mapped_sub; [exact Hm1| |]; unlayout; lia. }
  rewrite po_top0. rewrite u32_small by lia. apply wp_bind, wp_store.
  { eapply mapped_sub; [exact Hm1| |]; unlayout; lia. }
  apply wp_bind, wp_load; cbn.
  { rewrite mapped_st. eapply mapped_sub; [exact Hm2| |]; unlayout; lia. }
  rewrite ld_st_out, h3 by (unlayout; lia). apply wp_store; cbn.
  { rewrite mapped_st. eapply mapped_sub; [exact Hm1| |]; unlayout; lia. }
  split; [|done]. cbn. by apply pool_ok_push.
Qed.

(** *** Initialisation *)
Definition fresh_pool (addr : Z) (mem : dma_memory) (num bufsz : Z) : pool :=
  Pool addr (virt mem) (phy mem) bufsz num (seqZ 0 num).

(** what the loop has established after [n] iterations *)
Record init_inv (P : pool) (w0 : world H) (n : Z) (w : world H) : Prop := {
  ii_rest : w = set_mem (w_mem w) w0;
  ii_agree : agree_off (fun a => range (p_addr P) (sizeof_mempool + 4 * p_num P) a \/
                                 range (p_base P) (p_num P * p_bufsz P) a) (w_mem w0) (w_mem w);
  ii_base : ld 8 (w_mem w) (p_addr P + mp_base_addr) = p_base P;
  ii_phy : ld 8 (w_mem w) (p_addr P + mp_base_addr_phy) = p_phy P;
  ii_bufsz : ld 4 (w_mem w) (p_addr P + mp_buf_size) = p_bufsz P;
  ii_num : ld 4 (w_mem w) (p_addr P + mp_num_entries) = p_num P;
  ii_top : ld 4 (w_mem w) (p_addr P + mp_free_stack_top) = p_num P;
  ii_stack : forall k, 0 <= k < n -> ld 4 (w_mem w) (p_addr P + mp_free_stack + 4 * k) = k;
  ii_hdr : forall j, 0 <= j < n ->
    hdr_ok (w_mem w) P j /\ ld 4 (w_mem w) (entry P j + pb_size) = 0
}.

(** the memory after one iteration *)
Definition entry_mem P i (m : mem) : mem :=
  st 4 (entry P i + pb_size) 0 (st 8 (entry P i + pb_mempool) (p_addr P)
    (st 4 (entry P i + pb_mempool_idx) i (st 8 (entry P i + pb_buf_addr_phy) (entry_phy P i)
      (st 4 (p_addr P + mp_free_stack + 4 * i) i m)))).

Lemma entry_mem_out P i m n a : pool_shape P ->
  disj a (Z.of_nat n) (entry P i) (p_bufsz P) -> disj a (Z.of_nat n) (p_addr P + mp_free_stack + 4 * i) 4 ->
  ld n (entry_mem P i m) a = ld n m a.
Proof.
  intros Hs Ha1 Ha2. pose proof (ps_bufsz _ Hs). unfold disj, entry_mem in *. unlayout. by rewrite !ld_st_out by lia.
Qed.

Lemma entry_mem_hdr P i m : pool_shape P -> 0 <= i < p_num P ->
  ld 4 (entry_mem P i m) (p_addr P + mp_free_stack + 4 * i) = i /\
  hdr_ok (entry_mem P i m) P i /\ ld 4 (entry_mem P i m) (entry P i + pb_size) = 0.
Proof.
  intros Hs Hi. pose proof (entry_bound P i Hs Hi) as He. pose proof (ps_bufsz _ Hs) as Hbs.
  pose proof (ps_disj _ Hs) as Hd. unfold disj in Hd. pose proof (num32 P Hs) as Hn.
  pose proof (ps_addr _ Hs) as Hpa. pose proof (ps_base _ Hs) as Hpb. pose proof (ps_phy _ Hs) as Hpp.
  assert (entry_phy P i < 2 ^ 64 /\ 0 <= entry_phy P i) as Hep by (unfold entry_phy, entry in *; unlayout; lia).
  unfold entry_mem. unlayout. split.
  - rewrite !ld_st_out, ld_st_eq by lia. apply Z.mod_small. lia.
  - split; [split|]; unlayout; rewrite ?ld_st_out by lia; rewrite ld_st_eq; try done; apply Z.mod_small; lia.
Qed.

Lemma init_inv_step P w0 i w :
  pool_shape P -> 0 <= i < p_num P -> init_inv P w0 i w ->
  init_inv P w0 (i + 1) (set_mem (entry_mem P i (w_mem w)) w).
Proof.
  intros Hs Hi [Hrest Hag Hbase Hphy Hbsz Hnum Htop Hstk Hhdr].
  pose proof (entry_bound P i Hs Hi) as He. pose proof (ps_bufsz _ Hs) as Hbs.
  pose proof (ps_disj _ Hs) as Hd. unfold disj in Hd.
  destruct (entry_mem_hdr P i (w_mem w) Hs Hi) as (Hslot & Hnew & Hsize).
  assert (forall n o, 0 <= o -> o + Z.of_nat n <= mp_free_stack ->
    ld n (entry_mem P i (w_mem w)) (p_addr P + o) = ld n (w_mem w) (p_addr P + o)) as Hfld.
  { intros n o ??. apply entry_mem_out; [done|unfold disj; unlayout; lia..]. }
  split; cbn.
  - by rewrite Hrest.
  - etransitivity; [exact Hag|]. unfold entry_mem. unlayout.
    repeat (etransitivity; [|apply agree_off_st; unfold range; lia]). done.
  - by rewrite Hfld by (unlayout; lia).
  - by rewrite Hfld by (unlayout; lia).
  - by rewrite Hfld by (unlayout; lia).
  - by rewrite Hfld by (unlayout; lia).
  - by rewrite Hfld by (unlayout; lia).
  - intros k Hk. destruct (decide (k = i)) as [->|]; [done|].
    rewrite entry_mem_out by (done || (unfold disj; unlayout; lia)). apply Hstk. lia.
  - intros j Hj. destruct (decide (j = i)) as [->|]; [done|].
    assert (0 <= j < p_num P) as Hj' by lia. pose proof (entry_sep P j i Hs Hj' Hi ltac:(done)) as Hsep.
    pose proof (entry_bound P j Hs Hj') as Hej. unfold disj in Hsep. destruct (Hhdr j) as [[h1 h2 h3] h4]; [lia|].
    split; [split|]; rewrite entry_mem_out by (done || (unfold disj; unlayout; lia)); done.
Qed.

Lemma init_entry_spec P w0 i w :
  pool_shape P -> mapped (w_mem w0) (p_addr P) (sizeof_mempool + 4 * p_num P) = true ->
  mapped (w_mem w0) (p_base P) (p_num P * p_bufsz P) = true ->
  0 <= i < p_num P -> init_inv P w0 i w ->
  wp (init_entry (p_addr P) (p_bufsz P) i) (fun _ => init_inv P w0 (i + 1)) never w.
Proof.
  intros Hs Hm1 Hm2 Hi Hinv. pose proof Hinv as [_ Hag Hbase Hphy _ _ _ _ _].
  pose proof (entry_bound P i Hs Hi) as He. pose proof (ps_bufsz _ Hs) as Hbs.
  pose proof (entry_idx32 P i Hs Hi) as Hidx. pose proof (ps_base _ Hs) as Hpb. pose proof (ps_phy _ Hs) as Hpp.
  rewrite (agree_off_mapped _ _ _ _ _ Hag) in Hm1. rewrite (agree_off_mapped _ _ _ _ _ Hag) in Hm2.
  assert (forall o n, 0 <= o -> o + n <= sizeof_mempool + 4 * p_num P ->
    mapped (w_mem w) (p_addr P + o) n = true) as Mp.
  { intros. eapply mapped_sub; [exact Hm1|lia|lia]. }
  assert (forall o n, 0 <= o -> o + n <= p_bufsz P -> mapped (w_mem w) (entry P i + o) n = true) as Mb.
  { intros. eapply mapped_sub; [exact Hm2|lia|lia]. }
  unfold init_entry. apply wp_bind, wp_store.
  { rewrite <- Z.add_assoc. apply Mp; unlayout; lia. }
  apply wp_bind, wp_load; cbn; rewrite ?mapped_st; [apply Mp; unlayout; lia|].
  rewrite ld_st_out, Hbase, Hidx by (unlayout; lia). fold (entry P i).
  apply wp_bind, wp_load; cbn; rewrite ?mapped_st; [apply Mp; unlayout; lia|].
  rewrite ld_st_out, Hphy, u64_small by (unlayout; unfold entry_phy, entry in *; lia). fold (entry_phy P i).
  do 3 (apply wp_bind, wp_store; cbn; rewrite ?mapped_st; [apply Mb; unlayout; lia|]).
  apply wp_store; cbn; rewrite ?mapped_st; [apply Mb; unlayout; lia|].
  by apply (init_inv_step P w0 i w).
Qed.

Lemma init_mempool_spec P mem num bufsz addr w :
  P = fresh_pool addr mem num bufsz -> pool_shape P ->
  mapped (w_mem w) (p_addr P) (sizeof_mempool + 4 * p_num P) = true ->
  mapped (w_mem w) (p_base P) (p_num P * p_bufsz P) = true ->
  wp (init_mempool addr mem num bufsz) (fun _ w' =>
    pool_ok (w_mem w') P /\ init_inv P w num w') never w.
Proof.
  intros HP Hs Hm1 Hm2. pose proof (ps_num _ Hs) as Hn0. pose proof (num32 P Hs) as Hn.
  pose proof (ps_addr _ Hs) as Hpa. pose proof (ps_base _ Hs) as Hpb. pose proof (ps_phy _ Hs) as Hpp.
  pose proof (ps_total _ Hs) as Ht. pose proof (ps_bufsz _ Hs) as Hbs.
  assert (mapped (w_mem w) (p_addr P) mp_free_stack = true) as Hm.
  { eapply mapped_sub; [exact Hm1|lia|unlayout; lia]. }
  assert (num = p_num P /\ bufsz = p_bufsz P /\ addr = p_addr P /\ phy mem = p_phy P /\
    virt mem = p_base P) as (En & Eb & Ea & Ep & Ev) by (by rewrite HP).
  assert (forall m, mapped m (p_addr P) mp_free_stack = true -> forall o n, 0 <= o ->
    o + n <= mp_free_stack -> mapped m (p_addr P + o) n = true) as Mp.
  { intros m Hmm ????. eapply mapped_sub; [exact Hmm|lia|lia]. }
  assert (0 <= num) as Hnum0 by (by rewrite <- En in Hn0).
  unfold init_mempool. rewrite Ep, Ev, Ea, Eb, En. clear Ep Ev Ea Eb.
  do 5 (apply wp_bind, wp_store; cbn; [rewrite ?mapped_st; apply Mp; [done|unlayout; lia|unlayout; lia]|]).
  set (w1 := set_mem _ _).
  eapply wp_conseq.
  { apply (wp_for _ (init_inv P w)).
    - split; cbn; [done| | | | | | | |]; try (intros; lia);
        unlayout; rewrite ?ld_st_out, ?ld_st_eq by lia; try (apply Z.mod_small; nia).
      repeat (etransitivity; [|apply agree_off_st; unfold range; lia]). done.
    - intros i w' Hi. rewrite Z2Nat.id in Hi by lia. by apply init_entry_spec. }
  cbn beta. intros _ w' Hinv. rewrite Z2Nat.id in Hinv by lia. split; [|by rewrite Z.add_0_l in Hinv].
  destruct Hinv as [Hrest Hag Hbase Hphy Hbsz Hnum Htop Hstk Hhdr].
  rewrite (agree_off_mapped _ _ _ _ _ Hag) in Hm1. rewrite (agree_off_mapped _ _ _ _ _ Hag) in Hm2.
  split; [done|done|done| |intros j Hj; apply Hhdr; lia].
  split; [done|done|done|done| |].
  - rewrite Htop, HP; cbn. rewrite length_seqZ. lia.
  - intros k i Hk. rewrite HP in Hk; cbn in Hk. apply lookup_seqZ in Hk as [-> Hk].
    rewrite Hstk by lia. lia.
Qed.
End ops.
