(* ===== verification/Spinlock.v ===== *)
(** * rte_spinlock.h: spinlocks

    The lock word is a C [int] in memory.  [__sync_lock_test_and_set] stores 1
    and returns the old value in one atomic step, [__sync_lock_release] stores
    0.  These definitions are the functions as one thread runs them alone; what
    several threads do to one lock is the step relation of SpinThreads.v.  The
    two loops of [rte_spinlock_lock] run on fuel and [Hang] when it is gone. *)
From S2P Require Import Prelude Mem Platform.

Definition rte_spinlock_t : list field := [f_u32 "locked"].
Definition rte_spinlock_recursive_t : list field := [Field "sl" 4 4; f_u32 "user"; f_u32 "count"].
Definition sl_locked : Z := Eval cbv in offsetof rte_spinlock_t "locked".
Definition slr_sl : Z := Eval cbv in offsetof rte_spinlock_recursive_t "sl".
Definition slr_user : Z := Eval cbv in offsetof rte_spinlock_recursive_t "user".
Definition slr_count : Z := Eval cbv in offsetof rte_spinlock_recursive_t "count".

Section code.
Context {H : Type} `{Platform H}.
Local Abbreviation W := (world H).
(** the calling thread's variable _thread_id *)
Context (thread_id : Z).

Definition sync_lock_test_and_set (a v : Z) : M W Z :=
  old ← load 4 a; store 4 a v ;; mret (i32 old).
Definition sync_lock_release (a : Z) : M W unit := store 4 a 0.

Definition rte_gettid : M W Z :=
  id ← load 4 thread_id;
  (if i32 id =? -1 then (tid ← syscall_ Sys_gettid; store 4 thread_id (u32 tid)) else mret tt) ;;
  id ← load 4 thread_id;
  mret (i32 id).

Definition rte_spinlock_init (sl : Z) : M W unit := store 4 (sl + sl_locked) 0.

(** while (sl->locked) _mm_pause(); *)
Fixpoint spin_while_locked (fuel : nat) (sl : Z) : M W unit :=
  match fuel with
  | O => hang
  | S fuel' =>
      l ← load 4 (sl + sl_locked);
      if l =? 0 then mret tt else spin_while_locked fuel' sl
  end.
Fixpoint rte_spinlock_lock (fuel : nat) (sl : Z) : M W unit :=
  match fuel with
  | O => hang
  | S fuel' =>
      old ← sync_lock_test_and_set (sl + sl_locked) 1;
      if old =? 0 then mret tt
      else (spin_while_locked fuel' sl ;; rte_spinlock_lock fuel' sl)
  end.

Definition rte_spinlock_unlock (sl : Z) : M W unit := sync_lock_release (sl + sl_locked).
Definition rte_spinlock_trylock (sl : Z) : M W Z :=
  old ← sync_lock_test_and_set (sl + sl_locked) 1; mret (if old =? 0 then 1 else 0).
Definition rte_spinlock_is_locked (sl : Z) : M W Z := l ← load 4 (sl + sl_locked); mret (i32 l).

Definition rte_spinlock_recursive_init (slr : Z) : M W unit :=
  rte_spinlock_init (slr + slr_sl) ;;
  store 4 (slr + slr_user) (u32 (-1)) ;;
  store 4 (slr + slr_count) 0.

Definition rte_spinlock_recursive_lock (fuel : nat) (slr : Z) : M W unit :=
  id ← rte_gettid;
  user ← load 4 (slr + slr_user);
  (if i32 user =? id then mret tt
   else (rte_spinlock_lock fuel (slr + slr_sl) ;; store 4 (slr + slr_user) (u32 id))) ;;
  count ← load 4 (slr + slr_count);
  store 4 (slr + slr_count) (u32 (count + 1)).

Definition rte_spinlock_recursive_unlock (slr : Z) : M W unit :=
  count ← load 4 (slr + slr_count);
  let count' := u32 (count - 1) in
  store 4 (slr + slr_count) count' ;;
  if count' =? 0 then
    (store 4 (slr + slr_user) (u32 (-1)) ;; rte_spinlock_unlock (slr + slr_sl))
  else mret tt.

Definition rte_spinlock_recursive_trylock (slr : Z) : M W Z :=
  id ← rte_gettid;
  user ← load 4 (slr + slr_user);
  taken ← (if i32 user =? id then mret true
           else (r ← rte_spinlock_trylock (slr + slr_sl);
                 if r =? 0 then mret false
                 else (store 4 (slr + slr_user) (u32 id) ;; mret true)));
  if negb taken then mret 0
  else (count ← load 4 (slr + slr_count);
        store 4 (slr + slr_count) (u32 (count + 1)) ;; mret 1).
End code.

Ltac unspin := unfold sl_locked, slr_sl, slr_user, slr_count in *.

Section specs.
Context {H : Type} `{Platform H}.
Implicit Types w : world H.

Lemma wp_test_and_set a v Q E w :
  mapped (w_mem w) a 4 = true ->
  Q (i32 (ld 4 (w_mem w) a)) (set_mem (st 4 a v (w_mem w)) w) ->
  wp (sync_lock_test_and_set a v) Q E w.
Proof.
  intros Hm HQ. unfold sync_lock_test_and_set. apply wp_bind, wp_load; [done|].
  apply wp_bind, wp_store; [done|]. by apply wp_ret.
Qed.

(** an uncontended lock is taken in one step *)
Lemma rte_spinlock_lock_spec fuel sl w :
  (0 < fuel)%nat -> mapped (w_mem w) sl 4 = true -> ld 4 (w_mem w) sl = 0 ->
  wp (rte_spinlock_lock fuel sl) (fun _ w' => w' = set_mem (st 4 sl 1 (w_mem w)) w) never w.
Proof.
  intros Hf Hm H0l. destruct fuel as [|fuel]; [lia|]. cbn [rte_spinlock_lock]. unspin.
  rewrite Z.add_0_r. apply wp_bind, wp_test_and_set; [done|]. rewrite H0l. cbn. by apply wp_ret.
Qed.

Lemma rte_spinlock_unlock_spec sl w :
  mapped (w_mem w) sl 4 = true ->
  wp (rte_spinlock_unlock sl) (fun _ w' => w' = set_mem (st 4 sl 0 (w_mem w)) w) never w.
Proof.
  intros Hm. unfold rte_spinlock_unlock, sync_lock_release. unspin. rewrite Z.add_0_r. by apply wp_store.
Qed.
End specs.
