(* ===== verification/Registers.v ===== *)
(** * ixgbe_type.h: the registers, flags and descriptor formats the driver uses

    Register offsets from the start of BAR0, bit masks, and the two formats of
    the advanced receive and transmit descriptors. *)
From S2P Require Import Prelude Mem.

(** ** General *)
Definition IXGBE_CTRL : Z := 0x00000.
Definition IXGBE_CTRL_EXT : Z := 0x00018.
Definition IXGBE_EEC : Z := 0x10010.
Definition IXGBE_EIMC : Z := 0x00888.
Definition IXGBE_CTRL_LNK_RST : Z := 0x00000008.
Definition IXGBE_CTRL_RST : Z := 0x04000000.
Definition IXGBE_CTRL_RST_MASK : Z := Z.lor IXGBE_CTRL_LNK_RST IXGBE_CTRL_RST.
Definition IXGBE_CTRL_EXT_NS_DIS : Z := 0x00010000.
Definition IXGBE_EEC_ARD : Z := 0x00000200.

(** ** Receive *)
Definition IXGBE_RDBAL (i : Z) : Z := if i <? 64 then 0x01000 + i * 0x40 else 0x0D000 + (i - 64) * 0x40.
Definition IXGBE_RDBAH (i : Z) : Z := if i <? 64 then 0x01004 + i * 0x40 else 0x0D004 + (i - 64) * 0x40.
Definition IXGBE_RDLEN (i : Z) : Z := if i <? 64 then 0x01008 + i * 0x40 else 0x0D008 + (i - 64) * 0x40.
Definition IXGBE_RDH (i : Z) : Z := if i <? 64 then 0x01010 + i * 0x40 else 0x0D010 + (i - 64) * 0x40.
Definition IXGBE_RDT (i : Z) : Z := if i <? 64 then 0x01018 + i * 0x40 else 0x0D018 + (i - 64) * 0x40.
Definition IXGBE_RXDCTL (i : Z) : Z := if i <? 64 then 0x01028 + i * 0x40 else 0x0D028 + (i - 64) * 0x40.
Definition IXGBE_SRRCTL (i : Z) : Z :=
  if i <=? 15 then 0x02100 + i * 4
  else if i <? 64 then 0x01014 + i * 0x40 else 0x0D014 + (i - 64) * 0x40.
Definition IXGBE_DCA_RXCTRL (i : Z) : Z :=
  if i <=? 15 then 0x02200 + i * 4
  else if i <? 64 then 0x0100C + i * 0x40 else 0x0D00C + (i - 64) * 0x40.
Definition IXGBE_RDRXCTL : Z := 0x02F00.
Definition IXGBE_RXPBSIZE (i : Z) : Z := 0x03C00 + i * 4.
Definition IXGBE_RXCTRL : Z := 0x03000.
Definition IXGBE_FCTRL : Z := 0x05080.
Definition IXGBE_RXPBSIZE_128KB : Z := 0x00020000.
Definition IXGBE_RDRXCTL_CRCSTRIP : Z := 0x00000002.
Definition IXGBE_RDRXCTL_DMAIDONE : Z := 0x00000008.
Definition IXGBE_RXCTRL_RXEN : Z := 0x00000001.
Definition IXGBE_RXDCTL_ENABLE : Z := 0x02000000.
Definition IXGBE_SRRCTL_DROP_EN : Z := 0x10000000.
Definition IXGBE_SRRCTL_DESCTYPE_ADV_ONEBUF : Z := 0x02000000.
Definition IXGBE_SRRCTL_DESCTYPE_MASK : Z := 0x0E000000.
Definition IXGBE_FCTRL_MPE : Z := 0x00000100.
Definition IXGBE_FCTRL_UPE : Z := 0x00000200.
Definition IXGBE_FCTRL_BAM : Z := 0x00000400.

(** ** Transmit *)
Definition IXGBE_TDBAL (i : Z) : Z := 0x06000 + i * 0x40.
Definition IXGBE_TDBAH (i : Z) : Z := 0x06004 + i * 0x40.
Definition IXGBE_TDLEN (i : Z) : Z := 0x06008 + i * 0x40.
Definition IXGBE_TDH (i : Z) : Z := 0x06010 + i * 0x40.
Definition IXGBE_TDT (i : Z) : Z := 0x06018 + i * 0x40.
Definition IXGBE_TXDCTL (i : Z) : Z := 0x06028 + i * 0x40.
Definition IXGBE_DMATXCTL : Z := 0x04A80.
Definition IXGBE_DTXMXSZRQ : Z := 0x08100.
Definition IXGBE_DMATXCTL_TE : Z := 0x1.
Definition IXGBE_TXPBSIZE (i : Z) : Z := 0x0CC00 + i * 4.
Definition IXGBE_TXPBSIZE_40KB : Z := 0x0000A000.
Definition IXGBE_RTTDCS : Z := 0x04900.
Definition IXGBE_RTTDCS_ARBDIS : Z := 0x00000040.
Definition IXGBE_TXDCTL_ENABLE : Z := 0x02000000.

(** ** MAC, link *)
Definition IXGBE_HLREG0 : Z := 0x04240.
Definition IXGBE_AUTOC : Z := 0x042A0.
Definition IXGBE_LINKS : Z := 0x042A4.
Definition IXGBE_HLREG0_TXCRCEN : Z := 0x00000001.
Definition IXGBE_HLREG0_RXCRCSTRP : Z := 0x00000002.
Definition IXGBE_HLREG0_TXPADEN : Z := 0x00000400.
Definition IXGBE_AUTOC_AN_RESTART : Z := 0x00001000.
Definition IXGBE_AUTOC_LMS_SHIFT : Z := 13.
Definition IXGBE_AUTOC_LMS_10G_SERIAL : Z := Z.shiftl 0x3 IXGBE_AUTOC_LMS_SHIFT.
Definition IXGBE_AUTOC_LMS_MASK : Z := Z.shiftl 0x7 IXGBE_AUTOC_LMS_SHIFT.
Definition IXGBE_AUTOC_10G_PMA_PMD_MASK : Z := 0x00000180.
Definition IXGBE_AUTOC_10G_PMA_PMD_SHIFT : Z := 7.
Definition IXGBE_AUTOC_10G_XAUI : Z := Z.shiftl 0x0 IXGBE_AUTOC_10G_PMA_PMD_SHIFT.
Definition IXGBE_LINKS_UP : Z := 0x40000000.
Definition IXGBE_LINKS_SPEED_82599 : Z := 0x30000000.
Definition IXGBE_LINKS_SPEED_10G_82599 : Z := 0x30000000.
Definition IXGBE_LINKS_SPEED_1G_82599 : Z := 0x20000000.
Definition IXGBE_LINKS_SPEED_100_82599 : Z := 0x10000000.

(** ** Statistics (clear on read) *)
Definition IXGBE_GPRC : Z := 0x04074.
Definition IXGBE_GPTC : Z := 0x04080.
Definition IXGBE_GORCL : Z := 0x04088.
Definition IXGBE_GORCH : Z := 0x0408C.
Definition IXGBE_GOTCL : Z := 0x04090.
Definition IXGBE_GOTCH : Z := 0x04094.

(** ** Descriptor bits *)
Definition IXGBE_TXD_CMD_EOP : Z := 0x01000000.
Definition IXGBE_TXD_CMD_IFCS : Z := 0x02000000.
Definition IXGBE_TXD_CMD_RS : Z := 0x08000000.
Definition IXGBE_TXD_CMD_DEXT : Z := 0x20000000.
Definition IXGBE_TXD_STAT_DD : Z := 0x00000001.
Definition IXGBE_RXD_STAT_DD : Z := 0x01.
Definition IXGBE_RXD_STAT_EOP : Z := 0x02.
Definition IXGBE_RXDADV_STAT_DD : Z := IXGBE_RXD_STAT_DD.
Definition IXGBE_RXDADV_STAT_EOP : Z := IXGBE_RXD_STAT_EOP.
Definition IXGBE_ADVTXD_DTYP_DATA : Z := 0x00300000.
Definition IXGBE_ADVTXD_DCMD_EOP : Z := IXGBE_TXD_CMD_EOP.
Definition IXGBE_ADVTXD_DCMD_IFCS : Z := IXGBE_TXD_CMD_IFCS.
Definition IXGBE_ADVTXD_DCMD_RS : Z := IXGBE_TXD_CMD_RS.
Definition IXGBE_ADVTXD_DCMD_DEXT : Z := IXGBE_TXD_CMD_DEXT.
Definition IXGBE_ADVTXD_STAT_DD : Z := IXGBE_TXD_STAT_DD.
Definition IXGBE_ADVTXD_PAYLEN_SHIFT : Z := 14.

(** ** Advanced descriptors: a union of the read and write-back formats *)
Definition ixgbe_adv_tx_desc_read : list field :=
  [f_u64 "buffer_addr"; f_u32 "cmd_type_len"; f_u32 "olinfo_status"].
Definition ixgbe_adv_tx_desc_wb : list field :=
  [f_u64 "rsvd"; f_u32 "nxtseq_seed"; f_u32 "status"].
Definition ixgbe_adv_rx_desc_read : list field := [f_u64 "pkt_addr"; f_u64 "hdr_addr"].
(** wb.lower is two 4-byte unions, wb.upper the three fields after it *)
Definition ixgbe_adv_rx_desc_wb : list field :=
  [f_u32 "lo_dword"; f_u32 "hi_dword"; f_u32 "status_error"; f_u16 "length"; f_u16 "vlan"].

Definition sizeof_adv_tx_desc : Z :=
  Eval cbv in Z.max (sizeof ixgbe_adv_tx_desc_read) (sizeof ixgbe_adv_tx_desc_wb).
Definition sizeof_adv_rx_desc : Z :=
  Eval cbv in Z.max (sizeof ixgbe_adv_rx_desc_read) (sizeof ixgbe_adv_rx_desc_wb).
Definition txd_buffer_addr : Z := Eval cbv in offsetof ixgbe_adv_tx_desc_read "buffer_addr".
Definition txd_cmd_type_len : Z := Eval cbv in offsetof ixgbe_adv_tx_desc_read "cmd_type_len".
Definition txd_olinfo_status : Z := Eval cbv in offsetof ixgbe_adv_tx_desc_read "olinfo_status".
Definition txd_status : Z := Eval cbv in offsetof ixgbe_adv_tx_desc_wb "status".
Definition rxd_pkt_addr : Z := Eval cbv in offsetof ixgbe_adv_rx_desc_read "pkt_addr".
Definition rxd_hdr_addr : Z := Eval cbv in offsetof ixgbe_adv_rx_desc_read "hdr_addr".
Definition rxd_status_error : Z := Eval cbv in offsetof ixgbe_adv_rx_desc_wb "status_error".
Definition rxd_length : Z := Eval cbv in offsetof ixgbe_adv_rx_desc_wb "length".
