(* ===== verification/TypeTables.v ===== *)
(** * ixgbe_type.h: the macro tables

    The object-like and function-like macros of Intel's register header, block by
    block, each with the value its expansion has: register offsets, functions of
    a queue, filter or pool number, bit masks and field values.  A macro that
    names another one stands for that one's expansion.  [IXGBE_BY_MAC] is
    defined as 0 in ixy's copy, and so are the macros built on it.  The
    enumerations and structures between the blocks are in HeaderTypes.v, with the
    scalar types and the two address tests. *)
From S2P Require Import Prelude Registers.

Inductive macro :=
  | Const (name : string) (v : Z)
  | Fun1 (name : string) (f : Z -> Z)
  | Fun2 (name : string) (f : Z -> Z -> Z)
  | Fun3 (name : string) (f : Z -> Z -> Z -> Z).

Definition macro_name (m : macro) : string :=
  match m with Const n _ | Fun1 n _ | Fun2 n _ | Fun3 n _ => n end.

Local Open Scope string_scope.
Local Open Scope Z_scope.

Definition vendor_and_device_ids : list macro := [
  Const "IXGBE_INTEL_VENDOR_ID" 0x8086;
  Const "IXGBE_DEV_ID_82598" 0x10B6;
  Const "IXGBE_DEV_ID_82598_BX" 0x1508;
  Const "IXGBE_DEV_ID_82598AF_DUAL_PORT" 0x10C6;
  Const "IXGBE_DEV_ID_82598AF_SINGLE_PORT" 0x10C7;
  Const "IXGBE_DEV_ID_82598AT" 0x10C8;
  Const "IXGBE_DEV_ID_82598AT2" 0x150B;
  Const "IXGBE_DEV_ID_82598EB_SFP_LOM" 0x10DB;
  Const "IXGBE_DEV_ID_82598EB_CX4" 0x10DD;
  Const "IXGBE_DEV_ID_82598_CX4_DUAL_PORT" 0x10EC;
  Const "IXGBE_DEV_ID_82598_DA_DUAL_PORT" 0x10F1;
  Const "IXGBE_DEV_ID_82598_SR_DUAL_PORT_EM" 0x10E1;
  Const "IXGBE_DEV_ID_82598EB_XF_LR" 0x10F4;
  Const "IXGBE_DEV_ID_82599_KX4" 0x10F7;
  Const "IXGBE_DEV_ID_82599_KX4_MEZZ" 0x1514;
  Const "IXGBE_DEV_ID_82599_KR" 0x1517;
  Const "IXGBE_DEV_ID_82599_COMBO_BACKPLANE" 0x10F8;
  Const "IXGBE_SUBDEV_ID_82599_KX4_KR_MEZZ" 0x000C;
  Const "IXGBE_DEV_ID_82599_CX4" 0x10F9;
  Const "IXGBE_DEV_ID_82599_SFP" 0x10FB;
  Const "IXGBE_SUBDEV_ID_82599_SFP" 0x11A9;
  Const "IXGBE_SUBDEV_ID_82599_SFP_WOL0" 0x1071;
  Const "IXGBE_SUBDEV_ID_82599_RNDC" 0x1F72;
  Const "IXGBE_SUBDEV_ID_82599_560FLR" 0x17D0;
  Const "IXGBE_SUBDEV_ID_82599_ECNA_DP" 0x0470;
  Const "IXGBE_SUBDEV_ID_82599_SP_560FLR" 0x211B;
  Const "IXGBE_SUBDEV_ID_82599_LOM_SNAP6" 0x2159;
  Const "IXGBE_SUBDEV_ID_82599_SFP_1OCP" 0x000D;
  Const "IXGBE_SUBDEV_ID_82599_SFP_2OCP" 0x0008;
  Const "IXGBE_SUBDEV_ID_82599_SFP_LOM_OEM1" 0x8976;
  Const "IXGBE_SUBDEV_ID_82599_SFP_LOM_OEM2" 0x06EE;
  Const "IXGBE_DEV_ID_82599_BACKPLANE_FCOE" 0x152A;
  Const "IXGBE_DEV_ID_82599_SFP_FCOE" 0x1529;
  Const "IXGBE_DEV_ID_82599_SFP_EM" 0x1507;
  Const "IXGBE_DEV_ID_82599_SFP_SF2" 0x154D;
  Const "IXGBE_DEV_ID_82599_SFP_SF_QP" 0x154A;
  Const "IXGBE_DEV_ID_82599_QSFP_SF_QP" 0x1558;
  Const "IXGBE_DEV_ID_82599EN_SFP" 0x1557;
  Const "IXGBE_SUBDEV_ID_82599EN_SFP_OCP1" 0x0001;
  Const "IXGBE_DEV_ID_82599_XAUI_LOM" 0x10FC;
  Const "IXGBE_DEV_ID_82599_T3_LOM" 0x151C;
  Const "IXGBE_DEV_ID_82599_VF" 0x10ED;
  Const "IXGBE_DEV_ID_82599_VF_HV" 0x152E;
  Const "IXGBE_DEV_ID_82599_LS" 0x154F;
  Const "IXGBE_DEV_ID_X540T" 0x1528;
  Const "IXGBE_DEV_ID_X540_VF" 0x1515;
  Const "IXGBE_DEV_ID_X540_VF_HV" 0x1530;
  Const "IXGBE_DEV_ID_X540T1" 0x1560;
  Const "IXGBE_DEV_ID_X550T" 0x1563;
  Const "IXGBE_DEV_ID_X550T1" 0x15D1;
  Const "IXGBE_DEV_ID_X550EM_A_KR" 0x15C2;
  Const "IXGBE_DEV_ID_X550EM_A_KR_L" 0x15C3;
  Const "IXGBE_DEV_ID_X550EM_A_SFP_N" 0x15C4;
  Const "IXGBE_DEV_ID_X550EM_A_SGMII" 0x15C6;
  Const "IXGBE_DEV_ID_X550EM_A_SGMII_L" 0x15C7;
  Const "IXGBE_DEV_ID_X550EM_A_10G_T" 0x15C8;
  Const "IXGBE_DEV_ID_X550EM_A_QSFP" 0x15CA;
  Const "IXGBE_DEV_ID_X550EM_A_QSFP_N" 0x15CC;
  Const "IXGBE_DEV_ID_X550EM_A_SFP" 0x15CE;
  Const "IXGBE_DEV_ID_X550EM_A_1G_T" 0x15E4;
  Const "IXGBE_DEV_ID_X550EM_A_1G_T_L" 0x15E5;
  Const "IXGBE_DEV_ID_X550EM_X_KX4" 0x15AA;
  Const "IXGBE_DEV_ID_X550EM_X_KR" 0x15AB;
  Const "IXGBE_DEV_ID_X550EM_X_SFP" 0x15AC;
  Const "IXGBE_DEV_ID_X550EM_X_10G_T" 0x15AD;
  Const "IXGBE_DEV_ID_X550EM_X_1G_T" 0x15AE;
  Const "IXGBE_DEV_ID_X550EM_X_XFI" 0x15B0;
  Const "IXGBE_DEV_ID_X550_VF_HV" 0x1564;
  Const "IXGBE_DEV_ID_X550_VF" 0x1565;
  Const "IXGBE_DEV_ID_X550EM_A_VF" 0x15C5;
  Const "IXGBE_DEV_ID_X550EM_A_VF_HV" 0x15B4;
  Const "IXGBE_DEV_ID_X550EM_X_VF" 0x15A8;
  Const "IXGBE_DEV_ID_X550EM_X_VF_HV" 0x15A9
].

Definition general_and_nvm_registers : list macro := [
  Fun2 "IXGBE_BY_MAC" (fun hw r => 0);
  Const "IXGBE_CTRL" 0x00000;
  Const "IXGBE_STATUS" 0x00008;
  Const "IXGBE_CTRL_EXT" 0x00018;
  Const "IXGBE_ESDP" 0x00020;
  Const "IXGBE_EODSDP" 0x00028;
  Const "IXGBE_I2CCTL_82599" 0x00028;
  Const "IXGBE_I2CCTL" 0x00028;
  Const "IXGBE_I2CCTL_X540" 0x00028;
  Const "IXGBE_I2CCTL_X550" 0x15F5C;
  Const "IXGBE_I2CCTL_X550EM_x" 0x15F5C;
  Const "IXGBE_I2CCTL_X550EM_a" 0x15F5C;
  Fun1 "IXGBE_I2CCTL_BY_MAC" (fun hw => 0);
  Const "IXGBE_PHY_GPIO" 0x00028;
  Const "IXGBE_MAC_GPIO" 0x00030;
  Const "IXGBE_PHYINT_STATUS0" 0x00100;
  Const "IXGBE_PHYINT_STATUS1" 0x00104;
  Const "IXGBE_PHYINT_STATUS2" 0x00108;
  Const "IXGBE_LEDCTL" 0x00200;
  Const "IXGBE_FRTIMER" 0x00048;
  Const "IXGBE_TCPTIMER" 0x0004C;
  Const "IXGBE_CORESPARE" 0x00600;
  Const "IXGBE_EXVET" 0x05078;
  Const "IXGBE_EEC" 0x10010;
  Const "IXGBE_EEC_X540" 0x10010;
  Const "IXGBE_EEC_X550" 0x10010;
  Const "IXGBE_EEC_X550EM_x" 0x10010;
  Const "IXGBE_EEC_X550EM_a" 0x15FF8;
  Fun1 "IXGBE_EEC_BY_MAC" (fun hw => 0);
  Const "IXGBE_EERD" 0x10014;
  Const "IXGBE_EEWR" 0x10018;
  Const "IXGBE_FLA" 0x1001C;
  Const "IXGBE_FLA_X540" 0x1001C;
  Const "IXGBE_FLA_X550" 0x1001C;
  Const "IXGBE_FLA_X550EM_x" 0x1001C;
  Const "IXGBE_FLA_X550EM_a" 0x15F68;
  Fun1 "IXGBE_FLA_BY_MAC" (fun hw => 0);
  Const "IXGBE_EEMNGCTL" 0x10110;
  Const "IXGBE_EEMNGDATA" 0x10114;
  Const "IXGBE_FLMNGCTL" 0x10118;
  Const "IXGBE_FLMNGDATA" 0x1011C;
  Const "IXGBE_FLMNGCNT" 0x10120;
  Const "IXGBE_FLOP" 0x1013C;
  Const "IXGBE_GRC" 0x10200;
  Const "IXGBE_GRC_X540" 0x10200;
  Const "IXGBE_GRC_X550" 0x10200;
  Const "IXGBE_GRC_X550EM_x" 0x10200;
  Const "IXGBE_GRC_X550EM_a" 0x15F64;
  Fun1 "IXGBE_GRC_BY_MAC" (fun hw => 0);
  Const "IXGBE_SRAMREL" 0x10210;
  Const "IXGBE_SRAMREL_X540" 0x10210;
  Const "IXGBE_SRAMREL_X550" 0x10210;
  Const "IXGBE_SRAMREL_X550EM_x" 0x10210;
  Const "IXGBE_SRAMREL_X550EM_a" 0x15F6C;
  Fun1 "IXGBE_SRAMREL_BY_MAC" (fun hw => 0);
  Const "IXGBE_PHYDBG" 0x10218;
  Const "IXGBE_GRC_MNG" 0x00000001;
  Const "IXGBE_GRC_APME" 0x00000002;
  Const "IXGBE_VPDDIAG0" 0x10204;
  Const "IXGBE_VPDDIAG1" 0x10208;
  Const "IXGBE_I2C_CLK_IN" 0x00000001;
  Const "IXGBE_I2C_CLK_IN_X540" 0x00000001;
  Const "IXGBE_I2C_CLK_IN_X550" 0x00004000;
  Const "IXGBE_I2C_CLK_IN_X550EM_x" 0x00004000;
  Const "IXGBE_I2C_CLK_IN_X550EM_a" 0x00004000;
  Fun1 "IXGBE_I2C_CLK_IN_BY_MAC" (fun hw => 0);
  Const "IXGBE_I2C_CLK_OUT" 0x00000002;
  Const "IXGBE_I2C_CLK_OUT_X540" 0x00000002;
  Const "IXGBE_I2C_CLK_OUT_X550" 0x00000200;
  Const "IXGBE_I2C_CLK_OUT_X550EM_x" 0x00000200;
  Const "IXGBE_I2C_CLK_OUT_X550EM_a" 0x00000200;
  Fun1 "IXGBE_I2C_CLK_OUT_BY_MAC" (fun hw => 0);
  Const "IXGBE_I2C_DATA_IN" 0x00000004;
  Const "IXGBE_I2C_DATA_IN_X540" 0x00000004;
  Const "IXGBE_I2C_DATA_IN_X550" 0x00001000;
  Const "IXGBE_I2C_DATA_IN_X550EM_x" 0x00001000;
  Const "IXGBE_I2C_DATA_IN_X550EM_a" 0x00001000;
  Fun1 "IXGBE_I2C_DATA_IN_BY_MAC" (fun hw => 0);
  Const "IXGBE_I2C_DATA_OUT" 0x00000008;
  Const "IXGBE_I2C_DATA_OUT_X540" 0x00000008;
  Const "IXGBE_I2C_DATA_OUT_X550" 0x00000400;
  Const "IXGBE_I2C_DATA_OUT_X550EM_x" 0x00000400;
  Const "IXGBE_I2C_DATA_OUT_X550EM_a" 0x00000400;
  Fun1 "IXGBE_I2C_DATA_OUT_BY_MAC" (fun hw => 0);
  Const "IXGBE_I2C_DATA_OE_N_EN" 0;
  Const "IXGBE_I2C_DATA_OE_N_EN_X540" 0;
  Const "IXGBE_I2C_DATA_OE_N_EN_X550" 0x00000800;
  Const "IXGBE_I2C_DATA_OE_N_EN_X550EM_x" 0x00000800;
  Const "IXGBE_I2C_DATA_OE_N_EN_X550EM_a" 0x00000800;
  Fun1 "IXGBE_I2C_DATA_OE_N_EN_BY_MAC" (fun hw => 0);
  Const "IXGBE_I2C_BB_EN" 0;
  Const "IXGBE_I2C_BB_EN_X540" 0;
  Const "IXGBE_I2C_BB_EN_X550" 0x00000100;
  Const "IXGBE_I2C_BB_EN_X550EM_x" 0x00000100;
  Const "IXGBE_I2C_BB_EN_X550EM_a" 0x00000100;
  Fun1 "IXGBE_I2C_BB_EN_BY_MAC" (fun hw => 0);
  Const "IXGBE_I2C_CLK_OE_N_EN" 0;
  Const "IXGBE_I2C_CLK_OE_N_EN_X540" 0;
  Const "IXGBE_I2C_CLK_OE_N_EN_X550" 0x00002000;
  Const "IXGBE_I2C_CLK_OE_N_EN_X550EM_x" 0x00002000;
  Const "IXGBE_I2C_CLK_OE_N_EN_X550EM_a" 0x00002000;
  Fun1 "IXGBE_I2C_CLK_OE_N_EN_BY_MAC" (fun hw => 0);
  Const "IXGBE_I2C_CLOCK_STRETCHING_TIMEOUT" 500;
  Const "IXGBE_I2C_THERMAL_SENSOR_ADDR" 0xF8;
  Const "IXGBE_EMC_INTERNAL_DATA" 0x00;
  Const "IXGBE_EMC_INTERNAL_THERM_LIMIT" 0x20;
  Const "IXGBE_EMC_DIODE1_DATA" 0x01;
  Const "IXGBE_EMC_DIODE1_THERM_LIMIT" 0x19;
  Const "IXGBE_EMC_DIODE2_DATA" 0x23;
  Const "IXGBE_EMC_DIODE2_THERM_LIMIT" 0x1A;
  Const "IXGBE_MAX_SENSORS" 3
].

Definition interrupt_and_receive_registers : list macro := [
  Const "IXGBE_EICR" 0x00800;
  Const "IXGBE_EICS" 0x00808;
  Const "IXGBE_EIMS" 0x00880;
  Const "IXGBE_EIMC" 0x00888;
  Const "IXGBE_EIAC" 0x00810;
  Const "IXGBE_EIAM" 0x00890;
  Fun1 "IXGBE_EICS_EX" (fun i => (0x00A90 + (i * 4)));
  Fun1 "IXGBE_EIMS_EX" (fun i => (0x00AA0 + (i * 4)));
  Fun1 "IXGBE_EIMC_EX" (fun i => (0x00AB0 + (i * 4)));
  Fun1 "IXGBE_EIAM_EX" (fun i => (0x00AD0 + (i * 4)));
  Const "IXGBE_MAX_INT_RATE" 488281;
  Const "IXGBE_MIN_INT_RATE" 956;
  Const "IXGBE_MAX_EITR" 0x00000FF8;
  Const "IXGBE_MIN_EITR" 8;
  Fun1 "IXGBE_EITR" (fun i => (if (i <=? 23) then (0x00820 + (i * 4)) else (0x012300 + ((i - 24) * 4))));
  Const "IXGBE_EITR_ITR_INT_MASK" 0x00000FF8;
  Const "IXGBE_EITR_LLI_MOD" 0x00008000;
  Const "IXGBE_EITR_CNT_WDIS" 0x80000000;
  Fun1 "IXGBE_IVAR" (fun i => (0x00900 + (i * 4)));
  Const "IXGBE_IVAR_MISC" 0x00A00;
  Const "IXGBE_EITRSEL" 0x00894;
  Const "IXGBE_MSIXT" 0x00000;
  Const "IXGBE_MSIXPBA" 0x02000;
  Fun1 "IXGBE_PBACL" (fun i => (if (i =? 0) then 0x11068 else (0x110C0 + (i * 4))));
  Const "IXGBE_GPIE" 0x00898;
  Const "IXGBE_FCADBUL" 0x03210;
  Const "IXGBE_FCADBUH" 0x03214;
  Const "IXGBE_FCAMACL" 0x04328;
  Const "IXGBE_FCAMACH" 0x0432C;
  Fun1 "IXGBE_FCRTH_82599" (fun i => (0x03260 + (i * 4)));
  Fun1 "IXGBE_FCRTL_82599" (fun i => (0x03220 + (i * 4)));
  Const "IXGBE_PFCTOP" 0x03008;
  Fun1 "IXGBE_FCTTV" (fun i => (0x03200 + (i * 4)));
  Fun1 "IXGBE_FCRTL" (fun i => (0x03220 + (i * 8)));
  Fun1 "IXGBE_FCRTH" (fun i => (0x03260 + (i * 8)));
  Const "IXGBE_FCRTV" 0x032A0;
  Const "IXGBE_FCCFG" 0x03D00;
  Const "IXGBE_TFCS" 0x0CE00;
  Fun1 "IXGBE_RDBAL" (fun i => (if (i <? 64) then (0x01000 + (i * 0x40)) else (0x0D000 + ((i - 64) * 0x40))));
  Fun1 "IXGBE_RDBAH" (fun i => (if (i <? 64) then (0x01004 + (i * 0x40)) else (0x0D004 + ((i - 64) * 0x40))));
  Fun1 "IXGBE_RDLEN" (fun i => (if (i <? 64) then (0x01008 + (i * 0x40)) else (0x0D008 + ((i - 64) * 0x40))));
  Fun1 "IXGBE_RDH" (fun i => (if (i <? 64) then (0x01010 + (i * 0x40)) else (0x0D010 + ((i - 64) * 0x40))));
  Fun1 "IXGBE_RDT" (fun i => (if (i <? 64) then (0x01018 + (i * 0x40)) else (0x0D018 + ((i - 64) * 0x40))));
  Fun1 "IXGBE_RXDCTL" (fun i => (if (i <? 64) then (0x01028 + (i * 0x40)) else (0x0D028 + ((i - 64) * 0x40))));
  Fun1 "IXGBE_RSCCTL" (fun i => (if (i <? 64) then (0x0102C + (i * 0x40)) else (0x0D02C + ((i - 64) * 0x40))));
  Const "IXGBE_RSCDBU" 0x03028;
  Const "IXGBE_RDDCC" 0x02F20;
  Const "IXGBE_RXMEMWRAP" 0x03190;
  Const "IXGBE_STARCTRL" 0x03024;
  Fun1 "IXGBE_SRRCTL" (fun i => (if (i <=? 15) then (0x02100 + (i * 4)) else (if (i <? 64) then (0x01014 + (i * 0x40)) else (0x0D014 + ((i - 64) * 0x40)))));
  Fun1 "IXGBE_DCA_RXCTRL" (fun i => (if (i <=? 15) then (0x02200 + (i * 4)) else (if (i <? 64) then (0x0100C + (i * 0x40)) else (0x0D00C + ((i - 64) * 0x40)))));
  Const "IXGBE_RDRXCTL" 0x02F00;
  Fun1 "IXGBE_RXPBSIZE" (fun i => (0x03C00 + (i * 4)));
  Const "IXGBE_RXCTRL" 0x03000;
  Const "IXGBE_DROPEN" 0x03D04;
  Const "IXGBE_RXPBSIZE_SHIFT" 10;
  Const "IXGBE_RXPBSIZE_MASK" 0x000FFC00;
  Const "IXGBE_RXCSUM" 0x05000;
  Const "IXGBE_RFCTL" 0x05008;
  Const "IXGBE_DRECCCTL" 0x02F08;
  Const "IXGBE_DRECCCTL_DISABLE" 0;
  Const "IXGBE_DRECCCTL2" 0x02F8C;
  Fun1 "IXGBE_MTA" (fun i => (0x05200 + (i * 4)));
  Fun1 "IXGBE_RAL" (fun i => (if (i <=? 15) then (0x05400 + (i * 8)) else (0x0A200 + (i * 8))));
  Fun1 "IXGBE_RAH" (fun i => (if (i <=? 15) then (0x05404 + (i * 8)) else (0x0A204 + (i * 8))));
  Fun1 "IXGBE_MPSAR_LO" (fun i => (0x0A600 + (i * 8)));
  Fun1 "IXGBE_MPSAR_HI" (fun i => (0x0A604 + (i * 8)));
  Fun1 "IXGBE_PSRTYPE" (fun i => (if (i <=? 15) then (0x05480 + (i * 4)) else (0x0EA00 + (i * 4))));
  Fun1 "IXGBE_VFTA" (fun i => (0x0A000 + (i * 4)));
  Fun2 "IXGBE_VFTAVIND" (fun j i => ((0x0A200 + (j * 0x200)) + (i * 4)));
  Const "IXGBE_FCTRL" 0x05080;
  Const "IXGBE_VLNCTRL" 0x05088;
  Const "IXGBE_MCSTCTRL" 0x05090;
  Const "IXGBE_MRQC" 0x05818;
  Fun1 "IXGBE_SAQF" (fun i => (0x0E000 + (i * 4)));
  Fun1 "IXGBE_DAQF" (fun i => (0x0E200 + (i * 4)));
  Fun1 "IXGBE_SDPQF" (fun i => (0x0E400 + (i * 4)));
  Fun1 "IXGBE_FTQF" (fun i => (0x0E600 + (i * 4)));
  Fun1 "IXGBE_ETQF" (fun i => (0x05128 + (i * 4)));
  Fun1 "IXGBE_ETQS" (fun i => (0x0EC00 + (i * 4)));
  Const "IXGBE_SYNQF" 0x0EC30;
  Const "IXGBE_RQTC" 0x0EC70;
  Const "IXGBE_MTQC" 0x08120;
  Fun1 "IXGBE_VLVF" (fun i => (0x0F100 + (i * 4)));
  Fun1 "IXGBE_VLVFB" (fun i => (0x0F200 + (i * 4)));
  Fun1 "IXGBE_VMVIR" (fun i => (0x08000 + (i * 4)));
  Const "IXGBE_PFFLPL" 0x050B0;
  Const "IXGBE_PFFLPH" 0x050B4;
  Const "IXGBE_VT_CTL" 0x051B0;
  Fun1 "IXGBE_PFMAILBOX" (fun i => (0x04B00 + (4 * i)))
].

Definition mailbox_filter_and_transmit_registers : list macro := [
  Fun1 "IXGBE_PFMBMEM" (fun i => (0x13000 + (64 * i)));
  Fun1 "IXGBE_PFMBICR" (fun i => (0x00710 + (4 * i)));
  Fun1 "IXGBE_PFMBIMR" (fun i => (0x00720 + (4 * i)));
  Fun1 "IXGBE_VFRE" (fun i => (0x051E0 + (i * 4)));
  Fun1 "IXGBE_VFTE" (fun i => (0x08110 + (i * 4)));
  Fun1 "IXGBE_VMECM" (fun i => (0x08790 + (i * 4)));
  Const "IXGBE_QDE" 0x2F04;
  Fun1 "IXGBE_VMTXSW" (fun i => (0x05180 + (i * 4)));
  Fun1 "IXGBE_VMOLR" (fun i => (0x0F000 + (i * 4)));
  Fun1 "IXGBE_UTA" (fun i => (0x0F400 + (i * 4)));
  Fun1 "IXGBE_MRCTL" (fun i => (0x0F600 + (i * 4)));
  Fun1 "IXGBE_VMRVLAN" (fun i => (0x0F610 + (i * 4)));
  Fun1 "IXGBE_VMRVM" (fun i => (0x0F630 + (i * 4)));
  Const "IXGBE_LVMMC_RX" 0x2FA8;
  Const "IXGBE_LVMMC_TX" 0x8108;
  Const "IXGBE_LMVM_RX" 0x2FA4;
  Const "IXGBE_LMVM_TX" 0x8124;
  Fun1 "IXGBE_WQBR_RX" (fun i => (0x2FB0 + (i * 4)));
  Fun1 "IXGBE_WQBR_TX" (fun i => (0x8130 + (i * 4)));
  Fun1 "IXGBE_L34T_IMIR" (fun i => (0x0E800 + (i * 4)));
  Const "IXGBE_RXFECCERR0" 0x051B8;
  Const "IXGBE_LLITHRESH" 0x0EC90;
  Fun1 "IXGBE_IMIR" (fun i => (0x05A80 + (i * 4)));
  Fun1 "IXGBE_IMIREXT" (fun i => (0x05AA0 + (i * 4)));
  Const "IXGBE_IMIRVP" 0x05AC0;
  Const "IXGBE_VMD_CTL" 0x0581C;
  Fun1 "IXGBE_RETA" (fun i => (0x05C00 + (i * 4)));
  Fun1 "IXGBE_ERETA" (fun i => (0x0EE80 + (i * 4)));
  Fun1 "IXGBE_RSSRK" (fun i => (0x05C80 + (i * 4)));
  Fun1 "IXGBE_PFVFMRQC" (fun p => (0x03400 + (p * 4)));
  Fun2 "IXGBE_PFVFRSSRK" (fun i p => ((0x018000 + (i * 4)) + (p * 0x40)));
  Fun2 "IXGBE_PFVFRETA" (fun i p => ((0x019000 + (i * 4)) + (p * 0x40)));
  Const "IXGBE_FDIRCTRL" 0x0EE00;
  Const "IXGBE_FDIRHKEY" 0x0EE68;
  Const "IXGBE_FDIRSKEY" 0x0EE6C;
  Const "IXGBE_FDIRDIP4M" 0x0EE3C;
  Const "IXGBE_FDIRSIP4M" 0x0EE40;
  Const "IXGBE_FDIRTCPM" 0x0EE44;
  Const "IXGBE_FDIRUDPM" 0x0EE48;
  Const "IXGBE_FDIRSCTPM" 0x0EE78;
  Const "IXGBE_FDIRIP6M" 0x0EE74;
  Const "IXGBE_FDIRM" 0x0EE70;
  Const "IXGBE_FDIRFREE" 0x0EE38;
  Const "IXGBE_FDIRLEN" 0x0EE4C;
  Const "IXGBE_FDIRUSTAT" 0x0EE50;
  Const "IXGBE_FDIRFSTAT" 0x0EE54;
  Const "IXGBE_FDIRMATCH" 0x0EE58;
  Const "IXGBE_FDIRMISS" 0x0EE5C;
  Fun1 "IXGBE_FDIRSIPv6" (fun i => (0x0EE0C + (i * 4)));
  Const "IXGBE_FDIRIPSA" 0x0EE18;
  Const "IXGBE_FDIRIPDA" 0x0EE1C;
  Const "IXGBE_FDIRPORT" 0x0EE20;
  Const "IXGBE_FDIRVLAN" 0x0EE24;
  Const "IXGBE_FDIRHASH" 0x0EE28;
  Const "IXGBE_FDIRCMD" 0x0EE2C;
  Fun1 "IXGBE_TDBAL" (fun i => (0x06000 + (i * 0x40)));
  Fun1 "IXGBE_TDBAH" (fun i => (0x06004 + (i * 0x40)));
  Fun1 "IXGBE_TDLEN" (fun i => (0x06008 + (i * 0x40)));
  Fun1 "IXGBE_TDH" (fun i => (0x06010 + (i * 0x40)));
  Fun1 "IXGBE_TDT" (fun i => (0x06018 + (i * 0x40)));
  Fun1 "IXGBE_TXDCTL" (fun i => (0x06028 + (i * 0x40)));
  Fun1 "IXGBE_TDWBAL" (fun i => (0x06038 + (i * 0x40)));
  Fun1 "IXGBE_TDWBAH" (fun i => (0x0603C + (i * 0x40)));
  Const "IXGBE_DTXCTL" 0x07E00;
  Const "IXGBE_DMATXCTL" 0x04A80;
  Fun1 "IXGBE_PFVFSPOOF" (fun i => (0x08200 + (i * 4)));
  Const "IXGBE_PFDTXGSWC" 0x08220;
  Const "IXGBE_DTXMXSZRQ" 0x08100;
  Const "IXGBE_DTXTCPFLGL" 0x04A88;
  Const "IXGBE_DTXTCPFLGH" 0x04A8C;
  Const "IXGBE_LBDRPEN" 0x0CA00;
  Fun1 "IXGBE_TXPBTHRESH" (fun i => (0x04950 + (i * 4)));
  Const "IXGBE_DMATXCTL_TE" 0x1;
  Const "IXGBE_DMATXCTL_NS" 0x2;
  Const "IXGBE_DMATXCTL_GDV" 0x8;
  Const "IXGBE_DMATXCTL_MDP_EN" 0x20;
  Const "IXGBE_DMATXCTL_MBINTEN" 0x40;
  Const "IXGBE_DMATXCTL_VT_SHIFT" 16;
  Const "IXGBE_PFDTXGSWC_VT_LBEN" 0x1;
  Const "IXGBE_SPOOF_MACAS_MASK" 0xFF;
  Const "IXGBE_SPOOF_VLANAS_MASK" 0xFF00;
  Const "IXGBE_SPOOF_VLANAS_SHIFT" 8;
  Const "IXGBE_SPOOF_ETHERTYPEAS" 0xFF000000;
  Const "IXGBE_SPOOF_ETHERTYPEAS_SHIFT" 16;
  Const "IXGBE_PFVFSPOOF_REG_COUNT" 8;
  Fun1 "IXGBE_DCA_TXCTRL" (fun i => (0x07200 + (i * 4)));
  Fun1 "IXGBE_DCA_TXCTRL_82599" (fun i => (0x0600C + (i * 0x40)));
  Const "IXGBE_TIPG" 0x0CB00;
  Fun1 "IXGBE_TXPBSIZE" (fun i => (0x0CC00 + (i * 4)));
  Const "IXGBE_MNGTXMAP" 0x0CD10;
  Const "IXGBE_TIPG_FIBER_DEFAULT" 3;
  Const "IXGBE_TXPBSIZE_SHIFT" 10;
  Const "IXGBE_WUC" 0x05800;
  Const "IXGBE_WUFC" 0x05808;
  Const "IXGBE_WUS" 0x05810;
  Const "IXGBE_IPAV" 0x05838;
  Const "IXGBE_IP4AT" 0x05840;
  Const "IXGBE_IP6AT" 0x05880;
  Const "IXGBE_WUPL" 0x05900;
  Const "IXGBE_WUPM" 0x05A00;
  Const "IXGBE_PROXYS" 0x05F60;
  Const "IXGBE_PROXYFC" 0x05F64;
  Const "IXGBE_VXLANCTRL" 0x0000507C;
  Const "IXGBE_VXLANCTRL_VXLAN_UDPPORT_MASK" 0x0000ffff;
  Const "IXGBE_VXLANCTRL_GENEVE_UDPPORT_MASK" 0xffff0000;
  Const "IXGBE_VXLANCTRL_ALL_UDPPORT_MASK" 0xffffffff;
  Const "IXGBE_VXLANCTRL_GENEVE_UDPPORT_SHIFT" 16;
  Fun1 "IXGBE_FHFT" (fun n => (0x09000 + (n * 0x100)));
  Fun1 "IXGBE_FHFT_EXT" (fun n => (0x09800 + (n * 0x100)));
  Fun1 "IXGBE_FHFT_EXT_X550" (fun n => (0x09600 + (n * 0x100)));
  Const "IXGBE_FLEXIBLE_FILTER_COUNT_MAX" 4;
  Const "IXGBE_FLEXIBLE_FILTER_COUNT_MAX_6" 6;
  Const "IXGBE_FLEXIBLE_FILTER_COUNT_MAX_8" 8;
  Const "IXGBE_EXT_FLEXIBLE_FILTER_COUNT_MAX" 2
].

Definition wakeup_and_energy_registers : list macro := [
  Const "IXGBE_FLEXIBLE_FILTER_SIZE_MAX" 128;
  Const "IXGBE_FHFT_LENGTH_OFFSET" 0xFC;
  Const "IXGBE_FHFT_LENGTH_MASK" 0x0FF;
  Const "IXGBE_WUC_PME_EN" 0x00000002;
  Const "IXGBE_WUC_PME_STATUS" 0x00000004;
  Const "IXGBE_WUC_WKEN" 0x00000010;
  Const "IXGBE_WUFC_LNKC" 0x00000001;
  Const "IXGBE_WUFC_MAG" 0x00000002;
  Const "IXGBE_WUFC_EX" 0x00000004;
  Const "IXGBE_WUFC_MC" 0x00000008;
  Const "IXGBE_WUFC_BC" 0x00000010;
  Const "IXGBE_WUFC_ARP" 0x00000020;
  Const "IXGBE_WUFC_IPV4" 0x00000040;
  Const "IXGBE_WUFC_IPV6" 0x00000080;
  Const "IXGBE_WUFC_MNG" 0x00000100;
  Const "IXGBE_WUFC_IGNORE_TCO" 0x00008000;
  Const "IXGBE_WUFC_FLX0" 0x00010000;
  Const "IXGBE_WUFC_FLX1" 0x00020000;
  Const "IXGBE_WUFC_FLX2" 0x00040000;
  Const "IXGBE_WUFC_FLX3" 0x00080000;
  Const "IXGBE_WUFC_FLX4" 0x00100000;
  Const "IXGBE_WUFC_FLX5" 0x00200000;
  Const "IXGBE_WUFC_FLX_FILTERS" 0x000F0000;
  Const "IXGBE_WUFC_FLX_FILTERS_6" 0x003F0000;
  Const "IXGBE_WUFC_FLX_FILTERS_8" 0x00FF0000;
  Const "IXGBE_WUFC_FW_RST_WK" 0x80000000;
  Const "IXGBE_WUFC_EXT_FLX_FILTERS" 0x00300000;
  Const "IXGBE_WUFC_ALL_FILTERS" 0x000F00FF;
  Const "IXGBE_WUFC_ALL_FILTERS_6" 0x003F00FF;
  Const "IXGBE_WUFC_ALL_FILTERS_8" 0x00FF00FF;
  Const "IXGBE_WUFC_FLX_OFFSET" 16;
  Const "IXGBE_WUS_LNKC" 0x00000001;
  Const "IXGBE_WUS_MAG" 0x00000002;
  Const "IXGBE_WUS_EX" 0x00000004;
  Const "IXGBE_WUS_MC" 0x00000008;
  Const "IXGBE_WUS_BC" 0x00000010;
  Const "IXGBE_WUS_ARP" 0x00000020;
  Const "IXGBE_WUS_IPV4" 0x00000040;
  Const "IXGBE_WUS_IPV6" 0x00000080;
  Const "IXGBE_WUS_MNG" 0x00000100;
  Const "IXGBE_WUS_FLX0" 0x00010000;
  Const "IXGBE_WUS_FLX1" 0x00020000;
  Const "IXGBE_WUS_FLX2" 0x00040000;
  Const "IXGBE_WUS_FLX3" 0x00080000;
  Const "IXGBE_WUS_FLX4" 0x00100000;
  Const "IXGBE_WUS_FLX5" 0x00200000;
  Const "IXGBE_WUS_FLX_FILTERS" 0x000F0000;
  Const "IXGBE_WUS_FW_RST_WK" 0x80000000;
  Const "IXGBE_PROXYS_EX" 0x00000004;
  Const "IXGBE_PROXYS_ARP_DIR" 0x00000020;
  Const "IXGBE_PROXYS_NS" 0x00000200;
  Const "IXGBE_PROXYS_NS_DIR" 0x00000400;
  Const "IXGBE_PROXYS_ARP" 0x00000800;
  Const "IXGBE_PROXYS_MLD" 0x00001000;
  Const "IXGBE_PROXYFC_ENABLE" 0x00000001;
  Const "IXGBE_PROXYFC_EX" 0x00000004;
  Const "IXGBE_PROXYFC_ARP_DIR" 0x00000020;
  Const "IXGBE_PROXYFC_NS" 0x00000200;
  Const "IXGBE_PROXYFC_ARP" 0x00000800;
  Const "IXGBE_PROXYFC_MLD" 0x00000800;
  Const "IXGBE_PROXYFC_NO_TCO" 0x00008000;
  Const "IXGBE_WUPL_LENGTH_MASK" 0xFFFF;
  Const "IXGBE_DCB_MAX_TRAFFIC_CLASS" 8;
  Const "IXGBE_RMCS" 0x03D00;
  Const "IXGBE_DPMCS" 0x07F40;
  Const "IXGBE_PDPMCS" 0x0CD00;
  Const "IXGBE_RUPPBMR" 0x050A0;
  Fun1 "IXGBE_RT2CR" (fun i => (0x03C20 + (i * 4)));
  Fun1 "IXGBE_RT2SR" (fun i => (0x03C40 + (i * 4)));
  Fun1 "IXGBE_TDTQ2TCCR" (fun i => (0x0602C + (i * 0x40)));
  Fun1 "IXGBE_TDTQ2TCSR" (fun i => (0x0622C + (i * 0x40)));
  Fun1 "IXGBE_TDPT2TCCR" (fun i => (0x0CD20 + (i * 4)));
  Fun1 "IXGBE_TDPT2TCSR" (fun i => (0x0CD40 + (i * 4)));
  Const "IXGBE_DMACRXT_10G" 0x55;
  Const "IXGBE_DMACRXT_1G" 0x09;
  Const "IXGBE_DMACRXT_100M" 0x01;
  Const "IXGBE_DMCMNGTH" 0x15F20;
  Const "IXGBE_DMACR" 0x02400;
  Fun1 "IXGBE_DMCTH" (fun i => (0x03300 + (i * 4)));
  Const "IXGBE_DMCTLX" 0x02404;
  Const "IXGBE_DMCMNGTH_DMCMNGTH_MASK" 0x000FFFF0;
  Const "IXGBE_DMCMNGTH_DMCMNGTH_SHIFT" 4;
  Const "IXGBE_DMACR_DMACWT_MASK" 0x0000FFFF;
  Const "IXGBE_DMACR_HIGH_PRI_TC_MASK" 0x00FF0000;
  Const "IXGBE_DMACR_HIGH_PRI_TC_SHIFT" 16;
  Const "IXGBE_DMACR_EN_MNG_IND" 0x10000000;
  Const "IXGBE_DMACR_LX_COAL_IND" 0x40000000;
  Const "IXGBE_DMACR_DMAC_EN" 0x80000000;
  Const "IXGBE_DMCTH_DMACRXT_MASK" 0x000001FF;
  Const "IXGBE_DMCTLX_TTLX_MASK" 0x00000FFF;
  Const "IXGBE_EEER" 0x043A0;
  Const "IXGBE_EEE_STAT" 0x04398;
  Const "IXGBE_EEE_SU" 0x04380;
  Const "IXGBE_EEE_SU_TEEE_DLY_SHIFT" 26;
  Const "IXGBE_TLPIC" 0x041F4;
  Const "IXGBE_RLPIC" 0x041F8;
  Const "IXGBE_EEER_TX_LPI_EN" 0x00010000;
  Const "IXGBE_EEER_RX_LPI_EN" 0x00020000;
  Const "IXGBE_EEE_STAT_NEG" 0x20000000;
  Const "IXGBE_EEE_RX_LPI_STATUS" 0x40000000;
  Const "IXGBE_EEE_TX_LPI_STATUS" 0x80000000
].

Definition security_and_dcb_registers : list macro := [
  Const "IXGBE_SECTXCTRL" 0x08800;
  Const "IXGBE_SECTXSTAT" 0x08804;
  Const "IXGBE_SECTXBUFFAF" 0x08808;
  Const "IXGBE_SECTXMINIFG" 0x08810;
  Const "IXGBE_SECRXCTRL" 0x08D00;
  Const "IXGBE_SECRXSTAT" 0x08D04;
  Const "IXGBE_SECTXCTRL_SECTX_DIS" 0x00000001;
  Const "IXGBE_SECTXCTRL_TX_DIS" 0x00000002;
  Const "IXGBE_SECTXCTRL_STORE_FORWARD" 0x00000004;
  Const "IXGBE_SECTXSTAT_SECTX_RDY" 0x00000001;
  Const "IXGBE_SECTXSTAT_ECC_TXERR" 0x00000002;
  Const "IXGBE_SECRXCTRL_SECRX_DIS" 0x00000001;
  Const "IXGBE_SECRXCTRL_RX_DIS" 0x00000002;
  Const "IXGBE_SECRXSTAT_SECRX_RDY" 0x00000001;
  Const "IXGBE_SECRXSTAT_ECC_RXERR" 0x00000002;
  Const "IXGBE_LSECTXCAP" 0x08A00;
  Const "IXGBE_LSECRXCAP" 0x08F00;
  Const "IXGBE_LSECTXCTRL" 0x08A04;
  Const "IXGBE_LSECTXSCL" 0x08A08;
  Const "IXGBE_LSECTXSCH" 0x08A0C;
  Const "IXGBE_LSECTXSA" 0x08A10;
  Const "IXGBE_LSECTXPN0" 0x08A14;
  Const "IXGBE_LSECTXPN1" 0x08A18;
  Fun1 "IXGBE_LSECTXKEY0" (fun n => (0x08A1C + (4 * n)));
  Fun1 "IXGBE_LSECTXKEY1" (fun n => (0x08A2C + (4 * n)));
  Const "IXGBE_LSECRXCTRL" 0x08F04;
  Const "IXGBE_LSECRXSCL" 0x08F08;
  Const "IXGBE_LSECRXSCH" 0x08F0C;
  Fun1 "IXGBE_LSECRXSA" (fun i => (0x08F10 + (4 * i)));
  Fun1 "IXGBE_LSECRXPN" (fun i => (0x08F18 + (4 * i)));
  Fun2 "IXGBE_LSECRXKEY" (fun n m => (0x08F20 + ((0x10 * n) + (4 * m))));
  Const "IXGBE_LSECTXUT" 0x08A3C;
  Const "IXGBE_LSECTXPKTE" 0x08A40;
  Const "IXGBE_LSECTXPKTP" 0x08A44;
  Const "IXGBE_LSECTXOCTE" 0x08A48;
  Const "IXGBE_LSECTXOCTP" 0x08A4C;
  Const "IXGBE_LSECRXUT" 0x08F40;
  Const "IXGBE_LSECRXOCTD" 0x08F44;
  Const "IXGBE_LSECRXOCTV" 0x08F48;
  Const "IXGBE_LSECRXBAD" 0x08F4C;
  Const "IXGBE_LSECRXNOSCI" 0x08F50;
  Const "IXGBE_LSECRXUNSCI" 0x08F54;
  Const "IXGBE_LSECRXUNCH" 0x08F58;
  Const "IXGBE_LSECRXDELAY" 0x08F5C;
  Const "IXGBE_LSECRXLATE" 0x08F60;
  Fun1 "IXGBE_LSECRXOK" (fun n => (0x08F64 + (0x04 * n)));
  Fun1 "IXGBE_LSECRXINV" (fun n => (0x08F6C + (0x04 * n)));
  Fun1 "IXGBE_LSECRXNV" (fun n => (0x08F74 + (0x04 * n)));
  Const "IXGBE_LSECRXUNSA" 0x08F7C;
  Const "IXGBE_LSECRXNUSA" 0x08F80;
  Const "IXGBE_LSECTXCAP_SUM_MASK" 0x00FF0000;
  Const "IXGBE_LSECTXCAP_SUM_SHIFT" 16;
  Const "IXGBE_LSECRXCAP_SUM_MASK" 0x00FF0000;
  Const "IXGBE_LSECRXCAP_SUM_SHIFT" 16;
  Const "IXGBE_LSECTXCTRL_EN_MASK" 0x00000003;
  Const "IXGBE_LSECTXCTRL_DISABLE" 0x0;
  Const "IXGBE_LSECTXCTRL_AUTH" 0x1;
  Const "IXGBE_LSECTXCTRL_AUTH_ENCRYPT" 0x2;
  Const "IXGBE_LSECTXCTRL_AISCI" 0x00000020;
  Const "IXGBE_LSECTXCTRL_PNTHRSH_MASK" 0xFFFFFF00;
  Const "IXGBE_LSECTXCTRL_RSV_MASK" 0x000000D8;
  Const "IXGBE_LSECRXCTRL_EN_MASK" 0x0000000C;
  Const "IXGBE_LSECRXCTRL_EN_SHIFT" 2;
  Const "IXGBE_LSECRXCTRL_DISABLE" 0x0;
  Const "IXGBE_LSECRXCTRL_CHECK" 0x1;
  Const "IXGBE_LSECRXCTRL_STRICT" 0x2;
  Const "IXGBE_LSECRXCTRL_DROP" 0x3;
  Const "IXGBE_LSECRXCTRL_PLSH" 0x00000040;
  Const "IXGBE_LSECRXCTRL_RP" 0x00000080;
  Const "IXGBE_LSECRXCTRL_RSV_MASK" 0xFFFFFF33;
  Const "IXGBE_IPSTXIDX" 0x08900;
  Const "IXGBE_IPSTXSALT" 0x08904;
  Fun1 "IXGBE_IPSTXKEY" (fun i => (0x08908 + (4 * i)));
  Const "IXGBE_IPSRXIDX" 0x08E00;
  Fun1 "IXGBE_IPSRXIPADDR" (fun i => (0x08E04 + (4 * i)));
  Const "IXGBE_IPSRXSPI" 0x08E14;
  Const "IXGBE_IPSRXIPIDX" 0x08E18;
  Fun1 "IXGBE_IPSRXKEY" (fun i => (0x08E1C + (4 * i)));
  Const "IXGBE_IPSRXSALT" 0x08E2C;
  Const "IXGBE_IPSRXMOD" 0x08E30;
  Const "IXGBE_SECTXCTRL_STORE_FORWARD_ENABLE" 0x4;
  Const "IXGBE_RTRPCS" 0x02430;
  Const "IXGBE_RTTDCS" 0x04900;
  Const "IXGBE_RTTDCS_ARBDIS" 0x00000040;
  Const "IXGBE_RTTPCS" 0x0CD00;
  Const "IXGBE_RTRUP2TC" 0x03020;
  Const "IXGBE_RTTUP2TC" 0x0C800;
  Fun1 "IXGBE_RTRPT4C" (fun i => (0x02140 + (i * 4)));
  Fun1 "IXGBE_TXLLQ" (fun i => (0x082E0 + (i * 4)));
  Fun1 "IXGBE_RTRPT4S" (fun i => (0x02160 + (i * 4)));
  Fun1 "IXGBE_RTTDT2C" (fun i => (0x04910 + (i * 4)));
  Fun1 "IXGBE_RTTDT2S" (fun i => (0x04930 + (i * 4)));
  Fun1 "IXGBE_RTTPT2C" (fun i => (0x0CD20 + (i * 4)));
  Fun1 "IXGBE_RTTPT2S" (fun i => (0x0CD40 + (i * 4)));
  Const "IXGBE_RTTDQSEL" 0x04904;
  Const "IXGBE_RTTDT1C" 0x04908;
  Const "IXGBE_RTTDT1S" 0x0490C;
  Const "IXGBE_RTTDTECC" 0x04990;
  Const "IXGBE_RTTDTECC_NO_BCN" 0x00000100;
  Const "IXGBE_RTTBCNRC" 0x04984;
  Const "IXGBE_RTTBCNRC_RS_ENA" 0x80000000;
  Const "IXGBE_RTTBCNRC_RF_DEC_MASK" 0x00003FFF;
  Const "IXGBE_RTTBCNRC_RF_INT_SHIFT" 14;
  Const "IXGBE_RTTBCNRC_RF_INT_MASK" (Z.shiftl 0x00003FFF 14);
  Const "IXGBE_RTTBCNRM" 0x04980;
  Const "IXGBE_RTTBCNRS" 0x04988;
  Const "IXGBE_RTTBCNCR" 0x08B00;
  Const "IXGBE_RTTBCNACH" 0x08B04;
  Const "IXGBE_RTTBCNACL" 0x08B08;
  Const "IXGBE_RTTBCNTG" 0x04A90;
  Const "IXGBE_RTTBCNIDX" 0x08B0C;
  Const "IXGBE_RTTBCNCP" 0x08B10;
  Const "IXGBE_RTFRTIMER" 0x08B14;
  Const "IXGBE_RTTBCNRTT" 0x05150;
  Const "IXGBE_RTTBCNRD" 0x0498C
].

Definition fcoe_registers : list macro := [
  Fun2 "IXGBE_FCDDC" (fun i j => ((0x20000 + (i * 0x4)) + (j * 0x10)));
  Const "IXGBE_FCPTRL" 0x02410;
  Const "IXGBE_FCPTRH" 0x02414;
  Const "IXGBE_FCBUFF" 0x02418;
  Const "IXGBE_FCDMARW" 0x02420;
  Const "IXGBE_FCBUFF_VALID" (Z.shiftl 1 0);
  Const "IXGBE_FCBUFF_BUFFSIZE" (Z.shiftl 3 3);
  Const "IXGBE_FCBUFF_WRCONTX" (Z.shiftl 1 7);
  Const "IXGBE_FCBUFF_BUFFCNT" 0x0000ff00;
  Const "IXGBE_FCBUFF_OFFSET" 0xffff0000;
  Const "IXGBE_FCBUFF_BUFFSIZE_SHIFT" 3;
  Const "IXGBE_FCBUFF_BUFFCNT_SHIFT" 8;
  Const "IXGBE_FCBUFF_OFFSET_SHIFT" 16;
  Const "IXGBE_FCDMARW_WE" (Z.shiftl 1 14);
  Const "IXGBE_FCDMARW_RE" (Z.shiftl 1 15);
  Const "IXGBE_FCDMARW_FCOESEL" 0x000001ff;
  Const "IXGBE_FCDMARW_LASTSIZE" 0xffff0000;
  Const "IXGBE_FCDMARW_LASTSIZE_SHIFT" 16;
  Const "IXGBE_TEOFF" 0x04A94;
  Const "IXGBE_TSOFF" 0x04A98;
  Const "IXGBE_REOFF" 0x05158;
  Const "IXGBE_RSOFF" 0x051F8;
  Const "IXGBE_FCD_ID" 0x05114;
  Const "IXGBE_FCSMAC" 0x0510C;
  Const "IXGBE_FCFLTRW_SMAC_HIGH_SHIFT" 16;
  Fun2 "IXGBE_FCDFC" (fun i j => ((0x28000 + (i * 0x4)) + (j * 0x10)));
  Fun1 "IXGBE_FCDFCD" (fun i => (0x30000 + (i * 0x4)));
  Const "IXGBE_FCFLT" 0x05108;
  Const "IXGBE_FCFLTRW" 0x05110;
  Const "IXGBE_FCPARAM" 0x051d8;
  Const "IXGBE_FCFLT_VALID" (Z.shiftl 1 0);
  Const "IXGBE_FCFLT_FIRST" (Z.shiftl 1 1);
  Const "IXGBE_FCFLT_SEQID" 0x00ff0000;
  Const "IXGBE_FCFLT_SEQCNT" 0xff000000;
  Const "IXGBE_FCFLTRW_RVALDT" (Z.shiftl 1 13);
  Const "IXGBE_FCFLTRW_WE" (Z.shiftl 1 14);
  Const "IXGBE_FCFLTRW_RE" (Z.shiftl 1 15);
  Const "IXGBE_FCRXCTRL" 0x05100;
  Const "IXGBE_FCRXCTRL_FCOELLI" (Z.shiftl 1 0);
  Const "IXGBE_FCRXCTRL_SAVBAD" (Z.shiftl 1 1);
  Const "IXGBE_FCRXCTRL_FRSTRDH" (Z.shiftl 1 2);
  Const "IXGBE_FCRXCTRL_LASTSEQH" (Z.shiftl 1 3);
  Const "IXGBE_FCRXCTRL_ALLH" (Z.shiftl 1 4);
  Const "IXGBE_FCRXCTRL_FRSTSEQH" (Z.shiftl 1 5);
  Const "IXGBE_FCRXCTRL_ICRC" (Z.shiftl 1 6);
  Const "IXGBE_FCRXCTRL_FCCRCBO" (Z.shiftl 1 7);
  Const "IXGBE_FCRXCTRL_FCOEVER" 0x00000f00;
  Const "IXGBE_FCRXCTRL_FCOEVER_SHIFT" 8;
  Const "IXGBE_FCRECTL" 0x0ED00;
  Const "IXGBE_FCRETA0" 0x0ED10;
  Fun1 "IXGBE_FCRETA" (fun i => (0x0ED10 + (i * 4)));
  Const "IXGBE_FCRECTL_ENA" 0x1;
  Const "IXGBE_FCRETASEL_ENA" 0x2;
  Const "IXGBE_FCRETA_SIZE" 8;
  Const "IXGBE_FCRETA_ENTRY_MASK" 0x0000007f;
  Const "IXGBE_FCRETA_SIZE_X550" 32;
  Const "IXGBE_FCRETA_ENTRY_HIGH_MASK" 0x007F0000;
  Const "IXGBE_FCRETA_ENTRY_HIGH_SHIFT" 16
].

Definition statistics_and_management_registers : list macro := [
  Const "IXGBE_CRCERRS" 0x04000;
  Const "IXGBE_ILLERRC" 0x04004;
  Const "IXGBE_ERRBC" 0x04008;
  Const "IXGBE_MSPDC" 0x04010;
  Fun1 "IXGBE_MPC" (fun i => (0x03FA0 + (i * 4)));
  Const "IXGBE_MLFC" 0x04034;
  Const "IXGBE_MRFC" 0x04038;
  Const "IXGBE_RLEC" 0x04040;
  Const "IXGBE_LXONTXC" 0x03F60;
  Const "IXGBE_LXONRXC" 0x0CF60;
  Const "IXGBE_LXOFFTXC" 0x03F68;
  Const "IXGBE_LXOFFRXC" 0x0CF68;
  Const "IXGBE_LXONRXCNT" 0x041A4;
  Const "IXGBE_LXOFFRXCNT" 0x041A8;
  Fun1 "IXGBE_PXONRXCNT" (fun i => (0x04140 + (i * 4)));
  Fun1 "IXGBE_PXOFFRXCNT" (fun i => (0x04160 + (i * 4)));
  Fun1 "IXGBE_PXON2OFFCNT" (fun i => (0x03240 + (i * 4)));
  Fun1 "IXGBE_PXONTXC" (fun i => (0x03F00 + (i * 4)));
  Fun1 "IXGBE_PXONRXC" (fun i => (0x0CF00 + (i * 4)));
  Fun1 "IXGBE_PXOFFTXC" (fun i => (0x03F20 + (i * 4)));
  Fun1 "IXGBE_PXOFFRXC" (fun i => (0x0CF20 + (i * 4)));
  Const "IXGBE_PRC64" 0x0405C;
  Const "IXGBE_PRC127" 0x04060;
  Const "IXGBE_PRC255" 0x04064;
  Const "IXGBE_PRC511" 0x04068;
  Const "IXGBE_PRC1023" 0x0406C;
  Const "IXGBE_PRC1522" 0x04070;
  Const "IXGBE_GPRC" 0x04074;
  Const "IXGBE_BPRC" 0x04078;
  Const "IXGBE_MPRC" 0x0407C;
  Const "IXGBE_GPTC" 0x04080;
  Const "IXGBE_GORCL" 0x04088;
  Const "IXGBE_GORCH" 0x0408C;
  Const "IXGBE_GOTCL" 0x04090;
  Const "IXGBE_GOTCH" 0x04094;
  Fun1 "IXGBE_RNBC" (fun i => (0x03FC0 + (i * 4)));
  Const "IXGBE_RUC" 0x040A4;
  Const "IXGBE_RFC" 0x040A8;
  Const "IXGBE_ROC" 0x040AC;
  Const "IXGBE_RJC" 0x040B0;
  Const "IXGBE_MNGPRC" 0x040B4;
  Const "IXGBE_MNGPDC" 0x040B8;
  Const "IXGBE_MNGPTC" 0x0CF90;
  Const "IXGBE_TORL" 0x040C0;
  Const "IXGBE_TORH" 0x040C4;
  Const "IXGBE_TPR" 0x040D0;
  Const "IXGBE_TPT" 0x040D4;
  Const "IXGBE_PTC64" 0x040D8;
  Const "IXGBE_PTC127" 0x040DC;
  Const "IXGBE_PTC255" 0x040E0;
  Const "IXGBE_PTC511" 0x040E4;
  Const "IXGBE_PTC1023" 0x040E8;
  Const "IXGBE_PTC1522" 0x040EC;
  Const "IXGBE_MPTC" 0x040F0;
  Const "IXGBE_BPTC" 0x040F4;
  Const "IXGBE_XEC" 0x04120;
  Const "IXGBE_SSVPC" 0x08780;
  Fun1 "IXGBE_RQSMR" (fun i => (0x02300 + (i * 4)));
  Fun1 "IXGBE_TQSMR" (fun i => (if (i <=? 7) then (0x07300 + (i * 4)) else (0x08600 + (i * 4))));
  Fun1 "IXGBE_TQSM" (fun i => (0x08600 + (i * 4)));
  Fun1 "IXGBE_QPRC" (fun i => (0x01030 + (i * 0x40)));
  Fun1 "IXGBE_QPTC" (fun i => (0x06030 + (i * 0x40)));
  Fun1 "IXGBE_QBRC" (fun i => (0x01034 + (i * 0x40)));
  Fun1 "IXGBE_QBTC" (fun i => (0x06034 + (i * 0x40)));
  Fun1 "IXGBE_QBRC_L" (fun i => (0x01034 + (i * 0x40)));
  Fun1 "IXGBE_QBRC_H" (fun i => (0x01038 + (i * 0x40)));
  Fun1 "IXGBE_QPRDC" (fun i => (0x01430 + (i * 0x40)));
  Fun1 "IXGBE_QBTC_L" (fun i => (0x08700 + (i * 0x8)));
  Fun1 "IXGBE_QBTC_H" (fun i => (0x08704 + (i * 0x8)));
  Const "IXGBE_FCCRC" 0x05118;
  Const "IXGBE_FCOERPDC" 0x0241C;
  Const "IXGBE_FCLAST" 0x02424;
  Const "IXGBE_FCOEPRC" 0x02428;
  Const "IXGBE_FCOEDWRC" 0x0242C;
  Const "IXGBE_FCOEPTC" 0x08784;
  Const "IXGBE_FCOEDWTC" 0x08788;
  Const "IXGBE_FCCRC_CNT_MASK" 0x0000FFFF;
  Const "IXGBE_FCLAST_CNT_MASK" 0x0000FFFF;
  Const "IXGBE_O2BGPTC" 0x041C4;
  Const "IXGBE_O2BSPC" 0x087B0;
  Const "IXGBE_B2OSPC" 0x041C0;
  Const "IXGBE_B2OGPRC" 0x02F90;
  Const "IXGBE_BUPRC" 0x04180;
  Const "IXGBE_BMPRC" 0x04184;
  Const "IXGBE_BBPRC" 0x04188;
  Const "IXGBE_BUPTC" 0x0418C;
  Const "IXGBE_BMPTC" 0x04190;
  Const "IXGBE_BBPTC" 0x04194;
  Const "IXGBE_BCRCERRS" 0x04198;
  Const "IXGBE_BXONRXC" 0x0419C;
  Const "IXGBE_BXOFFRXC" 0x041E0;
  Const "IXGBE_BXONTXC" 0x041E4;
  Const "IXGBE_BXOFFTXC" 0x041E8;
  Fun1 "IXGBE_MAVTV" (fun i => (0x05010 + (i * 4)));
  Fun1 "IXGBE_MFUTP" (fun i => (0x05030 + (i * 4)));
  Const "IXGBE_MANC" 0x05820;
  Const "IXGBE_MFVAL" 0x05824;
  Const "IXGBE_MANC2H" 0x05860;
  Fun1 "IXGBE_MDEF" (fun i => (0x05890 + (i * 4)));
  Const "IXGBE_MIPAF" 0x058B0;
  Fun1 "IXGBE_MMAL" (fun i => (0x05910 + (i * 8)));
  Fun1 "IXGBE_MMAH" (fun i => (0x05914 + (i * 8)));
  Const "IXGBE_FTFT" 0x09400;
  Fun1 "IXGBE_METF" (fun i => (0x05190 + (i * 4)));
  Fun1 "IXGBE_MDEF_EXT" (fun i => (0x05160 + (i * 4)));
  Const "IXGBE_LSWFW" 0x15F14;
  Fun1 "IXGBE_BMCIP" (fun i => (0x05050 + (i * 4)));
  Const "IXGBE_BMCIPVAL" 0x05060;
  Const "IXGBE_BMCIP_IPADDR_TYPE" 0x00000001;
  Const "IXGBE_BMCIP_IPADDR_VALID" 0x00000002;
  Const "IXGBE_MANC_MPROXYE" 0x40000000;
  Const "IXGBE_MANC_RCV_TCO_EN" 0x00020000;
  Const "IXGBE_MANC_EN_BMC2OS" 0x10000000;
  Const "IXGBE_MANC_EN_BMC2OS_SHIFT" 28;
  Const "IXGBE_FWSM_MODE_MASK" 0xE;
  Const "IXGBE_FWSM_TS_ENABLED" 0x1;
  Const "IXGBE_FWSM_FW_MODE_PT" 0x4;
  Const "IXGBE_HICR" 0x15F00;
  Const "IXGBE_FWSTS" 0x15F0C;
  Const "IXGBE_HSMC0R" 0x15F04;
  Const "IXGBE_HSMC1R" 0x15F08;
  Const "IXGBE_SWSR" 0x15F10;
  Const "IXGBE_HFDR" 0x15FE8;
  Const "IXGBE_FLEX_MNG" 0x15800;
  Const "IXGBE_HICR_EN" 0x01;
  Const "IXGBE_HICR_C" 0x02;
  Const "IXGBE_HICR_SV" 0x04;
  Const "IXGBE_HICR_FW_RESET_ENABLE" 0x40;
  Const "IXGBE_HICR_FW_RESET" 0x80
].

Definition pcie_registers : list macro := [
  Const "IXGBE_GCR" 0x11000;
  Const "IXGBE_GTV" 0x11004;
  Const "IXGBE_FUNCTAG" 0x11008;
  Const "IXGBE_GLT" 0x1100C;
  Const "IXGBE_PCIEPIPEADR" 0x11004;
  Const "IXGBE_PCIEPIPEDAT" 0x11008;
  Const "IXGBE_GSCL_1" 0x11010;
  Const "IXGBE_GSCL_2" 0x11014;
  Const "IXGBE_GSCL_1_X540" 0x11010;
  Const "IXGBE_GSCL_2_X540" 0x11014;
  Const "IXGBE_GSCL_3" 0x11018;
  Const "IXGBE_GSCL_4" 0x1101C;
  Const "IXGBE_GSCN_0" 0x11020;
  Const "IXGBE_GSCN_1" 0x11024;
  Const "IXGBE_GSCN_2" 0x11028;
  Const "IXGBE_GSCN_3" 0x1102C;
  Const "IXGBE_GSCN_0_X540" 0x11020;
  Const "IXGBE_GSCN_1_X540" 0x11024;
  Const "IXGBE_GSCN_2_X540" 0x11028;
  Const "IXGBE_GSCN_3_X540" 0x1102C;
  Const "IXGBE_FACTPS" 0x10150;
  Const "IXGBE_FACTPS_X540" 0x10150;
  Const "IXGBE_GSCL_1_X550" 0x11800;
  Const "IXGBE_GSCL_2_X550" 0x11804;
  Const "IXGBE_GSCL_1_X550EM_x" 0x11800;
  Const "IXGBE_GSCL_2_X550EM_x" 0x11804;
  Const "IXGBE_GSCN_0_X550" 0x11820;
  Const "IXGBE_GSCN_1_X550" 0x11824;
  Const "IXGBE_GSCN_2_X550" 0x11828;
  Const "IXGBE_GSCN_3_X550" 0x1182C;
  Const "IXGBE_GSCN_0_X550EM_x" 0x11820;
  Const "IXGBE_GSCN_1_X550EM_x" 0x11824;
  Const "IXGBE_GSCN_2_X550EM_x" 0x11828;
  Const "IXGBE_GSCN_3_X550EM_x" 0x1182C;
  Const "IXGBE_FACTPS_X550" 0x10150;
  Const "IXGBE_FACTPS_X550EM_x" 0x10150;
  Const "IXGBE_GSCL_1_X550EM_a" 0x11800;
  Const "IXGBE_GSCL_2_X550EM_a" 0x11804;
  Const "IXGBE_GSCN_0_X550EM_a" 0x11820;
  Const "IXGBE_GSCN_1_X550EM_a" 0x11824;
  Const "IXGBE_GSCN_2_X550EM_a" 0x11828;
  Const "IXGBE_GSCN_3_X550EM_a" 0x1182C;
  Const "IXGBE_FACTPS_X550EM_a" 0x15FEC;
  Fun1 "IXGBE_FACTPS_BY_MAC" (fun hw => 0);
  Const "IXGBE_PCIEANACTL" 0x11040;
  Const "IXGBE_SWSM" 0x10140;
  Const "IXGBE_SWSM_X540" 0x10140;
  Const "IXGBE_SWSM_X550" 0x10140;
  Const "IXGBE_SWSM_X550EM_x" 0x10140;
  Const "IXGBE_SWSM_X550EM_a" 0x15F70;
  Fun1 "IXGBE_SWSM_BY_MAC" (fun hw => 0);
  Const "IXGBE_FWSM" 0x10148;
  Const "IXGBE_FWSM_X540" 0x10148;
  Const "IXGBE_FWSM_X550" 0x10148;
  Const "IXGBE_FWSM_X550EM_x" 0x10148;
  Const "IXGBE_FWSM_X550EM_a" 0x15F74;
  Fun1 "IXGBE_FWSM_BY_MAC" (fun hw => 0);
  Const "IXGBE_SWFW_SYNC" 0x10160;
  Const "IXGBE_SWFW_SYNC_X540" 0x10160;
  Const "IXGBE_SWFW_SYNC_X550" 0x10160;
  Const "IXGBE_SWFW_SYNC_X550EM_x" 0x10160;
  Const "IXGBE_SWFW_SYNC_X550EM_a" 0x15F78;
  Fun1 "IXGBE_SWFW_SYNC_BY_MAC" (fun hw => 0);
  Const "IXGBE_GSSR" 0x10160;
  Const "IXGBE_MREVID" 0x11064;
  Const "IXGBE_DCA_ID" 0x11070;
  Const "IXGBE_DCA_CTRL" 0x11074;
  Const "IXGBE_GCR_EXT" 0x11050;
  Const "IXGBE_GSCL_5_82599" 0x11030;
  Const "IXGBE_GSCL_6_82599" 0x11034;
  Const "IXGBE_GSCL_7_82599" 0x11038;
  Const "IXGBE_GSCL_8_82599" 0x1103C;
  Const "IXGBE_GSCL_5_X540" 0x11030;
  Const "IXGBE_GSCL_6_X540" 0x11034;
  Const "IXGBE_GSCL_7_X540" 0x11038;
  Const "IXGBE_GSCL_8_X540" 0x1103C;
  Const "IXGBE_PHYADR_82599" 0x11040;
  Const "IXGBE_PHYDAT_82599" 0x11044;
  Const "IXGBE_PHYCTL_82599" 0x11048;
  Const "IXGBE_PBACLR_82599" 0x11068;
  Const "IXGBE_CIAA" 0x11088;
  Const "IXGBE_CIAD" 0x1108C;
  Const "IXGBE_CIAA_82599" 0x11088;
  Const "IXGBE_CIAD_82599" 0x1108C;
  Const "IXGBE_CIAA_X540" 0x11088;
  Const "IXGBE_CIAD_X540" 0x1108C;
  Const "IXGBE_GSCL_5_X550" 0x11810;
  Const "IXGBE_GSCL_6_X550" 0x11814;
  Const "IXGBE_GSCL_7_X550" 0x11818;
  Const "IXGBE_GSCL_8_X550" 0x1181C;
  Const "IXGBE_GSCL_5_X550EM_x" 0x11810;
  Const "IXGBE_GSCL_6_X550EM_x" 0x11814;
  Const "IXGBE_GSCL_7_X550EM_x" 0x11818;
  Const "IXGBE_GSCL_8_X550EM_x" 0x1181C;
  Const "IXGBE_CIAA_X550" 0x11508;
  Const "IXGBE_CIAD_X550" 0x11510;
  Const "IXGBE_CIAA_X550EM_x" 0x11508;
  Const "IXGBE_CIAD_X550EM_x" 0x11510;
  Const "IXGBE_GSCL_5_X550EM_a" 0x11810;
  Const "IXGBE_GSCL_6_X550EM_a" 0x11814;
  Const "IXGBE_GSCL_7_X550EM_a" 0x11818;
  Const "IXGBE_GSCL_8_X550EM_a" 0x1181C;
  Const "IXGBE_CIAA_X550EM_a" 0x11508;
  Const "IXGBE_CIAD_X550EM_a" 0x11510;
  Fun1 "IXGBE_CIAA_BY_MAC" (fun hw => 0);
  Fun1 "IXGBE_CIAD_BY_MAC" (fun hw => 0);
  Const "IXGBE_PICAUSE" 0x110B0;
  Const "IXGBE_PIENA" 0x110B8;
  Const "IXGBE_CDQ_MBR_82599" 0x110B4;
  Const "IXGBE_PCIESPARE" 0x110BC;
  Const "IXGBE_MISC_REG_82599" 0x110F0;
  Const "IXGBE_ECC_CTRL_0_82599" 0x11100;
  Const "IXGBE_ECC_CTRL_1_82599" 0x11104;
  Const "IXGBE_ECC_STATUS_82599" 0x110E0;
  Const "IXGBE_BAR_CTRL_82599" 0x110F4;
  Const "IXGBE_GCR_CMPL_TMOUT_MASK" 0x0000F000;
  Const "IXGBE_GCR_CMPL_TMOUT_10ms" 0x00001000;
  Const "IXGBE_GCR_CMPL_TMOUT_RESEND" 0x00010000;
  Const "IXGBE_GCR_CAP_VER2" 0x00040000;
  Const "IXGBE_GCR_EXT_MSIX_EN" 0x80000000;
  Const "IXGBE_GCR_EXT_BUFFERS_CLEAR" 0x40000000;
  Const "IXGBE_GCR_EXT_VT_MODE_16" 0x00000001;
  Const "IXGBE_GCR_EXT_VT_MODE_32" 0x00000002;
  Const "IXGBE_GCR_EXT_VT_MODE_64" 0x00000003;
  Const "IXGBE_GCR_EXT_SRIOV" (Z.lor 0x80000000 0x00000003);
  Const "IXGBE_GCR_EXT_VT_MODE_MASK" 0x00000003
].

Definition time_sync_and_diagnostic_registers : list macro := [
  Const "IXGBE_TSYNCRXCTL" 0x05188;
  Const "IXGBE_TSYNCTXCTL" 0x08C00;
  Const "IXGBE_RXSTMPL" 0x051E8;
  Const "IXGBE_RXSTMPH" 0x051A4;
  Const "IXGBE_RXSATRL" 0x051A0;
  Const "IXGBE_RXSATRH" 0x051A8;
  Const "IXGBE_RXMTRL" 0x05120;
  Const "IXGBE_TXSTMPL" 0x08C04;
  Const "IXGBE_TXSTMPH" 0x08C08;
  Const "IXGBE_SYSTIML" 0x08C0C;
  Const "IXGBE_SYSTIMH" 0x08C10;
  Const "IXGBE_SYSTIMR" 0x08C58;
  Const "IXGBE_TIMINCA" 0x08C14;
  Const "IXGBE_TIMADJL" 0x08C18;
  Const "IXGBE_TIMADJH" 0x08C1C;
  Const "IXGBE_TSAUXC" 0x08C20;
  Const "IXGBE_TRGTTIML0" 0x08C24;
  Const "IXGBE_TRGTTIMH0" 0x08C28;
  Const "IXGBE_TRGTTIML1" 0x08C2C;
  Const "IXGBE_TRGTTIMH1" 0x08C30;
  Const "IXGBE_CLKTIML" 0x08C34;
  Const "IXGBE_CLKTIMH" 0x08C38;
  Const "IXGBE_FREQOUT0" 0x08C34;
  Const "IXGBE_FREQOUT1" 0x08C38;
  Const "IXGBE_AUXSTMPL0" 0x08C3C;
  Const "IXGBE_AUXSTMPH0" 0x08C40;
  Const "IXGBE_AUXSTMPL1" 0x08C44;
  Const "IXGBE_AUXSTMPH1" 0x08C48;
  Const "IXGBE_TSIM" 0x08C68;
  Const "IXGBE_TSICR" 0x08C60;
  Const "IXGBE_TSSDP" 0x0003C;
  Const "IXGBE_RDSTATCTL" 0x02C20;
  Fun1 "IXGBE_RDSTAT" (fun i => (0x02C00 + (i * 4)));
  Const "IXGBE_RDHMPN" 0x02F08;
  Fun1 "IXGBE_RIC_DW" (fun i => (0x02F10 + (i * 4)));
  Const "IXGBE_RDPROBE" 0x02F20;
  Const "IXGBE_RDMAM" 0x02F30;
  Const "IXGBE_RDMAD" 0x02F34;
  Const "IXGBE_TDHMPN" 0x07F08;
  Const "IXGBE_TDHMPN2" 0x082FC;
  Const "IXGBE_TXDESCIC" 0x082CC;
  Fun1 "IXGBE_TIC_DW" (fun i => (0x07F10 + (i * 4)));
  Fun1 "IXGBE_TIC_DW2" (fun i => (0x082B0 + (i * 4)));
  Const "IXGBE_TDPROBE" 0x07F20;
  Const "IXGBE_TXBUFCTRL" 0x0C600;
  Const "IXGBE_TXBUFDATA0" 0x0C610;
  Const "IXGBE_TXBUFDATA1" 0x0C614;
  Const "IXGBE_TXBUFDATA2" 0x0C618;
  Const "IXGBE_TXBUFDATA3" 0x0C61C;
  Const "IXGBE_RXBUFCTRL" 0x03600;
  Const "IXGBE_RXBUFDATA0" 0x03610;
  Const "IXGBE_RXBUFDATA1" 0x03614;
  Const "IXGBE_RXBUFDATA2" 0x03618;
  Const "IXGBE_RXBUFDATA3" 0x0361C;
  Fun1 "IXGBE_PCIE_DIAG" (fun i => (0x11090 + (i * 4)));
  Const "IXGBE_RFVAL" 0x050A4;
  Const "IXGBE_MDFTC1" 0x042B8;
  Const "IXGBE_MDFTC2" 0x042C0;
  Const "IXGBE_MDFTFIFO1" 0x042C4;
  Const "IXGBE_MDFTFIFO2" 0x042C8;
  Const "IXGBE_MDFTS" 0x042CC;
  Fun1 "IXGBE_RXDATAWRPTR" (fun i => (0x03700 + (i * 4)));
  Fun1 "IXGBE_RXDESCWRPTR" (fun i => (0x03710 + (i * 4)));
  Fun1 "IXGBE_RXDATARDPTR" (fun i => (0x03720 + (i * 4)));
  Fun1 "IXGBE_RXDESCRDPTR" (fun i => (0x03730 + (i * 4)));
  Fun1 "IXGBE_TXDATAWRPTR" (fun i => (0x0C700 + (i * 4)));
  Fun1 "IXGBE_TXDESCWRPTR" (fun i => (0x0C710 + (i * 4)));
  Fun1 "IXGBE_TXDATARDPTR" (fun i => (0x0C720 + (i * 4)));
  Fun1 "IXGBE_TXDESCRDPTR" (fun i => (0x0C730 + (i * 4)));
  Const "IXGBE_PCIEECCCTL" 0x1106C;
  Fun1 "IXGBE_RXWRPTR" (fun i => (0x03100 + (i * 4)));
  Fun1 "IXGBE_RXUSED" (fun i => (0x03120 + (i * 4)));
  Fun1 "IXGBE_RXRDPTR" (fun i => (0x03140 + (i * 4)));
  Fun1 "IXGBE_RXRDWRPTR" (fun i => (0x03160 + (i * 4)));
  Fun1 "IXGBE_TXWRPTR" (fun i => (0x0C100 + (i * 4)));
  Fun1 "IXGBE_TXUSED" (fun i => (0x0C120 + (i * 4)));
  Fun1 "IXGBE_TXRDPTR" (fun i => (0x0C140 + (i * 4)));
  Fun1 "IXGBE_TXRDWRPTR" (fun i => (0x0C160 + (i * 4)));
  Const "IXGBE_PCIEECCCTL0" 0x11100;
  Const "IXGBE_PCIEECCCTL1" 0x11104;
  Const "IXGBE_RXDBUECC" 0x03F70;
  Const "IXGBE_TXDBUECC" 0x0CF70;
  Const "IXGBE_RXDBUEST" 0x03F74;
  Const "IXGBE_TXDBUEST" 0x0CF74;
  Const "IXGBE_PBTXECC" 0x0C300;
  Const "IXGBE_PBRXECC" 0x03300;
  Const "IXGBE_GHECCR" 0x110B0;
  Const "IXGBE_PCS1GCFIG" 0x04200;
  Const "IXGBE_PCS1GLCTL" 0x04208;
  Const "IXGBE_PCS1GLSTA" 0x0420C;
  Const "IXGBE_PCS1GDBG0" 0x04210;
  Const "IXGBE_PCS1GDBG1" 0x04214;
  Const "IXGBE_PCS1GANA" 0x04218;
  Const "IXGBE_PCS1GANLP" 0x0421C;
  Const "IXGBE_PCS1GANNP" 0x04220;
  Const "IXGBE_PCS1GANLPNP" 0x04224;
  Const "IXGBE_HLREG0" 0x04240;
  Const "IXGBE_HLREG1" 0x04244;
  Const "IXGBE_PAP" 0x04248;
  Const "IXGBE_MACA" 0x0424C;
  Const "IXGBE_APAE" 0x04250;
  Const "IXGBE_ARD" 0x04254;
  Const "IXGBE_AIS" 0x04258;
  Const "IXGBE_MSCA" 0x0425C;
  Const "IXGBE_MSRWD" 0x04260;
  Const "IXGBE_MLADD" 0x04264;
  Const "IXGBE_MHADD" 0x04268;
  Const "IXGBE_MAXFRS" 0x04268;
  Const "IXGBE_TREG" 0x0426C;
  Const "IXGBE_PCSS1" 0x04288;
  Const "IXGBE_PCSS2" 0x0428C;
  Const "IXGBE_XPCSS" 0x04290;
  Const "IXGBE_MFLCN" 0x04294;
  Const "IXGBE_SERDESC" 0x04298;
  Const "IXGBE_MAC_SGMII_BUSY" 0x04298;
  Const "IXGBE_MACS" 0x0429C;
  Const "IXGBE_AUTOC" 0x042A0;
  Const "IXGBE_LINKS" 0x042A4;
  Const "IXGBE_LINKS2" 0x04324;
  Const "IXGBE_AUTOC2" 0x042A8;
  Const "IXGBE_AUTOC3" 0x042AC;
  Const "IXGBE_ANLP1" 0x042B0;
  Const "IXGBE_ANLP2" 0x042B4;
  Const "IXGBE_MACC" 0x04330;
  Const "IXGBE_ATLASCTL" 0x04800;
  Const "IXGBE_MMNGC" 0x042D0;
  Const "IXGBE_ANLPNP1" 0x042D4;
  Const "IXGBE_ANLPNP2" 0x042D8;
  Const "IXGBE_KRPCSFC" 0x042E0;
  Const "IXGBE_KRPCSS" 0x042E4;
  Const "IXGBE_FECS1" 0x042E8;
  Const "IXGBE_FECS2" 0x042EC;
  Const "IXGBE_SMADARCTL" 0x14F10;
  Const "IXGBE_MPVC" 0x04318;
  Const "IXGBE_SGMIIC" 0x04314
].

Definition mac_and_dca_fields : list macro := [
  Const "IXGBE_RXNFGPC" 0x041B0;
  Const "IXGBE_RXNFGBCL" 0x041B4;
  Const "IXGBE_RXNFGBCH" 0x041B8;
  Const "IXGBE_RXDGPC" 0x02F50;
  Const "IXGBE_RXDGBCL" 0x02F54;
  Const "IXGBE_RXDGBCH" 0x02F58;
  Const "IXGBE_RXDDGPC" 0x02F5C;
  Const "IXGBE_RXDDGBCL" 0x02F60;
  Const "IXGBE_RXDDGBCH" 0x02F64;
  Const "IXGBE_RXLPBKGPC" 0x02F68;
  Const "IXGBE_RXLPBKGBCL" 0x02F6C;
  Const "IXGBE_RXLPBKGBCH" 0x02F70;
  Const "IXGBE_RXDLPBKGPC" 0x02F74;
  Const "IXGBE_RXDLPBKGBCL" 0x02F78;
  Const "IXGBE_RXDLPBKGBCH" 0x02F7C;
  Const "IXGBE_TXDGPC" 0x087A0;
  Const "IXGBE_TXDGBCL" 0x087A4;
  Const "IXGBE_TXDGBCH" 0x087A8;
  Const "IXGBE_RXDSTATCTRL" 0x02F40;
  Const "IXGBE_VALIDATE_LINK_READY_TIMEOUT" 50;
  Const "IXGBE_CORECTL" 0x014F00;
  Const "IXGBE_BARCTRL" 0x110F4;
  Const "IXGBE_BARCTRL_FLSIZE" 0x0700;
  Const "IXGBE_BARCTRL_FLSIZE_SHIFT" 8;
  Const "IXGBE_BARCTRL_CSRSIZE" 0x2000;
  Const "IXGBE_RSCCTL_RSCEN" 0x01;
  Const "IXGBE_RSCCTL_MAXDESC_1" 0x00;
  Const "IXGBE_RSCCTL_MAXDESC_4" 0x04;
  Const "IXGBE_RSCCTL_MAXDESC_8" 0x08;
  Const "IXGBE_RSCCTL_MAXDESC_16" 0x0C;
  Const "IXGBE_RSCCTL_TS_DIS" 0x02;
  Const "IXGBE_RSCDBU_RSCSMALDIS_MASK" 0x0000007F;
  Const "IXGBE_RSCDBU_RSCACKDIS" 0x00000080;
  Const "IXGBE_RDRXCTL_RDMTS_1_2" 0x00000000;
  Const "IXGBE_RDRXCTL_CRCSTRIP" 0x00000002;
  Const "IXGBE_RDRXCTL_PSP" 0x00000004;
  Const "IXGBE_RDRXCTL_MVMEN" 0x00000020;
  Const "IXGBE_RDRXCTL_RSC_PUSH_DIS" 0x00000020;
  Const "IXGBE_RDRXCTL_DMAIDONE" 0x00000008;
  Const "IXGBE_RDRXCTL_RSC_PUSH" 0x00000080;
  Const "IXGBE_RDRXCTL_AGGDIS" 0x00010000;
  Const "IXGBE_RDRXCTL_RSCFRSTSIZE" 0x003E0000;
  Const "IXGBE_RDRXCTL_RSCLLIDIS" 0x00800000;
  Const "IXGBE_RDRXCTL_RSCACKC" 0x02000000;
  Const "IXGBE_RDRXCTL_FCOE_WRFIX" 0x04000000;
  Const "IXGBE_RDRXCTL_MBINTEN" 0x10000000;
  Const "IXGBE_RDRXCTL_MDP_EN" 0x20000000;
  Fun1 "IXGBE_RQTC_SHIFT_TC" (fun i => (i * 4));
  Const "IXGBE_RQTC_TC0_MASK" (Z.shiftl 0x7 0);
  Const "IXGBE_RQTC_TC1_MASK" (Z.shiftl 0x7 4);
  Const "IXGBE_RQTC_TC2_MASK" (Z.shiftl 0x7 8);
  Const "IXGBE_RQTC_TC3_MASK" (Z.shiftl 0x7 12);
  Const "IXGBE_RQTC_TC4_MASK" (Z.shiftl 0x7 16);
  Const "IXGBE_RQTC_TC5_MASK" (Z.shiftl 0x7 20);
  Const "IXGBE_RQTC_TC6_MASK" (Z.shiftl 0x7 24);
  Const "IXGBE_RQTC_TC7_MASK" (Z.shiftl 0x7 28);
  Const "IXGBE_PSRTYPE_RQPL_MASK" 0x7;
  Const "IXGBE_PSRTYPE_RQPL_SHIFT" 29;
  Const "IXGBE_CTRL_GIO_DIS" 0x00000004;
  Const "IXGBE_CTRL_LNK_RST" 0x00000008;
  Const "IXGBE_CTRL_RST" 0x04000000;
  Const "IXGBE_CTRL_RST_MASK" (Z.lor 0x00000008 0x04000000);
  Const "IXGBE_FACTPS_MNGCG" 0x20000000;
  Const "IXGBE_FACTPS_LFS" 0x40000000;
  Const "IXGBE_MHADD_MFS_MASK" 0xFFFF0000;
  Const "IXGBE_MHADD_MFS_SHIFT" 16;
  Const "IXGBE_CTRL_EXT_PFRSTD" 0x00004000;
  Const "IXGBE_CTRL_EXT_NS_DIS" 0x00010000;
  Const "IXGBE_CTRL_EXT_RO_DIS" 0x00020000;
  Const "IXGBE_CTRL_EXT_DRV_LOAD" 0x10000000;
  Const "IXGBE_DCA_CTRL_DCA_ENABLE" 0x00000000;
  Const "IXGBE_DCA_CTRL_DCA_DISABLE" 0x00000001;
  Const "IXGBE_DCA_CTRL_DCA_MODE_CB1" 0x00;
  Const "IXGBE_DCA_CTRL_DCA_MODE_CB2" 0x02;
  Const "IXGBE_DCA_RXCTRL_CPUID_MASK" 0x0000001F;
  Const "IXGBE_DCA_RXCTRL_CPUID_MASK_82599" 0xFF000000;
  Const "IXGBE_DCA_RXCTRL_CPUID_SHIFT_82599" 24;
  Const "IXGBE_DCA_RXCTRL_DESC_DCA_EN" (Z.shiftl 1 5);
  Const "IXGBE_DCA_RXCTRL_HEAD_DCA_EN" (Z.shiftl 1 6);
  Const "IXGBE_DCA_RXCTRL_DATA_DCA_EN" (Z.shiftl 1 7);
  Const "IXGBE_DCA_RXCTRL_DESC_RRO_EN" (Z.shiftl 1 9);
  Const "IXGBE_DCA_RXCTRL_DATA_WRO_EN" (Z.shiftl 1 13);
  Const "IXGBE_DCA_RXCTRL_HEAD_WRO_EN" (Z.shiftl 1 15);
  Const "IXGBE_DCA_TXCTRL_CPUID_MASK" 0x0000001F;
  Const "IXGBE_DCA_TXCTRL_CPUID_MASK_82599" 0xFF000000;
  Const "IXGBE_DCA_TXCTRL_CPUID_SHIFT_82599" 24;
  Const "IXGBE_DCA_TXCTRL_DESC_DCA_EN" (Z.shiftl 1 5);
  Const "IXGBE_DCA_TXCTRL_DESC_RRO_EN" (Z.shiftl 1 9);
  Const "IXGBE_DCA_TXCTRL_DESC_WRO_EN" (Z.shiftl 1 11);
  Const "IXGBE_DCA_TXCTRL_DATA_RRO_EN" (Z.shiftl 1 13);
  Const "IXGBE_DCA_MAX_QUEUES_82598" 16;
  Const "IXGBE_MSCA_NP_ADDR_MASK" 0x0000FFFF;
  Const "IXGBE_MSCA_NP_ADDR_SHIFT" 0;
  Const "IXGBE_MSCA_DEV_TYPE_MASK" 0x001F0000;
  Const "IXGBE_MSCA_DEV_TYPE_SHIFT" 16;
  Const "IXGBE_MSCA_PHY_ADDR_MASK" 0x03E00000;
  Const "IXGBE_MSCA_PHY_ADDR_SHIFT" 21;
  Const "IXGBE_MSCA_OP_CODE_MASK" 0x0C000000;
  Const "IXGBE_MSCA_OP_CODE_SHIFT" 26;
  Const "IXGBE_MSCA_ADDR_CYCLE" 0x00000000;
  Const "IXGBE_MSCA_WRITE" 0x04000000;
  Const "IXGBE_MSCA_READ" 0x0C000000;
  Const "IXGBE_MSCA_READ_AUTOINC" 0x08000000;
  Const "IXGBE_MSCA_ST_CODE_MASK" 0x30000000;
  Const "IXGBE_MSCA_ST_CODE_SHIFT" 28;
  Const "IXGBE_MSCA_NEW_PROTOCOL" 0x00000000;
  Const "IXGBE_MSCA_OLD_PROTOCOL" 0x10000000;
  Const "IXGBE_MSCA_MDI_COMMAND" 0x40000000;
  Const "IXGBE_MSCA_MDI_IN_PROG_EN" 0x80000000;
  Const "IXGBE_MSRWD_WRITE_DATA_MASK" 0x0000FFFF;
  Const "IXGBE_MSRWD_WRITE_DATA_SHIFT" 0;
  Const "IXGBE_MSRWD_READ_DATA_MASK" 0xFFFF0000;
  Const "IXGBE_MSRWD_READ_DATA_SHIFT" 16
].

Definition phy_registers_and_device_types : list macro := [
  Const "IXGBE_ATLAS_PDN_LPBK" 0x24;
  Const "IXGBE_ATLAS_PDN_10G" 0xB;
  Const "IXGBE_ATLAS_PDN_1G" 0xC;
  Const "IXGBE_ATLAS_PDN_AN" 0xD;
  Const "IXGBE_ATLASCTL_WRITE_CMD" 0x00010000;
  Const "IXGBE_ATLAS_PDN_TX_REG_EN" 0x10;
  Const "IXGBE_ATLAS_PDN_TX_10G_QL_ALL" 0xF0;
  Const "IXGBE_ATLAS_PDN_TX_1G_QL_ALL" 0xF0;
  Const "IXGBE_ATLAS_PDN_TX_AN_QL_ALL" 0xF0;
  Const "IXGBE_CORECTL_WRITE_CMD" 0x00010000;
  Const "IXGBE_MDIO_ZERO_DEV_TYPE" 0x0;
  Const "IXGBE_MDIO_PMA_PMD_DEV_TYPE" 0x1;
  Const "IXGBE_MDIO_PCS_DEV_TYPE" 0x3;
  Const "IXGBE_MDIO_PHY_XS_DEV_TYPE" 0x4;
  Const "IXGBE_MDIO_AUTO_NEG_DEV_TYPE" 0x7;
  Const "IXGBE_MDIO_VENDOR_SPECIFIC_1_DEV_TYPE" 0x1E;
  Const "IXGBE_TWINAX_DEV" 1;
  Const "IXGBE_MDIO_COMMAND_TIMEOUT" 100;
  Const "IXGBE_MDIO_VENDOR_SPECIFIC_1_CONTROL" 0x0;
  Const "IXGBE_MDIO_VENDOR_SPECIFIC_1_STATUS" 0x1;
  Const "IXGBE_MDIO_VENDOR_SPECIFIC_1_LINK_STATUS" 0x0008;
  Const "IXGBE_MDIO_VENDOR_SPECIFIC_1_SPEED_STATUS" 0x0010;
  Const "IXGBE_MDIO_VENDOR_SPECIFIC_1_10G_SPEED" 0x0018;
  Const "IXGBE_MDIO_VENDOR_SPECIFIC_1_1G_SPEED" 0x0010;
  Const "IXGBE_MDIO_AUTO_NEG_CONTROL" 0x0;
  Const "IXGBE_MDIO_AUTO_NEG_STATUS" 0x1;
  Const "IXGBE_MDIO_AUTO_NEG_VENDOR_STAT" 0xC800;
  Const "IXGBE_MDIO_AUTO_NEG_VENDOR_TX_ALARM" 0xCC00;
  Const "IXGBE_MDIO_AUTO_NEG_VENDOR_TX_ALARM2" 0xCC01;
  Const "IXGBE_MDIO_AUTO_NEG_VEN_LSC" 0x1;
  Const "IXGBE_MDIO_AUTO_NEG_ADVT" 0x10;
  Const "IXGBE_MDIO_AUTO_NEG_LP" 0x13;
  Const "IXGBE_MDIO_AUTO_NEG_EEE_ADVT" 0x3C;
  Const "IXGBE_AUTO_NEG_10GBASE_EEE_ADVT" 0x8;
  Const "IXGBE_AUTO_NEG_1000BASE_EEE_ADVT" 0x4;
  Const "IXGBE_AUTO_NEG_100BASE_EEE_ADVT" 0x2;
  Const "IXGBE_MDIO_PHY_XS_CONTROL" 0x0;
  Const "IXGBE_MDIO_PHY_XS_RESET" 0x8000;
  Const "IXGBE_MDIO_PHY_ID_HIGH" 0x2;
  Const "IXGBE_MDIO_PHY_ID_LOW" 0x3;
  Const "IXGBE_MDIO_PHY_SPEED_ABILITY" 0x4;
  Const "IXGBE_MDIO_PHY_SPEED_10G" 0x0001;
  Const "IXGBE_MDIO_PHY_SPEED_1G" 0x0010;
  Const "IXGBE_MDIO_PHY_SPEED_100M" 0x0020;
  Const "IXGBE_MDIO_PHY_EXT_ABILITY" 0xB;
  Const "IXGBE_MDIO_PHY_10GBASET_ABILITY" 0x0004;
  Const "IXGBE_MDIO_PHY_1000BASET_ABILITY" 0x0020;
  Const "IXGBE_MDIO_PHY_100BASETX_ABILITY" 0x0080;
  Const "IXGBE_MDIO_PHY_SET_LOW_POWER_MODE" 0x0800;
  Const "IXGBE_AUTO_NEG_LP_STATUS" 0xE820;
  Const "IXGBE_AUTO_NEG_LP_1000BASE_CAP" 0x8000;
  Const "IXGBE_AUTO_NEG_LP_10GBASE_CAP" 0x0800;
  Const "IXGBE_AUTO_NEG_10GBASET_STAT" 0x0021;
  Const "IXGBE_MDIO_TX_VENDOR_ALARMS_3" 0xCC02;
  Const "IXGBE_MDIO_TX_VENDOR_ALARMS_3_RST_MASK" 0x3;
  Const "IXGBE_MDIO_GLOBAL_RES_PR_10" 0xC479;
  Const "IXGBE_MDIO_POWER_UP_STALL" 0x8000;
  Const "IXGBE_MDIO_GLOBAL_INT_CHIP_STD_MASK" 0xFF00;
  Const "IXGBE_MDIO_GLOBAL_CHIP_STD_INT_FLAG" 0xFC00;
  Const "IXGBE_MDIO_GLOBAL_INT_CHIP_VEN_MASK" 0xFF01;
  Const "IXGBE_MDIO_GLOBAL_INT_CHIP_VEN_FLAG" 0xFC01;
  Const "IXGBE_MDIO_GLOBAL_ALARM_1" 0xCC00;
  Const "IXGBE_MDIO_GLOBAL_ALM_1_DEV_FAULT" 0x0010;
  Const "IXGBE_MDIO_GLOBAL_ALM_1_HI_TMP_FAIL" 0x4000;
  Const "IXGBE_MDIO_GLOBAL_FAULT_MSG" 0xC850;
  Const "IXGBE_MDIO_GLOBAL_FAULT_MSG_HI_TMP" 0x8007;
  Const "IXGBE_MDIO_GLOBAL_INT_MASK" 0xD400;
  Const "IXGBE_MDIO_GLOBAL_AN_VEN_ALM_INT_EN" 0x1000;
  Const "IXGBE_MDIO_GLOBAL_ALARM_1_INT" 0x4;
  Const "IXGBE_MDIO_GLOBAL_VEN_ALM_INT_EN" 0x1;
  Const "IXGBE_MDIO_GLOBAL_STD_ALM2_INT" 0x200;
  Const "IXGBE_MDIO_GLOBAL_INT_HI_TEMP_EN" 0x4000;
  Const "IXGBE_MDIO_GLOBAL_INT_DEV_FAULT_EN" 0x0010;
  Const "IXGBE_MDIO_PMA_PMD_CONTROL_ADDR" 0x0000;
  Const "IXGBE_MDIO_PMA_PMD_SDA_SCL_ADDR" 0xC30A;
  Const "IXGBE_MDIO_PMA_PMD_SDA_SCL_DATA" 0xC30B;
  Const "IXGBE_MDIO_PMA_PMD_SDA_SCL_STAT" 0xC30C;
  Const "IXGBE_MDIO_PMA_TX_VEN_LASI_INT_MASK" 0xD401;
  Const "IXGBE_MDIO_PMA_TX_VEN_LASI_INT_EN" 0x1;
  Const "IXGBE_MDIO_PMD_STD_TX_DISABLE_CNTR" 0x9;
  Const "IXGBE_MDIO_PMD_GLOBAL_TX_DISABLE" 0x0001;
  Const "IXGBE_PCRC8ECL" 0x0E810;
  Const "IXGBE_PCRC8ECH" 0x0E811;
  Const "IXGBE_PCRC8ECH_MASK" 0x1F;
  Const "IXGBE_LDPCECL" 0x0E820;
  Const "IXGBE_LDPCECH" 0x0E821;
  Const "IXGBE_MDIO_PHY_LOW_POWER_MODE" 0x0800;
  Const "IXGBE_MDIO_XENPAK_LASI_STATUS" 0x9005;
  Const "IXGBE_XENPAK_LASI_LINK_STATUS_ALARM" 0x1;
  Const "IXGBE_MDIO_AUTO_NEG_LINK_STATUS" 0x4;
  Const "IXGBE_MDIO_AUTO_NEG_VENDOR_STATUS_MASK" 0x7;
  Const "IXGBE_MDIO_AUTO_NEG_VEN_STAT_SPEED_MASK" 0x6;
  Const "IXGBE_MDIO_AUTO_NEG_VENDOR_STATUS_10M_HALF" 0x0;
  Const "IXGBE_MDIO_AUTO_NEG_VENDOR_STATUS_10M_FULL" 0x1;
  Const "IXGBE_MDIO_AUTO_NEG_VENDOR_STATUS_100M_HALF" 0x2;
  Const "IXGBE_MDIO_AUTO_NEG_VENDOR_STATUS_100M_FULL" 0x3;
  Const "IXGBE_MDIO_AUTO_NEG_VENDOR_STATUS_1GB_HALF" 0x4;
  Const "IXGBE_MDIO_AUTO_NEG_VENDOR_STATUS_1GB_FULL" 0x5;
  Const "IXGBE_MDIO_AUTO_NEG_VENDOR_STATUS_10GB_HALF" 0x6;
  Const "IXGBE_MDIO_AUTO_NEG_VENDOR_STATUS_10GB_FULL" 0x7;
  Const "IXGBE_MDIO_AUTO_NEG_VENDOR_STATUS_1GB" 0x4;
  Const "IXGBE_MDIO_AUTO_NEG_VENDOR_STATUS_10GB" 0x6;
  Const "IXGBE_MII_10GBASE_T_AUTONEG_CTRL_REG" 0x20;
  Const "IXGBE_MII_AUTONEG_VENDOR_PROVISION_1_REG" 0xC400;
  Const "IXGBE_MII_AUTONEG_XNP_TX_REG" 0x17;
  Const "IXGBE_MII_AUTONEG_ADVERTISE_REG" 0x10;
  Const "IXGBE_MII_10GBASE_T_ADVERTISE" 0x1000;
  Const "IXGBE_MII_1GBASE_T_ADVERTISE_XNP_TX" 0x4000;
  Const "IXGBE_MII_1GBASE_T_ADVERTISE" 0x8000;
  Const "IXGBE_MII_2_5GBASE_T_ADVERTISE" 0x0400;
  Const "IXGBE_MII_5GBASE_T_ADVERTISE" 0x0800;
  Const "IXGBE_MII_100BASE_T_ADVERTISE" 0x0100;
  Const "IXGBE_MII_100BASE_T_ADVERTISE_HALF" 0x0080;
  Const "IXGBE_MII_RESTART" 0x200;
  Const "IXGBE_MII_AUTONEG_COMPLETE" 0x20;
  Const "IXGBE_MII_AUTONEG_LINK_UP" 0x04;
  Const "IXGBE_MII_AUTONEG_REG" 0x0;
  Const "IXGBE_PHY_REVISION_MASK" 0xFFFFFFF0;
  Const "IXGBE_MAX_PHY_ADDR" 32
].

Definition phy_and_buffer_fields : list macro := [
  Const "TN1010_PHY_ID" 0x00A19410;
  Const "TNX_FW_REV" 0xB;
  Const "X540_PHY_ID" 0x01540200;
  Const "X550_PHY_ID2" 0x01540223;
  Const "X550_PHY_ID3" 0x01540221;
  Const "X557_PHY_ID" 0x01540240;
  Const "X557_PHY_ID2" 0x01540250;
  Const "AQ_FW_REV" 0x20;
  Const "QT2022_PHY_ID" 0x0043A400;
  Const "ATH_PHY_ID" 0x03429050;
  Const "IXGBE_M88E1500_E_PHY_ID" 0x01410DD0;
  Const "IXGBE_M88E1543_E_PHY_ID" 0x01410EA0;
  Const "IXGBE_PHY_INIT_OFFSET_NL" 0x002B;
  Const "IXGBE_PHY_INIT_END_NL" 0xFFFF;
  Const "IXGBE_CONTROL_MASK_NL" 0xF000;
  Const "IXGBE_DATA_MASK_NL" 0x0FFF;
  Const "IXGBE_CONTROL_SHIFT_NL" 12;
  Const "IXGBE_DELAY_NL" 0;
  Const "IXGBE_DATA_NL" 1;
  Const "IXGBE_CONTROL_NL" 0x000F;
  Const "IXGBE_CONTROL_EOL_NL" 0x0FFF;
  Const "IXGBE_CONTROL_SOL_NL" 0x0000;
  Const "IXGBE_SDP0_GPIEN" 0x00000001;
  Const "IXGBE_SDP1_GPIEN" 0x00000002;
  Const "IXGBE_SDP2_GPIEN" 0x00000004;
  Const "IXGBE_SDP0_GPIEN_X540" 0x00000002;
  Const "IXGBE_SDP1_GPIEN_X540" 0x00000004;
  Const "IXGBE_SDP2_GPIEN_X540" 0x00000008;
  Const "IXGBE_SDP0_GPIEN_X550" 0x00000002;
  Const "IXGBE_SDP1_GPIEN_X550" 0x00000004;
  Const "IXGBE_SDP2_GPIEN_X550" 0x00000008;
  Const "IXGBE_SDP0_GPIEN_X550EM_x" 0x00000002;
  Const "IXGBE_SDP1_GPIEN_X550EM_x" 0x00000004;
  Const "IXGBE_SDP2_GPIEN_X550EM_x" 0x00000008;
  Const "IXGBE_SDP0_GPIEN_X550EM_a" 0x00000002;
  Const "IXGBE_SDP1_GPIEN_X550EM_a" 0x00000004;
  Const "IXGBE_SDP2_GPIEN_X550EM_a" 0x00000008;
  Fun1 "IXGBE_SDP0_GPIEN_BY_MAC" (fun hw => 0);
  Fun1 "IXGBE_SDP1_GPIEN_BY_MAC" (fun hw => 0);
  Fun1 "IXGBE_SDP2_GPIEN_BY_MAC" (fun hw => 0);
  Const "IXGBE_GPIE_MSIX_MODE" 0x00000010;
  Const "IXGBE_GPIE_OCD" 0x00000020;
  Const "IXGBE_GPIE_EIMEN" 0x00000040;
  Const "IXGBE_GPIE_EIAME" 0x40000000;
  Const "IXGBE_GPIE_PBA_SUPPORT" 0x80000000;
  Const "IXGBE_GPIE_RSC_DELAY_SHIFT" 11;
  Const "IXGBE_GPIE_VTMODE_MASK" 0x0000C000;
  Const "IXGBE_GPIE_VTMODE_16" 0x00004000;
  Const "IXGBE_GPIE_VTMODE_32" 0x00008000;
  Const "IXGBE_GPIE_VTMODE_64" 0x0000C000;
  Const "IXGBE_MAX_PACKET_BUFFERS" 8;
  Const "IXGBE_TXPBSIZE_20KB" 0x00005000;
  Const "IXGBE_TXPBSIZE_40KB" 0x0000A000;
  Const "IXGBE_RXPBSIZE_48KB" 0x0000C000;
  Const "IXGBE_RXPBSIZE_64KB" 0x00010000;
  Const "IXGBE_RXPBSIZE_80KB" 0x00014000;
  Const "IXGBE_RXPBSIZE_128KB" 0x00020000;
  Const "IXGBE_RXPBSIZE_MAX" 0x00080000;
  Const "IXGBE_TXPBSIZE_MAX" 0x00028000;
  Const "IXGBE_TXPKT_SIZE_MAX" 0xA;
  Const "IXGBE_MAX_PB" 8;
  Const "PBA_STRATEGY_EQUAL" 0;
  Const "PBA_STRATEGY_WEIGHTED" 1;
  Const "IXGBE_TFCS_TXOFF" 0x00000001;
  Const "IXGBE_TFCS_TXOFF0" 0x00000100;
  Const "IXGBE_TFCS_TXOFF1" 0x00000200;
  Const "IXGBE_TFCS_TXOFF2" 0x00000400;
  Const "IXGBE_TFCS_TXOFF3" 0x00000800;
  Const "IXGBE_TFCS_TXOFF4" 0x00001000;
  Const "IXGBE_TFCS_TXOFF5" 0x00002000;
  Const "IXGBE_TFCS_TXOFF6" 0x00004000;
  Const "IXGBE_TFCS_TXOFF7" 0x00008000;
  Const "IXGBE_TCPTIMER_KS" 0x00000100;
  Const "IXGBE_TCPTIMER_COUNT_ENABLE" 0x00000200;
  Const "IXGBE_TCPTIMER_COUNT_FINISH" 0x00000400;
  Const "IXGBE_TCPTIMER_LOOP" 0x00000800;
  Const "IXGBE_TCPTIMER_DURATION_MASK" 0x000000FF;
  Const "IXGBE_HLREG0_TXCRCEN" 0x00000001;
  Const "IXGBE_HLREG0_RXCRCSTRP" 0x00000002;
  Const "IXGBE_HLREG0_JUMBOEN" 0x00000004;
  Const "IXGBE_HLREG0_TXPADEN" 0x00000400;
  Const "IXGBE_HLREG0_TXPAUSEEN" 0x00001000;
  Const "IXGBE_HLREG0_RXPAUSEEN" 0x00004000;
  Const "IXGBE_HLREG0_LPBK" 0x00008000;
  Const "IXGBE_HLREG0_MDCSPD" 0x00010000;
  Const "IXGBE_HLREG0_CONTMDC" 0x00020000;
  Const "IXGBE_HLREG0_CTRLFLTR" 0x00040000;
  Const "IXGBE_HLREG0_PREPEND" 0x00F00000;
  Const "IXGBE_HLREG0_PRIPAUSEEN" 0x01000000;
  Const "IXGBE_HLREG0_RXPAUSERECDA" 0x06000000;
  Const "IXGBE_HLREG0_RXLNGTHERREN" 0x08000000;
  Const "IXGBE_HLREG0_RXPADSTRIPEN" 0x10000000;
  Const "IXGBE_VMD_CTL_VMDQ_EN" 0x00000001;
  Const "IXGBE_VMD_CTL_VMDQ_FILTER" 0x00000002;
  Const "IXGBE_VT_CTL_DIS_DEFPL" 0x20000000;
  Const "IXGBE_VT_CTL_REPLEN" 0x40000000;
  Const "IXGBE_VT_CTL_VT_ENABLE" 0x00000001;
  Const "IXGBE_VT_CTL_POOL_SHIFT" 7;
  Const "IXGBE_VT_CTL_POOL_MASK" (Z.shiftl 0x3F 7);
  Const "IXGBE_VMOLR_UPE" 0x00400000;
  Const "IXGBE_VMOLR_VPE" 0x00800000;
  Const "IXGBE_VMOLR_AUPE" 0x01000000;
  Const "IXGBE_VMOLR_ROMPE" 0x02000000;
  Const "IXGBE_VMOLR_ROPE" 0x04000000;
  Const "IXGBE_VMOLR_BAM" 0x08000000;
  Const "IXGBE_VMOLR_MPE" 0x10000000;
  Const "IXGBE_VFRE_ENABLE_ALL" 0xFFFFFFFF;
  Const "IXGBE_VF_INIT_TIMEOUT" 200
].

Definition queue_and_interrupt_fields : list macro := [
  Const "IXGBE_RDHMPN_RDICADDR" 0x007FF800;
  Const "IXGBE_RDHMPN_RDICRDREQ" 0x00800000;
  Const "IXGBE_RDHMPN_RDICADDR_SHIFT" 11;
  Const "IXGBE_TDHMPN_TDICADDR" 0x003FF800;
  Const "IXGBE_TDHMPN_TDICRDREQ" 0x00800000;
  Const "IXGBE_TDHMPN_TDICADDR_SHIFT" 11;
  Const "IXGBE_RDMAM_MEM_SEL_SHIFT" 13;
  Const "IXGBE_RDMAM_DWORD_SHIFT" 9;
  Const "IXGBE_RDMAM_DESC_COMP_FIFO" 1;
  Const "IXGBE_RDMAM_DFC_CMD_FIFO" 2;
  Const "IXGBE_RDMAM_RSC_HEADER_ADDR" 3;
  Const "IXGBE_RDMAM_TCN_STATUS_RAM" 4;
  Const "IXGBE_RDMAM_WB_COLL_FIFO" 5;
  Const "IXGBE_RDMAM_QSC_CNT_RAM" 6;
  Const "IXGBE_RDMAM_QSC_FCOE_RAM" 7;
  Const "IXGBE_RDMAM_QSC_QUEUE_CNT" 8;
  Const "IXGBE_RDMAM_QSC_QUEUE_RAM" 0xA;
  Const "IXGBE_RDMAM_QSC_RSC_RAM" 0xB;
  Const "IXGBE_RDMAM_DESC_COM_FIFO_RANGE" 135;
  Const "IXGBE_RDMAM_DESC_COM_FIFO_COUNT" 4;
  Const "IXGBE_RDMAM_DFC_CMD_FIFO_RANGE" 48;
  Const "IXGBE_RDMAM_DFC_CMD_FIFO_COUNT" 7;
  Const "IXGBE_RDMAM_RSC_HEADER_ADDR_RANGE" 32;
  Const "IXGBE_RDMAM_RSC_HEADER_ADDR_COUNT" 4;
  Const "IXGBE_RDMAM_TCN_STATUS_RAM_RANGE" 256;
  Const "IXGBE_RDMAM_TCN_STATUS_RAM_COUNT" 9;
  Const "IXGBE_RDMAM_WB_COLL_FIFO_RANGE" 8;
  Const "IXGBE_RDMAM_WB_COLL_FIFO_COUNT" 4;
  Const "IXGBE_RDMAM_QSC_CNT_RAM_RANGE" 64;
  Const "IXGBE_RDMAM_QSC_CNT_RAM_COUNT" 4;
  Const "IXGBE_RDMAM_QSC_FCOE_RAM_RANGE" 512;
  Const "IXGBE_RDMAM_QSC_FCOE_RAM_COUNT" 5;
  Const "IXGBE_RDMAM_QSC_QUEUE_CNT_RANGE" 32;
  Const "IXGBE_RDMAM_QSC_QUEUE_CNT_COUNT" 4;
  Const "IXGBE_RDMAM_QSC_QUEUE_RAM_RANGE" 128;
  Const "IXGBE_RDMAM_QSC_QUEUE_RAM_COUNT" 8;
  Const "IXGBE_RDMAM_QSC_RSC_RAM_RANGE" 32;
  Const "IXGBE_RDMAM_QSC_RSC_RAM_COUNT" 8;
  Const "IXGBE_TXDESCIC_READY" 0x80000000;
  Const "IXGBE_RXCSUM_IPPCSE" 0x00001000;
  Const "IXGBE_RXCSUM_PCSD" 0x00002000;
  Const "IXGBE_FCRTL_XONE" 0x80000000;
  Const "IXGBE_FCRTH_FCEN" 0x80000000;
  Const "IXGBE_PAP_TXPAUSECNT_MASK" 0x0000FFFF;
  Const "IXGBE_RMCS_RRM" 0x00000002;
  Const "IXGBE_RMCS_RAC" 0x00000004;
  Const "IXGBE_RMCS_DFP" 0x00000004;
  Const "IXGBE_RMCS_TFCE_802_3X" 0x00000008;
  Const "IXGBE_RMCS_TFCE_PRIORITY" 0x00000010;
  Const "IXGBE_RMCS_ARBDIS" 0x00000040;
  Const "IXGBE_FCCFG_TFCE_802_3X" 0x00000008;
  Const "IXGBE_FCCFG_TFCE_PRIORITY" 0x00000010;
  Const "IXGBE_EICR_RTX_QUEUE" 0x0000FFFF;
  Const "IXGBE_EICR_FLOW_DIR" 0x00010000;
  Const "IXGBE_EICR_RX_MISS" 0x00020000;
  Const "IXGBE_EICR_PCI" 0x00040000;
  Const "IXGBE_EICR_MAILBOX" 0x00080000;
  Const "IXGBE_EICR_LSC" 0x00100000;
  Const "IXGBE_EICR_LINKSEC" 0x00200000;
  Const "IXGBE_EICR_MNG" 0x00400000;
  Const "IXGBE_EICR_TS" 0x00800000;
  Const "IXGBE_EICR_TIMESYNC" 0x01000000;
  Const "IXGBE_EICR_GPI_SDP0" 0x01000000;
  Const "IXGBE_EICR_GPI_SDP1" 0x02000000;
  Const "IXGBE_EICR_GPI_SDP2" 0x04000000;
  Const "IXGBE_EICR_ECC" 0x10000000;
  Const "IXGBE_EICR_GPI_SDP0_X540" 0x02000000;
  Const "IXGBE_EICR_GPI_SDP1_X540" 0x04000000;
  Const "IXGBE_EICR_GPI_SDP2_X540" 0x08000000;
  Const "IXGBE_EICR_GPI_SDP0_X550" 0x02000000;
  Const "IXGBE_EICR_GPI_SDP1_X550" 0x04000000;
  Const "IXGBE_EICR_GPI_SDP2_X550" 0x08000000;
  Const "IXGBE_EICR_GPI_SDP0_X550EM_x" 0x02000000;
  Const "IXGBE_EICR_GPI_SDP1_X550EM_x" 0x04000000;
  Const "IXGBE_EICR_GPI_SDP2_X550EM_x" 0x08000000;
  Const "IXGBE_EICR_GPI_SDP0_X550EM_a" 0x02000000;
  Const "IXGBE_EICR_GPI_SDP1_X550EM_a" 0x04000000;
  Const "IXGBE_EICR_GPI_SDP2_X550EM_a" 0x08000000;
  Fun1 "IXGBE_EICR_GPI_SDP0_BY_MAC" (fun hw => 0);
  Fun1 "IXGBE_EICR_GPI_SDP1_BY_MAC" (fun hw => 0);
  Fun1 "IXGBE_EICR_GPI_SDP2_BY_MAC" (fun hw => 0);
  Const "IXGBE_EICR_PBUR" 0x10000000;
  Const "IXGBE_EICR_DHER" 0x20000000;
  Const "IXGBE_EICR_TCP_TIMER" 0x40000000;
  Const "IXGBE_EICR_OTHER" 0x80000000;
  Const "IXGBE_EICS_RTX_QUEUE" 0x0000FFFF;
  Const "IXGBE_EICS_FLOW_DIR" 0x00010000;
  Const "IXGBE_EICS_RX_MISS" 0x00020000;
  Const "IXGBE_EICS_PCI" 0x00040000;
  Const "IXGBE_EICS_MAILBOX" 0x00080000;
  Const "IXGBE_EICS_LSC" 0x00100000;
  Const "IXGBE_EICS_MNG" 0x00400000;
  Const "IXGBE_EICS_TIMESYNC" 0x01000000;
  Const "IXGBE_EICS_GPI_SDP0" 0x01000000;
  Const "IXGBE_EICS_GPI_SDP1" 0x02000000;
  Const "IXGBE_EICS_GPI_SDP2" 0x04000000;
  Const "IXGBE_EICS_ECC" 0x10000000;
  Fun1 "IXGBE_EICS_GPI_SDP0_BY_MAC" (fun hw => 0);
  Fun1 "IXGBE_EICS_GPI_SDP1_BY_MAC" (fun hw => 0);
  Fun1 "IXGBE_EICS_GPI_SDP2_BY_MAC" (fun hw => 0);
  Const "IXGBE_EICS_PBUR" 0x10000000;
  Const "IXGBE_EICS_DHER" 0x20000000;
  Const "IXGBE_EICS_TCP_TIMER" 0x40000000;
  Const "IXGBE_EICS_OTHER" 0x80000000;
  Const "IXGBE_EIMS_RTX_QUEUE" 0x0000FFFF;
  Const "IXGBE_EIMS_FLOW_DIR" 0x00010000;
  Const "IXGBE_EIMS_RX_MISS" 0x00020000;
  Const "IXGBE_EIMS_PCI" 0x00040000;
  Const "IXGBE_EIMS_MAILBOX" 0x00080000;
  Const "IXGBE_EIMS_LSC" 0x00100000;
  Const "IXGBE_EIMS_MNG" 0x00400000;
  Const "IXGBE_EIMS_TS" 0x00800000;
  Const "IXGBE_EIMS_TIMESYNC" 0x01000000;
  Const "IXGBE_EIMS_GPI_SDP0" 0x01000000;
  Const "IXGBE_EIMS_GPI_SDP1" 0x02000000;
  Const "IXGBE_EIMS_GPI_SDP2" 0x04000000;
  Const "IXGBE_EIMS_ECC" 0x10000000;
  Fun1 "IXGBE_EIMS_GPI_SDP0_BY_MAC" (fun hw => 0);
  Fun1 "IXGBE_EIMS_GPI_SDP1_BY_MAC" (fun hw => 0);
  Fun1 "IXGBE_EIMS_GPI_SDP2_BY_MAC" (fun hw => 0);
  Const "IXGBE_EIMS_PBUR" 0x10000000;
  Const "IXGBE_EIMS_DHER" 0x20000000;
  Const "IXGBE_EIMS_TCP_TIMER" 0x40000000;
  Const "IXGBE_EIMS_OTHER" 0x80000000
].

Definition interrupt_masks_and_vectors : list macro := [
  Const "IXGBE_EIMC_RTX_QUEUE" 0x0000FFFF;
  Const "IXGBE_EIMC_FLOW_DIR" 0x00010000;
  Const "IXGBE_EIMC_RX_MISS" 0x00020000;
  Const "IXGBE_EIMC_PCI" 0x00040000;
  Const "IXGBE_EIMC_MAILBOX" 0x00080000;
  Const "IXGBE_EIMC_LSC" 0x00100000;
  Const "IXGBE_EIMC_MNG" 0x00400000;
  Const "IXGBE_EIMC_TIMESYNC" 0x01000000;
  Const "IXGBE_EIMC_GPI_SDP0" 0x01000000;
  Const "IXGBE_EIMC_GPI_SDP1" 0x02000000;
  Const "IXGBE_EIMC_GPI_SDP2" 0x04000000;
  Const "IXGBE_EIMC_ECC" 0x10000000;
  Fun1 "IXGBE_EIMC_GPI_SDP0_BY_MAC" (fun hw => 0);
  Fun1 "IXGBE_EIMC_GPI_SDP1_BY_MAC" (fun hw => 0);
  Fun1 "IXGBE_EIMC_GPI_SDP2_BY_MAC" (fun hw => 0);
  Const "IXGBE_EIMC_PBUR" 0x10000000;
  Const "IXGBE_EIMC_DHER" 0x20000000;
  Const "IXGBE_EIMC_TCP_TIMER" 0x40000000;
  Const "IXGBE_EIMC_OTHER" 0x80000000;
  Const "IXGBE_EIMS_ENABLE_MASK" (Z.lor (Z.lor (Z.lor 0x0000FFFF 0x00100000) 0x40000000) 0x80000000);
  Const "IXGBE_IMIR_PORT_IM_EN" 0x00010000;
  Const "IXGBE_IMIR_PORT_BP" 0x00020000;
  Const "IXGBE_IMIREXT_SIZE_BP" 0x00001000;
  Const "IXGBE_IMIREXT_CTRL_URG" 0x00002000;
  Const "IXGBE_IMIREXT_CTRL_ACK" 0x00004000;
  Const "IXGBE_IMIREXT_CTRL_PSH" 0x00008000;
  Const "IXGBE_IMIREXT_CTRL_RST" 0x00010000;
  Const "IXGBE_IMIREXT_CTRL_SYN" 0x00020000;
  Const "IXGBE_IMIREXT_CTRL_FIN" 0x00040000;
  Const "IXGBE_IMIREXT_CTRL_BP" 0x00080000;
  Const "IXGBE_IMIR_SIZE_BP_82599" 0x00001000;
  Const "IXGBE_IMIR_CTRL_URG_82599" 0x00002000;
  Const "IXGBE_IMIR_CTRL_ACK_82599" 0x00004000;
  Const "IXGBE_IMIR_CTRL_PSH_82599" 0x00008000;
  Const "IXGBE_IMIR_CTRL_RST_82599" 0x00010000;
  Const "IXGBE_IMIR_CTRL_SYN_82599" 0x00020000;
  Const "IXGBE_IMIR_CTRL_FIN_82599" 0x00040000;
  Const "IXGBE_IMIR_CTRL_BP_82599" 0x00080000;
  Const "IXGBE_IMIR_LLI_EN_82599" 0x00100000;
  Const "IXGBE_IMIR_RX_QUEUE_MASK_82599" 0x0000007F;
  Const "IXGBE_IMIR_RX_QUEUE_SHIFT_82599" 21;
  Const "IXGBE_IMIRVP_PRIORITY_MASK" 0x00000007;
  Const "IXGBE_IMIRVP_PRIORITY_EN" 0x00000008;
  Const "IXGBE_MAX_FTQF_FILTERS" 128;
  Const "IXGBE_FTQF_PROTOCOL_MASK" 0x00000003;
  Const "IXGBE_FTQF_PROTOCOL_TCP" 0x00000000;
  Const "IXGBE_FTQF_PROTOCOL_UDP" 0x00000001;
  Const "IXGBE_FTQF_PROTOCOL_SCTP" 2;
  Const "IXGBE_FTQF_PRIORITY_MASK" 0x00000007;
  Const "IXGBE_FTQF_PRIORITY_SHIFT" 2;
  Const "IXGBE_FTQF_POOL_MASK" 0x0000003F;
  Const "IXGBE_FTQF_POOL_SHIFT" 8;
  Const "IXGBE_FTQF_5TUPLE_MASK_MASK" 0x0000001F;
  Const "IXGBE_FTQF_5TUPLE_MASK_SHIFT" 25;
  Const "IXGBE_FTQF_SOURCE_ADDR_MASK" 0x1E;
  Const "IXGBE_FTQF_DEST_ADDR_MASK" 0x1D;
  Const "IXGBE_FTQF_SOURCE_PORT_MASK" 0x1B;
  Const "IXGBE_FTQF_DEST_PORT_MASK" 0x17;
  Const "IXGBE_FTQF_PROTOCOL_COMP_MASK" 0x0F;
  Const "IXGBE_FTQF_POOL_MASK_EN" 0x40000000;
  Const "IXGBE_FTQF_QUEUE_ENABLE" 0x80000000;
  Const "IXGBE_IRQ_CLEAR_MASK" 0xFFFFFFFF;
  Const "IXGBE_IVAR_REG_NUM" 25;
  Const "IXGBE_IVAR_REG_NUM_82599" 64;
  Const "IXGBE_IVAR_TXRX_ENTRY" 96;
  Const "IXGBE_IVAR_RX_ENTRY" 64;
  Fun1 "IXGBE_IVAR_RX_QUEUE" (fun i => (0 + i));
  Fun1 "IXGBE_IVAR_TX_QUEUE" (fun i => (64 + i));
  Const "IXGBE_IVAR_TX_ENTRY" 32;
  Const "IXGBE_IVAR_TCP_TIMER_INDEX" 96;
  Const "IXGBE_IVAR_OTHER_CAUSES_INDEX" 97;
  Fun1 "IXGBE_MSIX_VECTOR" (fun i => (0 + i));
  Const "IXGBE_IVAR_ALLOC_VAL" 0x80;
  Const "IXGBE_MAX_ETQF_FILTERS" 8;
  Const "IXGBE_ETQF_FCOE" 0x08000000;
  Const "IXGBE_ETQF_BCN" 0x10000000;
  Const "IXGBE_ETQF_TX_ANTISPOOF" 0x20000000;
  Const "IXGBE_ETQF_1588" 0x40000000;
  Const "IXGBE_ETQF_FILTER_EN" 0x80000000;
  Const "IXGBE_ETQF_POOL_ENABLE" (Z.shiftl 1 26);
  Const "IXGBE_ETQF_POOL_SHIFT" 20;
  Const "IXGBE_ETQS_RX_QUEUE" 0x007F0000;
  Const "IXGBE_ETQS_RX_QUEUE_SHIFT" 16;
  Const "IXGBE_ETQS_LLI" 0x20000000;
  Const "IXGBE_ETQS_QUEUE_EN" 0x80000000;
  Const "IXGBE_ETQF_FILTER_EAPOL" 0;
  Const "IXGBE_ETQF_FILTER_FCOE" 2;
  Const "IXGBE_ETQF_FILTER_1588" 3;
  Const "IXGBE_ETQF_FILTER_FIP" 4;
  Const "IXGBE_ETQF_FILTER_LLDP" 5;
  Const "IXGBE_ETQF_FILTER_LACP" 6;
  Const "IXGBE_ETQF_FILTER_FC" 7;
  Const "IXGBE_VLNCTRL_VET" 0x0000FFFF;
  Const "IXGBE_VLNCTRL_CFI" 0x10000000;
  Const "IXGBE_VLNCTRL_CFIEN" 0x20000000;
  Const "IXGBE_VLNCTRL_VFE" 0x40000000;
  Const "IXGBE_VLNCTRL_VME" 0x80000000;
  Const "IXGBE_VLVF_VIEN" 0x80000000;
  Const "IXGBE_VLVF_ENTRIES" 64;
  Const "IXGBE_VLVF_VLANID_MASK" 0x00000FFF;
  Const "IXGBE_VMVIR_VLANA_DEFAULT" 0x40000000;
  Const "IXGBE_VMVIR_VLANA_NEVER" 0x80000000;
  Const "IXGBE_ETHERNET_IEEE_VLAN_TYPE" 0x8100
].

Definition status_and_link_fields : list macro := [
  Const "IXGBE_STATUS_LAN_ID" 0x0000000C;
  Const "IXGBE_STATUS_LAN_ID_SHIFT" 2;
  Const "IXGBE_STATUS_GIO" 0x00080000;
  Const "IXGBE_STATUS_LAN_ID_0" 0x00000000;
  Const "IXGBE_STATUS_LAN_ID_1" 0x00000004;
  Const "IXGBE_ESDP_SDP0" 0x00000001;
  Const "IXGBE_ESDP_SDP1" 0x00000002;
  Const "IXGBE_ESDP_SDP2" 0x00000004;
  Const "IXGBE_ESDP_SDP3" 0x00000008;
  Const "IXGBE_ESDP_SDP4" 0x00000010;
  Const "IXGBE_ESDP_SDP5" 0x00000020;
  Const "IXGBE_ESDP_SDP6" 0x00000040;
  Const "IXGBE_ESDP_SDP7" 0x00000080;
  Const "IXGBE_ESDP_SDP0_DIR" 0x00000100;
  Const "IXGBE_ESDP_SDP1_DIR" 0x00000200;
  Const "IXGBE_ESDP_SDP2_DIR" 0x00000400;
  Const "IXGBE_ESDP_SDP3_DIR" 0x00000800;
  Const "IXGBE_ESDP_SDP4_DIR" 0x00001000;
  Const "IXGBE_ESDP_SDP5_DIR" 0x00002000;
  Const "IXGBE_ESDP_SDP6_DIR" 0x00004000;
  Const "IXGBE_ESDP_SDP7_DIR" 0x00008000;
  Const "IXGBE_ESDP_SDP0_NATIVE" 0x00010000;
  Const "IXGBE_ESDP_SDP1_NATIVE" 0x00020000;
  Const "IXGBE_LED_IVRT_BASE" 0x00000040;
  Const "IXGBE_LED_BLINK_BASE" 0x00000080;
  Const "IXGBE_LED_MODE_MASK_BASE" 0x0000000F;
  Fun2 "IXGBE_LED_OFFSET" (fun base i => (Z.shiftl base (8 * i)));
  Fun1 "IXGBE_LED_MODE_SHIFT" (fun i => (8 * i));
  Fun1 "IXGBE_LED_IVRT" (fun i => (Z.shiftl 0x00000040 (8 * i)));
  Fun1 "IXGBE_LED_BLINK" (fun i => (Z.shiftl 0x00000080 (8 * i)));
  Fun1 "IXGBE_LED_MODE_MASK" (fun i => (Z.shiftl 0x0000000F (8 * i)));
  Const "IXGBE_X557_LED_MANUAL_SET_MASK" (Z.shiftl 1 8);
  Const "IXGBE_X557_MAX_LED_INDEX" 3;
  Const "IXGBE_X557_LED_PROVISIONING" 0xC430;
  Const "IXGBE_LED_LINK_UP" 0x0;
  Const "IXGBE_LED_LINK_10G" 0x1;
  Const "IXGBE_LED_MAC" 0x2;
  Const "IXGBE_LED_FILTER" 0x3;
  Const "IXGBE_LED_LINK_ACTIVE" 0x4;
  Const "IXGBE_LED_LINK_1G" 0x5;
  Const "IXGBE_LED_ON" 0xE;
  Const "IXGBE_LED_OFF" 0xF;
  Const "IXGBE_AUTOC_KX4_KX_SUPP_MASK" 0xC0000000;
  Const "IXGBE_AUTOC_KX4_SUPP" 0x80000000;
  Const "IXGBE_AUTOC_KX_SUPP" 0x40000000;
  Const "IXGBE_AUTOC_PAUSE" 0x30000000;
  Const "IXGBE_AUTOC_ASM_PAUSE" 0x20000000;
  Const "IXGBE_AUTOC_SYM_PAUSE" 0x10000000;
  Const "IXGBE_AUTOC_RF" 0x08000000;
  Const "IXGBE_AUTOC_PD_TMR" 0x06000000;
  Const "IXGBE_AUTOC_AN_RX_LOOSE" 0x01000000;
  Const "IXGBE_AUTOC_AN_RX_DRIFT" 0x00800000;
  Const "IXGBE_AUTOC_AN_RX_ALIGN" 0x007C0000;
  Const "IXGBE_AUTOC_FECA" 0x00040000;
  Const "IXGBE_AUTOC_FECR" 0x00020000;
  Const "IXGBE_AUTOC_KR_SUPP" 0x00010000;
  Const "IXGBE_AUTOC_AN_RESTART" 0x00001000;
  Const "IXGBE_AUTOC_FLU" 0x00000001;
  Const "IXGBE_AUTOC_LMS_SHIFT" 13;
  Const "IXGBE_AUTOC_LMS_10G_SERIAL" (Z.shiftl 0x3 13);
  Const "IXGBE_AUTOC_LMS_KX4_KX_KR" (Z.shiftl 0x4 13);
  Const "IXGBE_AUTOC_LMS_SGMII_1G_100M" (Z.shiftl 0x5 13);
  Const "IXGBE_AUTOC_LMS_KX4_KX_KR_1G_AN" (Z.shiftl 0x6 13);
  Const "IXGBE_AUTOC_LMS_KX4_KX_KR_SGMII" (Z.shiftl 0x7 13);
  Const "IXGBE_AUTOC_LMS_MASK" (Z.shiftl 0x7 13);
  Const "IXGBE_AUTOC_LMS_1G_LINK_NO_AN" (Z.shiftl 0x0 13);
  Const "IXGBE_AUTOC_LMS_10G_LINK_NO_AN" (Z.shiftl 0x1 13);
  Const "IXGBE_AUTOC_LMS_1G_AN" (Z.shiftl 0x2 13);
  Const "IXGBE_AUTOC_LMS_KX4_AN" (Z.shiftl 0x4 13);
  Const "IXGBE_AUTOC_LMS_KX4_AN_1G_AN" (Z.shiftl 0x6 13);
  Const "IXGBE_AUTOC_LMS_ATTACH_TYPE" (Z.shiftl 0x7 7);
  Const "IXGBE_AUTOC_1G_PMA_PMD_MASK" 0x00000200;
  Const "IXGBE_AUTOC_1G_PMA_PMD_SHIFT" 9;
  Const "IXGBE_AUTOC_10G_PMA_PMD_MASK" 0x00000180;
  Const "IXGBE_AUTOC_10G_PMA_PMD_SHIFT" 7;
  Const "IXGBE_AUTOC_10G_XAUI" (Z.shiftl 0x0 7);
  Const "IXGBE_AUTOC_10G_KX4" (Z.shiftl 0x1 7);
  Const "IXGBE_AUTOC_10G_CX4" (Z.shiftl 0x2 7);
  Const "IXGBE_AUTOC_1G_BX" (Z.shiftl 0x0 9);
  Const "IXGBE_AUTOC_1G_KX" (Z.shiftl 0x1 9);
  Const "IXGBE_AUTOC_1G_SFI" (Z.shiftl 0x0 9);
  Const "IXGBE_AUTOC_1G_KX_BX" (Z.shiftl 0x1 9);
  Const "IXGBE_AUTOC2_UPPER_MASK" 0xFFFF0000;
  Const "IXGBE_AUTOC2_10G_SERIAL_PMA_PMD_MASK" 0x00030000;
  Const "IXGBE_AUTOC2_10G_SERIAL_PMA_PMD_SHIFT" 16;
  Const "IXGBE_AUTOC2_10G_KR" (Z.shiftl 0x0 16);
  Const "IXGBE_AUTOC2_10G_XFI" (Z.shiftl 0x1 16);
  Const "IXGBE_AUTOC2_10G_SFI" (Z.shiftl 0x2 16);
  Const "IXGBE_AUTOC2_LINK_DISABLE_ON_D3_MASK" 0x50000000;
  Const "IXGBE_AUTOC2_LINK_DISABLE_MASK" 0x70000000;
  Const "IXGBE_MACC_FLU" 0x00000001;
  Const "IXGBE_MACC_FSV_10G" 0x00030000;
  Const "IXGBE_MACC_FS" 0x00040000;
  Const "IXGBE_MAC_RX2TX_LPBK" 0x00000002;
  Const "IXGBE_MMNGC_MNG_VETO" 0x00000001;
  Const "IXGBE_LINKS_KX_AN_COMP" 0x80000000;
  Const "IXGBE_LINKS_UP" 0x40000000;
  Const "IXGBE_LINKS_SPEED" 0x20000000;
  Const "IXGBE_LINKS_MODE" 0x18000000;
  Const "IXGBE_LINKS_RX_MODE" 0x06000000;
  Const "IXGBE_LINKS_TX_MODE" 0x01800000;
  Const "IXGBE_LINKS_XGXS_EN" 0x00400000;
  Const "IXGBE_LINKS_SGMII_EN" 0x02000000;
  Const "IXGBE_LINKS_PCS_1G_EN" 0x00200000;
  Const "IXGBE_LINKS_1G_AN_EN" 0x00100000;
  Const "IXGBE_LINKS_KX_AN_IDLE" 0x00080000;
  Const "IXGBE_LINKS_1G_SYNC" 0x00040000;
  Const "IXGBE_LINKS_10G_ALIGN" 0x00020000;
  Const "IXGBE_LINKS_10G_LANE_SYNC" 0x00017000;
  Const "IXGBE_LINKS_TL_FAULT" 0x00001000;
  Const "IXGBE_LINKS_SIGNAL" 0x00000F00;
  Const "IXGBE_LINKS_SPEED_NON_STD" 0x08000000;
  Const "IXGBE_LINKS_SPEED_82599" 0x30000000;
  Const "IXGBE_LINKS_SPEED_10G_82599" 0x30000000;
  Const "IXGBE_LINKS_SPEED_1G_82599" 0x20000000;
  Const "IXGBE_LINKS_SPEED_100_82599" 0x10000000;
  Const "IXGBE_LINKS_SPEED_10_X550EM_A" 0x00000000;
  Const "IXGBE_LINK_UP_TIME" 90;
  Const "IXGBE_AUTO_NEG_TIME" 45;
  Const "IXGBE_LINKS2_AN_SUPPORTED" 0x00000040
].

Definition pcs_and_eeprom_fields : list macro := [
  Const "IXGBE_PCS1GLSTA_LINK_OK" 1;
  Const "IXGBE_PCS1GLSTA_SYNK_OK" 0x10;
  Const "IXGBE_PCS1GLSTA_AN_COMPLETE" 0x10000;
  Const "IXGBE_PCS1GLSTA_AN_PAGE_RX" 0x20000;
  Const "IXGBE_PCS1GLSTA_AN_TIMED_OUT" 0x40000;
  Const "IXGBE_PCS1GLSTA_AN_REMOTE_FAULT" 0x80000;
  Const "IXGBE_PCS1GLSTA_AN_ERROR_RWS" 0x100000;
  Const "IXGBE_PCS1GANA_SYM_PAUSE" 0x80;
  Const "IXGBE_PCS1GANA_ASM_PAUSE" 0x100;
  Const "IXGBE_PCS1GLCTL_AN_1G_TIMEOUT_EN" 0x00040000;
  Const "IXGBE_PCS1GLCTL_FLV_LINK_UP" 1;
  Const "IXGBE_PCS1GLCTL_FORCE_LINK" 0x20;
  Const "IXGBE_PCS1GLCTL_LOW_LINK_LATCH" 0x40;
  Const "IXGBE_PCS1GLCTL_AN_ENABLE" 0x10000;
  Const "IXGBE_PCS1GLCTL_AN_RESTART" 0x20000;
  Const "IXGBE_ANLP1_PAUSE" 0x0C00;
  Const "IXGBE_ANLP1_SYM_PAUSE" 0x0400;
  Const "IXGBE_ANLP1_ASM_PAUSE" 0x0800;
  Const "IXGBE_ANLP1_AN_STATE_MASK" 0x000f0000;
  Const "IXGBE_SWSM_SMBI" 0x00000001;
  Const "IXGBE_SWSM_SWESMBI" 0x00000002;
  Const "IXGBE_SWSM_WMNG" 0x00000004;
  Const "IXGBE_SWFW_REGSMP" 0x80000000;
  Const "IXGBE_GSSR_EEP_SM" 0x0001;
  Const "IXGBE_GSSR_PHY0_SM" 0x0002;
  Const "IXGBE_GSSR_PHY1_SM" 0x0004;
  Const "IXGBE_GSSR_MAC_CSR_SM" 0x0008;
  Const "IXGBE_GSSR_FLASH_SM" 0x0010;
  Const "IXGBE_GSSR_NVM_UPDATE_SM" 0x0200;
  Const "IXGBE_GSSR_SW_MNG_SM" 0x0400;
  Const "IXGBE_GSSR_TOKEN_SM" 0x40000000;
  Const "IXGBE_GSSR_SHARED_I2C_SM" 0x1806;
  Const "IXGBE_GSSR_I2C_MASK" 0x1800;
  Const "IXGBE_GSSR_NVM_PHY_MASK" 0xF;
  Const "IXGBE_FWSTS_FWRI" 0x00000200;
  Const "IXGBE_EEC_SK" 0x00000001;
  Const "IXGBE_EEC_CS" 0x00000002;
  Const "IXGBE_EEC_DI" 0x00000004;
  Const "IXGBE_EEC_DO" 0x00000008;
  Const "IXGBE_EEC_FWE_MASK" 0x00000030;
  Const "IXGBE_EEC_FWE_DIS" 0x00000010;
  Const "IXGBE_EEC_FWE_EN" 0x00000020;
  Const "IXGBE_EEC_FWE_SHIFT" 4;
  Const "IXGBE_EEC_REQ" 0x00000040;
  Const "IXGBE_EEC_GNT" 0x00000080;
  Const "IXGBE_EEC_PRES" 0x00000100;
  Const "IXGBE_EEC_ARD" 0x00000200;
  Const "IXGBE_EEC_FLUP" 0x00800000;
  Const "IXGBE_EEC_SEC1VAL" 0x02000000;
  Const "IXGBE_EEC_FLUDONE" 0x04000000;
  Const "IXGBE_EEC_ADDR_SIZE" 0x00000400;
  Const "IXGBE_EEC_SIZE" 0x00007800;
  Const "IXGBE_EERD_MAX_ADDR" 0x00003FFF;
  Const "IXGBE_EEC_SIZE_SHIFT" 11;
  Const "IXGBE_EEPROM_WORD_SIZE_SHIFT" 6;
  Const "IXGBE_EEPROM_OPCODE_BITS" 8;
  Const "IXGBE_FLA_LOCKED" 0x00000040;
  Const "IXGBE_PBANUM_LENGTH" 11;
  Const "IXGBE_PBANUM_PTR_GUARD" 0xFAFA;
  Const "IXGBE_EEPROM_CHECKSUM" 0x3F;
  Const "IXGBE_EEPROM_SUM" 0xBABA;
  Const "IXGBE_EEPROM_CTRL_4" 0x45;
  Const "IXGBE_EE_CTRL_4_INST_ID" 0x10;
  Const "IXGBE_EE_CTRL_4_INST_ID_SHIFT" 4;
  Const "IXGBE_PCIE_ANALOG_PTR" 0x03;
  Const "IXGBE_ATLAS0_CONFIG_PTR" 0x04;
  Const "IXGBE_PHY_PTR" 0x04;
  Const "IXGBE_ATLAS1_CONFIG_PTR" 0x05;
  Const "IXGBE_OPTION_ROM_PTR" 0x05;
  Const "IXGBE_PCIE_GENERAL_PTR" 0x06;
  Const "IXGBE_PCIE_CONFIG0_PTR" 0x07;
  Const "IXGBE_PCIE_CONFIG1_PTR" 0x08;
  Const "IXGBE_CORE0_PTR" 0x09;
  Const "IXGBE_CORE1_PTR" 0x0A;
  Const "IXGBE_MAC0_PTR" 0x0B;
  Const "IXGBE_MAC1_PTR" 0x0C;
  Const "IXGBE_CSR0_CONFIG_PTR" 0x0D;
  Const "IXGBE_CSR1_CONFIG_PTR" 0x0E;
  Const "IXGBE_PCIE_ANALOG_PTR_X550" 0x02;
  Const "IXGBE_SHADOW_RAM_SIZE_X550" 0x4000;
  Const "IXGBE_IXGBE_PCIE_GENERAL_SIZE" 0x24;
  Const "IXGBE_PCIE_CONFIG_SIZE" 0x08;
  Const "IXGBE_EEPROM_LAST_WORD" 0x41;
  Const "IXGBE_FW_PTR" 0x0F;
  Const "IXGBE_PBANUM0_PTR" 0x15;
  Const "IXGBE_PBANUM1_PTR" 0x16;
  Const "IXGBE_ALT_MAC_ADDR_PTR" 0x37;
  Const "IXGBE_FREE_SPACE_PTR" 0x3E;
  Const "IXGBE_ETS_CFG" 0x26;
  Const "IXGBE_ETS_LTHRES_DELTA_MASK" 0x07C0;
  Const "IXGBE_ETS_LTHRES_DELTA_SHIFT" 6;
  Const "IXGBE_ETS_TYPE_MASK" 0x0038;
  Const "IXGBE_ETS_TYPE_SHIFT" 3;
  Const "IXGBE_ETS_TYPE_EMC" 0x000;
  Const "IXGBE_ETS_NUM_SENSORS_MASK" 0x0007;
  Const "IXGBE_ETS_DATA_LOC_MASK" 0x3C00;
  Const "IXGBE_ETS_DATA_LOC_SHIFT" 10;
  Const "IXGBE_ETS_DATA_INDEX_MASK" 0x0300;
  Const "IXGBE_ETS_DATA_INDEX_SHIFT" 8;
  Const "IXGBE_ETS_DATA_HTHRESH_MASK" 0x00FF;
  Const "IXGBE_SAN_MAC_ADDR_PTR" 0x28;
  Const "IXGBE_DEVICE_CAPS" 0x2C;
  Const "IXGBE_82599_SERIAL_NUMBER_MAC_ADDR" 0x11;
  Const "IXGBE_X550_SERIAL_NUMBER_MAC_ADDR" 0x04;
  Const "IXGBE_PCIE_MSIX_82599_CAPS" 0x72;
  Const "IXGBE_MAX_MSIX_VECTORS_82599" 0x40;
  Const "IXGBE_PCIE_MSIX_82598_CAPS" 0x62;
  Const "IXGBE_MAX_MSIX_VECTORS_82598" 0x13;
  Const "IXGBE_PCIE_MSIX_TBL_SZ_MASK" 0x7FF;
  Const "IXGBE_ISCSI_BOOT_CAPS" 0x0033;
  Const "IXGBE_ISCSI_SETUP_PORT_0" 0x0030;
  Const "IXGBE_ISCSI_SETUP_PORT_1" 0x0034;
  Const "IXGBE_EEPROM_MAX_RETRY_SPI" 5000;
  Const "IXGBE_EEPROM_STATUS_RDY_SPI" 0x01;
  Const "IXGBE_EEPROM_READ_OPCODE_SPI" 0x03;
  Const "IXGBE_EEPROM_WRITE_OPCODE_SPI" 0x02;
  Const "IXGBE_EEPROM_A8_OPCODE_SPI" 0x08;
  Const "IXGBE_EEPROM_WREN_OPCODE_SPI" 0x06
].

Definition eeprom_and_pci_fields : list macro := [
  Const "IXGBE_EEPROM_WRDI_OPCODE_SPI" 0x04;
  Const "IXGBE_EEPROM_RDSR_OPCODE_SPI" 0x05;
  Const "IXGBE_EEPROM_WRSR_OPCODE_SPI" 0x01;
  Const "IXGBE_EEPROM_ERASE4K_OPCODE_SPI" 0x20;
  Const "IXGBE_EEPROM_ERASE64K_OPCODE_SPI" 0xD8;
  Const "IXGBE_EEPROM_ERASE256_OPCODE_SPI" 0xDB;
  Const "IXGBE_EEPROM_RW_REG_DATA" 16;
  Const "IXGBE_EEPROM_RW_REG_DONE" 2;
  Const "IXGBE_EEPROM_RW_REG_START" 1;
  Const "IXGBE_EEPROM_RW_ADDR_SHIFT" 2;
  Const "IXGBE_NVM_POLL_WRITE" 1;
  Const "IXGBE_NVM_POLL_READ" 0;
  Const "NVM_INIT_CTRL_3" 0x38;
  Const "NVM_INIT_CTRL_3_LPLU" 0x8;
  Const "NVM_INIT_CTRL_3_D10GMP_PORT0" 0x40;
  Const "NVM_INIT_CTRL_3_D10GMP_PORT1" 0x100;
  Const "IXGBE_ETH_LENGTH_OF_ADDRESS" 6;
  Const "IXGBE_EEPROM_PAGE_SIZE_MAX" 128;
  Const "IXGBE_EEPROM_RD_BUFFER_MAX_COUNT" 256;
  Const "IXGBE_EEPROM_WR_BUFFER_MAX_COUNT" 256;
  Const "IXGBE_EEPROM_CTRL_2" 1;
  Const "IXGBE_EEPROM_CCD_BIT" 2;
  Const "IXGBE_EEPROM_GRANT_ATTEMPTS" 1000;
  Const "IXGBE_EERD_EEWR_ATTEMPTS" 100000;
  Const "IXGBE_FLUDONE_ATTEMPTS" 20000;
  Const "IXGBE_PCIE_CTRL2" 0x5;
  Const "IXGBE_PCIE_CTRL2_DUMMY_ENABLE" 0x8;
  Const "IXGBE_PCIE_CTRL2_LAN_DISABLE" 0x2;
  Const "IXGBE_PCIE_CTRL2_DISABLE_SELECT" 0x1;
  Const "IXGBE_SAN_MAC_ADDR_PORT0_OFFSET" 0x0;
  Const "IXGBE_SAN_MAC_ADDR_PORT1_OFFSET" 0x3;
  Const "IXGBE_DEVICE_CAPS_ALLOW_ANY_SFP" 0x1;
  Const "IXGBE_DEVICE_CAPS_FCOE_OFFLOADS" 0x2;
  Const "IXGBE_DEVICE_CAPS_NO_CROSSTALK_WR" (Z.shiftl 1 7);
  Const "IXGBE_FW_LESM_PARAMETERS_PTR" 0x2;
  Const "IXGBE_FW_LESM_STATE_1" 0x1;
  Const "IXGBE_FW_LESM_STATE_ENABLED" 0x8000;
  Const "IXGBE_FW_PASSTHROUGH_PATCH_CONFIG_PTR" 0x4;
  Const "IXGBE_FW_PATCH_VERSION_4" 0x7;
  Const "IXGBE_FCOE_IBA_CAPS_BLK_PTR" 0x33;
  Const "IXGBE_FCOE_IBA_CAPS_FCOE" 0x20;
  Const "IXGBE_ISCSI_FCOE_BLK_PTR" 0x17;
  Const "IXGBE_ISCSI_FCOE_FLAGS_OFFSET" 0x0;
  Const "IXGBE_ISCSI_FCOE_FLAGS_ENABLE" 0x1;
  Const "IXGBE_ALT_SAN_MAC_ADDR_BLK_PTR" 0x27;
  Const "IXGBE_ALT_SAN_MAC_ADDR_CAPS_OFFSET" 0x0;
  Const "IXGBE_ALT_SAN_MAC_ADDR_PORT0_OFFSET" 0x1;
  Const "IXGBE_ALT_SAN_MAC_ADDR_PORT1_OFFSET" 0x4;
  Const "IXGBE_ALT_SAN_MAC_ADDR_WWNN_OFFSET" 0x7;
  Const "IXGBE_ALT_SAN_MAC_ADDR_WWPN_OFFSET" 0x8;
  Const "IXGBE_ALT_SAN_MAC_ADDR_CAPS_SANMAC" 0x0;
  Const "IXGBE_ALT_SAN_MAC_ADDR_CAPS_ALTWWN" 0x1;
  Const "IXGBE_X540_FW_PASSTHROUGH_PATCH_CONFIG_PTR" 0x4;
  Const "IXGBE_X540_FW_MODULE_MASK" 0x7FFF;
  Const "IXGBE_X540_FW_MODULE_LENGTH" 0x1000;
  Const "IXGBE_X540_FW_PATCH_VERSION_2" 0x5;
  Const "IXGBE_X540_FW_PATCH_VERSION_3" 0x6;
  Const "IXGBE_X540_FW_PATCH_VERSION_4" 0x7;
  Const "IXGBE_DEVICE_CAPS_WOL_PORT0_1" 0x4;
  Const "IXGBE_DEVICE_CAPS_WOL_PORT0" 0x8;
  Const "IXGBE_DEVICE_CAPS_WOL_MASK" 0xC;
  Const "IXGBE_PCI_DEVICE_STATUS" 0xAA;
  Const "IXGBE_PCI_DEVICE_STATUS_TRANSACTION_PENDING" 0x0020;
  Const "IXGBE_PCI_LINK_STATUS" 0xB2;
  Const "IXGBE_PCI_DEVICE_CONTROL2" 0xC8;
  Const "IXGBE_PCI_LINK_WIDTH" 0x3F0;
  Const "IXGBE_PCI_LINK_WIDTH_1" 0x10;
  Const "IXGBE_PCI_LINK_WIDTH_2" 0x20;
  Const "IXGBE_PCI_LINK_WIDTH_4" 0x40;
  Const "IXGBE_PCI_LINK_WIDTH_8" 0x80;
  Const "IXGBE_PCI_LINK_SPEED" 0xF;
  Const "IXGBE_PCI_LINK_SPEED_2500" 0x1;
  Const "IXGBE_PCI_LINK_SPEED_5000" 0x2;
  Const "IXGBE_PCI_LINK_SPEED_8000" 0x3;
  Const "IXGBE_PCI_HEADER_TYPE_REGISTER" 0x0E;
  Const "IXGBE_PCI_HEADER_TYPE_MULTIFUNC" 0x80;
  Const "IXGBE_PCI_DEVICE_CONTROL2_16ms" 0x0005;
  Const "IXGBE_PCIDEVCTRL2_TIMEO_MASK" 0xf;
  Const "IXGBE_PCIDEVCTRL2_16_32ms_def" 0x0;
  Const "IXGBE_PCIDEVCTRL2_50_100us" 0x1;
  Const "IXGBE_PCIDEVCTRL2_1_2ms" 0x2;
  Const "IXGBE_PCIDEVCTRL2_16_32ms" 0x5;
  Const "IXGBE_PCIDEVCTRL2_65_130ms" 0x6;
  Const "IXGBE_PCIDEVCTRL2_260_520ms" 0x9;
  Const "IXGBE_PCIDEVCTRL2_1_2s" 0xa;
  Const "IXGBE_PCIDEVCTRL2_4_8s" 0xd;
  Const "IXGBE_PCIDEVCTRL2_17_34s" 0xe
].

Definition receive_address_and_queue_fields : list macro := [
  Const "IXGBE_RAH_VIND_MASK" 0x003C0000;
  Const "IXGBE_RAH_VIND_SHIFT" 18;
  Const "IXGBE_RAH_AV" 0x80000000;
  Const "IXGBE_CLEAR_VMDQ_ALL" 0xFFFFFFFF;
  Const "IXGBE_RFCTL_ISCSI_DIS" 0x00000001;
  Const "IXGBE_RFCTL_ISCSI_DWC_MASK" 0x0000003E;
  Const "IXGBE_RFCTL_ISCSI_DWC_SHIFT" 1;
  Const "IXGBE_RFCTL_RSC_DIS" 0x00000020;
  Const "IXGBE_RFCTL_NFSW_DIS" 0x00000040;
  Const "IXGBE_RFCTL_NFSR_DIS" 0x00000080;
  Const "IXGBE_RFCTL_NFS_VER_MASK" 0x00000300;
  Const "IXGBE_RFCTL_NFS_VER_SHIFT" 8;
  Const "IXGBE_RFCTL_NFS_VER_2" 0;
  Const "IXGBE_RFCTL_NFS_VER_3" 1;
  Const "IXGBE_RFCTL_NFS_VER_4" 2;
  Const "IXGBE_RFCTL_IPV6_DIS" 0x00000400;
  Const "IXGBE_RFCTL_IPV6_XSUM_DIS" 0x00000800;
  Const "IXGBE_RFCTL_IPFRSP_DIS" 0x00004000;
  Const "IXGBE_RFCTL_IPV6_EX_DIS" 0x00010000;
  Const "IXGBE_RFCTL_NEW_IPV6_EXT_DIS" 0x00020000;
  Const "IXGBE_TXDCTL_ENABLE" 0x02000000;
  Const "IXGBE_TXDCTL_SWFLSH" 0x04000000;
  Const "IXGBE_TXDCTL_WTHRESH_SHIFT" 16;
  Const "IXGBE_TX_PAD_ENABLE" 0x00000400;
  Const "IXGBE_JUMBO_FRAME_ENABLE" 0x00000004;
  Const "IXGBE_MAX_FRAME_SZ" 0x40040000;
  Const "IXGBE_TDWBAL_HEAD_WB_ENABLE" 0x1;
  Const "IXGBE_TDWBAL_SEQNUM_WB_ENABLE" 0x2;
  Const "IXGBE_RXCTRL_RXEN" 0x00000001;
  Const "IXGBE_RXCTRL_DMBYPS" 0x00000002;
  Const "IXGBE_RXDCTL_ENABLE" 0x02000000;
  Const "IXGBE_RXDCTL_SWFLSH" 0x04000000;
  Const "IXGBE_RXDCTL_RLPMLMASK" 0x00003FFF;
  Const "IXGBE_RXDCTL_RLPML_EN" 0x00008000;
  Const "IXGBE_RXDCTL_VME" 0x40000000;
  Const "IXGBE_TSAUXC_EN_CLK" 0x00000004;
  Const "IXGBE_TSAUXC_SYNCLK" 0x00000008;
  Const "IXGBE_TSAUXC_SDP0_INT" 0x00000040;
  Const "IXGBE_TSAUXC_EN_TT0" 0x00000001;
  Const "IXGBE_TSAUXC_EN_TT1" 0x00000002;
  Const "IXGBE_TSAUXC_ST0" 0x00000010;
  Const "IXGBE_TSAUXC_DISABLE_SYSTIME" 0x80000000;
  Const "IXGBE_TSSDP_TS_SDP0_SEL_MASK" 0x000000C0;
  Const "IXGBE_TSSDP_TS_SDP0_CLK0" 0x00000080;
  Const "IXGBE_TSSDP_TS_SDP0_EN" 0x00000100;
  Const "IXGBE_TSYNCTXCTL_VALID" 0x00000001;
  Const "IXGBE_TSYNCTXCTL_ENABLED" 0x00000010;
  Const "IXGBE_TSYNCRXCTL_VALID" 0x00000001;
  Const "IXGBE_TSYNCRXCTL_TYPE_MASK" 0x0000000E;
  Const "IXGBE_TSYNCRXCTL_TYPE_L2_V2" 0x00;
  Const "IXGBE_TSYNCRXCTL_TYPE_L4_V1" 0x02;
  Const "IXGBE_TSYNCRXCTL_TYPE_L2_L4_V2" 0x04;
  Const "IXGBE_TSYNCRXCTL_TYPE_ALL" 0x08;
  Const "IXGBE_TSYNCRXCTL_TYPE_EVENT_V2" 0x0A;
  Const "IXGBE_TSYNCRXCTL_ENABLED" 0x00000010;
  Const "IXGBE_TSYNCRXCTL_TSIP_UT_EN" 0x00800000;
  Const "IXGBE_TSYNCRXCTL_TSIP_UP_MASK" 0xFF000000;
  Const "IXGBE_TSIM_SYS_WRAP" 0x00000001;
  Const "IXGBE_TSIM_TXTS" 0x00000002;
  Const "IXGBE_TSIM_TADJ" 0x00000080;
  Const "IXGBE_TSICR_SYS_WRAP" 0x00000001;
  Const "IXGBE_TSICR_TXTS" 0x00000002;
  Const "IXGBE_TSICR_TADJ" 0x00000080;
  Const "IXGBE_RXMTRL_V1_CTRLT_MASK" 0x000000FF;
  Const "IXGBE_RXMTRL_V1_SYNC_MSG" 0x00;
  Const "IXGBE_RXMTRL_V1_DELAY_REQ_MSG" 0x01;
  Const "IXGBE_RXMTRL_V1_FOLLOWUP_MSG" 0x02;
  Const "IXGBE_RXMTRL_V1_DELAY_RESP_MSG" 0x03;
  Const "IXGBE_RXMTRL_V1_MGMT_MSG" 0x04;
  Const "IXGBE_RXMTRL_V2_MSGID_MASK" 0x0000FF00;
  Const "IXGBE_RXMTRL_V2_SYNC_MSG" 0x0000;
  Const "IXGBE_RXMTRL_V2_DELAY_REQ_MSG" 0x0100;
  Const "IXGBE_RXMTRL_V2_PDELAY_REQ_MSG" 0x0200;
  Const "IXGBE_RXMTRL_V2_PDELAY_RESP_MSG" 0x0300;
  Const "IXGBE_RXMTRL_V2_FOLLOWUP_MSG" 0x0800;
  Const "IXGBE_RXMTRL_V2_DELAY_RESP_MSG" 0x0900;
  Const "IXGBE_RXMTRL_V2_PDELAY_FOLLOWUP_MSG" 0x0A00;
  Const "IXGBE_RXMTRL_V2_ANNOUNCE_MSG" 0x0B00;
  Const "IXGBE_RXMTRL_V2_SIGNALLING_MSG" 0x0C00;
  Const "IXGBE_RXMTRL_V2_MGMT_MSG" 0x0D00;
  Const "IXGBE_FCTRL_SBP" 0x00000002;
  Const "IXGBE_FCTRL_MPE" 0x00000100;
  Const "IXGBE_FCTRL_UPE" 0x00000200;
  Const "IXGBE_FCTRL_BAM" 0x00000400;
  Const "IXGBE_FCTRL_PMCF" 0x00001000;
  Const "IXGBE_FCTRL_DPF" 0x00002000;
  Const "IXGBE_FCTRL_RPFCE" 0x00004000;
  Const "IXGBE_FCTRL_RFCE" 0x00008000;
  Const "IXGBE_MFLCN_PMCF" 0x00000001;
  Const "IXGBE_MFLCN_DPF" 0x00000002;
  Const "IXGBE_MFLCN_RPFCE" 0x00000004;
  Const "IXGBE_MFLCN_RFCE" 0x00000008;
  Const "IXGBE_MFLCN_RPFCE_MASK" 0x00000FF4;
  Const "IXGBE_MFLCN_RPFCE_SHIFT" 4;
  Const "IXGBE_MRQC_RSSEN" 0x00000001;
  Const "IXGBE_MRQC_MRQE_MASK" 0xF;
  Const "IXGBE_MRQC_RT8TCEN" 0x00000002;
  Const "IXGBE_MRQC_RT4TCEN" 0x00000003;
  Const "IXGBE_MRQC_RTRSS8TCEN" 0x00000004;
  Const "IXGBE_MRQC_RTRSS4TCEN" 0x00000005;
  Const "IXGBE_MRQC_VMDQEN" 0x00000008;
  Const "IXGBE_MRQC_VMDQRSS32EN" 0x0000000A;
  Const "IXGBE_MRQC_VMDQRSS64EN" 0x0000000B;
  Const "IXGBE_MRQC_VMDQRT8TCEN" 0x0000000C;
  Const "IXGBE_MRQC_VMDQRT4TCEN" 0x0000000D;
  Const "IXGBE_MRQC_L3L4TXSWEN" 0x00008000;
  Const "IXGBE_MRQC_RSS_FIELD_MASK" 0xFFFF0000;
  Const "IXGBE_MRQC_RSS_FIELD_IPV4_TCP" 0x00010000;
  Const "IXGBE_MRQC_RSS_FIELD_IPV4" 0x00020000;
  Const "IXGBE_MRQC_RSS_FIELD_IPV6_EX_TCP" 0x00040000;
  Const "IXGBE_MRQC_RSS_FIELD_IPV6_EX" 0x00080000;
  Const "IXGBE_MRQC_RSS_FIELD_IPV6" 0x00100000;
  Const "IXGBE_MRQC_RSS_FIELD_IPV6_TCP" 0x00200000;
  Const "IXGBE_MRQC_RSS_FIELD_IPV4_UDP" 0x00400000;
  Const "IXGBE_MRQC_RSS_FIELD_IPV6_UDP" 0x00800000;
  Const "IXGBE_MRQC_RSS_FIELD_IPV6_EX_UDP" 0x01000000;
  Const "IXGBE_MRQC_MULTIPLE_RSS" 0x00002000;
  Const "IXGBE_MRQC_L3L4TXSWEN" 0x00008000
].

Definition receive_descriptor_fields : list macro := [
  Const "IXGBE_QDE_ENABLE" 0x00000001;
  Const "IXGBE_QDE_HIDE_VLAN" 0x00000002;
  Const "IXGBE_QDE_IDX_MASK" 0x00007F00;
  Const "IXGBE_QDE_IDX_SHIFT" 8;
  Const "IXGBE_QDE_WRITE" 0x00010000;
  Const "IXGBE_QDE_READ" 0x00020000;
  Const "IXGBE_TXD_POPTS_IXSM" 0x01;
  Const "IXGBE_TXD_POPTS_TXSM" 0x02;
  Const "IXGBE_TXD_CMD_EOP" 0x01000000;
  Const "IXGBE_TXD_CMD_IFCS" 0x02000000;
  Const "IXGBE_TXD_CMD_IC" 0x04000000;
  Const "IXGBE_TXD_CMD_RS" 0x08000000;
  Const "IXGBE_TXD_CMD_DEXT" 0x20000000;
  Const "IXGBE_TXD_CMD_VLE" 0x40000000;
  Const "IXGBE_TXD_STAT_DD" 0x00000001;
  Const "IXGBE_RXDADV_IPSEC_STATUS_SECP" 0x00020000;
  Const "IXGBE_RXDADV_IPSEC_ERROR_INVALID_PROTOCOL" 0x08000000;
  Const "IXGBE_RXDADV_IPSEC_ERROR_INVALID_LENGTH" 0x10000000;
  Const "IXGBE_RXDADV_IPSEC_ERROR_AUTH_FAILED" 0x18000000;
  Const "IXGBE_RXDADV_IPSEC_ERROR_BIT_MASK" 0x18000000;
  Const "IXGBE_MTQC_RT_ENA" 0x1;
  Const "IXGBE_MTQC_VT_ENA" 0x2;
  Const "IXGBE_MTQC_64Q_1PB" 0x0;
  Const "IXGBE_MTQC_32VF" 0x8;
  Const "IXGBE_MTQC_64VF" 0x4;
  Const "IXGBE_MTQC_4TC_4TQ" 0x8;
  Const "IXGBE_MTQC_8TC_8TQ" 0xC;
  Const "IXGBE_RXD_STAT_DD" 0x01;
  Const "IXGBE_RXD_STAT_EOP" 0x02;
  Const "IXGBE_RXD_STAT_FLM" 0x04;
  Const "IXGBE_RXD_STAT_VP" 0x08;
  Const "IXGBE_RXDADV_NEXTP_MASK" 0x000FFFF0;
  Const "IXGBE_RXDADV_NEXTP_SHIFT" 0x00000004;
  Const "IXGBE_RXD_STAT_UDPCS" 0x10;
  Const "IXGBE_RXD_STAT_L4CS" 0x20;
  Const "IXGBE_RXD_STAT_IPCS" 0x40;
  Const "IXGBE_RXD_STAT_PIF" 0x80;
  Const "IXGBE_RXD_STAT_CRCV" 0x100;
  Const "IXGBE_RXD_STAT_OUTERIPCS" 0x100;
  Const "IXGBE_RXD_STAT_VEXT" 0x200;
  Const "IXGBE_RXD_STAT_UDPV" 0x400;
  Const "IXGBE_RXD_STAT_DYNINT" 0x800;
  Const "IXGBE_RXD_STAT_LLINT" 0x800;
  Const "IXGBE_RXD_STAT_TSIP" 0x08000;
  Const "IXGBE_RXD_STAT_TS" 0x10000;
  Const "IXGBE_RXD_STAT_SECP" 0x20000;
  Const "IXGBE_RXD_STAT_LB" 0x40000;
  Const "IXGBE_RXD_STAT_ACK" 0x8000;
  Const "IXGBE_RXD_ERR_CE" 0x01;
  Const "IXGBE_RXD_ERR_LE" 0x02;
  Const "IXGBE_RXD_ERR_PE" 0x08;
  Const "IXGBE_RXD_ERR_OSE" 0x10;
  Const "IXGBE_RXD_ERR_USE" 0x20;
  Const "IXGBE_RXD_ERR_TCPE" 0x40;
  Const "IXGBE_RXD_ERR_IPE" 0x80;
  Const "IXGBE_RXDADV_ERR_MASK" 0xfff00000;
  Const "IXGBE_RXDADV_ERR_SHIFT" 20;
  Const "IXGBE_RXDADV_ERR_OUTERIPER" 0x04000000;
  Const "IXGBE_RXDADV_ERR_RXE" 0x20000000;
  Const "IXGBE_RXDADV_ERR_FCEOFE" 0x80000000;
  Const "IXGBE_RXDADV_ERR_FCERR" 0x00700000;
  Const "IXGBE_RXDADV_ERR_FDIR_LEN" 0x00100000;
  Const "IXGBE_RXDADV_ERR_FDIR_DROP" 0x00200000;
  Const "IXGBE_RXDADV_ERR_FDIR_COLL" 0x00400000;
  Const "IXGBE_RXDADV_ERR_HBO" 0x00800000;
  Const "IXGBE_RXDADV_ERR_CE" 0x01000000;
  Const "IXGBE_RXDADV_ERR_LE" 0x02000000;
  Const "IXGBE_RXDADV_ERR_PE" 0x08000000;
  Const "IXGBE_RXDADV_ERR_OSE" 0x10000000;
  Const "IXGBE_RXDADV_ERR_USE" 0x20000000;
  Const "IXGBE_RXDADV_ERR_TCPE" 0x40000000;
  Const "IXGBE_RXDADV_ERR_IPE" 0x80000000;
  Const "IXGBE_RXD_VLAN_ID_MASK" 0x0FFF;
  Const "IXGBE_RXD_PRI_MASK" 0xE000;
  Const "IXGBE_RXD_PRI_SHIFT" 13;
  Const "IXGBE_RXD_CFI_MASK" 0x1000;
  Const "IXGBE_RXD_CFI_SHIFT" 12;
  Const "IXGBE_RXDADV_STAT_DD" 0x01;
  Const "IXGBE_RXDADV_STAT_EOP" 0x02;
  Const "IXGBE_RXDADV_STAT_FLM" 0x04;
  Const "IXGBE_RXDADV_STAT_VP" 0x08;
  Const "IXGBE_RXDADV_STAT_MASK" 0x000fffff;
  Const "IXGBE_RXDADV_STAT_FCEOFS" 0x00000040;
  Const "IXGBE_RXDADV_STAT_FCSTAT" 0x00000030;
  Const "IXGBE_RXDADV_STAT_FCSTAT_NOMTCH" 0x00000000;
  Const "IXGBE_RXDADV_STAT_FCSTAT_NODDP" 0x00000010;
  Const "IXGBE_RXDADV_STAT_FCSTAT_FCPRSP" 0x00000020;
  Const "IXGBE_RXDADV_STAT_FCSTAT_DDP" 0x00000030;
  Const "IXGBE_RXDADV_STAT_TS" 0x00010000;
  Const "IXGBE_RXDADV_STAT_TSIP" 0x00008000;
  Const "IXGBE_PSRTYPE_TCPHDR" 0x00000010;
  Const "IXGBE_PSRTYPE_UDPHDR" 0x00000020;
  Const "IXGBE_PSRTYPE_IPV4HDR" 0x00000100;
  Const "IXGBE_PSRTYPE_IPV6HDR" 0x00000200;
  Const "IXGBE_PSRTYPE_L2HDR" 0x00001000;
  Const "IXGBE_SRRCTL_BSIZEPKT_SHIFT" 10;
  Const "IXGBE_SRRCTL_BSIZEHDRSIZE_SHIFT" 2;
  Const "IXGBE_SRRCTL_RDMTS_SHIFT" 22;
  Const "IXGBE_SRRCTL_RDMTS_MASK" 0x01C00000;
  Const "IXGBE_SRRCTL_DROP_EN" 0x10000000;
  Const "IXGBE_SRRCTL_BSIZEPKT_MASK" 0x0000007F;
  Const "IXGBE_SRRCTL_BSIZEHDR_MASK" 0x00003F00;
  Const "IXGBE_SRRCTL_DESCTYPE_LEGACY" 0x00000000;
  Const "IXGBE_SRRCTL_DESCTYPE_ADV_ONEBUF" 0x02000000;
  Const "IXGBE_SRRCTL_DESCTYPE_HDR_SPLIT" 0x04000000;
  Const "IXGBE_SRRCTL_DESCTYPE_HDR_REPLICATION_LARGE_PKT" 0x08000000;
  Const "IXGBE_SRRCTL_DESCTYPE_HDR_SPLIT_ALWAYS" 0x0A000000;
  Const "IXGBE_SRRCTL_DESCTYPE_MASK" 0x0E000000;
  Const "IXGBE_RXDPS_HDRSTAT_HDRSP" 0x00008000;
  Const "IXGBE_RXDPS_HDRSTAT_HDRLEN_MASK" 0x000003FF;
  Const "IXGBE_RXDADV_RSSTYPE_MASK" 0x0000000F;
  Const "IXGBE_RXDADV_PKTTYPE_MASK" 0x0000FFF0;
  Const "IXGBE_RXDADV_PKTTYPE_MASK_EX" 0x0001FFF0;
  Const "IXGBE_RXDADV_HDRBUFLEN_MASK" 0x00007FE0;
  Const "IXGBE_RXDADV_RSCCNT_MASK" 0x001E0000;
  Const "IXGBE_RXDADV_RSCCNT_SHIFT" 17;
  Const "IXGBE_RXDADV_HDRBUFLEN_SHIFT" 5;
  Const "IXGBE_RXDADV_SPLITHEADER_EN" 0x00001000;
  Const "IXGBE_RXDADV_SPH" 0x8000;
  Const "IXGBE_RXDADV_RSSTYPE_NONE" 0x00000000;
  Const "IXGBE_RXDADV_RSSTYPE_IPV4_TCP" 0x00000001;
  Const "IXGBE_RXDADV_RSSTYPE_IPV4" 0x00000002;
  Const "IXGBE_RXDADV_RSSTYPE_IPV6_TCP" 0x00000003;
  Const "IXGBE_RXDADV_RSSTYPE_IPV6_EX" 0x00000004;
  Const "IXGBE_RXDADV_RSSTYPE_IPV6" 0x00000005;
  Const "IXGBE_RXDADV_RSSTYPE_IPV6_TCP_EX" 0x00000006;
  Const "IXGBE_RXDADV_RSSTYPE_IPV4_UDP" 0x00000007;
  Const "IXGBE_RXDADV_RSSTYPE_IPV6_UDP" 0x00000008;
  Const "IXGBE_RXDADV_RSSTYPE_IPV6_UDP_EX" 0x00000009
].

Definition rss_and_virtual_function_fields : list macro := [
  Const "IXGBE_RXDADV_PKTTYPE_NONE" 0x00000000;
  Const "IXGBE_RXDADV_PKTTYPE_IPV4" 0x00000010;
  Const "IXGBE_RXDADV_PKTTYPE_IPV4_EX" 0x00000020;
  Const "IXGBE_RXDADV_PKTTYPE_IPV6" 0x00000040;
  Const "IXGBE_RXDADV_PKTTYPE_IPV6_EX" 0x00000080;
  Const "IXGBE_RXDADV_PKTTYPE_TCP" 0x00000100;
  Const "IXGBE_RXDADV_PKTTYPE_UDP" 0x00000200;
  Const "IXGBE_RXDADV_PKTTYPE_SCTP" 0x00000400;
  Const "IXGBE_RXDADV_PKTTYPE_NFS" 0x00000800;
  Const "IXGBE_RXDADV_PKTTYPE_GENEVE" 0x00000800;
  Const "IXGBE_RXDADV_PKTTYPE_VXLAN" 0x00000800;
  Const "IXGBE_RXDADV_PKTTYPE_TUNNEL" 0x00010000;
  Const "IXGBE_RXDADV_PKTTYPE_IPSEC_ESP" 0x00001000;
  Const "IXGBE_RXDADV_PKTTYPE_IPSEC_AH" 0x00002000;
  Const "IXGBE_RXDADV_PKTTYPE_LINKSEC" 0x00004000;
  Const "IXGBE_RXDADV_PKTTYPE_ETQF" 0x00008000;
  Const "IXGBE_RXDADV_PKTTYPE_ETQF_MASK" 0x00000070;
  Const "IXGBE_RXDADV_PKTTYPE_ETQF_SHIFT" 4;
  Const "IXGBE_RXDADV_LNKSEC_STATUS_SECP" 0x00020000;
  Const "IXGBE_RXDADV_LNKSEC_ERROR_NO_SA_MATCH" 0x08000000;
  Const "IXGBE_RXDADV_LNKSEC_ERROR_REPLAY_ERROR" 0x10000000;
  Const "IXGBE_RXDADV_LNKSEC_ERROR_BIT_MASK" 0x18000000;
  Const "IXGBE_RXDADV_LNKSEC_ERROR_BAD_SIG" 0x18000000;
  Const "IXGBE_RXD_ERR_FRAME_ERR_MASK" (Z.lor (Z.lor (Z.lor (Z.lor 0x01 0x02) 0x08) 0x10) 0x20);
  Const "IXGBE_RXDADV_ERR_FRAME_ERR_MASK" (Z.lor (Z.lor (Z.lor (Z.lor 0x01000000 0x02000000) 0x08000000) 0x10000000) 0x20000000);
  Const "IXGBE_RXDADV_ERR_FRAME_ERR_MASK_82599" 0x20000000;
  Const "IXGBE_MCSTCTRL_MFE" 0x4;
  Const "IXGBE_REQ_TX_DESCRIPTOR_MULTIPLE" 8;
  Const "IXGBE_REQ_RX_DESCRIPTOR_MULTIPLE" 8;
  Const "IXGBE_REQ_TX_BUFFER_GRANULARITY" 1024;
  Const "IXGBE_RX_DESC_SPECIAL_VLAN_MASK" 0x0FFF;
  Const "IXGBE_RX_DESC_SPECIAL_PRI_MASK" 0xE000;
  Const "IXGBE_RX_DESC_SPECIAL_PRI_SHIFT" 0x000D;
  Const "IXGBE_TX_DESC_SPECIAL_PRI_SHIFT" 0x000D;
  Fun1 "IXGBE_MBVFICR_INDEX" (fun vf_number => (Z.shiftr vf_number 4));
  Fun1 "IXGBE_MBVFICR" (fun i => (0x00710 + (i * 4)));
  Fun1 "IXGBE_VFLRE" (fun i => (if negb ((Z.land i 1) =? 0) then 0x001C0 else 0x00600));
  Fun1 "IXGBE_VFLREC" (fun i => (0x00700 + (i * 4)));
  Fun1 "IXGBE_PVFCTRL" (fun P => (0x00300 + (4 * P)));
  Fun1 "IXGBE_PVFSTATUS" (fun P => (0x00008 + (0 * P)));
  Fun1 "IXGBE_PVFLINKS" (fun P => (0x042A4 + (0 * P)));
  Fun1 "IXGBE_PVFRTIMER" (fun P => (0x00048 + (0 * P)));
  Fun1 "IXGBE_PVFMAILBOX" (fun P => (0x04C00 + (4 * P)));
  Fun1 "IXGBE_PVFRXMEMWRAP" (fun P => (0x03190 + (0 * P)));
  Fun1 "IXGBE_PVTEICR" (fun P => (0x00B00 + (4 * P)));
  Fun1 "IXGBE_PVTEICS" (fun P => (0x00C00 + (4 * P)));
  Fun1 "IXGBE_PVTEIMS" (fun P => (0x00D00 + (4 * P)));
  Fun1 "IXGBE_PVTEIMC" (fun P => (0x00E00 + (4 * P)));
  Fun1 "IXGBE_PVTEIAC" (fun P => (0x00F00 + (4 * P)));
  Fun1 "IXGBE_PVTEIAM" (fun P => (0x04D00 + (4 * P)));
  Fun1 "IXGBE_PVTEITR" (fun P => (if (P <? 24) then (0x00820 + (P * 4)) else (0x012300 + ((P - 24) * 4))));
  Fun1 "IXGBE_PVTIVAR" (fun P => (0x12500 + (4 * P)));
  Fun1 "IXGBE_PVTIVAR_MISC" (fun P => (0x04E00 + (4 * P)));
  Fun1 "IXGBE_PVTRSCINT" (fun P => (0x12000 + (4 * P)));
  Fun1 "IXGBE_VFPBACL" (fun P => (0x110C8 + (4 * P)));
  Fun1 "IXGBE_PVFRDBAL" (fun P => (if (P <? 64) then (0x01000 + (0x40 * P)) else (0x0D000 + (0x40 * (P - 64)))));
  Fun1 "IXGBE_PVFRDBAH" (fun P => (if (P <? 64) then (0x01004 + (0x40 * P)) else (0x0D004 + (0x40 * (P - 64)))));
  Fun1 "IXGBE_PVFRDLEN" (fun P => (if (P <? 64) then (0x01008 + (0x40 * P)) else (0x0D008 + (0x40 * (P - 64)))));
  Fun1 "IXGBE_PVFRDH" (fun P => (if (P <? 64) then (0x01010 + (0x40 * P)) else (0x0D010 + (0x40 * (P - 64)))));
  Fun1 "IXGBE_PVFRDT" (fun P => (if (P <? 64) then (0x01018 + (0x40 * P)) else (0x0D018 + (0x40 * (P - 64)))));
  Fun1 "IXGBE_PVFRXDCTL" (fun P => (if (P <? 64) then (0x01028 + (0x40 * P)) else (0x0D028 + (0x40 * (P - 64)))));
  Fun1 "IXGBE_PVFSRRCTL" (fun P => (if (P <? 64) then (0x01014 + (0x40 * P)) else (0x0D014 + (0x40 * (P - 64)))));
  Fun1 "IXGBE_PVFPSRTYPE" (fun P => (0x0EA00 + (4 * P)));
  Fun1 "IXGBE_PVFTDBAL" (fun P => (0x06000 + (0x40 * P)));
  Fun1 "IXGBE_PVFTDBAH" (fun P => (0x06004 + (0x40 * P)));
  Fun1 "IXGBE_PVFTDLEN" (fun P => (0x06008 + (0x40 * P)));
  Fun1 "IXGBE_PVFTDH" (fun P => (0x06010 + (0x40 * P)));
  Fun1 "IXGBE_PVFTDT" (fun P => (0x06018 + (0x40 * P)));
  Fun1 "IXGBE_PVFTXDCTL" (fun P => (0x06028 + (0x40 * P)));
  Fun1 "IXGBE_PVFTDWBAL" (fun P => (0x06038 + (0x40 * P)));
  Fun1 "IXGBE_PVFTDWBAH" (fun P => (0x0603C + (0x40 * P)));
  Fun1 "IXGBE_PVFDCA_RXCTRL" (fun P => (if (P <? 64) then (0x0100C + (0x40 * P)) else (0x0D00C + (0x40 * (P - 64)))));
  Fun1 "IXGBE_PVFDCA_TXCTRL" (fun P => (0x0600C + (0x40 * P)));
  Fun1 "IXGBE_PVFGPRC" (fun x => (0x0101C + (0x40 * x)));
  Fun1 "IXGBE_PVFGPTC" (fun x => (0x08300 + (0x04 * x)));
  Fun1 "IXGBE_PVFGORC_LSB" (fun x => (0x01020 + (0x40 * x)));
  Fun1 "IXGBE_PVFGORC_MSB" (fun x => (0x0D020 + (0x40 * x)));
  Fun1 "IXGBE_PVFGOTC_LSB" (fun x => (0x08400 + (0x08 * x)));
  Fun1 "IXGBE_PVFGOTC_MSB" (fun x => (0x08404 + (0x08 * x)));
  Fun1 "IXGBE_PVFMPRC" (fun x => (0x0D01C + (0x40 * x)));
  Fun3 "IXGBE_PVFTDWBALn" (fun q_per_pool vf_number vf_q_index => (0x06038 + (0x40 * ((q_per_pool * vf_number) + vf_q_index))));
  Fun3 "IXGBE_PVFTDWBAHn" (fun q_per_pool vf_number vf_q_index => (0x0603C + (0x40 * ((q_per_pool * vf_number) + vf_q_index))));
  Fun3 "IXGBE_PVFTDHn" (fun q_per_pool vf_number vf_q_index => (0x06010 + (0x40 * ((q_per_pool * vf_number) + vf_q_index))));
  Fun3 "IXGBE_PVFTDTn" (fun q_per_pool vf_number vf_q_index => (0x06018 + (0x40 * ((q_per_pool * vf_number) + vf_q_index))))
].

Definition flow_director_fields : list macro := [
  Const "IXGBE_FDIRCTRL_PBALLOC_64K" 0x00000001;
  Const "IXGBE_FDIRCTRL_PBALLOC_128K" 0x00000002;
  Const "IXGBE_FDIRCTRL_PBALLOC_256K" 0x00000003;
  Const "IXGBE_FDIRCTRL_INIT_DONE" 0x00000008;
  Const "IXGBE_FDIRCTRL_PERFECT_MATCH" 0x00000010;
  Const "IXGBE_FDIRCTRL_REPORT_STATUS" 0x00000020;
  Const "IXGBE_FDIRCTRL_REPORT_STATUS_ALWAYS" 0x00000080;
  Const "IXGBE_FDIRCTRL_DROP_Q_SHIFT" 8;
  Const "IXGBE_FDIRCTRL_DROP_Q_MASK" 0x00007F00;
  Const "IXGBE_FDIRCTRL_FLEX_SHIFT" 16;
  Const "IXGBE_FDIRCTRL_DROP_NO_MATCH" 0x00008000;
  Const "IXGBE_FDIRCTRL_FILTERMODE_SHIFT" 21;
  Const "IXGBE_FDIRCTRL_FILTERMODE_MACVLAN" 0x0001;
  Const "IXGBE_FDIRCTRL_FILTERMODE_CLOUD" 0x0002;
  Const "IXGBE_FDIRCTRL_SEARCHLIM" 0x00800000;
  Const "IXGBE_FDIRCTRL_FILTERMODE_MASK" 0x00E00000;
  Const "IXGBE_FDIRCTRL_MAX_LENGTH_SHIFT" 24;
  Const "IXGBE_FDIRCTRL_FULL_THRESH_MASK" 0xF0000000;
  Const "IXGBE_FDIRCTRL_FULL_THRESH_SHIFT" 28;
  Const "IXGBE_FDIRTCPM_DPORTM_SHIFT" 16;
  Const "IXGBE_FDIRUDPM_DPORTM_SHIFT" 16;
  Const "IXGBE_FDIRIP6M_DIPM_SHIFT" 16;
  Const "IXGBE_FDIRM_VLANID" 0x00000001;
  Const "IXGBE_FDIRM_VLANP" 0x00000002;
  Const "IXGBE_FDIRM_POOL" 0x00000004;
  Const "IXGBE_FDIRM_L4P" 0x00000008;
  Const "IXGBE_FDIRM_FLEX" 0x00000010;
  Const "IXGBE_FDIRM_DIPv6" 0x00000020;
  Const "IXGBE_FDIRM_L3P" 0x00000040;
  Const "IXGBE_FDIRIP6M_INNER_MAC" 0x03F0;
  Const "IXGBE_FDIRIP6M_TUNNEL_TYPE" 0x0800;
  Const "IXGBE_FDIRIP6M_TNI_VNI" 0xF000;
  Const "IXGBE_FDIRIP6M_TNI_VNI_24" 0x1000;
  Const "IXGBE_FDIRIP6M_ALWAYS_MASK" 0x040F;
  Const "IXGBE_FDIRFREE_FREE_MASK" 0xFFFF;
  Const "IXGBE_FDIRFREE_FREE_SHIFT" 0;
  Const "IXGBE_FDIRFREE_COLL_MASK" 0x7FFF0000;
  Const "IXGBE_FDIRFREE_COLL_SHIFT" 16;
  Const "IXGBE_FDIRLEN_MAXLEN_MASK" 0x3F;
  Const "IXGBE_FDIRLEN_MAXLEN_SHIFT" 0;
  Const "IXGBE_FDIRLEN_MAXHASH_MASK" 0x7FFF0000;
  Const "IXGBE_FDIRLEN_MAXHASH_SHIFT" 16;
  Const "IXGBE_FDIRUSTAT_ADD_MASK" 0xFFFF;
  Const "IXGBE_FDIRUSTAT_ADD_SHIFT" 0;
  Const "IXGBE_FDIRUSTAT_REMOVE_MASK" 0xFFFF0000;
  Const "IXGBE_FDIRUSTAT_REMOVE_SHIFT" 16;
  Const "IXGBE_FDIRFSTAT_FADD_MASK" 0x00FF;
  Const "IXGBE_FDIRFSTAT_FADD_SHIFT" 0;
  Const "IXGBE_FDIRFSTAT_FREMOVE_MASK" 0xFF00;
  Const "IXGBE_FDIRFSTAT_FREMOVE_SHIFT" 8;
  Const "IXGBE_FDIRPORT_DESTINATION_SHIFT" 16;
  Const "IXGBE_FDIRVLAN_FLEX_SHIFT" 16;
  Const "IXGBE_FDIRHASH_BUCKET_VALID_SHIFT" 15;
  Const "IXGBE_FDIRHASH_SIG_SW_INDEX_SHIFT" 16;
  Const "IXGBE_FDIRCMD_CMD_MASK" 0x00000003;
  Const "IXGBE_FDIRCMD_CMD_ADD_FLOW" 0x00000001;
  Const "IXGBE_FDIRCMD_CMD_REMOVE_FLOW" 0x00000002;
  Const "IXGBE_FDIRCMD_CMD_QUERY_REM_FILT" 0x00000003;
  Const "IXGBE_FDIRCMD_FILTER_VALID" 0x00000004;
  Const "IXGBE_FDIRCMD_FILTER_UPDATE" 0x00000008;
  Const "IXGBE_FDIRCMD_IPv6DMATCH" 0x00000010;
  Const "IXGBE_FDIRCMD_L4TYPE_UDP" 0x00000020;
  Const "IXGBE_FDIRCMD_L4TYPE_TCP" 0x00000040;
  Const "IXGBE_FDIRCMD_L4TYPE_SCTP" 0x00000060;
  Const "IXGBE_FDIRCMD_IPV6" 0x00000080;
  Const "IXGBE_FDIRCMD_CLEARHT" 0x00000100;
  Const "IXGBE_FDIRCMD_DROP" 0x00000200;
  Const "IXGBE_FDIRCMD_INT" 0x00000400;
  Const "IXGBE_FDIRCMD_LAST" 0x00000800;
  Const "IXGBE_FDIRCMD_COLLISION" 0x00001000;
  Const "IXGBE_FDIRCMD_QUEUE_EN" 0x00008000;
  Const "IXGBE_FDIRCMD_FLOW_TYPE_SHIFT" 5;
  Const "IXGBE_FDIRCMD_RX_QUEUE_SHIFT" 16;
  Const "IXGBE_FDIRCMD_TUNNEL_FILTER_SHIFT" 23;
  Const "IXGBE_FDIRCMD_VT_POOL_SHIFT" 24;
  Const "IXGBE_FDIR_INIT_DONE_POLL" 10;
  Const "IXGBE_FDIRCMD_CMD_POLL" 10;
  Const "IXGBE_FDIRCMD_TUNNEL_FILTER" 0x00800000;
  Const "IXGBE_FDIR_DROP_QUEUE" 127;
  Const "IXGBE_HI_MAX_BLOCK_BYTE_LENGTH" 1792;
  Const "IXGBE_HI_MAX_BLOCK_DWORD_LENGTH" 448;
  Const "IXGBE_HI_COMMAND_TIMEOUT" 500;
  Const "IXGBE_HI_FLASH_ERASE_TIMEOUT" 1000;
  Const "IXGBE_HI_FLASH_UPDATE_TIMEOUT" 5000;
  Const "IXGBE_HI_FLASH_APPLY_TIMEOUT" 0;
  Const "IXGBE_HI_PHY_MGMT_REQ_TIMEOUT" 2000
].

Definition firmware_interface_fields : list macro := [
  Const "FW_CEM_HDR_LEN" 0x4;
  Const "FW_CEM_CMD_DRIVER_INFO" 0xDD;
  Const "FW_CEM_CMD_DRIVER_INFO_LEN" 0x5;
  Const "FW_CEM_CMD_RESERVED" 0x0;
  Const "FW_CEM_UNUSED_VER" 0x0;
  Const "FW_CEM_MAX_RETRIES" 3;
  Const "FW_CEM_RESP_STATUS_SUCCESS" 0x1;
  Const "FW_CEM_DRIVER_VERSION_SIZE" 39;
  Const "FW_READ_SHADOW_RAM_CMD" 0x31;
  Const "FW_READ_SHADOW_RAM_LEN" 0x6;
  Const "FW_WRITE_SHADOW_RAM_CMD" 0x33;
  Const "FW_WRITE_SHADOW_RAM_LEN" 0xA;
  Const "FW_SHADOW_RAM_DUMP_CMD" 0x36;
  Const "FW_SHADOW_RAM_DUMP_LEN" 0;
  Const "FW_DEFAULT_CHECKSUM" 0xFF;
  Const "FW_NVM_DATA_OFFSET" 3;
  Const "FW_MAX_READ_BUFFER_SIZE" 1024;
  Const "FW_DISABLE_RXEN_CMD" 0xDE;
  Const "FW_DISABLE_RXEN_LEN" 0x1;
  Const "FW_PHY_MGMT_REQ_CMD" 0x20;
  Const "FW_PHY_TOKEN_REQ_CMD" 0xA;
  Const "FW_PHY_TOKEN_REQ_LEN" 2;
  Const "FW_PHY_TOKEN_REQ" 0;
  Const "FW_PHY_TOKEN_REL" 1;
  Const "FW_PHY_TOKEN_OK" 1;
  Const "FW_PHY_TOKEN_RETRY" 0x80;
  Const "FW_PHY_TOKEN_DELAY" 5;
  Const "FW_PHY_TOKEN_WAIT" 5;
  Const "FW_PHY_TOKEN_RETRIES" ((5 * 1000) / 5);
  Const "FW_INT_PHY_REQ_CMD" 0xB;
  Const "FW_INT_PHY_REQ_LEN" 10;
  Const "FW_INT_PHY_REQ_READ" 0;
  Const "FW_INT_PHY_REQ_WRITE" 1;
  Const "FW_PHY_ACT_REQ_CMD" 5;
  Const "FW_PHY_ACT_DATA_COUNT" 4;
  Const "FW_PHY_ACT_REQ_LEN" (4 + (4 * 4));
  Const "FW_PHY_ACT_INIT_PHY" 1;
  Const "FW_PHY_ACT_SETUP_LINK" 2;
  Const "FW_PHY_ACT_LINK_SPEED_10" (Z.shiftl 1 0);
  Const "FW_PHY_ACT_LINK_SPEED_100" (Z.shiftl 1 1);
  Const "FW_PHY_ACT_LINK_SPEED_1G" (Z.shiftl 1 2);
  Const "FW_PHY_ACT_LINK_SPEED_2_5G" (Z.shiftl 1 3);
  Const "FW_PHY_ACT_LINK_SPEED_5G" (Z.shiftl 1 4);
  Const "FW_PHY_ACT_LINK_SPEED_10G" (Z.shiftl 1 5);
  Const "FW_PHY_ACT_LINK_SPEED_20G" (Z.shiftl 1 6);
  Const "FW_PHY_ACT_LINK_SPEED_25G" (Z.shiftl 1 7);
  Const "FW_PHY_ACT_LINK_SPEED_40G" (Z.shiftl 1 8);
  Const "FW_PHY_ACT_LINK_SPEED_50G" (Z.shiftl 1 9);
  Const "FW_PHY_ACT_LINK_SPEED_100G" (Z.shiftl 1 10);
  Const "FW_PHY_ACT_SETUP_LINK_PAUSE_SHIFT" 16;
  Const "FW_PHY_ACT_SETUP_LINK_PAUSE_MASK" (Z.shiftl 3 16);
  Const "FW_PHY_ACT_SETUP_LINK_PAUSE_NONE" 0;
  Const "FW_PHY_ACT_SETUP_LINK_PAUSE_TX" 1;
  Const "FW_PHY_ACT_SETUP_LINK_PAUSE_RX" 2;
  Const "FW_PHY_ACT_SETUP_LINK_PAUSE_RXTX" 3;
  Const "FW_PHY_ACT_SETUP_LINK_LP" (Z.shiftl 1 18);
  Const "FW_PHY_ACT_SETUP_LINK_HP" (Z.shiftl 1 19);
  Const "FW_PHY_ACT_SETUP_LINK_EEE" (Z.shiftl 1 20);
  Const "FW_PHY_ACT_SETUP_LINK_AN" (Z.shiftl 1 22);
  Const "FW_PHY_ACT_SETUP_LINK_RSP_DOWN" (Z.shiftl 1 0);
  Const "FW_PHY_ACT_GET_LINK_INFO" 3;
  Const "FW_PHY_ACT_GET_LINK_INFO_EEE" (Z.shiftl 1 19);
  Const "FW_PHY_ACT_GET_LINK_INFO_FC_TX" (Z.shiftl 1 20);
  Const "FW_PHY_ACT_GET_LINK_INFO_FC_RX" (Z.shiftl 1 21);
  Const "FW_PHY_ACT_GET_LINK_INFO_POWER" (Z.shiftl 1 22);
  Const "FW_PHY_ACT_GET_LINK_INFO_AN_COMPLETE" (Z.shiftl 1 24);
  Const "FW_PHY_ACT_GET_LINK_INFO_TEMP" (Z.shiftl 1 25);
  Const "FW_PHY_ACT_GET_LINK_INFO_LP_FC_TX" (Z.shiftl 1 28);
  Const "FW_PHY_ACT_GET_LINK_INFO_LP_FC_RX" (Z.shiftl 1 29);
  Const "FW_PHY_ACT_FORCE_LINK_DOWN" 4;
  Const "FW_PHY_ACT_FORCE_LINK_DOWN_OFF" (Z.shiftl 1 0);
  Const "FW_PHY_ACT_PHY_SW_RESET" 5;
  Const "FW_PHY_ACT_PHY_HW_RESET" 6;
  Const "FW_PHY_ACT_GET_PHY_INFO" 7;
  Const "FW_PHY_ACT_UD_2" 0x1002;
  Const "FW_PHY_ACT_UD_2_10G_KR_EEE" (Z.shiftl 1 6);
  Const "FW_PHY_ACT_UD_2_10G_KX4_EEE" (Z.shiftl 1 5);
  Const "FW_PHY_ACT_UD_2_1G_KX_EEE" (Z.shiftl 1 4);
  Const "FW_PHY_ACT_UD_2_10G_T_EEE" (Z.shiftl 1 3);
  Const "FW_PHY_ACT_UD_2_1G_T_EEE" (Z.shiftl 1 2);
  Const "FW_PHY_ACT_UD_2_100M_TX_EEE" (Z.shiftl 1 1);
  Const "FW_PHY_ACT_RETRIES" 50;
  Const "FW_PHY_INFO_SPEED_MASK" 0xFFF;
  Const "FW_PHY_INFO_ID_HI_MASK" 0xFFFF0000
].

Definition transmit_descriptor_fields : list macro := [
  Const "IXGBE_ADVTXD_DTALEN_MASK" 0x0000FFFF;
  Const "IXGBE_ADVTXD_MAC_LINKSEC" 0x00040000;
  Const "IXGBE_ADVTXD_MAC_TSTAMP" 0x00080000;
  Const "IXGBE_ADVTXD_IPSEC_SA_INDEX_MASK" 0x000003FF;
  Const "IXGBE_ADVTXD_IPSEC_ESP_LEN_MASK" 0x000001FF;
  Const "IXGBE_ADVTXD_DTYP_MASK" 0x00F00000;
  Const "IXGBE_ADVTXD_DTYP_CTXT" 0x00200000;
  Const "IXGBE_ADVTXD_DTYP_DATA" 0x00300000;
  Const "IXGBE_ADVTXD_DCMD_EOP" 0x01000000;
  Const "IXGBE_ADVTXD_DCMD_IFCS" 0x02000000;
  Const "IXGBE_ADVTXD_DCMD_RS" 0x08000000;
  Const "IXGBE_ADVTXD_DCMD_DDTYP_ISCSI" 0x10000000;
  Const "IXGBE_ADVTXD_DCMD_DEXT" 0x20000000;
  Const "IXGBE_ADVTXD_DCMD_VLE" 0x40000000;
  Const "IXGBE_ADVTXD_DCMD_TSE" 0x80000000;
  Const "IXGBE_ADVTXD_STAT_DD" 0x00000001;
  Const "IXGBE_ADVTXD_STAT_SN_CRC" 0x00000002;
  Const "IXGBE_ADVTXD_STAT_RSV" 0x0000000C;
  Const "IXGBE_ADVTXD_IDX_SHIFT" 4;
  Const "IXGBE_ADVTXD_CC" 0x00000080;
  Const "IXGBE_ADVTXD_POPTS_SHIFT" 8;
  Const "IXGBE_ADVTXD_POPTS_IXSM" (Z.shiftl 0x01 8);
  Const "IXGBE_ADVTXD_POPTS_TXSM" (Z.shiftl 0x02 8);
  Const "IXGBE_ADVTXD_POPTS_ISCO_1ST" 0x00000000;
  Const "IXGBE_ADVTXD_POPTS_ISCO_MDL" 0x00000800;
  Const "IXGBE_ADVTXD_POPTS_ISCO_LAST" 0x00001000;
  Const "IXGBE_ADVTXD_POPTS_ISCO_FULL" 0x00001800;
  Const "IXGBE_ADVTXD_POPTS_RSV" 0x00002000;
  Const "IXGBE_ADVTXD_PAYLEN_SHIFT" 14;
  Const "IXGBE_ADVTXD_MACLEN_SHIFT" 9;
  Const "IXGBE_ADVTXD_VLAN_SHIFT" 16;
  Const "IXGBE_ADVTXD_TUCMD_IPV4" 0x00000400;
  Const "IXGBE_ADVTXD_TUCMD_IPV6" 0x00000000;
  Const "IXGBE_ADVTXD_TUCMD_L4T_UDP" 0x00000000;
  Const "IXGBE_ADVTXD_TUCMD_L4T_TCP" 0x00000800;
  Const "IXGBE_ADVTXD_TUCMD_L4T_SCTP" 0x00001000;
  Const "IXGBE_ADVTXD_TUCMD_L4T_RSV" 0x00001800;
  Const "IXGBE_ADVTXD_TUCMD_MKRREQ" 0x00002000;
  Const "IXGBE_ADVTXD_POPTS_IPSEC" 0x00000400;
  Const "IXGBE_ADVTXD_TUCMD_IPSEC_TYPE_ESP" 0x00002000;
  Const "IXGBE_ADVTXD_TUCMD_IPSEC_ENCRYPT_EN" 0x00004000;
  Const "IXGBE_ADVTXT_TUCMD_FCOE" 0x00008000;
  Const "IXGBE_ADVTXD_FCOEF_EOF_MASK" (Z.shiftl 0x3 10);
  Const "IXGBE_ADVTXD_FCOEF_SOF" (Z.shiftl (Z.shiftl 1 2) 10);
  Const "IXGBE_ADVTXD_FCOEF_PARINC" (Z.shiftl (Z.shiftl 1 3) 10);
  Const "IXGBE_ADVTXD_FCOEF_ORIE" (Z.shiftl (Z.shiftl 1 4) 10);
  Const "IXGBE_ADVTXD_FCOEF_ORIS" (Z.shiftl (Z.shiftl 1 5) 10);
  Const "IXGBE_ADVTXD_FCOEF_EOF_N" (Z.shiftl 0x0 10);
  Const "IXGBE_ADVTXD_FCOEF_EOF_T" (Z.shiftl 0x1 10);
  Const "IXGBE_ADVTXD_FCOEF_EOF_NI" (Z.shiftl 0x2 10);
  Const "IXGBE_ADVTXD_FCOEF_EOF_A" (Z.shiftl 0x3 10);
  Const "IXGBE_ADVTXD_L4LEN_SHIFT" 8;
  Const "IXGBE_ADVTXD_MSS_SHIFT" 16;
  Const "IXGBE_ADVTXD_OUTER_IPLEN" 16;
  Const "IXGBE_ADVTXD_TUNNEL_LEN" 24;
  Const "IXGBE_ADVTXD_TUNNEL_TYPE_SHIFT" 16;
  Const "IXGBE_ADVTXD_OUTERIPCS_SHIFT" 17;
  Const "IXGBE_ADVTXD_TUNNEL_TYPE_NVGRE" 1;
  Const "IXGBE_ADVTXD_OUTERIPCS_SHIFT_X550EM_a" 26;
  Const "IXGBE_LINK_SPEED_UNKNOWN" 0;
  Const "IXGBE_LINK_SPEED_10_FULL" 0x0002;
  Const "IXGBE_LINK_SPEED_100_FULL" 0x0008;
  Const "IXGBE_LINK_SPEED_1GB_FULL" 0x0020;
  Const "IXGBE_LINK_SPEED_2_5GB_FULL" 0x0400;
  Const "IXGBE_LINK_SPEED_5GB_FULL" 0x0800;
  Const "IXGBE_LINK_SPEED_10GB_FULL" 0x0080;
  Const "IXGBE_LINK_SPEED_82598_AUTONEG" (Z.lor 0x0020 0x0080);
  Const "IXGBE_LINK_SPEED_82599_AUTONEG" (Z.lor (Z.lor 0x0008 0x0020) 0x0080);
  Const "IXGBE_PHYSICAL_LAYER_UNKNOWN" 0;
  Const "IXGBE_PHYSICAL_LAYER_10GBASE_T" 0x00001;
  Const "IXGBE_PHYSICAL_LAYER_1000BASE_T" 0x00002;
  Const "IXGBE_PHYSICAL_LAYER_100BASE_TX" 0x00004;
  Const "IXGBE_PHYSICAL_LAYER_SFP_PLUS_CU" 0x00008;
  Const "IXGBE_PHYSICAL_LAYER_10GBASE_LR" 0x00010;
  Const "IXGBE_PHYSICAL_LAYER_10GBASE_LRM" 0x00020;
  Const "IXGBE_PHYSICAL_LAYER_10GBASE_SR" 0x00040;
  Const "IXGBE_PHYSICAL_LAYER_10GBASE_KX4" 0x00080;
  Const "IXGBE_PHYSICAL_LAYER_10GBASE_CX4" 0x00100;
  Const "IXGBE_PHYSICAL_LAYER_1000BASE_KX" 0x00200;
  Const "IXGBE_PHYSICAL_LAYER_1000BASE_BX" 0x00400;
  Const "IXGBE_PHYSICAL_LAYER_10GBASE_KR" 0x00800;
  Const "IXGBE_PHYSICAL_LAYER_10GBASE_XAUI" 0x01000;
  Const "IXGBE_PHYSICAL_LAYER_SFP_ACTIVE_DA" 0x02000;
  Const "IXGBE_PHYSICAL_LAYER_1000BASE_SX" 0x04000
].

Definition flow_control_delays : list macro := [
  Fun1 "IXGBE_BT2KB" (fun BT => ((BT + ((8 * 1024) - 1)) / (8 * 1024)));
  Fun1 "IXGBE_B2BT" (fun BT => (BT * 8));
  Const "IXGBE_PFC_D" 672;
  Const "IXGBE_CABLE_DC" 5556;
  Const "IXGBE_CABLE_DO" 5000;
  Const "IXGBE_PHY_DC" 25600;
  Const "IXGBE_MAC_DC" 8192;
  Const "IXGBE_XAUI_DC" (2 * 2048);
  Const "IXGBE_ID_X540" ((8192 + (2 * 2048)) + 25600);
  Const "IXGBE_PHY_D" 12800;
  Const "IXGBE_MAC_D" 4096;
  Const "IXGBE_XAUI_D" (2 * 1024);
  Const "IXGBE_ID" ((4096 + (2 * 1024)) + 12800);
  Const "IXGBE_HD" 6144;
  Const "IXGBE_PCI_DELAY" 10000;
  Fun2 "IXGBE_DV_X540" (fun max_frame_link max_frame_tc => ((((36 * (((((max_frame_link * 8) + 672) + (2 * 5556)) + (2 * ((8192 + (2 * 2048)) + 25600))) + 6144)) / 25) + 1) + (2 * (max_frame_tc * 8))));
  Fun2 "IXGBE_DV" (fun max_frame_link max_frame_tc => ((((36 * (((((max_frame_link * 8) + 672) + (2 * 5556)) + (2 * ((4096 + (2 * 1024)) + 12800))) + 6144)) / 25) + 1) + (2 * (max_frame_tc * 8))));
  Fun1 "IXGBE_LOW_DV_X540" (fun max_frame_tc => (((2 * (max_frame_tc * 8)) + ((36 * 10000) / 25)) + 1));
  Fun1 "IXGBE_LOW_DV" (fun max_frame_tc => (2 * (((2 * (max_frame_tc * 8)) + ((36 * 10000) / 25)) + 1)));
  Const "IXGBE_ATR_BUCKET_HASH_KEY" 0x3DAD14E2;
  Const "IXGBE_ATR_SIGNATURE_HASH_KEY" 0x174D3614;
  Const "IXGBE_ATR_HASH_MASK" 0x7fff;
  Const "IXGBE_ATR_L4TYPE_MASK" 0x3;
  Const "IXGBE_ATR_L4TYPE_UDP" 0x1;
  Const "IXGBE_ATR_L4TYPE_TCP" 0x2;
  Const "IXGBE_ATR_L4TYPE_SCTP" 0x3;
  Const "IXGBE_ATR_L4TYPE_IPV6_MASK" 0x4;
  Const "IXGBE_ATR_L4TYPE_TUNNEL_MASK" 0x10
].

Definition krm_and_sideband_registers : list macro := [
  Fun1 "IXGBE_FUSES0_GROUP" (fun i => (0x11158 + (i * 4)));
  Const "IXGBE_FUSES0_300MHZ" (Z.shiftl 1 5);
  Const "IXGBE_FUSES0_REV_MASK" (Z.shiftl 3 6);
  Fun1 "IXGBE_KRM_PORT_CAR_GEN_CTRL" (fun P => (if negb (P =? 0) then 0x8010 else 0x4010));
  Fun1 "IXGBE_KRM_LINK_S1" (fun P => (if negb (P =? 0) then 0x8200 else 0x4200));
  Fun1 "IXGBE_KRM_LINK_CTRL_1" (fun P => (if negb (P =? 0) then 0x820C else 0x420C));
  Fun1 "IXGBE_KRM_AN_CNTL_1" (fun P => (if negb (P =? 0) then 0x822C else 0x422C));
  Fun1 "IXGBE_KRM_AN_CNTL_4" (fun P => (if negb (P =? 0) then 0x8238 else 0x4238));
  Fun1 "IXGBE_KRM_AN_CNTL_8" (fun P => (if negb (P =? 0) then 0x8248 else 0x4248));
  Fun1 "IXGBE_KRM_PCS_KX_AN" (fun P => (if negb (P =? 0) then 0x9918 else 0x5918));
  Fun1 "IXGBE_KRM_PCS_KX_AN_LP" (fun P => (if negb (P =? 0) then 0x991C else 0x591C));
  Fun1 "IXGBE_KRM_SGMII_CTRL" (fun P => (if negb (P =? 0) then 0x82A0 else 0x42A0));
  Fun1 "IXGBE_KRM_LP_BASE_PAGE_HIGH" (fun P => (if negb (P =? 0) then 0x836C else 0x436C));
  Fun1 "IXGBE_KRM_DSP_TXFFE_STATE_4" (fun P => (if negb (P =? 0) then 0x8634 else 0x4634));
  Fun1 "IXGBE_KRM_DSP_TXFFE_STATE_5" (fun P => (if negb (P =? 0) then 0x8638 else 0x4638));
  Fun1 "IXGBE_KRM_RX_TRN_LINKUP_CTRL" (fun P => (if negb (P =? 0) then 0x8B00 else 0x4B00));
  Fun1 "IXGBE_KRM_PMD_DFX_BURNIN" (fun P => (if negb (P =? 0) then 0x8E00 else 0x4E00));
  Fun1 "IXGBE_KRM_PMD_FLX_MASK_ST20" (fun P => (if negb (P =? 0) then 0x9054 else 0x5054));
  Fun1 "IXGBE_KRM_TX_COEFF_CTRL_1" (fun P => (if negb (P =? 0) then 0x9520 else 0x5520));
  Fun1 "IXGBE_KRM_RX_ANA_CTL" (fun P => (if negb (P =? 0) then 0x9A00 else 0x5A00));
  Const "IXGBE_KRM_PMD_FLX_MASK_ST20_SFI_10G_DA" (not32 (Z.shiftl 0x3 20));
  Const "IXGBE_KRM_PMD_FLX_MASK_ST20_SFI_10G_SR" (Z.shiftl 1 20);
  Const "IXGBE_KRM_PMD_FLX_MASK_ST20_SFI_10G_LR" (Z.shiftl 0x2 20);
  Const "IXGBE_KRM_PMD_FLX_MASK_ST20_SGMII_EN" (Z.shiftl 1 25);
  Const "IXGBE_KRM_PMD_FLX_MASK_ST20_AN37_EN" (Z.shiftl 1 26);
  Const "IXGBE_KRM_PMD_FLX_MASK_ST20_AN_EN" (Z.shiftl 1 27);
  Const "IXGBE_KRM_PMD_FLX_MASK_ST20_SPEED_10M" (not32 (Z.shiftl 0x7 28));
  Const "IXGBE_KRM_PMD_FLX_MASK_ST20_SPEED_100M" (Z.shiftl 1 28);
  Const "IXGBE_KRM_PMD_FLX_MASK_ST20_SPEED_1G" (Z.shiftl 0x2 28);
  Const "IXGBE_KRM_PMD_FLX_MASK_ST20_SPEED_10G" (Z.shiftl 0x3 28);
  Const "IXGBE_KRM_PMD_FLX_MASK_ST20_SPEED_AN" (Z.shiftl 0x4 28);
  Const "IXGBE_KRM_PMD_FLX_MASK_ST20_SPEED_2_5G" (Z.shiftl 0x7 28);
  Const "IXGBE_KRM_PMD_FLX_MASK_ST20_SPEED_MASK" (Z.shiftl 0x7 28);
  Const "IXGBE_KRM_PMD_FLX_MASK_ST20_FW_AN_RESTART" (Z.shiftl 1 31);
  Const "IXGBE_KRM_PORT_CAR_GEN_CTRL_NELB_32B" (Z.shiftl 1 9);
  Const "IXGBE_KRM_PORT_CAR_GEN_CTRL_NELB_KRPCS" (Z.shiftl 1 11);
  Const "IXGBE_KRM_LINK_CTRL_1_TETH_FORCE_SPEED_MASK" (Z.shiftl 0x7 8);
  Const "IXGBE_KRM_LINK_CTRL_1_TETH_FORCE_SPEED_1G" (Z.shiftl 2 8);
  Const "IXGBE_KRM_LINK_CTRL_1_TETH_FORCE_SPEED_10G" (Z.shiftl 4 8);
  Const "IXGBE_KRM_LINK_CTRL_1_TETH_AN_SGMII_EN" (Z.shiftl 1 12);
  Const "IXGBE_KRM_LINK_CTRL_1_TETH_AN_CLAUSE_37_EN" (Z.shiftl 1 13);
  Const "IXGBE_KRM_LINK_CTRL_1_TETH_AN_FEC_REQ" (Z.shiftl 1 14);
  Const "IXGBE_KRM_LINK_CTRL_1_TETH_AN_CAP_FEC" (Z.shiftl 1 15);
  Const "IXGBE_KRM_LINK_CTRL_1_TETH_AN_CAP_KX" (Z.shiftl 1 16);
  Const "IXGBE_KRM_LINK_CTRL_1_TETH_AN_CAP_KR" (Z.shiftl 1 18);
  Const "IXGBE_KRM_LINK_CTRL_1_TETH_EEE_CAP_KX" (Z.shiftl 1 24);
  Const "IXGBE_KRM_LINK_CTRL_1_TETH_EEE_CAP_KR" (Z.shiftl 1 26);
  Const "IXGBE_KRM_LINK_S1_MAC_AN_COMPLETE" (Z.shiftl 1 28);
  Const "IXGBE_KRM_LINK_CTRL_1_TETH_AN_ENABLE" (Z.shiftl 1 29);
  Const "IXGBE_KRM_LINK_CTRL_1_TETH_AN_RESTART" (Z.shiftl 1 31);
  Const "IXGBE_KRM_AN_CNTL_1_SYM_PAUSE" (Z.shiftl 1 28);
  Const "IXGBE_KRM_AN_CNTL_1_ASM_PAUSE" (Z.shiftl 1 29);
  Const "IXGBE_KRM_PCS_KX_AN_SYM_PAUSE" (Z.shiftl 1 1);
  Const "IXGBE_KRM_PCS_KX_AN_ASM_PAUSE" (Z.shiftl 1 2);
  Const "IXGBE_KRM_PCS_KX_AN_LP_SYM_PAUSE" (Z.shiftl 1 2);
  Const "IXGBE_KRM_PCS_KX_AN_LP_ASM_PAUSE" (Z.shiftl 1 3);
  Const "IXGBE_KRM_AN_CNTL_4_ECSR_AN37_OVER_73" (Z.shiftl 1 29);
  Const "IXGBE_KRM_AN_CNTL_8_LINEAR" (Z.shiftl 1 0);
  Const "IXGBE_KRM_AN_CNTL_8_LIMITING" (Z.shiftl 1 1);
  Const "IXGBE_KRM_LP_BASE_PAGE_HIGH_SYM_PAUSE" (Z.shiftl 1 10);
  Const "IXGBE_KRM_LP_BASE_PAGE_HIGH_ASM_PAUSE" (Z.shiftl 1 11);
  Const "IXGBE_KRM_SGMII_CTRL_MAC_TAR_FORCE_100_D" (Z.shiftl 1 12);
  Const "IXGBE_KRM_SGMII_CTRL_MAC_TAR_FORCE_10_D" (Z.shiftl 1 19);
  Const "IXGBE_KRM_DSP_TXFFE_STATE_C0_EN" (Z.shiftl 1 6);
  Const "IXGBE_KRM_DSP_TXFFE_STATE_CP1_CN1_EN" (Z.shiftl 1 15);
  Const "IXGBE_KRM_DSP_TXFFE_STATE_CO_ADAPT_EN" (Z.shiftl 1 16);
  Const "IXGBE_KRM_RX_TRN_LINKUP_CTRL_CONV_WO_PROTOCOL" (Z.shiftl 1 4);
  Const "IXGBE_KRM_RX_TRN_LINKUP_CTRL_PROTOCOL_BYPASS" (Z.shiftl 1 2);
  Const "IXGBE_KRM_PMD_DFX_BURNIN_TX_RX_KR_LB_MASK" (Z.shiftl 0x3 16);
  Const "IXGBE_KRM_TX_COEFF_CTRL_1_CMINUS1_OVRRD_EN" (Z.shiftl 1 1);
  Const "IXGBE_KRM_TX_COEFF_CTRL_1_CPLUS1_OVRRD_EN" (Z.shiftl 1 2);
  Const "IXGBE_KRM_TX_COEFF_CTRL_1_CZERO_EN" (Z.shiftl 1 3);
  Const "IXGBE_KRM_TX_COEFF_CTRL_1_OVRRD_EN" (Z.shiftl 1 31);
  Const "IXGBE_SB_IOSF_INDIRECT_CTRL" 0x00011144;
  Const "IXGBE_SB_IOSF_INDIRECT_DATA" 0x00011148;
  Const "IXGBE_SB_IOSF_CTRL_ADDR_SHIFT" 0;
  Const "IXGBE_SB_IOSF_CTRL_ADDR_MASK" 0xFF;
  Const "IXGBE_SB_IOSF_CTRL_RESP_STAT_SHIFT" 18;
  Const "IXGBE_SB_IOSF_CTRL_RESP_STAT_MASK" (Z.shiftl 0x3 18);
  Const "IXGBE_SB_IOSF_CTRL_CMPL_ERR_SHIFT" 20;
  Const "IXGBE_SB_IOSF_CTRL_CMPL_ERR_MASK" (Z.shiftl 0xFF 20);
  Const "IXGBE_SB_IOSF_CTRL_TARGET_SELECT_SHIFT" 28;
  Const "IXGBE_SB_IOSF_CTRL_TARGET_SELECT_MASK" 0x7;
  Const "IXGBE_SB_IOSF_CTRL_BUSY_SHIFT" 31;
  Const "IXGBE_SB_IOSF_CTRL_BUSY" (Z.shiftl 1 31);
  Const "IXGBE_SB_IOSF_TARGET_KR_PHY" 0;
  Const "IXGBE_NW_MNG_IF_SEL" 0x00011178;
  Const "IXGBE_NW_MNG_IF_SEL_MDIO_ACT" (Z.shiftl 1 1);
  Const "IXGBE_NW_MNG_IF_SEL_MDIO_IF_MODE" (Z.shiftl 1 2);
  Const "IXGBE_NW_MNG_IF_SEL_EN_SHARED_MDIO" (Z.shiftl 1 13);
  Const "IXGBE_NW_MNG_IF_SEL_PHY_SPEED_10M" (Z.shiftl 1 17);
  Const "IXGBE_NW_MNG_IF_SEL_PHY_SPEED_100M" (Z.shiftl 1 18);
  Const "IXGBE_NW_MNG_IF_SEL_PHY_SPEED_1G" (Z.shiftl 1 19);
  Const "IXGBE_NW_MNG_IF_SEL_PHY_SPEED_2_5G" (Z.shiftl 1 20);
  Const "IXGBE_NW_MNG_IF_SEL_PHY_SPEED_10G" (Z.shiftl 1 21);
  Const "IXGBE_NW_MNG_IF_SEL_SGMII_ENABLE" (Z.shiftl 1 25);
  Const "IXGBE_NW_MNG_IF_SEL_INT_PHY_MODE" (Z.shiftl 1 24);
  Const "IXGBE_NW_MNG_IF_SEL_MDIO_PHY_ADD_SHIFT" 3;
  Const "IXGBE_NW_MNG_IF_SEL_MDIO_PHY_ADD" (Z.shiftl 0x1F 3)
].

Definition all_macros : list macro := concat [
  vendor_and_device_ids;
  general_and_nvm_registers;
  interrupt_and_receive_registers;
  mailbox_filter_and_transmit_registers;
  wakeup_and_energy_registers;
  security_and_dcb_registers;
  fcoe_registers;
  statistics_and_management_registers;
  pcie_registers;
  time_sync_and_diagnostic_registers;
  mac_and_dca_fields;
  phy_registers_and_device_types;
  phy_and_buffer_fields;
  queue_and_interrupt_fields;
  interrupt_masks_and_vectors;
  status_and_link_fields;
  pcs_and_eeprom_fields;
  eeprom_and_pci_fields;
  receive_address_and_queue_fields;
  receive_descriptor_fields;
  rss_and_virtual_function_fields;
  flow_director_fields;
  firmware_interface_fields;
  transmit_descriptor_fields;
  flow_control_delays;
  krm_and_sideband_registers].
