(* ===== verification/RegProps.v ===== *)
(** * Properties of the register header

    The definitions of Registers.v, which the driver's model uses, against the
    macro tables of the whole header, and the layout of the register space. *)
From S2P Require Import Prelude Mem Registers TypeTables.
Local Open Scope string_scope.
Local Open Scope Z_scope.

Fixpoint macro_const (ms : list macro) (name : string) : option Z :=
  match ms with
  | [] => None
  | Const n v :: ms' => if String.eqb n name then Some v else macro_const ms' name
  | _ :: ms' => macro_const ms' name
  end.
Fixpoint macro_fun (ms : list macro) (name : string) : option (Z -> Z) :=
  match ms with
  | [] => None
  | Fun1 n f :: ms' => if String.eqb n name then Some f else macro_fun ms' name
  | _ :: ms' => macro_fun ms' name
  end.

Definition driver_constants : list (string * Z) :=
  [("IXGBE_CTRL", IXGBE_CTRL); ("IXGBE_CTRL_EXT", IXGBE_CTRL_EXT);
   ("IXGBE_EEC", IXGBE_EEC); ("IXGBE_EIMC", IXGBE_EIMC);
   ("IXGBE_CTRL_LNK_RST", IXGBE_CTRL_LNK_RST); ("IXGBE_CTRL_RST", IXGBE_CTRL_RST);
   ("IXGBE_CTRL_RST_MASK", IXGBE_CTRL_RST_MASK); ("IXGBE_CTRL_EXT_NS_DIS", IXGBE_CTRL_EXT_NS_DIS);
   ("IXGBE_EEC_ARD", IXGBE_EEC_ARD); ("IXGBE_RDRXCTL", IXGBE_RDRXCTL);
   ("IXGBE_RXCTRL", IXGBE_RXCTRL); ("IXGBE_FCTRL", IXGBE_FCTRL);
   ("IXGBE_RXPBSIZE_128KB", IXGBE_RXPBSIZE_128KB); ("IXGBE_RDRXCTL_CRCSTRIP", IXGBE_RDRXCTL_CRCSTRIP);
   ("IXGBE_RDRXCTL_DMAIDONE", IXGBE_RDRXCTL_DMAIDONE); ("IXGBE_RXCTRL_RXEN", IXGBE_RXCTRL_RXEN);
   ("IXGBE_RXDCTL_ENABLE", IXGBE_RXDCTL_ENABLE); ("IXGBE_SRRCTL_DROP_EN", IXGBE_SRRCTL_DROP_EN);
   ("IXGBE_SRRCTL_DESCTYPE_ADV_ONEBUF", IXGBE_SRRCTL_DESCTYPE_ADV_ONEBUF); ("IXGBE_SRRCTL_DESCTYPE_MASK", IXGBE_SRRCTL_DESCTYPE_MASK);
   ("IXGBE_FCTRL_MPE", IXGBE_FCTRL_MPE); ("IXGBE_FCTRL_UPE", IXGBE_FCTRL_UPE);
   ("IXGBE_FCTRL_BAM", IXGBE_FCTRL_BAM); ("IXGBE_DMATXCTL", IXGBE_DMATXCTL);
   ("IXGBE_DTXMXSZRQ", IXGBE_DTXMXSZRQ); ("IXGBE_DMATXCTL_TE", IXGBE_DMATXCTL_TE);
   ("IXGBE_TXPBSIZE_40KB", IXGBE_TXPBSIZE_40KB); ("IXGBE_RTTDCS", IXGBE_RTTDCS);
   ("IXGBE_RTTDCS_ARBDIS", IXGBE_RTTDCS_ARBDIS); ("IXGBE_TXDCTL_ENABLE", IXGBE_TXDCTL_ENABLE);
   ("IXGBE_HLREG0", IXGBE_HLREG0); ("IXGBE_AUTOC", IXGBE_AUTOC);
   ("IXGBE_LINKS", IXGBE_LINKS); ("IXGBE_HLREG0_TXCRCEN", IXGBE_HLREG0_TXCRCEN);
   ("IXGBE_HLREG0_RXCRCSTRP", IXGBE_HLREG0_RXCRCSTRP); ("IXGBE_HLREG0_TXPADEN", IXGBE_HLREG0_TXPADEN);
   ("IXGBE_AUTOC_AN_RESTART", IXGBE_AUTOC_AN_RESTART); ("IXGBE_AUTOC_LMS_SHIFT", IXGBE_AUTOC_LMS_SHIFT);
   ("IXGBE_AUTOC_LMS_10G_SERIAL", IXGBE_AUTOC_LMS_10G_SERIAL); ("IXGBE_AUTOC_LMS_MASK", IXGBE_AUTOC_LMS_MASK);
   ("IXGBE_AUTOC_10G_PMA_PMD_MASK", IXGBE_AUTOC_10G_PMA_PMD_MASK); ("IXGBE_AUTOC_10G_PMA_PMD_SHIFT", IXGBE_AUTOC_10G_PMA_PMD_SHIFT);
   ("IXGBE_AUTOC_10G_XAUI", IXGBE_AUTOC_10G_XAUI); ("IXGBE_LINKS_UP", IXGBE_LINKS_UP);
   ("IXGBE_LINKS_SPEED_82599", IXGBE_LINKS_SPEED_82599); ("IXGBE_LINKS_SPEED_10G_82599", IXGBE_LINKS_SPEED_10G_82599);
   ("IXGBE_LINKS_SPEED_1G_82599", IXGBE_LINKS_SPEED_1G_82599); ("IXGBE_LINKS_SPEED_100_82599", IXGBE_LINKS_SPEED_100_82599);
   ("IXGBE_GPRC", IXGBE_GPRC); ("IXGBE_GPTC", IXGBE_GPTC);
   ("IXGBE_GORCL", IXGBE_GORCL); ("IXGBE_GORCH", IXGBE_GORCH);
   ("IXGBE_GOTCL", IXGBE_GOTCL); ("IXGBE_GOTCH", IXGBE_GOTCH);
   ("IXGBE_TXD_CMD_EOP", IXGBE_TXD_CMD_EOP); ("IXGBE_TXD_CMD_IFCS", IXGBE_TXD_CMD_IFCS);
   ("IXGBE_TXD_CMD_RS", IXGBE_TXD_CMD_RS); ("IXGBE_TXD_CMD_DEXT", IXGBE_TXD_CMD_DEXT);
   ("IXGBE_TXD_STAT_DD", IXGBE_TXD_STAT_DD); ("IXGBE_RXD_STAT_DD", IXGBE_RXD_STAT_DD);
   ("IXGBE_RXD_STAT_EOP", IXGBE_RXD_STAT_EOP); ("IXGBE_RXDADV_STAT_DD", IXGBE_RXDADV_STAT_DD);
   ("IXGBE_RXDADV_STAT_EOP", IXGBE_RXDADV_STAT_EOP); ("IXGBE_ADVTXD_DTYP_DATA", IXGBE_ADVTXD_DTYP_DATA);
   ("IXGBE_ADVTXD_DCMD_EOP", IXGBE_ADVTXD_DCMD_EOP); ("IXGBE_ADVTXD_DCMD_IFCS", IXGBE_ADVTXD_DCMD_IFCS);
   ("IXGBE_ADVTXD_DCMD_RS", IXGBE_ADVTXD_DCMD_RS); ("IXGBE_ADVTXD_DCMD_DEXT", IXGBE_ADVTXD_DCMD_DEXT);
   ("IXGBE_ADVTXD_STAT_DD", IXGBE_ADVTXD_STAT_DD); ("IXGBE_ADVTXD_PAYLEN_SHIFT", IXGBE_ADVTXD_PAYLEN_SHIFT)].

Definition driver_families : list (string * (Z -> Z)) :=
  [("IXGBE_RDBAL", IXGBE_RDBAL); ("IXGBE_RDBAH", IXGBE_RDBAH); ("IXGBE_RDLEN", IXGBE_RDLEN);
   ("IXGBE_RDH", IXGBE_RDH); ("IXGBE_RDT", IXGBE_RDT); ("IXGBE_RXDCTL", IXGBE_RXDCTL);
   ("IXGBE_SRRCTL", IXGBE_SRRCTL); ("IXGBE_DCA_RXCTRL", IXGBE_DCA_RXCTRL); ("IXGBE_RXPBSIZE", IXGBE_RXPBSIZE);
   ("IXGBE_TDBAL", IXGBE_TDBAL); ("IXGBE_TDBAH", IXGBE_TDBAH); ("IXGBE_TDLEN", IXGBE_TDLEN);
   ("IXGBE_TDH", IXGBE_TDH); ("IXGBE_TDT", IXGBE_TDT); ("IXGBE_TXDCTL", IXGBE_TXDCTL);
   ("IXGBE_TXPBSIZE", IXGBE_TXPBSIZE)].

(** Every register the driver reads or writes: the fixed ones, those of 64
    queues and the eight packet buffers. *)
Definition fixed_registers : list Z :=
  [IXGBE_CTRL; IXGBE_CTRL_EXT; IXGBE_EEC; IXGBE_EIMC; IXGBE_RDRXCTL; IXGBE_RXCTRL;
   IXGBE_FCTRL; IXGBE_DMATXCTL; IXGBE_DTXMXSZRQ; IXGBE_RTTDCS; IXGBE_HLREG0; IXGBE_AUTOC;
   IXGBE_LINKS; IXGBE_GPRC; IXGBE_GPTC; IXGBE_GORCL; IXGBE_GORCH; IXGBE_GOTCL;
   IXGBE_GOTCH].
Definition queue_registers : list (Z -> Z) :=
  [IXGBE_RDBAL; IXGBE_RDBAH; IXGBE_RDLEN; IXGBE_RDH; IXGBE_RDT; IXGBE_RXDCTL;
   IXGBE_SRRCTL; IXGBE_DCA_RXCTRL; IXGBE_TDBAL; IXGBE_TDBAH; IXGBE_TDLEN; IXGBE_TDH;
   IXGBE_TDT; IXGBE_TXDCTL].
Definition driver_registers : list Z :=
  fixed_registers ++ (f ← queue_registers; f <$> seqZ 0 64) ++
  (f ← [IXGBE_RXPBSIZE; IXGBE_TXPBSIZE]; f <$> seqZ 0 8).

(** Each constant of the driver's model has the value of the macro of that
    name in the header, and each indexed register is the header's function on
    the 128 possible queue numbers. *)
Example driver_constants_match_header :
  (forall n v, (n, v) ∈ driver_constants -> macro_const all_macros n = Some v) /\
  (forall n f, (n, f) ∈ driver_families -> exists g, macro_fun all_macros n = Some g /\
     forall i, 0 <= i < 128 -> f i = g i).
Proof.
  split.
  - assert (forallb (fun '(n, v) => match macro_const all_macros n with Some v' => v =? v' | None => false end)
      driver_constants = true) as Hc by (by vm_compute).
    rewrite forallb_forall in Hc. intros n v Hin%list_elem_of_In%Hc.
    destruct (macro_const all_macros n); [|done]. apply Z.eqb_eq in Hin. by subst.
  - assert (forallb (fun '(n, f) => match macro_fun all_macros n with
      | Some g => forallb (fun i => f i =? g i) (seqZ 0 128) | None => false end)
      driver_families = true) as Hc by (by vm_compute).
    rewrite forallb_forall in Hc. intros n f Hin%list_elem_of_In%Hc.
    destruct (macro_fun all_macros n) as [g|]; [|done]. exists g. split; [done|].
    intros i Hi. rewrite forallb_forall in Hin. apply Z.eqb_eq, Hin, list_elem_of_In, elem_of_seqZ. lia.
Qed.

(** The registers the driver uses, for every queue number below MAX_QUEUES,
    are pairwise different, aligned to their size of 4 bytes and inside the
    128 KB register space: no two register accesses overlap. *)
Lemma driver_registers_disjoint :
  NoDup driver_registers /\ Forall (fun r => (4 | r) /\ 0 <= r < 0x20000) driver_registers.
Proof.
  split.
  - apply (bool_decide_unpack _). by vm_compute.
  - assert (forallb (fun r => (r mod 4 =? 0) && (0 <=? r) && (r <? 0x20000)) driver_registers = true) as Hc
      by (by vm_compute).
    rewrite forallb_forall in Hc. apply Forall_forall. intros r Hin%list_elem_of_In%Hc.
    rewrite !andb_true_iff, Z.eqb_eq, Z.leb_le, Z.ltb_lt in Hin. destruct Hin as [[Hm ?] ?].
    split; [by apply Z.mod_divide|lia].
Qed.

Lemma macro_fun_in ms n f : macro_fun ms n = Some f -> Fun1 n f ∈ ms.
Proof.
  induction ms as [|m ms IH]; [done|]. destruct m; cbn; rewrite elem_of_cons; try (right; by apply IH).
  destruct (String.eqb_spec name n) as [->|]; [intros [= ->]; by left|right; by apply IH].
Qed.

(** The function-like macros that build a field value rather than an address. *)
Definition field_builders : list string :=
  ["IXGBE_FCDFCD"; "IXGBE_IVAR_RX_QUEUE"; "IXGBE_IVAR_TX_QUEUE"; "IXGBE_MSIX_VECTOR";
   "IXGBE_LED_IVRT"; "IXGBE_LED_BLINK"; "IXGBE_LED_MODE_MASK"; "IXGBE_MBVFICR_INDEX";
   "IXGBE_BT2KB"; "IXGBE_LOW_DV_X540"; "IXGBE_LOW_DV"].

(** In the whole header every object-like macro is a value of uint32_t, and
    every indexed register, for an index below 64, is a 4-byte aligned offset in
    the 128 KB register space. *)
Lemma header_macros_well_formed :
  (forall n v, Const n v ∈ all_macros -> 0 <= v < 2 ^ 32) /\
  (forall n f i, Fun1 n f ∈ all_macros -> n ∉ field_builders -> 0 <= i < 64 ->
     (4 | f i) /\ 0 <= f i < 0x20000).
Proof.
  assert (forallb (fun m => match m with
    | Const _ v => (0 <=? v) && (v <? 2 ^ 32)
    | Fun1 n f => existsb (String.eqb n) field_builders ||
        forallb (fun i => (f i mod 4 =? 0) && (0 <=? f i) && (f i <? 0x20000)) (seqZ 0 64)
    | _ => true end) all_macros = true) as Hc by (by vm_compute).
  rewrite forallb_forall in Hc. split.
  - intros n v Hin%list_elem_of_In%Hc. lia.
  - intros n f i Hin%list_elem_of_In%Hc Hn Hi. apply orb_true_iff in Hin as [Hx|Hx].
    + apply existsb_exists in Hx as (x & Hx & ->%String.eqb_eq). by apply list_elem_of_In in Hx.
    + rewrite forallb_forall in Hx. specialize (Hx i). rewrite !andb_true_iff, Z.eqb_eq, Z.leb_le, Z.ltb_lt in Hx.
      destruct Hx as [[Hm ?] ?]; [apply list_elem_of_In, elem_of_seqZ; lia|].
      split; [by apply Z.mod_divide|lia].
Qed.
Lemma header_macros_well_formed_witness : (4 | 0x01018 + 63 * 0x40) /\ 0 <= 0x01018 + 63 * 0x40 < 0x20000.
Proof.
  apply (proj2 header_macros_well_formed "IXGBE_RDT"
    (fun i => if i <? 64 then 0x01018 + i * 0x40 else 0x0D018 + (i - 64) * 0x40) 63).
  - apply macro_fun_in. reflexivity.
  - by apply (bool_decide_unpack _).
  - lia.
Defined.
