(* ===== verification/HeaderProps.v ===== *)
(** * Properties of the types of ixgbe_type.h

    The declarations of HeaderTypes.v are laid out soundly, agree with the
    offsets the driver's model uses for descriptors, and agree with the lengths
    that the firmware macros of the same header announce. *)
From S2P Require Import Prelude Mem Registers TypeTables CTypes HeaderTypes RegProps.
Local Open Scope string_scope.
Local Open Scope Z_scope.

Lemma all_types_ok n t : (n, t) ∈ all_types -> ct_ok t = true.
Proof.
  intros Hin. assert (forallb (fun '((_, t) : string * ctype) => ct_ok t) all_types = true) as Hall by by vm_compute.
  rewrite forallb_forall in Hall. exact (Hall (n, t) (proj1 (list_elem_of_In _ _) Hin)).
Qed.

(** the bytes of a type that no member covers *)
Definition padding (t : ctype) : Z :=
  ct_size t - foldr Z.add 0 ((fun '((_, _, u) : string * Z * ctype) => ct_size u) <$> members t).

(** a member [m], at offset [o'] of the aggregate of type [u] that a path of [t] leads to *)
Definition member_of (t : ctype) (path : list string) (o : Z) (u : ctype) (m : string) (o' : Z) (v : ctype) : Prop :=
  field_at t path = Some (o, u) /\ (m, o', v) ∈ members u.

Lemma member_of_inside t path o u m o' v : ct_ok t = true -> member_of t path o u m o' v ->
  ct_ok u = true /\ 0 <= o + o' /\ o + o' + ct_size v <= ct_size t /\
  (natural t = true -> (ct_align v | o + o')).
Proof.
  intros Hok [Hf Hm]. destruct (field_at_sound path t o u Hok Hf) as (H1 & H2 & Hu & Hn).
  destruct (members_inside u m o' v Hu Hm) as (H3 & H4 & H5 & Hv). split_and!; [done|lia|lia|].
  intros Hnat. destruct (Hn Hnat) as [_ Ho]. assert (natural u = true) as Hnu.
  { clear -Hok Hnat Hf. revert t o Hok Hnat Hf. induction path as [|n path IH]; intros t o Hok Hnat Hf; cbn in Hf.
    - by injection Hf as _ <-.
    - destruct (find_member n (members t)) as [[o1 t1]|] eqn:E; [|done]. apply find_member_in in E.
      destruct (field_at t1 path) as [[o2 u']|] eqn:Hf2; [|done]. injection Hf as _ ->.
      apply (IH t1 o2); [by eapply members_inside|by eapply (members_align t)|done]. }
  destruct (members_align u m o' v Hu Hnu Hm) as [Ha _].
  apply Z.divide_add_r; [exact (Z.divide_trans _ _ _ Ha Ho)|].
  assert (packed_of u = false) as Hp by by destruct u as [| |[]|[]]. by rewrite Hp in H5.
Qed.

(** Every structure and union of ixgbe_type.h is laid out soundly, at every
    depth of nesting: a member lies inside the type, at a multiple of its
    alignment unless the type is packed, different members of one structure do
    not overlap, and the size is a multiple of the alignment, so that arrays of
    the type are aligned too. *)
Lemma header_types_laid_out (n : string) (t : ctype) : (n, t) ∈ all_types ->
  (ct_align t | ct_size t) /\
  forall path o u m o' v, member_of t path o u m o' v ->
    0 <= o + o' /\ o + o' + ct_size v <= ct_size t /\
    (natural t = true -> (ct_align v | o + o')) /\
    forall p ms m2 o2 v2, u = Struct p ms -> member_of t path o u m2 o2 v2 -> m <> m2 ->
      disj (o + o') (ct_size v) (o + o2) (ct_size v2).
Proof.
  intros Hin. pose proof (all_types_ok n t Hin) as Hok. split; [by apply ct_size_align|].
  intros path o u m o' v Hm. destruct (member_of_inside t path o u m o' v Hok Hm) as (Hu & H1 & H2 & H3).
  split_and!; [done..|]. intros p ms m2 o2 v2 -> [_ Hm2] Hne. destruct Hm as [_ Hm].
  destruct (members_apart p ms m o' v m2 o2 v2 Hu Hm Hm2 Hne); [left|right]; lia.
Qed.
Lemma header_types_laid_out_witness :
  disj (8 + 0) (ct_size c_le32) (8 + 4) (ct_size c_le16) /\ (8 | ct_size ixgbe_adv_rx_desc).
Proof.
  assert (("ixgbe_adv_rx_desc", ixgbe_adv_rx_desc) ∈ all_types) as Hin by (apply (list_elem_of_lookup_2 _ 20); reflexivity).
  destruct (header_types_laid_out "ixgbe_adv_rx_desc" ixgbe_adv_rx_desc Hin) as [Ha Hm]. split; [|exact Ha].
  destruct (Hm ["wb"; "upper"] 8 _ "status_error" 0 c_le32 (conj eq_refl (list_elem_of_here _ _))) as (_ & _ & _ & Hd).
  apply (Hd false _ "length" 4 c_le16 eq_refl); [|discriminate].
  split; [reflexivity|]. apply list_elem_of_further, list_elem_of_here.
Defined.

(** ** Agreement with the driver and with the macros *)

(** the firmware commands: the macro with the length sent in [buf_len], the
    command's type and the last member that is sent *)
Definition fw_commands : list (string * ctype * string) :=
  [("FW_CEM_CMD_DRIVER_INFO_LEN", ixgbe_hic_drv_info, "ver_maj");
   ("FW_READ_SHADOW_RAM_LEN", ixgbe_hic_read_shadow_ram, "length");
   ("FW_WRITE_SHADOW_RAM_LEN", ixgbe_hic_write_shadow_ram, "data");
   ("FW_DISABLE_RXEN_LEN", ixgbe_hic_disable_rxen, "port_number");
   ("FW_PHY_TOKEN_REQ_LEN", ixgbe_hic_phy_token_req, "command_type");
   ("FW_INT_PHY_REQ_LEN", ixgbe_hic_internal_phy_req, "write_data");
   ("FW_PHY_ACT_REQ_LEN", ixgbe_hic_phy_activity_req, "data")].
(** bytes from the end of the header to the end of member [last] *)
Definition payload_len (t : ctype) (last : string) : option Z :=
  match field_at t ["hdr"], field_at t [last] with
  | Some (_, h), Some (o, u) => Some (o + ct_size u - ct_size h)
  | _, _ => None
  end.
Definition packed_types : list ctype := filter (fun t => packed_of t = true) (all_types.*2).

(** The nested declarations of ixgbe_type.h agree with the rest of the
    code.  The descriptor unions have 16 bytes, and the offsets the driver's
    descriptor accesses use are those of the members named in the source.  The
    packed firmware commands have no padding, start with a header of
    [FW_CEM_HDR_LEN] bytes, and the length macro of each command is the number
    of bytes from its header to the last member it sends; the driver version
    string fills the command up to the 48 bytes the comment promises.  Both
    views of a flow director input have the same 56 bytes, and no enumeration
    gives two enumerators one value. *)
Example header_types_agree :
  (ct_size ixgbe_adv_tx_desc = sizeof_adv_tx_desc /\ ct_size ixgbe_adv_rx_desc = sizeof_adv_rx_desc /\
   ct_size ixgbe_adv_tx_desc = 16 /\ ct_size ixgbe_adv_rx_desc = 16) /\
  (field_at ixgbe_adv_tx_desc ["read"; "buffer_addr"] = Some (txd_buffer_addr, c_le64) /\
   field_at ixgbe_adv_tx_desc ["read"; "cmd_type_len"] = Some (txd_cmd_type_len, c_le32) /\
   field_at ixgbe_adv_tx_desc ["read"; "olinfo_status"] = Some (txd_olinfo_status, c_le32) /\
   field_at ixgbe_adv_tx_desc ["wb"; "status"] = Some (txd_status, c_le32) /\
   field_at ixgbe_adv_rx_desc ["read"; "pkt_addr"] = Some (rxd_pkt_addr, c_le64) /\
   field_at ixgbe_adv_rx_desc ["read"; "hdr_addr"] = Some (rxd_hdr_addr, c_le64) /\
   field_at ixgbe_adv_rx_desc ["wb"; "upper"; "status_error"] = Some (rxd_status_error, c_le32) /\
   field_at ixgbe_adv_rx_desc ["wb"; "upper"; "length"] = Some (rxd_length, c_le16)) /\
  (Forall (fun t => forall p ms, t = Struct p ms -> padding t = 0) packed_types /\
   macro_const all_macros "FW_CEM_HDR_LEN" = Some (ct_size ixgbe_hic_hdr) /\
   Forall (fun '(len, t, last) => exists n, macro_const all_macros len = Some n /\ payload_len t last = Some n) fw_commands /\
   ct_size ixgbe_hic_drv_info2 = 48) /\
  (field_at ixgbe_atr_input ["formatted"; "bkt_hash"] = Some (54, c_be16) /\ ct_size ixgbe_atr_input = 56) /\
  Forall (fun es => NoDup (enumerators 0 es).*2) all_enums.
Proof.
  split; [by split_and!; vm_compute|]. split; [by split_and!; vm_compute|]. split; [|split; [by split_and!; vm_compute|]].
  - split_and!; [|by vm_compute| |by vm_compute].
    + assert (forallb (fun t => match t with Struct _ _ => padding t =? 0 | _ => true end) packed_types = true) as Hall by by vm_compute.
      apply Forall_forall. intros t Hin p ms ->. rewrite forallb_forall in Hall.
      apply Z.eqb_eq. exact (Hall _ (proj1 (list_elem_of_In _ _) Hin)).
    + repeat (apply Forall_cons_2 || apply Forall_nil_2); eexists; (split; [|vm_compute; reflexivity]); vm_compute; reflexivity.
  - apply (bool_decide_unpack _). vm_compute. exact I.
Qed.

(** ** Where comments and declarations differ *)

(** the comment in [union ixgbe_atr_input] lists src_ip before dst_ip *)
Lemma atr_input_order : exists t, field_at ixgbe_atr_input ["formatted"; "dst_ip"] = Some (4, t) /\
  field_at ixgbe_atr_input ["formatted"; "src_ip"] = Some (20, t).
Proof. by eexists. Qed.

(** [IXGBE_IS_BROADCAST] looks at the first two bytes only *)
Lemma broadcast_tests_two_bytes a b rest : IXGBE_IS_BROADCAST (a :: b :: rest) = (a =? 0xff) && (b =? 0xff).
Proof. done. Qed.
