(* ===== verification/Device.v ===== *)
(** * device.h: the device handle and register access *)
From S2P Require Import Prelude Mem Platform.

Definition MAX_QUEUES : Z := 64.

(** The fields are written once, before the first use of the handle, so the
    handle is passed by value; the queue arrays it points to are in memory. *)
Record ixy_device := IxyDevice {
  pci_addr : string;
  driver_name : string;
  addr : Z;
  num_rx_queues : Z;
  num_tx_queues : Z;
  rx_queues : Z;
  tx_queues : Z
}.

(** struct device_stats of stats.h; the device is named by its handle. *)
Record device_stats := DeviceStats {
  device : option ixy_device;
  rx_pkts : Z;
  tx_pkts : Z;
  rx_bytes : Z;
  tx_bytes : Z
}.

Section code.
Context {H : Type} `{Platform H}.
Local Abbreviation W := (world H).
Implicit Types dev : ixy_device.

Definition set_reg32 dev (reg value : Z) : M W unit := mmio_set (addr dev + reg) value.
Definition get_reg32 dev (reg : Z) : M W Z := mmio_get (addr dev + reg).
Definition set_flags32 dev (reg flags : Z) : M W unit :=
  v ← get_reg32 dev reg; set_reg32 dev reg (Z.lor v flags).
Definition clear_flags32 dev (reg flags : Z) : M W unit :=
  v ← get_reg32 dev reg; set_reg32 dev reg (Z.land v (not32 flags)).

(** The polling loops do not end on their own: they run on fuel and [Hang]
    when it is gone. *)
Fixpoint wait_clear_reg32 (fuel : nat) dev (reg mask : Z) : M W unit :=
  match fuel with
  | O => hang
  | S fuel' =>
      cur ← get_reg32 dev reg;
      if Z.land cur mask =? 0 then mret tt
      else (_ ← syscall_ (Sys_usleep 10000); wait_clear_reg32 fuel' dev reg mask)
  end.
Fixpoint wait_set_reg32 (fuel : nat) dev (reg mask : Z) : M W unit :=
  match fuel with
  | O => hang
  | S fuel' =>
      cur ← get_reg32 dev reg;
      if Z.land cur mask =? mask then mret tt
      else (_ ← syscall_ (Sys_usleep 10000); wait_set_reg32 fuel' dev reg mask)
  end.
End code.
