(* ===== verification/Pci.v ===== *)
(** * pci.c: taking over the PCI device and mapping its registers *)
From S2P Require Import Prelude Mem Platform Memory.

Section code.
Context {H : Type} `{Platform H}.
Local Abbreviation W := (world H).
(** NDEBUG as at compile time: log.h then redefines assert to evaluate its
    argument and ignore the result. *)
Context (NDEBUG : bool).

Definition assert_ (c : M W bool) : M W unit :=
  b ← c; if b || NDEBUG then mret tt else error "assertion failed".

Definition pci_path (pci_addr file : string) : string :=
  "/sys/bus/pci/devices/" +:+ (pci_addr +:+ file).

Definition remove_driver (pci_addr : string) : M W unit :=
  fd ← syscall_ (Sys_open (pci_path pci_addr "/driver/unbind") O_WRONLY 0);
  if fd =? -1 then mret tt (* debug("no driver loaded") *)
  else
    _ ← syscall_ (Sys_write fd pci_addr); (* a short write only warns *)
    _ ← syscall_ (Sys_close fd);
    mret tt.

Definition enable_dma (pci_addr : string) : M W unit :=
  fd ← check_err (syscall_ (Sys_open (pci_path pci_addr "/config") O_RDWR 0));
  assert_ (r ← syscall_ (Sys_lseek fd 4 SEEK_SET); mret (r =? 4)) ;;
  '(r, dma) ← (fun w : W => let '(rv, h) := sys_read fd 2 (w_hw w) in Ok rv (set_hw h w));
  assert_ (mret (r =? 2)) ;;
  let dma := u16 (Z.lor (u16 dma) (Z.shiftl 1 2)) in
  assert_ (r ← syscall_ (Sys_lseek fd 4 SEEK_SET); mret (r =? 4)) ;;
  assert_ (r ← syscall_ (Sys_write16 fd dma); mret (r =? 2)).

Definition pci_map_resource (pci_addr : string) : M W Z :=
  let path := pci_path pci_addr "/resource0" in
  remove_driver pci_addr ;;
  enable_dma pci_addr ;;
  fd ← check_err (syscall_ (Sys_open path O_RDWR 0));
  size ← check_err (syscall_ (Sys_fstat_size fd));
  check_err (syscall_ (Sys_mmap size PROT_RW MAP_SHARED fd 0)).
End code.
