(* ===== verification/Ixgbe.v ===== *)
(** * ixgbe.c: the driver, function by function

    Queue state lives in the arrays [rx_queues] and [tx_queues] of the device
    handle.  A queue is found by C pointer arithmetic on the structure type,
    [((struct ixgbe_rx_queue* )(dev->rx_queues)) + queue_id], so it is
    [sizeof(struct ixgbe_rx_queue)] bytes after its predecessor. *)
From S2P Require Import Prelude Mem Platform Memory Registers Device Pci.

Definition MAX_RX_QUEUE_ENTRIES : Z := 4096.
Definition MAX_TX_QUEUE_ENTRIES : Z := 4096.
Definition NUM_RX_QUEUE_ENTRIES : Z := 1024.
Definition NUM_TX_QUEUE_ENTRIES : Z := 1024.

Definition ixgbe_rx_queue : list field :=
  [f_ptr "descriptors"; f_ptr "mempool"; f_u16 "num_entries"; f_u16 "rx_index";
   f_flex "virtual_addresses" 8].
Definition ixgbe_tx_queue : list field :=
  [f_ptr "descriptors"; f_u16 "num_entries"; f_u16 "clean_index"; f_u16 "tx_index";
   f_flex "virtual_addresses" 8].

Definition rxq_descriptors : Z := Eval cbv in offsetof ixgbe_rx_queue "descriptors".
Definition rxq_mempool : Z := Eval cbv in offsetof ixgbe_rx_queue "mempool".
Definition rxq_num_entries : Z := Eval cbv in offsetof ixgbe_rx_queue "num_entries".
Definition rxq_rx_index : Z := Eval cbv in offsetof ixgbe_rx_queue "rx_index".
Definition rxq_virtual_addresses : Z := Eval cbv in offsetof ixgbe_rx_queue "virtual_addresses".
Definition sizeof_rx_queue : Z := Eval cbv in sizeof ixgbe_rx_queue.
Definition txq_descriptors : Z := Eval cbv in offsetof ixgbe_tx_queue "descriptors".
Definition txq_num_entries : Z := Eval cbv in offsetof ixgbe_tx_queue "num_entries".
Definition txq_clean_index : Z := Eval cbv in offsetof ixgbe_tx_queue "clean_index".
Definition txq_tx_index : Z := Eval cbv in offsetof ixgbe_tx_queue "tx_index".
Definition txq_virtual_addresses : Z := Eval cbv in offsetof ixgbe_tx_queue "virtual_addresses".
Definition sizeof_tx_queue : Z := Eval cbv in sizeof ixgbe_tx_queue.

(** #define inc_and_wrap_ring(index, ring_size) *)
Definition inc_and_wrap_ring (index ring_size : Z) : Z := u16 (Z.land (index + 1) (ring_size - 1)).

Section code.
Context {H : Type} `{Platform H}.
Local Abbreviation W := (world H).
Implicit Types dev : ixy_device.
Context (NDEBUG : bool) (poll_fuel : nat).

Definition rx_queue dev (queue_id : Z) : Z := rx_queues dev + queue_id * sizeof_rx_queue.
Definition tx_queue dev (queue_id : Z) : Z := tx_queues dev + queue_id * sizeof_tx_queue.

Definition init_link dev : M W unit :=
  v ← get_reg32 dev IXGBE_AUTOC;
  set_reg32 dev IXGBE_AUTOC
    (Z.lor (Z.land v (not32 IXGBE_AUTOC_LMS_MASK)) IXGBE_AUTOC_LMS_10G_SERIAL) ;;
  v ← get_reg32 dev IXGBE_AUTOC;
  set_reg32 dev IXGBE_AUTOC
    (Z.lor (Z.land v (not32 IXGBE_AUTOC_10G_PMA_PMD_MASK)) IXGBE_AUTOC_10G_XAUI) ;;
  set_flags32 dev IXGBE_AUTOC IXGBE_AUTOC_AN_RESTART.

(** body of the loop that fills the ring with buffers *)
Definition fill_rx_desc (queue i : Z) : M W unit :=
  descs ← load 8 (queue + rxq_descriptors);
  let rxd := descs + i * sizeof_adv_rx_desc in
  pool ← load 8 (queue + rxq_mempool);
  buf ← pkt_buf_alloc pool;
  if buf =? NULL then error "failed to allocate rx descriptor"
  else
    p ← load 8 (buf + pb_buf_addr_phy);
    vstore 8 (rxd + rxd_pkt_addr) p ;;
    vstore 8 (rxd + rxd_hdr_addr) 0 ;;
    store 8 (queue + rxq_virtual_addresses + 8 * i) buf.

Definition start_rx_queue dev (queue_id : Z) : M W unit :=
  let queue := rx_queue dev queue_id in
  pool ← memory_allocate_mempool 4096 2048;
  store 8 (queue + rxq_mempool) pool ;;
  n ← load 2 (queue + rxq_num_entries);
  if negb (Z.land n (n - 1) =? 0) then error "number of queue entries must be a power of 2"
  else
    for_loop (Z.to_nat n) 0 (fill_rx_desc queue) ;;
    set_flags32 dev (IXGBE_RXDCTL queue_id) IXGBE_RXDCTL_ENABLE ;;
    wait_set_reg32 poll_fuel dev (IXGBE_RXDCTL queue_id) IXGBE_RXDCTL_ENABLE ;;
    set_reg32 dev (IXGBE_RDH queue_id) 0 ;;
    n ← load 2 (queue + rxq_num_entries);
    set_reg32 dev (IXGBE_RDT queue_id) (n - 1).

Definition start_tx_queue dev (queue_id : Z) : M W unit :=
  let queue := tx_queue dev queue_id in
  n ← load 2 (queue + txq_num_entries);
  if negb (Z.land n (n - 1) =? 0) then error "number of queue entries must be a power of 2"
  else
    set_reg32 dev (IXGBE_TDH queue_id) 0 ;;
    set_reg32 dev (IXGBE_TDT queue_id) 0 ;;
    set_flags32 dev (IXGBE_TXDCTL queue_id) IXGBE_TXDCTL_ENABLE ;;
    wait_set_reg32 poll_fuel dev (IXGBE_TXDCTL queue_id) IXGBE_TXDCTL_ENABLE.

(** per-queue part of init_rx *)
Definition init_rx_queue dev (i : Z) : M W unit :=
  v ← get_reg32 dev (IXGBE_SRRCTL i);
  set_reg32 dev (IXGBE_SRRCTL i)
    (Z.lor (Z.land v (not32 IXGBE_SRRCTL_DESCTYPE_MASK)) IXGBE_SRRCTL_DESCTYPE_ADV_ONEBUF) ;;
  set_flags32 dev (IXGBE_SRRCTL i) IXGBE_SRRCTL_DROP_EN ;;
  let ring_size_bytes := u32 (NUM_RX_QUEUE_ENTRIES * sizeof_adv_rx_desc) in
  mem ← memory_allocate_dma ring_size_bytes;
  memset (virt mem) (-1) (Z.to_nat ring_size_bytes) ;;
  set_reg32 dev (IXGBE_RDBAL i) (u32 (Z.land (phy mem) 0xFFFFFFFF)) ;;
  set_reg32 dev (IXGBE_RDBAH i) (u32 (Z.shiftr (phy mem) 32)) ;;
  set_reg32 dev (IXGBE_RDLEN i) ring_size_bytes ;;
  set_reg32 dev (IXGBE_RDH i) 0 ;;
  set_reg32 dev (IXGBE_RDT i) 0 ;;
  let queue := rx_queue dev i in
  store 2 (queue + rxq_num_entries) NUM_RX_QUEUE_ENTRIES ;;
  store 2 (queue + rxq_rx_index) 0 ;;
  store 8 (queue + rxq_descriptors) (virt mem).

Definition init_rx dev : M W unit :=
  clear_flags32 dev IXGBE_RXCTRL IXGBE_RXCTRL_RXEN ;;
  set_reg32 dev (IXGBE_RXPBSIZE 0) IXGBE_RXPBSIZE_128KB ;;
  for_loop 7 1 (fun i => set_reg32 dev (IXGBE_RXPBSIZE i) 0) ;;
  set_flags32 dev IXGBE_HLREG0 IXGBE_HLREG0_RXCRCSTRP ;;
  set_flags32 dev IXGBE_RDRXCTL IXGBE_RDRXCTL_CRCSTRIP ;;
  set_flags32 dev IXGBE_FCTRL IXGBE_FCTRL_BAM ;;
  for_loop (Z.to_nat (num_rx_queues dev)) 0 (init_rx_queue dev) ;;
  set_flags32 dev IXGBE_CTRL_EXT IXGBE_CTRL_EXT_NS_DIS ;;
  for_loop (Z.to_nat (num_rx_queues dev)) 0
    (fun i => clear_flags32 dev (IXGBE_DCA_RXCTRL i) (Z.shiftl 1 12)) ;;
  set_flags32 dev IXGBE_RXCTRL IXGBE_RXCTRL_RXEN.

(** per-queue part of init_tx *)
Definition init_tx_queue dev (i : Z) : M W unit :=
  let ring_size_bytes := u32 (NUM_TX_QUEUE_ENTRIES * sizeof_adv_tx_desc) in
  mem ← memory_allocate_dma ring_size_bytes;
  memset (virt mem) (-1) (Z.to_nat ring_size_bytes) ;;
  set_reg32 dev (IXGBE_TDBAL i) (u32 (Z.land (phy mem) 0xFFFFFFFF)) ;;
  set_reg32 dev (IXGBE_TDBAH i) (u32 (Z.shiftr (phy mem) 32)) ;;
  set_reg32 dev (IXGBE_TDLEN i) ring_size_bytes ;;
  txdctl ← get_reg32 dev (IXGBE_TXDCTL i);
  let txdctl := Z.lor txdctl (Z.land 36 0x7F) in
  let txdctl := Z.lor txdctl (Z.shiftl (Z.land 8 0x7F) 8) in
  let txdctl := Z.lor txdctl (Z.shiftl (Z.land 4 0x7F) 16) in
  set_reg32 dev (IXGBE_TXDCTL i) txdctl ;;
  let queue := tx_queue dev i in
  store 2 (queue + txq_num_entries) NUM_TX_QUEUE_ENTRIES ;;
  store 8 (queue + txq_descriptors) (virt mem).

(** the queue loop runs over num_rx_queues, as in the source *)
Definition init_tx dev : M W unit :=
  set_flags32 dev IXGBE_HLREG0 (Z.lor IXGBE_HLREG0_TXCRCEN IXGBE_HLREG0_TXPADEN) ;;
  set_reg32 dev (IXGBE_TXPBSIZE 0) IXGBE_TXPBSIZE_40KB ;;
  for_loop 7 1 (fun i => set_reg32 dev (IXGBE_TXPBSIZE i) 0) ;;
  set_reg32 dev IXGBE_DTXMXSZRQ 0xFFFF ;;
  clear_flags32 dev IXGBE_RTTDCS IXGBE_RTTDCS_ARBDIS ;;
  for_loop (Z.to_nat (num_rx_queues dev)) 0 (init_tx_queue dev) ;;
  set_reg32 dev IXGBE_DMATXCTL IXGBE_DMATXCTL_TE.

Definition link_speed (links : Z) : Z :=
  if Z.land links IXGBE_LINKS_UP =? 0 then 0
  else
    let s := Z.land links IXGBE_LINKS_SPEED_82599 in
    if s =? IXGBE_LINKS_SPEED_100_82599 then 100
    else if s =? IXGBE_LINKS_SPEED_1G_82599 then 1000
    else if s =? IXGBE_LINKS_SPEED_10G_82599 then 10000
    else 0.
Definition ixgbe_get_link_speed dev : M W Z :=
  links ← get_reg32 dev IXGBE_LINKS; mret (link_speed links).

(** [max_wait -= poll_interval] subtracts a uint32_t from an int32_t *)
Fixpoint wait_for_link_loop (fuel : nat) dev (max_wait poll_interval : Z) : M W unit :=
  match fuel with
  | O => hang
  | S fuel' =>
      speed ← ixgbe_get_link_speed dev;
      if (speed =? 0) && (0 <? max_wait) then
        _ ← syscall_ (Sys_usleep poll_interval);
        wait_for_link_loop fuel' dev (i32 (u32 max_wait - poll_interval)) poll_interval
      else mret tt
  end.
Definition wait_for_link dev : M W unit :=
  wait_for_link_loop 102 dev 10000000 100000 ;;
  _ ← ixgbe_get_link_speed dev;
  mret tt.

Definition ixgbe_set_promisc dev (enabled : bool) : M W unit :=
  if enabled then set_flags32 dev IXGBE_FCTRL (Z.lor IXGBE_FCTRL_MPE IXGBE_FCTRL_UPE)
  else clear_flags32 dev IXGBE_FCTRL (Z.lor IXGBE_FCTRL_MPE IXGBE_FCTRL_UPE).

(** Read the clear-on-read counters; accumulate them in size_t fields.  The
    two reads of a 64-bit counter are made low word first. *)
Definition ixgbe_read_stats dev (stats : option device_stats) : M W (option device_stats) :=
  rxp ← get_reg32 dev IXGBE_GPRC;
  txp ← get_reg32 dev IXGBE_GPTC;
  rl ← get_reg32 dev IXGBE_GORCL;
  rh ← get_reg32 dev IXGBE_GORCH;
  let rxb := u64 (rl + Z.shiftl rh 32) in
  tl ← get_reg32 dev IXGBE_GOTCL;
  th ← get_reg32 dev IXGBE_GOTCH;
  let txb := u64 (tl + Z.shiftl th 32) in
  mret (match stats with
        | None => None
        | Some s => Some (DeviceStats (device s)
                            (u64 (rx_pkts s + rxp)) (u64 (tx_pkts s + txp))
                            (u64 (rx_bytes s + rxb)) (u64 (tx_bytes s + txb)))
        end).

Definition reset_and_init dev : M W unit :=
  set_reg32 dev IXGBE_EIMC 0x7FFFFFFF ;;
  set_reg32 dev IXGBE_CTRL IXGBE_CTRL_RST_MASK ;;
  wait_clear_reg32 poll_fuel dev IXGBE_CTRL IXGBE_CTRL_RST_MASK ;;
  _ ← syscall_ (Sys_usleep 10000);
  set_reg32 dev IXGBE_EIMC 0x7FFFFFFF ;;
  wait_set_reg32 poll_fuel dev IXGBE_EEC IXGBE_EEC_ARD ;;
  wait_set_reg32 poll_fuel dev IXGBE_RDRXCTL IXGBE_RDRXCTL_DMAIDONE ;;
  init_link dev ;;
  _ ← ixgbe_read_stats dev None;
  init_rx dev ;;
  init_tx dev ;;
  for_loop (Z.to_nat (num_rx_queues dev)) 0 (start_rx_queue dev) ;;
  for_loop (Z.to_nat (num_tx_queues dev)) 0 (start_tx_queue dev) ;;
  ixgbe_set_promisc dev true ;;
  wait_for_link dev.

Definition sizeof_ixy_device : Z :=
  sizeof [f_ptr "pci_addr"; f_ptr "driver_name"; f_ptr "addr"; f_u16 "num_rx_queues";
          f_u16 "num_tx_queues"; f_ptr "rx_queues"; f_ptr "tx_queues"].

(** Both arrays are allocated for [rx_queues] queues, as in the source. *)
Definition ixgbe_init (pci_addr : string) (rx_queues tx_queues : Z) : M W ixy_device :=
  _ ← syscall_ Sys_getuid;
  if MAX_QUEUES <? rx_queues then error "cannot configure rx queues: limit exceeded"
  else if MAX_QUEUES <? tx_queues then error "cannot configure tx queues: limit exceeded"
  else
    _ ← malloc_ sizeof_ixy_device;
    _ ← malloc_ (Z.of_nat (String.length pci_addr) + 1); (* strdup *)
    bar ← pci_map_resource NDEBUG pci_addr;
    rxq ← calloc_ rx_queues (sizeof_rx_queue + 8 * MAX_RX_QUEUE_ENTRIES);
    txq ← calloc_ rx_queues (sizeof_tx_queue + 8 * MAX_TX_QUEUE_ENTRIES);
    let dev := IxyDevice pci_addr "ixy-ixgbe" bar rx_queues tx_queues rxq txq in
    reset_and_init dev ;;
    mret dev.

(** ** Receive one packet, if there is one

    [rx_rearm] resets the descriptor to a new buffer; [rx_advance] moves
    [rx_index] on and gives the device the slot before this one. *)
Definition rx_rearm (desc_ptr new_buf : Z) : M W unit :=
  p ← load 8 (new_buf + pb_buf_addr_phy);
  vstore 8 (desc_ptr + rxd_pkt_addr) (u64 (p + pb_data)) ;;
  vstore 8 (desc_ptr + rxd_hdr_addr) 0.

Definition rx_advance dev (queue_id rx_index : Z) : M W unit :=
  let queue := rx_queue dev queue_id in
  n ← load 2 (queue + rxq_num_entries);
  store 2 (queue + rxq_rx_index) (inc_and_wrap_ring rx_index n) ;;
  set_reg32 dev (IXGBE_RDT queue_id) rx_index.

(** the branch of a finished descriptor: copy it, hand out its buffer *)
Definition rx_receive dev (queue_id rx_index desc_ptr : Z) : M W Z :=
  let queue := rx_queue dev queue_id in
  desc ← vload 16 desc_ptr; (* desc = *desc_ptr *)
  let length := (desc / 2 ^ (8 * rxd_length)) mod 2 ^ 16 in
  buf ← load 8 (queue + rxq_virtual_addresses + 8 * rx_index);
  store 4 (buf + pb_size) length ;;
  pool ← load 8 (queue + rxq_mempool);
  new_buf ← pkt_buf_alloc pool;
  if new_buf =? NULL then
    error "failed to allocate new mbuf for rx, you are either leaking memory or your mempool is too small"
  else
    rx_rearm desc_ptr new_buf ;;
    rx_advance dev queue_id rx_index ;;
    mret buf.

Definition ixgbe_rx_packet dev (queue_id : Z) : M W Z :=
  let queue := rx_queue dev queue_id in
  rx_index ← load 2 (queue + rxq_rx_index);
  descs ← load 8 (queue + rxq_descriptors);
  let desc_ptr := descs + rx_index * sizeof_adv_rx_desc in
  status ← vload 4 (desc_ptr + rxd_status_error);
  if Z.land status IXGBE_RXDADV_STAT_DD =? 0 then mret NULL
  else if Z.land status IXGBE_RXDADV_STAT_EOP =? 0 then
    error "multi-segment packets are not supported - increase buffer size or decrease MTU"
  else rx_receive dev queue_id rx_index desc_ptr.

(** ** Transmit one packet

    The clean-up loop gives back the buffers the device is done with.  Its
    fuel is the number of values of a uint16_t index. *)
Fixpoint tx_clean (fuel : nat) (queue cur_index clean_index : Z) : M W Z :=
  match fuel with
  | O => hang
  | S fuel' =>
      if clean_index =? cur_index then mret clean_index
      else
        descs ← load 8 (queue + txq_descriptors);
        status ← vload 4 (descs + clean_index * sizeof_adv_tx_desc + txd_status);
        if Z.land status IXGBE_ADVTXD_STAT_DD =? 0 then mret clean_index
        else
          buf ← load 8 (queue + txq_virtual_addresses + 8 * clean_index);
          pkt_buf_free buf ;;
          n ← load 2 (queue + txq_num_entries);
          tx_clean fuel' queue cur_index (inc_and_wrap_ring clean_index n)
  end.
Definition clean_fuel : nat := Z.to_nat (2 ^ 16).

Definition tx_cmd_type_len (size : Z) : Z :=
  u32 (Z.lor (Z.lor (Z.lor (Z.lor (Z.lor IXGBE_ADVTXD_DCMD_EOP IXGBE_ADVTXD_DCMD_RS)
    IXGBE_ADVTXD_DCMD_IFCS) IXGBE_ADVTXD_DCMD_DEXT) IXGBE_ADVTXD_DTYP_DATA) size).

(** the read format of the descriptor, from the buffer's header *)
Definition fill_tx_desc (txd buf : Z) : M W unit :=
  p ← load 8 (buf + pb_buf_addr_phy);
  vstore 8 (txd + txd_buffer_addr) (u64 (p + pb_data)) ;;
  size ← load 4 (buf + pb_size);
  vstore 4 (txd + txd_cmd_type_len) (tx_cmd_type_len size) ;;
  size ← load 4 (buf + pb_size);
  vstore 4 (txd + txd_olinfo_status) (u32 (Z.shiftl size IXGBE_ADVTXD_PAYLEN_SHIFT)).

(** step 2 once there is room: fill the slot, then advance the tail *)
Definition tx_send dev (queue_id queue cur_index buf : Z) : M W Z :=
  store 8 (queue + txq_virtual_addresses + 8 * cur_index) buf ;;
  tx_index ← load 2 (queue + txq_tx_index);
  n ← load 2 (queue + txq_num_entries);
  store 2 (queue + txq_tx_index) (inc_and_wrap_ring tx_index n) ;;
  descs ← load 8 (queue + txq_descriptors);
  let txd := descs + cur_index * sizeof_adv_tx_desc in
  fill_tx_desc txd buf ;;
  tx_index ← load 2 (queue + txq_tx_index);
  set_reg32 dev (IXGBE_TDT queue_id) tx_index ;;
  mret 1.

(** step 1: the new clean_index, and tx_index *)
Definition tx_clean_up (queue : Z) : M W (Z * Z) :=
  clean_index0 ← load 2 (queue + txq_clean_index);
  cur_index ← load 2 (queue + txq_tx_index);
  clean_index ← tx_clean clean_fuel queue cur_index clean_index0;
  store 2 (queue + txq_clean_index) clean_index ;;
  mret (clean_index, cur_index).

Definition ixgbe_tx_packet dev (queue_id buf : Z) : M W Z :=
  let queue := tx_queue dev queue_id in
  '(clean_index, cur_index) ← tx_clean_up queue;
  n ← load 2 (queue + txq_num_entries);
  if clean_index =? inc_and_wrap_ring cur_index n then mret 0
  else tx_send dev queue_id queue cur_index buf.
End code.
