(* ===== verification/IxgbeCpp.v ===== *)
(** * The C++ port: device.hpp and ixgbe.cpp

    The class [ixgbe] derives from [ixy_driver_base<ixgbe>]; an object is the
    record below, and a member function takes it as [self].  The port repeats
    the C driver almost line by line, so the definitions carry the same names
    (this file's are [IxgbeCpp.x]); CppProps.v says where the two agree and
    where they do not.  The wrappers [_get_link_speed], [_set_promisc],
    [_rx_packet] and [_tx_packet] of the base class call members that no class
    has and are never instantiated, so they are not modelled. *)
From S2P Require Import Prelude Mem Platform Memory Registers Device Pci Ixgbe.

(** constexpr int MAX_QUEUES of namespace ixy *)
Definition MAX_QUEUES : Z := 64.
Definition MAX_RX_QUEUE_ENTRIES : Z := 4096.
Definition MAX_TX_QUEUE_ENTRIES : Z := 4096.
Definition NUM_RX_QUEUE_ENTRIES : Z := 1024.
Definition NUM_TX_QUEUE_ENTRIES : Z := 1024.

(** The data members of the base class.  The derived class adds a member
    driver_name that hides the one of the base. *)
Record ixy_driver_base := DriverBase {
  base_driver_name : string;
  num_rx_queues : Z;
  num_tx_queues : Z;
  pci_addr : string;
  addr : Z;
  rx_queues : Z;
  tx_queues : Z
}.
Record ixgbe := IxgbeObject { base :> ixy_driver_base; driver_name : string }.

(** ixy::device_stats of stats.hpp *)
Record device_stats := DeviceStats {
  stats_pci_addr : string;
  rx_pkts : Z;
  tx_pkts : Z;
  rx_bytes : Z;
  tx_bytes : Z
}.

Definition ixgbe_rx_queue : list field :=
  [f_ptr "descriptors"; f_ptr "mempool"; f_u16 "num_entries"; f_u16 "rx_index"; f_flex "virtual_addresses" 8].
Definition ixgbe_tx_queue : list field :=
  [f_ptr "descriptors"; f_u16 "num_entries"; f_u16 "clean_index"; f_u16 "tx_index"; f_flex "virtual_addresses" 8].
Definition rx_member (member : string) : Z := offsetof ixgbe_rx_queue member.
Definition tx_member (member : string) : Z := offsetof ixgbe_tx_queue member.

(** #define inc_and_wrap_ring(index, ring_size) *)
Definition inc_and_wrap_ring (index ring_size : Z) : Z := u16 (Z.land (index + 1) (ring_size - 1)).

Section code.
Context {H : Type} `{Platform H}.
Local Abbreviation W := (world H).
Implicit Types self : ixgbe.
Context (NDEBUG : bool) (poll_fuel : nat).

(** ** device.hpp *)
Definition set_reg32 self (reg value : Z) : M W unit := mmio_set (addr self + reg) value.
Definition get_reg32 self (reg : Z) : M W Z := mmio_get (addr self + reg).
Definition set_flags32 self (reg flags : Z) : M W unit :=
  v ← get_reg32 self reg; set_reg32 self reg (Z.lor v flags).
Definition clear_flags32 self (reg flags : Z) : M W unit :=
  v ← get_reg32 self reg; set_reg32 self reg (Z.land v (not32 flags)).

Fixpoint wait_clear_reg32 (fuel : nat) self (reg mask : Z) : M W unit :=
  match fuel with
  | O => hang
  | S fuel' =>
      cur ← get_reg32 self reg;
      if Z.land cur mask =? 0 then mret tt
      else (_ ← syscall_ (Sys_usleep 10000); wait_clear_reg32 fuel' self reg mask)
  end.
Fixpoint wait_set_reg32 (fuel : nat) self (reg mask : Z) : M W unit :=
  match fuel with
  | O => hang
  | S fuel' =>
      cur ← get_reg32 self reg;
      if Z.land cur mask =? mask then mret tt
      else (_ ← syscall_ (Sys_usleep 10000); wait_set_reg32 fuel' self reg mask)
  end.

(** ** ixgbe.cpp *)
Definition rx_queue self (queue_id : Z) : Z := rx_queues self + queue_id * sizeof ixgbe_rx_queue.
Definition tx_queue self (queue_id : Z) : Z := tx_queues self + queue_id * sizeof ixgbe_tx_queue.

Definition link_speed (links : Z) : Z :=
  if Z.land links IXGBE_LINKS_UP =? 0 then 0
  else
    let s := Z.land links IXGBE_LINKS_SPEED_82599 in
    if s =? IXGBE_LINKS_SPEED_100_82599 then 100
    else if s =? IXGBE_LINKS_SPEED_1G_82599 then 1000
    else if s =? IXGBE_LINKS_SPEED_10G_82599 then 10000
    else 0.
Definition get_link_speed self : M W Z :=
  links ← get_reg32 self IXGBE_LINKS; mret (link_speed links).

Definition set_promisc self (enabled : bool) : M W unit :=
  if enabled then set_flags32 self IXGBE_FCTRL (Z.lor IXGBE_FCTRL_MPE IXGBE_FCTRL_UPE)
  else clear_flags32 self IXGBE_FCTRL (Z.lor IXGBE_FCTRL_MPE IXGBE_FCTRL_UPE).

(** the descriptor gets a new buffer *)
Definition rx_rearm (desc_ptr new_buf : Z) : M W unit :=
  p ← load 8 (new_buf + pb_buf_addr_phy);
  vstore 8 (desc_ptr + rxd_pkt_addr) (u64 (p + pb_data)) ;;
  vstore 8 (desc_ptr + rxd_hdr_addr) 0.
Definition rx_advance self (queue_id rx_index : Z) : M W unit :=
  let queue := rx_queue self queue_id in
  n ← load 2 (queue + rx_member "num_entries");
  store 2 (queue + rx_member "rx_index") (inc_and_wrap_ring rx_index n) ;;
  set_reg32 self (IXGBE_RDT queue_id) rx_index.

(** the branch of a finished descriptor: its length is read in place, after
    the recorded buffer *)
Definition rx_receive self (queue_id rx_index desc_ptr : Z) : M W Z :=
  let queue := rx_queue self queue_id in
  buf ← load 8 (queue + rx_member "virtual_addresses" + 8 * rx_index);
  length ← vload 2 (desc_ptr + rxd_length);
  store 4 (buf + pb_size) length ;;
  pool ← load 8 (queue + rx_member "mempool");
  new_buf ← pkt_buf_alloc pool;
  if new_buf =? NULL then
    error "failed to allocate new mbuf for rx, you are either leaking memory or your mempool is too small"
  else
    rx_rearm desc_ptr new_buf ;;
    rx_advance self queue_id rx_index ;;
    mret buf.

Definition rx_packet self (queue_id : Z) : M W Z :=
  let queue := rx_queue self queue_id in
  rx_index ← load 2 (queue + rx_member "rx_index");
  descs ← load 8 (queue + rx_member "descriptors");
  let desc_ptr := descs + rx_index * sizeof_adv_rx_desc in
  status ← vload 4 (desc_ptr + rxd_status_error);
  if Z.land status IXGBE_RXDADV_STAT_DD =? 0 then mret NULL
  else if Z.land status IXGBE_RXDADV_STAT_EOP =? 0 then
    error "multi-segment packets are not supported - increase buffer size or decrease MTU"
  else rx_receive self queue_id rx_index desc_ptr.

(** the clean-up loop; its fuel [clean_fuel] is the number of values of a
    uint16_t index *)
Fixpoint tx_clean (fuel : nat) (queue cur_index clean_index : Z) : M W Z :=
  match fuel with
  | O => hang
  | S fuel' =>
      if clean_index =? cur_index then mret clean_index
      else
        descs ← load 8 (queue + tx_member "descriptors");
        status ← vload 4 (descs + clean_index * sizeof_adv_tx_desc + txd_status);
        if Z.land status IXGBE_ADVTXD_STAT_DD =? 0 then mret clean_index
        else
          buf ← load 8 (queue + tx_member "virtual_addresses" + 8 * clean_index);
          pkt_buf_free buf ;;
          n ← load 2 (queue + tx_member "num_entries");
          tx_clean fuel' queue cur_index (inc_and_wrap_ring clean_index n)
  end.

Definition tx_cmd_type_len (size : Z) : Z :=
  u32 (Z.lor (Z.lor (Z.lor (Z.lor (Z.lor IXGBE_ADVTXD_DCMD_EOP IXGBE_ADVTXD_DCMD_RS)
    IXGBE_ADVTXD_DCMD_IFCS) IXGBE_ADVTXD_DCMD_DEXT) IXGBE_ADVTXD_DTYP_DATA) size).

(** the read format of the descriptor, from the buffer's header *)
Definition fill_tx_desc (txd buf : Z) : M W unit :=
  p ← load 8 (buf + pb_buf_addr_phy);
  vstore 8 (txd + txd_buffer_addr) (u64 (p + pb_data)) ;;
  size ← load 4 (buf + pb_size);
  vstore 4 (txd + txd_cmd_type_len) (tx_cmd_type_len size) ;;
  size ← load 4 (buf + pb_size);
  vstore 4 (txd + txd_olinfo_status) (u32 (Z.shiftl size IXGBE_ADVTXD_PAYLEN_SHIFT)).

(** step 1: the new clean_index, and tx_index *)
Definition tx_clean_up (queue : Z) : M W (Z * Z) :=
  clean_index ← load 2 (queue + tx_member "clean_index");
  cur_index ← load 2 (queue + tx_member "tx_index");
  clean_index ← tx_clean clean_fuel queue cur_index clean_index;
  store 2 (queue + tx_member "clean_index") clean_index ;;
  mret (clean_index, cur_index).

(** step 2, once there is room *)
Definition tx_send self (queue_id queue cur_index buf : Z) : M W Z :=
  store 8 (queue + tx_member "virtual_addresses" + 8 * cur_index) buf ;;
  tx_index ← load 2 (queue + tx_member "tx_index");
  n ← load 2 (queue + tx_member "num_entries");
  store 2 (queue + tx_member "tx_index") (inc_and_wrap_ring tx_index n) ;;
  descs ← load 8 (queue + tx_member "descriptors");
  let txd := descs + cur_index * sizeof_adv_tx_desc in
  fill_tx_desc txd buf ;;
  tx_index ← load 2 (queue + tx_member "tx_index");
  set_reg32 self (IXGBE_TDT queue_id) tx_index ;;
  mret 1.

Definition tx_packet self (queue_id buf : Z) : M W Z :=
  let queue := tx_queue self queue_id in
  '(clean_index, cur_index) ← tx_clean_up queue;
  n ← load 2 (queue + tx_member "num_entries");
  if clean_index =? inc_and_wrap_ring cur_index n then mret 0
  else tx_send self queue_id queue cur_index buf.

Definition do_read_stats self (stats : option device_stats) : M W (option device_stats) :=
  rxp ← get_reg32 self IXGBE_GPRC;
  txp ← get_reg32 self IXGBE_GPTC;
  rl ← get_reg32 self IXGBE_GORCL;
  rh ← get_reg32 self IXGBE_GORCH;
  let rxb := u64 (rl + Z.shiftl rh 32) in
  tl ← get_reg32 self IXGBE_GOTCL;
  th ← get_reg32 self IXGBE_GOTCH;
  let txb := u64 (tl + Z.shiftl th 32) in
  mret (match stats with
        | None => None
        | Some s => Some (DeviceStats (stats_pci_addr s)
                            (u64 (rx_pkts s + rxp)) (u64 (tx_pkts s + txp))
                            (u64 (rx_bytes s + rxb)) (u64 (tx_bytes s + txb)))
        end).

(** The first call has its arguments in the wrong order: the new register
    value, converted to int, is the offset, and 0 is the value. *)
Definition init_link self : M W unit :=
  v ← get_reg32 self 0;
  set_reg32 self (i32 (Z.lor (Z.land v (not32 IXGBE_AUTOC_LMS_MASK)) IXGBE_AUTOC_LMS_10G_SERIAL)) 0 ;;
  v ← get_reg32 self IXGBE_AUTOC;
  set_reg32 self IXGBE_AUTOC
    (Z.lor (Z.land v (not32 IXGBE_AUTOC_10G_PMA_PMD_MASK)) IXGBE_AUTOC_10G_XAUI) ;;
  set_flags32 self IXGBE_AUTOC IXGBE_AUTOC_AN_RESTART.

(** body of the loop that fills the ring with buffers *)
Definition fill_rx_desc (queue i : Z) : M W unit :=
  descs ← load 8 (queue + rx_member "descriptors");
  let rxd := descs + i * sizeof_adv_rx_desc in
  pool ← load 8 (queue + rx_member "mempool");
  buf ← pkt_buf_alloc pool;
  if buf =? NULL then error "failed to allocate rx descriptor"
  else
    p ← load 8 (buf + pb_buf_addr_phy);
    vstore 8 (rxd + rxd_pkt_addr) p ;;
    vstore 8 (rxd + rxd_hdr_addr) 0 ;;
    store 8 (queue + rx_member "virtual_addresses" + 8 * i) buf.

Definition start_rx_queue self (queue_id : Z) : M W unit :=
  let queue := rx_queue self queue_id in
  pool ← memory_allocate_mempool 4096 2048;
  store 8 (queue + rx_member "mempool") pool ;;
  n ← load 2 (queue + rx_member "num_entries");
  if negb (Z.land n (n - 1) =? 0) then error "number of queue entries must be a power of 2"
  else
    for_loop (Z.to_nat n) 0 (fill_rx_desc queue) ;;
    set_flags32 self (IXGBE_RXDCTL queue_id) IXGBE_RXDCTL_ENABLE ;;
    wait_set_reg32 poll_fuel self (IXGBE_RXDCTL queue_id) IXGBE_RXDCTL_ENABLE ;;
    set_reg32 self (IXGBE_RDH queue_id) 0 ;;
    n ← load 2 (queue + rx_member "num_entries");
    set_reg32 self (IXGBE_RDT queue_id) (n - 1).

(** per-queue part of init_rx *)
Definition init_rx_queue self (i : Z) : M W unit :=
  v ← get_reg32 self (IXGBE_SRRCTL i);
  set_reg32 self (IXGBE_SRRCTL i)
    (Z.lor (Z.land v (not32 IXGBE_SRRCTL_DESCTYPE_MASK)) IXGBE_SRRCTL_DESCTYPE_ADV_ONEBUF) ;;
  set_flags32 self (IXGBE_SRRCTL i) IXGBE_SRRCTL_DROP_EN ;;
  let ring_size_bytes := u32 (NUM_RX_QUEUE_ENTRIES * sizeof_adv_rx_desc) in
  mem ← memory_allocate_dma ring_size_bytes;
  memset (virt mem) (-1) (Z.to_nat ring_size_bytes) ;;
  set_reg32 self (IXGBE_RDBAL i) (u32 (Z.land (phy mem) 0xFFFFFFFF)) ;;
  set_reg32 self (IXGBE_RDBAH i) (u32 (Z.shiftr (phy mem) 32)) ;;
  set_reg32 self (IXGBE_RDLEN i) ring_size_bytes ;;
  set_reg32 self (IXGBE_RDH i) 0 ;;
  set_reg32 self (IXGBE_RDT i) 0 ;;
  let queue := rx_queue self i in
  store 2 (queue + rx_member "num_entries") NUM_RX_QUEUE_ENTRIES ;;
  store 2 (queue + rx_member "rx_index") 0 ;;
  store 8 (queue + rx_member "descriptors") (virt mem).

Definition init_rx self : M W unit :=
  clear_flags32 self IXGBE_RXCTRL IXGBE_RXCTRL_RXEN ;;
  set_reg32 self (IXGBE_RXPBSIZE 0) IXGBE_RXPBSIZE_128KB ;;
  for_loop 7 1 (fun i => set_reg32 self (IXGBE_RXPBSIZE i) 0) ;;
  set_flags32 self IXGBE_HLREG0 IXGBE_HLREG0_RXCRCSTRP ;;
  set_flags32 self IXGBE_RDRXCTL IXGBE_RDRXCTL_CRCSTRIP ;;
  set_flags32 self IXGBE_FCTRL IXGBE_FCTRL_BAM ;;
  for_loop (Z.to_nat (num_rx_queues self)) 0 (init_rx_queue self) ;;
  set_flags32 self IXGBE_CTRL_EXT IXGBE_CTRL_EXT_NS_DIS ;;
  for_loop (Z.to_nat (num_rx_queues self)) 0
    (fun i => clear_flags32 self (IXGBE_DCA_RXCTRL i) (Z.shiftl 1 12)) ;;
  set_flags32 self IXGBE_RXCTRL IXGBE_RXCTRL_RXEN.

(** txdctl &= ~(0x3F); txdctl |= 32; *)
Definition txdctl_value (txdctl : Z) : Z := Z.lor (Z.land txdctl (not32 0x3F)) 32.

(** per-queue part of init_tx *)
Definition init_tx_queue self (i : Z) : M W unit :=
  let ring_size_bytes := u32 (NUM_TX_QUEUE_ENTRIES * sizeof_adv_tx_desc) in
  mem ← memory_allocate_dma ring_size_bytes;
  memset (virt mem) (-1) (Z.to_nat ring_size_bytes) ;;
  set_reg32 self (IXGBE_TDBAL i) (u32 (Z.land (phy mem) 0xFFFFFFFF)) ;;
  set_reg32 self (IXGBE_TDBAH i) (u32 (Z.shiftr (phy mem) 32)) ;;
  set_reg32 self (IXGBE_TDLEN i) ring_size_bytes ;;
  txdctl ← get_reg32 self (IXGBE_TXDCTL i);
  set_reg32 self (IXGBE_TXDCTL i) (txdctl_value txdctl) ;;
  let queue := tx_queue self i in
  store 2 (queue + tx_member "num_entries") NUM_TX_QUEUE_ENTRIES ;;
  store 8 (queue + tx_member "descriptors") (virt mem).

(** the queue loop runs over num_rx_queues, as in the source *)
Definition init_tx self : M W unit :=
  set_flags32 self IXGBE_HLREG0 (Z.lor IXGBE_HLREG0_TXCRCEN IXGBE_HLREG0_TXPADEN) ;;
  set_reg32 self (IXGBE_TXPBSIZE 0) IXGBE_TXPBSIZE_40KB ;;
  for_loop 7 1 (fun i => set_reg32 self (IXGBE_TXPBSIZE i) 0) ;;
  set_reg32 self IXGBE_DTXMXSZRQ 0xFFFF ;;
  clear_flags32 self IXGBE_RTTDCS IXGBE_RTTDCS_ARBDIS ;;
  for_loop (Z.to_nat (num_rx_queues self)) 0 (init_tx_queue self) ;;
  set_reg32 self IXGBE_DMATXCTL IXGBE_DMATXCTL_TE.

Definition start_tx_queue self (queue_id : Z) : M W unit :=
  let queue := tx_queue self queue_id in
  n ← load 2 (queue + tx_member "num_entries");
  if negb (Z.land n (n - 1) =? 0) then error "number of queue entries must be a power of 2"
  else
    set_reg32 self (IXGBE_TDH queue_id) 0 ;;
    set_reg32 self (IXGBE_TDT queue_id) 0 ;;
    set_flags32 self (IXGBE_TXDCTL queue_id) IXGBE_TXDCTL_ENABLE ;;
    wait_set_reg32 poll_fuel self (IXGBE_TXDCTL queue_id) IXGBE_TXDCTL_ENABLE.

Fixpoint wait_for_link_loop (fuel : nat) self (max_wait poll_interval : Z) : M W unit :=
  match fuel with
  | O => hang
  | S fuel' =>
      speed ← get_link_speed self;
      if (speed =? 0) && (0 <? max_wait) then
        _ ← syscall_ (Sys_usleep poll_interval);
        wait_for_link_loop fuel' self (i32 (u32 max_wait - poll_interval)) poll_interval
      else mret tt
  end.
Definition wait_for_link self : M W unit :=
  wait_for_link_loop 102 self 10000000 100000 ;;
  _ ← get_link_speed self;
  mret tt.

Definition reset_and_init self : M W unit :=
  set_reg32 self IXGBE_EIMC 0x7FFFFFFF ;;
  set_reg32 self IXGBE_CTRL IXGBE_CTRL_RST_MASK ;;
  wait_clear_reg32 poll_fuel self IXGBE_CTRL IXGBE_CTRL_RST_MASK ;;
  _ ← syscall_ (Sys_usleep 10000);
  set_reg32 self IXGBE_EIMC 0x7FFFFFFF ;;
  wait_set_reg32 poll_fuel self IXGBE_EEC IXGBE_EEC_ARD ;;
  wait_set_reg32 poll_fuel self IXGBE_RDRXCTL IXGBE_RDRXCTL_DMAIDONE ;;
  init_link self ;;
  _ ← do_read_stats self None;
  init_rx self ;;
  init_tx self ;;
  for_loop (Z.to_nat (num_rx_queues self)) 0 (start_rx_queue self) ;;
  for_loop (Z.to_nat (num_tx_queues self)) 0 (start_tx_queue self) ;;
  set_promisc self true ;;
  wait_for_link self.

(** The constructor, after the base class's, which copies the address string.
    Both queue arrays are allocated for [rx_queues] queues, as in the source. *)
Definition ixgbe_new (pci_addr : string) (rx_queues tx_queues : Z) : M W ixgbe :=
  _ ← malloc_ (Z.of_nat (String.length pci_addr) + 1); (* strdup *)
  _ ← syscall_ Sys_getuid;
  if MAX_QUEUES <? rx_queues then error "cannot configure rx queues: limit exceeded"
  else if MAX_QUEUES <? tx_queues then error "cannot configure tx queues: limit exceeded"
  else
    bar ← pci_map_resource NDEBUG pci_addr;
    rxq ← calloc_ rx_queues (sizeof ixgbe_rx_queue + 8 * MAX_RX_QUEUE_ENTRIES);
    txq ← calloc_ rx_queues (sizeof ixgbe_tx_queue + 8 * MAX_TX_QUEUE_ENTRIES);
    let self := IxgbeObject (DriverBase "" rx_queues tx_queues pci_addr bar rxq txq) "ixy-ixgbe" in
    reset_and_init self ;;
    mret self.
End code.
