(* ===== verification/Stats.v ===== *)
(** * stats.c and stats.cpp: counters, rates and the clock

    The rates are computed in IEEE binary64 with round to nearest even, as
    x86-64 compilers do for [double]; [SpecFloat] is the Standard Library's
    executable definition of it.  The print functions return the arguments they
    hand to printf, one entry per line; formatting them is the C library's. *)
From Stdlib Require Import Floats.SpecFloat.
From S2P Require Import Prelude Mem Platform Memory Registers Device Pci Ixgbe IxgbeCpp.

(** ** double *)
Definition double : Type := spec_float.
Definition prec : Z := 53.
Definition emax : Z := 1024.
(** conversion of an integer *)
Definition d_of_Z (z : Z) : double := binary_normalize prec emax z 0 false.
Definition ddiv (x y : double) : double := SFdiv prec emax x y.
Definition dmul (x y : double) : double := SFmul prec emax x y.
Definition dadd (x y : double) : double := SFadd prec emax x y.
(** (uint32_t) x: truncation; undefined for infinities, NaN and values that
    do not fit *)
Definition d_to_u32 (x : double) : option Z :=
  match x with
  | S754_zero _ => Some 0
  | S754_finite s m e =>
      let t := if 0 <=? e then Z.pos m * 2 ^ e else Z.pos m / 2 ^ (- e) in
      let z := if s then - t else t in
      if (0 <=? z) && (z <? 2 ^ 32) then Some z else None
  | _ => None
  end.

Definition diff_mpps (pkts_new pkts_old nanos : Z) : double :=
  ddiv (ddiv (d_of_Z (u64 (pkts_new - pkts_old))) (d_of_Z 1000000)) (ddiv (d_of_Z nanos) (d_of_Z 1000000000)).

(** preamble, SFD and IFG are 20 bytes per packet on the wire *)
Definition diff_mbit (bytes_new bytes_old pkts_new pkts_old nanos : Z) : option Z :=
  d_to_u32 (dadd
    (dmul (ddiv (ddiv (d_of_Z (u64 (bytes_new - bytes_old))) (d_of_Z 1000000)) (ddiv (d_of_Z nanos) (d_of_Z 1000000000)))
          (d_of_Z 8))
    (dmul (dmul (diff_mpps pkts_new pkts_old nanos) (d_of_Z 20)) (d_of_Z 8))).

(** stats.cpp; the integer differences are converted where C++ divides them *)
Definition cpp_diff_mpps (pkts_new pkts_old nanos : Z) : double :=
  ddiv (ddiv (d_of_Z (u64 (pkts_new - pkts_old))) (d_of_Z 1000000)) (ddiv (d_of_Z nanos) (d_of_Z 1000000000)).
Definition cpp_diff_mbit (bytes_new bytes_old pkts_new pkts_old nanos : Z) : option Z :=
  d_to_u32 (dadd
    (dmul (ddiv (ddiv (d_of_Z (u64 (bytes_new - bytes_old))) (d_of_Z 1000000)) (ddiv (d_of_Z nanos) (d_of_Z 1000000000)))
          (d_of_Z 8))
    (dmul (dmul (cpp_diff_mpps pkts_new pkts_old nanos) (d_of_Z 20)) (d_of_Z 8))).

(** a printed line *)
Inductive line :=
  | Total (dir name : string) (bytes pkts : Z)
  | Rate (dir name : string) (mbit : Z) (mpps : double).

Section code.
Context {H : Type} `{Platform H}.
Local Abbreviation W := (world H).

(** ** stats.c *)
Definition device_name (d : option ixy_device) : string :=
  match d with Some dev => Device.pci_addr dev | None => "???" end.

Definition print_stats (stats : Device.device_stats) : list line :=
  [Total "RX" (device_name (device stats)) (Device.rx_bytes stats) (Device.rx_pkts stats);
   Total "TX" (device_name (device stats)) (Device.tx_bytes stats) (Device.tx_pkts stats)].

Definition rate_line (dir name : string) (bytes_new bytes_old pkts_new pkts_old nanos : Z) : M W line :=
  match diff_mbit bytes_new bytes_old pkts_new pkts_old nanos with
  | Some mbit => mret (Rate dir name mbit (diff_mpps pkts_new pkts_old nanos))
  | None => fail (Fault "double to uint32_t")
  end.

Definition print_stats_diff (stats_new stats_old : Device.device_stats) (nanos : Z) : M W (list line) :=
  rx ← rate_line "RX" (device_name (device stats_new)) (Device.rx_bytes stats_new) (Device.rx_bytes stats_old)
    (Device.rx_pkts stats_new) (Device.rx_pkts stats_old) nanos;
  tx ← rate_line "TX" (device_name (device stats_new)) (Device.tx_bytes stats_new) (Device.tx_bytes stats_old)
    (Device.tx_pkts stats_new) (Device.tx_pkts stats_old) nanos;
  mret [rx; tx].

(** timespec.tv_sec * 1000 * 1000 * 1000 + timespec.tv_nsec *)
Definition monotonic_time : M W Z :=
  t ← syscall_ Sys_clock_gettime;
  let tv_sec := t / 1000000000 in
  let tv_nsec := t mod 1000000000 in
  mret (u64 (tv_sec * 1000 * 1000 * 1000 + tv_nsec)).

(** the structure stats_init leaves *)
Definition stats_init (dev : option ixy_device) : M W Device.device_stats :=
  match dev with
  | Some d => _ ← ixgbe_read_stats d None; mret tt
  | None => mret tt
  end ;;
  mret (Device.DeviceStats dev 0 0 0 0).

(** ** stats.cpp *)
Definition cpp_device_stats (pci_addr : string) : IxgbeCpp.device_stats := IxgbeCpp.DeviceStats pci_addr 0 0 0 0.
Definition cpp_print_stats (self : IxgbeCpp.device_stats) : list line :=
  [Total "RX" (stats_pci_addr self) (rx_bytes self) (rx_pkts self);
   Total "TX" (stats_pci_addr self) (tx_bytes self) (tx_pkts self)].
(** the file's own copies of the helpers *)
Definition cpp_monotonic_time : M W Z :=
  t ← syscall_ Sys_clock_gettime;
  let tv_sec := t / 1000000000 in
  let tv_nsec := t mod 1000000000 in
  mret (u64 (tv_sec * 1000 * 1000 * 1000 + tv_nsec)).
Definition cpp_rate_line (dir name : string) (bytes_new bytes_old pkts_new pkts_old nanos : Z) : M W line :=
  match cpp_diff_mbit bytes_new bytes_old pkts_new pkts_old nanos with
  | Some mbit => mret (Rate dir name mbit (cpp_diff_mpps pkts_new pkts_old nanos))
  | None => fail (Fault "double to uint32_t")
  end.
Definition cpp_print_stats_diff (self stats_old : IxgbeCpp.device_stats) (nanos_passed : Z) : M W (list line) :=
  rx ← cpp_rate_line "RX" (stats_pci_addr self) (rx_bytes self) (rx_bytes stats_old)
    (rx_pkts self) (rx_pkts stats_old) nanos_passed;
  tx ← cpp_rate_line "TX" (stats_pci_addr self) (tx_bytes self) (tx_bytes stats_old)
    (tx_pkts self) (tx_pkts stats_old) nanos_passed;
  mret [rx; tx].
End code.

(** minimum-size packets at line rate: 14.88 million of 64 bytes in a second *)
Example line_rate : diff_mbit (14880952 * 64 + 7) 7 (14880952 + 3) 3 1000000000 = Some 9999.
Proof. by vm_compute. Qed.
Example line_rate_mpps : SFcompare (diff_mpps 14880952 0 1000000000) (ddiv (d_of_Z 14880952) (d_of_Z 1000000)) = Some Eq.
Proof. by vm_compute. Qed.
(** the counters wrap: the difference is taken modulo 2^64 *)
Example wrapped_counters : diff_mbit 936 (2 ^ 64 - 64) 10 0 1000000000 = Some 0.
Proof. by vm_compute. Qed.
(** no time passed: the conversion of NaN to uint32_t is undefined *)
Example no_time_passed : diff_mbit 0 0 0 0 0 = None.
Proof. by vm_compute. Qed.
