(* ===== verification/Apps.v ===== *)
(** * The applications ixy-pktgen, ixy-fwd and ixy-cpp-fwd

    Each main runs forever once the devices are initialised.  It is modelled as
    its setup and the body of its loop, one iteration taking the loop's
    variables to their next values; [iterate n] is the first [n] iterations.
    What the programs print is collected in [printed].  setup_seccomp
    installs a system call filter through libseccomp, which is not part of the
    repository: its calls are parameters. *)
From S2P Require Import Prelude Mem Platform Memory Registers Device Pci Ixgbe IxgbeCpp Stats.

(** ** libseccomp_init.c *)
Inductive seccomp_call :=
  | Seccomp_init (default_kill : bool)
  | Seccomp_allow (syscall_name : string) (arg0_eq : option Z)
  | Seccomp_load
  | Seccomp_release.
Definition STDOUT_FILENO : Z := 1.

Section seccomp.
Context {H : Type} `{Platform H}.
Local Abbreviation W := (world H).
(** libseccomp: the result of a call; NULL or nonzero mean failure *)
Context (libseccomp : seccomp_call -> M W Z).

Definition add_rule (name : string) (arg0 : option Z) : M W unit :=
  r ← libseccomp (Seccomp_allow name arg0); if r =? 0 then mret tt else error "add rule".
Definition setup_seccomp : M W unit :=
  ctx ← libseccomp (Seccomp_init true);
  if ctx =? NULL then error "Failed to init seccomp filter context" else
  add_rule "getuid" None ;;
  add_rule "write" (Some STDOUT_FILENO) ;;
  add_rule "fstat" (Some STDOUT_FILENO) ;;
  r ← libseccomp Seccomp_load;
  if negb (r =? 0) then error "add rule" else
  _ ← libseccomp Seccomp_release; mret tt.
End seccomp.

(** ** ixy-pktgen.c *)
Definition PKT_SIZE : Z := 60.

Section pktgen.
Context {H : Type} `{Platform H}.
Local Abbreviation W := (world H).
Context (NDEBUG : bool) (poll_fuel : nat) (libseccomp : seccomp_call -> M W Z).

(** the template written into one buffer *)
Definition fill_packet (buf : Z) : M W unit :=
  store 4 (buf + pb_size) PKT_SIZE ;;
  for_loop (Z.to_nat PKT_SIZE) 0 (fun i => store 1 (buf + pb_data + i) 0xFF).

(** bufs[0], ..., bufs[n - 1] *)
Fixpoint fill_bufs (n : nat) (mempool : Z) : M W (list Z) :=
  match n with
  | O => mret []
  | S n' =>
      buf ← pkt_buf_alloc mempool;
      fill_packet buf ;;
      bufs ← fill_bufs n' mempool;
      mret (buf :: bufs)
  end.
Fixpoint free_bufs (bufs : list Z) : M W unit :=
  match bufs with
  | [] => mret tt
  | buf :: bufs' => pkt_buf_free buf ;; free_bufs bufs'
  end.
Definition NUM_BUFS : Z := 2048.
Definition pktgen_init_mempool : M W Z :=
  mempool ← memory_allocate_mempool NUM_BUFS 0;
  bufs ← fill_bufs (Z.to_nat NUM_BUFS) mempool;
  free_bufs bufs ;;
  mret mempool.

(** while (!ixgbe_tx_packet(dev, 0, buf)) {} *)
Fixpoint tx_retry (fuel : nat) (dev : ixy_device) (queue_id buf : Z) : M W unit :=
  match fuel with
  | O => hang
  | S fuel' =>
      sent ← ixgbe_tx_packet dev queue_id buf;
      if sent =? 0 then tx_retry fuel' dev queue_id buf else mret tt
  end.

Record pktgen_state := PktgenState {
  g_last : Z;              (* last_stats_printed *)
  g_stats : Device.device_stats;
  g_stats_old : Device.device_stats;
  g_counter : Z;
  g_printed : list line
}.

(** one turn of the tx loop *)
Definition pktgen_step (dev : ixy_device) (mempool : Z) (s : pktgen_state) : M W pktgen_state :=
  buf ← pkt_buf_alloc mempool;
  tx_retry poll_fuel dev 0 buf ;;
  let counter := u64 (g_counter s + 1) in
  if Z.land (g_counter s) 0xFFF =? 0 then
    time ← monotonic_time;
    if 1000 * 1000 * 1000 <? u64 (time - g_last s) then
      stats ← ixgbe_read_stats dev (Some (g_stats s));
      let stats := default (g_stats s) stats in
      out ← print_stats_diff stats (g_stats_old s) (u64 (time - g_last s));
      mret (PktgenState time stats stats counter (g_printed s ++ out))
    else mret (PktgenState (g_last s) (g_stats s) (g_stats_old s) counter (g_printed s))
  else mret (PktgenState (g_last s) (g_stats s) (g_stats_old s) counter (g_printed s)).

Fixpoint iterate {S} (n : nat) (step : S -> M W S) (s : S) : M W S :=
  match n with O => mret s | Datatypes.S n' => s' ← step s; iterate n' step s' end.

(** the first [n] packets of ixy-pktgen; [None] is the usage message *)
Definition pktgen_main (argv : list string) (n : nat) : M W (option pktgen_state) :=
  match argv with
  | [_; pci] =>
      mempool ← pktgen_init_mempool;
      last_stats_printed ← monotonic_time;
      dev ← ixgbe_init NDEBUG poll_fuel pci 1 1;
      setup_seccomp libseccomp ;;
      stats ← stats_init (Some dev);
      stats_old ← stats_init (Some dev);
      s ← iterate n (pktgen_step dev mempool) (PktgenState last_stats_printed stats stats_old 0 []);
      mret (Some s)
  | _ => mret None
  end.
End pktgen.

(** ** ixy-fwd.c *)
Section fwd.
Context {H : Type} `{Platform H}.
Local Abbreviation W := (world H).
Context (NDEBUG : bool) (poll_fuel : nat) (libseccomp : seccomp_call -> M W Z).

Record fwd_state (stats : Type) := FwdState {
  f_last : Z;
  f_stats1 : stats;
  f_stats1_old : stats;
  f_stats2 : stats;
  f_stats2_old : stats;
  f_counter : Z;
  f_printed : list line
}.
Arguments FwdState {stats}.
Arguments f_last {stats}.
Arguments f_stats1 {stats}.
Arguments f_stats1_old {stats}.
Arguments f_stats2 {stats}.
Arguments f_stats2_old {stats}.
Arguments f_counter {stats}.
Arguments f_printed {stats}.

(** receive a packet on [dev1] and send it on [dev2]; the result of the
    transmission is not used *)
Definition forward (dev1 dev2 : ixy_device) : M W unit :=
  buf ← ixgbe_rx_packet dev1 0;
  if buf =? NULL then mret tt else (_ ← ixgbe_tx_packet dev2 0 buf; mret tt).

(** the statistics of one port *)
Definition update_stats (dev : ixy_device) (stats old : Device.device_stats) (nanos : Z) :
    M W (Device.device_stats * list line) :=
  stats' ← ixgbe_read_stats dev (Some stats);
  let stats' := default stats stats' in
  out ← print_stats_diff stats' old nanos;
  mret (stats', out).

(** one turn of the loop; [same] is dev1 == dev2 *)
Definition fwd_step (dev1 dev2 : ixy_device) (same : bool) (s : fwd_state Device.device_stats) :
    M W (fwd_state Device.device_stats) :=
  forward dev1 dev2 ;;
  let counter := u64 (f_counter s + 1) in
  let skip := FwdState (f_last s) (f_stats1 s) (f_stats1_old s) (f_stats2 s) (f_stats2_old s) counter (f_printed s) in
  if Z.land (f_counter s) 0xFFF =? 0 then
    time ← monotonic_time;
    let nanos := u64 (time - f_last s) in
    if 1000 * 1000 * 1000 <? nanos then
      '(st1, out1) ← update_stats dev1 (f_stats1 s) (f_stats1_old s) nanos;
      if same then mret (FwdState time st1 st1 (f_stats2 s) (f_stats2_old s) counter (f_printed s ++ out1))
      else
        '(st2, out2) ← update_stats dev2 (f_stats2 s) (f_stats2_old s) nanos;
        mret (FwdState time st1 st1 st2 st2 counter (f_printed s ++ out1 ++ out2))
    else mret skip
  else mret skip.

(** the first [n] turns of ixy-fwd; [None] is the usage message *)
Definition fwd_main (argv : list string) (n : nat) : M W (option (fwd_state Device.device_stats)) :=
  match argv with
  | [_; pci1; pci2] =>
      let same := String.eqb pci1 pci2 in
      dev1 ← ixgbe_init NDEBUG poll_fuel pci1 1 1;
      dev2 ← (if same then mret dev1 else ixgbe_init NDEBUG poll_fuel pci2 1 1);
      setup_seccomp libseccomp ;;
      last_stats_printed ← monotonic_time;
      stats1 ← stats_init (Some dev1);
      stats1_old ← stats_init (Some dev1);
      stats2 ← stats_init (Some dev2);
      stats2_old ← stats_init (Some dev2);
      s ← iterate n (fwd_step dev1 dev2 same)
        (FwdState last_stats_printed stats1 stats1_old stats2 stats2_old 0 []);
      mret (Some s)
  | _ => mret None
  end.

(** ** ixy-cpp-fwd.cpp *)
Definition cpp_forward (dev1 dev2 : ixgbe) : M W unit :=
  buf ← IxgbeCpp.rx_packet dev1 0;
  if buf =? NULL then mret tt else (_ ← IxgbeCpp.tx_packet dev2 0 buf; mret tt).

Definition cpp_update_stats (dev : ixgbe) (stats old : IxgbeCpp.device_stats) (nanos : Z) :
    M W (IxgbeCpp.device_stats * list line) :=
  stats' ← do_read_stats dev (Some stats);
  let stats' := default stats stats' in
  out ← cpp_print_stats_diff stats' old nanos;
  mret (stats', out).

Definition cpp_fwd_step (dev1 dev2 : ixgbe) (same : bool) (s : fwd_state IxgbeCpp.device_stats) :
    M W (fwd_state IxgbeCpp.device_stats) :=
  cpp_forward dev1 dev2 ;;
  let counter := u64 (f_counter s + 1) in
  let skip := FwdState (f_last s) (f_stats1 s) (f_stats1_old s) (f_stats2 s) (f_stats2_old s) counter (f_printed s) in
  if Z.land (f_counter s) 0xFFF =? 0 then
    time ← cpp_monotonic_time;
    let nanos := u64 (time - f_last s) in
    if 1000 * 1000 * 1000 <? nanos then
      '(st1, out1) ← cpp_update_stats dev1 (f_stats1 s) (f_stats1_old s) nanos;
      if same then mret (FwdState time st1 st1 (f_stats2 s) (f_stats2_old s) counter (f_printed s ++ out1))
      else
        '(st2, out2) ← cpp_update_stats dev2 (f_stats2 s) (f_stats2_old s) nanos;
        mret (FwdState time st1 st1 st2 st2 counter (f_printed s ++ out1 ++ out2))
    else mret skip
  else mret skip.

(** new ixgbe(...): storage for the object, then the constructor *)
Definition sizeof_ixgbe : Z :=
  sizeof [f_ptr "driver_name (base)"; f_u16 "num_rx_queues"; f_u16 "num_tx_queues"; f_ptr "pci_addr"; f_ptr "addr";
          f_ptr "rx_queues"; f_ptr "tx_queues"; f_ptr "driver_name"].
Definition new_ixgbe (pci_addr : string) (rx_queues tx_queues : Z) : M W ixgbe :=
  _ ← malloc_ sizeof_ixgbe; ixgbe_new NDEBUG poll_fuel pci_addr rx_queues tx_queues.

Definition cpp_fwd_main (argv : list string) (n : nat) : M W (option (fwd_state IxgbeCpp.device_stats)) :=
  match argv with
  | [_; pci1; pci2] =>
      let same := String.eqb pci1 pci2 in
      dev1 ← new_ixgbe pci1 1 1;
      dev2 ← (if same then mret dev1 else new_ixgbe pci2 1 1);
      setup_seccomp libseccomp ;;
      last_stats_printed ← cpp_monotonic_time;
      let stats1 := cpp_device_stats (pci_addr (base dev1)) in
      let stats2 := cpp_device_stats (pci_addr (base dev2)) in
      let old := cpp_device_stats "???" in
      s ← iterate n (cpp_fwd_step dev1 dev2 same) (FwdState last_stats_printed stats1 old stats2 old 0 []);
      mret (Some s)
  | _ => mret None
  end.
End fwd.
