(* ===== verification/Ring.v ===== *)
(** * Ring indices

    [inc_and_wrap_ring] on a power-of-two ring, and the arithmetic of the
    slots that follow an index. *)
From S2P Require Import Prelude Ixgbe.

(** A ring size the driver accepts: a power of two that fits the uint16_t indices. *)
Definition ring_size (n : Z) : Prop := exists k, 1 <= k <= 15 /\ n = 2 ^ k.

Lemma ring_size_bounds n : ring_size n -> 2 <= n <= 2 ^ 15.
Proof.
  intros (k & Hk & ->). split.
  - change 2 with (2 ^ 1) at 1. apply Z.pow_le_mono_r; lia.
  - apply Z.pow_le_mono_r; lia.
Qed.

Lemma inc_and_wrap_ring_mod n i :
  ring_size n -> 0 <= i < n -> inc_and_wrap_ring i n = (i + 1) mod n.
Proof.
  intros Hn Hi. pose proof (ring_size_bounds n Hn). destruct Hn as (k & Hk & ->).
  unfold inc_and_wrap_ring. rewrite land_ones_mod by lia. apply u16_small.
  pose proof (Z.mod_pos_bound (i + 1) (2 ^ k)). lia.
Qed.

(** the slot [k] places after index [c] *)
Definition slot (n c k : Z) : Z := (c + k) mod n.

Lemma slot_bound n c k : 0 < n -> 0 <= slot n c k < n.
Proof. intros. by apply Z.mod_pos_bound. Qed.

Lemma slot_0 n c : 0 <= c < n -> slot n c 0 = c.
Proof. intros. unfold slot. rewrite Z.add_0_r. by apply Z.mod_small. Qed.

Lemma slot_slot n c j k : slot n (slot n c j) k = slot n c (j + k).
Proof. unfold slot. rewrite Zplus_mod_idemp_l. f_equal. lia. Qed.

Lemma slot_inc n c k : ring_size n -> inc_and_wrap_ring (slot n c k) n = slot n c (k + 1).
Proof.
  intros Hn. pose proof (ring_size_bounds n Hn).
  rewrite inc_and_wrap_ring_mod; [|done|apply slot_bound; lia].
  apply (slot_slot n c k 1).
Qed.

Lemma slot_inj n c j k : 0 <= j < n -> 0 <= k < n -> slot n c j = slot n c k -> j = k.
Proof.
  unfold slot. intros Hj Hk Heq.
  assert ((j - k) mod n = 0) as Hz.
  { replace (j - k) with ((c + j) - (c + k)) by lia. rewrite Zminus_mod, Heq, Z.sub_diag.
    apply Zmod_0_l. }
  apply Z.mod_divide in Hz as [z Hz]; [|lia].
  assert (-1 < z) by nia. assert (z < 1) by nia. replace z with 0 in Hz by lia. lia.
Qed.

(** All slots of the ring are reached from any index. *)
Lemma slot_surj n c s : 0 <= s < n -> exists k, 0 <= k < n /\ slot n c k = s.
Proof.
  intros Hs. exists ((s - c) mod n). split; [apply Z.mod_pos_bound; lia|].
  unfold slot. rewrite Zplus_mod_idemp_r. replace (c + (s - c)) with s by lia.
  by apply Z.mod_small.
Qed.
