(* ===== verification/TxRing.v ===== *)
(** * The transmit ring

    The abstract ring [txq] is a queue of in-flight pool entries starting at
    [q_clean]; [tx_inv] says that a [struct ixgbe_tx_queue], its descriptor
    ring and the pool represent it and that the device owns nothing but
    in-flight descriptors.  The lemmas show that cleaning pops a prefix of
    finished packets back into the pool and that sending pushes one. *)
From S2P Require Import Prelude Mem Platform Memory Registers Device Ixgbe Ring.

Record txq := Txq {
  q_addr : Z;       (* the struct ixgbe_tx_queue *)
  q_descs : Z;      (* its descriptor ring *)
  q_n : Z;          (* num_entries *)
  q_clean : Z;      (* clean_index *)
  q_fly : list Z    (* pool entries handed to the device, oldest first *)
}.

Definition q_len (q : txq) : Z := Z.of_nat (length (q_fly q)).
Definition q_slot (q : txq) (k : Z) : Z := slot (q_n q) (q_clean q) k.
Definition q_tx (q : txq) : Z := q_slot q (q_len q).
Definition q_desc (q : txq) (k : Z) : Z := q_descs q + q_slot q k * sizeof_adv_tx_desc.
Definition q_va (q : txq) (k : Z) : Z := q_addr q + txq_virtual_addresses + 8 * q_slot q k.

(** the oldest packet leaves; a packet enters *)
Definition q_pop (q : txq) : txq :=
  Txq (q_addr q) (q_descs q) (q_n q) (q_slot q 1) (tail (q_fly q)).
Definition q_push (i : Z) (q : txq) : txq :=
  Txq (q_addr q) (q_descs q) (q_n q) (q_clean q) (q_fly q ++ [i]).

Definition q_size (q : txq) : Z := sizeof_tx_queue + 8 * q_n q.
Definition q_ring (q : txq) : Z := sizeof_adv_tx_desc * q_n q.

Ltac unq := unfold q_size, q_ring, q_desc, q_va, sizeof_tx_queue, sizeof_adv_tx_desc,
  txq_descriptors, txq_num_entries, txq_clean_index, txq_tx_index, txq_virtual_addresses,
  txd_buffer_addr, txd_cmd_type_len, txd_olinfo_status, txd_status in *.

Section tx.
Context {H : Type} `{NicWriteback H}.
Implicit Types (w : world H) (P : pool) (q : txq).

Record tx_shape q : Prop := {
  ts_n : ring_size (q_n q);
  ts_clean : 0 <= q_clean q < q_n q;
  ts_len : q_len q < q_n q;
  ts_descs : 0 <= q_descs q < 2 ^ 64;
  ts_disj : disj (q_addr q) (q_size q) (q_descs q) (q_ring q)
}.

(** The queue structure in memory; [clean_index] is stated apart because the
    clean-up loop keeps it in a local variable. *)
Record tx_struct (m : mem) P q : Prop := {
  tm_descs : ld 8 m (q_addr q + txq_descriptors) = q_descs q;
  tm_n : ld 2 m (q_addr q + txq_num_entries) = q_n q;
  tm_tx : ld 2 m (q_addr q + txq_tx_index) = q_tx q;
  tm_va : forall k i, q_fly q !! k = Some i -> ld 8 m (q_va q (Z.of_nat k)) = entry P i
}.

Record tx_sep P q : Prop := {
  td_qp : disj (q_addr q) (q_size q) (p_addr P) (sizeof_mempool + 4 * p_num P);
  td_qb : disj (q_addr q) (q_size q) (p_base P) (p_num P * p_bufsz P);
  td_dp : disj (q_descs q) (q_ring q) (p_addr P) (sizeof_mempool + 4 * p_num P);
  td_db : disj (q_descs q) (q_ring q) (p_base P) (p_num P * p_bufsz P)
}.

(** What the device must not own: driver-private memory and idle slots. *)
Record tx_private (h : H) P q : Prop := {
  tp_pool : forall a, nic_owns h a -> ~ pool_fp P a;
  tp_queue : forall a, nic_owns h a -> ~ range (q_addr q) (q_size q) a;
  tp_slots : forall k a, q_len q <= k < q_n q -> range (q_desc q k) 16 a -> ~ nic_owns h a
}.

Record tx_inv w P q : Prop := {
  ti_pool : pool_ok (w_mem w) P;
  ti_shape : tx_shape q;
  ti_struct : tx_struct (w_mem w) P q;
  ti_map_q : mapped (w_mem w) (q_addr q) (q_size q) = true;
  ti_map_d : mapped (w_mem w) (q_descs q) (q_ring q) = true;
  ti_fly : Forall (fun i => 0 <= i < p_num P) (q_fly q);
  ti_nodup : NoDup (q_fly q ++ p_free P);
  ti_sep : tx_sep P q;
  ti_private : tx_private (w_hw w) P q;
  ti_desc : forall k, 0 <= k < q_n q -> desc_at (w_hw w) (q_desc q k) txd_status;
  ti_done : forall k, 0 <= k < q_len q -> dd_owned w (q_desc q k) txd_status
}.

(** everything the invariant reads from the queue structure *)
Definition tx_fp q (a : Z) : Prop :=
  range (q_addr q) (q_size q) a /\ ~ range (q_addr q + txq_clean_index) 2 a.

Lemma q_slot_bound q k : tx_shape q -> 0 <= q_slot q k < q_n q.
Proof. intros [Hn _ _ _ _]. apply slot_bound. pose proof (ring_size_bounds _ Hn). lia. Qed.

Lemma q_len_nonneg q : 0 <= q_len q.
Proof. unfold q_len. lia. Qed.

Lemma entry_size64 P i : pool_shape P -> 0 <= i < p_num P -> 0 < entry P i < 2 ^ 64.
Proof.
  intros Hs Hi. pose proof (entry_bound P i Hs Hi). destruct Hs. unlayout. lia.
Qed.

Lemma tx_struct_evolve F w w' P q :
  tx_shape q -> tx_struct (w_mem w) P q -> evolve F w w' ->
  (forall a, F a -> ~ tx_fp q a) ->
  (forall a, nic_owns (w_hw w) a -> ~ range (q_addr q) (q_size q) a) ->
  tx_struct (w_mem w') P q.
Proof.
  intros Hsh [H5 H6 H7 H8] Hev HF Hown.
  pose proof (ring_size_bounds _ (ts_n _ Hsh)) as Hn.
  assert (forall n o, 0 <= o -> o + Z.of_nat n <= q_size q ->
    (o + Z.of_nat n <= txq_clean_index \/ txq_clean_index + 2 <= o) ->
    ld n (w_mem w') (q_addr q + o) = ld n (w_mem w) (q_addr q + o)) as Hld.
  { intros n o ???. eapply evolve_ld; [exact Hev|]. intros b Hb. split.
    - intros HFb. apply HF in HFb. apply HFb. unfold tx_fp, range in *. lia.
    - intros Hb'. apply Hown in Hb'. apply Hb'. unfold range in *. lia. }
  split; unq; try (rewrite Hld by lia; done).
  intros k i Hk. pose proof (q_slot_bound q (Z.of_nat k) Hsh).
  rewrite <- Z.add_assoc, Hld by lia. rewrite Z.add_assoc. by apply H8.
Qed.

(** The invariant survives steps that stay off its footprint, and any change
    of the free list that keeps it a pool. *)
Lemma tx_inv_transfer F w w' P P' q :
  tx_inv w P q -> evolve F w w' ->
  (forall a, F a -> ~ tx_fp q a /\ ~ range (q_descs q) (q_ring q) a) ->
  pool_ok (w_mem w') P' -> P' = set_free (p_free P') P -> NoDup (q_fly q ++ p_free P') ->
  tx_inv w' P' q.
Proof.
  intros [Hp Hsh Hst Hmq Hmd Hfly Hnd [] Hpr Hds Hdn] Hev HF Hp' HP' Hnd'.
  pose proof (evolve_changes _ _ _ Hev) as [Hch Hhw _].
  pose proof (tx_struct_evolve F w w' P q Hsh Hst Hev (fun a Ha => proj1 (HF a Ha)) (tp_queue _ _ _ Hpr)) as Hst'.
  rewrite HP' in *. cbn in *.
  split; cbn; try done.
  - destruct Hst'. by split.
  - by rewrite (evolve_mapped _ _ _ _ _ Hev).
  - by rewrite (evolve_mapped _ _ _ _ _ Hev).
  - destruct Hpr as [H5 H6 H7]. split.
    + intros a Ha. by apply H5, (hw_steps_own _ _ _ Hhw).
    + intros a Ha. by apply H6, (hw_steps_own _ _ _ Hhw).
    + intros k a Hk Ha Hna. eapply H7; eauto using hw_steps_own.
  - intros k Hk. eapply hw_steps_desc, Hds; done.
  - intros k Hk. eapply dd_owned_evolve, Hdn; [unq; lia|unq; lia| |exact Hev|done].
    intros a Ha HFa. apply HF in HFa as [_ HFa]. apply HFa.
    pose proof (q_slot_bound q k Hsh). unq. unfold range in *. lia.
Qed.

(** Device activity alone. *)
Lemma tx_inv_tick w w' P q : tx_inv w P q -> evolve (fun _ => False) w w' -> tx_inv w' P q.
Proof.
  intros Hti Hev. eapply tx_inv_transfer; [exact Hti|exact Hev|done| |by destruct P|apply Hti].
  pose proof (evolve_changes _ _ _ Hev) as [[Hreg Hrd] _ _].
  eapply pool_ok_frame; [|exact Hreg|apply Hti].
  intros a Ha. apply Hrd. intros [[]|Hna]. by apply (tp_pool _ _ _ (ti_private _ _ _ Hti)) in Hna.
Qed.

(** *** Cleaning *)
Lemma q_pop_slot q k : q_slot (q_pop q) k = q_slot q (k + 1).
Proof. unfold q_pop, q_slot; cbn. rewrite slot_slot. f_equal. lia. Qed.

Lemma q_pop_len q i L : q_fly q = i :: L -> q_len (q_pop q) = q_len q - 1.
Proof. unfold q_len, q_pop; cbn. intros ->. cbn. lia. Qed.

Lemma q_pop_tx q i L : q_fly q = i :: L -> q_tx (q_pop q) = q_tx q.
Proof. intros Hf. unfold q_tx. rewrite q_pop_slot, (q_pop_len q i L) by done. f_equal. lia. Qed.

Lemma tx_inv_pop w P q i L :
  tx_inv w P q -> q_fly q = i :: L ->
  (forall a, range (q_desc q 0) 16 a -> ~ nic_owns (w_hw w) a) ->
  tx_inv w P (q_pop q).
Proof.
  intros [Hp [Hn Hc Hl Hd Hdj] Hst Hmq Hmd Hfly Hnd [] [Hr1 Hr2 Hr3] Hds Hdn] Hf Hown.
  pose proof (ring_size_bounds _ Hn) as Hnb.
  pose proof (q_pop_len q i L Hf) as Hl'. pose proof (q_len_nonneg q).
  assert (forall k, q_desc (q_pop q) k = q_desc q (k + 1)) as Hdesc.
  { intros k. unfold q_desc. by rewrite q_pop_slot. }
  assert (q_len q = q_len (q_pop q) + 1) as Hll by lia.
  split; try done.
  - split; try done; [|rewrite Hl'; cbn; lia]. apply slot_bound. cbn. lia.
  - destruct Hst as [H5 H6 H7 H8]. split; [done|done|by rewrite (q_pop_tx q i L)|].
    cbn. rewrite Hf. intros k j Hk. unfold q_va. rewrite q_pop_slot.
    replace (Z.of_nat k + 1) with (Z.of_nat (S k)) by lia. apply H8. by rewrite Hf.
  - cbn. rewrite Hf in *. by apply Forall_cons in Hfly as [_ ?].
  - cbn. rewrite Hf in *. cbn in Hnd. by apply NoDup_cons in Hnd as [_ ?].
  - split; [done|done|]. intros k a Hk Ha. rewrite Hdesc in Ha.
    change (q_n (q_pop q)) with (q_n q) in Hk.
    destruct (decide (k + 1 = q_n q)) as [He|He].
    + apply Hown. revert Ha. unfold q_desc, q_slot, slot. rewrite He.
      replace (q_clean q + q_n q) with (q_clean q + 0 + 1 * q_n q) by lia.
      by rewrite Z.mod_add by lia.
    + apply (Hr3 (k + 1)); [lia|done].
  - intros k Hk. change (q_n (q_pop q)) with (q_n q) in Hk. rewrite Hdesc.
    destruct (decide (k + 1 = q_n q)) as [He|He]; [|apply Hds; lia].
    specialize (Hds 0). revert Hds. unfold q_desc, q_slot, slot. rewrite He.
    replace (q_clean q + q_n q) with (q_clean q + 0 + 1 * q_n q) by lia.
    rewrite Z.mod_add by lia. intros Hds. apply Hds. lia.
  - intros k Hk. rewrite Hdesc. apply Hdn. lia.
Qed.

(** the pool after the entries of [L] were freed in order *)
Definition free_all (L : list Z) P : pool := set_free (p_free P ++ L) P.

Lemma free_all_nil P : free_all [] P = P.
Proof. unfold free_all. rewrite app_nil_r. by destruct P. Qed.

(** One pass of the clean-up loop: the oldest packet's buffer is freed. *)
Lemma tx_inv_clean w P q i L :
  tx_inv w P q -> q_fly q = i :: L ->
  (forall a, range (q_desc q 0) 16 a -> ~ nic_owns (w_hw w) a) ->
  wp (pkt_buf_free (entry P i)) (fun _ w' =>
    tx_inv w' (pool_free i P) (q_pop q) /\ evolve (pool_fp P) w w') never w.
Proof.
  intros Hti Hf Hown. pose proof (tx_inv_pop w P q i L Hti Hf Hown) as Hpop.
  pose proof (ti_fly _ _ _ Hti) as Hfly. pose proof (ti_nodup _ _ _ Hti) as Hnd.
  rewrite Hf in *. apply Forall_cons in Hfly as [Hi _]. cbn in Hnd.
  apply NoDup_cons in Hnd as [Hni Hnd]. rewrite elem_of_app in Hni.
  pose proof (pk_shape _ _ (ti_pool _ _ _ Hti)) as Hs.
  pose proof (free_length_lt P i Hs Hi) as Hl.
  eapply wp_conseq; [apply pkt_buf_free_spec; [apply Hti|done|tauto]|].
  cbn beta. intros _ w' [Hok ->].
  assert (evolve (pool_fp P) w (set_mem
      (st 4 (p_addr P + mp_free_stack + 4 * Z.of_nat (length (p_free P))) i
        (st 4 (p_addr P + mp_free_stack_top) (Z.of_nat (length (p_free P)) + 1) (w_mem w))) w)) as Hev.
  { specialize (Hl ltac:(tauto)).
    clear -Hl. apply evolve_stores; [|apply evolve_stores; [|apply evolve_same]];
      intros b Hb; left; unlayout; unfold range in *; lia. }
  split; [|done]. eapply tx_inv_transfer; [exact Hpop|exact Hev| |done|done|].
  - intros a Ha. pose proof (ti_sep _ _ _ Hti) as [S1 S2 S3 S4].
    apply (pool_fp_bound P a Hs) in Ha. split; [intros [Ha' _]|intros Ha'];
      change (range (q_addr q) (q_size q) a) in Ha' || change (range (q_descs q) (q_ring q) a) in Ha';
      clear -Ha Ha' S1 S2 S3 S4; unfold disj, range in *; lia.
  - cbn. rewrite Hf in *. cbn. rewrite app_assoc. apply NoDup_app.
    split; [done|]. split; [|apply NoDup_singleton].
    intros x Hx ->%list_elem_of_singleton. apply elem_of_app in Hx. tauto.
Qed.

(** The ring after its [n] oldest packets left. *)
Definition q_popn (n : nat) q : txq := Nat.iter n q_pop q.

Lemma q_popn_S n q : q_popn (S n) q = q_popn n (q_pop q).
Proof. apply Nat.iter_succ_r. Qed.

Lemma q_popn_fields n q :
  q_addr (q_popn n q) = q_addr q /\ q_descs (q_popn n q) = q_descs q /\
  q_n (q_popn n q) = q_n q /\ q_fly (q_popn n q) = drop n (q_fly q).
Proof.
  revert q. induction n as [|n IH]; intros q; [done|]. rewrite q_popn_S.
  destruct (IH (q_pop q)) as (-> & -> & -> & ->). split_and!; try done. cbn.
  destruct (q_fly q); [apply drop_nil|done].
Qed.

Lemma q_popn_desc n q k : q_desc (q_popn n q) k = q_desc q (Z.of_nat n + k).
Proof.
  revert q k. induction n as [|n IH]; intros q k; [done|]. rewrite q_popn_S, IH.
  unfold q_desc. rewrite q_pop_slot. cbn. do 3 f_equal. lia.
Qed.

Lemma q_popn_tx n q : (n <= length (q_fly q))%nat -> q_tx (q_popn n q) = q_tx q.
Proof.
  revert q. induction n as [|n IH]; intros q Hn; [done|]. rewrite q_popn_S.
  destruct (q_fly q) as [|i L] eqn:Hf; [cbn in Hn; lia|].
  rewrite IH; [by eapply q_pop_tx|]. cbn. rewrite Hf. cbn in *. lia.
Qed.

Lemma tx_inv_bounds w P q : tx_inv w P q ->
  2 <= q_n q <= 2 ^ 15 /\ 0 <= q_clean q < q_n q /\ 0 <= q_len q < q_n q.
Proof.
  intros Hti. destruct (ti_shape _ _ _ Hti) as [Hn Hc Hl _ _].
  pose proof (ring_size_bounds _ Hn). pose proof (q_len_nonneg q). lia.
Qed.

(** The loop stops at once on an empty ring. *)
Lemma tx_empty w P q : tx_inv w P q -> q_clean q = q_tx q -> q_fly q = [].
Proof.
  intros Hti He. destruct (tx_inv_bounds w P q Hti) as (? & ? & ?).
  assert (0 = q_len q) as Hl0.
  { apply (slot_inj (q_n q) (q_clean q)); [lia|lia|]. rewrite slot_0 by lia. exact He. }
  apply length_zero_iff_nil. unfold q_len in Hl0. lia.
Qed.

Lemma tx_slot_off_pool w P q k a :
  tx_inv w P q -> 0 <= k -> range (q_desc q k) 16 a -> ~ pool_fp P a.
Proof.
  intros Hti Hk Ha Hp. pose proof (ti_sep _ _ _ Hti) as [_ _ S3 S4].
  apply (pool_fp_bound P a (pk_shape _ _ (ti_pool _ _ _ Hti))) in Hp.
  pose proof (q_slot_bound q k (ti_shape _ _ _ Hti)) as Hb. clear -Ha Hp S3 S4 Hb.
  unq. unfold disj, range in *. lia.
Qed.

(** A done descriptor stays done while only the pool is written. *)
Lemma tx_done_stays w w' P q :
  tx_inv w P q -> 0 < q_len q -> dd_set (w_mem w) (q_desc q 0) txd_status = true ->
  evolve (pool_fp P) w w' -> dd_set (w_mem w') (q_desc q 0) txd_status = true.
Proof.
  intros Hti Hl Hdd Hev. rewrite <- Hdd. unfold dd_set. f_equal.
  eapply evolve_ld; [exact Hev|]. intros b Hb.
  assert (range (q_desc q 0) 16 b) as Hb' by (unq; unfold range in *; lia).
  split; [by eapply tx_slot_off_pool|].
  destruct (ti_done _ _ _ Hti 0 ltac:(lia)) as [_ Hown]. by apply Hown.
Qed.

(** One turn of the loop on a ring that is not empty: it stops at a packet that
    is not done, or frees the packet's buffer and goes on. *)
Lemma tx_clean_turn fuel w P q i L Q :
  tx_inv w P q -> q_fly q = i :: L ->
  (forall w1, dma_tick w = Ok tt w1 -> tx_inv w1 P q ->
    dd_set (w_mem w1) (q_desc q 0) txd_status = false -> Q (q_clean q) w1) ->
  (forall w1 w2, dma_tick w = Ok tt w1 -> tx_inv w1 P q ->
    dd_set (w_mem w1) (q_desc q 0) txd_status = true -> evolve (pool_fp P) w1 w2 ->
    tx_inv w2 (pool_free i P) (q_pop q) ->
    wp (tx_clean fuel (q_addr q) (q_tx q) (q_clean (q_pop q))) Q never w2) ->
  wp (tx_clean (S fuel) (q_addr q) (q_tx q) (q_clean q)) Q never w.
Proof.
  intros Hti Hf Hstop Hgo. destruct (tx_inv_bounds w P q Hti) as (Hnb & Hc & Hl).
  pose proof (ts_n _ (ti_shape _ _ _ Hti)) as Hn.
  assert (q_slot q 0 = q_clean q) as Hs0 by (by apply slot_0).
  cbn [tx_clean]. destruct (Z.eqb_spec (q_clean q) (q_tx q)) as [He|He].
  { pose proof (tx_empty w P q Hti He). congruence. }
  apply wp_bind, wp_load. { eapply mapped_sub; [apply (ti_map_q _ _ _ Hti)|unq; lia|unq; lia]. }
  rewrite (tm_descs _ _ _ (ti_struct _ _ _ Hti)).
  apply wp_bind, wp_vload_tick.
  { eapply mapped_sub; [apply (ti_map_d _ _ _ Hti)|unq; lia|unq; lia]. }
  intros w1 Ht1. pose proof (tx_inv_tick _ _ _ _ Hti (evolve_tick _ _ _ Ht1)) as Hti1.
  replace (q_descs q + q_clean q * sizeof_adv_tx_desc) with (q_desc q 0) by (unfold q_desc; by rewrite Hs0).
  change IXGBE_ADVTXD_STAT_DD with (2 ^ 0). rewrite land_pow2_testbit by lia.
  change (Z.testbit (ld 4 (w_mem w1) (q_desc q 0 + txd_status)) 0)
    with (dd_set (w_mem w1) (q_desc q 0) txd_status).
  destruct (dd_set (w_mem w1) (q_desc q 0) txd_status) eqn:Hdd; cbn [negb]; [|by apply wp_ret, Hstop].
  pose proof (tm_va _ _ _ (ti_struct _ _ _ Hti1) 0%nat i) as Hva. rewrite Hf in Hva.
  specialize (Hva eq_refl). change (Z.of_nat 0) with 0 in Hva. unfold q_va in Hva. rewrite Hs0 in Hva.
  apply wp_bind, wp_load. { eapply mapped_sub; [apply (ti_map_q _ _ _ Hti1)|unq; lia|unq; lia]. }
  rewrite Hva. apply wp_bind. eapply wp_conseq.
  { apply (tx_inv_clean w1 P q i L Hti1 Hf). apply (ti_done _ _ _ Hti1 0); [|done].
    unfold q_len. rewrite Hf. cbn. lia. }
  cbn beta. intros [] w2 [Hti2 Hev2]. apply wp_bind, wp_load.
  { eapply mapped_sub; [apply (ti_map_q _ _ _ Hti2)|unq; cbn; lia|unq; cbn; lia]. }
  pose proof (tm_n _ _ _ (ti_struct _ _ _ Hti2)) as Hnn. cbn in Hnn. rewrite Hnn.
  rewrite <- Hs0. unfold q_slot at 1. rewrite slot_inc by done.
  by apply (Hgo w1 w2).
Qed.

(** The clean-up loop frees, in order, the buffers of the longest prefix of
    the in-flight packets whose descriptors are done. *)
Lemma tx_clean_spec fuel w P q :
  tx_inv w P q -> q_len q < Z.of_nat fuel ->
  wp (tx_clean fuel (q_addr q) (q_tx q) (q_clean q)) (fun c w' =>
    exists n, (n <= length (q_fly q))%nat /\ c = q_clean (q_popn n q) /\
      tx_inv w' (free_all (take n (q_fly q)) P) (q_popn n q) /\ evolve (pool_fp P) w w' /\
      (forall k, 0 <= k < Z.of_nat n -> dd_set (w_mem w') (q_desc q k) txd_status = true) /\
      (n = length (q_fly q) \/
       dd_set (w_mem w') (q_desc q (Z.of_nat n)) txd_status = false) /\
      (q_fly q <> [] -> exists wt, dma_tick w = Ok tt wt /\ evolve (pool_fp P) wt w')) never w.
Proof.
  revert w P q. induction fuel as [|fuel IH]; intros w P q Hti Hfuel.
  { pose proof (q_len_nonneg q). lia. }
  destruct (q_fly q) as [|i L] eqn:Hf.
  { destruct (tx_inv_bounds w P q Hti) as (_ & Hc & _).
    assert (q_clean q = q_tx q) as He by (unfold q_tx, q_len; rewrite Hf; symmetry; by apply slot_0).
    cbn [tx_clean]. rewrite (proj2 (Z.eqb_eq _ _) He). apply wp_ret.
    exists O. cbn. rewrite free_all_nil. split_and!; try done; [lia|by left]. }
  apply (tx_clean_turn fuel w P q i L); [done|done| |].
  { intros w1 Ht1 Hti1 Hdd. exists O. cbn. rewrite free_all_nil.
    split_and!; try done; [lia|by apply evolve_tick|lia|by right|by exists w1]. }
  intros w1 w2 Ht1 Hti1 Hdd Hev2 Hti2. rewrite <- (q_pop_tx q i L) by done. change (q_addr q) with (q_addr (q_pop q)).
  eapply wp_conseq; [apply (IH w2 (pool_free i P) (q_pop q) Hti2); rewrite (q_pop_len q i L) by done; lia|].
  cbn beta. intros c w' (n & Hle & -> & Hti' & Hev' & Hddk & Hstop & _).
  exists (S n). rewrite q_popn_S. cbn [q_pop q_fly] in *. rewrite Hf in *. cbn [tail] in *.
  assert (forall k, q_desc (q_pop q) k = q_desc q (k + 1)) as Hdesc.
  { intros k. unfold q_desc. by rewrite q_pop_slot. }
  split_and!.
  - cbn. lia.
  - done.
  - unfold free_all, pool_free in *. cbn in *. by rewrite <- app_assoc in Hti'.
  - etransitivity; [by apply evolve_tick|]. by etransitivity.
  - intros k Hk. destruct (decide (k = 0)) as [->|].
    + eapply tx_done_stays; [exact Hti1|unfold q_len; rewrite Hf; cbn; lia|done|]. by etransitivity.
    + replace k with (k - 1 + 1) by lia. rewrite <- Hdesc. apply Hddk. lia.
  - destruct Hstop as [->|Hs]; [by left|right]. rewrite Hdesc in Hs. rewrite <- Hs. do 2 f_equal. lia.
  - intros _. exists w1. split; [done|]. by etransitivity.
Qed.

(** *** Sending *)

(** what the device reads from a filled descriptor *)
Record tx_desc_filled (m : mem) (d : Z) (phy size : Z) : Prop := {
  df_addr : ld 8 m (d + txd_buffer_addr) = u64 (phy + pb_data);
  df_cmd : ld 4 m (d + txd_cmd_type_len) = tx_cmd_type_len size;
  df_len : ld 4 m (d + txd_olinfo_status) = u32 (Z.shiftl size IXGBE_ADVTXD_PAYLEN_SHIFT)
}.

Lemma u32_tx_cmd size : 0 <= tx_cmd_type_len size < 2 ^ 32.
Proof. apply u32_range. Qed.

(** the header fields that are read stay the same while the descriptor is written *)
Lemma tx_buf_kept w w1 d buf n o :
  mapped (w_mem w) buf pb_data = true -> disj buf pb_data d 16 ->
  (forall a, range buf (pb_size + 4) a -> ~ nic_owns (w_hw w) a) -> evolve (range d 16) w w1 ->
  0 <= o -> o + Z.of_nat n <= pb_size + 4 ->
  mapped (w_mem w1) (buf + o) (Z.of_nat n) = true /\ ld n (w_mem w1) (buf + o) = ld n (w_mem w) (buf + o).
Proof.
  intros Hm Hdj Hob Hev ??. split.
  - rewrite (evolve_mapped _ _ _ _ _ Hev). eapply mapped_sub; [exact Hm|lia|unlayout; lia].
  - eapply evolve_ld; [exact Hev|]. intros b Hb.
    assert (range buf (pb_size + 4) b) as Hr by (unfold range in *; lia). split; [|by apply Hob].
    intros Hx. clear -Hdj Hx Hr. unlayout. unfold disj, range in *. lia.
Qed.

Lemma fill_tx_desc_spec w d buf phy size :
  mapped (w_mem w) buf pb_data = true -> own_slot w d -> disj buf pb_data d 16 ->
  (forall a, range buf (pb_size + 4) a -> ~ nic_owns (w_hw w) a) ->
  ld 8 (w_mem w) (buf + pb_buf_addr_phy) = phy -> ld 4 (w_mem w) (buf + pb_size) = size ->
  wp (fill_tx_desc d buf) (fun _ w' => evolve (range d 16) w w' /\
      tx_desc_filled (w_mem w') d phy size) never w.
Proof.
  intros Hmb Hs Hdj Hob Hphy Hsz. unfold fill_tx_desc.
  pose proof (fun w1 => tx_buf_kept w w1 d buf 8 pb_buf_addr_phy Hmb Hdj Hob) as Kphy.
  pose proof (fun w1 => tx_buf_kept w w1 d buf 4 pb_size Hmb Hdj Hob) as Ksize. rewrite Hphy in Kphy. rewrite Hsz in Ksize.
  apply wp_bind, wp_load; [apply Kphy; [done|unlayout; lia..]|]. rewrite Hphy.
  apply wp_bind, wp_slot_store; [done|unq; lia|unq; lia|]. intros w1 Hs1 E1 L1.
  assert (evolve (range d 16) w w1) as E01 by (eapply evolve_mono, E1; unq; unfold range; lia).
  destruct (Ksize w1 E01) as [Hm1 Hl1]; [unlayout; lia..|].
  apply wp_bind, wp_load; [exact Hm1|]. rewrite Hl1.
  apply wp_bind, wp_slot_store; [done|unq; lia|unq; lia|]. intros w2 Hs2 E2 L2.
  assert (evolve (range d 16) w w2) as E02.
  { etransitivity; [exact E01|]. eapply evolve_mono, E2. unq. unfold range. lia. }
  destruct (Ksize w2 E02) as [Hm2 Hl2]; [unlayout; lia..|].
  apply wp_bind, wp_load; [exact Hm2|]. rewrite Hl2.
  apply wp_slot_store; [done|unq; lia|unq; lia|]. intros w3 Hs3 E3 L3. split.
  - etransitivity; [exact E02|]. eapply evolve_mono, E3. unq. unfold range. lia.
  - split.
    + rewrite (own_slot_ld _ _ _ d 8 _ Hs2 E3), (own_slot_ld _ _ _ d 8 _ Hs1 E2), L1
        by (unq; unfold range; lia). apply Z.mod_small, u64_range.
    + rewrite (own_slot_ld _ _ _ d 4 _ Hs2 E3), L2 by (unq; unfold range; lia). apply Z.mod_small, u32_tx_cmd.
    + rewrite L3. apply Z.mod_small, u32_range.
Qed.

Lemma q_push_len i q : q_len (q_push i q) = q_len q + 1.
Proof. unfold q_len, q_push; cbn. rewrite length_app. cbn. lia. Qed.

(** The queue structure after the packet's address and the index are stored. *)
Lemma tx_struct_push m P q i :
  tx_shape q -> tx_struct m P q -> q_len q + 1 < q_n q -> 0 < entry P i < 2 ^ 64 ->
  tx_struct (st 2 (q_addr q + txq_tx_index) (q_tx (q_push i q))
               (st 8 (q_va q (q_len q)) (entry P i) m)) P (q_push i q).
Proof.
  intros Hsh [H5 H6 H7 H8] Hl Hi. pose proof (ring_size_bounds _ (ts_n _ Hsh)) as Hn.
  pose proof (q_len_nonneg q) as Hl0.
  assert (forall k, 0 <= q_slot q k < q_n q) as Hsl by (intros; by apply q_slot_bound).
  pose proof (Hsl (q_len q)) as Hslen.
  split; cbn [q_push q_addr q_descs q_n q_clean q_fly].
  - rewrite !ld_st_out by (unq; lia). done.
  - rewrite !ld_st_out by (unq; lia). done.
  - rewrite ld_st_eq. apply Z.mod_small. pose proof (Hsl (q_len (q_push i q))) as Ht.
    change (0 <= q_tx (q_push i q) < q_n q) in Ht. change (2 ^ (8 * Z.of_nat 2)) with (2 ^ 16). lia.
  - intros k j Hk. change (q_va (q_push i q)) with (q_va q).
    rewrite ld_st_out by (pose proof (Hsl (Z.of_nat k)); unq; lia).
    apply lookup_app_Some in Hk as [Hk|[Hk Hj]].
    + apply lookup_lt_Some in Hk as Hlt. rewrite ld_st_out; [by apply H8|].
      assert (q_slot q (Z.of_nat k) <> q_slot q (q_len q)) as Hne.
      { intros He%slot_inj; unfold q_len in *; lia. }
      unfold q_va. lia.
    + apply list_lookup_singleton_Some in Hj as [Hk0 <-].
      replace (Z.of_nat k) with (q_len q) by (unfold q_len; lia).
      rewrite ld_st_eq. apply Z.mod_small. change (8 * Z.of_nat 8) with 64. lia.
Qed.

Lemma tx_slot_sep q j k a :
  tx_shape q -> 0 <= j < q_n q -> 0 <= k < q_n q -> j <> k ->
  range (q_desc q j) 16 a -> ~ range (q_desc q k) 16 a.
Proof.
  intros Hsh Hj Hk Hne. assert (q_slot q j <> q_slot q k) as Hs.
  { intros He%slot_inj; lia. }
  unfold q_desc, sizeof_adv_tx_desc, range. lia.
Qed.

(** a freshly filled descriptor is not marked done *)
Lemma filled_not_done m d phy size :
  tx_desc_filled m d phy size -> dd_set m d txd_status = false.
Proof.
  intros [_ _ Hd]. unfold dd_set. change txd_status with txd_olinfo_status. rewrite Hd.
  unfold u32. rewrite Z.mod_pow2_bits_low by lia. by rewrite Z.shiftl_spec_low by done.
Qed.

Lemma tx_desc_in_ring q k a : tx_shape q -> range (q_desc q k) 16 a -> range (q_descs q) (q_ring q) a.
Proof. intros Hsh Ha. pose proof (q_slot_bound q k Hsh). unq. unfold range in *. lia. Qed.

(** The tail register gives the device at most the filled descriptor. *)
Section pushed.
Context (w w1 : world H) P q (i reg v : Z).
Hypotheses (Hti : tx_inv w P q) (Hl : q_len q + 1 < q_n q)
  (Hev : evolve (fun a => range (q_addr q) (q_size q) a \/ range (q_desc q (q_len q)) 16 a) w w1)
  (Hgr : forall a, grants (w_hw w1) reg v a -> range (q_desc q (q_len q)) 16 a).

Lemma tx_private_pushed : tx_private (mmio_write reg v (w_hw w1)) P (q_push i q).
Proof.
  pose proof (ti_shape _ _ _ Hti) as Hsh. pose proof (ti_private _ _ _ Hti) as Hpr.
  pose proof (q_len_nonneg q) as Hl0. pose proof (q_push_len i q) as Hpl.
  assert (forall a, nic_owns (mmio_write reg v (w_hw w1)) a ->
    nic_owns (w_hw w) a \/ range (q_desc q (q_len q)) 16 a) as Hown.
  { intros a [Ha|Ha]%mmio_write_own; [left; by eapply evolve_own|right; by apply Hgr]. }
  split.
  - intros a [Ha|Ha]%Hown; [by apply (tp_pool _ _ _ Hpr)|]. by eapply tx_slot_off_pool.
  - intros a [Ha|Ha]%Hown; [by apply (tp_queue _ _ _ Hpr)|]. apply tx_desc_in_ring in Ha; [|done].
    pose proof (ts_disj _ Hsh) as Hd. clear -Ha Hd. cbn.
    change (q_size (q_push i q)) with (q_size q). unfold disj, range in *. lia.
  - intros k a Hk Ha [Hn|Hn]%Hown; rewrite Hpl in Hk; cbn in Hk.
    + by eapply (tp_slots _ _ _ Hpr k a); [lia|exact Ha|].
    + eapply (tx_slot_sep q (q_len q) k a Hsh); [lia|lia|lia|exact Hn|exact Ha].
Qed.

Lemma tx_done_pushed k : 0 <= k < q_len q ->
  dd_owned (set_hw (mmio_write reg v (w_hw w1)) w1) (q_desc q k) txd_status.
Proof.
  intros Hk. pose proof (ti_shape _ _ _ Hti) as Hsh.
  assert (dd_owned w1 (q_desc q k) txd_status) as [Hda Hdd].
  { eapply dd_owned_evolve; [unq; lia|unq; lia| |exact Hev|by apply (ti_done _ _ _ Hti)].
    intros a Ha [Hq|Hq].
    - apply tx_desc_in_ring in Ha; [|done]. pose proof (ts_disj _ Hsh) as Hd.
      clear -Hq Ha Hd. unfold disj, range in *. lia.
    - eapply (tx_slot_sep q k (q_len q) a Hsh); [lia|lia|lia|exact Ha|exact Hq]. }
  split; [by apply desc_at_write|]. cbn. intros Hdk a Ha [Hn|Hn]%mmio_write_own.
  - by eapply Hdd.
  - apply Hgr in Hn. eapply (tx_slot_sep q k (q_len q) a Hsh); [lia|lia|lia|exact Ha|exact Hn].
Qed.
End pushed.

(** The invariant once the tail register has been written. *)
Lemma tx_inv_pushed w w1 P q i phy size reg v :
  tx_inv w P q -> 0 <= i < p_num P -> i ∉ q_fly q ++ p_free P -> q_len q + 1 < q_n q ->
  evolve (fun a => range (q_addr q) (q_size q) a \/ range (q_desc q (q_len q)) 16 a) w w1 ->
  tx_struct (w_mem w1) P (q_push i q) ->
  tx_desc_filled (w_mem w1) (q_desc q (q_len q)) phy size ->
  (forall a, grants (w_hw w1) reg v a -> range (q_desc q (q_len q)) 16 a) ->
  tx_inv (set_hw (mmio_write reg v (w_hw w1)) w1) P (q_push i q).
Proof.
  intros Hti Hi Hni Hl Hev Hst Hfill Hgr.
  pose proof Hti as [Hp Hsh _ Hmq Hmd Hfly Hnd Hsep Hpr Hds _].
  pose proof (q_len_nonneg q) as Hl0. pose proof (q_push_len i q) as Hpl.
  pose proof (evolve_changes _ _ _ Hev) as [[Hreg Hrd] Hhw _].
  split; cbn [set_hw w_mem w_hw]; try done.
  - eapply pool_ok_frame; [|exact Hreg|exact Hp]. intros a Ha. apply Hrd. intros [[Hq|Hq]|Hq].
    + apply (pool_fp_bound P a (pk_shape _ _ Hp)) in Ha.
      destruct Hsep as [S1 S2 _ _]. clear -Ha Hq S1 S2. unfold disj, range in *. lia.
    + by eapply (tx_slot_off_pool w P q (q_len q) a).
    + by apply (tp_pool _ _ _ Hpr) in Hq.
  - destruct Hsh. split; try done. rewrite Hpl. cbn. lia.
  - change (mapped (w_mem w1) (q_addr q) (q_size q) = true). by rewrite (evolve_mapped _ _ _ _ _ Hev).
  - change (mapped (w_mem w1) (q_descs q) (q_ring q) = true). by rewrite (evolve_mapped _ _ _ _ _ Hev).
  - cbn. apply Forall_app. split; [done|]. by apply Forall_singleton.
  - cbn. rewrite <- app_assoc. apply NoDup_app in Hnd as (Hn1 & Hn2 & Hn3).
    rewrite elem_of_app in Hni. apply NoDup_app. split; [done|]. split.
    + intros x Hx [->|Hxf]%elem_of_cons; [tauto|by eapply Hn2].
    + apply NoDup_cons. tauto.
  - by destruct Hsep.
  - by apply (tx_private_pushed w w1 P q i reg v).
  - intros k Hk. apply desc_at_write. by eapply hw_steps_desc, Hds.
  - intros k Hk. rewrite Hpl in Hk. change (q_desc (q_push i q)) with (q_desc q).
    destruct (decide (k = q_len q)) as [->|]; [|by apply (tx_done_pushed w w1 P q reg v); [..|lia]].
    split; [apply desc_at_write; eapply hw_steps_desc, Hds; [done|lia]|].
    cbn. by rewrite (filled_not_done _ _ _ _ Hfill).
Qed.

(** [buf] may be sent: it is entry [i] of the pool, not free, not in flight,
    and the device has no business in its length field. *)
Record sendable w P q i : Prop := {
  sd_entry : 0 <= i < p_num P;
  sd_fresh : i ∉ q_fly q ++ p_free P;
  sd_size : forall a, range (entry P i + pb_size) 4 a -> ~ nic_owns (w_hw w) a
}.

Definition pkt_size w P i : Z := ld 4 (w_mem w) (entry P i + pb_size).

(** Outcome of sending entry [i]: the descriptor is filled, then the tail
    register is written, and the packet is in flight. *)
Record tx_sent dev queue_id w P q i w' : Prop := {
  sn_inv : tx_inv w' P (q_push i q);
  sn_desc : tx_desc_filled (w_mem w') (q_desc q (q_len q)) (entry_phy P i) (pkt_size w P i);
  sn_tail : exists w3, evolve (fun a => tx_fp q a \/ range (q_desc q (q_len q)) 16 a) w w3 /\
    w' = set_hw (mmio_write (addr dev + IXGBE_TDT queue_id) (q_tx (q_push i q)) (w_hw w3)) w3;
  sn_frame : agree_off (fun a => tx_fp q a \/
    range (q_desc q (q_len q)) 16 a \/ nic_owns (w_hw w) a) (w_mem w) (w_mem w')
}.

(** an idle descriptor is the driver's *)
Lemma tx_slot_own w P q k : tx_inv w P q -> q_len q <= k < q_n q -> own_slot w (q_desc q k).
Proof.
  intros Hti Hk. pose proof (q_slot_bound q k (ti_shape _ _ _ Hti)). split.
  - eapply mapped_sub; [apply (ti_map_d _ _ _ Hti)|unq; lia|unq; lia].
  - intros a Ha Ho. by eapply (tp_slots _ _ _ (ti_private _ _ _ Hti) k).
Qed.

(** The packet enters the queue structure: its address and the next index are
    stored, and the descriptor ring is found again. *)
Lemma tx_enter_spec {B} w P q i (K : Z -> M (world H) B) Q E :
  tx_inv w P q -> 0 <= i < p_num P -> q_len q + 1 < q_n q ->
  (forall w2, tx_struct (w_mem w2) P (q_push i q) -> evolve (tx_fp q) w w2 -> wp (K (q_descs q)) Q E w2) ->
  wp (store 8 (q_addr q + txq_virtual_addresses + 8 * q_tx q) (entry P i) ;;
      tx_index ← load 2 (q_addr q + txq_tx_index);
      n ← load 2 (q_addr q + txq_num_entries);
      store 2 (q_addr q + txq_tx_index) (inc_and_wrap_ring tx_index n) ;;
      descs ← load 8 (q_addr q + txq_descriptors); K descs) Q E w.
Proof.
  intros Hti Hi Hl HK. pose proof Hti as [Hp Hsh Hst Hmq _ _ _ _ _ _ _]. pose proof (ts_n _ Hsh) as Hn.
  destruct (tx_inv_bounds w P q Hti) as (Hnb & Hc & Hl0).
  pose proof (q_slot_bound q (q_len q) Hsh) as Hsl. fold (q_tx q) in Hsl.
  assert (forall o n, 0 <= o -> o + n <= q_size q -> mapped (w_mem w) (q_addr q + o) n = true) as Mq.
  { intros. eapply mapped_sub; [exact Hmq|lia|lia]. }
  assert (inc_and_wrap_ring (q_tx q) (q_n q) = q_tx (q_push i q)) as Hinc.
  { unfold q_tx, q_slot. rewrite slot_inc by done. cbn. by rewrite q_push_len. }
  apply wp_bind, wp_store. { rewrite <- Z.add_assoc. apply Mq; unq; lia. }
  change (q_addr q + txq_virtual_addresses + 8 * q_tx q) with (q_va q (q_len q)).
  pose proof Hsl as Hsl'. unfold q_tx in Hsl'.
  apply wp_bind, wp_load; cbn [set_mem w_mem]; rewrite ?mapped_st; [apply Mq; unq; lia|].
  rewrite ld_st_out by (unq; lia). rewrite (tm_tx _ _ _ Hst).
  apply wp_bind, wp_load; cbn [set_mem w_mem]; rewrite ?mapped_st; [apply Mq; unq; lia|].
  rewrite ld_st_out by (unq; lia). rewrite (tm_n _ _ _ Hst), Hinc.
  apply wp_bind, wp_store; cbn [set_mem w_mem]; rewrite ?mapped_st; [apply Mq; unq; lia|].
  set (m2 := st 2 _ _ _). change (set_mem m2 _) with (set_mem m2 w).
  assert (tx_struct m2 P (q_push i q)) as Hst2.
  { apply tx_struct_push; [done..|]. by apply entry_size64; [apply Hp|]. }
  assert (evolve (tx_fp q) w (set_mem m2 w)) as E2.
  { apply evolve_stores; [unfold tx_fp; unq; unfold range; lia|].
    apply evolve_stores; [unfold tx_fp; unq; unfold range; lia|apply evolve_same]. }
  apply wp_bind, wp_load. { rewrite (evolve_mapped _ _ _ _ _ E2). apply Mq; unq; lia. }
  pose proof (tm_descs _ _ _ Hst2) as Hdescs. cbn [q_push q_addr q_descs] in Hdescs.
  cbn [set_mem w_mem]. rewrite Hdescs. by apply HK.
Qed.

(** Its descriptor is filled from the buffer's header. *)
Lemma tx_fill_spec w w2 P q i :
  tx_inv w P q -> sendable w P q i -> q_len q + 1 < q_n q ->
  tx_struct (w_mem w2) P (q_push i q) -> evolve (tx_fp q) w w2 ->
  wp (fill_tx_desc (q_desc q (q_len q)) (entry P i)) (fun _ w3 =>
    evolve (fun a => tx_fp q a \/ range (q_desc q (q_len q)) 16 a) w w3 /\
    tx_struct (w_mem w3) P (q_push i q) /\
    tx_desc_filled (w_mem w3) (q_desc q (q_len q)) (entry_phy P i) (pkt_size w P i)) never w2.
Proof.
  intros Hti [Hi Hni Hszown] Hl Hst2 E2. pose proof Hti as [Hp Hsh _ _ Hmd _ _ [_ S2 _ S4] Hpr _ _].
  pose proof (q_len_nonneg q) as Hl0. pose proof (q_slot_bound q (q_len q) Hsh) as Hsl.
  pose proof (pk_shape _ _ Hp) as Hps. pose proof (entry_bound P i Hps Hi) as Heb. pose proof (ps_bufsz _ Hps) as Hbs.
  assert (forall b, range (entry P i) (pb_size + 4) b -> ~ nic_owns (w_hw w) b) as Hbuf.
  { intros b Hb Ho. destruct (decide (entry P i + pb_size <= b)) as [Hge|Hlt].
    - eapply Hszown; [|exact Ho]. unfold range in *. lia.
    - apply (tp_pool _ _ _ Hpr) in Ho. apply Ho. right. exists i. split; [done|]. unfold range in *. lia. }
  assert (forall n o, 0 <= o -> o + Z.of_nat n <= pb_size + 4 ->
    ld n (w_mem w2) (entry P i + o) = ld n (w_mem w) (entry P i + o)) as Hb2.
  { intros n o ??. eapply evolve_ld; [exact E2|]. intros b Hb.
    split; [|apply Hbuf; unfold range in *; lia].
    clear -Hb S2 Heb Hbs H3 H4. unlayout. unfold tx_fp, disj, range in *. lia. }
  eapply wp_conseq; [apply (fill_tx_desc_spec w2 _ _ (entry_phy P i) (pkt_size w P i))|].
  - rewrite (evolve_mapped _ _ _ _ _ E2).
    eapply mapped_sub; [apply (pk_map_bufs _ _ Hp)|unlayout; lia|unlayout; lia].
  - eapply own_slot_evolve, E2. apply (tx_slot_own w P q); [done|lia].
  - clear -S4 Heb Hbs Hsl. unq. unlayout. unfold disj in *. lia.
  - intros b Hb Ho. eapply Hbuf; [exact Hb|]. by eapply evolve_own.
  - rewrite Hb2 by (unlayout; lia). apply (ho_phy _ _ _ (pk_hdr _ _ Hp i Hi)).
  - apply Hb2; unlayout; lia.
  - cbn beta. intros _ w3 [E3 Hfill]. split; [|split; [|done]].
    + etransitivity; [eapply evolve_mono, E2|eapply evolve_mono, E3]; auto.
    + eapply tx_struct_evolve; [|exact Hst2|exact E3| |].
      * destruct Hsh. split; try done. rewrite q_push_len. cbn. lia.
      * intros a Ha [Hq _]. pose proof (ts_disj _ Hsh) as Hd. cbn in Hq.
        change (q_size (q_push i q)) with (q_size q) in Hq. clear -Ha Hq Hd Hsl. unq. unfold disj, range in *. lia.
      * intros a Ha. apply (tp_queue _ _ _ Hpr). by eapply evolve_own.
Qed.

Lemma tx_send_spec dev queue_id w P q i :
  tx_inv w P q -> sendable w P q i -> q_len q + 1 < q_n q ->
  (forall h a, rtc hw_step (w_hw w) h ->
    grants h (addr dev + IXGBE_TDT queue_id) (q_tx (q_push i q)) a ->
    range (q_desc q (q_len q)) 16 a) ->
  wp (tx_send dev queue_id (q_addr q) (q_tx q) (entry P i))
    (fun r w' => r = 1 /\ tx_sent dev queue_id w P q i w') never w.
Proof.
  intros Hti Hsd Hl Hgr. destruct (tx_inv_bounds w P q Hti) as (Hnb & Hc & Hl0).
  unfold tx_send. apply (tx_enter_spec w P q i); [done|apply Hsd|done|]. intros w2 Hst2 E2.
  change (q_descs q + q_tx q * sizeof_adv_tx_desc) with (q_desc q (q_len q)). apply wp_bind.
  eapply wp_conseq; [by apply (tx_fill_spec w w2 P q i)|]. cbn beta. intros _ w3 (E03 & Hst3 & Hfill).
  apply wp_bind, wp_load.
  { rewrite (evolve_mapped _ _ _ _ _ E03). eapply mapped_sub; [apply (ti_map_q _ _ _ Hti)|unq; lia|unq; lia]. }
  pose proof (tm_tx _ _ _ Hst3) as Htx. cbn [q_push q_addr] in Htx. rewrite Htx.
  change (q_tx _) with (q_tx (q_push i q)).
  pose proof (evolve_changes _ _ _ E03) as [[Hreg Hrd] Hhw _].
  assert (0 <= q_tx (q_push i q) < q_n q) as Htxb by (by apply (slot_bound (q_n q)); lia).
  apply wp_bind, wp_mmio_set, wp_ret. rewrite u32_small by lia. split; [done|].
  split; [|exact Hfill| |].
  - eapply tx_inv_pushed; [exact Hti|apply Hsd|apply Hsd|done| |done|exact Hfill|].
    + eapply evolve_mono, E03. intros a [[Ha _]|Ha]; [by left|by right].
    + intros a. by apply Hgr.
  - by exists w3.
  - split; [exact Hreg|]. intros a Ha. apply Hrd. tauto.
Qed.

(** *** The whole function *)

(** The representation between calls: [clean_index] is in memory again. *)
Definition tx_ok w P q : Prop :=
  tx_inv w P q /\ ld 2 (w_mem w) (q_addr q + txq_clean_index) = q_clean q.

(** clean_index is the driver's *)
Lemma tx_clean_kept F w w' P q : tx_inv w P q -> evolve F w w' ->
  (forall a, F a -> ~ range (q_addr q) (q_size q) a) ->
  ld 2 (w_mem w') (q_addr q + txq_clean_index) = ld 2 (w_mem w) (q_addr q + txq_clean_index).
Proof.
  intros Hti Hev HF. pose proof (tx_inv_bounds w P q Hti) as (Hn & _). eapply evolve_ld; [exact Hev|]. intros b Hb.
  assert (range (q_addr q) (q_size q) b) as Hr by (unq; unfold range in *; lia).
  split; [intros Hx; by apply HF in Hx|intros Hx; by apply (tp_queue _ _ _ (ti_private _ _ _ Hti)) in Hx].
Qed.

(** [n] is the number of oldest in-flight packets marked done in [m]. *)
Definition done_prefix (m : mem) q (n : nat) : Prop :=
  (n <= length (q_fly q))%nat /\
  (forall k, 0 <= k < Z.of_nat n -> dd_set m (q_desc q k) txd_status = true) /\
  (n = length (q_fly q) \/ dd_set m (q_desc q (Z.of_nat n)) txd_status = false).

Lemma q_popn_size n q : q_size (q_popn n q) = q_size q.
Proof. unfold q_size. by destruct (q_popn_fields n q) as (_ & _ & -> & _). Qed.

Lemma q_popn_len n q : (n <= length (q_fly q))%nat -> q_len (q_popn n q) = q_len q - Z.of_nat n.
Proof.
  intros Hn. unfold q_len. destruct (q_popn_fields n q) as (_ & _ & _ & ->).
  rewrite length_drop. lia.
Qed.

(** What the first step leaves: the done prefix is back in the pool. *)
Record tx_cleaned w P q n w1 : Prop := {
  cl_prefix : done_prefix (w_mem w1) q n;
  cl_ok : tx_ok w1 (free_all (take n (q_fly q)) P) (q_popn n q);
  cl_evolve : evolve (fun a => pool_fp P a \/ range (q_addr q) (q_size q) a) w w1;
  (* unless nothing was in flight, the device acted before the first look *)
  cl_tick : q_fly q <> [] -> exists wt, dma_tick w = Ok tt wt /\
    evolve (fun a => pool_fp P a \/ range (q_addr q) (q_size q) a) wt w1
}.

(** Storing clean_index changes nothing but clean_index. *)
Lemma tx_store_clean w P q c :
  tx_inv w P q -> 0 <= c < 2 ^ 16 ->
  let w' := set_mem (st 2 (q_addr q + txq_clean_index) c (w_mem w)) w in
  tx_inv w' P q /\ ld 2 (w_mem w') (q_addr q + txq_clean_index) = c /\
  evolve (range (q_addr q) (q_size q)) w w' /\
  (forall k, dd_set (w_mem w') (q_desc q k) txd_status = dd_set (w_mem w) (q_desc q k) txd_status).
Proof.
  intros Hti Hc w'. destruct (tx_inv_bounds w P q Hti) as (Hnb & _ & _).
  pose proof (ts_disj _ (ti_shape _ _ _ Hti)) as Hdj. set (F := range (q_addr q + txq_clean_index) 2).
  assert (evolve F w w') as Hev by (by apply evolve_store).
  assert (forall a, F a -> range (q_addr q) (q_size q) a) as HF by (unfold F; unq; unfold range; lia).
  split_and!.
  - eapply tx_inv_transfer; [exact Hti|exact Hev| | |by destruct P|apply Hti].
    + intros a Ha. unfold tx_fp. split; [tauto|]. apply HF in Ha. clear -Ha Hdj. unfold disj, range in *. lia.
    + eapply pool_ok_frame; [|symmetry; apply regions_st|apply Hti].
      intros a Ha. symmetry. apply rd_st_out. intros Hin%HF.
      apply (pool_fp_bound P a (pk_shape _ _ (ti_pool _ _ _ Hti))) in Ha.
      destruct (ti_sep _ _ _ Hti) as [S1 S2 _ _]. clear -Ha Hin S1 S2. unfold disj, range in *. lia.
  - unfold w'. cbn. rewrite ld_st_eq. by apply Z.mod_small.
  - by eapply evolve_mono, Hev.
  - intros k. symmetry. apply dd_set_ext. intros a Ha. symmetry. apply rd_st_out. intros Hin%HF.
    pose proof (q_slot_bound q k (ti_shape _ _ _ Hti)) as Hb. clear -Ha Hin Hdj Hb. unq. unfold disj, range in *. lia.
Qed.

Lemma tx_clean_up_spec w P q :
  tx_ok w P q ->
  wp (tx_clean_up (q_addr q))
    (fun r w1 => exists n, r = (q_clean (q_popn n q), q_tx q) /\ tx_cleaned w P q n w1) never w.
Proof.
  intros [Hti Hcl]. pose proof (tx_inv_bounds w P q Hti) as (Hnb & Hc & Hl0).
  assert (forall o n, 0 <= o -> o + n <= q_size q -> mapped (w_mem w) (q_addr q + o) n = true) as Mq.
  { intros. eapply mapped_sub; [apply (ti_map_q _ _ _ Hti)|lia|lia]. }
  unfold tx_clean_up. apply wp_bind, wp_load; [apply Mq; unq; lia|]. rewrite Hcl.
  apply wp_bind, wp_load; [apply Mq; unq; lia|]. rewrite (tm_tx _ _ _ (ti_struct _ _ _ Hti)). apply wp_bind.
  eapply wp_conseq; [apply (tx_clean_spec clean_fuel w P q Hti)|].
  { unfold clean_fuel. rewrite Z2Nat.id by lia. lia. }
  cbn beta. intros c w1 (n & Hle & -> & Hti1 & Hev & Hdd & Hstop & Htick).
  destruct (q_popn_fields n q) as (Fa & Fd & Fn & Ff).
  pose proof (tx_inv_bounds _ _ _ Hti1) as (_ & Hc1 & _).
  apply wp_bind, wp_store; [rewrite (evolve_mapped _ _ _ _ _ Hev); apply Mq; unq; lia|].
  apply wp_ret. exists n. split; [done|].
  destruct (tx_store_clean w1 _ (q_popn n q) (q_clean (q_popn n q)) Hti1) as (Hti2 & Hcl2 & Hev2 & Hdd2); [lia|].
  rewrite Fa in *. rewrite q_popn_size in Hev2. set (w2 := set_mem _ w1) in *.
  assert (forall k, dd_set (w_mem w2) (q_desc q k) txd_status = dd_set (w_mem w1) (q_desc q k) txd_status) as Hsame.
  { intros k. replace k with (Z.of_nat n + (k - Z.of_nat n)) by lia. rewrite <- q_popn_desc. apply Hdd2. }
  split.
  - split; [done|]. split; [intros k Hk; rewrite Hsame; by apply Hdd|by rewrite Hsame].
  - split; [done|by rewrite Fa].
  - etransitivity; [eapply evolve_mono, Hev; auto|]. eapply evolve_mono, Hev2. auto.
  - intros Hne. destruct (Htick Hne) as (wt & Ht & Hevt). exists wt. split; [done|].
    etransitivity; [eapply evolve_mono, Hevt; auto|]. eapply evolve_mono, Hev2. auto.
Qed.

(** what the driver writes when it sends *)
Definition tx_touched q (a : Z) : Prop := range (q_addr q) (q_size q) a \/ range (q_desc q (q_len q)) 16 a.

(** The packet is queued behind the [q_len q - n] packets still in flight. *)
Definition tx_queued dev queue_id w P q n i w1 w' : Prop :=
  q_len q - Z.of_nat n + 1 < q_n q /\
  tx_ok w' (free_all (take n (q_fly q)) P) (q_push i (q_popn n q)) /\
  tx_desc_filled (w_mem w') (q_desc q (q_len q)) (entry_phy P i) (pkt_size w P i) /\
  (exists w3, evolve (tx_touched q) w1 w3 /\
     w' = set_hw (mmio_write (addr dev + IXGBE_TDT queue_id) (q_slot q (q_len q + 1)) (w_hw w3)) w3).

(** The ring is full when only the slot before clean_index is left. *)
Lemma tx_full_test q : tx_shape q -> (q_clean q =? q_slot q (q_len q + 1)) = (q_len q + 1 =? q_n q).
Proof.
  intros Hsh. pose proof (ring_size_bounds _ (ts_n _ Hsh)) as Hnb. pose proof (ts_clean _ Hsh) as Hc.
  pose proof (ts_len _ Hsh) as Hl. pose proof (q_len_nonneg q). apply eq_true_iff_eq. rewrite !Z.eqb_eq.
  rewrite <- (slot_0 (q_n q) (q_clean q)) at 1 by done. fold (q_slot q 0). split; intros He.
  - destruct (decide (q_len q + 1 = q_n q)); [done|]. apply slot_inj in He; lia.
  - rewrite He. unfold q_slot, slot. replace (q_clean q + q_n q) with (q_clean q + 0 + 1 * q_n q) by lia.
    by rewrite Z.mod_add by lia.
Qed.

(** Cleaning leaves the length of a buffer alone that may be sent. *)
Lemma tx_size_kept w P q n w1 i : tx_inv w P q -> tx_cleaned w P q n w1 -> sendable w P q i ->
  sendable w1 (free_all (take n (q_fly q)) P) (q_popn n q) i /\
  pkt_size w1 (free_all (take n (q_fly q)) P) i = pkt_size w P i.
Proof.
  intros Hti [_ _ Hev] [Hi Hni Hsz]. pose proof (pk_shape _ _ (ti_pool _ _ _ Hti)) as Hps. split.
  - split; [done| |].
    + destruct (q_popn_fields n q) as (_ & _ & _ & ->). cbn. rewrite <- (take_drop n (q_fly q)) in Hni.
      rewrite !elem_of_app in *. tauto.
    + intros a Ha Ho. eapply Hsz; [exact Ha|]. by eapply evolve_own.
  - eapply evolve_ld; [exact Hev|]. intros b Hb. split; [|by apply Hsz]. intros [Hp|Hp].
    + by apply (size_off_fp P i b Hps Hi Hb).
    + pose proof (entry_bound P i Hps Hi) as Heb. pose proof (ps_bufsz _ Hps) as Hbs.
      destruct (ti_sep _ _ _ Hti) as [_ S2 _ _]. clear -Hb Hp S2 Heb Hbs. unlayout. unfold disj, range in *. lia.
Qed.

(** Sending keeps the invariant between calls. *)
Lemma tx_sent_ok dev queue_id w P q i w' :
  tx_ok w P q -> tx_sent dev queue_id w P q i w' -> tx_ok w' P (q_push i q).
Proof.
  intros [Hti Hcl] [Hinv _ _ [_ Hfr]]. split; [done|]. etransitivity; [|exact Hcl]. cbn [q_push q_addr q_clean].
  destruct (tx_inv_bounds w P q Hti) as (Hnb & _ & _). pose proof (ts_disj _ (ti_shape _ _ _ Hti)) as Hdj.
  pose proof (q_slot_bound q (q_len q) (ti_shape _ _ _ Hti)) as Hbd.
  apply ld_ext. intros b Hb. symmetry. apply Hfr. intros [[_ Hx]|[Hx|Hx]].
  - apply Hx. exact Hb.
  - clear -Hb Hx Hdj Hbd. unq. unfold disj, range in *. lia.
  - apply (tp_queue _ _ _ (ti_private _ _ _ Hti)) in Hx. apply Hx. clear -Hb Hnb. unq. unfold range in *. lia.
Qed.

Lemma tx_packet_spec dev queue_id w P q i :
  q_addr q = tx_queue dev queue_id -> tx_ok w P q -> sendable w P q i ->
  (forall h a, rtc hw_step (w_hw w) h ->
    grants h (addr dev + IXGBE_TDT queue_id) (q_slot q (q_len q + 1)) a ->
    range (q_desc q (q_len q)) 16 a) ->
  wp (ixgbe_tx_packet dev queue_id (entry P i)) (fun r w' => exists n w1,
    tx_cleaned w P q n w1 /\
    ((r = 0 /\ w' = w1 /\ q_len q - Z.of_nat n + 1 = q_n q) \/
     (r = 1 /\ tx_queued dev queue_id w P q n i w1 w'))) never w.
Proof.
  intros Hq Hok Hsd Hgr. pose proof Hok as [Hti Hcl].
  unfold ixgbe_tx_packet. rewrite <- Hq. apply wp_bind.
  eapply wp_conseq; [apply (tx_clean_up_spec w P q Hok)|]. cbn beta.
  intros r w1 (n & -> & Hcleaned). pose proof Hcleaned as [(Hle & _) [Hti1 Hcl1] Hev].
  destruct (q_popn_fields n q) as (Fa & Fd & Fn & Ff).
  pose proof (q_popn_tx n q Hle) as Ftx. pose proof (q_popn_len n q Hle) as Flen.
  pose proof (ts_n _ (ti_shape _ _ _ Hti)) as Hn. destruct (tx_size_kept w P q n w1 i Hti Hcleaned Hsd) as [Hsd1 Hps].
  destruct (tx_inv_bounds _ _ _ Hti1) as (Hnb & Hc1 & Hl1).
  set (q1 := q_popn n q) in *. set (P1 := free_all (take n (q_fly q)) P) in *.
  assert (q_slot q1 (q_len q1 + 1) = q_slot q (q_len q + 1)) as Htail.
  { transitivity (slot (q_n q) (q_tx q) 1); [rewrite <- Ftx, <- Fn|];
      unfold q_tx, q_slot; rewrite slot_slot; done. }
  assert (q_desc q1 (q_len q1) = q_desc q (q_len q)) as Hdesc.
  { unfold q1. rewrite q_popn_desc. fold q1. f_equal. lia. }
  assert (q_tx (q_push i q1) = q_slot q (q_len q + 1)) as Hptx by (unfold q_tx; by rewrite q_push_len).
  apply wp_bind, wp_load. { rewrite <- Fa. eapply mapped_sub; [apply (ti_map_q _ _ _ Hti1)|unq; lia|unq; lia]. }
  rewrite <- Fa, (tm_n _ _ _ (ti_struct _ _ _ Hti1)), Fn.
  assert (inc_and_wrap_ring (q_tx q) (q_n q) = q_slot q1 (q_len q1 + 1)) as ->.
  { rewrite Htail. unfold q_tx, q_slot. by apply slot_inc. }
  rewrite (tx_full_test q1 (ti_shape _ _ _ Hti1)). destruct (Z.eqb_spec (q_len q1 + 1) (q_n q1)) as [He|Hne].
  - apply wp_ret. exists n, w1. split; [done|]. left. split_and!; [done..|lia].
  - rewrite <- Ftx. change (entry P i) with (entry P1 i).
    eapply wp_conseq; [apply (tx_send_spec dev queue_id w1 P1 q1 i Hti1 Hsd1); [lia|]|].
    + intros h a Hh. rewrite Hptx, Hdesc. apply Hgr.
      etransitivity; [apply (ch_hw _ _ _ (evolve_changes _ _ _ Hev))|exact Hh].
    + cbn beta. intros r w' [-> Hsent]. exists n, w1. split; [done|]. right. split; [done|].
      pose proof (tx_sent_ok dev queue_id w1 P1 q1 i w' (conj Hti1 Hcl1) Hsent) as Hok'.
      destruct Hsent as [_ Hfill (w3 & E3 & Hw') _]. rewrite Hptx, Hdesc, Hps in *.
      split; [lia|]. split; [exact Hok'|]. split; [exact Hfill|]. exists w3. split; [|done].
      eapply evolve_mono, E3. intros a [[Ha _]|Ha]; [left|by right]. by rewrite <- Fa, <- (q_popn_size n).
Qed.
End tx.
