(* ===== verification/RxRing.v ===== *)
(** * The receive ring

    The abstract ring [rxq] has the driver's index and, per slot, the pool
    entry recorded in [virtual_addresses].  [rx_inv] says that a
    [struct ixgbe_rx_queue], its descriptor ring and the pool represent it;
    [rx_packet_spec] gives every outcome of [ixgbe_rx_packet]. *)
From S2P Require Import Prelude Mem Platform Memory Registers Device Ixgbe Ring.

Record rxq := Rxq {
  r_addr : Z;        (* the struct ixgbe_rx_queue *)
  r_descs : Z;       (* its descriptor ring *)
  r_n : Z;           (* num_entries *)
  r_idx : Z;         (* rx_index *)
  r_va : list Z      (* pool entry recorded for each slot *)
}.

Definition r_size (q : rxq) : Z := sizeof_rx_queue + 8 * r_n q.
Definition r_ring (q : rxq) : Z := sizeof_adv_rx_desc * r_n q.
Definition r_desc (q : rxq) (k : Z) : Z := r_descs q + k * sizeof_adv_rx_desc.
(** the slot the driver has re-armed but not yet handed over *)
Definition r_prev (q : rxq) : Z := slot (r_n q) (r_idx q) (-1).
Definition r_next (q : rxq) : rxq :=
  Rxq (r_addr q) (r_descs q) (r_n q) (slot (r_n q) (r_idx q) 1) (r_va q).
Definition r_buf (q : rxq) : Z := default 0 (r_va q !! Z.to_nat (r_idx q)).

Ltac unrq := unfold r_size, r_ring, r_desc, sizeof_rx_queue, sizeof_adv_rx_desc,
  rxq_descriptors, rxq_mempool, rxq_num_entries, rxq_rx_index, rxq_virtual_addresses,
  rxd_pkt_addr, rxd_hdr_addr, rxd_status_error, rxd_length in *.

Section rx.
Context {H : Type} `{NicWriteback H}.
Implicit Types (w : world H) (P : pool) (q : rxq).

Record rx_shape P q : Prop := {
  rs_n : ring_size (r_n q);
  rs_idx : 0 <= r_idx q < r_n q;
  rs_va : Z.of_nat (length (r_va q)) = r_n q;
  rs_entries : Forall (fun i => 0 <= i < p_num P) (r_va q);
  rs_descs : 0 <= r_descs q < 2 ^ 64;
  rs_disj : disj (r_addr q) (r_size q) (r_descs q) (r_ring q)
}.

Record rx_struct (m : mem) P q : Prop := {
  rm_descs : ld 8 m (r_addr q + rxq_descriptors) = r_descs q;
  rm_pool : ld 8 m (r_addr q + rxq_mempool) = p_addr P;
  rm_n : ld 2 m (r_addr q + rxq_num_entries) = r_n q;
  rm_idx : ld 2 m (r_addr q + rxq_rx_index) = r_idx q;
  rm_va : forall k i, r_va q !! k = Some i ->
    ld 8 m (r_addr q + rxq_virtual_addresses + 8 * Z.of_nat k) = entry P i
}.

Record rx_sep P q : Prop := {
  rd_qp : disj (r_addr q) (r_size q) (p_addr P) (sizeof_mempool + 4 * p_num P);
  rd_qb : disj (r_addr q) (r_size q) (p_base P) (p_num P * p_bufsz P);
  rd_dp : disj (r_descs q) (r_ring q) (p_addr P) (sizeof_mempool + 4 * p_num P);
  rd_db : disj (r_descs q) (r_ring q) (p_base P) (p_num P * p_bufsz P)
}.

(** The device owns no pool structure, no buffer header and no queue
    structure: packets are written behind the headers. *)
Record rx_private (h : H) P q : Prop := {
  rp_pool : forall a, nic_owns h a -> ~ range (p_addr P) (sizeof_mempool + 4 * p_num P) a;
  rp_hdr : forall i a, 0 <= i < p_num P -> nic_owns h a -> ~ range (entry P i) pb_data a;
  rp_queue : forall a, nic_owns h a -> ~ range (r_addr q) (r_size q) a
}.

Record rx_inv w P q : Prop := {
  ri_pool : pool_ok (w_mem w) P;
  ri_shape : rx_shape P q;
  ri_struct : rx_struct (w_mem w) P q;
  ri_map_q : mapped (w_mem w) (r_addr q) (r_size q) = true;
  ri_map_d : mapped (w_mem w) (r_descs q) (r_ring q) = true;
  ri_sep : rx_sep P q;
  ri_private : rx_private (w_hw w) P q;
  ri_desc : forall k, 0 <= k < r_n q -> dd_owned w (r_desc q k) rxd_status_error;
  ri_prev : dd_set (w_mem w) (r_desc q (r_prev q)) rxd_status_error = false /\
    forall a, range (r_desc q (r_prev q)) 16 a -> ~ nic_owns (w_hw w) a
}.

Lemma rx_bounds P q : rx_shape P q -> 2 <= r_n q <= 2 ^ 15 /\ 0 <= r_prev q < r_n q.
Proof.
  intros Hs. pose proof (ring_size_bounds _ (rs_n _ _ Hs)). split; [done|].
  apply slot_bound. lia.
Qed.

Lemma rx_va_lookup P q : rx_shape P q ->
  r_va q !! Z.to_nat (r_idx q) = Some (r_buf q) /\ 0 <= r_buf q < p_num P.
Proof.
  intros Hs. pose proof (rs_idx _ _ Hs). pose proof (rs_va _ _ Hs).
  destruct (lookup_lt_is_Some_2 (r_va q) (Z.to_nat (r_idx q))) as [i Hi]; [lia|].
  unfold r_buf. rewrite Hi. split; [done|]. cbn.
  pose proof (rs_entries _ _ Hs) as Hf. rewrite Forall_lookup in Hf. by eapply Hf.
Qed.

Lemma rp_fp h P q a : rx_private h P q -> nic_owns h a -> ~ pool_fp P a.
Proof.
  intros [Hp Hh _] Ha [Hq|(i & Hi & Hq)]; [by eapply Hp|].
  eapply Hh; [exact Hi|exact Ha|]. unlayout. unfold range in *. lia.
Qed.

(** The bytes of the queue structure and ring that the driver writes when it
    receives: the index and one descriptor. *)
Definition rx_fp q (a : Z) : Prop :=
  range (r_addr q + rxq_rx_index) 2 a \/ range (r_desc q (r_idx q)) 16 a.

Lemma rx_slot_sep q j k a :
  j <> k -> range (r_desc q j) 16 a -> ~ range (r_desc q k) 16 a.
Proof. unrq. unfold range. lia. Qed.

(** The invariant survives steps that stay off the queue and its ring, and
    any change of the free list that keeps it a pool. *)
Lemma rx_struct_evolve F w w' P q idx :
  rx_shape P q -> rx_struct (w_mem w) P q -> evolve F w w' ->
  (forall a, F a -> range (r_addr q) (r_size q) a -> range (r_addr q + rxq_rx_index) 2 a) ->
  (forall a, nic_owns (w_hw w) a -> ~ range (r_addr q) (r_size q) a) ->
  ld 2 (w_mem w') (r_addr q + rxq_rx_index) = idx ->
  rx_struct (w_mem w') P (Rxq (r_addr q) (r_descs q) (r_n q) idx (r_va q)).
Proof.
  intros Hsh [H5 H6 H7 H8 H9] Hev HF Hown Hidx. destruct (rx_bounds P q Hsh) as [Hn _].
  assert (forall n o, 0 <= o -> o + Z.of_nat n <= r_size q ->
    (o + Z.of_nat n <= rxq_rx_index \/ rxq_rx_index + 2 <= o) ->
    ld n (w_mem w') (r_addr q + o) = ld n (w_mem w) (r_addr q + o)) as Hld.
  { intros n o ???. eapply evolve_ld; [exact Hev|]. intros b Hb. split.
    - intros HFb. apply HF in HFb; unfold range in *; lia.
    - intros Hb'. apply Hown in Hb'. apply Hb'. unfold range in *. lia. }
  split; cbn [r_addr r_descs r_n r_idx r_va]; unrq; try (rewrite Hld by lia; done); [done|].
  intros k i Hk. apply lookup_lt_Some in Hk as Hlt. pose proof (rs_va _ _ Hsh).
  rewrite <- Z.add_assoc, Hld by lia. rewrite Z.add_assoc. by apply H9.
Qed.

Lemma rx_private_steps h h' P q : rtc hw_step h h' -> rx_private h P q -> rx_private h' P q.
Proof. intros Hs [H5 H6 H7]. split; eauto using hw_steps_own. Qed.

Lemma rx_inv_transfer F w w' P P' q :
  rx_inv w P q -> evolve F w w' ->
  (forall a, F a -> ~ range (r_addr q) (r_size q) a /\ ~ range (r_descs q) (r_ring q) a) ->
  pool_ok (w_mem w') P' -> P' = set_free (p_free P') P -> rx_inv w' P' q.
Proof.
  intros [Hp Hsh Hst Hmq Hmd [] Hpr Hds [Hpd Hpo]] Hev HF Hp' HP'.
  pose proof (evolve_changes _ _ _ Hev) as [Hch Hhw _]. destruct (rx_bounds P q Hsh) as [Hn Hb].
  assert (forall k a, 0 <= k < r_n q -> range (r_desc q k) 16 a -> ~ F a) as Hslot.
  { intros k a Hk Ha HFa. apply HF in HFa as [_ HFa]. apply HFa. unrq. unfold range in *. lia. }
  rewrite HP' in *. cbn in *. split; cbn; try done.
  - destruct Hsh. by split.
  - assert (ld 2 (w_mem w') (r_addr q + rxq_rx_index) = r_idx q) as Hidx.
    { rewrite <- (rm_idx _ _ _ Hst). eapply evolve_ld; [exact Hev|]. intros b Hb'.
      assert (range (r_addr q) (r_size q) b) as Hr by (unrq; unfold range in *; lia).
      split; [intros HFb; by apply HF in HFb as [HFb _]|intros Hnb]. by apply (rp_queue _ _ _ Hpr) in Hnb. }
    destruct (rx_struct_evolve F w w' P q (r_idx q)) as [H5 H6 H7 H8 H9]; try done.
    + intros a HFa Hr. by apply HF in HFa as [HFa _].
    + apply Hpr.
  - by rewrite (evolve_mapped _ _ _ _ _ Hev).
  - by rewrite (evolve_mapped _ _ _ _ _ Hev).
  - destruct (rx_private_steps _ _ _ _ Hhw Hpr). by split.
  - intros k Hk. eapply dd_owned_evolve, Hds; [unrq; lia|unrq; lia| |exact Hev|done].
    intros a Ha. by eapply Hslot.
  - split; [|intros a Ha Hna; eapply Hpo; [exact Ha|by eapply hw_steps_own]]. rewrite <- Hpd. unfold dd_set. f_equal.
    eapply evolve_ld; [exact Hev|]. intros b Hb'.
    assert (range (r_desc q (r_prev q)) 16 b) as Hr by (unrq; unfold range in *; lia).
    split; [by eapply Hslot|by apply Hpo].
Qed.

Lemma rx_inv_tick w w' P q : rx_inv w P q -> evolve (fun _ => False) w w' -> rx_inv w' P q.
Proof.
  intros Hri Hev. eapply rx_inv_transfer; [exact Hri|exact Hev|done| |by destruct P].
  pose proof (evolve_changes _ _ _ Hev) as [[Hreg Hrd] _ _].
  eapply pool_ok_frame; [|exact Hreg|apply Hri].
  intros a Ha. apply Hrd. intros [[]|Hna]. by eapply rp_fp; [apply Hri|exact Hna|].
Qed.

(** Writing the read format of a descriptor the driver owns. *)
Lemma rx_write_desc_spec w d v :
  own_slot w d ->
  wp (vstore 8 (d + rxd_pkt_addr) v ;; vstore 8 (d + rxd_hdr_addr) 0) (fun _ w' =>
    evolve (range d 16) w w' /\ ld 8 (w_mem w') (d + rxd_pkt_addr) = u64 v /\
    ld 8 (w_mem w') (d + rxd_hdr_addr) = 0) never w.
Proof.
  intros Hs. apply wp_bind, wp_slot_store; [done|unrq; lia|unrq; lia|]. intros w1 Hs1 E1 L1.
  apply wp_slot_store; [done|unrq; lia|unrq; lia|]. intros w2 Hs2 E2 L2. split_and!; [| |by rewrite L2].
  - etransitivity; [eapply evolve_mono, E1|eapply evolve_mono, E2]; unrq; unfold range; lia.
  - rewrite (own_slot_ld _ _ _ d 8 rxd_pkt_addr Hs1 E2); [by rewrite L1|unrq; lia|unrq; lia|].
    unrq. unfold range. lia.
Qed.

(** Re-arming the descriptor. *)
Lemma rx_rearm_spec w d buf phy :
  mapped (w_mem w) (buf + pb_buf_addr_phy) 8 = true -> own_slot w d ->
  ld 8 (w_mem w) (buf + pb_buf_addr_phy) = phy ->
  wp (rx_rearm d buf) (fun _ w' => evolve (range d 16) w w' /\
    ld 8 (w_mem w') (d + rxd_pkt_addr) = u64 (phy + pb_data) /\
    ld 8 (w_mem w') (d + rxd_hdr_addr) = 0) never w.
Proof.
  intros Hmb Hs Hphy. unfold rx_rearm. apply wp_bind, wp_load; [done|]. rewrite Hphy.
  eapply wp_conseq; [by apply rx_write_desc_spec|]. cbn beta. intros _ w' (He & Ha & Hh).
  split_and!; [done| |done]. rewrite Ha. apply u64_small, u64_range.
Qed.

(** *** Handing the previous slot over *)

(** What a write of the tail register may give to the device: the re-armed
    descriptor before the current one, and packet data areas. *)
Definition rx_grant P q (a : Z) : Prop :=
  range (r_desc q (r_prev q)) 16 a \/
  exists i, 0 <= i < p_num P /\ range (entry P i + pb_data) (p_bufsz P - pb_data) a.

Lemma rx_prev_ne P q : rx_shape P q -> r_prev q <> r_idx q.
Proof.
  intros Hs He. destruct (rx_bounds P q Hs) as [Hn _]. pose proof (rs_idx _ _ Hs) as Hi.
  unfold r_prev in He. rewrite <- (slot_0 (r_n q) (r_idx q) Hi) in He at 2.
  assert (slot (r_n q) (r_idx q) (-1) = slot (r_n q) (r_idx q) (r_n q - 1)) as Hw.
  { unfold slot. replace (r_idx q + (r_n q - 1)) with (r_idx q + -1 + 1 * r_n q) by lia.
    by rewrite Z.mod_add by lia. }
  rewrite Hw in He. apply slot_inj in He; lia.
Qed.

Lemma rx_prev_next P q : rx_shape P q -> r_prev (r_next q) = r_idx q.
Proof.
  intros Hs. unfold r_prev, r_next; cbn. rewrite slot_slot. apply slot_0, (rs_idx _ _ Hs).
Qed.

Lemma rx_grant_private P q a : pool_shape P -> rx_shape P q -> rx_sep P q -> rx_grant P q a ->
  (~ range (p_addr P) (sizeof_mempool + 4 * p_num P) a) /\
  (forall i, 0 <= i < p_num P -> ~ range (entry P i) pb_data a) /\
  (~ range (r_addr q) (r_size q) a) /\
  (forall k, 0 <= k < r_n q -> k <> r_prev q -> ~ range (r_desc q k) 16 a).
Proof.
  intros Hp Hs [S1 S2 S3 S4] Hg. destruct (rx_bounds P q Hs) as [_ Hb].
  pose proof (rs_disj _ _ Hs) as Hd. destruct Hg as [Ha|(i & Hi & Ha)].
  - assert (range (r_descs q) (r_ring q) a) as Hr by (unrq; unfold range in *; lia).
    split_and!.
    + clear -Hr S3. unfold disj, range in *. lia.
    + intros j Hj. pose proof (entry_bound P j Hp Hj). pose proof (ps_bufsz _ Hp).
      clear -Hr S4 H3 H4. unfold disj, range in *. lia.
    + clear -Hr Hd. unfold disj, range in *. lia.
    + intros k Hk Hne Hx. by eapply rx_slot_sep.
  - pose proof (entry_bound P i Hp Hi) as He. pose proof (ps_bufsz _ Hp) as Hbs.
    pose proof (ps_disj _ Hp) as Hpd.
    assert (range (p_base P) (p_num P * p_bufsz P) a) as Hr by (unlayout; unfold range in *; lia).
    split_and!.
    + clear -Hr Hpd. unfold disj, range in *. lia.
    + intros j Hj. destruct (decide (i = j)) as [->|Hne]; [unfold range in *; lia|].
      pose proof (entry_sep P i j Hp Hi Hj Hne) as Hx. clear -Ha Hx Hbs. unlayout. unfold disj, range in *. lia.
    + clear -Hr S2. unfold disj, range in *. lia.
    + intros k Hk _. clear -Hr S4 Hk. unrq. unfold disj, range in *. lia.
Qed.

Lemma rx_inv_advance F w w1 P P' q reg v :
  rx_inv w P q -> evolve F w w1 ->
  (forall a, range (r_desc q (r_idx q)) 16 a -> ~ nic_owns (w_hw w) a) ->
  (forall a, F a -> range (r_addr q) (r_size q) a -> range (r_addr q + rxq_rx_index) 2 a) ->
  (forall a, F a -> range (r_descs q) (r_ring q) a -> range (r_desc q (r_idx q)) 16 a) ->
  pool_ok (w_mem w1) P' -> P' = set_free (p_free P') P ->
  ld 2 (w_mem w1) (r_addr q + rxq_rx_index) = r_idx (r_next q) ->
  dd_set (w_mem w1) (r_desc q (r_idx q)) rxd_status_error = false ->
  (forall a, grants (w_hw w1) reg v a -> rx_grant P q a) ->
  rx_inv (set_hw (mmio_write reg v (w_hw w1)) w1) P' (r_next q).
Proof.
  intros [Hp Hsh Hst Hmq Hmd Hsep Hpr Hds [Hpd Hpo]] Hev Hslot HFq HFd Hp' HP' Hidx Hdd Hgr.
  pose proof (evolve_changes _ _ _ Hev) as [Hch Hhw _]. destruct (rx_bounds P q Hsh) as [Hn Hb].
  pose proof (rx_prev_ne P q Hsh) as Hne. pose proof (rx_prev_next P q Hsh) as Hpn.
  pose proof (rx_struct_evolve F w w1 P q _ Hsh Hst Hev HFq (rp_queue _ _ _ Hpr) Hidx) as Hst'.
  assert (forall a, nic_owns (mmio_write reg v (w_hw w1)) a -> nic_owns (w_hw w) a \/ rx_grant P q a) as Hown.
  { intros a [Ha|Ha]%mmio_write_own; [left; by eapply evolve_own|right; by apply Hgr]. }
  pose proof (fun a Ha => rx_grant_private P q a (pk_shape _ _ Hp) Hsh Hsep Ha) as Hgp.
  assert (forall k a, 0 <= k < r_n q -> k <> r_idx q -> range (r_desc q k) 16 a -> ~ F a) as HFk.
  { intros k a Hk Hki Ha HFa. eapply rx_slot_sep; [exact Hki|exact Ha|]. apply HFd; [done|].
    unrq. unfold range in *. lia. }
  assert (dd_set (w_mem w1) (r_desc q (r_prev q)) rxd_status_error = false) as Hpd1.
  { rewrite <- Hpd. unfold dd_set. f_equal. eapply evolve_ld; [exact Hev|]. intros b Hb'.
    assert (range (r_desc q (r_prev q)) 16 b) as Hr by (unrq; unfold range in *; lia).
    split; [by eapply HFk|by apply Hpo]. }
  pose proof (rs_idx _ _ Hsh) as Hi.
  assert (0 <= r_idx (r_next q) < r_n q) as Hi' by (apply slot_bound; lia).
  rewrite HP' in *. cbn [set_free p_free] in *. split; cbn [set_hw w_mem w_hw]; try done.
  - destruct Hsh. by split.
  - destruct Hst'. by split.
  - change (mapped (w_mem w1) (r_addr q) (r_size q) = true). by rewrite (evolve_mapped _ _ _ _ _ Hev).
  - change (mapped (w_mem w1) (r_descs q) (r_ring q) = true). by rewrite (evolve_mapped _ _ _ _ _ Hev).
  - destruct Hsep. by split.
  - destruct Hpr as [H5 H6 H7]. split.
    + intros a [Ha|Ha]%Hown; [by apply H5|]. by apply Hgp in Ha as (? & _).
    + intros i a Hx [Ha|Ha]%Hown; [by apply H6|]. apply Hgp in Ha as (_ & Ha & _). by apply Ha.
    + intros a [Ha|Ha]%Hown; [by apply H7|]. by apply Hgp in Ha as (_ & _ & Ha & _).
  - intros k Hk. change (r_desc (r_next q)) with (r_desc q). change (r_n (r_next q)) with (r_n q) in Hk.
    split; [apply desc_at_write; eapply hw_steps_desc, Hds; done|]. intros Hk1 a Ha Hx.
    change (dd_set (w_mem w1) (r_desc q k) rxd_status_error = true) in Hk1.
    apply mmio_write_own in Hx as [Hx|Hx].
    all: assert (k <> r_idx q) as Hki by congruence; assert (k <> r_prev q) as Hkp by congruence.
    + assert (dd_owned w1 (r_desc q k) rxd_status_error) as [_ Hdk].
      { eapply dd_owned_evolve, Hds; [unrq; lia|unrq; lia| |exact Hev|done]. intros b. by apply HFk. }
      by eapply Hdk.
    + apply Hgr, Hgp in Hx as (_ & _ & _ & Hx). by eapply Hx.
  - rewrite Hpn. change (r_desc (r_next q)) with (r_desc q). split; [done|].
    intros a Ha [Hx|Hx]%Hown; [by eapply Hslot|]. apply Hgp in Hx as (_ & _ & _ & Hx).
    eapply Hx; [exact Hi|by symmetry|exact Ha].
Qed.

(** ** Receiving *)
Definition rx_dd w q : bool := dd_set (w_mem w) (r_desc q (r_idx q)) rxd_status_error.
Definition rx_eop w q : bool := Z.testbit (ld 4 (w_mem w) (r_desc q (r_idx q) + rxd_status_error)) 1.

(** what the driver writes when it receives *)
Definition rx_touched P q (a : Z) : Prop :=
  range (entry P (r_buf q) + pb_size) 4 a \/ range (p_addr P + mp_free_stack_top) 4 a \/ rx_fp q a.

(** A packet received from [w1], where its descriptor was seen finished: the
    recorded entry is handed out with the descriptor's length, entry [e] takes
    its place in the descriptor, the index and the tail register advance; the
    write of the tail register is the last step. *)
Record rx_received dev queue_id w1 P q e P' w' : Prop := {
  rv_inv : rx_inv w' P' (r_next q);
  rv_len : ld 4 (w_mem w') (entry P (r_buf q) + pb_size) =
           ld 2 (w_mem w1) (r_desc q (r_idx q) + rxd_length);
  rv_addr : ld 8 (w_mem w') (r_desc q (r_idx q) + rxd_pkt_addr) = u64 (entry_phy P e + pb_data);
  rv_hdr : ld 8 (w_mem w') (r_desc q (r_idx q) + rxd_hdr_addr) = 0;
  rv_tail : exists w3, evolve (rx_touched P q) w1 w3 /\
    w' = set_hw (mmio_write (addr dev + IXGBE_RDT queue_id) (r_idx q) (w_hw w3)) w3;
  rv_frame : agree_off (fun a => rx_touched P q a \/ nic_owns (w_hw w1) a) (w_mem w1) (w_mem w')
}.

Lemma rx_advance_spec dev queue_id w P q (Q : unit -> world H -> Prop) E :
  r_addr q = rx_queue dev queue_id -> rx_shape P q ->
  mapped (w_mem w) (r_addr q) (r_size q) = true ->
  ld 2 (w_mem w) (r_addr q + rxq_num_entries) = r_n q ->
  (let w' := set_mem (st 2 (r_addr q + rxq_rx_index) (r_idx (r_next q)) (w_mem w)) w in
   Q tt (set_hw (mmio_write (addr dev + IXGBE_RDT queue_id) (r_idx q) (w_hw w')) w')) ->
  wp (rx_advance dev queue_id (r_idx q)) Q E w.
Proof.
  intros Hq Hs Hm Hn HQ. unfold rx_advance. rewrite <- Hq. destruct (rx_bounds P q Hs) as [Hb _].
  pose proof (rs_idx _ _ Hs) as Hi.
  apply wp_bind, wp_load. { eapply mapped_sub; [exact Hm|unrq; lia|unrq; lia]. }
  rewrite Hn. rewrite inc_and_wrap_ring_mod by (try apply Hs; lia).
  apply wp_bind, wp_store. { eapply mapped_sub; [exact Hm|unrq; lia|unrq; lia]. }
  apply wp_mmio_set. rewrite u32_small by lia. exact HQ.
Qed.

Lemma rx_slot_free w P q :
  rx_inv w P q -> rx_dd w q = true ->
  forall a, range (r_desc q (r_idx q)) 16 a -> ~ nic_owns (w_hw w) a.
Proof. intros Hri. apply (ri_desc _ _ _ Hri _ (rs_idx _ _ (ri_shape _ _ _ Hri))). Qed.

(** Where the length is stored is off every structure of the invariant. *)
Lemma rx_size_off w P q a : rx_inv w P q -> range (entry P (r_buf q) + pb_size) 4 a ->
  ~ range (r_addr q) (r_size q) a /\ ~ range (r_descs q) (r_ring q) a /\
  ~ pool_fp P a /\ ~ nic_owns (w_hw w) a.
Proof.
  intros Hri Ha. pose proof (pk_shape _ _ (ri_pool _ _ _ Hri)) as Hps.
  destruct (rx_va_lookup P q (ri_shape _ _ _ Hri)) as [_ Hi].
  pose proof (entry_bound P _ Hps Hi) as Hb. pose proof (ps_bufsz _ Hps) as Hbs.
  destruct (ri_sep _ _ _ Hri) as [_ S2 _ S4]. split_and!.
  - clear -Ha Hb Hbs S2. unlayout. unfold disj, range in *. lia.
  - clear -Ha Hb Hbs S4. unlayout. unfold disj, range in *. lia.
  - by eapply size_off_fp.
  - intros Hn. eapply (rp_hdr _ _ _ (ri_private _ _ _ Hri)); [exact Hi|exact Hn|].
    clear -Ha. unlayout. unfold range in *. lia.
Qed.

(** The state in which the driver re-arms: length stored, entry [e] taken. *)
Lemma rx_inv_take w P q len e P' :
  rx_inv w P q -> 0 <= len < 2 ^ 16 -> pool_alloc P = Some (e, P') ->
  let w1 := set_mem (st 4 (entry P (r_buf q) + pb_size) len (w_mem w)) w in
  let w2 := set_mem (st 4 (p_addr P + mp_free_stack_top) (Z.of_nat (length (p_free P'))) (w_mem w1)) w1 in
  pool_ok (w_mem w2) P' ->
  rx_inv w2 P' q /\ ld 4 (w_mem w2) (entry P (r_buf q) + pb_size) = len /\
  evolve (fun a => range (entry P (r_buf q) + pb_size) 4 a \/
                   range (p_addr P + mp_free_stack_top) 4 a) w w2.
Proof.
  intros Hri Hlen Ha w1 w2 Hok2. pose proof (pk_shape _ _ (ri_pool _ _ _ Hri)) as Hps.
  destruct (pool_shape_alloc P e P' Hps Ha) as (_ & _ & _ & _ & HP').
  pose proof (ps_num _ Hps) as Hn0.
  assert (forall a, range (p_addr P + mp_free_stack_top) 4 a ->
    range (p_addr P) (sizeof_mempool + 4 * p_num P) a) as Htop by (unlayout; unfold range; lia).
  assert (evolve (fun a => range (entry P (r_buf q) + pb_size) 4 a \/
                   range (p_addr P + mp_free_stack_top) 4 a) w w2) as Hev.
  { etransitivity; [apply (evolve_store _ 4 (entry P (r_buf q) + pb_size) len w); by left|].
    apply (evolve_store _ 4). by right. }
  split_and!; [|unfold w2; cbn|exact Hev].
  - eapply rx_inv_transfer; [exact Hri|exact Hev| |exact Hok2|exact HP'].
    intros a [Hx|Hx].
    + destruct (rx_size_off w P q a Hri Hx) as (? & ? & _). done.
    + apply Htop in Hx. destruct (ri_sep _ _ _ Hri) as [S1 _ S3 _].
      clear -Hx S1 S3. unfold disj, range in *. lia.
  - rewrite ld_st_out.
    + rewrite ld_st_eq. apply Z.mod_small. change (2 ^ (8 * Z.of_nat 4)) with (2 ^ 32). lia.
    + destruct (rx_va_lookup P q (ri_shape _ _ _ Hri)) as [_ Hi].
      pose proof (entry_bound P _ Hps Hi) as Hb. pose proof (ps_bufsz _ Hps) as Hbs.
      pose proof (ps_disj _ Hps) as Hd. clear -Hb Hbs Hd Hn0. unlayout. unfold disj in *. lia.
Qed.

(** Taking an entry does not touch the finished descriptor. *)
Lemma rx_dd_take w P q a w' : rx_inv w P q -> rx_dd w q = true ->
  evolve (fun b => range (entry P (r_buf q) + pb_size) 4 b \/
                   range (p_addr P + mp_free_stack_top) 4 b) w w' ->
  a = r_desc q (r_idx q) -> dd_set (w_mem w') a rxd_status_error = true.
Proof.
  intros Hri Hdd Hev ->. rewrite <- Hdd. unfold rx_dd, dd_set. f_equal.
  eapply evolve_ld; [exact Hev|]. pose proof (rs_idx _ _ (ri_shape _ _ _ Hri)) as Hi.
  intros b Hb. split.
  - intros [Hx|Hx].
    + destruct (rx_size_off w P q b Hri Hx) as (_ & Hy & _). apply Hy.
      clear -Hb Hi. unrq. unfold range in *. lia.
    + destruct (ri_sep _ _ _ Hri) as [_ _ S3 _].
      pose proof (ps_num _ (pk_shape _ _ (ri_pool _ _ _ Hri))) as Hn.
      clear -Hb Hi Hx S3 Hn. unrq. unlayout. unfold disj, range in *. lia.
  - apply (rx_slot_free w P q Hri Hdd). clear -Hb. unrq. unfold range in *. lia.
Qed.

Lemma rx_own_slot w P q : rx_inv w P q -> rx_dd w q = true -> own_slot w (r_desc q (r_idx q)).
Proof.
  intros Hri Hdd. pose proof (rs_idx _ _ (ri_shape _ _ _ Hri)) as Hi. split; [|by apply (rx_slot_free w P q)].
  eapply mapped_sub; [apply (ri_map_d _ _ _ Hri)|unrq; lia|unrq; lia].
Qed.

(** What the receive path writes in the queue and its ring is off the pool. *)
Lemma rx_fp_off w P q a : rx_inv w P q -> rx_fp q a -> ~ pool_fp P a.
Proof.
  intros Hri Hx Hy. pose proof (rs_idx _ _ (ri_shape _ _ _ Hri)) as Hi.
  destruct (rx_bounds P q (ri_shape _ _ _ Hri)) as [Hnb _].
  apply (pool_fp_bound P a (pk_shape _ _ (ri_pool _ _ _ Hri))) in Hy. destruct (ri_sep _ _ _ Hri) as [S1 S2 S3 S4].
  destruct Hx as [Hx|Hx]; clear -Hx Hy S1 S2 S3 S4 Hnb Hi; unrq; unfold disj, range in *; lia.
Qed.

(** The state the tail register is written in: the descriptor re-armed from [w]
    and the index stored. *)
Lemma rx_inv_rearmed w w2 P q reg v :
  rx_inv w P q -> rx_dd w q = true -> evolve (range (r_desc q (r_idx q)) 16) w w2 ->
  ld 8 (w_mem w2) (r_desc q (r_idx q) + rxd_hdr_addr) = 0 ->
  (forall h a, rtc hw_step (w_hw w) h -> grants h reg v a -> rx_grant P q a) ->
  let w3 := set_mem (st 2 (r_addr q + rxq_rx_index) (r_idx (r_next q)) (w_mem w2)) w2 in
  rx_inv (set_hw (mmio_write reg v (w_hw w3)) w3) P (r_next q) /\ evolve (rx_fp q) w w3 /\
  (forall n o, 0 <= o -> o + Z.of_nat n <= 16 ->
     ld n (w_mem w3) (r_desc q (r_idx q) + o) = ld n (w_mem w2) (r_desc q (r_idx q) + o)).
Proof.
  intros Hri Hdd E2 Hhdr Hgr w3. pose proof (ri_shape _ _ _ Hri) as Hsh. pose proof (ri_pool _ _ _ Hri) as Hp.
  destruct (rx_bounds P q Hsh) as [Hnb _]. pose proof (rs_idx _ _ Hsh) as Hi. pose proof (rs_disj _ _ Hsh) as Hdj.
  assert (forall a, range (r_desc q (r_idx q)) 16 a -> range (r_descs q) (r_ring q) a) as Hring.
  { clear -Hi. unrq. unfold range. lia. }
  assert (evolve (rx_fp q) w w3) as E3.
  { etransitivity; [eapply evolve_mono, E2; intros; by right|]. apply evolve_store. intros; by left. }
  assert (forall n o, 0 <= o -> o + Z.of_nat n <= 16 ->
     ld n (w_mem w3) (r_desc q (r_idx q) + o) = ld n (w_mem w2) (r_desc q (r_idx q) + o)) as Hkeep.
  { intros n o ??. unfold w3; cbn. apply ld_st_out. clear -H3 H4 Hdj Hnb Hi. unrq. unfold disj in *. lia. }
  pose proof (evolve_changes _ _ _ E3) as [[Hreg Hrd] Hhw _]. split_and!; [|done|done].
  eapply (rx_inv_advance (rx_fp q) w w3 P P); [exact Hri|exact E3|by apply (rx_slot_free w P q)| | | |by destruct P| | |].
  - intros a [Hx|Hx%Hring] Hy; [done|]. clear -Hx Hy Hdj. unfold disj, range in *. lia.
  - intros a [Hx|Hx] Hy; [|done]. clear -Hx Hy Hdj Hnb. unrq. unfold disj, range in *. lia.
  - eapply pool_ok_frame; [|exact Hreg|exact Hp]. intros a Ha. apply Hrd.
    intros [Hx|Hx]; [by eapply rx_fp_off|]. by eapply rp_fp; [apply Hri|exact Hx|].
  - unfold w3; cbn. rewrite ld_st_eq. apply Z.mod_small.
    pose proof (slot_bound (r_n q) (r_idx q) 1). change (2 ^ (8 * Z.of_nat 2)) with (2 ^ 16). lia.
  - unfold dd_set. rewrite Hkeep by (unrq; lia). change rxd_status_error with rxd_hdr_addr.
    pose proof (ld_slice 8 4 (w_mem w2) (r_desc q (r_idx q) + rxd_hdr_addr) 0) as Hs.
    rewrite Z.add_0_r in Hs. rewrite Hs by lia. by rewrite Hhdr.
  - intros a Ha. by eapply Hgr.
Qed.

(** Re-arming and advancing from there. *)
Lemma rx_finish_spec dev queue_id w P q e :
  r_addr q = rx_queue dev queue_id -> rx_inv w P q -> rx_dd w q = true -> 0 <= e < p_num P ->
  (forall h a, rtc hw_step (w_hw w) h ->
    grants h (addr dev + IXGBE_RDT queue_id) (r_idx q) a -> rx_grant P q a) ->
  wp (rx_rearm (r_desc q (r_idx q)) (entry P e) ;; rx_advance dev queue_id (r_idx q))
    (fun _ w' => rx_inv w' P (r_next q) /\
      ld 8 (w_mem w') (r_desc q (r_idx q) + rxd_pkt_addr) = u64 (entry_phy P e + pb_data) /\
      ld 8 (w_mem w') (r_desc q (r_idx q) + rxd_hdr_addr) = 0 /\
      exists w3, evolve (rx_fp q) w w3 /\
        w' = set_hw (mmio_write (addr dev + IXGBE_RDT queue_id) (r_idx q) (w_hw w3)) w3) never w.
Proof.
  intros Hq Hri Hdd He Hgr. pose proof (ri_shape _ _ _ Hri) as Hsh. pose proof (ri_pool _ _ _ Hri) as Hp.
  pose proof (pk_shape _ _ Hp) as Hps. destruct (rx_bounds P q Hsh) as [Hnb _]. pose proof (rs_idx _ _ Hsh) as Hi.
  pose proof (entry_bound P e Hps He) as Hb. pose proof (ps_bufsz _ Hps) as Hbs.
  apply wp_bind. eapply wp_conseq.
  { apply (rx_rearm_spec w (r_desc q (r_idx q)) (entry P e) (entry_phy P e)).
    - eapply mapped_sub; [apply (pk_map_bufs _ _ Hp)|unlayout; lia|unlayout; lia].
    - by apply (rx_own_slot w P q).
    - apply (ho_phy _ _ _ (pk_hdr _ _ Hp e He)). }
  cbn beta. intros _ w2 (E2 & Haddr & Hhdr).
  assert (ld 2 (w_mem w2) (r_addr q + rxq_num_entries) = r_n q) as Hn2.
  { rewrite <- (rm_n _ _ _ (ri_struct _ _ _ Hri)). eapply evolve_ld; [exact E2|].
    intros b Hb'. assert (range (r_addr q) (r_size q) b) as Hr by (unrq; unfold range in *; lia).
    split; [|intros Hx; by apply (rp_queue _ _ _ (ri_private _ _ _ Hri)) in Hx].
    pose proof (rs_disj _ _ Hsh) as Hdj. clear -Hr Hdj Hi. unrq. unfold disj, range in *. lia. }
  apply (rx_advance_spec dev queue_id w2 P q); [done|done| |exact Hn2|].
  { rewrite (evolve_mapped _ _ _ _ _ E2). apply Hri. }
  cbn zeta. destruct (rx_inv_rearmed w w2 P q _ _ Hri Hdd E2 Hhdr Hgr) as (Hinv & E3 & Hkeep).
  split_and!; [exact Hinv| | |by eexists; split; [exact E3|]].
  - etransitivity; [|exact Haddr]. apply (Hkeep 8%nat); unrq; lia.
  - etransitivity; [|exact Hhdr]. apply (Hkeep 8%nat); unrq; lia.
Qed.

Definition rx_no_buffer : failure := Abort
  "failed to allocate new mbuf for rx, you are either leaking memory or your mempool is too small".
Definition rx_multi_segment : failure := Abort
  "multi-segment packets are not supported - increase buffer size or decrease MTU".

(** The finished descriptor is the driver's: the device's activity does not
    change it. *)
Lemma rx_desc_keep w w1 P q n o : rx_inv w P q -> rx_dd w q = true -> evolve (fun _ => False) w w1 ->
  0 <= o -> o + Z.of_nat n <= 16 ->
  ld n (w_mem w1) (r_desc q (r_idx q) + o) = ld n (w_mem w) (r_desc q (r_idx q) + o).
Proof.
  intros Hri Hdd E1 ??. eapply evolve_ld; [exact E1|]. intros b Hb. split; [tauto|].
  apply (rx_slot_free w P q Hri Hdd). unfold range in *. lia.
Qed.
Lemma rx_dd_keep w w1 P q : rx_inv w P q -> rx_dd w q = true -> evolve (fun _ => False) w w1 -> rx_dd w1 q = true.
Proof.
  intros Hri Hdd E1. pose proof (rx_desc_keep w w1 P q 4 rxd_status_error Hri Hdd E1) as Hk.
  unfold rx_dd, dd_set. rewrite Hk by (unrq; lia). exact Hdd.
Qed.
(** the recorded buffer *)
Lemma rx_va_load w P q : rx_inv w P q ->
  mapped (w_mem w) (r_addr q + rxq_virtual_addresses + 8 * r_idx q) 8 = true /\
  ld 8 (w_mem w) (r_addr q + rxq_virtual_addresses + 8 * r_idx q) = entry P (r_buf q).
Proof.
  intros Hri. pose proof (ri_shape _ _ _ Hri) as Hsh. pose proof (rs_idx _ _ Hsh) as Hi. split.
  - eapply mapped_sub; [apply (ri_map_q _ _ _ Hri)|unrq; lia|unrq; lia].
  - destruct (rx_va_lookup P q Hsh) as [Hva _].
    pose proof (rm_va _ _ _ (ri_struct _ _ _ Hri) _ _ Hva) as Hva1. by rewrite Z2Nat.id in Hva1 by lia.
Qed.

(** The packet's buffer gets its length, and a new one is taken from the pool. *)
Lemma rx_take_spec {B} w P q len (K : Z -> M (world H) B) Q E :
  rx_inv w P q -> 0 <= len < 2 ^ 16 ->
  (forall w2, pool_alloc P = None -> wp (K NULL) Q E w2) ->
  (forall e P' w2, pool_alloc P = Some (e, P') -> P' = set_free (p_free P') P -> 0 <= e < p_num P ->
    rx_inv w2 P' q -> ld 4 (w_mem w2) (entry P (r_buf q) + pb_size) = len ->
    evolve (fun a => range (entry P (r_buf q) + pb_size) 4 a \/
                     range (p_addr P + mp_free_stack_top) 4 a) w w2 ->
    entry P e <> NULL -> wp (K (entry P e)) Q E w2) ->
  wp (store 4 (entry P (r_buf q) + pb_size) len ;;
      pool ← load 8 (r_addr q + rxq_mempool); new_buf ← pkt_buf_alloc pool; K new_buf) Q E w.
Proof.
  intros Hri Hlen Hnone Hsome. destruct (rx_va_lookup P q (ri_shape _ _ _ Hri)) as [_ Hbi].
  pose proof (ri_pool _ _ _ Hri) as Hp. pose proof (pk_shape _ _ Hp) as Hps.
  destruct (rx_bounds P q (ri_shape _ _ _ Hri)) as [Hnb _].
  pose proof (entry_bound P _ Hps Hbi) as Hb. pose proof (ps_bufsz _ Hps) as Hbs.
  pose proof (fun a Ha => rx_size_off w P q a Hri Ha) as Hoff.
  apply wp_bind, wp_store. { eapply mapped_sub; [apply (pk_map_bufs _ _ Hp)|unlayout; lia|unlayout; lia]. }
  apply wp_bind, wp_load.
  { cbn. rewrite mapped_st. eapply mapped_sub; [apply (ri_map_q _ _ _ Hri)|unrq; lia|unrq; lia]. }
  assert (ld 8 (st 4 (entry P (r_buf q) + pb_size) len (w_mem w)) (r_addr q + rxq_mempool) = p_addr P) as Hmp.
  { rewrite <- (rm_pool _ _ _ (ri_struct _ _ _ Hri)). apply ld_ext. intros b Hb'.
    apply rd_st_out. intros Hx. destruct (Hoff b Hx) as (Hy & _). apply Hy. unrq. unfold range in *. lia. }
  cbn. rewrite Hmp. apply wp_bind.
  eapply wp_mono; [apply pkt_buf_alloc_spec| |intros ? ? Hx; exfalso; exact Hx].
  { eapply pool_ok_frame; [|symmetry; apply regions_st|exact Hp].
    intros a Ha. symmetry. apply rd_st_out. intros Hx. destruct (Hoff a Hx) as (_ & _ & Hy & _). by apply Hy. }
  cbn beta. intros r w2 Hr. destruct (pool_alloc P) as [[e P']|] eqn:Ha; [|destruct Hr as [-> _]; by apply Hnone].
  destruct Hr as (-> & Hok2 & ->). destruct (pool_shape_alloc P e P' Hps Ha) as (Hps' & He & _ & _ & HP').
  destruct (rx_inv_take w P q len e P' Hri Hlen Ha Hok2) as (Hri2 & Hl2 & E2).
  apply (Hsome e P'); [done..|]. pose proof (entry_bound P e Hps He). pose proof (ps_base _ Hps). unfold NULL. lia.
Qed.

(** The packet's buffer gets its length and is replaced: what follows once the
    buffer and the length of the finished descriptor have been read. *)
Lemma rx_replace_spec dev queue_id w w1 P q :
  r_addr q = rx_queue dev queue_id -> rx_inv w P q -> rx_dd w q = true -> evolve (fun _ => False) w w1 ->
  (forall h a, rtc hw_step (w_hw w) h ->
    grants h (addr dev + IXGBE_RDT queue_id) (r_idx q) a -> rx_grant P q a) ->
  let buf := entry P (r_buf q) in
  wp (store 4 (buf + pb_size) (ld 2 (w_mem w) (r_desc q (r_idx q) + rxd_length)) ;;
      pool ← load 8 (r_addr q + rxq_mempool);
      new_buf ← pkt_buf_alloc pool;
      if new_buf =? NULL then
        error "failed to allocate new mbuf for rx, you are either leaking memory or your mempool is too small"
      else
        rx_rearm (r_desc q (r_idx q)) new_buf ;;
        rx_advance dev queue_id (r_idx q) ;;
        mret buf)
    (fun r w' => exists e P', pool_alloc P = Some (e, P') /\ r = entry P (r_buf q) /\
      rx_received dev queue_id w P q e P' w')
    (fun f w' => f = rx_no_buffer /\ pool_alloc P = None) w1.
Proof.
  intros Hq Hri Hdd E1 Hgr buf. unfold buf. destruct (rx_bounds P q (ri_shape _ _ _ Hri)) as [Hnb _].
  pose proof (rs_idx _ _ (ri_shape _ _ _ Hri)) as Hi.
  pose proof (rx_inv_tick _ _ _ _ Hri E1) as Hri1. pose proof (rx_dd_keep _ _ _ _ Hri Hdd E1) as Hdd1.
  apply (rx_take_spec w1 P q); [done|apply (ld_range 2)|intros w2 Hn; by apply wp_fail|].
  intros e P' w2 Ha HP' He Hri2 Hlen E2 Hnn. rewrite (proj2 (Z.eqb_neq _ _) Hnn).
  assert (evolve (rx_touched P q) w w2) as E02.
  { etransitivity; [by eapply evolve_mono, E1|]. eapply evolve_mono, E2. unfold rx_touched. tauto. }
  apply wp_assoc, wp_bind. eapply wp_mono; [| |intros ? ? Hx; exfalso; exact Hx].
  { replace (entry P e) with (entry P' e) by (by rewrite HP').
    apply (rx_finish_spec dev queue_id w2 P' q e); [done|exact Hri2| |by rewrite HP'|].
    - by eapply (rx_dd_take w1 P q).
    - intros h a Hh Hg. assert (rx_grant P q a) as Hx; [|by rewrite HP'].
      eapply Hgr; [|exact Hg]. etransitivity; [apply (ch_hw _ _ _ (evolve_changes _ _ _ E02))|exact Hh]. }
  cbn beta. intros _ w' (Hinv & Haddr & Hhdr & w3 & E3 & Hw').
  apply wp_ret. exists e, P'. split; [done|]. split; [done|].
  assert (evolve (rx_touched P q) w w3) as E03.
  { etransitivity; [exact E02|]. eapply evolve_mono, E3. unfold rx_touched. tauto. }
  assert (w_mem w' = w_mem w3) as Hw3 by (by rewrite Hw').
  split; [exact Hinv| |by rewrite Haddr, HP'|exact Hhdr|by exists w3|].
  - rewrite Hw3, <- Hlen. eapply evolve_ld; [exact E3|]. intros b Hb'.
    destruct (rx_size_off w2 P' q b Hri2) as (Hy & Hz & _ & Hn); [by rewrite HP'|].
    split; [|exact Hn]. intros [Hx|Hx]; [apply Hy|apply Hz]; [clear -Hx Hnb|clear -Hx Hi];
      unrq; unfold range in *; lia.
  - rewrite Hw3. exact (ch_mem _ _ _ (evolve_changes _ _ _ E03)).
Qed.

Lemma rx_receive_spec dev queue_id w P q :
  r_addr q = rx_queue dev queue_id -> rx_inv w P q -> rx_dd w q = true ->
  (forall h a, rtc hw_step (w_hw w) h ->
    grants h (addr dev + IXGBE_RDT queue_id) (r_idx q) a -> rx_grant P q a) ->
  wp (rx_receive dev queue_id (r_idx q) (r_desc q (r_idx q)))
    (fun r w' => exists e P', pool_alloc P = Some (e, P') /\ r = entry P (r_buf q) /\
      rx_received dev queue_id w P q e P' w')
    (fun f w' => f = rx_no_buffer /\ pool_alloc P = None) w.
Proof.
  intros Hq Hri Hdd Hgr. pose proof (rs_idx _ _ (ri_shape _ _ _ Hri)) as Hi.
  unfold rx_receive. rewrite <- Hq. apply wp_bind, (wp_vload (fun _ => False)).
  { eapply mapped_sub; [apply (ri_map_d _ _ _ Hri)|unrq; lia|unrq; lia]. }
  intros w1 E1. change (2 ^ 16) with (2 ^ (8 * Z.of_nat 2)). rewrite <- ld_slice by (unrq; lia).
  rewrite (rx_desc_keep w w1 P q) by (done || (unrq; lia)).
  destruct (rx_va_load w1 P q (rx_inv_tick _ _ _ _ Hri E1)) as [Hm Hva].
  apply wp_bind, wp_load; [exact Hm|]. rewrite Hva. by apply rx_replace_spec.
Qed.

(** what the beginning of ixgbe_rx_packet reads *)
Lemma rx_head_loads w P q : rx_inv w P q ->
  mapped (w_mem w) (r_addr q + rxq_rx_index) 2 = true /\ ld 2 (w_mem w) (r_addr q + rxq_rx_index) = r_idx q /\
  mapped (w_mem w) (r_addr q + rxq_descriptors) 8 = true /\ ld 8 (w_mem w) (r_addr q + rxq_descriptors) = r_descs q /\
  mapped (w_mem w) (r_desc q (r_idx q) + rxd_status_error) 4 = true.
Proof.
  intros Hri. pose proof (ri_shape _ _ _ Hri) as Hsh. pose proof (rs_idx _ _ Hsh) as Hi.
  destruct (rx_bounds P q Hsh) as [Hnb _]. split_and!.
  - eapply mapped_sub; [apply (ri_map_q _ _ _ Hri)|unrq; lia|unrq; lia].
  - apply (rm_idx _ _ _ (ri_struct _ _ _ Hri)).
  - eapply mapped_sub; [apply (ri_map_q _ _ _ Hri)|unrq; lia|unrq; lia].
  - apply (rm_descs _ _ _ (ri_struct _ _ _ Hri)).
  - eapply mapped_sub; [apply (ri_map_d _ _ _ Hri)|unrq; lia|unrq; lia].
Qed.
Lemma rx_status_bits w q : let status := ld 4 (w_mem w) (r_desc q (r_idx q) + rxd_status_error) in
  (Z.land status IXGBE_RXDADV_STAT_DD =? 0) = negb (rx_dd w q) /\
  (Z.land status IXGBE_RXDADV_STAT_EOP =? 0) = negb (rx_eop w q).
Proof.
  cbn zeta. change IXGBE_RXDADV_STAT_DD with (2 ^ 0). change IXGBE_RXDADV_STAT_EOP with (2 ^ 1).
  by rewrite !land_pow2_testbit by lia.
Qed.

(** ** ixgbe_rx_packet

    The device may act before the status is read, giving [w1]; the outcome is
    then determined by the descriptor and the free list. *)
Lemma rx_packet_spec dev queue_id w P q :
  r_addr q = rx_queue dev queue_id -> rx_inv w P q ->
  (forall h a, rtc hw_step (w_hw w) h ->
    grants h (addr dev + IXGBE_RDT queue_id) (r_idx q) a -> rx_grant P q a) ->
  wp (ixgbe_rx_packet dev queue_id)
    (fun r w' => exists w1, evolve (fun _ => False) w w1 /\
      ((rx_dd w1 q = false /\ r = NULL /\ w' = w1 /\ rx_inv w1 P q) \/
       (rx_dd w1 q = true /\ rx_eop w1 q = true /\
        exists e P', pool_alloc P = Some (e, P') /\ r = entry P (r_buf q) /\
          rx_received dev queue_id w1 P q e P' w')))
    (fun f _ => exists w1, evolve (fun _ => False) w w1 /\ rx_dd w1 q = true /\
      ((rx_eop w1 q = false /\ f = rx_multi_segment) \/
       (rx_eop w1 q = true /\ pool_alloc P = None /\ f = rx_no_buffer))) w.
Proof.
  intros Hq Hri Hgr. destruct (rx_head_loads w P q Hri) as (Hm1 & Hl1 & Hm2 & Hl2 & Hm3).
  unfold ixgbe_rx_packet. rewrite <- Hq. apply wp_bind, wp_load; [exact Hm1|]. rewrite Hl1.
  apply wp_bind, wp_load; [exact Hm2|]. rewrite Hl2. fold (r_desc q (r_idx q)).
  apply wp_bind, (wp_vload (fun _ => False)); [exact Hm3|]. intros w1 E1.
  pose proof (rx_inv_tick _ _ _ _ Hri E1) as Hri1. destruct (rx_status_bits w1 q) as [-> ->].
  destruct (rx_dd w1 q) eqn:Hdd; cbn [negb]; [|apply wp_ret; exists w1; auto 10].
  destruct (rx_eop w1 q) eqn:Heop; cbn [negb]; [|apply wp_fail; exists w1; auto 10].
  eapply wp_mono; [apply (rx_receive_spec dev queue_id w1 P q Hq Hri1 Hdd)| |].
  - intros h a Hh. apply Hgr. etransitivity; [|exact Hh].
    apply (ch_hw _ _ _ (evolve_changes _ _ _ E1)).
  - intros r w' Hr. exists w1. auto 10.
  - intros f w' [-> Hr]. exists w1. auto 10.
Qed.
End rx.
