(* ===== verification/RxFill.v ===== *)
(** * Filling the receive ring

    The loop of [start_rx_queue] that gives every descriptor a buffer, before
    the queue is enabled: the device owns nothing of the ring yet. *)
From S2P Require Import Prelude Mem Platform Memory Registers Device Ixgbe Ring RxRing.

Section fill.
Context {H : Type} `{NicWriteback H}.
Implicit Types (w : world H) (P : pool) (q : rxq).

(** the pool after [k] entries were taken from the top of its stack *)
Definition pool_take (k : Z) P : pool :=
  set_free (take (length (p_free P) - Z.to_nat k) (p_free P)) P.
(** the [k]-th entry that is taken *)
Definition taken (k : Z) P : option Z := reverse (p_free P) !! Z.to_nat k.

Lemma pool_take_0 P : pool_take 0 P = P.
Proof. unfold pool_take. rewrite Nat.sub_0_r, take_ge by lia. by destruct P. Qed.

Lemma pool_take_alloc k P : 0 <= k ->
  pool_alloc (pool_take k P) =
    if decide (k < Z.of_nat (length (p_free P)))
    then (fun e => (e, pool_take (k + 1) P)) <$> taken k P else None.
Proof.
  intros Hk. unfold pool_alloc, pool_take, taken; cbn.
  destruct (decide (k < Z.of_nat (length (p_free P)))) as [Hlt|Hge].
  - rewrite reverse_lookup by lia.
    destruct (lookup_lt_is_Some_2 (p_free P) (length (p_free P) - S (Z.to_nat k))) as [e He]; [lia|].
    replace (length (p_free P) - Z.to_nat k)%nat with (S (length (p_free P) - S (Z.to_nat k))) by lia.
    rewrite (take_S_r _ _ e) by done. rewrite last_snoc, removelast_last, He. cbn.
    by replace (length (p_free P) - Z.to_nat (k + 1))%nat with (length (p_free P) - S (Z.to_nat k))%nat by lia.
  - replace (length (p_free P) - Z.to_nat k)%nat with 0%nat by lia. done.
Qed.

(** What the slots look like: slot [k] holds the [k]-th entry taken, its
    descriptor the physical address of the entry and no status. *)
Record slot_filled (m : mem) P q k : Prop := {
  sf_desc : exists e, taken k P = Some e /\
    ld 8 m (r_desc q k + rxd_pkt_addr) = entry_phy P e /\
    ld 8 m (r_addr q + rxq_virtual_addresses + 8 * k) = entry P e;
  sf_hdr : ld 8 m (r_desc q k + rxd_hdr_addr) = 0
}.

(** where the loop runs: a queue structure, its ring and pool, apart from each
    other and private to the driver *)
Record fill_env w P q : Prop := {
  fe_n : ring_size (r_n q);
  fe_descs : 0 <= r_descs q < 2 ^ 64;
  fe_disj : disj (r_addr q) (r_size q) (r_descs q) (r_ring q);
  fe_sep : rx_sep P q;
  fe_map_q : mapped (w_mem w) (r_addr q) (r_size q) = true;
  fe_map_d : mapped (w_mem w) (r_descs q) (r_ring q) = true;
  fe_ring : forall a, nic_owns (w_hw w) a -> ~ range (r_descs q) (r_ring q) a;
  fe_queue : forall a, nic_owns (w_hw w) a -> ~ range (r_addr q) (r_size q) a;
  fe_pool : forall a, nic_owns (w_hw w) a -> ~ pool_fp P a;
  fe_ld_descs : ld 8 (w_mem w) (r_addr q + rxq_descriptors) = r_descs q;
  fe_ld_pool : ld 8 (w_mem w) (r_addr q + rxq_mempool) = p_addr P
}.

Record fill_inv P q (k : Z) w : Prop := {
  fi_env : fill_env w P q;
  fi_pool : pool_ok (w_mem w) (pool_take k P);
  fi_slots : forall j, 0 <= j < k -> slot_filled (w_mem w) P q j
}.

(** bytes one iteration writes *)
Definition fill_fp P q (k a : Z) : Prop :=
  range (p_addr P + mp_free_stack_top) 4 a \/ range (r_desc q k) 16 a \/
  range (r_addr q + rxq_virtual_addresses + 8 * k) 8 a.

Lemma fill_env_evolve w w' P q k :
  pool_shape P -> 0 <= k < r_n q -> fill_env w P q -> evolve (fill_fp P q k) w w' -> fill_env w' P q.
Proof.
  intros Hps Hk [Hn Hd Hdj Hsep Hmq Hmd Hr Hq Hp H5 H6] Hev.
  pose proof (ring_size_bounds _ Hn) as Hnb. pose proof (ps_num _ Hps) as Hn0.
  assert (forall o, 0 <= o -> o + 8 <= rxq_num_entries ->
    ld 8 (w_mem w') (r_addr q + o) = ld 8 (w_mem w) (r_addr q + o)) as Hld.
  { intros o ??. eapply evolve_ld; [exact Hev|]. intros b Hb.
    assert (range (r_addr q) (r_size q) b) as Hrb by (unrq; unfold range in *; lia).
    split; [|intros Hx; by apply Hq in Hx]. destruct Hsep as [S1 S2 S3 S4]. intros [Hx|[Hx|Hx]].
    - clear -Hx Hrb S1 Hn0. unlayout. unfold disj, range in *. lia.
    - clear -Hx Hrb Hdj Hk. unrq. unfold disj, range in *. lia.
    - clear -Hx Hb H4 Hk. unrq. unfold range in *. lia. }
  split; try done.
  - by rewrite (evolve_mapped _ _ _ _ _ Hev).
  - by rewrite (evolve_mapped _ _ _ _ _ Hev).
  - intros a Ha. apply Hr. by eapply evolve_own.
  - intros a Ha. apply Hq. by eapply evolve_own.
  - intros a Ha. apply Hp. by eapply evolve_own.
  - rewrite <- H5. apply Hld; unrq; lia.
  - rewrite <- H6. apply Hld; unrq; lia.
Qed.

Lemma slot_filled_evolve w w' P q k j :
  pool_shape P -> 0 <= j < r_n q -> 0 <= k < r_n q -> j <> k -> fill_env w P q ->
  evolve (fill_fp P q k) w w' -> slot_filled (w_mem w) P q j -> slot_filled (w_mem w') P q j.
Proof.
  intros Hps Hj Hk Hne [Hn Hd Hdj [S1 S2 S3 S4] Hmq Hmd Hr Hq Hp H5 H6] Hev [(e & He & Ha & Hv) Hh].
  pose proof (ps_num _ Hps) as Hn0.
  assert (forall o, 0 <= o -> o + 8 <= 16 ->
    ld 8 (w_mem w') (r_desc q j + o) = ld 8 (w_mem w) (r_desc q j + o)) as Hld.
  { intros o ??. eapply evolve_ld; [exact Hev|]. intros b Hb.
    assert (range (r_descs q) (r_ring q) b) as Hrb by (unrq; unfold range in *; lia).
    split; [|intros Hx; by apply Hr in Hx]. intros [Hx|[Hx|Hx]].
    - clear -Hx Hrb S3 Hn0. unlayout. unfold disj, range in *. lia.
    - clear -Hx Hb Hne H3 H4. unrq. unfold range in *. lia.
    - clear -Hx Hrb Hdj Hk. unrq. unfold disj, range in *. lia. }
  split.
  - exists e. split; [done|]. split; [rewrite <- Ha; apply Hld; unrq; lia|]. rewrite <- Hv.
    eapply evolve_ld; [exact Hev|]. intros b Hb.
    assert (range (r_addr q) (r_size q) b) as Hrb by (unrq; unfold range in *; lia).
    split; [|intros Hx; by apply Hq in Hx]. intros [Hx|[Hx|Hx]].
    + clear -Hx Hrb S1 Hn0. unlayout. unfold disj, range in *. lia.
    + clear -Hx Hrb Hdj Hk. unrq. unfold disj, range in *. lia.
    + clear -Hx Hb Hne. unrq. unfold range in *. lia.
  - rewrite <- Hh. apply Hld; unrq; lia.
Qed.

Lemma fill_inv_step P q k w w1 w3 :
  pool_shape P -> 0 <= k < r_n q -> fill_inv P q k w -> pool_ok (w_mem w1) (pool_take (k + 1) P) ->
  evolve (fill_fp P q k) w w1 ->
  evolve (fun a => range (r_desc q k) 16 a \/
    range (r_addr q + rxq_virtual_addresses + 8 * k) 8 a) w1 w3 ->
  slot_filled (w_mem w3) P q k -> fill_inv P q (k + 1) w3.
Proof.
  intros Hps Hk [Henv Hpool Hslots] Hok1 E1 E13 Hslot.
  assert (evolve (fill_fp P q k) w w3) as E3.
  { etransitivity; [exact E1|]. eapply evolve_mono, E13. unfold fill_fp. tauto. }
  split.
  - by eapply fill_env_evolve.
  - pose proof (evolve_changes _ _ _ E13) as [[Hreg Hrd] _ _].
    eapply pool_ok_frame; [|exact Hreg|exact Hok1]. intros a Ha.
    change (pool_fp P a) in Ha. apply Hrd. intros [Hx|Hx].
    + apply (pool_fp_bound P a Hps) in Ha. destruct (fe_sep _ _ _ Henv) as [S1 S2 S3 S4].
      clear -Ha Hx S1 S2 S3 S4 Hk. unrq. unfold disj, range in *. lia.
    + apply (evolve_own _ _ _ _ E1) in Hx. by apply (fe_pool _ _ _ Henv) in Hx.
  - intros j Hj. destruct (decide (j = k)) as [->|Hne]; [done|].
    eapply slot_filled_evolve; [done| |exact Hk|exact Hne|exact Henv|exact E3|apply Hslots]; lia.
Qed.

(** Entry [e] has been taken: it is posted in the descriptor and recorded. *)
Lemma fill_post_spec P q k w w1 e :
  pool_shape P -> 0 <= k < r_n q -> fill_inv P q k w -> taken k P = Some e -> 0 <= e < p_num P ->
  pool_ok (w_mem w1) (pool_take (k + 1) P) -> evolve (fill_fp P q k) w w1 ->
  wp (p ← load 8 (entry P e + pb_buf_addr_phy);
      vstore 8 (r_desc q k + rxd_pkt_addr) p ;;
      vstore 8 (r_desc q k + rxd_hdr_addr) 0 ;;
      store 8 (r_addr q + rxq_virtual_addresses + 8 * k) (entry P e))
    (fun _ w' => fill_inv P q (k + 1) w' /\ evolve (fill_fp P q k) w w') never w1.
Proof.
  intros Hps Hk Hinv He Hei Hpool1 E1. pose proof (fi_env _ _ _ _ Hinv) as Henv.
  pose proof (fill_env_evolve w w1 P q k Hps Hk Henv E1) as Henv1.
  pose proof (entry_bound P e Hps Hei) as Hb. pose proof (ps_bufsz _ Hps) as Hbs. pose proof (ps_base _ Hps) as Hpb.
  pose proof (fe_disj _ _ _ Henv) as Hdj.
  apply wp_bind, wp_load.
  { eapply mapped_sub; [apply (pk_map_bufs _ _ Hpool1)|cbn; unlayout; lia|cbn; unlayout; lia]. }
  pose proof (ho_phy _ _ _ (pk_hdr _ _ Hpool1 e Hei)) as Hphy.
  change (ld 8 (w_mem w1) (entry P e + pb_buf_addr_phy) = entry_phy P e) in Hphy. rewrite Hphy.
  apply wp_assoc, wp_bind. eapply wp_mono; [apply rx_write_desc_spec| |intros ? ? Hx; exfalso; exact Hx].
  { split; [eapply mapped_sub; [apply (fe_map_d _ _ _ Henv1)|unrq; lia|unrq; lia]|].
    intros a Ha Hx. apply (fe_ring _ _ _ Henv1) in Hx. apply Hx. clear -Ha Hk. unrq. unfold range in *. lia. }
  cbn beta. intros _ w2 (E2 & Haddr & Hhdr). apply wp_store.
  { rewrite (evolve_mapped _ _ _ _ _ E2). eapply mapped_sub; [apply (fe_map_q _ _ _ Henv1)|unrq; lia|unrq; lia]. }
  set (w3 := set_mem _ w2).
  assert (evolve (fun a => range (r_desc q k) 16 a \/
    range (r_addr q + rxq_virtual_addresses + 8 * k) 8 a) w1 w3) as E13.
  { etransitivity; [eapply evolve_mono, E2; by left|]. apply evolve_store. by right. }
  assert (entry_phy P e < 2 ^ 64 /\ 0 <= entry_phy P e) as Hpe.
  { pose proof (ps_phy _ Hps). clear -Hb Hbs H3 Hei. unfold entry, entry_phy in *. unlayout. nia. }
  assert (forall o, 0 <= o -> o + 8 <= 16 ->
    ld 8 (w_mem w3) (r_desc q k + o) = ld 8 (w_mem w2) (r_desc q k + o)) as Hkeep.
  { intros o ??. unfold w3; cbn. apply ld_st_out. clear -H3 H4 Hdj Hk. unrq. unfold disj in *. lia. }
  split.
  2:{ etransitivity; [exact E1|]. eapply evolve_mono, E13. unfold fill_fp. tauto. }
  apply (fill_inv_step P q k w w1 w3); try done.
  split; [exists e; split; [done|split]|].
  - rewrite Hkeep, Haddr by (unrq; lia). apply u64_small. lia.
  - unfold w3; cbn. rewrite ld_st_eq. apply Z.mod_small. change (2 ^ (8 * Z.of_nat 8)) with (2 ^ 64).
    clear -Hb Hbs Hpb Hei. unlayout. lia.
  - rewrite Hkeep by (unrq; lia). done.
Qed.

Lemma fill_rx_desc_spec P q k w :
  pool_shape P -> 0 <= k < r_n q -> fill_inv P q k w ->
  wp (fill_rx_desc (r_addr q) k) (fun _ w' => fill_inv P q (k + 1) w' /\ evolve (fill_fp P q k) w w')
    (fun f _ => f = Abort "failed to allocate rx descriptor" /\ Z.of_nat (length (p_free P)) <= k) w.
Proof.
  intros Hps Hk Hinv. pose proof Hinv as [Henv Hpool _]. pose proof Henv as [Hn _ _ _ Hmq _ _ _ _ H5 H6].
  pose proof (ring_size_bounds _ Hn) as Hnb. unfold fill_rx_desc.
  apply wp_bind, wp_load. { eapply mapped_sub; [exact Hmq|unrq; lia|unrq; lia]. }
  rewrite H5. fold (r_desc q k).
  apply wp_bind, wp_load. { eapply mapped_sub; [exact Hmq|unrq; lia|unrq; lia]. }
  rewrite H6. apply wp_bind. pose proof (pkt_buf_alloc_spec (pool_take k P) w Hpool) as Halloc.
  rewrite pool_take_alloc in Halloc by lia. change (p_addr (pool_take k P)) with (p_addr P) in Halloc.
  eapply wp_mono; [exact Halloc| |intros ? ? Hx; exfalso; exact Hx].
  cbn beta. intros r w1 Hr1.
  destruct (decide (k < Z.of_nat (length (p_free P)))) as [Hlt|Hge]; cycle 1.
  { destruct Hr1 as [-> _]. cbn. apply wp_fail. split; [done|lia]. }
  destruct (taken k P) as [e|] eqn:He;
    [|unfold taken in He; apply lookup_ge_None in He; rewrite length_reverse in He; lia].
  cbn [fmap option_fmap option_map] in Hr1. destruct Hr1 as (-> & Hpool1 & Hw1).
  change (entry (pool_take k P) e) with (entry P e).
  assert (0 <= e < p_num P) as Hei.
  { pose proof (ps_bound _ Hps) as Hb. rewrite Forall_forall in Hb. apply Hb.
    by eapply elem_of_reverse, list_elem_of_lookup_2. }
  pose proof (entry_bound P e Hps Hei). pose proof (ps_base _ Hps).
  rewrite (proj2 (Z.eqb_neq (entry P e) NULL)) by (unfold NULL; lia).
  eapply wp_mono; [apply (fill_post_spec P q k w w1 e)|done|intros ? ? Hx; exfalso; exact Hx]; try done.
  rewrite Hw1. apply evolve_store. by left.
Qed.

(** all that the loop writes *)
Definition fill_all P q (a : Z) : Prop := exists k, 0 <= k < r_n q /\ fill_fp P q k a.

(** The loop: each slot gets its own entry, in the order of the free stack. *)
Lemma fill_loop_spec P q w :
  fill_env w P q -> pool_ok (w_mem w) P ->
  wp (for_loop (Z.to_nat (r_n q)) 0 (fill_rx_desc (r_addr q)))
    (fun _ w' => fill_inv P q (r_n q) w' /\ evolve (fill_all P q) w w')
    (fun f _ => f = Abort "failed to allocate rx descriptor" /\ Z.of_nat (length (p_free P)) < r_n q) w.
Proof.
  intros Henv Hok. pose proof (ring_size_bounds _ (fe_n _ _ _ Henv)) as Hnb.
  eapply wp_conseq; [apply (wp_for _ (fun k w' => fill_inv P q k w' /\ evolve (fill_all P q) w w'))|].
  3:{ cbn beta. intros _ w' Hinv. by rewrite Z2Nat.id in Hinv by lia. }
  - split; [|done]. split; [done|by rewrite pool_take_0|lia].
  - intros i w' Hi [Hinv Hev]. eapply wp_mono; [apply (fill_rx_desc_spec P q i w'); [apply Hok|lia|done]| |].
    { cbn beta. intros _ w2 [Hinv2 Hev2]. split; [done|]. etransitivity; [exact Hev|]. eapply evolve_mono, Hev2.
      intros a Ha. exists i. split; [lia|done]. }
    cbn beta. intros f _ [-> Hl]. split; [done|lia].
Qed.
End fill.
