(* ===== verification/Sim.v ===== *)
(** * A scripted machine

    A concrete [Platform] on which the development's definitions run: a device
    that writes scripted bursts into host memory, registers that hold what was
    written, system calls that answer from a script and a bump allocator.  It
    satisfies the interfaces [NicOwnership] and [NicWriteback], so every
    theorem proved against them applies to it; the decision procedures below
    let concrete states be checked by computation. *)
From S2P Require Import Prelude Mem Platform.

Abbreviation burst := (list (Z * Z)).

Record sim := Sim {
  s_bursts : list burst;        (* what the device will write, burst by burst *)
  s_plan : list (list burst);   (* what each register write starts *)
  s_regs : gmap Z (list Z);     (* scripted values of a register; the last stays *)
  s_log : list (Z * Z);         (* register writes, newest first *)
  s_sys : list Z;               (* answers of system calls; 0 when exhausted *)
  s_read : list (Z * Z);        (* answers of read(2) *)
  s_brk : Z                     (* next heap address *)
}.

Definition sim_read (r : Z) (h : sim) : Z * sim :=
  match s_regs h !! r with
  | Some (v :: v' :: l) =>
      (v, Sim (s_bursts h) (s_plan h) (<[r := v' :: l]> (s_regs h)) (s_log h) (s_sys h) (s_read h) (s_brk h))
  | Some [v] => (v, h)
  | _ => (0, h)
  end.
Definition sim_write (r v : Z) (h : sim) : sim :=
  Sim (s_bursts h ++ default [] (head (s_plan h))) (tail (s_plan h)) (s_regs h)
      ((r, v) :: s_log h) (s_sys h) (s_read h) (s_brk h).
Definition sim_dma (h : sim) (m : mem) : sim * burst :=
  (Sim (tail (s_bursts h)) (s_plan h) (s_regs h) (s_log h) (s_sys h) (s_read h) (s_brk h),
   default [] (head (s_bursts h))).
Definition sim_next (h : sim) : sim :=
  Sim (s_bursts h) (s_plan h) (s_regs h) (s_log h) (tail (s_sys h)) (s_read h) (s_brk h).
(** The page size is fixed and mappings are placed above [2 ^ 40]. *)
Definition sim_sys (c : syscall) (h : sim) : Z * sim :=
  match c with
  | Sys_sysconf_pagesize => (4096, h)
  | Sys_mmap size _ _ _ _ =>
      let r := default 0 (head (s_sys h)) in
      (if (2 ^ 40 <=? r) && (r + size <? 2 ^ 47) then r else -1, sim_next h)
  | _ => (default 0 (head (s_sys h)), sim_next h)
  end.
Definition sim_sys_read (fd n : Z) (h : sim) : Z * Z * sim :=
  let '(r, v) := default (0, 0) (head (s_read h)) in
  (r, if Z.land (u64 v) 0x7fffffffffffff <? 2 ^ 40 then v else 0,
   Sim (s_bursts h) (s_plan h) (s_regs h) (s_log h) (s_sys h) (tail (s_read h)) (s_brk h)).
Definition sim_malloc (size : Z) (h : sim) : Z * sim :=
  (if (0 <? s_brk h) && (s_brk h + size <? 2 ^ 40) then s_brk h else 0,
   Sim (s_bursts h) (s_plan h) (s_regs h) (s_log h) (s_sys h) (s_read h)
       (s_brk h + Z.max 64 ((size + 63) / 64 * 64))).

#[export] Instance sim_platform : Platform sim := {|
  mmio_read := sim_read; mmio_write := sim_write; dma := sim_dma; sys := sim_sys;
  sys_read := sim_sys_read; errno := fun _ => 12; malloc := sim_malloc;
  heap_free := fun _ h => h
|}.

#[export] Program Instance sim_host : HostLaws sim := {}.
Next Obligation. done. Qed.
Next Obligation.
  intros fd h. cbn. unfold sim_sys_read. destruct (default (0, 0) (head (s_read h))) as [r v]. cbn [fst snd].
  destruct (Z.ltb_spec (Z.land (u64 v) 0x7fffffffffffff) (2 ^ 40)); [done|]. by vm_compute.
Qed.
Next Obligation.
  intros size prot flags fd off h p. subst p. cbn.
  destruct (_ && _) eqn:E; [right|by left]. apply andb_true_iff in E as [?%Z.leb_le ?%Z.ltb_lt]. lia.
Qed.
Next Obligation.
  intros n h p. subst p. cbn. destruct (_ && _) eqn:E; [right|by left].
  apply andb_true_iff in E as [?%Z.ltb_lt ?%Z.ltb_lt]. lia.
Qed.

(** the addresses a list of bursts writes *)
Definition touched (bs : list burst) : list Z := (concat bs).*1.

#[global] Arguments touched : simpl never.

Lemma touched_cons b bs : touched (b :: bs) = b.*1 ++ touched bs.
Proof. unfold touched. cbn. by rewrite fmap_app. Qed.
Lemma touched_app bs cs : touched (bs ++ cs) = touched bs ++ touched cs.
Proof. unfold touched. by rewrite concat_app, fmap_app. Qed.

Lemma sim_read_bursts r h : s_bursts (sim_read r h).2 = s_bursts h /\ s_plan (sim_read r h).2 = s_plan h.
Proof. unfold sim_read. destruct (s_regs h !! r) as [[|v [|v' l]]|]; done. Qed.

#[export] Program Instance sim_ownership : NicOwnership sim := {|
  nic_owns h a := a ∈ touched (s_bursts h);
  grants h r v a := a ∈ touched (default [] (head (s_plan h)))
|}.
Next Obligation.
  intros h m a v. cbn. destruct (s_bursts h) as [|b bs]; cbn; [by rewrite elem_of_nil|].
  intros Hin. rewrite touched_cons, elem_of_app. left.
  by apply (list_elem_of_fmap_2 fst) in Hin.
Qed.
Next Obligation.
  intros h m a. cbn. destruct (s_bursts h) as [|b bs]; cbn; [done|].
  rewrite touched_cons, elem_of_app. auto.
Qed.
Next Obligation. intros h r a. cbn. by destruct (sim_read_bursts r h) as [-> _]. Qed.
Next Obligation. intros h r v a. cbn. rewrite touched_app, elem_of_app. auto. Qed.

(** At most one burst touches a descriptor: the one that writes it back. *)
Definition touches (d : Z) (b : burst) : bool := existsb (fun w => (d <=? w.1) && (w.1 <? d + 16)) b.
Fixpoint once (d : Z) (bs : list burst) : bool :=
  match bs with
  | [] => true
  | b :: bs' => (if touches d b then forallb (fun c => negb (touches d c)) bs' else true) && once d bs'
  end.

Lemma touches_spec d bs a : forallb (fun c => negb (touches d c)) bs = true ->
  range d 16 a -> a ∉ touched bs.
Proof.
  intros Hf Ha. induction bs as [|b bs IH]; [apply not_elem_of_nil|]. cbn in Hf.
  apply andb_true_iff in Hf as [Hb Hf]. rewrite touched_cons, elem_of_app. intros [Hx|Hx]; [|by apply IH].
  apply list_elem_of_fmap in Hx as (w & -> & Hw). apply negb_true_iff in Hb.
  assert (touches d b = true); [|congruence]. apply existsb_exists. exists w.
  split; [by apply list_elem_of_In|]. unfold range in *. lia.
Qed.

Lemma once_app_l d bs cs : once d (bs ++ cs) = true -> once d bs = true.
Proof.
  induction bs as [|b bs IH]; cbn; [done|]. intros [H1 H2]%andb_true_iff.
  apply andb_true_iff. split; [|by apply IH]. destruct (touches d b); [|done].
  rewrite forallb_app in H1. by apply andb_true_iff in H1 as [? _].
Qed.

Lemma untouched_dd d o b m : 0 <= o -> o + 4 <= 16 -> touches d b = false ->
  dd_set (wr_all b m) d o = dd_set m d o.
Proof.
  intros Ho1 Ho2 Ht. apply dd_set_ext. intros a Ha. apply rd_wr_all_out.
  intros ([a' v] & -> & Hin)%list_elem_of_fmap.
  assert (touches d b = true); [|congruence]. apply existsb_exists. exists (a', v).
  split; [by apply list_elem_of_In|]. cbn in *. unfold range in *. lia.
Qed.

#[export] Program Instance sim_writeback : NicWriteback sim := {|
  desc_at h d o := 0 <= o /\ o + 4 <= 16 /\ once d (s_bursts h ++ concat (s_plan h)) = true
|}.
Next Obligation.
  intros h h' d o [[m ->]|[r ->]] (? & ? & Ho); split_and!; try done; cbn.
  - destruct (s_bursts h) as [|b bs]; [done|]. cbn in *. by apply andb_true_iff in Ho as [_ ?].
  - by destruct (sim_read_bursts r h) as [-> ->].
Qed.
Next Obligation.
  intros h r v d o (? & ? & Ho). split_and!; try done. cbn. rewrite <- app_assoc.
  by destruct (s_plan h).
Qed.
Next Obligation.
  intros h m d o a (Ho1 & Ho2 & Ho) H1 H2 Ha. cbn in *.
  destruct (s_bursts h) as [|b bs]; cbn in *; [congruence|].
  change (foldl _ m b) with (wr_all b m) in H2.
  destruct (touches d b) eqn:Ht; [|rewrite untouched_dd in H2 by done; congruence].
  apply andb_true_iff in Ho as [Ho _]. rewrite forallb_app in Ho.
  apply andb_true_iff in Ho as [Ho _]. by eapply touches_spec.
Qed.

Lemma sim_steps_plan h h' : rtc hw_step h h' -> s_plan h' = s_plan h.
Proof.
  induction 1 as [|h1 h2 h3 [[m ->]|[r ->]] _ ->]; [done|done|]. cbn.
  by destruct (sim_read_bursts r h1).
Qed.

(** ** Checking by computation *)
Lemma forallb_touched (p : Z -> bool) bs a :
  forallb p (touched bs) = true -> a ∈ touched bs -> p a = true.
Proof. rewrite forallb_forall. intros Hf Ha. by apply Hf, list_elem_of_In. Qed.

(** decision of [forall i, lo <= i < hi -> p i] *)
Definition forall_below (n : Z) (p : Z -> bool) : bool := forallb p (seqZ 0 n).
Lemma forall_below_spec n p i : forall_below n p = true -> 0 <= i < n -> p i = true.
Proof.
  unfold forall_below. rewrite forallb_forall. intros Hf Hi. apply Hf, list_elem_of_In, elem_of_seqZ. lia.
Qed.

Definition rangeb (a n b : Z) : bool := (a <=? b) && (b <? a + n).
Lemma rangeb_spec a n b : rangeb a n b = true <-> range a n b.
Proof. unfold rangeb, range. rewrite andb_true_iff, Z.leb_le, Z.ltb_lt. done. Qed.
Definition disjb (a n b k : Z) : bool := (a + n <=? b) || (b + k <=? a).
Lemma disjb_spec a n b k : disjb a n b k = true <-> disj a n b k.
Proof. unfold disjb, disj. rewrite orb_true_iff, !Z.leb_le. done. Qed.
