(* ===== verification/MemoryProps.v ===== *)
(** * Properties of memory.c

    The packet buffer pool as a stack of free entries, and memory_allocate_dma as
    a sequence of system calls with their answers ([dma_allocated]).  The pool's
    constructor is in InitProps.v. *)
From S2P Require Import Prelude Mem Platform Trace Memory Sim.

(** ** Deciding the representation predicate on a concrete memory *)
Section check.
Implicit Types (m : mem) (P : pool).

Definition pool_shapeb P : bool :=
  (0 <=? p_num P) && (pb_data <=? p_bufsz P) && (p_bufsz P <? 2 ^ 32) &&
  (p_num P * p_bufsz P <? 2 ^ 32) &&
  (0 <? p_base P) && (p_base P + p_num P * p_bufsz P <? 2 ^ 64) &&
  (0 <=? p_phy P) && (p_phy P + p_num P * p_bufsz P <? 2 ^ 64) &&
  (0 <? p_addr P) && (p_addr P <? 2 ^ 64) &&
  disjb (p_addr P) (sizeof_mempool + 4 * p_num P) (p_base P) (p_num P * p_bufsz P) &&
  bool_decide (NoDup (p_free P)) && forallb (fun i => (0 <=? i) && (i <? p_num P)) (p_free P).

Definition hdr_okb m P i : bool :=
  (ld 8 m (entry P i + pb_buf_addr_phy) =? entry_phy P i) &&
  (ld 8 m (entry P i + pb_mempool) =? p_addr P) && (ld 4 m (entry P i + pb_mempool_idx) =? i).

Definition pool_structb m P : bool :=
  (ld 8 m (p_addr P + mp_base_addr) =? p_base P) &&
  (ld 8 m (p_addr P + mp_base_addr_phy) =? p_phy P) &&
  (ld 4 m (p_addr P + mp_buf_size) =? p_bufsz P) &&
  (ld 4 m (p_addr P + mp_num_entries) =? p_num P) &&
  (ld 4 m (p_addr P + mp_free_stack_top) =? Z.of_nat (length (p_free P))) &&
  forallb (fun '(k, i) => ld 4 m (p_addr P + mp_free_stack + 4 * Z.of_nat k) =? i)
    (imap pair (p_free P)).

Definition pool_okb m P : bool :=
  pool_shapeb P && mapped m (p_addr P) (sizeof_mempool + 4 * p_num P) &&
  mapped m (p_base P) (p_num P * p_bufsz P) && pool_structb m P &&
  forall_below (p_num P) (hdr_okb m P).

Lemma forallb_imap {A} (f : nat * A -> bool) (l : list A) k x :
  forallb f (imap pair l) = true -> l !! k = Some x -> f (k, x) = true.
Proof.
  rewrite forallb_forall. intros Hf Hk. apply Hf, list_elem_of_In, list_elem_of_lookup.
  exists k. by rewrite list_lookup_imap, Hk.
Qed.

Lemma pool_okb_sound m P : pool_okb m P = true -> pool_ok m P.
Proof.
  unfold pool_okb, pool_shapeb, pool_structb, hdr_okb.
  rewrite !andb_true_iff, !Z.leb_le, !Z.ltb_lt, !Z.eqb_eq, disjb_spec, bool_decide_eq_true.
  intros ((((Hs & ?) & ?) & ((((?&?)&?)&?)&?) & Hst) & Hh). split; try done.
  - split; try tauto; try lia. apply Forall_forall. intros i Hi.
    destruct Hs as [_ Hs]. rewrite forallb_forall in Hs.
    apply list_elem_of_In, Hs in Hi. lia.
  - split; try done. intros k i Hk. apply (forallb_imap _ _ _ _ Hst) in Hk. lia.
  - intros i Hi. eapply forall_below_spec in Hi; [|exact Hh]. cbn beta in Hi.
    rewrite !andb_true_iff, !Z.eqb_eq in Hi. by destruct Hi as [[? ?] ?].
Qed.
End check.

(** ** Clients of a pool

    A client allocates and frees buffers in any order; [live] are the buffers
    it holds. *)
Inductive client_op := C_alloc | C_free (k : nat).

Section client.
Context {H : Type} `{Platform H}.
Implicit Types (w : world H) (P : pool).

Fixpoint run_client (mempool : Z) (ops : list client_op) (live : list Z) : M (world H) (list Z) :=
  match ops with
  | [] => mret live
  | C_alloc :: ops' =>
      buf ← pkt_buf_alloc mempool;
      run_client mempool ops' (if buf =? NULL then live else live ++ [buf])
  | C_free k :: ops' =>
      match live !! k with
      | Some buf => pkt_buf_free buf ;; run_client mempool ops' (delete k live)
      | None => run_client mempool ops' live
      end
  end.

(** The live entries [ids] and the free ones are exactly all entries. *)
Definition accounted P (ids : list Z) : Prop := ids ++ p_free P ≡ₚ seqZ 0 (p_num P).

Lemma entry_not_null P i : pool_shape P -> 0 <= i < p_num P -> (entry P i =? NULL) = false.
Proof.
  intros Hs Hi. pose proof (entry_bound P i Hs Hi). pose proof (ps_base _ Hs).
  apply Z.eqb_neq. unfold NULL. lia.
Qed.

Lemma accounted_nodup P ids : accounted P ids -> NoDup (ids ++ p_free P).
Proof. unfold accounted. intros ->. apply NoDup_seqZ. Qed.

Lemma accounted_bound P ids i : accounted P ids -> i ∈ ids -> 0 <= i < p_num P.
Proof.
  intros Ha Hi. assert (i ∈ seqZ 0 (p_num P)) as Hx; [|apply elem_of_seqZ in Hx; lia].
  unfold accounted in Ha. rewrite <- Ha. apply elem_of_app. by left.
Qed.

Lemma accounted_alloc P ids i P' : pool_shape P -> pool_alloc P = Some (i, P') ->
  accounted P ids -> accounted P' (ids ++ [i]).
Proof.
  intros Hs Ha. destruct (pool_shape_alloc P i P' Hs Ha) as (_ & _ & _ & Hf & HP').
  unfold accounted. rewrite Hf, HP'. cbn. intros <-. rewrite <- app_assoc.
  apply Permutation_app_head. by rewrite Permutation_app_comm.
Qed.

Lemma accounted_free P ids k i : ids !! k = Some i -> accounted P ids ->
  accounted (pool_free i P) (delete k ids).
Proof.
  intros Hk. unfold accounted. cbn. intros <-. rewrite (delete_Permutation ids k i Hk) at 2.
  rewrite app_assoc. rewrite (Permutation_app_comm (_ ++ _) [i]). done.
Qed.

Lemma run_client_spec ops ids P w :
  pool_ok (w_mem w) P -> accounted P ids ->
  wp (run_client (p_addr P) ops (entry P <$> ids)) (fun live' w' => exists ids' free',
    live' = entry P <$> ids' /\ pool_ok (w_mem w') (set_free free' P) /\
    accounted (set_free free' P) ids') never w.
Proof.
  revert ids P w. induction ops as [|[|k] ops IH]; intros ids P w Hok Hacc; cbn [run_client].
  - apply wp_ret. exists ids, (p_free P). split_and!; [done|by destruct P|by destruct P].
  - pose proof (pk_shape _ _ Hok) as Hs. apply wp_bind.
    eapply wp_conseq; [by apply pkt_buf_alloc_spec|]. cbn beta. intros r w' Hr.
    destruct (pool_alloc P) as [[i P']|] eqn:Ha.
    + destruct Hr as (-> & Hok' & _). destruct (pool_shape_alloc P i P' Hs Ha) as (_ & Hi & _ & _ & HP').
      rewrite entry_not_null by done.
      replace (entry P <$> ids) with (entry P' <$> ids) by (by rewrite HP').
      replace (entry P i) with (entry P' i) by (by rewrite HP').
      replace (p_addr P) with (p_addr P') by (by rewrite HP').
      replace ((entry P' <$> ids) ++ [entry P' i]) with (entry P' <$> (ids ++ [i]))
        by (by rewrite fmap_app).
      eapply wp_conseq; [apply (IH _ _ _ Hok'); by eapply accounted_alloc|].
      rewrite HP'. done.
    + destruct Hr as (-> & ->). cbn. by apply IH.
  - rewrite list_lookup_fmap. destruct (ids !! k) as [i|] eqn:Hk; cbn; [|by apply IH].
    pose proof (accounted_bound P ids i Hacc (list_elem_of_lookup_2 _ _ _ Hk)) as Hi.
    apply wp_bind. eapply wp_conseq; [apply pkt_buf_free_spec; [exact Hok|exact Hi|]|].
    { apply accounted_nodup, NoDup_app in Hacc as (_ & Hd & _). apply Hd.
      by eapply list_elem_of_lookup_2. }
    cbn beta. intros _ w' [Hok' _].
    replace (delete k (entry P <$> ids)) with (entry (pool_free i P) <$> delete k ids)
      by apply list_fmap_delete.
    apply (IH _ (pool_free i P) _ Hok'). by apply accounted_free.
Qed.
End client.

(** ** The allocation functions *)
Section allocate.
Context {H : Type} `{HostLaws H}.
Implicit Types (w : world H).

(** The only ways these functions end early: a checked call failed, or the
    page has no physical address. *)
Definition alloc_failure (f : failure) : Prop :=
  (exists n, f = Exit n) \/ f = Abort "failed to translate virtual address to physical address".

(** the memory map and the globals are untouched *)
Definition same_map w w' : Prop :=
  regions (w_mem w') = regions (w_mem w) /\ huge_pg_id w' = huge_pg_id w.

(** the physical address of [virt], given the page map's entry [v] for its page *)
Definition entry_phys (virt v : Z) : Z := Z.land (u64 v) 0x7fffffffffffff * 4096 + virt mod 4096.
(** looking [virt] up in the page map, and finding [v] *)
Definition pagemap_calls (virt fd n v s c : Z) : list event :=
  [Call Sys_sysconf_pagesize 4096; Call (Sys_open "/proc/self/pagemap" O_RDONLY 0) fd;
   Call (Sys_lseek fd (virt / 4096 * 8) SEEK_SET) s; Read fd 8 n v; Call (Sys_close fd) c].

Lemma virt_to_phys_calls virt w : 0 <= virt < 2 ^ 64 ->
  wp (virt_to_phys virt) (fun r w' => exists fd n v s c, w' = set_hw (w_hw w') w /\
      answers (w_hw w) (pagemap_calls virt fd n v s c) (w_hw w') /\ fd <> -1 /\ s <> -1 /\ n <> -1 /\
      u64 v <> 0 /\ r = entry_phys virt v)
    (fun f _ => alloc_failure f) w.
Proof.
  intros Hv. unfold virt_to_phys. apply wp_bind, wp_syscall. intros ps h1 Hps.
  assert (ps = 4096) as -> by (rewrite <- (page_size_4k (w_hw w)), Hps; done).
  assert (forall n, alloc_failure (Exit n)) as Hexit by (left; eauto).
  change (u64 4096) with 4096. pose proof (Z.div_mod virt 4096 ltac:(done)) as Hdm.
  pose proof (Z.mod_pos_bound virt 4096 eq_refl) as Hoff. rewrite (u64_small (virt / 4096 * 8)) by ulia.
  apply wp_bind, wp_check_syscall; [auto|]. intros fd h2 Hopen Hfd. cbn [w_hw set_hw] in Hopen.
  apply wp_bind, wp_check_syscall; [auto|]. intros s h3 Hseek Hs. cbn [w_hw set_hw] in Hseek.
  apply wp_bind. unfold wp at 1; cbn. pose proof (pagemap_frames fd h3) as Hfr.
  destruct (sys_read fd 8 h3) as [[n v] h4] eqn:Hread. cbn in Hfr |- *.
  apply wp_bind, wp_check_err, wp_ret. split; [auto|]. intros Hn.
  apply wp_bind, wp_syscall. intros c h5 Hclose. cbn [w_hw set_hw] in Hclose. destruct (Z.eqb_spec (u64 v) 0) as [|Hv0].
  { apply wp_fail. by right. }
  apply wp_ret. exists fd, n, v, s, c. cbn [w_hw set_hw]. split; [done|]. split; [unfold pagemap_calls; replay|]. split_and!; try done.
  assert (0 <= Z.land (u64 v) 0x7fffffffffffff) as H0l by (apply Z.land_nonneg; right; done).
  unfold entry_phys. apply u64_small. change (2 ^ 40) with 1099511627776 in Hfr. change (2 ^ 64) with 18446744073709551616. lia.
Qed.

Lemma virt_to_phys_spec virt w :
  0 <= virt < 2 ^ 64 ->
  wp (virt_to_phys virt) (fun r w' => w_mem w' = w_mem w /\ same_map w w' /\
      exists frame, 0 <= frame < 2 ^ 40 /\ r = frame * 4096 + virt mod 4096)
    (fun f _ => alloc_failure f) w.
Proof.
  intros Hv. eapply wp_conseq; [by apply virt_to_phys_calls|]. cbn beta.
  intros r w' (fd & n & v & s & c & Hw & Hl & _ & _ & _ & _ & ->). rewrite Hw. split; [done|]. split; [done|].
  destruct Hl as (h1 & _ & h2 & _ & h3 & _ & h4 & Hr & _). pose proof (pagemap_frames fd h3) as Hfr. rewrite Hr in Hfr.
  exists (Z.land (u64 v) 0x7fffffffffffff). split; [|done]. split; [apply Z.land_nonneg; right; done|exact Hfr].
Qed.

Lemma round_2mb_bounds size : 0 < size <= 2 ^ 64 - 2 ^ 21 ->
  (2 ^ 21 | round_2mb size) /\ size <= round_2mb size < size + 2 ^ 21.
Proof.
  intros Hs. unfold round_2mb. change (Z.shiftl 1 21) with (2 ^ 21). zify_pre.
  pose proof (Z.div_mod size (2 ^ 21)) as Hd. pose proof (Z.mod_pos_bound size (2 ^ 21)) as Hm.
  destruct (Z.eqb_spec (size mod 2 ^ 21) 0) as [He|He].
  - split; [by apply Z.mod_divide|lia].
  - rewrite Z.shiftl_mul_pow2, Z.shiftr_div_pow2 by lia.
    change (2 ^ 21) with 2097152 in *. rewrite (u64_small (size / 2097152 + 1)) by ulia.
    rewrite u64_small by ulia. split; [by apply Z.divide_factor_r|lia].
Qed.

(** creating a file of huge pages and mapping it *)
Definition huge_calls (id size pid fd t p k c u : Z) : list event :=
  let path := huge_path pid id in
  [Call Sys_getpid pid; Call (Sys_open path (Z.lor O_CREAT O_RDWR) S_IRWXU) fd; Call (Sys_ftruncate fd size) t;
   Call (Sys_mmap size PROT_RW (Z.lor MAP_SHARED MAP_HUGETLB) fd 0) p; Call (Sys_mlock p size) k;
   Call (Sys_close fd) c; Call (Sys_unlink path) u].

(** [r] is the region the kernel mapped, and where the page map says it is *)
Definition dma_allocated size w (r : dma_memory) w' : Prop :=
  regions (w_mem w') = (virt r, round_2mb size) :: regions (w_mem w) /\
  huge_pg_id w' = u32 (huge_pg_id w + 1) /\
  exists pid fd t k c u fd2 n v s c2,
    answers (w_hw w) (huge_calls (huge_pg_id w) (round_2mb size) pid fd t (virt r) k c u ++
      [Act; Act] ++ pagemap_calls (virt r) fd2 n v s c2) (w_hw w') /\
    fd <> -1 /\ t <> -1 /\ virt r <> -1 /\ k <> -1 /\ fd2 <> -1 /\ s <> -1 /\ n <> -1 /\
    u64 v <> 0 /\ phy r = entry_phys (virt r) v.

Lemma dma_allocated_bounds size w r w' : dma_allocated size w r w' ->
  0 < virt r /\ virt r + round_2mb size < 2 ^ 47 /\ 0 <= phy r < 2 ^ 53.
Proof.
  intros (_ & _ & pid & fd & t & k & c & u & fd2 & n & v & s & c2 & Hl & _ & _ & Hp & _ & _ & _ & _ & _ & ->).
  unfold huge_calls, pagemap_calls in Hl. cbn [answers app] in Hl.
  destruct Hl as (h1 & _ & h2 & _ & h3 & _ & h4 & Hmm & h5 & _ & h6 & _ & h7 & _ & m1 & m2 & h8 & _ & h9 & _ & h10 & _ & h11 & Hr & _).
  pose proof (mmap_area (round_2mb size) PROT_RW (Z.lor MAP_SHARED MAP_HUGETLB) fd 0 h3) as Ha. rewrite Hmm in Ha.
  pose proof (pagemap_frames fd2 h10) as Hfr. rewrite Hr in Hfr. cbn in Ha, Hfr. destruct Ha as [|[Hlo Hhi]]; [done|].
  split; [exact Hlo|]. split; [exact Hhi|]. unfold entry_phys. pose proof (Z.mod_pos_bound (virt r) 4096 eq_refl).
  assert (0 <= Z.land (u64 v) 0x7fffffffffffff) as H0l by (apply Z.land_nonneg; right; done). 
  change (2 ^ 40) with 1099511627776 in *. change (2 ^ 53) with 9007199254740992. lia.
Qed.

Lemma memory_allocate_dma_spec size w :
  0 < size <= 2 ^ 64 - 2 ^ 21 ->
  wp (memory_allocate_dma size) (dma_allocated size w) (fun f _ => alloc_failure f) w.
Proof.
  intros Hs. destruct (round_2mb_bounds size Hs) as [_ Hr].
  assert (forall n, alloc_failure (Exit n)) as Hexit by (left; eauto).
  unfold memory_allocate_dma. apply wp_bind, wp_gets, wp_bind, wp_modify, wp_bind, wp_syscall.
  intros pid h1 E1. apply wp_bind, wp_check_syscall; [auto|]. intros fd h2 E2 Hfd.
  apply wp_bind, wp_check_syscall; [auto|]. intros t h3 E3 Ht.
  apply wp_bind, wp_bind, wp_check_syscall; [auto|]. intros p h4 E4 Hp.
  apply wp_bind, wp_modify, wp_ret, wp_bind, wp_check_syscall; [auto|]. intros k h5 E5 Hk.
  apply wp_bind, wp_syscall. intros c h6 E6. apply wp_bind, wp_syscall. intros u h7 E7.
  cbn [w_hw set_hw set_mem] in E1, E2, E3, E4, E5, E6, E7.
  pose proof (mmap_area (round_2mb size) PROT_RW (Z.lor MAP_SHARED MAP_HUGETLB) fd 0 h3) as Ha.
  rewrite E4 in Ha. cbn in Ha. destruct Ha as [|[Hlo Hhi]]; [done|]. set (w7 := set_hw h7 _).
  assert (regions (w_mem w7) = (p, round_2mb size) :: regions (w_mem w)) as Hr7 by done.
  assert (forall m, regions m = regions (w_mem w7) -> mapped m p (Z.of_nat 1) = true) as Hm.
  { intros m Hrm. rewrite Hr7 in Hrm. eapply mapped_head; [exact Hrm|]. clear -Hs Hr. lia. }
  apply wp_bind, wp_bind, wp_tick. intros w8 Hr8 Hid8 Hh8. apply wp_load; [by apply Hm|].
  apply wp_bind, wp_bind, wp_tick. intros w9 Hr9 Hid9 Hh9. apply wp_store; [apply Hm; congruence|].
  apply wp_bind. eapply wp_conseq; [apply virt_to_phys_calls; ulia|]. cbn beta.
  intros phy w' (fd2 & n & v & s & c2 & Hw & Hl & Hfd2 & Hs2 & Hn & Hv & ->). apply wp_ret.
  cbn [w_hw set_mem] in Hl. rewrite Hh9, Hh8 in Hl. rewrite Hw. split; [cbn; by rewrite regions_st, Hr9, Hr8|].
  split; [cbn; by rewrite Hid9, Hid8|].
  exists pid, fd, t, k, c, u, fd2, n, v, s, c2. cbn [w_hw set_hw virt phy]. split; [|split_and!; done].
  unfold huge_calls. cbn [app answers]. replay. exact Hl.
Qed.

Definition buf_size_of (entry_size : Z) : Z := if entry_size =? 0 then 2048 else entry_size.

End allocate.

(** ** A pool built by running the code on the scripted machine *)
Definition demo_sim : sim :=
  Sim [] [] ∅ [] [1; 3; 0; 0x10000000000; 0; 0; 0; 4; 0; 0] [(8, 0x8000000000012345)] 0x1000.
Definition demo_world : world sim := World (Mem ∅ []) demo_sim 0.
Definition run {A} (c : M (world sim) A) (w : world sim) (d : A) : A * world sim :=
  match c w with Ok a w' => (a, w') | Err _ w' => (d, w') | Hang => (d, w) end.
Definition demo : Z * world sim :=
  Eval vm_compute in run (memory_allocate_mempool 4 2048) demo_world 0.
Definition demo_pool : pool := fresh_pool 0x1000 (DmaMemory 0x10000000000 0x12345000) 4 2048.
Example demo_ok : demo.1 = p_addr demo_pool /\ pool_ok (w_mem demo.2) demo_pool.
Proof. split; [done|]. apply pool_okb_sound. by vm_compute. Defined.

(** ** The properties *)

(** C6: whatever sequence of pkt_buf_alloc and pkt_buf_free a client of a pool
    performs, none of the calls faults, the structure of the pool stays intact,
    and every entry is either free or held exactly once: no buffer is handed
    out twice and none is lost. *)
Theorem pool_never_hands_out_twice {H} `{Platform H} ops ids P (w : world H) :
  pool_ok (w_mem w) P -> accounted P ids ->
  wp (run_client (p_addr P) ops (entry P <$> ids)) (fun live' w' => exists ids' free',
    live' = entry P <$> ids' /\ pool_ok (w_mem w') (set_free free' P) /\
    NoDup live' /\ ids' ++ free' ≡ₚ seqZ 0 (p_num P)) never w.
Proof.
  intros Hok Hacc. eapply wp_conseq; [by apply run_client_spec|]. cbn beta.
  intros live' w' (ids' & free' & -> & Hok' & Hacc'). exists ids', free'. split_and!; try done.
  pose proof (accounted_nodup _ _ Hacc') as Hnd. apply NoDup_app in Hnd as (Hnd & _).
  pose proof (pk_shape _ _ Hok) as Hs.
  apply NoDup_fmap_2_strong; [|done]. intros i j Hi Hj He.
  pose proof (accounted_bound _ _ i Hacc' Hi). pose proof (accounted_bound _ _ j Hacc' Hj).
  destruct (decide (i = j)) as [|Hne]; [done|].
  pose proof (entry_sep P i j Hs) as Hsep. pose proof (ps_bufsz _ Hs).
  unfold disj in Hsep. cbn in *. unlayout. lia.
Qed.
Lemma pool_never_hands_out_twice_witness : exists Q : list Z -> world sim -> Prop,
  wp (run_client 0x1000 [C_alloc; C_alloc; C_free 0; C_alloc] []) Q never demo.2.
Proof.
  eexists. apply (pool_never_hands_out_twice [C_alloc; C_alloc; C_free 0; C_alloc] [] demo_pool demo.2).
  - apply pool_okb_sound. by vm_compute.
  - by vm_compute.
Defined.

(** C38: pkt_buf_alloc on a pool pops the free stack: it returns NULL and
    changes nothing exactly when no entry is free; otherwise it returns the
    address of the entry on top, which is in bounds, and stores only the new
    stack height. *)
Theorem pkt_buf_alloc_refines {H} `{Platform H} P (w : world H) :
  pool_ok (w_mem w) P ->
  wp (pkt_buf_alloc (p_addr P)) (fun r w' =>
    match pool_alloc P with
    | None => r = NULL /\ p_free P = [] /\ w' = w
    | Some (i, P') => r = entry P i /\ r <> NULL /\ p_free P = p_free P' ++ [i] /\
        p_base P <= r /\ r + p_bufsz P <= p_base P + p_num P * p_bufsz P /\
        pool_ok (w_mem w') P' /\
        w' = set_mem (st 4 (p_addr P + mp_free_stack_top) (Z.of_nat (length (p_free P'))) (w_mem w)) w
    end) never w.
Proof.
  intros Hok. pose proof (pk_shape _ _ Hok) as Hs.
  eapply wp_conseq; [by apply pkt_buf_alloc_spec|]. cbn beta. intros r w'.
  destruct (pool_alloc P) as [[i P']|] eqn:Ha.
  - intros (-> & Hok' & Hw). destruct (pool_shape_alloc P i P' Hs Ha) as (_ & Hi & _ & Hf & _).
    pose proof (entry_bound P i Hs Hi). pose proof (entry_not_null P i Hs Hi) as Hn.
    apply Z.eqb_neq in Hn. split_and!; try done; lia.
  - intros [-> ->]. split_and!; try done. unfold pool_alloc in Ha.
    destruct (last (p_free P)) eqn:E; [done|]. by apply last_None.
Qed.
Lemma pkt_buf_alloc_refines_witness : exists Q : Z -> world sim -> Prop,
  wp (pkt_buf_alloc 0x1000) Q never demo.2.
Proof.
  eexists. apply (pkt_buf_alloc_refines demo_pool demo.2). apply pool_okb_sound. by vm_compute.
Defined.

(** C27: freeing a buffer and allocating again returns the same buffer and
    leaves the pool as it was: the free stack is last-in first-out. *)
Theorem pkt_buf_free_alloc_roundtrip {H} `{Platform H} P i (w : world H) :
  pool_ok (w_mem w) P -> 0 <= i < p_num P -> i ∉ p_free P ->
  wp (pkt_buf_free (entry P i) ;; pkt_buf_alloc (p_addr P)) (fun r w' =>
    r = entry P i /\ pool_ok (w_mem w') P) never w.
Proof.
  intros Hok Hi Hni. apply wp_bind. eapply wp_conseq; [by apply pkt_buf_free_spec|].
  cbn beta. intros _ w1 [Hok1 _].
  eapply wp_conseq; [apply (pkt_buf_alloc_spec (pool_free i P)); exact Hok1|].
  cbn beta. intros r w2. unfold pool_alloc, pool_free; cbn. rewrite last_snoc, removelast_last.
  intros (-> & Hok2 & _). split; [done|]. by destruct P.
Qed.
Definition demo1 : Z * world sim := Eval vm_compute in run (pkt_buf_alloc 0x1000) demo.2 0.
Lemma pkt_buf_free_alloc_roundtrip_witness : exists Q : Z -> world sim -> Prop,
  wp (pkt_buf_free demo1.1 ;; pkt_buf_alloc 0x1000) Q never demo1.2.
Proof.
  eexists. apply (pkt_buf_free_alloc_roundtrip (set_free [0; 1; 2] demo_pool) 3 demo1.2).
  - apply pool_okb_sound. by vm_compute.
  - done.
  - by apply (bool_decide_unpack _).
Defined.

(** C18: memory_allocate_dma, for a size that rounding does not wrap, rounds the
    request up to whole 2 MB pages.  When it returns, the process has exactly one
    region more: the one that mmap answered with, of the rounded size and backed
    by the huge page file opened just before, whose name holds the counter's
    value.  The physical address it reports is the page frame that the kernel's
    page map entry for that region gives, plus the offset in the page.  All calls
    on the way are listed with the kernel's answers, and none that is checked
    failed.  It fails only by exit(errno) of a checked call or by the abort of
    virt_to_phys. *)
Theorem memory_allocate_dma_ok {H} `{HostLaws H} size (w : world H) :
  0 < size <= 2 ^ 64 - 2 ^ 21 ->
  wp (memory_allocate_dma size) (fun r w' =>
      dma_allocated size w r w' /\
      (2 ^ 21 | round_2mb size) /\ size <= round_2mb size < size + 2 ^ 21 /\
      0 < virt r /\ virt r + round_2mb size < 2 ^ 47 /\ 0 <= phy r < 2 ^ 53)
    (fun f _ => (exists n, f = Exit n) \/
      f = Abort "failed to translate virtual address to physical address") w.
Proof.
  intros Hs. destruct (round_2mb_bounds size Hs) as [Hd Hr].
  eapply wp_conseq; [by apply memory_allocate_dma_spec|]. cbn beta. intros r w' Hr'. split; [done|].
  split; [done|]. split; [lia|]. by eapply dma_allocated_bounds.
Qed.
Lemma memory_allocate_dma_ok_witness : (exists (Q : dma_memory -> world sim -> Prop) E,
    wp (memory_allocate_dma 16384) Q E demo_world) /\
  (exists w', memory_allocate_dma 16384 demo_world = Ok (DmaMemory 0x10000000000 0x12345000) w').
Proof.
  split; [eexists _, _; apply (memory_allocate_dma_ok 16384 demo_world); by vm_compute|].
  eexists. vm_compute. reflexivity.
Defined.

(** Allocations made by one process use distinct huge page files as long as
    the 32-bit counter has not come around. *)
Lemma huge_path_injective pid id1 id2 :
  0 <= id1 < 2 ^ 32 -> 0 <= id2 < 2 ^ 32 -> huge_path pid id1 = huge_path pid id2 -> id1 = id2.
Proof.
  intros H1 H2 He. unfold huge_path in He.
  do 3 apply (inj (String.append _)) in He. apply (inj pretty) in He.
  unfold i32 in He. rewrite !u32_small in He by done.
  destruct (id1 <? 2 ^ 31), (id2 <? 2 ^ 31); ulia.
Qed.
Lemma huge_path_injective_witness : huge_path 7 3 = huge_path 7 3 /\ 3 = 3.
Proof. split; [done|]. by apply (huge_path_injective 7 3 3). Defined.
