(* ===== verification/TxProps.v ===== *)
(** * Properties of the transmit path *)
From S2P Require Import Prelude Mem Platform Memory Registers Device Ixgbe Ring TxRing Sim MemoryProps.

(** ** Deciding the invariant on a scripted machine *)
Definition ring_sizeb (n : Z) : bool := existsb (fun k => n =? 2 ^ k) (seqZ 1 15).
Lemma ring_sizeb_sound n : ring_sizeb n = true -> ring_size n.
Proof.
  intros (k & Hk & He)%existsb_exists. apply list_elem_of_In, elem_of_seqZ in Hk.
  exists k. split; [lia|]. by apply Z.eqb_eq.
Qed.

Section check.
Implicit Types (w : world sim) (P : pool) (q : txq).

Definition ownedb (w : world sim) (p : Z -> bool) : bool := forallb p (touched (s_bursts (w_hw w))).
Lemma ownedb_spec w p a : ownedb w p = true -> nic_owns (w_hw w) a -> p a = true.
Proof. apply forallb_touched. Qed.

Definition pool_fpb P (a : Z) : bool :=
  rangeb (p_addr P) (sizeof_mempool + 4 * p_num P) a ||
  negb (forall_below (p_num P) (fun i => negb (rangeb (entry P i) pb_size a))).
Lemma pool_fpb_spec P a : pool_fpb P a = false -> ~ pool_fp P a.
Proof.
  unfold pool_fpb. intros [H1 H2]%orb_false_iff [Hr|(i & Hi & Hr)].
  - apply rangeb_spec in Hr. congruence.
  - apply negb_false_iff in H2. eapply forall_below_spec in H2; [|exact Hi].
    apply negb_true_iff in H2. apply rangeb_spec in Hr. congruence.
Qed.

Definition tx_shapeb q : bool :=
  ring_sizeb (q_n q) && (0 <=? q_clean q) && (q_clean q <? q_n q) && (q_len q <? q_n q) &&
  (0 <=? q_descs q) && (q_descs q <? 2 ^ 64) && disjb (q_addr q) (q_size q) (q_descs q) (q_ring q).
Lemma tx_shapeb_sound q : tx_shapeb q = true -> tx_shape q.
Proof.
  unfold tx_shapeb. rewrite !andb_true_iff, !Z.leb_le, !Z.ltb_lt, disjb_spec.
  intros ((((((Hr & ?) & ?) & ?) & ?) & ?) & ?). split; try done. by apply ring_sizeb_sound.
Qed.

Definition tx_structb (m : mem) P q : bool :=
  (ld 8 m (q_addr q + txq_descriptors) =? q_descs q) &&
  (ld 2 m (q_addr q + txq_num_entries) =? q_n q) && (ld 2 m (q_addr q + txq_tx_index) =? q_tx q) &&
  forallb (fun '(k, i) => ld 8 m (q_va q (Z.of_nat k)) =? entry P i) (imap pair (q_fly q)).
Lemma tx_structb_sound m P q : tx_structb m P q = true -> tx_struct m P q.
Proof.
  unfold tx_structb. rewrite !andb_true_iff, !Z.eqb_eq. intros (((?&?)&?)& Hf). split; try done.
  intros k i Hk. apply (forallb_imap _ _ _ _ Hf) in Hk. lia.
Qed.

Definition tx_sepb P q : bool :=
  disjb (q_addr q) (q_size q) (p_addr P) (sizeof_mempool + 4 * p_num P) &&
  disjb (q_addr q) (q_size q) (p_base P) (p_num P * p_bufsz P) &&
  disjb (q_descs q) (q_ring q) (p_addr P) (sizeof_mempool + 4 * p_num P) &&
  disjb (q_descs q) (q_ring q) (p_base P) (p_num P * p_bufsz P).

Definition tx_privateb w P q : bool :=
  ownedb w (fun a => negb (pool_fpb P a)) &&
  ownedb w (fun a => negb (rangeb (q_addr q) (q_size q) a)) &&
  ownedb w (fun a => forallb (fun k => negb (rangeb (q_desc q k) 16 a)) (seqZ (q_len q) (q_n q - q_len q))).
Lemma tx_privateb_sound w P q : tx_privateb w P q = true -> tx_private (w_hw w) P q.
Proof.
  unfold tx_privateb. rewrite !andb_true_iff. intros ((H1 & H2) & H3). split.
  - intros a Ha. eapply ownedb_spec in H1; [|exact Ha]. apply pool_fpb_spec. by apply negb_true_iff.
  - intros a Ha Hr. eapply ownedb_spec in H2; [|exact Ha]. apply rangeb_spec in Hr.
    by rewrite Hr in H2.
  - intros k a Hk Hr Ha. eapply ownedb_spec in H3; [|exact Ha]. rewrite forallb_forall in H3.
    specialize (H3 k). rewrite (proj2 (rangeb_spec _ _ _) Hr) in H3.
    assert (false = true); [|done]. apply H3, list_elem_of_In, elem_of_seqZ. lia.
Qed.

Definition descb w (d o : Z) : bool :=
  (0 <=? o) && (o + 4 <=? 16) && once d (s_bursts (w_hw w) ++ concat (s_plan (w_hw w))).
Lemma descb_sound w d o : descb w d o = true -> desc_at (w_hw w) d o.
Proof. unfold descb. rewrite !andb_true_iff, !Z.leb_le. intros [[? ?] ?]. by split_and!. Qed.

Definition dd_ownedb w (d o : Z) : bool :=
  descb w d o && (negb (dd_set (w_mem w) d o) || ownedb w (fun a => negb (rangeb d 16 a))).
Lemma dd_ownedb_sound w d o : dd_ownedb w d o = true -> dd_owned w d o.
Proof.
  unfold dd_ownedb. rewrite andb_true_iff, orb_true_iff. intros [Hd Ho].
  split; [by apply descb_sound|]. intros Hdd a Ha Hn. destruct Ho as [Ho|Ho].
  - by rewrite Hdd in Ho.
  - eapply ownedb_spec in Ho; [|exact Hn]. by rewrite (proj2 (rangeb_spec _ _ _) Ha) in Ho.
Qed.

Definition tx_okb w P q : bool :=
  pool_okb (w_mem w) P && tx_shapeb q && tx_structb (w_mem w) P q &&
  mapped (w_mem w) (q_addr q) (q_size q) && mapped (w_mem w) (q_descs q) (q_ring q) &&
  forallb (fun i => (0 <=? i) && (i <? p_num P)) (q_fly q) &&
  bool_decide (NoDup (q_fly q ++ p_free P)) && tx_sepb P q && tx_privateb w P q &&
  forall_below (q_n q) (fun k => descb w (q_desc q k) txd_status) &&
  forall_below (q_len q) (fun k => dd_ownedb w (q_desc q k) txd_status) &&
  (ld 2 (w_mem w) (q_addr q + txq_clean_index) =? q_clean q).

Lemma tx_okb_sound w P q : tx_okb w P q = true -> tx_ok w P q.
Proof.
  unfold tx_okb. rewrite !andb_true_iff, bool_decide_eq_true, Z.eqb_eq.
  intros (((((((((((Hp & Hs) & Ht) & Hm1) & Hm2) & Hf) & Hnd) & Hsep) & Hpr) & Hd) & Ho) & Hc).
  split; [|done]. split; try done.
  - by apply pool_okb_sound.
  - by apply tx_shapeb_sound.
  - by apply tx_structb_sound.
  - rewrite forallb_forall in Hf. apply Forall_forall. intros i Hi.
    apply list_elem_of_In, Hf in Hi. lia.
  - unfold tx_sepb in Hsep. rewrite !andb_true_iff, !disjb_spec in Hsep.
    destruct Hsep as [[[? ?] ?] ?]. by split.
  - by apply tx_privateb_sound.
  - intros k Hk. eapply forall_below_spec in Hd; [|exact Hk]. by apply descb_sound.
  - intros k Hk. eapply forall_below_spec in Ho; [|exact Hk]. by apply dd_ownedb_sound.
Qed.
End check.

(** ** A small ring on the scripted machine

    Four slots; entry 3 is in flight in slot 1 and the device will mark it done
    at its next burst; entry 2 is held by the caller.  After the next tail write
    the device marks slot 2 done. *)
Definition tx_demo_dev : ixy_device := IxyDevice "0000:03:00.0" "ixy-ixgbe" 0x20000 1 1 0x7000 0x8000.
Definition tx_demo_q : txq := Txq 0x8000 0x9000 4 1 [3].
Definition tx_demo_pool : pool := set_free [0; 1] demo_pool.
Definition tx_demo : world sim := Eval vm_compute in
  let w := (run (_ ← pkt_buf_alloc 0x1000; pkt_buf_alloc 0x1000) demo.2 0).2 in
  let m := add_region 0x8000 (q_size tx_demo_q) (add_region 0x9000 (q_ring tx_demo_q) (w_mem w)) in
  let m := st 8 (0x8000 + txq_descriptors) 0x9000 m in
  let m := st 2 (0x8000 + txq_num_entries) 4 m in
  let m := st 2 (0x8000 + txq_clean_index) 1 m in
  let m := st 2 (0x8000 + txq_tx_index) 2 m in
  let m := st 8 (q_va tx_demo_q 0) (entry demo_pool 3) m in
  let m := st 4 (entry demo_pool 2 + pb_size) 60 m in
  World m (Sim [[(0x901c, 1)]] [[[(0x902c, 1)]]] ∅ [] [] [] 0) 1.

Example tx_demo_ok : tx_okb tx_demo tx_demo_pool tx_demo_q = true.
Proof. by vm_compute. Qed.

Lemma sim_grants_plan w h r v a (p : Z -> bool) :
  forallb p (touched (default [] (head (s_plan (w_hw w))))) = true ->
  rtc hw_step (w_hw w) h -> grants h r v a -> p a = true.
Proof.
  intros Hf Hh Hg. cbn in Hg. rewrite (sim_steps_plan _ _ Hh) in Hg. by eapply forallb_touched.
Qed.

(** ** The properties *)

(** C1: ixgbe_tx_packet first gives back to the pool, oldest first, exactly the
    longest prefix of in-flight packets whose descriptors the device has marked
    done ([tx_cleaned]).  Then, if one slot short of the whole ring is still in
    flight, it returns 0 and touches nothing more; otherwise it returns 1 with
    the packet appended to the in-flight queue, its descriptor filled and the
    tail register written last, and the representation invariant of queue, ring
    and pool holds again.  It never faults and the clean-up loop ends. *)
Theorem ixgbe_tx_packet_refines {H} `{NicWriteback H} dev queue_id (w : world H) P q i :
  q_addr q = tx_queue dev queue_id -> tx_ok w P q -> sendable w P q i ->
  (forall h a, rtc hw_step (w_hw w) h ->
    grants h (addr dev + IXGBE_TDT queue_id) (q_slot q (q_len q + 1)) a ->
    range (q_desc q (q_len q)) 16 a) ->
  wp (ixgbe_tx_packet dev queue_id (entry P i)) (fun r w' => exists n w1,
    tx_cleaned w P q n w1 /\
    ((r = 0 /\ w' = w1 /\ q_len q - Z.of_nat n + 1 = q_n q) \/
     (r = 1 /\ tx_queued dev queue_id w P q n i w1 w'))) never w.
Proof. apply tx_packet_spec. Qed.

Lemma ixgbe_tx_packet_refines_witness : exists Q : Z -> world sim -> Prop,
  wp (ixgbe_tx_packet tx_demo_dev 0 (entry tx_demo_pool 2)) Q never tx_demo /\
  let '(r, w') := run (ixgbe_tx_packet tx_demo_dev 0 (entry tx_demo_pool 2)) tx_demo 7 in
  r = 1 /\ tx_okb w' (set_free [0; 1; 3] demo_pool) (Txq 0x8000 0x9000 4 2 [2]) = true.
Proof.
  eexists. split.
  - apply (ixgbe_tx_packet_refines tx_demo_dev 0 tx_demo tx_demo_pool tx_demo_q 2).
    + done.
    + apply tx_okb_sound. by vm_compute.
    + split; [done|by apply (bool_decide_unpack _)|]. intros a Ha Hn.
      assert (a = 0x901c) as -> by (cbn in Hn; by apply list_elem_of_singleton in Hn).
      apply rangeb_spec in Ha. vm_compute in Ha. discriminate.
    + intros h a Hh Hg. apply rangeb_spec. eapply sim_grants_plan; [|exact Hh|exact Hg]. by vm_compute.
  - vm_compute. split; reflexivity.
Defined.

Section more.
Context {H : Type} `{NicWriteback H}.
Implicit Types (w : world H) (P : pool) (q : txq).

(** a descriptor seen done is still done after the clean-up *)
Lemma cleaned_keeps_done w P q n w1 : tx_inv w P q -> tx_cleaned w P q n w1 -> 0 < q_len q ->
  dd_set (w_mem w) (q_desc q 0) txd_status = true -> dd_set (w_mem w1) (q_desc q 0) txd_status = true.
Proof.
  intros Hti [_ _ Hev] Hl Hdd. rewrite <- Hdd. unfold dd_set. f_equal.
  eapply evolve_ld; [exact Hev|]. intros b Hb.
  assert (range (q_desc q 0) 16 b) as Hr by (unq; unfold range in *; lia). split.
  - intros [Hp|Hq]; [by eapply tx_slot_off_pool|].
    pose proof (ts_disj _ (ti_shape _ _ _ Hti)) as Hd.
    pose proof (q_slot_bound q 0 (ti_shape _ _ _ Hti)) as Hs. clear -Hr Hq Hd Hs.
    unq. unfold disj, range in *. lia.
  - destruct (ti_done _ _ _ Hti 0 ltac:(lia)) as [_ Ho]. by apply Ho.
Qed.

Lemma popn_conserves P q n i : (n <= length (q_fly q))%nat ->
  q_fly (q_push i (q_popn n q)) ++ p_free (free_all (take n (q_fly q)) P) ≡ₚ
  i :: q_fly q ++ p_free P /\
  q_fly (q_popn n q) ++ p_free (free_all (take n (q_fly q)) P) ≡ₚ q_fly q ++ p_free P.
Proof.
  intros Hn. destruct (q_popn_fields n q) as (_ & _ & _ & Ff). cbn. rewrite Ff.
  assert (drop n (q_fly q) ++ p_free P ++ take n (q_fly q) ≡ₚ q_fly q ++ p_free P) as Hp.
  { rewrite <- (take_drop n (q_fly q)) at 3. rewrite app_assoc, (Permutation_app_comm _ (take n _)).
    by rewrite app_assoc. }
  split; [|done]. rewrite <- Hp. rewrite <- app_assoc. cbn. by rewrite <- Permutation_middle.
Qed.
End more.

(** C7: no buffer is lost or duplicated by ixgbe_tx_packet: when it returns 0
    the entries in flight or free are the same as before, and the caller still
    holds its buffer; when it returns 1 exactly that buffer has joined them. *)
Theorem ixgbe_tx_packet_conserves {H} `{NicWriteback H} dev queue_id (w : world H) P q i :
  q_addr q = tx_queue dev queue_id -> tx_ok w P q -> sendable w P q i ->
  (forall h a, rtc hw_step (w_hw w) h ->
    grants h (addr dev + IXGBE_TDT queue_id) (q_slot q (q_len q + 1)) a ->
    range (q_desc q (q_len q)) 16 a) ->
  wp (ixgbe_tx_packet dev queue_id (entry P i)) (fun r w' => exists P' q',
    tx_ok w' P' q' /\ P' = set_free (p_free P') P /\ q_addr q' = q_addr q /\
    ((r = 0 /\ q_fly q' ++ p_free P' ≡ₚ q_fly q ++ p_free P) \/
     (r = 1 /\ q_fly q' ++ p_free P' ≡ₚ i :: q_fly q ++ p_free P))) never w.
Proof.
  intros Hq Hok Hs Hg. eapply wp_conseq; [by apply tx_packet_spec|]. cbn beta.
  intros r w' (n & w1 & [(Hle & _ & _) Hok1 _] & Hr).
  destruct (popn_conserves P q n i Hle) as [Hp1 Hp2]. destruct (q_popn_fields n q) as (Fa & _).
  destruct Hr as [(-> & -> & _)|(-> & _ & Hok2 & _)].
  - eexists _, _. split; [exact Hok1|]. split_and!; [done|done|by left].
  - eexists _, _. split; [exact Hok2|]. split_and!; [done|done|by right].
Qed.
Lemma ixgbe_tx_packet_conserves_witness : exists Q : Z -> world sim -> Prop,
  wp (ixgbe_tx_packet tx_demo_dev 0 (entry tx_demo_pool 2)) Q never tx_demo.
Proof.
  eexists. apply (ixgbe_tx_packet_conserves tx_demo_dev 0 tx_demo tx_demo_pool tx_demo_q 2).
  - done.
  - apply tx_okb_sound. by vm_compute.
  - split; [done|by apply (bool_decide_unpack _)|]. intros a Ha Hn.
    assert (a = 0x901c) as -> by (cbn in Hn; by apply list_elem_of_singleton in Hn).
    apply rangeb_spec in Ha. vm_compute in Ha. discriminate.
  - intros h a Hh Hg. apply rangeb_spec. eapply sim_grants_plan; [|exact Hh|exact Hg]. by vm_compute.
Defined.

(** C17: ixgbe_tx_packet accepts a packet whenever the ring has room or its
    oldest packet has already been sent by the device; a full ring can only
    refuse while the device is still busy with its oldest packet. *)
Theorem ixgbe_tx_packet_accepts {H} `{NicWriteback H} dev queue_id (w : world H) P q i :
  q_addr q = tx_queue dev queue_id -> tx_ok w P q -> sendable w P q i ->
  (forall h a, rtc hw_step (w_hw w) h ->
    grants h (addr dev + IXGBE_TDT queue_id) (q_slot q (q_len q + 1)) a ->
    range (q_desc q (q_len q)) 16 a) ->
  q_len q + 1 < q_n q \/ dd_set (w_mem w) (q_desc q 0) txd_status = true ->
  wp (ixgbe_tx_packet dev queue_id (entry P i)) (fun r _ => r = 1) never w.
Proof.
  intros Hq Hok Hs Hg Hroom. eapply wp_conseq; [by apply tx_packet_spec|]. cbn beta.
  intros r w' (n & w1 & Hcl & [(-> & -> & Hfull)|(-> & _)]); [exfalso|done].
  pose proof Hcl as [(_ & _ & Hstop) _ _]. destruct Hok as [Hti _].
  destruct (tx_inv_bounds w P q Hti) as (Hb & _ & Hl).
  assert (n = 0%nat) as -> by lia. destruct Hroom as [|Hdd]; [lia|].
  eapply cleaned_keeps_done in Hdd; [|exact Hti|exact Hcl|lia].
  destruct Hstop as [Hz|Hz]; [unfold q_len in *; lia|]. change (Z.of_nat 0) with 0 in Hz. congruence.
Qed.
Lemma ixgbe_tx_packet_accepts_witness :
  wp (ixgbe_tx_packet tx_demo_dev 0 (entry tx_demo_pool 2)) (fun r _ => r = 1) never tx_demo.
Proof.
  apply (ixgbe_tx_packet_accepts tx_demo_dev 0 tx_demo tx_demo_pool tx_demo_q 2).
  - done.
  - apply tx_okb_sound. by vm_compute.
  - split; [done|by apply (bool_decide_unpack _)|]. intros a Ha Hn.
    assert (a = 0x901c) as -> by (cbn in Hn; by apply list_elem_of_singleton in Hn).
    apply rangeb_spec in Ha. vm_compute in Ha. discriminate.
  - intros h a Hh Hg. apply rangeb_spec. eapply sim_grants_plan; [|exact Hh|exact Hg]. by vm_compute.
  - left. by vm_compute.
Defined.

(** C32: for a packet of fewer than 2^16 bytes the command word of the transmit
    descriptor holds the length in its low bits and, above them, exactly the
    flags EOP, RS, IFCS, DEXT and the data descriptor type; the length also
    survives in the payload field. *)
Theorem tx_descriptor_fields size :
  0 <= size < 2 ^ 16 ->
  tx_cmd_type_len size mod 2 ^ 16 = size /\
  tx_cmd_type_len size / 2 ^ 16 = 0x2B30 /\
  u32 (Z.shiftl size IXGBE_ADVTXD_PAYLEN_SHIFT) / 2 ^ IXGBE_ADVTXD_PAYLEN_SHIFT = size.
Proof.
  intros Hs. unfold tx_cmd_type_len.
  change (Z.lor (Z.lor (Z.lor (Z.lor IXGBE_ADVTXD_DCMD_EOP IXGBE_ADVTXD_DCMD_RS)
    IXGBE_ADVTXD_DCMD_IFCS) IXGBE_ADVTXD_DCMD_DEXT) IXGBE_ADVTXD_DTYP_DATA) with (Z.shiftl 0x2B30 16).
  rewrite lor_shiftl_add by lia. rewrite Z.shiftl_mul_pow2 by done.
  change (2 ^ IXGBE_ADVTXD_PAYLEN_SHIFT) with 16384. rewrite !u32_small by ulia.
  rewrite (Z.add_comm _ size), Z.mod_add, Z.div_add by done.
  rewrite Z.mod_small, Z.div_small by done. split_and!; [done|done|by apply Z.div_mul].
Qed.
Lemma tx_descriptor_fields_witness : 0 <= 60 < 2 ^ 16 /\ tx_cmd_type_len 60 = 0x2B30003C.
Proof.
  split; [lia|]. destruct (tx_descriptor_fields 60) as (H1 & H2 & _); [lia|].
  rewrite (Z.div_mod (tx_cmd_type_len 60) (2 ^ 16)) by done. by rewrite H1, H2.
Defined.
