(* ===== verification/RxProps.v ===== *)
(** * Properties of the receive path *)
From S2P Require Import Prelude Mem Platform Memory Registers Device Ixgbe Ring RxRing RxFill Sim MemoryProps TxProps.

Section check.
Implicit Types (w : world sim) (P : pool) (q : rxq).

Definition rx_shapeb P q : bool :=
  ring_sizeb (r_n q) && (0 <=? r_idx q) && (r_idx q <? r_n q) &&
  (Z.of_nat (length (r_va q)) =? r_n q) && forallb (fun i => (0 <=? i) && (i <? p_num P)) (r_va q) &&
  (0 <=? r_descs q) && (r_descs q <? 2 ^ 64) && disjb (r_addr q) (r_size q) (r_descs q) (r_ring q).
Lemma rx_shapeb_sound P q : rx_shapeb P q = true -> rx_shape P q.
Proof.
  unfold rx_shapeb. rewrite !andb_true_iff, !Z.leb_le, !Z.ltb_lt, Z.eqb_eq, disjb_spec.
  intros (((((((Hr & ?) & ?) & ?) & Hf) & ?) & ?) & ?). split; try done; [by apply ring_sizeb_sound|].
  rewrite forallb_forall in Hf. apply Forall_forall. intros i Hi. apply list_elem_of_In, Hf in Hi. lia.
Qed.

Definition rx_structb (m : mem) P q : bool :=
  (ld 8 m (r_addr q + rxq_descriptors) =? r_descs q) && (ld 8 m (r_addr q + rxq_mempool) =? p_addr P) &&
  (ld 2 m (r_addr q + rxq_num_entries) =? r_n q) && (ld 2 m (r_addr q + rxq_rx_index) =? r_idx q) &&
  forallb (fun '(k, i) => ld 8 m (r_addr q + rxq_virtual_addresses + 8 * Z.of_nat k) =? entry P i)
    (imap pair (r_va q)).
Lemma rx_structb_sound m P q : rx_structb m P q = true -> rx_struct m P q.
Proof.
  unfold rx_structb. rewrite !andb_true_iff, !Z.eqb_eq. intros ((((?&?)&?)&?)& Hf). split; try done.
  intros k i Hk. apply (forallb_imap _ _ _ _ Hf) in Hk. lia.
Qed.

Definition rx_sepb P q : bool :=
  disjb (r_addr q) (r_size q) (p_addr P) (sizeof_mempool + 4 * p_num P) &&
  disjb (r_addr q) (r_size q) (p_base P) (p_num P * p_bufsz P) &&
  disjb (r_descs q) (r_ring q) (p_addr P) (sizeof_mempool + 4 * p_num P) &&
  disjb (r_descs q) (r_ring q) (p_base P) (p_num P * p_bufsz P).
Lemma rx_sepb_sound P q : rx_sepb P q = true -> rx_sep P q.
Proof. unfold rx_sepb. rewrite !andb_true_iff, !disjb_spec. intros [[[? ?] ?] ?]. by split. Qed.

Definition rx_privateb w P q : bool :=
  ownedb w (fun a => negb (rangeb (p_addr P) (sizeof_mempool + 4 * p_num P) a)) &&
  ownedb w (fun a => forall_below (p_num P) (fun i => negb (rangeb (entry P i) pb_data a))) &&
  ownedb w (fun a => negb (rangeb (r_addr q) (r_size q) a)).
Lemma rx_privateb_sound w P q : rx_privateb w P q = true -> rx_private (w_hw w) P q.
Proof.
  unfold rx_privateb. rewrite !andb_true_iff. intros ((H1 & H2) & H3). split.
  - intros a Ha Hr%rangeb_spec. eapply ownedb_spec in H1; [|exact Ha]. by rewrite Hr in H1.
  - intros i a Hi Ha Hr%rangeb_spec. eapply ownedb_spec in H2; [|exact Ha].
    eapply forall_below_spec in H2; [|exact Hi]. by rewrite Hr in H2.
  - intros a Ha Hr%rangeb_spec. eapply ownedb_spec in H3; [|exact Ha]. by rewrite Hr in H3.
Qed.

Definition rx_invb w P q : bool :=
  pool_okb (w_mem w) P && rx_shapeb P q && rx_structb (w_mem w) P q &&
  mapped (w_mem w) (r_addr q) (r_size q) && mapped (w_mem w) (r_descs q) (r_ring q) &&
  rx_sepb P q && rx_privateb w P q &&
  forall_below (r_n q) (fun k => dd_ownedb w (r_desc q k) rxd_status_error) &&
  negb (dd_set (w_mem w) (r_desc q (r_prev q)) rxd_status_error) &&
  ownedb w (fun a => negb (rangeb (r_desc q (r_prev q)) 16 a)).

Lemma rx_invb_sound w P q : rx_invb w P q = true -> rx_inv w P q.
Proof.
  unfold rx_invb. rewrite !andb_true_iff.
  intros (((((((((Hp & Hs) & Ht) & Hm1) & Hm2) & Hsep) & Hpr) & Hd) & Hv) & Ho). split; try done.
  - by apply pool_okb_sound.
  - by apply rx_shapeb_sound.
  - by apply rx_structb_sound.
  - by apply rx_sepb_sound.
  - by apply rx_privateb_sound.
  - intros k Hk. eapply forall_below_spec in Hd; [|exact Hk]. by apply dd_ownedb_sound.
  - split; [by apply negb_true_iff|]. intros a Hr%rangeb_spec Ha.
    eapply ownedb_spec in Ho; [|exact Ha]. by rewrite Hr in Ho.
Qed.

Lemma sim_rx_grant w P q h r v a :
  forallb (fun a => rangeb (r_desc q (r_prev q)) 16 a) (touched (default [] (head (s_plan (w_hw w))))) = true ->
  rtc hw_step (w_hw w) h -> grants h r v a -> rx_grant P q a.
Proof. intros Hf Hh Hg. left. apply rangeb_spec. by eapply sim_grants_plan in Hg. Qed.
End check.

(** ** A ring of two slots

    Entries 3 and 2 are recorded in slots 0 and 1, 0 and 1 are free.  The
    device finishes slot 0 with a packet of 60 bytes, and after each write of
    the tail register the slot it was given. *)
Definition rx_demo_dev : ixy_device := IxyDevice "0000:03:00.0" "ixy-ixgbe" 0x20000 1 1 0x8000 0x7000.
Definition rx_demo_q : rxq := Rxq 0x8000 0x9000 2 0 [3; 2].
Definition rx_demo_pool : pool := set_free [0; 1] demo_pool.
Definition rx_demo : world sim := Eval vm_compute in
  let w := (run (_ ← pkt_buf_alloc 0x1000; pkt_buf_alloc 0x1000) demo.2 0).2 in
  let m := add_region 0x8000 (r_size rx_demo_q) (add_region 0x9000 (r_ring rx_demo_q) (w_mem w)) in
  let m := st 8 (0x8000 + rxq_descriptors) 0x9000 m in
  let m := st 8 (0x8000 + rxq_mempool) 0x1000 m in
  let m := st 2 (0x8000 + rxq_num_entries) 2 m in
  let m := st 8 (0x8000 + rxq_virtual_addresses) (entry demo_pool 3) m in
  let m := st 8 (0x8000 + rxq_virtual_addresses + 8) (entry demo_pool 2) m in
  World m (Sim [[(0x9008, 3); (0x900c, 60)]] [[[(0x9018, 3); (0x901c, 70)]]] ∅ [] [] [] 0) 1.

Example rx_demo_ok : rx_invb rx_demo rx_demo_pool rx_demo_q = true.
Proof. by vm_compute. Qed.

(** C2: ixgbe_rx_packet, on every branch.  The device may act before the status
    is read ([w1]); then: no done bit - NULL, nothing touched; done without
    end-of-packet - abort; pool empty - abort; otherwise the recorded buffer is
    returned with the length of the descriptor in its header, the descriptor is
    re-armed with a buffer taken from the pool and its status cleared, rx_index
    advances, the tail register gets the index just consumed, nothing else
    changes ([rx_received]), and the representation invariant of queue, ring
    and pool holds again. *)
Theorem ixgbe_rx_packet_refines {H} `{NicWriteback H} dev queue_id (w : world H) P q :
  r_addr q = rx_queue dev queue_id -> rx_inv w P q ->
  (forall h a, rtc hw_step (w_hw w) h ->
    grants h (addr dev + IXGBE_RDT queue_id) (r_idx q) a -> rx_grant P q a) ->
  wp (ixgbe_rx_packet dev queue_id)
    (fun r w' => exists w1, evolve (fun _ => False) w w1 /\
      ((rx_dd w1 q = false /\ r = NULL /\ w' = w1 /\ rx_inv w1 P q) \/
       (rx_dd w1 q = true /\ rx_eop w1 q = true /\
        exists e P', pool_alloc P = Some (e, P') /\ r = entry P (r_buf q) /\
          rx_received dev queue_id w1 P q e P' w')))
    (fun f _ => exists w1, evolve (fun _ => False) w w1 /\ rx_dd w1 q = true /\
      ((rx_eop w1 q = false /\ f = rx_multi_segment) \/
       (rx_eop w1 q = true /\ pool_alloc P = None /\ f = rx_no_buffer))) w.
Proof. apply rx_packet_spec. Qed.

Lemma ixgbe_rx_packet_refines_witness : (exists (Q : Z -> world sim -> Prop) E,
    wp (ixgbe_rx_packet rx_demo_dev 0) Q E rx_demo) /\
  let '(r, w') := run (ixgbe_rx_packet rx_demo_dev 0) rx_demo 7 in
  r = entry demo_pool 3 /\ ld 4 (w_mem w') (r + pb_size) = 60 /\
  rx_invb w' (set_free [0] demo_pool) (r_next rx_demo_q) = true.
Proof.
  split; [|vm_compute; split_and!; reflexivity].
  eexists _, _. apply (ixgbe_rx_packet_refines rx_demo_dev 0 rx_demo rx_demo_pool rx_demo_q).
  - done.
  - apply rx_invb_sound. by vm_compute.
  - intros h a. apply sim_rx_grant. by vm_compute.
Defined.

(** C12: ixgbe_rx_packet never records the buffer it re-arms a descriptor with:
    after a successful receive the descriptor of the consumed slot points at the
    data of a fresh entry [e], while [virtual_addresses] of that slot still
    holds the buffer just returned.  On the next lap of the ring the packet
    lands in [e] but the buffer given away here is returned again. *)
Theorem ixgbe_rx_packet_leaves_stale_buffer {H} `{NicWriteback H} dev queue_id (w : world H) P q :
  r_addr q = rx_queue dev queue_id -> rx_inv w P q -> r_buf q ∉ p_free P ->
  (forall h a, rtc hw_step (w_hw w) h ->
    grants h (addr dev + IXGBE_RDT queue_id) (r_idx q) a -> rx_grant P q a) ->
  wp (ixgbe_rx_packet dev queue_id) (fun r w' => r <> NULL -> exists e P',
      pool_alloc P = Some (e, P') /\ entry P e <> r /\
      ld 8 (w_mem w') (r_desc q (r_idx q) + rxd_pkt_addr) = u64 (entry_phy P e + pb_data) /\
      ld 8 (w_mem w') (r_addr q + rxq_virtual_addresses + 8 * r_idx q) = r /\
      rx_inv w' P' (r_next q) /\ r_buf (Rxq (r_addr q) (r_descs q) (r_n q) (r_idx q) (r_va (r_next q))) = r_buf q)
    (fun _ _ => True) w.
Proof.
  intros Hq Hri Hnf Hg. eapply wp_mono; [by apply rx_packet_spec| |done]. cbn beta.
  intros r w' (w1 & _ & [(_ & -> & _)|(_ & _ & e & P' & Ha & -> & Hrv)]) Hr; [done|].
  pose proof (pk_shape _ _ (ri_pool _ _ _ Hri)) as Hps.
  destruct (pool_shape_alloc P e P' Hps Ha) as (_ & He & _ & Hf & HP').
  destruct (rx_va_lookup P q (ri_shape _ _ _ Hri)) as [Hva Hb].
  pose proof (rv_inv _ _ _ _ _ _ _ _ Hrv) as Hinv.
  pose proof (rm_va _ _ _ (ri_struct _ _ _ Hinv) _ _ Hva) as Hld. cbn [r_next r_addr] in Hld.
  pose proof (rs_idx _ _ (ri_shape _ _ _ Hri)). rewrite Z2Nat.id in Hld by lia.
  exists e, P'. split_and!; try done.
  - assert (e <> r_buf q) as Hne.
    { intros ->. apply Hnf. rewrite Hf. apply elem_of_app. right. by apply list_elem_of_singleton. }
    pose proof (entry_sep P e (r_buf q) Hps He Hb Hne) as Hs. pose proof (ps_bufsz _ Hps) as Hbs.
    clear -Hs Hbs. unlayout. unfold disj in Hs. lia.
  - apply Hrv.
  - rewrite Hld. by rewrite HP'.
Qed.

(** The witness also runs the second lap: three receives on the two-slot ring,
    the first buffer being freed in between, return entry 3, entry 2 and entry 3
    again, although the third packet was written to entry 1. *)
Lemma ixgbe_rx_packet_leaves_stale_buffer_witness : (exists Q : Z -> world sim -> Prop,
    wp (ixgbe_rx_packet rx_demo_dev 0) Q (fun _ _ => True) rx_demo) /\
  (run (b1 ← ixgbe_rx_packet rx_demo_dev 0; pkt_buf_free b1 ;; b2 ← ixgbe_rx_packet rx_demo_dev 0;
        b3 ← ixgbe_rx_packet rx_demo_dev 0; mret [b1; b2; b3])
       (World (w_mem rx_demo) (Sim [[(0x9008, 3)]; []; []; []; [(0x9018, 3)]; []; []; []; [(0x9008, 3)]] [] ∅ [] [] [] 0) 1)
       []).1 = [entry demo_pool 3; entry demo_pool 2; entry demo_pool 3].
Proof.
  split; [|vm_compute; reflexivity].
  eexists. apply (ixgbe_rx_packet_leaves_stale_buffer rx_demo_dev 0 rx_demo rx_demo_pool rx_demo_q).
  - done.
  - apply rx_invb_sound. by vm_compute.
  - by apply (bool_decide_unpack _).
  - intros h a. apply sim_rx_grant. by vm_compute.
Defined.

(** ** Filling the ring *)
Definition fill_envb (w : world sim) P q : bool :=
  ring_sizeb (r_n q) && (0 <=? r_descs q) && (r_descs q <? 2 ^ 64) &&
  disjb (r_addr q) (r_size q) (r_descs q) (r_ring q) && rx_sepb P q &&
  mapped (w_mem w) (r_addr q) (r_size q) && mapped (w_mem w) (r_descs q) (r_ring q) &&
  ownedb w (fun _ => false) && (ld 8 (w_mem w) (r_addr q + rxq_descriptors) =? r_descs q) &&
  (ld 8 (w_mem w) (r_addr q + rxq_mempool) =? p_addr P).
Lemma fill_envb_sound w P q : fill_envb w P q = true -> fill_env w P q.
Proof.
  unfold fill_envb. rewrite !andb_true_iff, !Z.leb_le, !Z.ltb_lt, !Z.eqb_eq, disjb_spec.
  intros (((((((((Hr & ?) & ?) & ?) & Hs) & ?) & ?) & Ho) & ?) & ?).
  assert (forall a, ~ nic_owns (w_hw w) a) as Hno.
  { intros a Ha. by eapply ownedb_spec in Ho. }
  split; try done.
  - by apply ring_sizeb_sound.
  - by apply rx_sepb_sound.
  - intros a Ha. by apply Hno in Ha.
  - intros a Ha. by apply Hno in Ha.
  - intros a Ha. by apply Hno in Ha.
Qed.

Definition fill_demo : world sim := Eval vm_compute in
  let q := rx_demo_q in
  let m := add_region 0x8000 (r_size q) (add_region 0x9000 (r_ring q) (w_mem demo.2)) in
  let m := st 8 (0x8000 + rxq_descriptors) 0x9000 m in
  let m := st 8 (0x8000 + rxq_mempool) 0x1000 m in
  World m (Sim [] [] ∅ [] [] [] 0) 1.

(** C13: the loop of start_rx_queue gives slot [k] of the ring the [k]-th entry
    from the top of the free stack, so all slots hold different buffers, records
    them in [virtual_addresses] and clears every status; it aborts only when the
    pool has fewer entries than the ring has slots.  The address it posts is
    [buf_addr_phy] itself, that of the buffer's header: what the device writes
    there on the first lap replaces the header fields (compare
    [ixgbe_rx_packet_refines], where [offsetof(struct pkt_buf, data)] is added). *)
Theorem start_rx_queue_fills_ring {H} `{NicWriteback H} P q (w : world H) :
  fill_env w P q -> pool_ok (w_mem w) P ->
  wp (for_loop (Z.to_nat (r_n q)) 0 (fill_rx_desc (r_addr q)))
    (fun _ w' => exists L, Z.of_nat (length L) = r_n q /\ NoDup L /\
      p_free P = take (length (p_free P) - length L) (p_free P) ++ reverse L /\
      pool_ok (w_mem w') (set_free (take (length (p_free P) - length L) (p_free P)) P) /\
      forall k i, L !! k = Some i ->
        ld 8 (w_mem w') (r_addr q + rxq_virtual_addresses + 8 * Z.of_nat k) = entry P i /\
        ld 8 (w_mem w') (r_desc q (Z.of_nat k) + rxd_pkt_addr) =
          ld 8 (w_mem w') (entry P i + pb_buf_addr_phy) /\
        dd_set (w_mem w') (r_desc q (Z.of_nat k)) rxd_status_error = false)
    (fun f _ => f = Abort "failed to allocate rx descriptor" /\ Z.of_nat (length (p_free P)) < r_n q) w.
Proof.
  intros Henv Hok. eapply wp_mono; [by apply fill_loop_spec| |done].
  cbn beta. intros _ w' [[_ Hok' Hsl] _]. pose proof (ring_size_bounds _ (fe_n _ _ _ Henv)) as Hnb.
  pose proof (pk_shape _ _ Hok) as Hps.
  set (n := Z.to_nat (r_n q)). set (F := p_free P).
  assert (forall k, (k < n)%nat -> exists e, reverse F !! k = Some e /\
    ld 8 (w_mem w') (r_desc q (Z.of_nat k) + rxd_pkt_addr) = entry_phy P e /\
    ld 8 (w_mem w') (r_addr q + rxq_virtual_addresses + 8 * Z.of_nat k) = entry P e) as Hk.
  { intros k Hk. destruct (Hsl (Z.of_nat k)) as [(e & He & H5) _]; [lia|]. exists e.
    unfold taken in He. rewrite Nat2Z.id in He. done. }
  assert (n <= length F)%nat as Hlen.
  { destruct (Hk (n - 1)%nat) as (e & He & _); [lia|]. apply lookup_lt_Some in He.
    rewrite length_reverse in He. lia. }
  assert (length (take n (reverse F)) = n) as HL by (rewrite length_take, length_reverse; lia).
  assert (reverse (take n (reverse F)) = drop (length F - n) F) as Hrev.
  { rewrite <- (reverse_involutive F) at 3. rewrite drop_reverse, length_reverse.
    by replace (length F - (length F - n))%nat with n by lia. }
  exists (take n (reverse F)). rewrite HL, Hrev. split_and!.
  - unfold n. lia.
  - assert (NoDup (reverse F)) as Hnd by (rewrite reverse_Permutation; apply Hps).
    rewrite <- (take_drop n (reverse F)) in Hnd. by apply NoDup_app in Hnd as [? _].
  - by rewrite take_drop.
  - exact Hok'.
  - intros k i Hki. apply lookup_lt_Some in Hki as Hlt. rewrite HL in Hlt.
    rewrite lookup_take_lt in Hki by done. destruct (Hk k Hlt) as (e & He & H5 & H6).
    rewrite Hki in He. injection He as <-.
    assert (0 <= i < p_num P) as Hi.
    { pose proof (ps_bound _ Hps) as Hb. rewrite Forall_forall in Hb. apply Hb.
      by eapply elem_of_reverse, list_elem_of_lookup_2. }
    split_and!; [done|rewrite H5; symmetry; apply (ho_phy _ _ _ (pk_hdr _ _ Hok' i Hi))|].
    destruct (Hsl (Z.of_nat k)) as [_ Hh]; [lia|]. unfold dd_set.
    pose proof (ld_slice 8 4 (w_mem w') (r_desc q (Z.of_nat k) + rxd_hdr_addr) 0) as Hs.
    rewrite Z.add_0_r in Hs. change rxd_status_error with rxd_hdr_addr. rewrite Hs by lia. by rewrite Hh.
Qed.
Lemma start_rx_queue_fills_ring_witness : exists (Q : unit -> world sim -> Prop) E,
  wp (for_loop (Z.to_nat 2) 0 (fill_rx_desc 0x8000)) Q E fill_demo.
Proof.
  eexists _, _. apply (start_rx_queue_fills_ring demo_pool rx_demo_q fill_demo).
  - apply fill_envb_sound. by vm_compute.
  - apply pool_okb_sound. by vm_compute.
Defined.

(** C28: the queue structures of the receive array overlap.  Queue [i + 1] starts
    where queue [i]'s [virtual_addresses] begin, so setting the descriptor ring
    of queue [i + 1] replaces the buffer recorded for slot 0 of queue [i];
    transmit queues overlap in the same way. *)
Theorem rx_queues_overlap {H} `{Platform H} dev i v (w : world H) :
  mapped (w_mem w) (rx_queue dev i) (sizeof_rx_queue + 8 * MAX_RX_QUEUE_ENTRIES) = true ->
  mapped (w_mem w) (rx_queue dev (i + 1)) (sizeof_rx_queue + 8 * MAX_RX_QUEUE_ENTRIES) = true ->
  wp (store 8 (rx_queue dev (i + 1) + rxq_descriptors) v ;;
      load 8 (rx_queue dev i + rxq_virtual_addresses)) (fun r _ => r = u64 v) never w /\
  tx_queue dev (i + 1) + txq_descriptors = tx_queue dev i + txq_virtual_addresses.
Proof.
  intros Hm1 Hm2. split.
  - apply wp_bind, wp_store. { eapply mapped_sub; [exact Hm2|unrq; lia|unfold MAX_RX_QUEUE_ENTRIES; unrq; lia]. }
    apply wp_load; cbn.
    { rewrite mapped_st. eapply mapped_sub; [exact Hm1|unrq; lia|unfold MAX_RX_QUEUE_ENTRIES; unrq; lia]. }
    replace (rx_queue dev i + rxq_virtual_addresses) with (rx_queue dev (i + 1) + rxq_descriptors)
      by (unfold rx_queue; unrq; lia).
    by rewrite ld_st_eq.
  - unfold tx_queue. unfold sizeof_tx_queue, txq_descriptors, txq_virtual_addresses. lia.
Qed.
Lemma rx_queues_overlap_witness : exists Q : Z -> world sim -> Prop,
  wp (store 8 (rx_queue rx_demo_dev 1 + rxq_descriptors) 0xA000 ;;
      load 8 (rx_queue rx_demo_dev 0 + rxq_virtual_addresses)) Q never
    (set_mem (add_region 0x8000 0x20000 (w_mem rx_demo)) rx_demo).
Proof. eexists. apply (rx_queues_overlap rx_demo_dev 0 0xA000); by vm_compute. Defined.
