(* ===== verification/CppProps.v ===== *)
(** * The C++ port against the C driver

    Every member function but [init_link], [init_tx] and [rx_packet] is, as a
    function of the world, the C function of the same object; [rx_packet] reads
    the finished descriptor differently and keeps the same contract. *)
From S2P Require Import Stats.
From S2P Require Import Prelude Mem Platform Memory Registers Device Pci Ixgbe Ring TxRing RxRing Sim MemoryProps.
From S2P Require Import TxProps RxProps IxgbeCpp.

(** the C handle of an object *)
Definition handle (self : ixgbe) : ixy_device :=
  IxyDevice (pci_addr self) (driver_name self) (addr self) (num_rx_queues self) (num_tx_queues self)
    (rx_queues self) (tx_queues self).

(** the counters of both device_stats structures *)
Definition cpp_counters (s : IxgbeCpp.device_stats) : Z * Z * Z * Z :=
  (rx_pkts s, tx_pkts s, rx_bytes s, tx_bytes s).
Definition c_counters (s : Device.device_stats) : Z * Z * Z * Z :=
  (Device.rx_pkts s, Device.tx_pkts s, Device.rx_bytes s, Device.tx_bytes s).

Section eq.
Context {H : Type} `{Platform H}.
Implicit Types (self : ixgbe) (w : world H).

(** the two results of a computation, seen through [f] *)
Definition seen_as {A B} (f : A -> B) (r : outcome (world H) A) : outcome (world H) B :=
  match r with Ok a s => Ok (f a) s | Err e s => Err e s | Hang => Hang end.

Lemma read_stats_same self s c w : cpp_counters <$> s = c_counters <$> c ->
  seen_as (fmap cpp_counters) (do_read_stats self s w) = seen_as (fmap c_counters) (ixgbe_read_stats (handle self) c w).
Proof.
  intros Hs. unfold do_read_stats, ixgbe_read_stats, get_reg32, Device.get_reg32, mbind, M_bind, mmio_get. cbn [addr handle Device.addr].
  repeat match goal with |- context [mmio_read ?a ?h] => destruct (mmio_read a h) end.
  destruct s as [s|], c as [c|]; try done. cbn in *. unfold cpp_counters, c_counters in *. cbn.
  injection Hs as -> -> -> ->. done.
Qed.
End eq.

(** ** The functions that are the same *)
Ltac same := repeat match goal with
  | H : ?P |- ?P => exact H
  | |- (_ ≫= _) ≡ (_ ≫= _) => apply M_bind_proper; [intros ?|]
  | |- for_loop _ _ _ ≡ for_loop _ _ _ => apply for_loop_proper; intros ?
  | |- (if ?b then _ else _) ≡ _ => destruct b
  | |- (let '(_, _) := ?x in _) ≡ _ => destruct x
  | |- _ => reflexivity
  end.

Section same.
Context {H : Type} `{Platform H}.
Implicit Types (self : ixgbe).

Lemma wait_clear_same n self reg mask :
  IxgbeCpp.wait_clear_reg32 n self reg mask ≡ Device.wait_clear_reg32 n (handle self) reg mask.
Proof. induction n as [|n IH]; cbn; same. Qed.
Lemma wait_set_same n self reg mask :
  IxgbeCpp.wait_set_reg32 n self reg mask ≡ Device.wait_set_reg32 n (handle self) reg mask.
Proof. induction n as [|n IH]; cbn; same. Qed.
Lemma wait_for_link_same self : IxgbeCpp.wait_for_link self ≡ Ixgbe.wait_for_link (handle self).
Proof.
  assert (forall n mw pi, IxgbeCpp.wait_for_link_loop n self mw pi ≡ Ixgbe.wait_for_link_loop n (handle self) mw pi) as Hl.
  { induction n as [|n IH]; intros mw pi; cbn; same; apply IH. }
  unfold IxgbeCpp.wait_for_link, Ixgbe.wait_for_link. same.
Qed.
Lemma tx_clean_same n queue cur i : IxgbeCpp.tx_clean n queue cur i ≡ Ixgbe.tx_clean n queue cur i.
Proof. revert i. induction n as [|n IH]; intros i; cbn [IxgbeCpp.tx_clean Ixgbe.tx_clean]; same; apply IH. Qed.
Lemma tx_clean_up_same queue : IxgbeCpp.tx_clean_up queue ≡ Ixgbe.tx_clean_up queue.
Proof.
  unfold IxgbeCpp.tx_clean_up, Ixgbe.tx_clean_up. do 2 (apply M_bind_proper; [intros ?|reflexivity]).
  apply M_bind_proper; [intros ?; reflexivity|apply tx_clean_same].
Qed.

Lemma init_rx_same self : IxgbeCpp.init_rx self ≡ Ixgbe.init_rx (handle self).
Proof. unfold IxgbeCpp.init_rx, Ixgbe.init_rx. same. Qed.
Lemma start_rx_queue_same fuel self i : IxgbeCpp.start_rx_queue fuel self i ≡ Ixgbe.start_rx_queue fuel (handle self) i.
Proof. unfold IxgbeCpp.start_rx_queue, Ixgbe.start_rx_queue. same. apply wait_set_same. Qed.
Lemma start_tx_queue_same fuel self i : IxgbeCpp.start_tx_queue fuel self i ≡ Ixgbe.start_tx_queue fuel (handle self) i.
Proof. unfold IxgbeCpp.start_tx_queue, Ixgbe.start_tx_queue. same. apply wait_set_same. Qed.
Lemma tx_packet_same self i buf : IxgbeCpp.tx_packet self i buf ≡ ixgbe_tx_packet (handle self) i buf.
Proof.
  unfold IxgbeCpp.tx_packet, ixgbe_tx_packet.
  apply M_bind_proper; [intros [clean cur]; reflexivity|apply tx_clean_up_same].
Qed.

(** stats.cpp *)
Lemma print_diff_same (s old : IxgbeCpp.device_stats) (c c_old : Device.device_stats) nanos :
  cpp_counters s = c_counters c -> cpp_counters old = c_counters c_old -> stats_pci_addr s = device_name (device c) ->
  cpp_print_stats_diff s old nanos ≡@{M (world H) _} print_stats_diff c c_old nanos.
Proof.
  destruct s, old, c, c_old. unfold cpp_counters, c_counters. cbn. intros [= -> -> -> ->] [= -> -> -> ->] ->. intros w. reflexivity.
Qed.
End same.

(** C15: the C++ port computes what the C driver computes: the register accessors
    and polling loops of device.hpp, get_link_speed, set_promisc, wait_for_link,
    init_rx, start_rx_queue, start_tx_queue and tx_packet have, from every state,
    the outcome of their C counterparts on the handle with the same fields, and
    do_read_stats adds the same numbers to the counters.  The copies of the clock
    and the rates in stats.cpp print what stats.c prints. *)
Theorem cpp_port_equals_c {H} `{Platform H} (self : ixgbe) fuel :
  let dev := handle self in
  (forall reg v, IxgbeCpp.set_reg32 self reg v ≡ Device.set_reg32 dev reg v /\
     IxgbeCpp.get_reg32 self reg ≡ Device.get_reg32 dev reg /\
     IxgbeCpp.set_flags32 self reg v ≡ Device.set_flags32 dev reg v /\
     IxgbeCpp.clear_flags32 self reg v ≡ Device.clear_flags32 dev reg v /\
     IxgbeCpp.wait_clear_reg32 fuel self reg v ≡ Device.wait_clear_reg32 fuel dev reg v /\
     IxgbeCpp.wait_set_reg32 fuel self reg v ≡ Device.wait_set_reg32 fuel dev reg v) /\
  IxgbeCpp.get_link_speed self ≡ ixgbe_get_link_speed dev /\
  (forall b, IxgbeCpp.set_promisc self b ≡ ixgbe_set_promisc dev b) /\
  IxgbeCpp.wait_for_link self ≡ Ixgbe.wait_for_link dev /\
  IxgbeCpp.init_rx self ≡ Ixgbe.init_rx dev /\
  (forall i, IxgbeCpp.start_rx_queue fuel self i ≡ Ixgbe.start_rx_queue fuel dev i /\
     IxgbeCpp.start_tx_queue fuel self i ≡ Ixgbe.start_tx_queue fuel dev i) /\
  (forall i buf, IxgbeCpp.tx_packet self i buf ≡ ixgbe_tx_packet dev i buf) /\
  (forall s c w, cpp_counters <$> s = c_counters <$> c ->
     seen_as (fmap cpp_counters) (do_read_stats self s w) = seen_as (fmap c_counters) (ixgbe_read_stats dev c w)) /\
  cpp_monotonic_time ≡@{M (world H) _} monotonic_time /\
  (forall s old c c_old nanos, cpp_counters s = c_counters c -> cpp_counters old = c_counters c_old ->
     stats_pci_addr s = device_name (device c) ->
     cpp_print_stats_diff s old nanos ≡@{M (world H) _} print_stats_diff c c_old nanos).
Proof.
  cbn zeta. split_and!; intros; split_and?; auto using wait_clear_same, wait_set_same, wait_for_link_same, init_rx_same,
    start_rx_queue_same, start_tx_queue_same, tx_packet_same, read_stats_same, print_diff_same; reflexivity.
Qed.
Definition cpp_demo : ixgbe := IxgbeObject (DriverBase "" 1 1 "0000:03:00.0" 0x20000 0x8000 0x7000) "ixy-ixgbe".
Lemma cpp_port_equals_c_witness :
  seen_as (fmap cpp_counters) (do_read_stats cpp_demo (Some (DeviceStats "???" 1 2 3 4)) rx_demo) =
  seen_as (fmap c_counters) (ixgbe_read_stats (handle cpp_demo) (Some (Device.DeviceStats None 1 2 3 4)) rx_demo).
Proof.
  destruct (cpp_port_equals_c cpp_demo 1 (H := sim)) as (_ & _ & _ & _ & _ & _ & _ & Hs & _).
  by apply Hs.
Defined.

(** ** rx_packet *)
Section rx.
Context {H : Type} `{NicWriteback H}.
Implicit Types (self : ixgbe) (w : world H).

Lemma cpp_rx_receive_spec self queue_id w P q :
  r_addr q = IxgbeCpp.rx_queue self queue_id -> rx_inv w P q -> rx_dd w q = true ->
  (forall h a, rtc hw_step (w_hw w) h ->
    grants h (addr self + IXGBE_RDT queue_id) (r_idx q) a -> rx_grant P q a) ->
  wp (IxgbeCpp.rx_receive self queue_id (r_idx q) (r_desc q (r_idx q)))
    (fun r w' => exists e P', pool_alloc P = Some (e, P') /\ r = entry P (r_buf q) /\
      rx_received (handle self) queue_id w P q e P' w')
    (fun f w' => f = rx_no_buffer /\ pool_alloc P = None) w.
Proof.
  intros Hq Hri Hdd Hgr. pose proof (rs_idx _ _ (ri_shape _ _ _ Hri)) as Hi.
  unfold IxgbeCpp.rx_receive. rewrite <- Hq. destruct (rx_va_load w P q Hri) as [Hm Hva].
  apply wp_bind, wp_load; [exact Hm|]. change (rx_member "virtual_addresses") with rxq_virtual_addresses. rewrite Hva.
  apply wp_bind, (wp_vload (fun _ => False)).
  { eapply mapped_sub; [apply (ri_map_d _ _ _ Hri)|unrq; lia|unrq; lia]. }
  intros w1 E1. rewrite (rx_desc_keep w w1 P q) by (done || (unrq; lia)).
  exact (rx_replace_spec (handle self) queue_id w w1 P q Hq Hri Hdd E1 Hgr).
Qed.
End rx.

(** C16: rx_packet of the C++ port keeps the contract of ixgbe_rx_packet although
    it reads the length of a finished packet from the descriptor in place
    instead of copying the descriptor: NULL and nothing touched without a done
    packet, the two aborts, and otherwise the recorded buffer with its length,
    a re-armed descriptor, advanced index and tail, and the invariant again. *)
Theorem cpp_rx_packet_refines {H} `{NicWriteback H} (self : ixgbe) queue_id (w : world H) P q :
  r_addr q = IxgbeCpp.rx_queue self queue_id -> rx_inv w P q ->
  (forall h a, rtc hw_step (w_hw w) h ->
    grants h (addr self + IXGBE_RDT queue_id) (r_idx q) a -> rx_grant P q a) ->
  wp (IxgbeCpp.rx_packet self queue_id)
    (fun r w' => exists w1, evolve (fun _ => False) w w1 /\
      ((rx_dd w1 q = false /\ r = NULL /\ w' = w1 /\ rx_inv w1 P q) \/
       (rx_dd w1 q = true /\ rx_eop w1 q = true /\
        exists e P', pool_alloc P = Some (e, P') /\ r = entry P (r_buf q) /\
          rx_received (handle self) queue_id w1 P q e P' w')))
    (fun f _ => exists w1, evolve (fun _ => False) w w1 /\ rx_dd w1 q = true /\
      ((rx_eop w1 q = false /\ f = rx_multi_segment) \/
       (rx_eop w1 q = true /\ pool_alloc P = None /\ f = rx_no_buffer))) w.
Proof.
  intros Hq Hri Hgr. destruct (rx_head_loads w P q Hri) as (Hm1 & Hl1 & Hm2 & Hl2 & Hm3).
  unfold IxgbeCpp.rx_packet. rewrite <- Hq. apply wp_bind, wp_load; [exact Hm1|].
  change (rx_member "rx_index") with rxq_rx_index. rewrite Hl1. apply wp_bind, wp_load; [exact Hm2|].
  change (rx_member "descriptors") with rxq_descriptors. rewrite Hl2. fold (r_desc q (r_idx q)).
  apply wp_bind, (wp_vload (fun _ => False)); [exact Hm3|]. intros w1 E1.
  pose proof (rx_inv_tick _ _ _ _ Hri E1) as Hri1. destruct (rx_status_bits w1 q) as [-> ->].
  destruct (rx_dd w1 q) eqn:Hdd; cbn [negb]; [|apply wp_ret; exists w1; auto 10].
  destruct (rx_eop w1 q) eqn:Heop; cbn [negb]; [|apply wp_fail; exists w1; auto 10].
  eapply wp_mono; [apply (cpp_rx_receive_spec self queue_id w1 P q Hq Hri1 Hdd)| |].
  - intros h a Hh. apply Hgr. etransitivity; [|exact Hh]. apply (ch_hw _ _ _ (evolve_changes _ _ _ E1)).
  - intros r w' Hr. exists w1. auto 10.
  - intros f w' [-> Hr]. exists w1. auto 10.
Qed.
Lemma cpp_rx_packet_refines_witness : (exists (Q : Z -> world sim -> Prop) E,
    wp (IxgbeCpp.rx_packet cpp_demo 0) Q E rx_demo) /\
  let '(r, w') := run (IxgbeCpp.rx_packet cpp_demo 0) rx_demo 7 in
  r = entry demo_pool 3 /\ ld 4 (w_mem w') (r + pb_size) = 60 /\
  rx_invb w' (set_free [0] demo_pool) (r_next rx_demo_q) = true.
Proof.
  split; [|vm_compute; split_and!; reflexivity].
  eexists _, _. apply (cpp_rx_packet_refines cpp_demo 0 rx_demo rx_demo_pool rx_demo_q).
  - done.
  - apply rx_invb_sound. by vm_compute.
  - intros h a. apply sim_rx_grant. by vm_compute.
Defined.

(** ** init_link *)
(** the link mode select field of AUTOC, bits 13 to 15 *)
Definition lms (x : Z) : bool * bool * bool := (Z.testbit x 13, Z.testbit x 14, Z.testbit x 15).

Lemma u32_testbit x k : 0 <= k < 32 -> Z.testbit (u32 x) k = Z.testbit x k.
Proof. intros Hk. unfold u32. apply Z.mod_pow2_bits_low. lia. Qed.
Lemma masked_testbit v mask bits k : 0 <= k < 32 ->
  Z.testbit (u32 (Z.lor (Z.land (u32 v) (not32 mask)) bits)) k =
  Z.testbit v k && Z.testbit (not32 mask) k || Z.testbit bits k.
Proof. intros Hk. by rewrite u32_testbit, Z.lor_spec, Z.land_spec, u32_testbit by done. Qed.
Lemma or_testbit v bits k : 0 <= k < 32 ->
  Z.testbit (u32 (Z.lor (u32 v) bits)) k = Z.testbit v k || Z.testbit bits k.
Proof. intros Hk. by rewrite u32_testbit, Z.lor_spec, u32_testbit by done. Qed.

(** C30: init_link of the C++ port does not select the link mode.  Its first call
    has the arguments of set_reg32 swapped: it writes 0 at an offset computed
    from the device control register, never to AUTOC, and the two writes to AUTOC
    that follow leave the link mode select bits as they were read.  The C driver's
    first write puts 10G serial (mode 3) there. *)
Theorem cpp_init_link_skips_link_mode {H} `{Platform H} (self : ixgbe) (w : world H) :
  wp (IxgbeCpp.init_link self) (fun _ w' => exists off ctrl h0 v1 h2 v2 h4 x1 x2,
      mmio_read (addr self + 0) (w_hw w) = (ctrl, h0) /\
      mmio_read (addr self + IXGBE_AUTOC) (mmio_write (addr self + off) 0 h0) = (v1, h2) /\
      mmio_read (addr self + IXGBE_AUTOC) (mmio_write (addr self + IXGBE_AUTOC) x1 h2) = (v2, h4) /\
      w_hw w' = mmio_write (addr self + IXGBE_AUTOC) x2 h4 /\
      off <> IXGBE_AUTOC /\ lms x1 = lms v1 /\ lms x2 = lms v2) never w /\
  wp (Ixgbe.init_link (handle self)) (fun _ w' => exists v0 h0 x0 v1 h2 x1 v2 h4 x2,
      mmio_read (addr self + IXGBE_AUTOC) (w_hw w) = (v0, h0) /\ lms x0 = (true, true, false) /\
      mmio_read (addr self + IXGBE_AUTOC) (mmio_write (addr self + IXGBE_AUTOC) x0 h0) = (v1, h2) /\
      mmio_read (addr self + IXGBE_AUTOC) (mmio_write (addr self + IXGBE_AUTOC) x1 h2) = (v2, h4) /\
      w_hw w' = mmio_write (addr self + IXGBE_AUTOC) x2 h4 /\ lms x1 = lms v1 /\ lms x2 = lms v2) never w.
Proof.
  assert (forall v, lms (u32 (Z.lor (Z.land (u32 v) (not32 IXGBE_AUTOC_10G_PMA_PMD_MASK)) IXGBE_AUTOC_10G_XAUI)) = lms v /\
    lms (u32 (Z.lor (u32 v) IXGBE_AUTOC_AN_RESTART)) = lms v) as Hkeep.
  { intros v. unfold lms. rewrite !masked_testbit, !or_testbit by lia.
    split; destruct (Z.testbit v 13), (Z.testbit v 14), (Z.testbit v 15); reflexivity. }
  split.
  - unfold IxgbeCpp.init_link, IxgbeCpp.set_flags32, IxgbeCpp.get_reg32, IxgbeCpp.set_reg32.
    apply wp_bind, wp_mmio_read. intros ctrl h0 E0. apply wp_bind, wp_mmio_set; cbn.
    apply wp_bind, wp_mmio_read; cbn. intros v1 h2 E1. apply wp_bind, wp_mmio_set; cbn.
    apply wp_bind, wp_mmio_read; cbn. intros v2 h4 E2. apply wp_mmio_set; cbn.
    eexists _, ctrl, h0, v1, h2, v2, h4, _, _. split_and!; [exact E0|exact E1|exact E2|reflexivity| |apply Hkeep|apply Hkeep].
    intros Hoff. set (x := Z.lor _ _) in Hoff. assert (u32 x = IXGBE_AUTOC) as Hx.
    { unfold i32 in Hoff. pose proof (u32_range x) as Hr. destruct (u32 x <? 2 ^ 31); [done|].
      exfalso. revert Hoff. change IXGBE_AUTOC with 17056. lia. }
    pose proof (masked_testbit ctrl IXGBE_AUTOC_LMS_MASK IXGBE_AUTOC_LMS_10G_SERIAL 13) as Hb.
    fold x in Hb. rewrite Hx in Hb. cbn in Hb. rewrite orb_true_r in Hb. by specialize (Hb ltac:(lia)).
  - unfold Ixgbe.init_link, Device.set_flags32, Device.get_reg32, Device.set_reg32. cbn [handle Device.addr].
    apply wp_bind, wp_mmio_read. intros v0 h0 E0. apply wp_bind, wp_mmio_set; cbn.
    apply wp_bind, wp_mmio_read; cbn. intros v1 h2 E1. apply wp_bind, wp_mmio_set; cbn.
    apply wp_bind, wp_mmio_read; cbn. intros v2 h4 E2. apply wp_mmio_set; cbn.
    eexists v0, h0, _, v1, h2, _, v2, h4, _. split_and!;
      [exact E0| |exact E1|exact E2|reflexivity|apply Hkeep|apply Hkeep].
    unfold lms. rewrite !masked_testbit by lia. destruct (Z.testbit v0 13), (Z.testbit v0 14), (Z.testbit v0 15); reflexivity.
Qed.
