(* ===== verification/AppProps.v ===== *)
(** * Properties of the applications *)
From S2P Require Import Prelude Mem Platform Memory Registers Device Pci Ixgbe Ring TxRing RxRing IxgbeCpp Stats Apps.
From S2P Require Import Sim MemoryProps TxProps RxProps.

(** ** The template packets of ixy-pktgen *)
Definition packet_filled (m : mem) (buf : Z) : Prop :=
  ld 4 m (buf + pb_size) = PKT_SIZE /\ forall k, 0 <= k < PKT_SIZE -> ld 1 m (buf + pb_data + k) = 0xFF.

(** what the client of a buffer may write: all but the header fields *)
Definition client_area (P : pool) (i a : Z) : Prop := range (entry P i + pb_size) (p_bufsz P - pb_size) a.

Lemma client_area_off P i a : pool_shape P -> 0 <= i < p_num P -> client_area P i a -> ~ pool_fp P a.
Proof.
  intros Hs Hi Ha. pose proof (entry_bound P i Hs Hi) as Hb. pose proof (ps_bufsz _ Hs) as Hbs. unfold client_area in Ha.
  intros [Hp|(j & Hj & Hp)].
  - pose proof (ps_disj _ Hs) as Hd. clear Hs. unlayout. unfold disj, range in *. lia.
  - destruct (decide (i = j)) as [->|Hne]; [unlayout; unfold range in *; lia|].
    pose proof (entry_sep P i j Hs Hi Hj Hne) as Hd. clear Hs. unlayout. unfold disj, range in *. lia.
Qed.
Lemma client_area_sep P i j a : pool_shape P -> 0 <= i < p_num P -> 0 <= j < p_num P -> i <> j ->
  client_area P i a -> ~ client_area P j a.
Proof.
  intros Hs Hi Hj Hne. pose proof (entry_sep P i j Hs Hi Hj Hne) as Hd. clear Hs.
  unfold client_area. unlayout. unfold disj, range in *. lia.
Qed.
Lemma client_area_pool P i a : pool_shape P -> 0 <= i < p_num P -> client_area P i a ->
  ~ range (p_addr P) (sizeof_mempool + 4 * p_num P) a.
Proof. intros Hs Hi Ha Hr. eapply client_area_off; [done|done|exact Ha|by left]. Qed.

Lemma client_in_pool P i a : pool_shape P -> 0 <= i < p_num P -> client_area P i a -> pool_mem P a.
Proof.
  intros Hs Hi Ha. right. pose proof (entry_bound P i Hs Hi). pose proof (ps_bufsz _ Hs).
  unfold client_area in Ha. unlayout. unfold range in *. lia.
Qed.
Lemma packet_filled_ext m m' P i : pb_data + PKT_SIZE <= p_bufsz P ->
  (forall a, client_area P i a -> rd m a = rd m' a) -> packet_filled m (entry P i) -> packet_filled m' (entry P i).
Proof.
  intros Hb Hag [Hsz Hd].
  assert (forall n o, pb_size <= o -> o + Z.of_nat n <= pb_data + PKT_SIZE ->
    ld n m' (entry P i + o) = ld n m (entry P i + o)) as Hld.
  { intros n o Ho1 Ho2. symmetry. apply ld_ext. intros b Hr. apply Hag. unfold client_area, range. lia. }
  split.
  - rewrite Hld by (unlayout; unfold PKT_SIZE; lia). exact Hsz.
  - intros k Hk. rewrite <- Z.add_assoc, Hld by (unlayout; lia). rewrite Z.add_assoc. by apply Hd.
Qed.
Lemma packet_filled_frame F m m' P i : pb_data + PKT_SIZE <= p_bufsz P -> agree_off F m m' ->
  (forall a, F a -> ~ client_area P i a) -> packet_filled m (entry P i) -> packet_filled m' (entry P i).
Proof. intros Hb [_ Hag] HF. apply packet_filled_ext; [done|]. intros a Ha. apply Hag. intros HFa. by apply (HF a). Qed.

Section pktgen.
Context {H : Type} `{Platform H}.
Implicit Types (w : world H) (P : pool).

(** the loop that writes the data *)
Record filling (buf : Z) (w : world H) (i : Z) (w' : world H) : Prop := {
  fi_rest : w' = set_mem (w_mem w') w;
  fi_agree : agree_off (range (buf + pb_size) (pb_data - pb_size + PKT_SIZE)) (w_mem w) (w_mem w');
  fi_size : ld 4 (w_mem w') (buf + pb_size) = PKT_SIZE;
  fi_data : forall k, 0 <= k < i -> ld 1 (w_mem w') (buf + pb_data + k) = 0xFF
}.

Lemma fill_packet_spec buf w :
  mapped (w_mem w) (buf + pb_size) (pb_data - pb_size + PKT_SIZE) = true ->
  wp (fill_packet buf) (fun _ w' => filling buf w PKT_SIZE w') never w.
Proof.
  intros Hm. unfold fill_packet.
  apply wp_bind, wp_store. { eapply mapped_sub; [exact Hm|lia|unlayout; unfold PKT_SIZE; lia]. }
  set (w1 := set_mem _ w). replace PKT_SIZE with (0 + Z.of_nat (Z.to_nat PKT_SIZE)) at 2 by done.
  apply (wp_for _ (filling buf w)).
  - split; cbn.
    + done.
    + apply agree_off_st. unfold range, PKT_SIZE. unlayout. lia.
    + by rewrite ld_st_eq.
    + lia.
  - intros i w' Hi [Hrest Hag Hsz Hd]. unfold PKT_SIZE in Hi. cbn in Hi. apply wp_store.
    { rewrite <- (agree_off_mapped _ _ _ _ _ Hag). eapply mapped_sub; [exact Hm|unlayout; lia|unlayout; unfold PKT_SIZE; lia]. }
    split; cbn.
    + by rewrite Hrest.
    + etransitivity; [exact Hag|]. apply agree_off_st. unfold range, PKT_SIZE. unlayout. lia.
    + rewrite ld_st_out by (unlayout; lia). done.
    + intros k Hk. destruct (decide (k = i)) as [->|Hne]; [by rewrite ld_st_eq|].
      rewrite ld_st_out by lia. apply Hd. lia.
Qed.

Lemma agree_top P v m : pool_shape P ->
  agree_off (range (p_addr P) (sizeof_mempool + 4 * p_num P)) m (st 4 (p_addr P + mp_free_stack_top) v m).
Proof. intros Hs. pose proof (ps_num _ Hs). apply agree_off_st. unfold range. unlayout. lia. Qed.

(** taking [n] buffers and filling them *)
Lemma fill_bufs_spec n P w :
  pool_ok (w_mem w) P -> pb_data + PKT_SIZE <= p_bufsz P -> (n <= length (p_free P))%nat ->
  wp (fill_bufs n (p_addr P)) (fun bufs w' => exists l ids, bufs = entry P <$> ids /\ length ids = n /\
      p_free P = l ++ reverse ids /\ pool_ok (w_mem w') (set_free l P) /\
      (forall i, i ∈ ids -> packet_filled (w_mem w') (entry P i)) /\
      (forall i, 0 <= i < p_num P -> i ∉ p_free P -> packet_filled (w_mem w) (entry P i) ->
         packet_filled (w_mem w') (entry P i)) /\
      w' = set_mem (w_mem w') w /\ agree_off (pool_mem P) (w_mem w) (w_mem w')) never w.
Proof.
  revert P w. induction n as [|n IH]; intros P w Hok Hb Hn; cbn [fill_bufs].
  - apply wp_ret. exists (p_free P), []. rewrite app_nil_r. split_and!.
    all: cycle 3. { by destruct P. } { intros i Hi. by apply elem_of_nil in Hi. } { done. } { by destruct w. } all: done.
  - pose proof (pk_shape _ _ Hok) as Hs. apply wp_bind. eapply wp_conseq; [by apply pkt_buf_alloc_spec|]. cbn beta.
    intros r w1 Hr. destruct (pool_alloc P) as [[e P1]|] eqn:Ha.
    2:{ exfalso. unfold pool_alloc in Ha. destruct (last (p_free P)) eqn:El; [done|]. apply last_None in El. rewrite El in Hn. cbn in Hn. lia. }
    destruct Hr as (-> & Hok1 & Hw1). destruct (pool_shape_alloc P e P1 Hs Ha) as (Hs1 & He & Hne & Hf & HP1).
    apply wp_bind. eapply wp_conseq; [apply fill_packet_spec|].
    { eapply mapped_sub; [rewrite Hw1; cbn; rewrite mapped_st; apply (pk_map_bufs _ _ Hok)| |];
        pose proof (entry_bound P e Hs He); unlayout; lia. }
    cbn beta. intros _ w2 [Hrest Hag Hsz Hd].
    assert (forall a, range (entry P e + pb_size) (pb_data - pb_size + PKT_SIZE) a -> client_area P e a) as Hin
      by (unfold client_area, range; lia).
    assert (pool_ok (w_mem w2) P1) as Hok2.
    { eapply pool_ok_frame; [| |exact Hok1].
      - intros a Ha1. apply Hag. intros Hx%Hin. eapply client_area_off; [exact Hs|exact He|exact Hx|].
        rewrite HP1 in Ha1. exact Ha1.
      - apply Hag. }
    assert (p_addr P = p_addr P1) as -> by (by rewrite HP1).
    assert (length (p_free P) = S (length (p_free P1))) as Hlen by (rewrite Hf, length_app; cbn; lia).
    apply wp_bind. eapply wp_conseq; [apply (IH P1 w2 Hok2); [by rewrite HP1|lia]|].
    cbn beta. intros bufs w3 (l & ids & -> & Hl & Hfl & Hok3 & Hids & Hkeep & Hw3 & Hag3). apply wp_ret.
    assert (entry P1 = entry P) as HeP by (by rewrite HP1). assert (p_num P1 = p_num P) as Hnum by (by rewrite HP1).
    rewrite HeP, Hnum in *. exists l, (e :: ids). split_and!.
    + done.
    + cbn. by rewrite Hl.
    + rewrite Hf, Hfl, reverse_cons, app_assoc. done.
    + rewrite HP1 in Hok3. exact Hok3.
    + intros i [->|Hi]%elem_of_cons; [|by apply Hids]. apply Hkeep; [done|done|by split].
    + intros i Hi Hni Hfi. rewrite Hf, not_elem_of_app, list_elem_of_singleton in Hni. destruct Hni as [Hni1 Hie].
      apply Hkeep; [done|done|]. eapply (packet_filled_frame _ (w_mem w1)); [done|exact Hag| |].
      * intros a Hx%Hin. eapply client_area_sep; [exact Hs|exact He|exact Hi|done|exact Hx].
      * eapply (packet_filled_frame (range (p_addr P) (sizeof_mempool + 4 * p_num P)) (w_mem w)); [done| | |exact Hfi].
        { rewrite Hw1; cbn. by apply agree_top. }
        intros a Hx Hy. exact (client_area_pool P i a Hs Hi Hy Hx).
    + by rewrite Hw3, Hrest, Hw1.
    + assert (pool_mem P1 = pool_mem P) as HpP by (by rewrite HP1). rewrite HpP in Hag3. etransitivity; [|exact Hag3]. clear Hag3 HpP.
      assert (agree_off (pool_mem P) (w_mem w) (w_mem w1)) as Hag1.
      { rewrite Hw1; cbn. eapply agree_off_mono; [|apply agree_top; exact Hs]. intros a Ha'. by left. }
      etransitivity; [exact Hag1|]. eapply agree_off_mono; [|exact Hag]. intros a Hx%Hin. by apply (client_in_pool P e).
Qed.

Lemma free_bufs_spec ids P w :
  pool_ok (w_mem w) P -> NoDup (p_free P ++ ids) -> Forall (fun i => 0 <= i < p_num P) ids ->
  wp (free_bufs (entry P <$> ids)) (fun _ w' => pool_ok (w_mem w') (set_free (p_free P ++ ids) P) /\
    w' = set_mem (w_mem w') w /\
    agree_off (range (p_addr P) (sizeof_mempool + 4 * p_num P)) (w_mem w) (w_mem w')) never w.
Proof.
  revert P w. induction ids as [|i ids IH]; intros P w Hok Hnd Hb; cbn [fmap list_fmap free_bufs].
  - apply wp_ret. rewrite app_nil_r. split; [by destruct P|]. split; [by destruct w|done].
  - apply Forall_cons in Hb as [Hi Hb]. pose proof (pk_shape _ _ Hok) as Hs.
    assert (i ∉ p_free P) as Hni. { intros Hin. apply NoDup_app in Hnd as (_ & Hd & _). apply (Hd i Hin). left. }
    apply wp_bind. eapply wp_conseq; [by apply pkt_buf_free_spec|]. cbn beta. intros _ w1 [Hok1 Hw1].
    pose proof (free_length_lt P i Hs Hi Hni) as Hl.
    eapply wp_conseq; [apply (IH (pool_free i P) w1 Hok1)|].
    + cbn. by rewrite <- app_assoc.
    + exact Hb.
    + cbn beta. cbn [pool_free set_free p_free p_addr p_num]. rewrite <- app_assoc. intros _ w2 (Hok2 & Hw2 & Hag).
      split; [exact Hok2|]. split; [by rewrite Hw2, Hw1|]. etransitivity; [|exact Hag]. rewrite Hw1; cbn.
      etransitivity; [by apply agree_top|]. apply agree_off_st. unfold range. unlayout. lia.
Qed.

(** from a pool whose entries are all free: take and fill all of them, free them *)
Lemma prefill_spec P n w : pool_ok (w_mem w) P -> pb_data + PKT_SIZE <= p_bufsz P -> p_free P = seqZ 0 (p_num P) ->
  n = Z.to_nat (p_num P) ->
  wp (bufs ← fill_bufs n (p_addr P); free_bufs bufs ;; mret (p_addr P)) (fun r w' => let P' := set_free (reverse (seqZ 0 (p_num P))) P in
      r = p_addr P /\ pool_ok (w_mem w') P' /\ (forall i, 0 <= i < p_num P -> packet_filled (w_mem w') (entry P i)) /\
      w' = set_mem (w_mem w') w /\ agree_off (pool_mem P) (w_mem w) (w_mem w')) never w.
Proof.
  intros Hok Hb Hfree Hn. pose proof (pk_shape _ _ Hok) as Hs. pose proof (ps_num _ Hs) as Hn0. apply wp_bind.
  assert (length (p_free P) = n) as Hlen by (by rewrite Hfree, length_seqZ, Hn).
  eapply wp_conseq; [apply (fill_bufs_spec n P w Hok Hb); lia|]. cbn beta.
  intros bufs w2 (l & ids & -> & Hl & Hf & Hok2 & Hfill & _ & Hw2 & Hag2).
  assert (l = []) as ->.
  { apply (f_equal length) in Hf. rewrite length_app, length_reverse, Hl, Hlen in Hf. destruct l; [done|cbn [length] in Hf; lia]. }
  cbn [app] in Hf. assert (ids = reverse (seqZ 0 (p_num P))) as Hids by (by rewrite <- Hfree, Hf, reverse_involutive).
  apply wp_bind. eapply wp_conseq; [apply (free_bufs_spec ids (set_free [] P) w2 Hok2)|].
  - cbn [set_free p_free app]. rewrite Hids, reverse_Permutation. apply NoDup_seqZ.
  - rewrite Hids. apply Forall_reverse, Forall_forall. intros i Hi%elem_of_seqZ. cbn [set_free p_num]. lia.
  - cbn beta. intros _ w3 (Hok3 & Hw3 & Hag). apply wp_ret. cbn zeta. rewrite <- Hids. split_and!.
    + done.
    + exact Hok3.
    + intros i Hi. eapply (packet_filled_frame _ (w_mem w2)); [done|exact Hag| |].
      * intros a Ha Hc. eapply (client_area_pool P); [done|exact Hi|exact Hc|exact Ha].
      * apply Hfill. rewrite Hids. apply elem_of_reverse, elem_of_seqZ. lia.
    + by rewrite Hw3, Hw2.
    + etransitivity; [exact Hag2|]. eapply agree_off_mono, Hag. intros a Ha. by left.
Qed.
End pktgen.
