(* ===== verification/Forward.v ===== *)
(** * Receiving on one queue and sending on another

    What ixy-fwd does with a packet: the receive ring [q1] of one device and
    the transmit ring [q2] of another (or the same) device hold buffers of the
    same pool.  The lemmas say that a step of one ring is invisible to the
    invariant of the other, including the write of a tail register, which hands
    memory to a device. *)
From S2P Require Import Prelude Mem Platform Memory Registers IxgbeCpp Stats Apps Device Pci Ixgbe Ring TxRing RxRing.
From S2P Require Import Sim MemoryProps TxProps RxProps.

Section forward.
Context {H : Type} `{NicWriteback H}.
Implicit Types (w : world H) (P : pool).

(** different structures, different rings *)
Record queues_apart (q1 : rxq) (q2 : txq) : Prop := {
  qa_ss : disj (r_addr q1) (r_size q1) (q_addr q2) (q_size q2);
  qa_sr : disj (r_addr q1) (r_size q1) (q_descs q2) (q_ring q2);
  qa_rs : disj (r_descs q1) (r_ring q1) (q_addr q2) (q_size q2);
  qa_rr : disj (r_descs q1) (r_ring q1) (q_descs q2) (q_ring q2)
}.

(** ** The transmit ring while a packet is received *)
Definition off_tx P q2 (a : Z) : Prop :=
  ~ pool_fp P a /\ ~ range (q_addr q2) (q_size q2) a /\ ~ range (q_descs q2) (q_ring q2) a.

Lemma r_desc_in_ring P q1 k a : rx_shape P q1 -> 0 <= k < r_n q1 -> range (r_desc q1 k) 16 a -> range (r_descs q1) (r_ring q1) a.
Proof. intros Hs Hk. unrq. unfold range. lia. Qed.

(** a register write that grants nothing of the transmit ring's *)
Lemma tx_inv_granted w P q2 reg v : tx_inv w P q2 ->
  (forall a, grants (w_hw w) reg v a -> off_tx P q2 a) -> tx_inv (set_hw (mmio_write reg v (w_hw w)) w) P q2.
Proof.
  intros [Hp Hsh Hst Hmq Hmd Hfly Hnd Hsep [T1 T2 T3] Hds Hdn] Hg.
  assert (forall a, nic_owns (mmio_write reg v (w_hw w)) a -> nic_owns (w_hw w) a \/ off_tx P q2 a) as Hown.
  { intros a [Ha|Ha]%mmio_write_own; [by left|right; by apply Hg]. }
  split; try done.
  - split.
    + intros a [Ha|[Ha _]]%Hown; [by apply T1|done].
    + intros a [Ha|(_ & Ha & _)]%Hown; [by apply T2|done].
    + intros k a Hk Hr [Ha|(_ & _ & Ha)]%Hown; [by eapply T3|]. by apply Ha, (tx_desc_in_ring q2 k).
  - intros k Hk. by apply desc_at_write, Hds.
  - intros k Hk. destruct (Hdn k Hk) as [D1 D2]. split; [by apply desc_at_write|].
    intros Hd a Hr [Ha|(_ & _ & Ha)]%Hown; [by eapply D2|]. by apply Ha, (tx_desc_in_ring q2 k).
Qed.

Lemma rx_touched_off w P q1 q2 a : rx_inv w P q1 -> tx_sep P q2 -> queues_apart q1 q2 -> rx_touched P q1 a ->
  ~ range (q_addr q2) (q_size q2) a /\ ~ range (q_descs q2) (q_ring q2) a.
Proof.
  intros Hri [T1 T2 T3 T4] [A1 A2 A3 A4] Ha. pose proof (ri_shape _ _ _ Hri) as Hsh.
  destruct (rx_bounds P q1 Hsh) as [Hn _]. pose proof (pk_shape _ _ (ri_pool _ _ _ Hri)) as Hps.
  pose proof (ps_num _ Hps) as Hnum. pose proof (ps_bufsz _ Hps) as Hbs.
  destruct (rx_va_lookup P q1 Hsh) as [_ Hb]. pose proof (entry_bound P _ Hps Hb) as He.
  destruct Ha as [Ha|[Ha|[Ha|Ha]]].
  - clear -Ha He Hbs T2 T4. unlayout. unfold disj, range in *. lia.
  - clear -Ha Hnum T1 T3. unlayout. unfold disj, range in *. lia.
  - clear -Ha Hn A1 A2. unrq. unfold disj, range in *. lia.
  - apply (r_desc_in_ring P q1 _ _ Hsh (rs_idx _ _ Hsh)) in Ha. clear -Ha A3 A4. unfold disj, range in *. lia.
Qed.

Lemma rx_grant_off w P q1 q2 a : rx_inv w P q1 -> tx_sep P q2 -> queues_apart q1 q2 -> rx_grant P q1 a -> off_tx P q2 a.
Proof.
  intros Hri [T1 T2 T3 T4] [A1 A2 A3 A4] Hg. pose proof (ri_shape _ _ _ Hri) as Hsh.
  pose proof (pk_shape _ _ (ri_pool _ _ _ Hri)) as Hps. pose proof (ps_bufsz _ Hps) as Hbs.
  destruct (rx_grant_private P q1 a Hps Hsh (ri_sep _ _ _ Hri) Hg) as (G1 & G2 & _). split.
  - intros [Hx|(i & Hi & Hx)]; [done|]. apply (G2 i Hi). unlayout. unfold range in *. lia.
  - destruct Hg as [Ha|(i & Hi & Ha)].
    + apply (r_desc_in_ring P q1 _ _ Hsh (proj2 (rx_bounds P q1 Hsh))) in Ha. clear -Ha A3 A4. unfold disj, range in *. lia.
    + pose proof (entry_bound P i Hps Hi) as He. clear -Ha He Hbs T2 T4. unlayout. unfold disj, range in *. lia.
Qed.

(** the transmit ring after a packet was received into the other *)
Lemma tx_ok_after_rx dev id w w1 P q1 q2 e P' w' :
  rx_inv w P q1 -> tx_ok w P q2 -> queues_apart q1 q2 -> evolve (fun _ => False) w w1 ->
  pool_alloc P = Some (e, P') -> rx_received dev id w1 P q1 e P' w' ->
  (forall h a, rtc hw_step (w_hw w) h -> grants h (addr dev + IXGBE_RDT id) (r_idx q1) a -> rx_grant P q1 a) ->
  tx_ok w' P' q2.
Proof.
  intros Hri [Hti Hcl] Hap E1 Ha Hrv Hgr. pose proof (pk_shape _ _ (ri_pool _ _ _ Hri)) as Hps.
  destruct (pool_shape_alloc P e P' Hps Ha) as (_ & He & _ & Hf & HP').
  destruct (rv_tail _ _ _ _ _ _ _ _ Hrv) as (w3 & E3 & ->).
  assert (evolve (rx_touched P q1) w w3) as E.
  { etransitivity; [by eapply evolve_mono, E1|exact E3]. }
  pose proof (fun a Hx => rx_touched_off w P q1 q2 a Hri (ti_sep _ _ _ Hti) Hap Hx) as Hoff.
  assert (tx_inv w3 P' q2) as Hti3.
  { eapply (tx_inv_transfer (rx_touched P q1) w w3 P P'); [exact Hti|exact E| | |exact HP'|].
    - intros a Hx. destruct (Hoff a Hx) as [O1 O2]. split; [|done]. by intros [Hy _].
    - exact (ri_pool _ _ _ (rv_inv _ _ _ _ _ _ _ _ Hrv)).
    - pose proof (ti_nodup _ _ _ Hti) as Hnd. rewrite Hf, app_assoc in Hnd. by apply NoDup_app in Hnd as [? _]. }
  split; [|cbn].
  - apply tx_inv_granted; [done|]. intros a Hg.
    assert (rx_grant P q1 a) as Hx.
    { eapply Hgr; [apply (ch_hw _ _ _ (evolve_changes _ _ _ E))|exact Hg]. }
    destruct (rx_grant_off w P q1 q2 a Hri (ti_sep _ _ _ Hti) Hap Hx) as (O1 & O2 & O3). split; [|done].
    by rewrite HP'.
  - rewrite <- Hcl. eapply tx_clean_kept; [exact Hti|exact E|]. intros a Hx. by apply Hoff.
Qed.

(** ** The receive ring while a packet is sent *)
Definition off_rx P q1 (a : Z) : Prop :=
  ~ range (p_addr P) (sizeof_mempool + 4 * p_num P) a /\ ~ range (p_base P) (p_num P * p_bufsz P) a /\
  ~ range (r_addr q1) (r_size q1) a /\ ~ range (r_descs q1) (r_ring q1) a.

Lemma rx_inv_granted w P q1 reg v : rx_inv w P q1 ->
  (forall a, grants (w_hw w) reg v a -> off_rx P q1 a) -> rx_inv (set_hw (mmio_write reg v (w_hw w)) w) P q1.
Proof.
  intros [Hp Hsh Hst Hmq Hmd Hsep [R1 R2 R3] Hds [Hpd Hpo]] Hg. destruct (rx_bounds P q1 Hsh) as [_ Hb].
  assert (forall a, nic_owns (mmio_write reg v (w_hw w)) a -> nic_owns (w_hw w) a \/ off_rx P q1 a) as Hown.
  { intros a [Ha|Ha]%mmio_write_own; [by left|right; by apply Hg]. }
  pose proof (pk_shape _ _ Hp) as Hps. pose proof (ps_bufsz _ Hps) as Hbs.
  split; try done.
  - split.
    + intros a [Ha|(Ha & _)]%Hown; [by apply R1|done].
    + intros i a Hi [Ha|(_ & Ha & _)]%Hown; [by apply R2|]. intros Hr. apply Ha.
      pose proof (entry_bound P i Hps Hi) as He. clear -Hr He Hbs. unfold range in *. lia.
    + intros a [Ha|(_ & _ & Ha & _)]%Hown; [by apply R3|done].
  - intros k Hk. destruct (Hds k Hk) as [D1 D2]. split; [by apply desc_at_write|].
    intros Hd a Hr [Ha|(_ & _ & _ & Ha)]%Hown; [by eapply D2|]. by apply Ha, (r_desc_in_ring P q1 k).
  - split; [done|]. intros a Hr [Ha|(_ & _ & _ & Ha)]%Hown; [by eapply Hpo|]. by apply Ha, (r_desc_in_ring P q1 (r_prev q1)).
Qed.

Lemma tx_touched_off P q1 q2 a : pool_shape P -> rx_sep P q1 -> queues_apart q1 q2 -> tx_shape q2 ->
  (pool_fp P a \/ range (q_addr q2) (q_size q2) a) \/ tx_touched q2 a ->
  ~ range (r_addr q1) (r_size q1) a /\ ~ range (r_descs q1) (r_ring q1) a.
Proof.
  intros Hps [S1 S2 S3 S4] [A1 A2 A3 A4] Hsh Ha.
  assert (range (p_addr P) (sizeof_mempool + 4 * p_num P) a \/ range (p_base P) (p_num P * p_bufsz P) a \/
    range (q_addr q2) (q_size q2) a \/ range (q_descs q2) (q_ring q2) a) as Hr.
  { destruct Ha as [[Ha%pool_fp_bound|Ha]|[Ha|Ha%tx_desc_in_ring]]; tauto. }
  clear -Hr S1 S2 S3 S4 A1 A2 A3 A4. unfold disj, range in *. lia.
Qed.

Lemma rx_inv_after_clean w w' P P' q1 q2 : rx_inv w P q1 -> tx_shape q2 -> queues_apart q1 q2 ->
  evolve (fun a => (pool_fp P a \/ range (q_addr q2) (q_size q2) a) \/ tx_touched q2 a) w w' ->
  pool_ok (w_mem w') P' -> P' = set_free (p_free P') P -> rx_inv w' P' q1.
Proof.
  intros Hri Hsh Hap Hev Hok HP'. eapply rx_inv_transfer; [exact Hri|exact Hev| |exact Hok|exact HP'].
  intros a Ha. eapply tx_touched_off; [apply (ri_pool _ _ _ Hri)|apply (ri_sep _ _ _ Hri)|done|done|exact Ha].
Qed.

Lemma tx_desc_off w P q1 q2 a : tx_inv w P q2 -> queues_apart q1 q2 ->
  range (q_desc q2 (q_len q2)) 16 a -> off_rx P q1 a.
Proof.
  intros Hti [A1 A2 A3 A4] Ha%tx_desc_in_ring; [|apply (ti_shape _ _ _ Hti)]. destruct (ti_sep _ _ _ Hti) as [T1 T2 T3 T4].
  unfold off_rx. clear -Ha A2 A4 T3 T4. unfold disj, range in *. lia.
Qed.

(** the device may hand over at most the slot it was given *)
Definition tdt_grants (dev1 dev2 : ixy_device) w q1 q2 : Prop := forall h1 h a,
  rtc hw_step (w_hw w) h1 -> rtc hw_step (mmio_write (addr dev1 + IXGBE_RDT 0) (r_idx q1) h1) h ->
  grants h (addr dev2 + IXGBE_TDT 0) (q_slot q2 (q_len q2 + 1)) a -> range (q_desc q2 (q_len q2)) 16 a.
Definition rdt_grants (dev : ixy_device) w P q1 : Prop := forall h a, rtc hw_step (w_hw w) h ->
  grants h (addr dev + IXGBE_RDT 0) (r_idx q1) a -> rx_grant P q1 a.

(** The received buffer [i] is offered to the transmit ring of [dev2] in [w]:
    the clean-up takes the [n] oldest packets off the ring, into [w1]; then the
    buffer is queued, or, the ring being full, nothing more happens and the
    buffer is lost. *)
Definition offered dev2 w P q1 q2 i n w1 w' : Prop :=
  let P2 := free_all (take n (q_fly q2)) P in
  tx_cleaned w P q2 n w1 /\ rx_inv w' P2 q1 /\
  (tx_queued dev2 0 w P q2 n i w1 w' \/
   (w' = w1 /\ q_len q2 - Z.of_nat n + 1 = q_n q2 /\ i ∉ q_fly (q_popn n q2) ++ p_free P2)).

Lemma free_all_free L P : free_all L P = set_free (p_free (free_all L P)) P.
Proof. done. Qed.

Lemma tx_after_rx dev2 w P q1 q2 i :
  q_addr q2 = tx_queue dev2 0 -> rx_inv w P q1 -> tx_ok w P q2 -> queues_apart q1 q2 ->
  0 <= i < p_num P -> i ∉ q_fly q2 ++ p_free P ->
  (forall h a, rtc hw_step (w_hw w) h -> grants h (addr dev2 + IXGBE_TDT 0) (q_slot q2 (q_len q2 + 1)) a ->
    range (q_desc q2 (q_len q2)) 16 a) ->
  wp (ixgbe_tx_packet dev2 0 (entry P i)) (fun _ w' => exists n w1, offered dev2 w P q1 q2 i n w1 w') never w.
Proof.
  intros Hq Hri Htx Hap Hi Hni Hgr. pose proof (ti_shape _ _ _ (proj1 Htx)) as Hsh.
  eapply wp_conseq; [apply (tx_packet_spec dev2 0 w P q2 i Hq Htx)|].
  - split; [done|done|]. intros a Ha Hn. eapply (rp_hdr _ _ _ (ri_private _ _ _ Hri)); [exact Hi|exact Hn|].
    clear -Ha. unlayout. unfold range in *. lia.
  - exact Hgr.
  - cbn beta. intros r w' (n & w1 & Hcl & Hcase). exists n, w1. split; [exact Hcl|]. destruct Hcl as [_ Hok1 Hev1 _].
    set (P2 := free_all (take n (q_fly q2)) P) in *.
    assert (evolve (fun a => (pool_fp P a \/ range (q_addr q2) (q_size q2) a) \/ tx_touched q2 a) w w1) as E1.
    { eapply evolve_mono, Hev1. tauto. }
    destruct Hcase as [(_ & -> & Hfull)|(_ & Hqd)].
    + split; [|right; split; [done|]; split; [done|]].
      * eapply rx_inv_after_clean; [exact Hri|exact Hsh|exact Hap|exact E1|apply Hok1|apply free_all_free].
      * destruct (q_popn_fields n q2) as (_ & _ & _ & ->). cbn. rewrite <- (take_drop n (q_fly q2)) in Hni.
        rewrite !elem_of_app in *. tauto.
    + split; [|by left]. destruct Hqd as (_ & Hok2 & _ & w3 & E3 & Hw'). fold P2. rewrite Hw'. apply rx_inv_granted.
      * eapply rx_inv_after_clean; [exact Hri|exact Hsh|exact Hap| | |apply free_all_free].
        { etransitivity; [exact E1|]. eapply evolve_mono, E3. tauto. }
        rewrite Hw' in Hok2. exact (ti_pool _ _ _ (proj1 Hok2)).
      * intros a Ha. eapply (tx_desc_off w P q1 q2); [apply Htx|done|]. eapply Hgr; [|exact Ha].
        etransitivity; [apply (ch_hw _ _ _ (evolve_changes _ _ _ E1))|apply (ch_hw _ _ _ (evolve_changes _ _ _ E3))].
Qed.
End forward.

(** C3: one turn of ixy-fwd on a receive ring and a transmit ring that share a
    buffer pool, the received buffer being neither free nor in flight, and a tail
    write handing a device no more than the descriptor and the buffers it is
    given. Without a finished descriptor nothing changes. With one, the entry on
    top of the pool's stack goes into that descriptor, the receive tail register
    is written, and the received buffer is offered to the transmit ring: the
    driver first gives back the longest prefix of packets that the device has
    marked done, oldest first; then, unless all slots but one are still in flight,
    it queues the buffer behind the rest, its descriptor holding the buffer's
    address and the received length, and writes the transmit tail register last.
    On a full ring it writes nothing more, and the buffer, never freed, is then
    neither in flight nor in the pool. The invariants of both rings and the pool
    hold again. *)
Theorem ixy_fwd_forwards {H} `{NicWriteback H} dev1 dev2 (w : world H) P q1 q2 :
  r_addr q1 = rx_queue dev1 0 -> q_addr q2 = tx_queue dev2 0 ->
  rx_inv w P q1 -> tx_ok w P q2 -> queues_apart q1 q2 -> r_buf q1 ∉ q_fly q2 ++ p_free P ->
  rdt_grants dev1 w P q1 -> tdt_grants dev1 dev2 w q1 q2 ->
  wp (forward dev1 dev2) (fun _ w' => exists w1, evolve (fun _ => False) w w1 /\
      ((rx_dd w1 q1 = false /\ w' = w1 /\ rx_inv w' P q1 /\ tx_ok w' P q2) \/
       (rx_dd w1 q1 = true /\ exists e P' w2 n w3, pool_alloc P = Some (e, P') /\
          rx_received dev1 0 w1 P q1 e P' w2 /\ tx_ok w2 P' q2 /\
          pkt_size w2 P' (r_buf q1) = ld 2 (w_mem w1) (r_desc q1 (r_idx q1) + rxd_length) /\
          offered dev2 w2 P' (r_next q1) q2 (r_buf q1) n w3 w')))
    (fun f _ => f = rx_multi_segment \/ (f = rx_no_buffer /\ pool_alloc P = None)) w.
Proof.
  intros Hq1 Hq2 Hri Htx Hap Hni Hrg Htg. unfold forward. apply wp_bind.
  pose proof (pk_shape _ _ (ri_pool _ _ _ Hri)) as Hps. destruct (rx_va_lookup P q1 (ri_shape _ _ _ Hri)) as [_ Hb].
  eapply wp_mono; [apply (rx_packet_spec dev1 0 w P q1 Hq1 Hri Hrg)| |].
  - cbn beta. intros r w' (w1 & E1 & [(Hdd & -> & -> & Hri1)|(Hdd & _ & e & P' & Ha & -> & Hrv)]).
    + cbn. apply wp_ret. exists w1. split; [done|]. left. split_and!; try done. split.
      * eapply tx_inv_tick; [apply Htx|done].
      * rewrite <- (proj2 Htx). eapply tx_clean_kept; [apply Htx|exact E1|]. intros a [].
    + destruct (pool_shape_alloc P e P' Hps Ha) as (_ & He & _ & Hf & HP').
      assert ((entry P (r_buf q1) =? NULL) = false) as ->.
      { apply Z.eqb_neq. pose proof (entry_bound P _ Hps Hb). pose proof (ps_base _ Hps). unfold NULL. lia. }
      pose proof (tx_ok_after_rx dev1 0 w w1 P q1 q2 e P' w' Hri Htx Hap E1 Ha Hrv Hrg) as Htx1.
      pose proof (rv_inv _ _ _ _ _ _ _ _ Hrv) as Hri2. destruct (rv_tail _ _ _ _ _ _ _ _ Hrv) as (w3 & E3 & Hw').
      apply wp_bind. assert (entry P = entry P') as HeP by (by rewrite HP'). rewrite HeP.
      eapply wp_mono; [apply (tx_after_rx dev2 w' P' (r_next q1) q2 (r_buf q1) Hq2 Hri2 Htx1)| |intros ? ? []].
      * destruct Hap. by split.
      * by rewrite HP'.
      * rewrite Hf, app_assoc in Hni. rewrite elem_of_app in Hni. tauto.
      * intros h a Hh. rewrite Hw' in Hh. cbn in Hh. apply (Htg (w_hw w3)); [|exact Hh].
        etransitivity; [apply (ch_hw _ _ _ (evolve_changes _ _ _ E1))|apply (ch_hw _ _ _ (evolve_changes _ _ _ E3))].
      * cbn beta. intros _ w4 (n & w5 & Hof). apply wp_ret. exists w1. split; [done|]. right. split; [done|].
        exists e, P', w', n, w5. split; [done|]. split; [done|]. split; [done|]. split; [|exact Hof].
        unfold pkt_size. rewrite <- HeP. apply (rv_len _ _ _ _ _ _ _ _ Hrv).
  - intros f w' (w1 & _ & _ & [(_ & ->)|(_ & Ha & ->)]); [by left|by right].
Qed.

(** the rings of [rx_demo] and an empty transmit ring of four slots on a second
    device, which sends what it is given *)
Definition fwd_demo_q : txq := Txq 0xB000 0xC000 4 0 [].
Definition fwd_demo_dev : ixy_device := IxyDevice "0000:03:00.1" "ixy-ixgbe" 0x40000 1 1 0 0xB000.
Definition fwd_demo : world sim := Eval vm_compute in
  let m := add_region 0xB000 (q_size fwd_demo_q) (add_region 0xC000 (q_ring fwd_demo_q) (w_mem rx_demo)) in
  let m := st 8 (0xB000 + txq_descriptors) 0xC000 m in
  let m := st 2 (0xB000 + txq_num_entries) 4 m in
  World m (Sim [[(0x9008, 3); (0x900c, 60)]] [[[(0x9018, 3); (0x901c, 70)]]; [[(0xC00c, 1)]]] ∅ [] [] [] 0) 1.

Lemma sim_tdt_grants dev1 dev2 (w : world sim) q1 q2 :
  forallb (fun a => rangeb (q_desc q2 (q_len q2)) 16 a) (touched (default [] (head (tail (s_plan (w_hw w)))))) = true ->
  tdt_grants dev1 dev2 w q1 q2.
Proof.
  intros Hf h1 h a Hh1 Hh Hg. apply rangeb_spec. cbn in Hg. rewrite (sim_steps_plan _ _ Hh) in Hg. cbn in Hg.
  rewrite (sim_steps_plan _ _ Hh1) in Hg. exact (forallb_touched _ _ _ Hf Hg).
Qed.
Lemma ixy_fwd_forwards_witness : (exists (Q : unit -> world sim -> Prop) E, wp (forward rx_demo_dev fwd_demo_dev) Q E fwd_demo) /\
  let w' := (run (forward rx_demo_dev fwd_demo_dev) fwd_demo tt).2 in
  rx_invb w' (set_free [0] demo_pool) (r_next rx_demo_q) = true /\
  tx_okb w' (set_free [0] demo_pool) (Txq 0xB000 0xC000 4 0 [3]) = true.
Proof.
  split; [|vm_compute; split; reflexivity].
  eexists _, _. apply (ixy_fwd_forwards rx_demo_dev fwd_demo_dev fwd_demo rx_demo_pool rx_demo_q fwd_demo_q).
  - done.
  - done.
  - apply rx_invb_sound. by vm_compute.
  - apply tx_okb_sound. by vm_compute.
  - split; apply disjb_spec; by vm_compute.
  - by apply (bool_decide_unpack _).
  - intros h a. apply sim_rx_grant. by vm_compute.
  - apply sim_tdt_grants. by vm_compute.
Defined.
