(* ===== verification/TxEngine.v ===== *)
(** * A device that transmits in ring order

    [NicWriteback] says what a device may do; it allows one that never sends.
    [TxEngine] is the documented behaviour of a transmit queue (82599 datasheet
    7.2.3): the device keeps the tail it was last given; while the queue runs,
    advancing the tail by one slot hands it that slot's descriptor and nothing
    else, and every descriptor it was handed is written back after finitely
    much activity of the device.  Whether the queue runs, and with which ring,
    is part of the device's state: it is programmed (TxStart.v).  [due] is that bound for one descriptor; with
    it the loop that retries a full ring terminates. *)
From S2P Require Import Prelude Mem Platform Memory Registers IxgbeCpp Stats Apps Device Pci Ixgbe Ring TxRing.

(** the descriptor of slot [s] of a ring at [ring] *)
Definition ring_desc (ring s : Z) : Z := ring + s * sizeof_adv_tx_desc.

(** [tdt] is the queue's tail register, [n] the number of its descriptors. *)
Class TxEngine (H : Type) `{NicWriteback H} (tdt n : Z) := {
  te_tail : H -> Z;
  (* the queue is enabled, and its ring is at this address *)
  te_runs : H -> Z -> Prop;
  (* [sends_within h d k]: the descriptor at [d] is written back by the [k]th activity from now *)
  sends_within : H -> Z -> nat -> Prop;
  latency : nat;
  te_tail_step : forall h h', hw_step h h' -> te_tail h' = te_tail h;
  te_tail_write : forall h v, 0 <= v < n -> te_tail (mmio_write tdt v h) = v;
  te_runs_step : forall h h' ring, hw_step h h' -> te_runs h ring -> te_runs h' ring;
  te_runs_write : forall h v ring, te_runs h ring -> te_runs (mmio_write tdt v h) ring;
  te_grants : forall h ring a, te_runs h ring -> 0 <= te_tail h < n ->
    grants h tdt (slot n (te_tail h) 1) a -> range (ring_desc ring (te_tail h)) 16 a;
  sends_positive : forall h d, ~ sends_within h d 0;
  sends_mono : forall h d j k, (j <= k)%nat -> sends_within h d j -> sends_within h d k;
  sends_dma : forall h m d k, sends_within h d (S k) ->
    dd_set (wr_all (dma h m).2 m) d txd_status = true \/ sends_within (dma h m).1 d k;
  sends_read : forall h r d k, sends_within h d k -> sends_within (mmio_read r h).2 d k;
  (* while one slot stays free, handing over a descriptor delays no other *)
  sends_handover : forall h ring, te_runs h ring -> 0 <= te_tail h < n ->
    (forall a, range (ring_desc ring (slot n (te_tail h) 1)) 16 a -> ~ nic_owns h a) ->
    let h' := mmio_write tdt (slot n (te_tail h) 1) h in
    sends_within h' (ring_desc ring (te_tail h)) latency /\
    (forall d k, sends_within h d k -> sends_within h' d k);
  (* reading the clock is not the device's business *)
  clock_own : forall h a, nic_owns (sys Sys_clock_gettime h).2 a -> nic_owns h a;
  clock_desc : forall h d o, desc_at h d o -> desc_at (sys Sys_clock_gettime h).2 d o;
  clock_tail : forall h, te_tail (sys Sys_clock_gettime h).2 = te_tail h;
  clock_runs : forall h ring, te_runs h ring -> te_runs (sys Sys_clock_gettime h).2 ring;
  clock_sends : forall h d k, sends_within h d k -> sends_within (sys Sys_clock_gettime h).2 d k
}.

Section engine.
Context {H : Type} `{TxEngine H}.
Implicit Types (w : world H) (P : pool) (q : txq) (dev : ixy_device).

(** the descriptor at [d] is done, or will be after [k] more activities *)
Definition due w (d : Z) (k : nat) : Prop :=
  dd_set (w_mem w) d txd_status = true \/ sends_within (w_hw w) d k.

Lemma hw_steps_tail h h' : rtc hw_step h h' -> te_tail h' = te_tail h.
Proof. induction 1 as [|h1 h2 h3 Hs _ IH]; [done|]. rewrite IH. by apply te_tail_step. Qed.

Lemma hw_steps_runs h h' ring : rtc hw_step h h' -> te_runs h ring -> te_runs h' ring.
Proof. induction 1 as [|h1 h2 h3 Hs _ IH]; [done|]. intros Hr. by apply IH, (te_runs_step h1). Qed.

Lemma due_mono w d j k : (j <= k)%nat -> due w d j -> due w d k.
Proof. intros Hjk [Hd|Hd]; [by left|right]. by eapply sends_mono. Qed.

(** what is done stays done while the driver stores elsewhere *)
Lemma dd_stays F w w' d : (forall a, range d 16 a -> ~ F a) -> dd_owned w d txd_status ->
  dd_set (w_mem w) d txd_status = true -> evolve F w w' -> dd_set (w_mem w') d txd_status = true.
Proof.
  intros HF [_ Hown] Hdd Hev. rewrite <- Hdd. unfold dd_set. f_equal.
  eapply evolve_ld; [exact Hev|]. intros b Hb.
  assert (range d 16 b) as Hr by (unq; unfold range in *; lia). split; [by apply HF|by apply Hown].
Qed.

(** one activity of the device brings the descriptor nearer *)
Lemma due_tick w w' d k : (dma_tick w = Ok tt w') -> dd_owned w d txd_status -> due w d (S k) -> due w' d k.
Proof.
  intros Ht Ho [Hdd|Hs].
  - left. eapply (dd_stays (fun _ => False)); [auto|exact Ho|exact Hdd|by apply evolve_tick].
  - unfold dma_tick in Ht. pose proof (sends_dma (w_hw w) (w_mem w) d k Hs) as Hd.
    destruct (dma (w_hw w) (w_mem w)) as [h ws]. injection Ht as <-. exact Hd.
Qed.

Lemma due_evolve F w w' d k : (forall a, range d 16 a -> ~ F a) -> dd_owned w d txd_status ->
  evolve F w w' -> due w d k -> due w' d k.
Proof.
  intros HF Ho Hev. revert Ho. induction Hev as [|w1 w2 w3 Hs Hev IH]; [done|]. intros Ho Hd.
  assert (evolve F w1 w2) as E by by apply rtc_once.
  assert (dd_owned w2 d txd_status) as Ho2 by (eapply dd_owned_evolve; [unq; lia|unq; lia|exact HF|exact E|exact Ho]).
  apply IH; [exact Ho2|]. destruct Hd as [Hdd|Hd]; [left; by eapply (dd_stays F w1)|].
  destruct Hs as [w w' Ht|w r v w' Hr|w m a v Hst].
  - destruct k as [|k]; [by apply sends_positive in Hd|].
    eapply due_mono; [|eapply due_tick; [exact Ht|exact Ho|by right]]. lia.
  - right. unfold mmio_get in Hr. pose proof (sends_read (w_hw w) r d k Hd) as Hk.
    destruct (mmio_read r (w_hw w)) as [v' h]. injection Hr as <- <-. exact Hk.
  - by right.
Qed.

(** ** Sending until the ring takes the packet *)
Section retry.
Context (dev : ixy_device) (P : pool) (q : txq) (i : Z).
Hypotheses (Hreg : tdt = addr dev + IXGBE_TDT 0) (Hn : q_n q = n)
  (Hq : q_addr q = tx_queue dev 0).

Lemma ring_desc_tx : ring_desc (q_descs q) (q_tx q) = q_desc q (q_len q).
Proof. done. Qed.
Lemma tail_next w : te_tail (w_hw w) = q_tx q -> slot n (te_tail (w_hw w)) 1 = q_slot q (q_len q + 1).
Proof. intros ->. rewrite <- Hn. apply slot_slot. Qed.

Lemma engine_grants w : tx_inv w P q -> te_runs (w_hw w) (q_descs q) -> te_tail (w_hw w) = q_tx q ->
  forall h a, rtc hw_step (w_hw w) h ->
  grants h (addr dev + IXGBE_TDT 0) (q_slot q (q_len q + 1)) a -> range (q_desc q (q_len q)) 16 a.
Proof.
  intros Hti Hrun Ht h a Hh. rewrite <- (tail_next w Ht), <- Hreg, <- ring_desc_tx.
  rewrite <- (hw_steps_tail _ _ Hh). intros Hg. apply (te_grants h (q_descs q)) in Hg.
  - by rewrite (hw_steps_tail _ _ Hh), Ht in Hg.
  - by eapply hw_steps_runs.
  - rewrite (hw_steps_tail _ _ Hh), Ht, <- Hn. apply q_slot_bound, (ti_shape _ _ _ Hti).
Qed.

(** what ixgbe_tx_packet stores while it only cleans is nobody's descriptor *)
Lemma clean_off_desc w k : tx_inv w P q -> 0 <= k -> forall a, range (q_desc q k) 16 a ->
  ~ (pool_fp P a \/ range (q_addr q) (q_size q) a).
Proof.
  intros Hti Hk a Ha [Hp|Hx]; [by eapply tx_slot_off_pool|].
  apply (tx_desc_in_ring q k a (ti_shape _ _ _ Hti)) in Ha.
  pose proof (ts_disj _ (ti_shape _ _ _ Hti)) as Hd. clear -Hd Ha Hx. unfold disj, range in *. lia.
Qed.

(** a refusal: nothing was done, and the oldest packet is nearer to it *)
Lemma refused_closer w w1 m k : tx_ok w P q -> tx_cleaned w P q m w1 -> q_len q - Z.of_nat m + 1 = q_n q ->
  due w (q_desc q 0) (S k) -> tx_ok w1 P q /\ due w1 (q_desc q 0) k /\
  evolve (fun a => pool_fp P a \/ range (q_addr q) (q_size q) a) w w1.
Proof.
  intros [Hti Hcl] [(Hle & _ & Hstop) Hok Hev Htk] Hfull Hdue.
  destruct (tx_inv_bounds w P q Hti) as (Hb & _ & Hl). assert (m = 0%nat) as -> by lia.
  assert (tx_ok w1 P q) as Hok1 by (revert Hok; cbn; by rewrite free_all_nil).
  split; [done|]. split; [|done]. assert (q_fly q <> []) as Hne.
  { intros He. unfold q_len in Hl, Hfull. rewrite He in *. cbn in *. lia. }
  destruct (Htk Hne) as (wt & Ht & Et).
  pose proof (ti_done _ _ _ Hti 0 ltac:(lia)) as Ho.
  assert (dd_owned wt (q_desc q 0) txd_status) as Hot.
  { eapply (dd_owned_evolve (fun _ => False)); [unq; lia|unq; lia|auto|by apply evolve_tick|exact Ho]. }
  eapply due_evolve; [|exact Hot|exact Et|by eapply due_tick]. by apply (clean_off_desc w 0).
Qed.

(** after refusals, the ring took the packet: [m] packets left it then *)
Definition accepted_after (m : nat) w w' : Prop := exists w0 w1,
  evolve (fun a => pool_fp P a \/ range (q_addr q) (q_size q) a) w w0 /\ tx_ok w0 P q /\ sendable w0 P q i /\
  tx_cleaned w0 P q m w1 /\ tx_queued dev 0 w0 P q m i w1 w'.
Definition accepted w w' : Prop := exists m, accepted_after m w w'.

Lemma tx_retry_spec fuel k w : (k < fuel)%nat -> tx_ok w P q -> sendable w P q i ->
  te_runs (w_hw w) (q_descs q) -> te_tail (w_hw w) = q_tx q ->
  (q_len q + 1 = q_n q -> due w (q_desc q 0) k) ->
  wp (tx_retry fuel dev 0 (entry P i)) (fun _ w' => accepted w w') never w.
Proof.
  revert k w. induction fuel as [|fuel IH]; intros k w Hk Hok Hsd Hrun Ht Hdue; [lia|]. cbn [tx_retry].
  apply wp_bind. eapply wp_conseq; [apply (tx_packet_spec dev 0 w P q i Hq Hok Hsd)|].
  { apply (engine_grants w); [apply Hok|exact Hrun|exact Ht]. }
  cbn beta. intros r w' (m & w1 & Hcl & [(-> & -> & Hfull)|(-> & Hqd)]); cbn.
  - pose proof (tx_inv_bounds w P q (proj1 Hok)) as (Hb & _ & Hl).
    assert (q_len q + 1 = q_n q) as Hf by lia. destruct k as [|k].
    { destruct (Hdue Hf) as [Hdd|Hs]; [|by apply sends_positive in Hs].
      exfalso. destruct Hcl as [(_ & _ & Hstop) _ Hev _]. assert (m = 0%nat) as -> by lia.
      destruct Hstop as [Hz|Hz]; [unfold q_len in *; lia|]. change (Z.of_nat 0) with 0 in Hz.
      erewrite (dd_stays _ w w1) in Hz; [done|apply (clean_off_desc w 0); [apply Hok|done]| |done|exact Hev].
      apply (ti_done _ _ _ (proj1 Hok)). lia. }
    destruct (refused_closer w w1 m k Hok Hcl Hfull (Hdue Hf)) as (Hok1 & Hdue1 & Hev).
    eapply wp_conseq; [apply (IH k w1)|].
    + lia.
    + done.
    + destruct Hsd as [Hi Hni Hsz]. split; [done|done|]. intros a Ha Ho. eapply Hsz; [exact Ha|]. by eapply evolve_own.
    + eapply hw_steps_runs, Hrun. apply (ch_hw _ _ _ (evolve_changes _ _ _ Hev)).
    + rewrite <- Ht. apply hw_steps_tail, (ch_hw _ _ _ (evolve_changes _ _ _ Hev)).
    + done.
    + cbn beta. intros _ w2 (m2 & w0 & w3 & E & Hrest). exists m2, w0, w3. split; [|done]. by etransitivity.
  - apply wp_ret. exists m, w, w1. by split_and!.
Qed.
End retry.
End engine.
#[global] Arguments latency {H _ _ _} tdt n {_}.
