(* ===== verification/PktGen.v ===== *)
(** * ixy-pktgen's transmit loop

    The loop of ixy-pktgen on a device that transmits in ring order
    ([TxEngine]): the pool holds more buffers than the ring takes, so an
    allocation always succeeds; every buffer holds the template packet; and
    while the ring is full the device works on it, so every retry loop ends.
    [pg_inv] is the invariant of the loop, with the entries the program holds. *)
From S2P Require Import Prelude Mem Platform Memory Registers IxgbeCpp Stats Apps Device Pci Ixgbe Ring TxRing.
From S2P Require Import MemoryProps TxProps RxProps AppProps TxEngine.

Section pktgen.
Context {H : Type} `{TxEngine H}.
Implicit Types (w : world H) (P : pool) (q : txq) (dev : ixy_device).

(** what never changes *)
Record pg_fixed dev P q : Prop := {
  pf_reg : tdt = addr dev + IXGBE_TDT 0;
  pf_n : q_n q = n;
  pf_queue : q_addr q = tx_queue dev 0;
  pf_room : q_n q <= p_num P;
  pf_bufsz : pb_data + PKT_SIZE <= p_bufsz P
}.

Record pg_inv dev w P q (held : list Z) : Prop := {
  pg_const : pg_fixed dev P q;
  pg_ok : tx_ok w P q;
  pg_all : accounted P (q_fly q ++ held);
  pg_filled : forall i, 0 <= i < p_num P -> packet_filled (w_mem w) (entry P i);
  pg_clients : forall i a, 0 <= i < p_num P -> nic_owns (w_hw w) a -> ~ client_area P i a;
  pg_runs : te_runs (w_hw w) (q_descs q);
  pg_tail : te_tail (w_hw w) = q_tx q;
  pg_due : forall k, 0 <= k < q_len q -> due w (q_desc q k) (latency tdt n)
}.

Lemma pg_fixed_pool dev P P' q : P' = set_free (p_free P') P -> pg_fixed dev P q -> pg_fixed dev P' q.
Proof. intros -> []. by split. Qed.
Lemma pg_fixed_queue dev P q q' : q_addr q' = q_addr q -> q_descs q' = q_descs q -> q_n q' = q_n q ->
  pg_fixed dev P q -> pg_fixed dev P q'.
Proof. intros Ha Hd Hn []. split; congruence. Qed.

(** the buffers keep their packets while the driver stores elsewhere *)
Lemma filled_evolve F dev w w' P q held : pg_inv dev w P q held -> evolve F w w' ->
  (forall i a, 0 <= i < p_num P -> F a -> ~ client_area P i a) ->
  forall i, 0 <= i < p_num P -> packet_filled (w_mem w') (entry P i).
Proof.
  intros Hpg Hev HF i Hi. destruct (evolve_changes _ _ _ Hev) as [Hag _ _].
  eapply packet_filled_frame; [apply (pf_bufsz _ _ _ (pg_const _ _ _ _ _ Hpg))|exact Hag| |by apply (pg_filled _ _ _ _ _ Hpg)].
  intros a [Ha|Ha]; [by apply HF|by apply (pg_clients _ _ _ _ _ Hpg)].
Qed.

(** steps that leave the ring's contents alone *)
Lemma pg_inv_evolve F dev w w' P P' q held held' : pg_inv dev w P q held -> evolve F w w' ->
  (forall i a, 0 <= i < p_num P -> F a -> ~ client_area P i a) ->
  (forall a, F a -> ~ range (q_descs q) (q_ring q) a) ->
  P' = set_free (p_free P') P -> tx_ok w' P' q -> accounted P' (q_fly q ++ held') -> pg_inv dev w' P' q held'.
Proof.
  intros Hpg Hev HF HR HP' Hok' Hacc. pose proof (filled_evolve F dev w w' P q held Hpg Hev HF) as Hfill.
  destruct Hpg as [Hc [Hti _] _ _ Hcl Hrun Ht Hdue]. split.
  - by eapply pg_fixed_pool.
  - done.
  - done.
  - rewrite HP'. exact Hfill.
  - rewrite HP'. intros i a Hi Ha. eapply (Hcl i a Hi). by eapply evolve_own.
  - eapply hw_steps_runs, Hrun. apply (ch_hw _ _ _ (evolve_changes _ _ _ Hev)).
  - rewrite <- Ht. apply hw_steps_tail, (ch_hw _ _ _ (evolve_changes _ _ _ Hev)).
  - intros k Hk. eapply due_evolve; [|apply (ti_done _ _ _ Hti k Hk)|exact Hev|by apply Hdue].
    intros a Ha HFa. apply HR in HFa. apply HFa. eapply tx_desc_in_ring; [apply (ti_shape _ _ _ Hti)|exact Ha].
Qed.

(** a hardware state in which the device has no more than before *)
Lemma tx_inv_hw w P q h : tx_inv w P q -> (forall a, nic_owns h a -> nic_owns (w_hw w) a) ->
  (forall d o, desc_at (w_hw w) d o -> desc_at h d o) -> tx_inv (set_hw h w) P q.
Proof.
  intros [Hp Hsh Hst Hmq Hmd Hfly Hnd Hsep [T1 T2 T3] Hds Hdn] Ho Hd. split; try done.
  - split.
    + intros a Ha. by apply T1, Ho.
    + intros a Ha. by apply T2, Ho.
    + intros k a Hk Hr Ha. eapply T3; [exact Hk|exact Hr|by apply Ho].
  - intros k Hk. by apply Hd, Hds.
  - intros k Hk. destruct (Hdn k Hk) as [D1 D2]. split; [by apply Hd|]. intros Hdd a Hr Ha. eapply D2; [done|exact Hr|by apply Ho].
Qed.

Lemma pg_inv_clock dev w P q held : pg_inv dev w P q held ->
  pg_inv dev (set_hw (sys Sys_clock_gettime (w_hw w)).2 w) P q held.
Proof.
  intros [Hc [Hti Hcl] Hacc Hf Hb Hrun Ht Hdue]. split; try done.
  - split; [|done]. apply tx_inv_hw; [done|apply clock_own|apply clock_desc].
  - intros i a Hi Ha. apply Hb; [done|by apply clock_own].
  - by apply clock_runs.
  - rewrite <- Ht. apply clock_tail.
  - intros k Hk. destruct (Hdue k Hk) as [?|?]; [by left|right; by apply clock_sends].
Qed.

(** ** Taking a buffer *)
Definition taken w P P' w' : Prop :=
  w' = set_mem (st 4 (p_addr P + mp_free_stack_top) (Z.of_nat (length (p_free P'))) (w_mem w)) w.

Lemma pg_alloc dev w P q : pg_inv dev w P q [] ->
  wp (pkt_buf_alloc (p_addr P)) (fun r w' => exists i P', r = entry P i /\ P' = set_free (p_free P') P /\
    pg_inv dev w' P' q [i] /\ pool_alloc P = Some (i, P') /\ taken w P P' w') never w.
Proof.
  intros Hpg. pose proof Hpg as [Hc [Hti Hcl] Hacc _ _ _ _ _]. pose proof (ti_pool _ _ _ Hti) as Hok.
  pose proof (pk_shape _ _ Hok) as Hs. destruct (tx_inv_bounds w P q Hti) as (_ & _ & Hl).
  eapply wp_conseq; [by apply pkt_buf_alloc_spec|]. cbn beta. intros r w' Hr.
  destruct (pool_alloc P) as [[i P']|] eqn:Ha.
  2:{ exfalso. unfold pool_alloc in Ha. destruct (last (p_free P)) eqn:El; [done|]. apply last_None in El.
      apply Permutation_length in Hacc. rewrite El, !app_nil_r, length_seqZ in Hacc.
      pose proof (pf_room _ _ _ Hc). pose proof (ps_num _ Hs). unfold q_len in Hl. lia. }
  destruct Hr as (-> & Hok' & Hw). destruct (pool_shape_alloc P i P' Hs Ha) as (_ & Hi & Hni & Hf & HP').
  exists i, P'. split; [done|]. split; [done|]. split; [|by split].
  set (F := range (p_addr P) (sizeof_mempool + 4 * p_num P)).
  assert (evolve F w w') as Hev.
  { rewrite Hw. apply evolve_store. pose proof (ps_num _ Hs). intros b. unfold F, range. unlayout. lia. }
  assert (forall a, F a -> ~ range (q_addr q) (q_size q) a /\ ~ range (q_descs q) (q_ring q) a) as HF.
  { destruct (ti_sep _ _ _ Hti) as [S1 _ S3 _]. clear -S1 S3. intros a. unfold F, disj, range in *. lia. }
  assert (accounted P' (q_fly q ++ [i])) as Hacc'.
  { rewrite app_nil_r in Hacc. by eapply accounted_alloc. }
  assert (tx_ok w' P' q) as Htx'.
  { split.
    - eapply tx_inv_transfer; [exact Hti|exact Hev| |exact Hok'|exact HP'|].
      + intros a Hx. destruct (HF a Hx). unfold tx_fp. tauto.
      + pose proof (ti_nodup _ _ _ Hti) as Hnd. rewrite Hf, app_assoc in Hnd. by apply NoDup_app in Hnd as [? _].
    - rewrite <- Hcl. eapply tx_clean_kept; [exact Hti|exact Hev|]. intros a Hx. by apply HF. }
  eapply (pg_inv_evolve F); [exact Hpg|exact Hev| | |exact HP'|exact Htx'|exact Hacc'].
  - intros j a Hj Hx Hy. by eapply client_area_pool.
  - intros a Hx. by apply HF.
Qed.

(** ** Sending it *)
Section send.
Context dev w P q (i : Z) (Hpg : pg_inv dev w P q [i]).

Lemma pg_sendable : sendable w P q i.
Proof.
  destruct Hpg as [Hc [Hti _] Hacc _ Hcl _ _ _]. pose proof (accounted_nodup _ _ Hacc) as Hnd.
  assert (0 <= i < p_num P) as Hi by (eapply accounted_bound; [exact Hacc|set_solver]). split; [done| |].
  - rewrite <- app_assoc in Hnd. apply NoDup_app in Hnd as (_ & Hd & Hnd). cbn in Hnd.
    apply NoDup_cons in Hnd as [Hni _]. rewrite elem_of_app. intros [Hx|Hx]; [|done]. by apply (Hd i Hx), elem_of_cons; left.
  - intros a Ha Ho. apply (Hcl i a Hi Ho). pose proof (pf_bufsz _ _ _ Hc) as Hb. revert Ha.
    unfold client_area. unlayout. unfold PKT_SIZE, range in *. lia.
Qed.

(** all that is stored on the way *)
Definition send_fp (a : Z) : Prop := (pool_fp P a \/ range (q_addr q) (q_size q) a) \/ range (q_desc q (q_len q)) 16 a.

Lemma send_fp_client j a : 0 <= j < p_num P -> send_fp a -> ~ client_area P j a.
Proof.
  intros Hj Ha Hcl. pose proof (pg_ok _ _ _ _ _ Hpg) as [Hti _]. pose proof (pk_shape _ _ (ti_pool _ _ _ Hti)) as Hs.
  destruct Ha as [[Ha|Ha]|Ha]; [by eapply client_area_off|..].
  - destruct (ti_sep _ _ _ Hti) as [_ S2 _ _]. pose proof (entry_bound P j Hs Hj). pose proof (ps_bufsz _ Hs).
    clear -Ha Hcl S2 H4 H5. unfold client_area in Hcl. unlayout. unfold disj, range in *. lia.
  - apply (tx_desc_in_ring q _ a (ti_shape _ _ _ Hti)) in Ha.
    destruct (ti_sep _ _ _ Hti) as [_ _ _ S4]. pose proof (entry_bound P j Hs Hj). pose proof (ps_bufsz _ Hs).
    clear -Ha Hcl S4 H4 H5. unfold client_area in Hcl. unlayout. unfold disj, range in *. lia.
Qed.
Lemma send_fp_desc k a : 0 <= k < q_len q -> range (q_desc q k) 16 a -> ~ send_fp a.
Proof.
  intros Hk Ha. pose proof (pg_ok _ _ _ _ _ Hpg) as [Hti _]. destruct (tx_inv_bounds w P q Hti) as (_ & _ & Hl).
  intros [Hx|Hx]; [by apply (clean_off_desc P q w k Hti ltac:(lia) a Ha)|].
  eapply (tx_slot_sep q k (q_len q) a (ti_shape _ _ _ Hti)); [lia|lia|lia|exact Ha|exact Hx].
Qed.

(** the queue after [m] packets left and [i] entered *)
Definition sent_queue (m : nat) : txq := q_push i (q_popn m q).
Definition sent_pool (m : nat) : pool := free_all (take m (q_fly q)) P.

Lemma sent_accounted m : (m <= length (q_fly q))%nat -> accounted (sent_pool m) (q_fly (sent_queue m) ++ []).
Proof.
  intros Hm. unfold accounted. rewrite app_nil_r. destruct (popn_conserves P q m i Hm) as [Hp _].
  unfold sent_pool, sent_queue. rewrite Hp. cbn. destruct Hpg as [_ _ Hacc _ _ _ _ _]. rewrite <- Hacc.
  by rewrite <- app_assoc, Permutation_middle.
Qed.
Lemma sent_desc m k : q_desc (sent_queue m) k = q_desc q (Z.of_nat m + k).
Proof. unfold sent_queue. change (q_desc (q_push i ?x)) with (q_desc x). apply q_popn_desc. Qed.
Lemma sent_len m : (m <= length (q_fly q))%nat -> q_len (sent_queue m) = q_len q - Z.of_nat m + 1.
Proof. intros Hm. unfold sent_queue. by rewrite q_push_len, q_popn_len. Qed.
Lemma sent_tx m : (m <= length (q_fly q))%nat -> q_tx (sent_queue m) = q_slot q (q_len q + 1).
Proof.
  intros Hm. unfold q_tx. rewrite sent_len by done. unfold sent_queue.
  change (q_slot (q_push i ?x)) with (q_slot x). pose proof (q_popn_tx m q Hm) as Ht. unfold q_tx in Ht.
  rewrite q_popn_len in Ht by done. destruct (q_popn_fields m q) as (_ & _ & Hn & _).
  unfold q_slot in *. rewrite Hn in *. rewrite <- (slot_slot _ _ (q_len q - Z.of_nat m)), Ht. apply slot_slot.
Qed.

(** the tail register is written in the state [w3] *)
Lemma handed_over m w0 w1 w3 : evolve send_fp w w3 -> (m <= length (q_fly q))%nat -> q_len q - Z.of_nat m + 1 < q_n q ->
  tx_inv w1 (sent_pool m) (q_popn m q) -> evolve (tx_touched q) w1 w3 -> tx_cleaned w0 P q m w1 ->
  let h' := mmio_write (addr dev + IXGBE_TDT 0) (q_slot q (q_len q + 1)) (w_hw w3) in
  te_tail h' = q_slot q (q_len q + 1) /\
  te_runs h' (q_descs q) /\
  sends_within h' (q_desc q (q_len q)) (latency tdt n) /\
  (forall d k, sends_within (w_hw w3) d k -> sends_within h' d k) /\
  (forall a, nic_owns h' a -> nic_owns (w_hw w) a \/ range (q_desc q (q_len q)) 16 a).
Proof.
  intros E3 Hm Hroom Hti1 E13 Hcl h'. pose proof Hpg as [[Hreg Hn _ _ _] [Hti _] _ _ _ Hrun Ht _].
  pose proof (hw_steps_runs _ _ _ (ch_hw _ _ _ (evolve_changes _ _ _ E3)) Hrun) as Hrun3.
  pose proof (hw_steps_tail _ _ (ch_hw _ _ _ (evolve_changes _ _ _ E3))) as Ht3. rewrite Ht in Ht3.
  pose proof (tail_next q Hn w3 Ht3) as Hnext. pose proof (q_slot_bound q (q_len q) (ti_shape _ _ _ Hti)) as Hb.
  fold (q_tx q) in Hb. rewrite <- Ht3, Hn in Hb.
  assert (h' = mmio_write tdt (slot n (te_tail (w_hw w3)) 1) (w_hw w3)) as Hh' by (by rewrite Hnext, Hreg).
  destruct (sends_handover (w_hw w3) _ Hrun3 Hb) as [Hnew Hold].
  { intros a Ha Ho. rewrite Hnext in Ha.
    assert (ring_desc (q_descs q) (q_slot q (q_len q + 1)) = q_desc (q_popn m q) (q_len (q_popn m q) + 1)) as Hd.
    { rewrite q_popn_desc, q_popn_len by done. unfold q_desc, ring_desc. do 3 f_equal. lia. }
    rewrite Hd in Ha. eapply (tp_slots _ _ _ (ti_private _ _ _ Hti1)); [|exact Ha|by eapply evolve_own].
    rewrite q_popn_len by done. destruct (q_popn_fields m q) as (_ & _ & -> & _). lia. }
  rewrite <- Hh' in Hnew, Hold. rewrite Ht3, (ring_desc_tx q) in Hnew. split_and!; [| |exact Hnew|exact Hold|].
  - rewrite Hh', te_tail_write; [done|]. rewrite Hnext, <- Hn. apply q_slot_bound, (ti_shape _ _ _ Hti).
  - rewrite Hh'. by apply te_runs_write.
  - intros a [Ha|Ha]%mmio_write_own; [left; by eapply evolve_own|right].
    eapply (engine_grants dev P q Hreg Hn w Hti Hrun Ht); [|exact Ha].
    apply (ch_hw _ _ _ (evolve_changes _ _ _ E3)).
Qed.

Lemma pg_sent w' : accepted dev P q i w w' -> exists m, accepted_after dev P q i m w w' /\
  pg_inv dev w' (sent_pool m) (sent_queue m) [] /\
  tx_desc_filled (w_mem w') (q_desc q (q_len q)) (entry_phy P i) PKT_SIZE.
Proof.
  intros (m & Hacc'). pose proof Hacc' as (w0 & w1 & E0 & Hok0 & _ & Hcl & Hroom & Hok' & Hfill & w3 & E13 & Hw').
  pose proof Hcl as [(Hm & _) [Hti1 _] E1 _]. exists m. split; [done|]. clear Hacc'.
  assert (evolve send_fp w w0) as F0 by (eapply evolve_mono, E0; unfold send_fp; tauto).
  assert (evolve send_fp w w3) as E3.
  { etransitivity; [exact F0|]. etransitivity; [eapply evolve_mono, E1; unfold send_fp; tauto|].
    eapply evolve_mono, E13. unfold tx_touched, send_fp. tauto. }
  destruct (handed_over m w0 w1 w3 E3 Hm Hroom Hti1 E13 Hcl) as (Ht' & Hrun' & Hnew & Hold & Hown).
  rewrite Hw' in *. cbn [set_hw w_hw w_mem] in *. destruct (q_popn_fields m q) as (Fa & Fd & Fn & _).
  pose proof Hpg as [Hc [Hti _] Hacc Hf Hclb Hrun Ht Hdue]. split; [split|].
  - eapply pg_fixed_queue; [| | |eapply pg_fixed_pool, Hc; done]; done.
  - exact Hok'.
  - by apply sent_accounted.
  - intros j Hj. exact (filled_evolve send_fp dev w w3 P q [i] Hpg E3 send_fp_client j Hj).
  - cbn [set_hw w_hw]. intros j a Hj [Ha|Ha]%Hown; [by apply Hclb|]. apply send_fp_client; [done|by right].
  - cbn [set_hw w_hw]. unfold sent_queue. cbn [q_push q_descs]. by rewrite Fd.
  - cbn [set_hw w_hw]. by rewrite Ht', sent_tx.
  - intros k Hk. rewrite sent_len in Hk by done. rewrite sent_desc.
    destruct (decide (Z.of_nat m + k = q_len q)) as [->|Hne]; [by right|].
    assert (due w3 (q_desc q (Z.of_nat m + k)) (latency tdt n)) as [Hd|Hd].
    { eapply due_evolve; [|apply (ti_done _ _ _ Hti); lia|exact E3|apply Hdue; lia]. intros a. apply send_fp_desc. lia. }
    + by left.
    + right. by apply Hold.
  - assert (pkt_size w0 P i = PKT_SIZE) as <-; [|exact Hfill]. apply (filled_evolve send_fp dev w w0 P q [i] Hpg F0 send_fp_client i).
    eapply accounted_bound; [exact Hacc|set_solver].
Qed.

Lemma pg_retry fuel : (latency tdt n < fuel)%nat ->
  wp (tx_retry fuel dev 0 (entry P i)) (fun _ w' => exists m, accepted_after dev P q i m w w' /\
  pg_inv dev w' (sent_pool m) (sent_queue m) [] /\
  tx_desc_filled (w_mem w') (q_desc q (q_len q)) (entry_phy P i) PKT_SIZE) never w.
Proof.
  intros Hfuel. pose proof Hpg as [[Hreg Hn Hqa _ _] Hok _ _ _ Hrun Ht Hdue].
  eapply wp_conseq; [eapply (tx_retry_spec dev P q i Hreg Hn Hqa fuel (latency tdt n) w)|].
  - done.
  - done.
  - apply pg_sendable.
  - done.
  - done.
  - intros Hfull. apply Hdue. destruct (tx_inv_bounds w P q (proj1 Hok)) as (Hb & _). lia.
  - cbn beta. intros _ w' Hacc. by apply pg_sent.
Qed.
End send.

(** ** Statistics *)
Lemma read_stats_evolve dev st w : wp (ixgbe_read_stats dev st) (fun _ w' => evolve (fun _ => False) w w') never w.
Proof.
  unfold ixgbe_read_stats, get_reg32.
  do 6 (apply wp_bind, (wp_mmio_get (fun _ => False)); intros ? ? _ ? _). apply wp_ret.
  repeat (etransitivity; [eassumption|]). done.
Qed.

Definition rate_fault : failure := Fault "double to uint32_t".
Lemma print_diff_pure st old nanos w :
  wp (print_stats_diff st old nanos) (fun _ w' => w' = w) (fun f _ => f = rate_fault) w.
Proof.
  unfold print_stats_diff, rate_line. destruct (diff_mbit (Device.rx_bytes st) _ _ _ _); [|by apply wp_bind, wp_fail].
  apply wp_bind, wp_ret. destruct (diff_mbit _ _ _ _ _); [|by apply wp_bind, wp_fail]. by apply wp_bind, wp_ret, wp_ret.
Qed.

Lemma pg_inv_quiet dev w w' P q held : pg_inv dev w P q held -> evolve (fun _ => False) w w' -> pg_inv dev w' P q held.
Proof.
  intros Hpg Hev. pose proof Hpg as [_ [Hti Hcl] Hacc _ _ _ _ _].
  eapply (pg_inv_evolve (fun _ => False)); [exact Hpg|exact Hev|done|done|by destruct P| |exact Hacc]. split.
  - by eapply tx_inv_tick.
  - rewrite <- Hcl. eapply tx_clean_kept; [exact Hti|exact Hev|done].
Qed.

(** the device is active, and the clock may be read *)
Definition idle w w' : Prop := exists w1, (w1 = w \/ w1 = set_hw (sys Sys_clock_gettime (w_hw w)).2 w) /\
  evolve (fun _ => False) w1 w'.
Lemma idle_refl w : idle w w.
Proof. exists w. split; [by left|done]. Qed.

(** the end of a turn: the clock and, once a second, the statistics *)
Lemma pg_report dev s w P q counter : pg_inv dev w P q [] ->
  wp (if Z.land (g_counter s) 0xFFF =? 0 then
    time ← monotonic_time;
    if 1000 * 1000 * 1000 <? u64 (time - g_last s) then
      stats ← ixgbe_read_stats dev (Some (g_stats s));
      let stats := default (g_stats s) stats in
      out ← print_stats_diff stats (g_stats_old s) (u64 (time - g_last s));
      mret (PktgenState time stats stats counter (g_printed s ++ out))
    else mret (PktgenState (g_last s) (g_stats s) (g_stats_old s) counter (g_printed s))
  else mret (PktgenState (g_last s) (g_stats s) (g_stats_old s) counter (g_printed s)))
  (fun s' w' => pg_inv dev w' P q [] /\ g_counter s' = counter /\ idle w w') (fun f _ => f = rate_fault) w.
Proof.
  intros Hpg. destruct (Z.land _ _ =? 0); [|by apply wp_ret; split_and!; [| |apply idle_refl]]. apply wp_bind. unfold monotonic_time.
  apply wp_bind, wp_syscall. intros t h Hs. apply wp_ret. pose proof (pg_inv_clock dev w P q [] Hpg) as Hpg1.
  assert (idle w (set_hw h w)) as Hid by (exists (set_hw h w); rewrite Hs; split; [by right|done]).
  rewrite Hs in Hpg1. cbn [snd] in Hpg1. destruct (_ <? _); [|by apply wp_ret].
  apply wp_bind. eapply wp_mono; [apply read_stats_evolve| |intros ? ? []]. cbn beta. intros st w2 Hev.
  apply wp_bind. eapply wp_mono; [apply print_diff_pure| |done]. cbn beta. intros out w3 ->. apply wp_ret.
  split; [by eapply pg_inv_quiet|]. split; [done|]. exists (set_hw h w). rewrite Hs. split; [by right|exact Hev].
Qed.

(** ** The loop *)
(** One turn: entry [i], on top of the free stack and holding the template
    packet, is taken off it; ixgbe_tx_packet is called until it takes the packet,
    when [m] packets leave the ring ([accepted_after]); then, perhaps, the clock
    and the statistics registers are read. *)
Definition turn dev w P q i w' P' q' : Prop := exists P1 w1 w2 m,
  pool_alloc P = Some (i, P1) /\ taken w P P1 w1 /\ packet_filled (w_mem w1) (entry P1 i) /\
  accepted_after dev P1 q i m w1 w2 /\ idle w2 w' /\ pg_inv dev w' P' q' [] /\
  P' = sent_pool P1 q m /\ q' = sent_queue q i m.
(** the entries queued by successive turns *)
Inductive turns dev : world H -> pool -> txq -> list Z -> world H -> pool -> txq -> Prop :=
| turns_none w P q : turns dev w P q [] w P q
| turns_more w P q i w1 P1 q1 sent w' P' q' : turn dev w P q i w1 P1 q1 ->
    turns dev w1 P1 q1 sent w' P' q' -> turns dev w P q (i :: sent) w' P' q'.

Lemma accepted_bound dev P q i m w w' : accepted_after dev P q i m w w' -> (m <= length (q_fly q))%nat.
Proof. intros (w0 & w1 & _ & _ & _ & [(Hm & _) _ _ _] & _). exact Hm. Qed.
Lemma turn_queue dev w P q i w' P' q' : turn dev w P q i w' P' q' ->
  P' = set_free (p_free P') P /\ pg_inv dev w' P' q' [] /\ q_n q' = q_n q /\ q_tx q' = slot (q_n q) (q_tx q) 1 /\
  exists m, q_fly q ++ [i] = take m (q_fly q) ++ q_fly q'.
Proof.
  intros (P1 & w1 & w2 & m & Ha & _ & _ & Hm%accepted_bound & _ & Hpg & -> & ->).
  unfold pool_alloc in Ha. destruct (last (p_free P)); [|done]. injection Ha as <- <-.
  split; [done|]. split; [exact Hpg|]. split; [apply q_popn_fields|]. split; [rewrite sent_tx by done; unfold q_tx, q_slot; by rewrite slot_slot|]. exists m.
  unfold sent_queue. cbn. destruct (q_popn_fields m q) as (_ & _ & _ & ->). by rewrite app_assoc, take_drop.
Qed.
(** the packets leave in the order in which they were queued, and the slots are
    used in order *)
Lemma turns_order dev w P q sent w' P' q' : turns dev w P q sent w' P' q' ->
  P' = set_free (p_free P') P /\ (exists freed, q_fly q ++ sent = freed ++ q_fly q') /\ q_n q' = q_n q /\
  q_tx q' = slot (q_n q) (q_tx q) (Z.of_nat (length sent)).
Proof.
  induction 1 as [w P q|w P q i w1 P1 q1 sent w' P' q' Ht _ (HP & (f2 & Hf2) & Hn & Htx)].
  - rewrite app_nil_r. split; [by destruct P|]. split; [by exists []|]. split; [done|].
    unfold q_tx, q_slot. by rewrite slot_slot, Z.add_0_r.
  - destruct (turn_queue _ _ _ _ _ _ _ _ Ht) as (HP1 & _ & Hn1 & Htx1 & m & Hf1). split; [by rewrite HP, HP1|].
    split; [exists (take m (q_fly q) ++ f2); by rewrite cons_middle, app_assoc, Hf1, <- !app_assoc, Hf2|].
    split; [congruence|]. rewrite Htx, Hn1, Htx1, slot_slot. cbn [length]. f_equal. lia.
Qed.

Lemma pktgen_step_spec fuel dev s w P q : pg_inv dev w P q [] -> (latency tdt n < fuel)%nat ->
  wp (pktgen_step fuel dev (p_addr P) s) (fun s' w' => exists P' q' i, turn dev w P q i w' P' q' /\
    g_counter s' = u64 (g_counter s + 1)) (fun f _ => f = rate_fault) w.
Proof.
  intros Hpg Hfuel. unfold pktgen_step. apply wp_bind.
  eapply wp_mono; [by apply (pg_alloc dev w P q)| |intros ? ? []]. cbn beta.
  intros r w1 (i & P1 & -> & HP1 & Hpg1 & Ha & Htk). apply wp_bind.
  assert (entry P i = entry P1 i) as -> by (by rewrite HP1).
  eapply wp_mono; [by apply (pg_retry dev w1 P1 q i Hpg1 fuel)| |intros ? ? []]. cbn beta.
  intros _ w2 (m & Hm & Hpg2 & _). cbn zeta.
  eapply wp_mono; [by apply (pg_report dev s w2 (sent_pool P1 q m) (sent_queue q i m))| |done]. cbn beta.
  intros s' w3 (Hpg3 & Hc & Hid). exists (sent_pool P1 q m), (sent_queue q i m), i. split; [|done].
  exists P1, w1, w2, m. split_and!; try done. apply (pg_filled _ _ _ _ _ Hpg1).
  eapply accounted_bound; [apply (pg_all _ _ _ _ _ Hpg1)|set_solver].
Qed.

Lemma pktgen_turns_spec fuel dev k s w P q : pg_inv dev w P q [] -> (latency tdt n < fuel)%nat ->
  wp (iterate k (pktgen_step fuel dev (p_addr P)) s) (fun s' w' => exists P' q' sent, turns dev w P q sent w' P' q' /\
    pg_inv dev w' P' q' [] /\ length sent = k /\ u64 (g_counter s') = u64 (g_counter s + Z.of_nat k))
    (fun f _ => f = rate_fault) w.
Proof.
  intros Hpg Hfuel. revert s w P q Hpg. induction k as [|k IH]; intros s w P q Hpg; cbn [iterate].
  - apply wp_ret. exists P, q, []. rewrite Z.add_0_r. split_and!; try done. constructor.
  - apply wp_bind. eapply wp_mono; [by apply (pktgen_step_spec fuel dev s w P q)| |done]. cbn beta.
    intros s1 w1 (P1 & q1 & i & Ht & Hc1). pose proof (turn_queue _ _ _ _ _ _ _ _ Ht) as (HP1 & Hpg1 & _).
    assert (p_addr P = p_addr P1) as -> by (by rewrite HP1).
    eapply wp_mono; [by apply (IH s1 w1 P1 q1)| |done]. cbn beta.
    intros s2 w2 (P2 & q2 & sent & Hts & Hpg2 & Hl & Hc2). exists P2, q2, (i :: sent).
    split; [by econstructor|]. split; [exact Hpg2|]. split; [cbn; by rewrite Hl|].
    rewrite Hc2, Hc1. unfold u64. rewrite Zplus_mod_idemp_l. f_equal. lia.
Qed.

Lemma pktgen_loop_spec fuel dev k s w P q : pg_inv dev w P q [] -> (latency tdt n < fuel)%nat ->
  wp (iterate k (pktgen_step fuel dev (p_addr P)) s) (fun s' w' => exists P' q' sent freed, pg_inv dev w' P' q' [] /\
    P' = set_free (p_free P') P /\ length sent = k /\ q_fly q ++ sent = freed ++ q_fly q' /\
    u64 (g_counter s') = u64 (g_counter s + Z.of_nat k))
    (fun f _ => f = rate_fault) w.
Proof.
  intros Hpg Hfuel. eapply wp_conseq; [by apply pktgen_turns_spec|]. cbn beta.
  intros s' w' (P' & q' & sent & Hts & Hpg' & Hl & Hc). destruct (turns_order _ _ _ _ _ _ _ _ Hts) as (HP & (freed & Hf) & _).
  by exists P', q', sent, freed.
Qed.
End pktgen.
