(* ===== verification/TxDevice.v ===== *)
(** * A transmit queue that sends

    An executable device with one transmit queue that is running, of [n]
    descriptors and with the tail register [tdt], as the 82599's is: the ring's
    address, a head and a tail index; the
    descriptors between them are the device's, and it finishes the one at the
    head each time it has been active [delay] + 1 times, setting its done bit.
    It is an instance of every interface up to [TxEngine]. *)
From S2P Require Import Prelude Mem Platform Memory Registers IxgbeCpp Stats Apps Device Pci Ixgbe Ring TxRing TxEngine.

Record txdev (tdt n : Z) (delay : nat) := TxDev {
  td_ring : Z;
  td_head : Z;
  td_tail : Z;
  td_wait : nat;   (* activities before the descriptor at the head is finished *)
  td_clock : Z;
  td_step : Z      (* what the clock advances by when it is read *)
}.
Arguments TxDev {tdt n delay}.
Arguments td_ring {tdt n delay}.
Arguments td_head {tdt n delay}.
Arguments td_tail {tdt n delay}.
Arguments td_wait {tdt n delay}.
Arguments td_clock {tdt n delay}.
Arguments td_step {tdt n delay}.

Class RingLarge (n : Z) := ring_large : 2 <= n.

Section device.
Context {tdt n : Z} {delay : nat}.
Local Abbreviation D := (txdev tdt n delay).
Implicit Types h : D.

(** how many descriptors are the device's *)
Definition td_count h : Z := (td_tail h - td_head h) mod n.
Definition td_desc h (i : Z) : Z := ring_desc (td_ring h) (slot n (td_head h) i).
Definition td_write (r v : Z) h : D :=
  if r =? tdt then TxDev (td_ring h) (td_head h) v (td_wait h) (td_clock h) (td_step h) else h.
Definition td_dma h (m : mem) : D * list (Z * Z) :=
  if td_count h =? 0 then (h, [])
  else match Nat.min (td_wait h) delay with
       | O => (TxDev (td_ring h) (slot n (td_head h) 1) (td_tail h) delay (td_clock h) (td_step h), [(td_desc h 0 + txd_status, 1)])
       | S k => (TxDev (td_ring h) (td_head h) (td_tail h) k (td_clock h) (td_step h), [])
       end.
Definition td_sys (c : syscall) h : Z * D :=
  match c with
  | Sys_clock_gettime => (td_clock h, TxDev (td_ring h) (td_head h) (td_tail h) (td_wait h) (td_clock h + td_step h) (td_step h))
  | _ => (0, h)
  end.
#[export] Instance td_platform : Platform D := {|
  mmio_read _ h := (0, h); mmio_write := td_write; dma := td_dma; sys := td_sys;
  sys_read _ _ h := (0, 0, h); errno _ := 12; malloc _ h := (0, h); heap_free _ h := h
|}.

Definition td_owns h (a : Z) : Prop := exists i, 0 <= i < td_count h /\ range (td_desc h i) 16 a.

Context {Hn : RingLarge n}.

Lemma td_count_bound h : 0 <= td_count h < n.
Proof. apply Z.mod_pos_bound. pose proof Hn. unfold RingLarge in *. lia. Qed.
Lemma td_slot_tail h : 0 <= td_tail h < n -> slot n (td_head h) (td_count h) = td_tail h.
Proof.
  intros Ht. unfold slot, td_count. rewrite Zplus_mod_idemp_r.
  replace (td_head h + (td_tail h - td_head h)) with (td_tail h) by lia. by apply Z.mod_small.
Qed.
(** the slots are 16 bytes apart *)
Lemma td_desc_eq h i j a : 0 <= i < n -> 0 <= j < n -> range (td_desc h i) 16 a -> range (td_desc h j) 16 a -> i = j.
Proof.
  intros Hi Hj Ha Hb. apply (slot_inj n (td_head h)); [done|done|].
  unfold td_desc, ring_desc, sizeof_adv_tx_desc, range in *. lia.
Qed.
Lemma td_count_write h : 0 <= td_tail h < n ->
  td_count (td_write tdt (slot n (td_tail h) 1) h) = (td_count h + 1) mod n.
Proof.
  intros Ht. unfold td_write. rewrite Z.eqb_refl. unfold td_count, slot; cbn.
  rewrite Zminus_mod_idemp_l, Zplus_mod_idemp_l. f_equal. lia.
Qed.
(** the head moves on *)
Lemma td_count_sent h : td_count h <> 0 ->
  td_count (TxDev (td_ring h) (slot n (td_head h) 1) (td_tail h) delay (td_clock h) (td_step h) : D) = td_count h - 1.
Proof.
  intros Hc. pose proof (td_count_bound h) as Hb. unfold td_count, slot in *; cbn.
  rewrite Zminus_mod_idemp_r. symmetry. apply Z.mod_unique_pos with ((td_tail h - td_head h) / n); [lia|].
  pose proof (Z.div_mod (td_tail h - td_head h) n). lia.
Qed.
Lemma td_desc_sent h w i :
  td_desc (TxDev (td_ring h) (slot n (td_head h) 1) (td_tail h) w (td_clock h) (td_step h) : D) i = td_desc h (1 + i).
Proof. unfold td_desc; cbn. by rewrite slot_slot. Qed.

Lemma td_dma_own h m a : td_owns (td_dma h m).1 a -> td_owns h a.
Proof.
  unfold td_dma. destruct (Z.eqb_spec (td_count h) 0) as [|Hc]; [done|]. destruct (Nat.min _ _); [|done]. cbn.
  intros (i & Hi & Ha). rewrite td_count_sent in Hi by done. rewrite td_desc_sent in Ha. exists (1 + i). split; [lia|done].
Qed.

#[export] Program Instance td_ownership : NicOwnership D := {|
  nic_owns := td_owns;
  grants h r v a := exists i, td_count h <= i < td_count (td_write r v h) /\ range (td_desc h i) 16 a
|}.
Next Obligation.
  intros h m a v. cbn. unfold td_dma. destruct (Z.eqb_spec (td_count h) 0) as [|Hc]; [by rewrite elem_of_nil|].
  destruct (Nat.min _ _); cbn; [|by rewrite elem_of_nil]. intros [= -> ->]%list_elem_of_singleton.
  pose proof (td_count_bound h). exists 0. split; [lia|]. unq. unfold range. lia.
Qed.
Next Obligation. intros h m a. apply td_dma_own. Qed.
Next Obligation. done. Qed.
Next Obligation.
  intros h r v a (i & Hi & Ha). cbn in Hi, Ha. destruct (decide (i < td_count h)) as [Hlt|Hge].
  - left. exists i. split; [lia|]. revert Ha. unfold td_write. by destruct (r =? tdt).
  - right. exists i. split; [lia|]. revert Ha. unfold td_write. by destruct (r =? tdt).
Qed.

Lemma td_sets_dd d m : dd_set (wr_all [(d + txd_status, 1)] m) d txd_status = true.
Proof.
  unfold dd_set. change (wr_all [(d + txd_status, 1)] m) with (wr (d + txd_status) 1 m).
  set (m' := wr _ _ _). change (ld 4 m' (d + txd_status)) with (rd m' (d + txd_status) + 2 ^ 8 * ld 3 m' (d + txd_status + 1)).
  unfold m' at 1. rewrite rd_wr, decide_True by done.
  change (u8 1) with 1. change (2 ^ 8) with (2 * 128). rewrite <- Z.mul_assoc, Z.add_comm. apply Z.testbit_odd_0.
Qed.
(** the done bit is in the first byte of the status *)
Lemma dd_set_byte d o m : dd_set m d o = Z.testbit (rd m (d + o)) 0.
Proof.
  unfold dd_set. change (ld 4 m (d + o)) with (rd m (d + o) + 2 ^ 8 * ld 3 m (d + o + 1)).
  rewrite !Z.bit0_odd, Z.odd_add. change (2 ^ 8) with (2 * 128).
  rewrite <- Z.mul_assoc, Z.odd_mul. cbn [Z.odd andb]. by rewrite xorb_false_r.
Qed.
Lemma td_other_dd d e m : d <> e -> dd_set (wr_all [(e + txd_status, 1)] m) d txd_status = dd_set m d txd_status.
Proof.
  intros Hne. rewrite !dd_set_byte. f_equal. apply rd_wr_all_out. cbn. intros ?%list_elem_of_singleton. lia.
Qed.

#[export] Program Instance td_writeback : NicWriteback D := {| desc_at h d o := o = txd_status |}.
Next Obligation. done. Qed.
Next Obligation. done. Qed.
Next Obligation.
  intros h m d o a -> Hdd Hdd' Ha. cbn in *. unfold td_dma in *.
  destruct (Z.eqb_spec (td_count h) 0) as [|Hc]; cbn in *; [congruence|].
  destruct (Nat.min _ _) as [|k]; cbn in *; [|congruence]. pose proof (td_count_bound h) as Hb.
  change (wr (td_desc h 0 + txd_status) 1 m) with (wr_all [(td_desc h 0 + txd_status, 1)] m) in Hdd'.
  destruct (decide (d = td_desc h 0)) as [->|Hne]; [|rewrite td_other_dd in Hdd'; congruence].
  intros (i & Hi & Hr). rewrite td_count_sent in Hi by done. rewrite td_desc_sent in Hr.
  assert (0 = 1 + i); [|lia]. apply (td_desc_eq h 0 (1 + i) a); [lia|lia|exact Ha|exact Hr].
Qed.

(** the [i]th descriptor waits for those before it *)
Definition td_within h (d : Z) (k : nat) : Prop := exists i, 0 <= i < td_count h /\ d = td_desc h i /\
  i * Z.of_nat (S delay) + Z.of_nat (Nat.min (td_wait h) delay) < Z.of_nat k.

Lemma td_within_dma h m d k : td_within h d (S k) ->
  dd_set (wr_all (td_dma h m).2 m) d txd_status = true \/ td_within (td_dma h m).1 d k.
Proof.
  intros (i & Hi & -> & Hk). unfold td_dma. destruct (Z.eqb_spec (td_count h) 0) as [|Hc]; [lia|].
  destruct (Nat.min (td_wait h) delay) as [|j] eqn:Hw.
  - cbn [fst snd]. destruct (decide (i = 0)) as [->|Hne]; [left; apply td_sets_dd|right].
    exists (i - 1). rewrite td_count_sent, td_desc_sent by done. split; [lia|].
    split; [f_equal; lia|]. cbn [td_wait]. rewrite Nat.min_id. lia.
  - right. exists i. cbn [fst]. split; [exact Hi|]. split; [done|]. cbn [td_wait]. lia.
Qed.

Lemma td_free_slot h : 0 <= td_tail h < n ->
  (forall a, range (ring_desc (td_ring h) (slot n (td_tail h) 1)) 16 a -> ~ td_owns h a) -> td_count h + 1 < n.
Proof.
  intros Ht Hfree. pose proof (td_count_bound h) as Hb. destruct (decide (td_count h + 1 = n)) as [He|]; [|lia].
  exfalso. pose proof Hn as Hn2. unfold RingLarge in Hn2. apply (Hfree (td_desc h 0)).
  - assert (slot n (td_tail h) 1 = slot n (td_head h) 0) as ->; [|unfold td_desc, range; lia].
    rewrite <- (td_slot_tail h Ht), slot_slot, He. unfold slot.
    replace (td_head h + n) with (td_head h + 0 + 1 * n) by lia. by rewrite Z.mod_add by lia.
  - exists 0. split; [lia|]. unfold range. lia.
Qed.

#[export] Program Instance td_engine : TxEngine D tdt n := {|
  te_tail := td_tail; te_runs h r := r = td_ring h; sends_within := td_within; latency := (Z.to_nat n * S delay)%nat
|}.
Next Obligation.
  intros h h' [[m ->]|[r ->]]; [|done]. cbn. unfold td_dma. destruct (td_count h =? 0); [done|]. by destruct (Nat.min _ _).
Qed.
Next Obligation. intros h v Hv. cbn. unfold td_write. by rewrite Z.eqb_refl. Qed.
Next Obligation.
  intros h h' ring [[m ->]|[r ->]] ->; [|done]. cbn. unfold td_dma. destruct (td_count h =? 0); [done|]. by destruct (Nat.min _ _).
Qed.
Next Obligation. intros h v ring ->. cbn. unfold td_write. by rewrite Z.eqb_refl. Qed.
Next Obligation.
  intros h ring a -> Ht (i & Hi & Ha). cbn in Hi. rewrite td_count_write in Hi by done. pose proof (td_count_bound h) as Hb.
  destruct (decide (td_count h + 1 = n)) as [He|].
  - rewrite He, Z.mod_same in Hi by lia. lia.
  - rewrite Z.mod_small in Hi by lia. assert (i = td_count h) as -> by lia.
    unfold td_desc in Ha. by rewrite td_slot_tail in Ha.
Qed.
Next Obligation. intros h d (i & Hi & _ & Hk). lia. Qed.
Next Obligation. intros h d j k Hjk (i & Hi & Hd & Hk). exists i. split_and!; [lia|lia|done|lia]. Qed.
Next Obligation. intros h m d k. apply td_within_dma. Qed.
Next Obligation. done. Qed.
Next Obligation.
  intros h ring -> Ht Hfree h'. subst h'. pose proof (td_free_slot h Ht Hfree) as Hroom. pose proof (td_count_bound h) as Hb.
  assert (td_count (td_write tdt (slot n (td_tail h) 1) h) = td_count h + 1) as Hc.
  { rewrite td_count_write by done. apply Z.mod_small. lia. }
  assert (forall i, td_desc (td_write tdt (slot n (td_tail h) 1) h) i = td_desc h i) as Hd.
  { intros i. unfold td_write. by rewrite Z.eqb_refl. }
  assert (td_wait (td_write tdt (slot n (td_tail h) 1) h) = td_wait h) as Hw by (unfold td_write; by rewrite Z.eqb_refl).
  split.
  - exists (td_count h). cbn [mmio_write td_platform]. rewrite Hc, Hd, Hw. split; [lia|]. split; [unfold td_desc; by rewrite td_slot_tail|].
    rewrite Nat2Z.inj_mul, Z2Nat.id by lia. nia.
  - intros d k (i & Hi & -> & Hk). exists i. cbn [mmio_write td_platform]. rewrite Hc, Hd, Hw. split_and!; [lia|lia|done|done].
Qed.
Next Obligation. done. Qed.
Next Obligation. done. Qed.
Next Obligation. done. Qed.
Next Obligation. done. Qed.
Next Obligation. done. Qed.
End device.
