(* ===== verification/PktGenProps.v ===== *)
(** * Properties of the packet generator *)
From S2P Require Import Prelude Mem Platform Memory Registers IxgbeCpp Stats Apps Device Pci Ixgbe Ring TxRing.
From S2P Require Import Sim MemoryProps TxProps RxProps AppProps TxEngine PktGen TxDevice.

(** ** A small packet generator

    The pool of four buffers, filled by the program's own loops, a ring of four
    slots and a device that is active six times for each packet it sends. *)
#[export] Instance ring_four : RingLarge 4.
Proof. by unfold RingLarge. Qed.
Definition gen_dev : ixy_device := IxyDevice "0000:03:00.0" "ixy-ixgbe" 0x20000 1 1 0x7000 0x8000.
Definition gen_hw : Type := txdev (0x20000 + IXGBE_TDT 0) 4 5.
Definition gen_q : txq := Txq 0x8000 0x9000 4 0 [].
Definition gen_pool : pool := set_free [3; 2; 1; 0] demo_pool.
Definition gen_mem : mem := Eval vm_compute in
  let m := w_mem (run (bufs ← fill_bufs 4 0x1000; free_bufs bufs) demo.2 tt).2 in
  let m := add_region 0x8000 (q_size gen_q) (add_region 0x9000 (q_ring gen_q) m) in
  let m := st 8 (0x8000 + txq_descriptors) 0x9000 m in
  let m := st 2 (0x8000 + txq_num_entries) 4 m in
  let m := st 2 (0x8000 + txq_clean_index) 0 m in
  st 2 (0x8000 + txq_tx_index) 0 m.
Definition gen_world : world gen_hw := World gen_mem (TxDev 0x9000 0 0 0 5000000000 1000000) 1.
Definition gen_state : pktgen_state :=
  let st := DeviceStats (Some gen_dev) 0 0 0 0 in PktgenState 0 st st 0 [].

Lemma gen_idle a : ~ nic_owns (w_hw gen_world) a.
Proof. intros (i & Hi & _). change (td_count _) with 0 in Hi. lia. Qed.
Lemma gen_tx_ok : tx_ok gen_world gen_pool gen_q.
Proof.
  split; [|by vm_compute]. split.
  - apply pool_okb_sound. by vm_compute.
  - apply tx_shapeb_sound. by vm_compute.
  - apply tx_structb_sound. by vm_compute.
  - by vm_compute.
  - by vm_compute.
  - apply Forall_nil_2.
  - apply (bool_decide_unpack _). by vm_compute.
  - split; apply disjb_spec; by vm_compute.
  - split; [|intros a Ha; by apply gen_idle in Ha|intros k a _ _; apply gen_idle]. intros a Ha. by apply gen_idle in Ha.
  - intros k Hk. done.
  - intros k Hk. cbn in Hk. unfold q_len in Hk. cbn in Hk. lia.
Qed.
Definition packet_filledb (m : mem) (buf : Z) : bool :=
  (ld 4 m (buf + pb_size) =? PKT_SIZE) && forall_below PKT_SIZE (fun k => ld 1 m (buf + pb_data + k) =? 0xFF).
Lemma packet_filledb_sound m buf : packet_filledb m buf = true -> packet_filled m buf.
Proof.
  unfold packet_filledb. rewrite andb_true_iff, Z.eqb_eq. intros [Hs Hd]. split; [done|].
  intros k Hk. by apply Z.eqb_eq, (forall_below_spec _ _ _ Hd).
Qed.
Lemma gen_pg_inv : pg_inv gen_dev gen_world gen_pool gen_q [].
Proof.
  split.
  - split; done.
  - apply gen_tx_ok.
  - unfold accounted. change (reverse (seqZ 0 4) ≡ₚ seqZ 0 4). apply reverse_Permutation.
  - intros i Hi. apply packet_filledb_sound.
    assert (forall_below 4 (fun i => packet_filledb (w_mem gen_world) (entry gen_pool i)) = true) as Hall by by vm_compute.
    exact (forall_below_spec _ _ _ Hall Hi).
  - intros i a _ Ha. by apply gen_idle in Ha.
  - done.
  - done.
  - intros k Hk. unfold q_len in Hk. cbn in Hk. lia.
Qed.

(** C5: the transmit loop of ixy-pktgen never stops sending.  On a device that
    works through its ring, from the invariant of the loop and with any number
    [k] of turns: no access faults, no allocation finds the pool empty and no
    retry loop runs forever; exactly [k] packets are queued, the packets leave
    the ring in the order in which they were queued, every buffer still holds
    the template packet, and the invariant holds again - so the loop can go on.
    The only other end is the conversion of a rate that does not fit
    uint32_t in print_stats_diff. *)
Theorem pktgen_sends_forever {H} `{TxEngine H tdt n} poll_fuel dev k s (w : world H) P q :
  pg_inv dev w P q [] -> (latency tdt n < poll_fuel)%nat ->
  wp (iterate k (pktgen_step poll_fuel dev (p_addr P)) s) (fun s' w' => exists P' q' sent freed,
      pg_inv dev w' P' q' [] /\ P' = set_free (p_free P') P /\
      length sent = k /\ q_fly q ++ sent = freed ++ q_fly q' /\
      u64 (g_counter s') = u64 (g_counter s + Z.of_nat k))
    (fun f _ => f = Fault "double to uint32_t") w.
Proof. apply pktgen_loop_spec. Qed.
Lemma pktgen_sends_forever_witness :
  (exists Q E, wp (iterate 20 (pktgen_step 25 gen_dev 0x1000) gen_state) Q E gen_world) /\
  match iterate 20 (pktgen_step 25 gen_dev 0x1000) gen_state gen_world with
  | Ok s' w' => g_counter s' = 20 /\ length (g_printed s') = 2%nat /\ td_tail (w_hw w') = 0
  | _ => False
  end.
Proof.
  split; [|vm_compute; split_and!; reflexivity]. eexists _, _.
  apply (pktgen_sends_forever 25 gen_dev 20 gen_state gen_world gen_pool gen_q).
  - exact gen_pg_inv.
  - apply Nat.ltb_lt. reflexivity.
Defined.
