(* ===== verification/Card.v ===== *)
(** * A card and a host to run the programs on

    An executable machine: an 82599 with one receive and one transmit queue
    that does what the registers written by the driver tell it, and a host that
    answers the system calls of the initialisation.  The rings are where
    RDBAL/RDBAH and TDBAL/TDBAH say, head and tail are registers, descriptors
    are read from memory, packets from [c_wire] are written to the buffers the
    receive descriptors name and packets sent are collected in [c_sent].
    Physical memory is the address space from [mmap_start] on, shifted.

    The card is not an instance of [NicOwnership]: nothing keeps it away from
    memory that a descriptor names by mistake. *)
From S2P Require Import Prelude Mem Platform Memory Registers.

Definition mmap_start : Z := 2 ^ 40.
Definition phys_start : Z := 2 ^ 32.
Definition phys_to_virt (p : Z) : Z := p - phys_start + mmap_start.

Record card := Card {
  c_regs : gmap Z Z;         (* registers by offset *)
  c_wire : list (list Z);    (* packets that will arrive *)
  c_sent : list (list Z);    (* packets sent, newest first *)
  c_heap : Z;                (* next malloc'ed block *)
  c_mmap : Z;                (* next mapping *)
  c_bar : Z;                 (* where BAR 0 is mapped *)
  c_seek : Z;                (* file offset of the last lseek *)
  c_clock : Z
}.

Definition reg (h : card) (r : Z) : Z := default 0 (c_regs h !! r).
Definition set_regs (f : gmap Z Z -> gmap Z Z) (h : card) : card :=
  Card (f (c_regs h)) (c_wire h) (c_sent h) (c_heap h) (c_mmap h) (c_bar h) (c_seek h) (c_clock h).

(** register accesses, by CPU address *)
Definition card_read (a : Z) (h : card) : Z * card :=
  let r := a - c_bar h in
  let v := reg h r in
  (if r =? IXGBE_CTRL then Z.land v (not32 IXGBE_CTRL_RST_MASK)  (* the reset is over at once *)
   else if r =? IXGBE_EEC then Z.lor v IXGBE_EEC_ARD
   else if r =? IXGBE_RDRXCTL then Z.lor v IXGBE_RDRXCTL_DMAIDONE
   else if r =? IXGBE_LINKS then Z.lor IXGBE_LINKS_UP IXGBE_LINKS_SPEED_10G_82599
   else v, h).
Definition card_write (a v : Z) (h : card) : card := set_regs <[a - c_bar h := v]> h.

Definition enabled (h : card) (r flag : Z) : bool := negb (Z.land (reg h r) flag =? 0).
Definition ring_base (h : card) (lo hi : Z) : Z := phys_to_virt (reg h lo + Z.shiftl (reg h hi) 32).
Definition read_bytes (n : nat) (m : mem) (a : Z) : list Z := (fun i => rd m (a + i)) <$> seqZ 0 (Z.of_nat n).
Definition le_writes (n : nat) (a v : Z) : list (Z * Z) :=
  (fun i => (a + i, (v / 2 ^ (8 * i)) mod 2 ^ 8)) <$> seqZ 0 (Z.of_nat n).

(** send the packet of the descriptor at the transmit head *)
Definition card_send (h : card) (m : mem) : card * list (Z * Z) :=
  let n := reg h (IXGBE_TDLEN 0) / sizeof_adv_tx_desc in
  let head := reg h (IXGBE_TDH 0) in
  if enabled h (IXGBE_TXDCTL 0) IXGBE_TXDCTL_ENABLE && enabled h IXGBE_DMATXCTL IXGBE_DMATXCTL_TE &&
     negb (head =? reg h (IXGBE_TDT 0))
  then
    let d := ring_base h (IXGBE_TDBAL 0) (IXGBE_TDBAH 0) + head * sizeof_adv_tx_desc in
    let len := ld 4 m (d + txd_cmd_type_len) mod 2 ^ 16 in
    let pkt := read_bytes (Z.to_nat len) m (phys_to_virt (ld 8 m (d + txd_buffer_addr))) in
    (Card (<[IXGBE_TDH 0 := (head + 1) mod n]> (c_regs h)) (c_wire h) (pkt :: c_sent h)
       (c_heap h) (c_mmap h) (c_bar h) (c_seek h) (c_clock h), le_writes 4 (d + txd_status) IXGBE_ADVTXD_STAT_DD)
  else (h, []).
(** receive a packet into the buffer of the descriptor at the receive head *)
Definition card_receive (h : card) (m : mem) : card * list (Z * Z) :=
  let n := reg h (IXGBE_RDLEN 0) / sizeof_adv_rx_desc in
  let head := reg h (IXGBE_RDH 0) in
  match c_wire h with
  | pkt :: wire =>
      if enabled h (IXGBE_RXDCTL 0) IXGBE_RXDCTL_ENABLE && enabled h IXGBE_RXCTRL IXGBE_RXCTRL_RXEN &&
         negb (head =? reg h (IXGBE_RDT 0))
      then
        let d := ring_base h (IXGBE_RDBAL 0) (IXGBE_RDBAH 0) + head * sizeof_adv_rx_desc in
        let buf := phys_to_virt (ld 8 m (d + rxd_pkt_addr)) in
        (Card (<[IXGBE_RDH 0 := (head + 1) mod n]> (c_regs h)) wire (c_sent h)
           (c_heap h) (c_mmap h) (c_bar h) (c_seek h) (c_clock h),
         zip ((fun i => buf + i) <$> seqZ 0 (Z.of_nat (length pkt))) pkt ++
         le_writes 2 (d + rxd_length) (Z.of_nat (length pkt)) ++
         le_writes 4 (d + rxd_status_error) (Z.lor IXGBE_RXDADV_STAT_DD IXGBE_RXDADV_STAT_EOP))
      else (h, [])
  | [] => (h, [])
  end.
Definition card_dma (h : card) (m : mem) : card * list (Z * Z) :=
  let '(h1, ws1) := card_send h m in let '(h2, ws2) := card_receive h1 m in (h2, ws1 ++ ws2).

(** ** The host *)
Definition host_sys (c : syscall) (h : card) : Z * card :=
  match c with
  | Sys_sysconf_pagesize => (4096, h)
  | Sys_open _ _ _ => (3, h)
  | Sys_lseek _ off _ => (off, Card (c_regs h) (c_wire h) (c_sent h) (c_heap h) (c_mmap h) (c_bar h) off (c_clock h))
  | Sys_mmap size _ flags _ _ => (* only the registers are mapped from a file without huge pages *)
      (c_mmap h, Card (c_regs h) (c_wire h) (c_sent h) (c_heap h) (c_mmap h + round_2mb size)
         (if flags =? MAP_SHARED then c_mmap h else c_bar h) (c_seek h) (c_clock h))
  | Sys_fstat_size _ => (2 ^ 19, h)
  | Sys_write16 _ _ => (2, h)
  | Sys_clock_gettime =>
      (c_clock h, Card (c_regs h) (c_wire h) (c_sent h) (c_heap h) (c_mmap h) (c_bar h) (c_seek h) (c_clock h + 1000))
  | _ => (0, h)
  end.
(** a page map entry of 8 bytes: the page is present, its frame follows the
    shift; or 2 bytes of the PCI configuration space *)
Definition host_read (fd n : Z) (h : card) : Z * Z * card :=
  if n =? 8 then (8, 2 ^ 63 + (c_seek h / 8 - mmap_start / 4096 + phys_start / 4096), h) else (n, 0, h).
Definition host_malloc (size : Z) (h : card) : Z * card :=
  (c_heap h, Card (c_regs h) (c_wire h) (c_sent h) (c_heap h + Z.max 64 ((size + 63) / 64 * 64)) (c_mmap h) (c_bar h) (c_seek h) (c_clock h)).

#[export] Instance card_platform : Platform card := {|
  mmio_read := card_read; mmio_write := card_write; dma := card_dma; sys := host_sys;
  sys_read := host_read; errno _ := 12; malloc := host_malloc; heap_free _ h := h
|}.

(** the machine after a reset, with packets on their way to it *)
Definition powered_on (wire : list (list Z)) : world card :=
  World (Mem ∅ []) (Card ∅ wire [] 0x1000 mmap_start 0 0 0) 0.
