(* ===== verification/CardRuns.v ===== *)
(** * Whole programs on the card

    ixy-pktgen and ixy-fwd, from the first system call of main, on the machine
    of Card.v: every definition of the driver takes part, composed as the
    programs compose them.  These are runs on one machine with one input, checks
    of the model. *)
From S2P Require Import Prelude Mem Platform Memory Registers Card IxgbeCpp Stats Apps Device Pci Ixgbe.
Local Open Scope string_scope.

(** a libseccomp whose calls succeed *)
Definition seccomp_ok (c : seccomp_call) : M (world card) Z :=
  mret (match c with Seccomp_init _ => 1 | _ => 0 end).
Definition pci : string := "0000:03:00.0".

(** A packet of 60 bytes whose first eight are a physical address less 64, here of
    slot 100 of the receive ring, which the initialisation mapped after BAR 0. *)
Definition chosen_address : Z := phys_start + 2 ^ 21 + 100 * sizeof_adv_rx_desc.
Definition odd_packet : list Z := (le_writes 8 0 (chosen_address - 64)).*2 ++ replicate 52 0xFF.

(** Ixy-fwd from power on to the end of its first two packets.  The receive ring
    was filled with the addresses of the buffers' headers, so the card writes
    the packet over the header of its buffer: buf_addr_phy and mempool are now
    bytes of the packet.  The first turn queues the packet, and the card sends
    60 bytes from the address that the packet itself named instead of the
    packet; when the next packet is queued, the program follows the mempool
    pointer to give the first buffer back, and faults. *)
Example ixy_fwd_faults_from_power_on :
  match fwd_main true 3 seccomp_ok ["ixy-fwd"; pci; pci] 2 (powered_on [odd_packet; odd_packet]) with
  | Err f w => f = Fault "load" /\
      c_sent (w_hw w) = [read_bytes 60 (w_mem w) (phys_to_virt chosen_address)] /\
      c_sent (w_hw w) <> [odd_packet]
  | _ => False
  end.
Proof. vm_compute. split_and!; [reflexivity|reflexivity|discriminate]. Qed.
