(* ===== verification/DeviceProps.v ===== *)
(** * Properties of register access, polling, link state and statistics *)
From S2P Require Import Prelude Mem Platform Memory Registers Device Pci Ixgbe Sim.

Section poll.
Context {H : Type} `{Platform H}.
Implicit Types (w : world H) (h : H) (dev : ixy_device).

(** The device state after [n] rounds of reading register [a] and sleeping for
    [us] microseconds, and the value read in round [n]. *)
Fixpoint poll_state (a us : Z) (n : nat) h : H :=
  match n with
  | O => h
  | S n' => poll_state a us n' (sys (Sys_usleep us) (mmio_read a h).2).2
  end.
Definition poll_value (a us : Z) (n : nat) h : Z := u32 (mmio_read a (poll_state a us n h)).1.

Lemma poll_value_S a us n h :
  poll_value a us (S n) h = poll_value a us n (sys (Sys_usleep us) (mmio_read a h).2).2.
Proof. done. Qed.

Lemma get_reg32_eq dev reg w :
  get_reg32 dev reg w =
  Ok (u32 (mmio_read (addr dev + reg) (w_hw w)).1) (set_hw (mmio_read (addr dev + reg) (w_hw w)).2 w).
Proof. unfold get_reg32, mmio_get. by destruct (mmio_read _ _). Qed.

Lemma syscall_eq c w : syscall_ c w = Ok (sys c (w_hw w)).1 (set_hw (sys c (w_hw w)).2 w).
Proof. unfold syscall_. by destruct (sys _ _). Qed.

(** A loop that reads a register until the value passes a test. *)
Lemma poll_loop (loop : nat -> M (world H) unit) (test : Z -> bool) dev reg fuel w :
  (forall n w, loop (S n) w =
     (cur ← get_reg32 dev reg; if test cur then mret tt
      else (_ ← syscall_ (Sys_usleep 10000); loop n)) w) ->
  (forall w, loop O w = Hang) ->
  let a := addr dev + reg in
  (forall k, (k < fuel)%nat -> (forall j, (j < k)%nat -> test (poll_value a 10000 j (w_hw w)) = false) ->
     test (poll_value a 10000 k (w_hw w)) = true ->
     loop fuel w = Ok tt (set_hw (mmio_read a (poll_state a 10000 k (w_hw w))).2 w)) /\
  ((forall k, (k < fuel)%nat -> test (poll_value a 10000 k (w_hw w)) = false) -> loop fuel w = Hang).
Proof.
  intros HS HO a. revert w. induction fuel as [|fuel IH]; intros w.
  { split; [lia|]. intros _. apply HO. }
  rewrite HS. unfold mbind, M_bind. rewrite get_reg32_eq. fold a.
  change (u32 (mmio_read a (w_hw w)).1) with (poll_value a 10000 0 (w_hw w)).
  set (w1 := set_hw (sys (Sys_usleep 10000) (mmio_read a (w_hw w)).2).2 w).
  specialize (IH w1). destruct IH as [IH1 IH2]. split.
  - intros [|k] Hk Hlt Ht.
    + rewrite Ht. done.
    + rewrite (Hlt 0%nat) by lia. rewrite syscall_eq. cbn [w_hw set_hw].
      change (set_hw _ (set_hw _ w)) with w1. apply IH1; [lia| |done].
      intros j Hj. apply (Hlt (S j)). lia.
  - intros Hall. rewrite (Hall 0%nat) by lia. rewrite syscall_eq. cbn [w_hw set_hw].
    change (set_hw _ (set_hw _ w)) with w1. apply IH2. intros k Hk. apply (Hall (S k)). lia.
Qed.
End poll.

(** C37: the polling loops wait_set_reg32 and wait_clear_reg32 end exactly with the
    first read whose value has all the mask's bits set (none of them set, for
    clear), having slept 10 ms after each earlier read and done nothing else.
    Allowed [fuel] polls in the model, they run out of them exactly when none of
    the first [fuel] reads satisfies the condition: the code's loops have no
    bound and then go on. *)
Theorem wait_reg32_polls {H} `{Platform H} dev reg mask fuel (w : world H) :
  let a := addr dev + reg in
  let val k := poll_value a 10000 k (w_hw w) in
  let done_at k := Ok tt (set_hw (mmio_read a (poll_state a 10000 k (w_hw w))).2 w) in
  (forall k, (k < fuel)%nat -> (forall j, (j < k)%nat -> Z.land (val j) mask <> mask) ->
     Z.land (val k) mask = mask -> wait_set_reg32 fuel dev reg mask w = done_at k) /\
  ((forall k, (k < fuel)%nat -> Z.land (val k) mask <> mask) -> wait_set_reg32 fuel dev reg mask w = Hang) /\
  (forall k, (k < fuel)%nat -> (forall j, (j < k)%nat -> Z.land (val j) mask <> 0) ->
     Z.land (val k) mask = 0 -> wait_clear_reg32 fuel dev reg mask w = done_at k) /\
  ((forall k, (k < fuel)%nat -> Z.land (val k) mask <> 0) -> wait_clear_reg32 fuel dev reg mask w = Hang).
Proof.
  intros a val done_at.
  destruct (poll_loop (fun n => wait_set_reg32 n dev reg mask) (fun v => Z.land v mask =? mask)
    dev reg fuel w) as [S1 S2]; [done|done|].
  destruct (poll_loop (fun n => wait_clear_reg32 n dev reg mask) (fun v => Z.land v mask =? 0)
    dev reg fuel w) as [C1 C2]; [done|done|].
  split_and!.
  - intros k Hk Hlt Ht. apply S1; [done| |by apply Z.eqb_eq]. intros j Hj. by apply Z.eqb_neq, Hlt.
  - intros Hall. apply S2. intros k Hk. by apply Z.eqb_neq, Hall.
  - intros k Hk Hlt Ht. apply C1; [done| |by apply Z.eqb_eq]. intros j Hj. by apply Z.eqb_neq, Hlt.
  - intros Hall. apply C2. intros k Hk. by apply Z.eqb_neq, Hall.
Qed.

Definition dev_demo : ixy_device := IxyDevice "0000:03:00.0" "ixy-ixgbe" 0x20000 1 1 0x8000 0x7000.
Definition reg_world (vals : list (Z * list Z)) : world sim :=
  World (Mem ∅ []) (Sim [] [] (list_to_map vals) [] [] [] 0) 0.
Lemma wait_reg32_polls_witness : exists w',
  wait_set_reg32 5 dev_demo IXGBE_EEC IXGBE_EEC_ARD (reg_world [(0x30010, [0; 0; 0x200])]) = Ok tt w'.
Proof.
  eexists. apply (wait_reg32_polls dev_demo IXGBE_EEC IXGBE_EEC_ARD 5
    (reg_world [(0x30010, [0; 0; 0x200])])) with (k := 2%nat).
  - lia.
  - intros j Hj. apply Z.eqb_neq.
    assert (j = 0 \/ j = 1)%nat as [-> | ->] by lia; by vm_compute.
  - by vm_compute.
Defined.

(** ** Flags *)

(** C39: set_flags32 writes back the value it read with exactly the bits of
    [flags] set, clear_flags32 with exactly those bits cleared; every other bit
    of the 32 keeps its value, and the register is read and written once. *)
Theorem flags32_bits {H} `{Platform H} dev reg flags (w : world H) :
  0 <= flags < 2 ^ 32 ->
  let a := addr dev + reg in
  let v := u32 (mmio_read a (w_hw w)).1 in
  let h := (mmio_read a (w_hw w)).2 in
  wp (set_flags32 dev reg flags) (fun _ w' => exists v',
    w' = set_hw (mmio_write a v' h) w /\ 0 <= v' < 2 ^ 32 /\
    forall i, 0 <= i < 32 -> Z.testbit v' i = Z.testbit v i || Z.testbit flags i) never w /\
  wp (clear_flags32 dev reg flags) (fun _ w' => exists v',
    w' = set_hw (mmio_write a v' h) w /\ 0 <= v' < 2 ^ 32 /\
    forall i, 0 <= i < 32 -> Z.testbit v' i = Z.testbit v i && negb (Z.testbit flags i)) never w.
Proof.
  intros Hf a v h. unfold set_flags32, clear_flags32. split.
  - apply wp_bind. eapply ok_wp; [apply get_reg32_eq|]. apply wp_mmio_set.
    eexists. split; [done|]. split; [apply u32_range|]. intros i Hi. unfold u32.
    rewrite Z.mod_pow2_bits_low by lia. by rewrite Z.lor_spec.
  - apply wp_bind. eapply ok_wp; [apply get_reg32_eq|]. apply wp_mmio_set.
    eexists. split; [done|]. split; [apply u32_range|]. intros i Hi. unfold u32.
    rewrite Z.mod_pow2_bits_low by lia. rewrite Z.land_spec. f_equal.
    rewrite not32_lnot. unfold u32. rewrite Z.mod_pow2_bits_low by lia. by rewrite Z.lnot_spec by lia.
Qed.
Lemma flags32_bits_witness : 0 <= IXGBE_FCTRL_BAM < 2 ^ 32 /\ exists Q : unit -> world sim -> Prop,
  wp (set_flags32 dev_demo IXGBE_FCTRL IXGBE_FCTRL_BAM) Q never (reg_world []).
Proof.
  split; [done|]. eexists.
  apply (flags32_bits dev_demo IXGBE_FCTRL IXGBE_FCTRL_BAM (reg_world [])). done.
Defined.

(** ** Link *)

(** The link speed is decoded from the LINKS register for every value it can
    have: 0 when the link is down or the speed field is reserved, else 100, 1000
    or 10000 by the two speed bits. *)
Lemma link_speed_decodes links :
  link_speed links =
    if Z.testbit links 30
    then match (links / 2 ^ 28) mod 4 with 1 => 100 | 2 => 1000 | 3 => 10000 | _ => 0 end
    else 0.
Proof.
  unfold link_speed. change IXGBE_LINKS_UP with (2 ^ 30). rewrite land_pow2_testbit by lia.
  destruct (Z.testbit links 30); [|done]. cbn [negb].
  assert (Z.land links IXGBE_LINKS_SPEED_82599 = (links / 2 ^ 28) mod 4 * 2 ^ 28) as ->.
  { change 4 with (2 ^ 2). rewrite <- land_ones_mod by lia.
    rewrite <- Z.shiftr_div_pow2, <- Z.shiftl_mul_pow2 by lia.
    change IXGBE_LINKS_SPEED_82599 with (Z.shiftl 3 28). apply Z.bits_inj'. intros i Hi.
    rewrite Z.land_spec, !Z.shiftl_spec, Z.land_spec by done.
    destruct (decide (i < 28)); [rewrite !(Z.testbit_neg_r _ (i - 28)) by lia; apply andb_false_r|].
    rewrite Z.shiftr_spec by lia. by replace (i - 28 + 28) with i by lia. }
  pose proof (Z.mod_pos_bound (links / 2 ^ 28) 4) as Hb.
  assert ((links / 2 ^ 28) mod 4 = 0 \/ (links / 2 ^ 28) mod 4 = 1 \/
    (links / 2 ^ 28) mod 4 = 2 \/ (links / 2 ^ 28) mod 4 = 3) as [-> | [-> | [-> | ->]]] by lia; done.
Qed.

(** C40: ixgbe_get_link_speed reads LINKS once, changes nothing else, and returns
    0 when bit 30, link up, is clear or the two speed bits 28 and 29 hold the
    reserved value 0; otherwise 100, 1000 or 10000 for their values 1, 2 and 3,
    whatever the other 29 bits are. *)
Theorem ixgbe_get_link_speed_decodes {H} `{Platform H} dev (w : world H) :
  let '(v, h) := mmio_read (addr dev + IXGBE_LINKS) (w_hw w) in
  ixgbe_get_link_speed dev w = Ok (
    if Z.testbit v 30
    then (if Z.testbit v 29 then (if Z.testbit v 28 then 10000 else 1000)
          else if Z.testbit v 28 then 100 else 0)
    else 0) (set_hw h w).
Proof.
  destruct (mmio_read _ _) as [v h] eqn:E. unfold ixgbe_get_link_speed, mbind, M_bind.
  rewrite get_reg32_eq, E. cbn [fst snd]. unfold mret, M_ret. f_equal. rewrite link_speed_decodes.
  unfold u32. rewrite Z.mod_pow2_bits_low by lia. destruct (Z.testbit v 30); [|done].
  assert ((v mod 2 ^ 32 / 2 ^ 28) mod 4 = Z.b2z (Z.testbit v 28) + 2 * Z.b2z (Z.testbit v 29)) as ->;
    [|by destruct (Z.testbit v 28), (Z.testbit v 29)].
  rewrite !Z.testbit_spec' by lia. change (2 ^ 32) with 4294967296. change (2 ^ 28) with 268435456.
  change (2 ^ 29) with 536870912. Z.div_mod_to_equations. lia.
Qed.

Lemma link_speed_eq {H} `{Platform H} dev (w : world H) :
  ixgbe_get_link_speed dev w =
  Ok (link_speed (poll_value (addr dev + IXGBE_LINKS) 100000 0 (w_hw w)))
     (set_hw (mmio_read (addr dev + IXGBE_LINKS) (w_hw w)).2 w).
Proof. unfold ixgbe_get_link_speed, mbind, M_bind. by rewrite get_reg32_eq. Qed.

Lemma wait_for_link_loop_spec {H} `{Platform H} dev m fuel (w : world H) :
  (m <= 100)%nat -> (m < fuel)%nat ->
  let a := addr dev + IXGBE_LINKS in
  exists n, (n <= m)%nat /\
    (forall j, (j < n)%nat -> link_speed (poll_value a 100000 j (w_hw w)) = 0) /\
    (n = m \/ link_speed (poll_value a 100000 n (w_hw w)) <> 0) /\
    wait_for_link_loop fuel dev (100000 * Z.of_nat m) 100000 w =
      Ok tt (set_hw (mmio_read a (poll_state a 100000 n (w_hw w))).2 w).
Proof.
  intros Hm Hf a. revert m w Hm Hf. induction fuel as [|fuel IH]; intros m w Hm Hf; [lia|].
  cbn [wait_for_link_loop]. unfold mbind, M_bind. rewrite link_speed_eq. fold a.
  set (s := link_speed (poll_value a 100000 0 (w_hw w))).
  set (w1 := set_hw (sys (Sys_usleep 100000) (mmio_read a (w_hw w)).2).2 w).
  destruct (Z.eqb_spec s 0) as [Hs|Hs]; cbn [andb].
  - destruct m as [|m].
    { exists 0%nat. split_and!; [lia|lia|by left|done]. }
    rewrite (proj2 (Z.ltb_lt 0 _)) by lia. rewrite syscall_eq. cbn [w_hw set_hw].
    change (set_hw _ (set_hw _ w)) with w1.
    replace (i32 (u32 (100000 * Z.of_nat (S m)) - 100000)) with (100000 * Z.of_nat m).
    2:{ rewrite u32_small by ulia. unfold i32. rewrite u32_small by ulia.
        replace (100000 * Z.of_nat (S m) - 100000) with (100000 * Z.of_nat m) by lia.
        rewrite (proj2 (Z.ltb_lt _ _)) by ulia. done. }
    destruct (IH m w1) as (n & Hn & Hz & Hend & Hrun); [lia|lia|]. exists (S n). split_and!.
    + lia.
    + intros [|j] Hj; [exact Hs|]. apply Hz. lia.
    + destruct Hend as [->|He]; [by left|by right].
    + rewrite Hrun. done.
  - exists 0%nat. split_and!; [lia|lia|by right|done].
Qed.

(** C33: wait_for_link always returns, however the device behaves: it polls the
    link until the first poll at which it is up, sleeping 100 ms after each poll
    that finds it down, and gives up after 100 of them (10 seconds); then it
    reads the speed twice more in all.  The signed counter of the remaining
    microseconds never wraps although an unsigned value is subtracted. *)
Theorem wait_for_link_terminates {H} `{Platform H} dev (w : world H) :
  let a := addr dev + IXGBE_LINKS in
  exists n, (n <= 100)%nat /\
    (forall j, (j < n)%nat -> link_speed (poll_value a 100000 j (w_hw w)) = 0) /\
    (n = 100%nat \/ link_speed (poll_value a 100000 n (w_hw w)) <> 0) /\
    wait_for_link dev w =
      Ok tt (set_hw (mmio_read a (mmio_read a (poll_state a 100000 n (w_hw w))).2).2 w).
Proof.
  intros a. destruct (wait_for_link_loop_spec dev 100 102 w) as (n & Hn & Hz & He & Hrun); [lia|lia|].
  exists n. split_and!; [done|exact Hz|exact He|].
  unfold wait_for_link. change 10000000 with (100000 * Z.of_nat 100).
  unfold mbind at 1, M_bind at 1. rewrite Hrun. unfold mbind, M_bind. by rewrite link_speed_eq.
Qed.

(** ** Statistics *)

(** the two halves of a 64-bit counter *)
Lemma u64_pair lo hi : 0 <= lo < 2 ^ 32 -> 0 <= hi < 2 ^ 32 -> u64 (lo + hi * 2 ^ 32) = lo + 2 ^ 32 * hi.
Proof. intros. rewrite u64_small by ulia. lia. Qed.

(** C34: ixgbe_read_stats reads the six counters once each, packets first, and
    adds them to the accumulated statistics; the two halves of a byte counter
    make its exact 64-bit value, and while the sums stay below 2^64 the result
    is the mathematical sum.  Without a statistics object it only reads. *)
Theorem ixgbe_read_stats_accumulates {H} `{Platform H} dev (w : world H) s rxp txp rl rh tl th h1 h2 h3 h4 h5 h6 :
  mmio_read (addr dev + IXGBE_GPRC) (w_hw w) = (rxp, h1) ->
  mmio_read (addr dev + IXGBE_GPTC) h1 = (txp, h2) ->
  mmio_read (addr dev + IXGBE_GORCL) h2 = (rl, h3) -> mmio_read (addr dev + IXGBE_GORCH) h3 = (rh, h4) ->
  mmio_read (addr dev + IXGBE_GOTCL) h4 = (tl, h5) -> mmio_read (addr dev + IXGBE_GOTCH) h5 = (th, h6) ->
  Forall (fun v => 0 <= v < 2 ^ 32) [rxp; txp; rl; rh; tl; th] ->
  Forall (fun v => 0 <= v) [rx_pkts s; tx_pkts s; rx_bytes s; tx_bytes s] ->
  Forall (fun v => v < 2 ^ 64) [rx_pkts s + rxp; tx_pkts s + txp;
    rx_bytes s + (rl + 2 ^ 32 * rh); tx_bytes s + (tl + 2 ^ 32 * th)] ->
  ixgbe_read_stats dev (Some s) w =
    Ok (Some (DeviceStats (device s) (rx_pkts s + rxp) (tx_pkts s + txp)
                (rx_bytes s + (rl + 2 ^ 32 * rh)) (tx_bytes s + (tl + 2 ^ 32 * th)))) (set_hw h6 w) /\
  ixgbe_read_stats dev None w = Ok None (set_hw h6 w).
Proof.
  intros E1 E2 E3 E4 E5 E6 Hv Hs Hb. rewrite !Forall_cons in Hv. rewrite !Forall_cons in Hs. rewrite !Forall_cons in Hb.
  unfold ixgbe_read_stats, mbind, M_bind.
  split; repeat (rewrite get_reg32_eq; cbn [w_hw set_hw]); rewrite E1; cbn [fst snd]; rewrite E2;
    cbn [fst snd]; rewrite E3; cbn [fst snd]; rewrite E4; cbn [fst snd]; rewrite E5; cbn [fst snd];
    rewrite E6; cbn [fst snd]; [|done].
  unfold mret, M_ret. rewrite !Z.shiftl_mul_pow2 by done. repeat (rewrite u32_small by lia).
  repeat (rewrite u64_pair by lia). repeat (rewrite u64_small by lia). done.
Qed.
Lemma ixgbe_read_stats_accumulates_witness :
  let w := reg_world [(0x24074, [10]); (0x24080, [20]); (0x24088, [7]); (0x2408C, [1]); (0x24090, [9])] in
  ixgbe_read_stats dev_demo (Some (DeviceStats None 1 2 3 4)) w =
  Ok (Some (DeviceStats None 11 22 (3 + (7 + 2 ^ 32 * 1)) (4 + (9 + 2 ^ 32 * 0)))) w.
Proof.
  intros w.
  eapply (ixgbe_read_stats_accumulates dev_demo w (DeviceStats None 1 2 3 4) 10 20 7 1 9 0); try reflexivity.
  - by rewrite !Forall_cons.
  - by rewrite !Forall_cons.
  - by rewrite !Forall_cons.
Defined.
