(* ===== verification/IxgbeProps.v ===== *)
(** * Properties of initialisation

    The limits ixgbe_init checks, and lemmas on mapped memory and on the halves of
    a ring's physical address.  What the queues are given is in InitProps.v. *)
From S2P Require Import Prelude Mem Platform Memory Registers Device Pci Ixgbe TxRing RxRing Sim MemoryProps DeviceProps.

(** ** Limits *)

(** ixgbe_init refuses more than 64 receive or transmit queues by aborting
    before it allocates memory or touches the device: it has only asked for the
    user id. *)
Lemma ixgbe_init_limits {H} `{Platform H} NDEBUG fuel pci rx tx (w : world H) :
  MAX_QUEUES < rx \/ MAX_QUEUES < tx ->
  exists msg, ixgbe_init NDEBUG fuel pci rx tx w = Err (Abort msg) (set_hw (sys Sys_getuid (w_hw w)).2 w) /\
    msg = if MAX_QUEUES <? rx then "cannot configure rx queues: limit exceeded"%string
          else "cannot configure tx queues: limit exceeded"%string.
Proof.
  intros Hl. unfold ixgbe_init, mbind, M_bind. rewrite syscall_eq.
  destruct (Z.ltb_spec MAX_QUEUES rx); [by eexists|].
  rewrite (proj2 (Z.ltb_lt MAX_QUEUES tx)) by lia. by eexists.
Qed.
Lemma ixgbe_init_limits_witness : exists msg,
  ixgbe_init true 5 "0000:03:00.0" 1 65 demo_world =
    Err (Abort msg) (set_hw (sys Sys_getuid (w_hw demo_world)).2 demo_world) /\
  msg = "cannot configure tx queues: limit exceeded"%string.
Proof. apply (ixgbe_init_limits true 5 "0000:03:00.0" 1 65 demo_world). by right. Defined.

(** ** Ring addresses *)
Lemma mapped_grow m m' r a n : regions m' = r :: regions m -> mapped m a n = true -> mapped m' a n = true.
Proof. intros Hr Hm. unfold mapped in *. rewrite Hr. cbn [existsb]. rewrite Hm. apply orb_true_r. Qed.

Lemma phy_halves p : 0 <= p < 2 ^ 64 ->
  u32 (Z.land p 0xFFFFFFFF) = p mod 2 ^ 32 /\ u32 (Z.shiftr p 32) = p / 2 ^ 32.
Proof.
  intros Hp. change 0xFFFFFFFF with (2 ^ 32 - 1). rewrite land_ones_mod by done. split.
  - unfold u32. by rewrite Z.mod_mod.
  - rewrite Z.shiftr_div_pow2 by done. apply u32_small. split; [apply Z.div_pos; lia|].
    apply Z.div_lt_upper_bound; ulia.
Qed.
