(* ===== verification/PciProps.v ===== *)
(** * Properties of pci.c

    What taking over the device asks of the kernel, call by call, and where it
    stops. *)
From S2P Require Import Prelude Mem Platform Trace Memory Pci Sim MemoryProps.

(** remove_driver *)
Definition unbind_calls (pci : string) (fd r c : Z) : list event :=
  Call (Sys_open (pci_path pci "/driver/unbind") O_WRONLY 0) fd ::
  (if fd =? -1 then [] else [Call (Sys_write fd pci) r; Call (Sys_close fd) c]).
(** enable_dma: bit 2 is set in the command word [v] read from the configuration space *)
Definition bus_master_calls (pci : string) (fd s1 n v s2 b : Z) : list event :=
  [Call (Sys_open (pci_path pci "/config") O_RDWR 0) fd; Call (Sys_lseek fd 4 SEEK_SET) s1; Read fd 2 n v;
   Call (Sys_lseek fd 4 SEEK_SET) s2; Call (Sys_write16 fd (Z.lor (u16 v) 4)) b].
(** the mapping of the registers *)
Definition resource_calls (pci : string) (fd size p : Z) : list event :=
  [Call (Sys_open (pci_path pci "/resource0") O_RDWR 0) fd; Call (Sys_fstat_size fd) size;
   Call (Sys_mmap size PROT_RW MAP_SHARED fd 0) p].

(** a checked call that failed; an access to the configuration space that was not whole *)
Definition checked_failed (e : event) : bool :=
  match e with
  | Call (Sys_open _ _ _) r | Call (Sys_fstat_size _) r | Call (Sys_mmap _ _ _ _ _) r => r =? -1
  | _ => false
  end.
Definition config_short (e : event) : bool :=
  match e with
  | Call (Sys_lseek _ _ _) r => negb (r =? 4)
  | Call (Sys_write16 _ _) r | Read _ _ r _ => negb (r =? 2)
  | _ => false
  end.

Section pci.
Context {H : Type} `{Platform H}.
Implicit Types (w : world H).

Lemma wp_assert_ NDEBUG (c : M (world H) bool) (Q : unit -> world H -> Prop) E w :
  wp c (fun b w' => (b = true \/ NDEBUG = true -> Q tt w') /\
                    (b = false -> NDEBUG = false -> E (Abort "assertion failed") w')) E w ->
  wp (assert_ NDEBUG c) Q E w.
Proof.
  intros Hc. apply wp_bind. eapply wp_conseq; [exact Hc|]. cbn beta. intros b w' [HQ HE].
  destruct b, NDEBUG; cbn; try (apply wp_ret, HQ; auto). apply wp_fail. by apply HE.
Qed.

Lemma u16_lor x y : 0 <= x < 2 ^ 16 -> 0 <= y < 2 ^ 16 -> u16 (Z.lor x y) = Z.lor x y.
Proof.
  intros Hx Hy. apply u16_small. split; [by apply Z.lor_nonneg; lia|].
  destruct (Z.eq_dec (Z.lor x y) 0) as [->|]; [done|]. apply Z.log2_lt_pow2; [|].
  - assert (0 <= Z.lor x y) by (apply Z.lor_nonneg; lia). lia.
  - rewrite Z.log2_lor by lia.
    assert (forall z, 0 <= z < 2 ^ 16 -> Z.log2 z < 16) as Hl.
    { intros z Hz. destruct (decide (z = 0)) as [->|]; [done|]. apply Z.log2_lt_pow2; lia. }
    apply Z.max_lub_lt; by apply Hl.
Qed.

(** the process is otherwise as it was, after the events [l] *)
Definition asked w l w' : Prop := w' = set_hw (w_hw w') w /\ answers (w_hw w) l (w_hw w').
Lemma asked_app w l1 w1 l2 w2 : asked w l1 w1 -> asked w1 l2 w2 -> asked w (l1 ++ l2) w2.
Proof. intros [E1 A1] [E2 A2]. split; [rewrite E2, E1; done|]. by eapply answers_app. Qed.
(** the program stopped after the last of these events *)
Definition stopped (NDEBUG : bool) w l f w' : Prop := asked w l w' /\ exists l0 e, l = l0 ++ [e] /\
  ((checked_failed e = true /\ f = Exit (errno (w_hw w'))) \/
   (NDEBUG = false /\ config_short e = true /\ f = Abort "assertion failed")).
Lemma stopped_app NDEBUG w l1 w1 l2 f w2 : asked w l1 w1 -> stopped NDEBUG w1 l2 f w2 -> stopped NDEBUG w (l1 ++ l2) f w2.
Proof.
  intros A1 [A2 (l0 & e & -> & Hf)]. split; [by eapply asked_app|]. exists (l1 ++ l0), e. split; [by rewrite app_assoc|done].
Qed.

Lemma remove_driver_calls pci w :
  wp (remove_driver pci) (fun _ w' => exists fd r c, asked w (unbind_calls pci fd r c) w') never w.
Proof.
  unfold remove_driver. apply wp_bind, wp_syscall. intros fd h1 E1. destruct (fd =? -1) eqn:Hfd.
  - apply wp_ret. exists fd, 0, 0. split; [done|]. unfold unbind_calls. rewrite Hfd. replay.
  - apply wp_bind, wp_syscall. intros r h2 E2. apply wp_bind, wp_syscall. intros c h3 E3. apply wp_ret.
    cbn [w_hw set_hw] in *. exists fd, r, c. split; [done|]. unfold unbind_calls. rewrite Hfd. cbn [w_hw set_hw]. replay.
Qed.

Lemma enable_dma_calls NDEBUG pci w :
  wp (enable_dma NDEBUG pci) (fun _ w' => exists fd s1 n v s2 b,
      asked w (bus_master_calls pci fd s1 n v s2 b) w' /\ fd <> -1 /\
      (NDEBUG = false -> s1 = 4 /\ n = 2 /\ s2 = 4 /\ b = 2))
    (fun f w' => exists fd s1 n v s2 b l, l `prefix_of` bus_master_calls pci fd s1 n v s2 b /\ stopped NDEBUG w l f w') w.
Proof.
  unfold enable_dma. apply wp_bind, wp_check_syscall.
  { intros h1 E1. exists (-1), 0, 0, 0, 0, 0, [Call (Sys_open (pci_path pci "/config") O_RDWR 0) (-1)].
    split; [by eexists|]. split; [split; [done|replay]|]. exists [], (Call (Sys_open (pci_path pci "/config") O_RDWR 0) (-1)).
    split; [done|by left]. }
  intros fd h1 E1 Hfd. apply wp_bind, wp_assert_, wp_bind, wp_syscall. intros s1 h2 E2. cbn [w_hw set_hw] in E2. apply wp_ret.
  split; [intros Hs1|intros Hs1 Hd].
  2:{ exists fd, s1, 0, 0, 0, 0, [Call (Sys_open (pci_path pci "/config") O_RDWR 0) fd; Call (Sys_lseek fd 4 SEEK_SET) s1].
      split; [by eexists|]. split; [split; [done|cbn [w_hw set_hw]; replay]|].
      eexists [_], _. split; [reflexivity|]. right. cbn. by rewrite Hs1. }
  apply wp_bind. unfold wp at 1; cbn beta. cbn [w_hw set_hw]. destruct (sys_read fd 2 h2) as [[n v] h3] eqn:E3. cbn beta iota.
  apply wp_bind, wp_assert_, wp_ret. split; [intros Hn|intros Hn Hd].
  2:{ exists fd, s1, n, v, 0, 0, [Call (Sys_open (pci_path pci "/config") O_RDWR 0) fd; Call (Sys_lseek fd 4 SEEK_SET) s1; Read fd 2 n v].
      split; [by eexists|]. split; [split; [done|cbn [w_hw set_hw]; replay]|].
      eexists [_; _], _. split; [reflexivity|]. right. cbn. by rewrite Hn. }
  apply wp_bind, wp_assert_, wp_bind, wp_syscall. intros s2 h4 E4. cbn [w_hw set_hw] in E4. apply wp_ret.
  split; [intros Hs2|intros Hs2 Hd].
  2:{ exists fd, s1, n, v, s2, 0, [Call (Sys_open (pci_path pci "/config") O_RDWR 0) fd; Call (Sys_lseek fd 4 SEEK_SET) s1; Read fd 2 n v;
        Call (Sys_lseek fd 4 SEEK_SET) s2].
      split; [by eexists|]. split; [split; [done|cbn [w_hw set_hw]; replay]|].
      eexists [_; _; _], _. split; [reflexivity|]. right. cbn. by rewrite Hs2. }
  rewrite (u16_lor (u16 v) (Z.shiftl 1 2)) by (try apply u16_range; done). change (Z.shiftl 1 2) with 4.
  apply wp_assert_, wp_bind, wp_syscall. intros b h5 E5. cbn [w_hw set_hw] in E5. apply wp_ret.
  assert (asked w (bus_master_calls pci fd s1 n v s2 b) (set_hw h5 (set_hw h4 (set_hw h3 (set_hw h2 (set_hw h1 w)))))) as Hl.
  { split; [done|]. unfold bus_master_calls. cbn [w_hw set_hw]. replay. }
  split; [intros Hb|intros Hb Hd].
  - exists fd, s1, n, v, s2, b. split; [exact Hl|]. split; [done|]. intros ->.
    assert (forall x y : Z, (x =? y) = true \/ false = true -> x = y) as Hx by (intros x y [E|E]; [by apply Z.eqb_eq|done]).
    split_and!; by apply Hx.
  - exists fd, s1, n, v, s2, b, (bus_master_calls pci fd s1 n v s2 b). split; [done|]. split; [exact Hl|].
    eexists [_; _; _; _], _. split; [reflexivity|]. right. cbn. by rewrite Hb.
Qed.

(** the last part of pci_map_resource *)
Lemma resource_mapped NDEBUG pci w :
  wp (fd ← check_err (syscall_ (Sys_open (pci_path pci "/resource0") O_RDWR 0));
      size ← check_err (syscall_ (Sys_fstat_size fd));
      check_err (syscall_ (Sys_mmap size PROT_RW MAP_SHARED fd 0)))
    (fun p w' => exists fd size, asked w (resource_calls pci fd size p) w' /\ fd <> -1 /\ size <> -1 /\ p <> -1)
    (fun f w' => exists fd size p l, l `prefix_of` resource_calls pci fd size p /\ stopped NDEBUG w l f w') w.
Proof.
  apply wp_bind, wp_check_syscall.
  { intros h1 E1. exists (-1), 0, 0, [Call (Sys_open (pci_path pci "/resource0") O_RDWR 0) (-1)]. split; [by eexists|].
    split; [split; [done|replay]|]. eexists [], _. split; [reflexivity|by left]. }
  intros fd h1 E1 Hfd. apply wp_bind, wp_check_syscall; cbn [w_hw set_hw].
  { intros h2 E2. exists fd, (-1), 0, [Call (Sys_open (pci_path pci "/resource0") O_RDWR 0) fd; Call (Sys_fstat_size fd) (-1)].
    split; [by eexists|]. split; [split; [done|cbn [w_hw set_hw]; replay]|]. eexists [_], _. split; [reflexivity|by left]. }
  intros size h2 E2 Hsize. apply wp_check_syscall; cbn [w_hw set_hw].
  - intros h3 E3. exists fd, size, (-1), (resource_calls pci fd size (-1)). split; [done|].
    split; [split; [done|unfold resource_calls; cbn [w_hw set_hw]; replay]|]. eexists [_; _], _. split; [reflexivity|by left].
  - intros p h3 E3 Hp. exists fd, size. split; [|done]. split; [done|]. unfold resource_calls. cbn [w_hw set_hw]. replay.
Qed.
End pci.

(** C35: pci_map_resource takes the device over in this order and by these calls,
    and no others: if the unbind file opens, it writes the device's address to it
    and closes it; it opens the configuration space, reads the command word at
    offset 4 and writes it back to offset 4 with bit 2 (bus mastering) set and
    every other bit as read; it opens resource0, asks for its size and maps
    exactly that file in exactly that size.  It returns that mapping's address,
    and memory is as it was.  It stops early after one of these calls: with
    exit(errno) when an open, fstat or mmap whose result is checked failed; with
    an abort, unless NDEBUG is defined, when an access to the configuration space
    was not whole (under NDEBUG that is ignored). *)
Theorem pci_map_resource_ok {H} `{Platform H} NDEBUG pci (w : world H) :
  wp (pci_map_resource NDEBUG pci)
    (fun p w' => exists fd0 r c fd s1 n v s2 b fd2 size,
      asked w (unbind_calls pci fd0 r c ++ bus_master_calls pci fd s1 n v s2 b ++ resource_calls pci fd2 size p) w' /\
      fd <> -1 /\ fd2 <> -1 /\ size <> -1 /\ p <> -1 /\
      (NDEBUG = false -> s1 = 4 /\ n = 2 /\ s2 = 4 /\ b = 2))
    (fun f w' => exists fd0 r c fd s1 n v s2 b fd2 size p l,
      l `prefix_of` unbind_calls pci fd0 r c ++ bus_master_calls pci fd s1 n v s2 b ++ resource_calls pci fd2 size p /\
      stopped NDEBUG w l f w') w.
Proof.
  unfold pci_map_resource. apply wp_bind. eapply wp_mono; [apply remove_driver_calls| |intros ? ? []]. cbn beta.
  intros _ w1 (fd0 & r & c & A1). apply wp_bind. eapply wp_mono; [apply enable_dma_calls| |]; cbn beta.
  - intros _ w2 (fd & s1 & n & v & s2 & b & A2 & Hfd & Hnd). eapply wp_mono; [apply (resource_mapped NDEBUG)| |]; cbn beta.
    + intros p w3 (fd2 & size & A3 & Hfd2 & Hsize & Hp). exists fd0, r, c, fd, s1, n, v, s2, b, fd2, size.
      split; [|done]. eapply asked_app; [exact A1|]. by eapply asked_app.
    + intros f w3 (fd2 & size & p & l & Hl & Hst).
      exists fd0, r, c, fd, s1, n, v, s2, b, fd2, size, p, (unbind_calls pci fd0 r c ++ bus_master_calls pci fd s1 n v s2 b ++ l).
      split; [by do 2 apply prefix_app|]. eapply stopped_app; [exact A1|]. by eapply stopped_app.
  - intros f w2 (fd & s1 & n & v & s2 & b & l & Hl & Hst).
    exists fd0, r, c, fd, s1, n, v, s2, b, 0, 0, 0, (unbind_calls pci fd0 r c ++ l).
    split; [apply prefix_app; by apply prefix_app_r|]. by eapply stopped_app.
Qed.
