(* ===== verification/Startup.v ===== *)
(** * Starting up: what the process and the card keep

    While a program sets itself up it maps memory, opens files, polls registers
    and allocates from the heap; what it has set up before must survive that.
    [StartLaws] is what a process relies on of the kernel and the C library
    meanwhile; [follows] relates two states of the hardware, [booted F d] two
    states of the world between which the process wrote, of the memory that was
    reserved before, only bytes in [F], and took [d] bytes from the heap. *)
From S2P Require Import Prelude Mem Platform Trace Memory Registers Device Ixgbe Ring MemoryProps DeviceProps IxgbeProps.

(** a system call of the process other than munmap *)
Definition os_step {H} `{Platform H} (h h' : H) : Prop :=
  (exists c, (forall a n, c <> Sys_munmap a n) /\ h' = (sys c h).2) \/ (exists fd n, h' = (sys_read fd n h).2).
(** what may happen between two stores of the driver; and an allocation *)
Definition host_step {H} `{Platform H} (h h' : H) : Prop := hw_step h h' \/ os_step h h'.
Definition proc_step {H} `{Platform H} (h h' : H) : Prop := host_step h h' \/ exists n, h' = (malloc n h).2.

Class StartLaws (H : Type) `{NicWriteback H, !HostLaws H} := {
  (* the process's own steps hand nothing to the card and take no descriptor from it *)
  proc_own : forall h h' a, proc_step h h' -> nic_owns h' a -> nic_owns h a;
  proc_desc : forall h h' d o, proc_step h h' -> desc_at h d o -> desc_at h' d o;
  (* [reserved h a n]: the [n] bytes at [a] are in use; new memory is elsewhere *)
  reserved : H -> Z -> Z -> Prop;
  reserved_sub : forall h a n b k, reserved h a n -> a <= b -> b + k <= a + n -> reserved h b k;
  reserved_step : forall h h' a n, proc_step h h' -> reserved h a n -> reserved h' a n;
  reserved_write : forall h r v a n, reserved h a n -> reserved (mmio_write r v h) a n;
  mmap_fresh : forall h size prot flags fd off a n, reserved h a n ->
    let p := (sys (Sys_mmap size prot flags fd off) h).1 in p = -1 \/ disj p size a n;
  mmap_reserved : forall h size prot flags fd off,
    let r := sys (Sys_mmap size prot flags fd off) h in r.1 <> -1 -> reserved r.2 r.1 size;
  heap_fresh : forall h n a k, reserved h a k -> let p := (malloc n h).1 in p = NULL \/ disj p n a k;
  heap_reserved : forall h n, (malloc n h).1 <> NULL -> reserved (malloc n h).2 (malloc n h).1 n;
  (* the bytes malloc can still hand out *)
  heap_room : H -> Z;
  room_malloc : forall h n, 0 < n <= heap_room h ->
    (malloc n h).1 <> NULL /\ heap_room h - n <= heap_room (malloc n h).2;
  room_step : forall h h', host_step h h' -> heap_room h' = heap_room h;
  room_write : forall h r v, heap_room (mmio_write r v h) = heap_room h;
  (* [dma_page h v p]: the locked huge page at virtual address [v] has the physical address [p] *)
  dma_page : H -> Z -> Z -> Prop;
  dma_page_step : forall h h' v p, proc_step h h' -> dma_page h v p -> dma_page h' v p;
  dma_page_write : forall h r x v p, dma_page h v p -> dma_page (mmio_write r x h) v p;
  pagemap_right : forall h v fd s n x h', 0 <= v < 2 ^ 64 ->
    answers h [Call (Sys_open "/proc/self/pagemap" O_RDONLY 0) fd; Call (Sys_lseek fd (v / 4096 * 8) SEEK_SET) s; Read fd 8 n x] h' ->
    fd <> -1 -> s <> -1 -> n <> -1 -> u64 x <> 0 -> dma_page h' v (entry_phys v x)
}.

Section start.
Context {H : Type} `{StartLaws H}.
Implicit Types (w : world H) (h : H) (F G : Z -> Prop).

(** what a sequence of such steps keeps *)
Record follows h h' : Prop := {
  fw_own : forall a, nic_owns h' a -> nic_owns h a;
  fw_desc : forall d o, desc_at h d o -> desc_at h' d o;
  fw_reserved : forall a n, reserved h a n -> reserved h' a n;
  fw_page : forall v p, dma_page h v p -> dma_page h' v p
}.
#[global] Instance follows_preorder : PreOrder follows.
Proof.
  split; [by intros h|]. intros h1 h2 h3 [A1 B1 C1 D1] [A2 B2 C2 D2]. split; auto.
Qed.

Lemma proc_follows h h' : proc_step h h' -> follows h h'.
Proof.
  intros Hs. split; [intros a; by apply proc_own|intros d o; by apply proc_desc|intros a n; by apply reserved_step|
    intros v p; by apply dma_page_step].
Qed.
Lemma hosts_follow h h' : rtc host_step h h' -> follows h h'.
Proof.
  induction 1 as [|h1 h2 h3 Hs _ IH]; [done|]. etransitivity; [|exact IH]. apply proc_follows. by left.
Qed.
Lemma hosts_room h h' : rtc host_step h h' -> heap_room h' = heap_room h.
Proof. induction 1 as [|h1 h2 h3 Hs _ IH]; [done|]. rewrite IH. by apply room_step. Qed.
Lemma write_follows h r v : (forall a, ~ grants h r v a) -> follows h (mmio_write r v h).
Proof.
  intros Hg. split.
  - intros a Ha. apply mmio_write_own in Ha as [|Ha]; [done|by apply Hg in Ha].
  - intros d o. by apply desc_at_write.
  - intros a n. by apply reserved_write.
  - intros a n. by apply dma_page_write.
Qed.

Lemma sys_host c h : (forall a n, c <> Sys_munmap a n) -> host_step h (sys c h).2.
Proof. intros Hc. right. left. by exists c. Qed.
Lemma read_host r h : host_step h (mmio_read r h).2.
Proof. left. right. by eexists. Qed.
Lemma hosts_proc h h' : rtc host_step h h' -> rtc proc_step h h'.
Proof. induction 1 as [|h1 h2 h3 Hs _ IH]; [done|]. eapply rtc_l; [by left|done]. Qed.
Lemma tick_host w w' : dma_tick w = Ok tt w' -> host_step (w_hw w) (w_hw w').
Proof.
  unfold dma_tick. destruct (dma (w_hw w) (w_mem w)) as [h ws] eqn:E. intros [= <-]. left. left.
  exists (w_mem w). by rewrite E.
Qed.

(** ** What was set up before is kept *)
Record booted F (d : Z) w w' : Prop := {
  bo_grow : exists l, regions (w_mem w') = l ++ regions (w_mem w);
  bo_kept : forall b n a, reserved (w_hw w) b n -> range b n a -> ~ F a -> ~ nic_owns (w_hw w) a ->
    rd (w_mem w') a = rd (w_mem w) a;
  bo_follows : follows (w_hw w) (w_hw w');
  bo_room : heap_room (w_hw w) - d <= heap_room (w_hw w')
}.
Definition nothing (a : Z) : Prop := False.

Lemma booted_trans F d1 d2 w1 w2 w3 : booted F d1 w1 w2 -> booted F d2 w2 w3 -> booted F (d1 + d2) w1 w3.
Proof.
  intros [(l1 & G1) K1 F1 R1] [(l2 & G2) K2 F2 R2]. split; [|intros b n a Hr Ha HF Ho|by etransitivity|lia].
  - exists (l2 ++ l1). by rewrite G2, G1, app_assoc.
  - rewrite (K2 b n a); [by apply (K1 b n)|by apply F1|done|done|]. intros Hx. by apply Ho, F1.
Qed.
Lemma booted_mono F G d e w w' : (forall a, F a -> G a) -> d <= e -> booted F d w w' -> booted G e w w'.
Proof. intros HF Hd [Gr K Fo R]. split; [done| |done|lia]. intros b n a Hr Ha HG. apply (K b n); auto. Qed.
Lemma booted_refl F w : booted F 0 w w.
Proof. split; [by exists []|done|done|lia]. Qed.
Lemma booted_seq F d1 d2 d w1 w2 w3 : d1 + d2 <= d -> booted F d1 w1 w2 -> booted F d2 w2 w3 -> booted F d w1 w3.
Proof. intros Hd B1 B2. eapply booted_mono; [|exact Hd|by eapply booted_trans]. done. Qed.
(** what is written to memory that is new is nobody else's *)
Lemma booted_fresh F G d1 d2 w1 w2 w3 : booted F d1 w1 w2 -> booted G d2 w2 w3 ->
  (forall a b n, G a -> range b n a -> reserved (w_hw w1) b n -> F a) -> booted F (d1 + d2) w1 w3.
Proof.
  intros [(l1 & G1) K1 F1 R1] [(l2 & G2) K2 F2 R2] HG. split; [|intros b n a Hr Ha HF Ho|by etransitivity|lia].
  - exists (l2 ++ l1). by rewrite G2, G1, app_assoc.
  - rewrite (K2 b n a); [by apply (K1 b n)|by apply F1|done| |].
    + intros Hx. by apply HF, (HG a b n).
    + intros Hx. by apply Ho, F1.
Qed.

Lemma booted_hosts F w w' : w_mem w' = w_mem w -> rtc host_step (w_hw w) (w_hw w') -> booted F 0 w w'.
Proof.
  intros Hm Hs. split; rewrite ?Hm; [by exists []|done|by apply hosts_follow|]. rewrite (hosts_room _ _ Hs). lia.
Qed.
Lemma booted_write F w r v : (forall a, ~ grants (w_hw w) r v a) -> booted F 0 w (set_hw (mmio_write r v (w_hw w)) w).
Proof.
  intros Hg. split; cbn [w_mem w_hw set_hw]; [by exists []|done|by apply write_follows|]. rewrite room_write. lia.
Qed.
Lemma hw_steps_host h h' : rtc hw_step h h' -> rtc host_step h h'.
Proof. induction 1 as [|h1 h2 h3 Hs _ IH]; [done|]. eapply rtc_l; [by left|done]. Qed.
Lemma booted_evolve F w w' : evolve F w w' -> booted F 0 w w'.
Proof.
  intros [[Hr Hag] Hs _]%evolve_changes. apply hw_steps_host in Hs. split.
  - exists []. by rewrite <- Hr.
  - intros b n a _ _ HF Ho. symmetry. apply Hag. tauto.
  - by apply hosts_follow.
  - rewrite (hosts_room _ _ Hs). lia.
Qed.
Lemma booted_store F w n a v : (forall b, range a (Z.of_nat n) b -> F b) -> booted F 0 w (set_mem (st n a v (w_mem w)) w).
Proof. intros HF. by apply booted_evolve, evolve_store. Qed.

Lemma booted_fill F w n a v : (forall b, range a (Z.of_nat n) b -> F b) -> booted F 0 w (set_mem (fill n a v (w_mem w)) w).
Proof.
  intros HF. split; cbn [w_mem w_hw set_mem]; [exists []; by rewrite regions_fill| |done|lia].
  intros b k c _ _ Hc _. rewrite rd_fill, decide_False; [done|]. intros Hx. by apply Hc, HF.
Qed.

Lemma booted_mapped F d w w' a n : booted F d w w' -> mapped (w_mem w) a n = true -> mapped (w_mem w') a n = true.
Proof.
  intros [(l & Hl) _ _ _] Hm. unfold mapped in *. rewrite Hl, existsb_app, Hm. apply orb_true_r.
Qed.
Lemma booted_own F d w w' a : booted F d w w' -> ~ nic_owns (w_hw w) a -> ~ nic_owns (w_hw w') a.
Proof. intros B Ha Hx. by apply Ha, (bo_follows _ _ _ _ B). Qed.
Lemma booted_reserved F d w w' a n : booted F d w w' -> reserved (w_hw w) a n -> reserved (w_hw w') a n.
Proof. intros B. apply (bo_follows _ _ _ _ B). Qed.

(** ** Blocks of memory that are the process's own *)
Record block w (b n : Z) : Prop := {
  bl_reserved : reserved (w_hw w) b n;
  bl_mapped : mapped (w_mem w) b n = true;
  bl_own : forall a, range b n a -> ~ nic_owns (w_hw w) a
}.
Lemma block_booted F d w w' b n : booted F d w w' -> block w b n -> block w' b n.
Proof.
  intros B [Hr Hm Ho]. split; [by eapply booted_reserved|by eapply booted_mapped|].
  intros a Ha. eapply booted_own; [exact B|by apply Ho].
Qed.
Lemma block_sub w b n c k : block w b n -> b <= c -> c + k <= b + n -> block w c k.
Proof.
  intros [Hr Hm Ho] Hlo Hhi. split; [by eapply reserved_sub|by eapply mapped_sub|].
  intros a Ha. apply Ho. unfold range in *. lia.
Qed.
Lemma block_kept F d w w' b n a : booted F d w w' -> block w b n -> range b n a -> ~ F a ->
  rd (w_mem w') a = rd (w_mem w) a.
Proof. intros B Hb Ha HF. apply (bo_kept _ _ _ _ B b n); [apply Hb|done|done|by apply Hb]. Qed.
Lemma block_ld F d w w' b n k a : booted F d w w' -> block w b n -> b <= a -> a + Z.of_nat k <= b + n ->
  (forall c, range a (Z.of_nat k) c -> ~ F c) -> ld k (w_mem w') a = ld k (w_mem w) a.
Proof.
  intros B Hb Hlo Hhi HF. apply ld_ext. intros c Hc. eapply block_kept; [exact B|exact Hb|unfold range; lia|by apply HF].
Qed.

(** a block that was not there before *)
Definition new_block w (b n : Z) w' : Prop :=
  block w' b n /\ forall a k, reserved (w_hw w) a k -> disj b n a k.
(** what the card has is in use *)
Definition card_known w : Prop := forall a, nic_owns (w_hw w) a -> reserved (w_hw w) a 1.
Lemma card_known_booted F d w w' : booted F d w w' -> card_known w -> card_known w'.
Proof. intros B Hc a Ha. eapply booted_reserved; [exact B|]. by apply Hc, (bo_follows _ _ _ _ B). Qed.
Lemma new_unowned w b n h : card_known w -> (forall a k, reserved (w_hw w) a k -> disj b n a k) ->
  follows (w_hw w) h -> forall a, range b n a -> ~ nic_owns h a.
Proof.
  intros Hc Hf Hfo a Ha Ho. apply (fw_own _ _ Hfo) in Ho. apply Hc, Hf in Ho. unfold range, disj in *. lia.
Qed.

(** ** The heap *)
Lemma malloc_fresh n w : 0 < n <= heap_room (w_hw w) -> card_known w ->
  wp (malloc_ n) (fun p w' => booted nothing n w w' /\ new_block w p n w' /\ 0 < p /\ p + n < 2 ^ 47 /\
    w_hw w' = (malloc n (w_hw w)).2) never w.
Proof.
  intros Hn Hc. destruct (room_malloc (w_hw w) n Hn) as [Hnz Hroom]. pose proof (heap_area n (w_hw w)) as Ha.
  pose proof (heap_fresh (w_hw w) n) as Hf. pose proof (heap_reserved (w_hw w) n Hnz) as Hr.
  assert (follows (w_hw w) (malloc n (w_hw w)).2) as Hfo by (apply proc_follows; right; by eexists).
  unfold wp, malloc_. destruct (malloc n (w_hw w)) as [p h1]. cbn [fst snd] in *.
  assert (forall a k, reserved (w_hw w) a k -> disj p n a k) as Hd.
  { intros a k Hx. by destruct (Hf a k Hx). }
  rewrite (proj2 (Z.eqb_neq p 0)) by done. destruct Ha as [|[Ha1 Ha2]]; [done|].
  split; [split; cbn [w_mem w_hw]; [by exists [(p, n)]|done|done|done]|]. split; [|done]. split; [|done].
  split; [done|apply mapped_new|by eapply new_unowned].
Qed.

Lemma calloc_fresh k n w : 0 < k * n <= heap_room (w_hw w) -> card_known w ->
  wp (calloc_ k n) (fun p w' => booted nothing (k * n) w w' /\ new_block w p (k * n) w' /\ 0 < p /\
    p + k * n < 2 ^ 47 /\ (forall a, range p (k * n) a -> rd (w_mem w') a = 0) /\
    w_hw w' = (malloc (k * n) (w_hw w)).2) never w.
Proof.
  intros Hn Hc. pose proof (malloc_fresh (k * n) w Hn Hc) as Hm. unfold wp, malloc_, calloc_ in *.
  destruct (malloc (k * n) (w_hw w)) as [p h1]. destruct Hm as ([Hg Hk Hf Hr] & [[B1 B2 B3] Hd] & Hp & Hb & Hh).
  rewrite (proj2 (Z.eqb_neq p 0)) in * by lia. cbn [w_mem w_hw] in *.
  split; [split; cbn [w_mem w_hw]; [done| |done|done]|].
  - intros b i a Hx Ha HF Ho. rewrite rd_zero_fill, decide_False; [by apply (Hk b i)|].
    specialize (Hd b i Hx). unfold disj, range in *. lia.
  - split; [|split; [done|split; [done|split; [|done]]]].
    + split; [split; [done| |done]|done]. rewrite <- B2. apply mapped_regions. done.
    + intros a Ha. cbn [w_mem]. by rewrite rd_zero_fill, decide_True.
Qed.

(** ** The ring's memory *)
Definition no_munmap (e : event) : bool := match e with Call (Sys_munmap _ _) _ => false | _ => true end.
Lemma answers_hosts h l h' : forallb no_munmap l = true -> answers h l h' -> rtc host_step h h'.
Proof.
  revert h. induction l as [|[c r|fd n r v|] l IH]; intros h Hl; cbn [answers forallb] in *.
  - by intros ->.
  - apply andb_true_iff in Hl as [Hc Hl]. intros (h1 & Hs & Ha). eapply rtc_l; [|by apply IH].
    replace h1 with (sys c h).2 by (by rewrite Hs). apply sys_host. by intros a n ->.
  - intros (h1 & Hs & Ha). eapply rtc_l; [|by apply IH]. right. right. exists fd, n. by rewrite Hs.
  - intros (m & Ha). eapply rtc_l; [|by apply IH]. left. left. by exists m.
Qed.

Lemma virt_to_phys_page virt w : 0 <= virt < 2 ^ 47 ->
  wp (virt_to_phys virt) (fun p w' => w_mem w' = w_mem w /\ rtc host_step (w_hw w) (w_hw w') /\
      dma_page (w_hw w') virt p) (fun f _ => alloc_failure f) w.
Proof.
  intros Hv. eapply wp_conseq; [apply virt_to_phys_calls; ulia|]. cbn beta.
  intros p w' (fd & n & v & s & c & Hw & Hl & Hfd & Hs & Hn & Hv0 & ->). split; [by rewrite Hw|].
  split; [eapply answers_hosts, Hl; done|].
  change (pagemap_calls virt fd n v s c) with ([Call Sys_sysconf_pagesize 4096] ++
    [Call (Sys_open "/proc/self/pagemap" O_RDONLY 0) fd; Call (Sys_lseek fd (virt / 4096 * 8) SEEK_SET) s; Read fd 8 n v] ++
    [Call (Sys_close fd) c]) in Hl.
  apply answers_inv in Hl as (h1 & _ & Hl). apply answers_inv in Hl as (h2 & Hl & h3 & Hc & Hw3). rewrite Hw3.
  apply (dma_page_step h2); [left; replace h3 with (sys (Sys_close fd) h2).2 by (by rewrite Hc); by apply sys_host|].
  eapply pagemap_right; [ulia|exact Hl|done..].
Qed.

(** bytes outside [F] that the card does not own are kept *)
Definition keeps_bytes (F : Z -> Prop) w w' : Prop :=
  forall a, ~ F a -> ~ nic_owns (w_hw w) a -> rd (w_mem w') a = rd (w_mem w) a.

Lemma tick_kept F w w' : dma_tick w = Ok tt w' -> keeps_bytes F w w' /\ regions (w_mem w') = regions (w_mem w).
Proof.
  intros Ht. destruct (tick_changes F _ _ Ht) as [[Hr Hag] _ _]. split; [|done].
  intros a HF Ho. symmetry. apply Hag. tauto.
Qed.

(** A new DMA region: fresh, and only its own bytes change. *)
Record dma_fresh size w (r : dma_memory) w' : Prop := {
  df_boot : booted nothing 0 w w';
  df_block : new_block w (virt r) (round_2mb size) w';
  df_alloc : dma_allocated size w r w';
  df_path : rtc host_step (w_hw w) (w_hw w');
  df_page : dma_page (w_hw w') (virt r) (phy r)
}.

(** reading a byte of a page and writing it back *)
Lemma touch_then p w {A} (k : M (world H) A) Q E : (forall m, regions m = regions (w_mem w) -> mapped m p 1 = true) ->
  (forall w', rtc host_step (w_hw w) (w_hw w') -> regions (w_mem w') = regions (w_mem w) -> keeps_bytes (range p 1) w w' ->
    wp k Q E w') ->
  wp (temp ← vload 1 p; vstore 1 p temp ;; k) Q E w.
Proof.
  intros Hm HQ. apply wp_bind, wp_vload_tick; [by apply Hm|]. intros w1 Ht1.
  destruct (tick_kept (range p 1) _ _ Ht1) as [K1 R1]. pose proof (tick_host _ _ Ht1) as S1.
  apply wp_bind. unfold vstore. apply wp_bind. destruct (dma_tick_ok w1) as (w2 & Ht2). eapply ok_wp; [exact Ht2|].
  destruct (tick_kept (range p 1) _ _ Ht2) as [K2 R2]. pose proof (tick_host _ _ Ht2) as S2.
  apply wp_store; [apply Hm; congruence|]. apply HQ; cbn [w_hw w_mem set_mem].
  - eapply rtc_l; [exact S1|by apply rtc_once].
  - by rewrite regions_st, R2.
  - intros a Ha Ho. cbn [w_mem set_mem]. rewrite rd_st_out by (unfold range in Ha; lia). rewrite K2; [by apply K1|done|].
    intros Hx. apply Ho. by apply (fw_own _ _ (hosts_follow _ _ (rtc_once _ _ S1))).
Qed.

(** memory that the kernel has mapped meanwhile *)
Lemma new_mapping w p n w' : card_known w -> rtc host_step (w_hw w) (w_hw w') ->
  regions (w_mem w') = (p, n) :: regions (w_mem w) -> keeps_bytes (range p n) w w' ->
  (forall a k, reserved (w_hw w) a k -> disj p n a k) -> reserved (w_hw w') p n -> 0 < n ->
  booted nothing 0 w w' /\ new_block w p n w'.
Proof.
  intros Hc Hs Hr Hk Hnew Hres Hn. pose proof (hosts_follow _ _ Hs) as Hf. split.
  - split; [by exists [(p, n)]| |done|rewrite (hosts_room _ _ Hs); lia].
    intros b k a Hx Ha _ Ho. apply Hk; [|done]. specialize (Hnew b k Hx). unfold range, disj in *. lia.
  - split; [|exact Hnew]. split; [exact Hres|eapply mapped_head; [exact Hr|lia]|by eapply new_unowned].
Qed.

Lemma dma_keeps size w : 0 < size <= 2 ^ 64 - 2 ^ 21 ->
  wp (memory_allocate_dma size) (fun r w' => keeps_bytes (range (virt r) (round_2mb size)) w w' /\
      dma_page (w_hw w') (virt r) (phy r)) (fun f _ => alloc_failure f) w.
Proof.
  intros Hs. destruct (round_2mb_bounds size Hs) as [_ Hr]. set (sz := round_2mb size) in *.
  assert (forall n, alloc_failure (Exit n)) as Hexit by (left; eauto).
  unfold memory_allocate_dma. fold sz. apply wp_bind, wp_gets, wp_bind, wp_modify, wp_bind, wp_syscall.
  intros pid h1 E1. apply wp_bind, wp_check_syscall; [auto|]. intros fd h2 E2 _.
  apply wp_bind, wp_check_syscall; [auto|]. intros r3 h3 E3 _.
  apply wp_bind, wp_bind, wp_check_syscall; [auto|]. intros p h4 E4 Hp.
  apply wp_bind, wp_modify, wp_ret, wp_bind, wp_check_syscall; [auto|]. intros r5 h5 E5 _.
  apply wp_bind, wp_syscall. intros r6 h6 E6. apply wp_bind, wp_syscall. intros r7 h7 E7.
  cbn [w_hw set_hw set_mem] in E1, E2, E3, E4, E5, E6, E7.
  assert (rtc host_step (w_hw w) h7) as Hs07.
  { apply (answers_hosts _ (huge_calls (huge_pg_id w) sz pid fd r3 p r5 r6 r7)); [done|]. unfold huge_calls. replay. }
  pose proof (mmap_area sz PROT_RW (Z.lor MAP_SHARED MAP_HUGETLB) fd 0 h3) as Ha.
  rewrite E4 in Ha. cbn [fst] in Ha. destruct Ha as [|[Hlo Hhi]]; [done|]. set (w7 := set_hw h7 _).
  apply touch_then; [intros m Hrm; eapply mapped_head; [exact Hrm|]; clear -Hs Hr; lia|].
  intros w9 _ Hr9 Hk9. apply wp_bind.
  eapply wp_conseq; [apply virt_to_phys_page; change (2 ^ 47) with 140737488355328 in *; lia|]. cbn beta.
  intros phys w' (Hmem & _ & Hpage). apply wp_ret. cbn [virt phy]. split; [|exact Hpage].
  intros a HF Ho. rewrite Hmem, Hk9.
  - unfold w7. cbn. rewrite rd_zero_fill, decide_False by (unfold range in HF; lia). done.
  - unfold range in *. clear -HF Hs Hr. lia.
  - intros Hx. apply Ho. by apply (fw_own _ _ (hosts_follow _ _ Hs07)).
Qed.

(** the region is new, and in use from then on *)
Lemma dma_allocated_new size w r w' : dma_allocated size w r w' ->
  rtc host_step (w_hw w) (w_hw w') /\ reserved (w_hw w') (virt r) (round_2mb size) /\
  (forall a n, reserved (w_hw w) a n -> disj (virt r) (round_2mb size) a n).
Proof.
  intros (_ & _ & pid & fd & t & k & c & u & fd2 & n & v & s & c2 & Hl & _ & _ & Hne & _).
  split; [by eapply answers_hosts, Hl|]. unfold huge_calls in Hl. cbn [answers app] in Hl.
  destruct Hl as (h1 & E1 & h2 & E2 & h3 & E3 & h4 & E4 & Hl).
  assert (rtc host_step (w_hw w) h3) as H03.
  { apply (answers_hosts _ [Call Sys_getpid pid; Call (Sys_open (huge_path pid (huge_pg_id w)) (Z.lor O_CREAT O_RDWR) S_IRWXU) fd;
      Call (Sys_ftruncate fd (round_2mb size)) t]); [done|replay]. }
  assert (rtc host_step h4 (w_hw w')) as H4.
  { by apply (answers_hosts _ ([Call (Sys_mlock (virt r) (round_2mb size)) k; Call (Sys_close fd) c;
      Call (Sys_unlink (huge_path pid (huge_pg_id w))) u; Act; Act] ++ pagemap_calls (virt r) fd2 n v s c2)). }
  pose proof (fun a n Hres => mmap_fresh h3 (round_2mb size) PROT_RW (Z.lor MAP_SHARED MAP_HUGETLB) fd 0 a n Hres) as Hfresh.
  pose proof (mmap_reserved h3 (round_2mb size) PROT_RW (Z.lor MAP_SHARED MAP_HUGETLB) fd 0) as Hres.
  rewrite E4 in Hfresh, Hres. cbn [fst snd] in Hfresh, Hres. split.
  - apply (fw_reserved _ _ (hosts_follow _ _ H4)). by apply Hres.
  - intros a m Hx. by destruct (Hfresh a m) as [|Hd]; [apply (fw_reserved _ _ (hosts_follow _ _ H03))|..].
Qed.

Lemma memory_allocate_dma_fresh size w : 0 < size <= 2 ^ 64 - 2 ^ 21 -> card_known w ->
  wp (memory_allocate_dma size) (dma_fresh size w) (fun f _ => alloc_failure f) w.
Proof.
  intros Hs Hc. destruct (round_2mb_bounds size Hs) as [_ Hr].
  eapply wp_conseq; [apply wp_both; [by apply memory_allocate_dma_spec|by apply dma_keeps]|]. cbn beta.
  intros r w' [Hal [Hk Hpage]]. destruct (dma_allocated_new _ _ _ _ Hal) as (Hpath & Hres & Hnew).
  destruct (new_mapping w (virt r) (round_2mb size) w' Hc Hpath (proj1 Hal) Hk Hnew Hres) as [B Hnb]; [lia|]. by split.
Qed.

(** ** Polling *)
(** the loop ends with the read that shows the bits *)
Lemma wait_set_spec fuel dev reg mask k w : (k < fuel)%nat ->
  Z.land (poll_value (addr dev + reg) 10000 k (w_hw w)) mask = mask ->
  wp (wait_set_reg32 fuel dev reg mask) (fun _ w' => w_mem w' = w_mem w /\ exists h, rtc host_step (w_hw w) h /\
    Z.land (u32 (mmio_read (addr dev + reg) h).1) mask = mask /\ w_hw w' = (mmio_read (addr dev + reg) h).2) never w.
Proof.
  revert k w. induction fuel as [|fuel IH]; intros k w Hk Hv; [lia|]. cbn [wait_set_reg32].
  apply wp_bind. eapply ok_wp; [apply get_reg32_eq|]. set (h1 := (mmio_read _ _).2).
  assert (host_step (w_hw w) h1) as Hs1 by (left; right; by eexists).
  destruct (Z.eqb_spec (Z.land (u32 (mmio_read (addr dev + reg) (w_hw w)).1) mask) mask) as [Hd|Hd].
  { apply wp_ret. split; [done|]. by exists (w_hw w). }
  destruct k as [|k]; [done|]. rewrite poll_value_S in Hv. fold h1 in Hv.
  apply wp_bind, wp_syscall. intros r h2 Hr. eapply wp_conseq; [apply (IH k); [lia|]|].
  - cbn [w_hw set_hw] in *. rewrite Hr in Hv. exact Hv.
  - cbn beta. intros _ w' [Hm (h & Hp & Hrest)]. split; [done|]. exists h. split; [|exact Hrest].
    eapply rtc_l; [exact Hs1|]. eapply rtc_l; [|exact Hp].
    cbn [w_hw set_hw] in *. replace h2 with (sys (Sys_usleep 10000) h1).2 by (by rewrite Hr). by apply sys_host.
Qed.
Lemma wait_clear_spec fuel dev reg mask k w : (k < fuel)%nat ->
  Z.land (poll_value (addr dev + reg) 10000 k (w_hw w)) mask = 0 ->
  wp (wait_clear_reg32 fuel dev reg mask) (fun _ w' => w_mem w' = w_mem w /\ rtc host_step (w_hw w) (w_hw w')) never w.
Proof.
  revert k w. induction fuel as [|fuel IH]; intros k w Hk Hv; [lia|]. cbn [wait_clear_reg32].
  apply wp_bind. eapply ok_wp; [apply get_reg32_eq|]. set (h1 := (mmio_read _ _).2).
  pose proof (read_host (addr dev + reg) (w_hw w)) as Hs1. fold h1 in Hs1.
  destruct (Z.eqb_spec (Z.land (u32 (mmio_read (addr dev + reg) (w_hw w)).1) mask) 0) as [Hd|Hd].
  { apply wp_ret. split; [done|]. by apply rtc_once. }
  destruct k as [|k]; [done|]. rewrite poll_value_S in Hv. fold h1 in Hv.
  apply wp_bind, wp_syscall. intros r h2 Hr. eapply wp_conseq; [apply (IH k); [lia|]|].
  - cbn [w_hw set_hw] in *. rewrite Hr in Hv. exact Hv.
  - cbn beta. intros _ w' [Hm Hp]. split; [done|]. eapply rtc_l; [exact Hs1|]. eapply rtc_l; [|exact Hp].
    cbn [w_hw set_hw] in *. replace h2 with (sys (Sys_usleep 10000) h1).2 by (by rewrite Hr). by apply sys_host.
Qed.

(** ** A packet buffer pool *)
Lemma booted_agree F w w' : w' = set_mem (w_mem w') w -> agree_off F (w_mem w) (w_mem w') -> booted F 0 w w'.
Proof.
  intros -> [Hr Hag]. cbn [w_mem set_mem] in *. split; cbn [w_mem w_hw set_mem]; [by exists []| |done|lia].
  intros b n a _ _ HF _. symmetry. by apply Hag.
Qed.

Record pool_held w P : Prop := {
  ph_ok : pool_ok (w_mem w) P;
  ph_struct : block w (p_addr P) (sizeof_mempool + 4 * p_num P);
  ph_bufs : block w (p_base P) (p_num P * p_bufsz P)
}.
Lemma pool_held_own w P a : pool_held w P -> pool_mem P a -> ~ nic_owns (w_hw w) a.
Proof. intros [_ Hs Hb] [Ha|Ha]; [by apply Hs|by apply Hb]. Qed.
Lemma pool_fp_mem P a : pool_shape P -> pool_fp P a -> pool_mem P a.
Proof. apply pool_fp_bound. Qed.
Lemma pool_mem_kept F d w w' P a : booted F d w w' -> pool_held w P -> pool_mem P a -> ~ F a ->
  rd (w_mem w') a = rd (w_mem w) a.
Proof. intros B [_ Hs Hb] [Ha|Ha] HF; [by apply (block_kept F d w w' _ _ a B Hs)|by apply (block_kept F d w w' _ _ a B Hb)]. Qed.

(** a pool stays one when memory grows *)
Lemma pool_ok_grow m m' l P : bytes m' = bytes m -> regions m' = l ++ regions m -> pool_ok m P -> pool_ok m' P.
Proof.
  intros Hb Hr [Hs M1 M2 Hst Hh]. assert (m' = Mem (bytes m) (regions m')) as -> by (destruct m'; cbn in *; congruence).
  assert (forall a n, mapped m a n = true -> mapped (Mem (bytes m) (regions m')) a n = true) as Hm.
  { intros a n Hm. unfold mapped in *. cbn [regions]. rewrite Hr, existsb_app, Hm. apply orb_true_r. }
  split; [done|by apply Hm|by apply Hm|by destruct Hst|]. intros j Hj. by destruct (Hh j Hj).
Qed.
Lemma pool_held_booted F d w w' P : booted F d w w' -> (forall a, F a -> ~ pool_mem P a) -> pool_held w P -> pool_held w' P.
Proof.
  intros B HF Hp. pose proof Hp as [Hok Hs Hb]. split; [|by eapply block_booted|by eapply block_booted].
  destruct (bo_grow _ _ _ _ B) as (l & Hl).
  apply (pool_ok_grow (Mem (bytes (w_mem w')) (regions (w_mem w))) _ l); [done|done|].
  apply (pool_ok_frame P (w_mem w)); [|done|exact Hok]. intros a Ha. symmetry.
  apply (pool_fp_mem P a (pk_shape _ _ Hok)) in Ha. apply (pool_mem_kept F d w w' P a B Hp Ha).
  intros Hx. by apply (HF a).
Qed.
(** the pool is changed only in its own memory *)
Lemma pool_held_agree P l w w' : pool_held w P -> w' = set_mem (w_mem w') w ->
  agree_off (pool_mem P) (w_mem w) (w_mem w') -> pool_ok (w_mem w') (set_free l P) -> pool_held w' (set_free l P).
Proof.
  intros [_ Hs Hb] Hw Hag Hok. pose proof (booted_agree _ _ _ Hw Hag) as B.
  split; [exact Hok|by eapply block_booted|by eapply block_booted].
Qed.

(** the pool's memory is none that was in use *)
Definition pool_apart h P : Prop := forall b n, reserved h b n ->
  disj (p_addr P) (sizeof_mempool + 4 * p_num P) b n /\ disj (p_base P) (p_num P * p_bufsz P) b n.
Lemma pool_apart_mem h P b n a : pool_apart h P -> reserved h b n -> pool_mem P a -> ~ range b n a.
Proof. intros Hp [D1 D2]%Hp [Ha|Ha] Hr; unfold range, disj in *; lia. Qed.

(** the pool's structure is the block malloc gave, its buffers the region that
    memory_allocate_dma gave; every entry is free and has length 0 *)
Definition pool_allocated num bufsz w (r : Z) (mem : dma_memory) w' : Prop :=
  exists w1 w2, malloc_ (sizeof_mempool + num * 4) w = Ok r w1 /\ dma_allocated (num * bufsz) w1 mem w2 /\
    regions (w_mem w') = regions (w_mem w2) /\ w_hw w' = w_hw w2 /\ huge_pg_id w' = huge_pg_id w2 /\
    pool_ok (w_mem w') (fresh_pool r mem num bufsz) /\
    (forall i, 0 <= i < num -> ld 4 (w_mem w') (entry (fresh_pool r mem num bufsz) i + pb_size) = 0).

Lemma mempool_spec num entry_size w : let bufsz := buf_size_of entry_size in
  0 < num -> pb_data <= bufsz < 2 ^ 32 -> num * bufsz < 2 ^ 32 -> card_known w ->
  sizeof_mempool + num * 4 <= heap_room (w_hw w) ->
  wp (memory_allocate_mempool num entry_size) (fun r w' => exists mem, let P := fresh_pool r mem num bufsz in
      pool_held w' P /\ booted nothing (sizeof_mempool + num * 4) w w' /\ rtc proc_step (w_hw w) (w_hw w') /\
      pool_apart (w_hw w) P /\ pool_allocated num bufsz w r mem w')
    (fun f _ => alloc_failure f) w.
Proof.
  intros bufsz Hn Hb Ht Hc Hroom. unfold memory_allocate_mempool. cbn zeta.
  change (if entry_size =? 0 then 2048 else entry_size) with bufsz. clearbody bufsz.
  assert (0 < num * bufsz < 2 ^ 32) as Hpos by (unlayout; nia).
  destruct (wp_ok _ _ _ (malloc_fresh (sizeof_mempool + num * 4) w ltac:(unlayout; lia) Hc)) as (mp & w1 & Em & B1 & [N1 D1] & Hmp0 & Hmp1 & Hh1).
  apply wp_bind. eapply ok_wp; [exact Em|]. apply wp_bind. rewrite u32_small by lia.
  assert (0 < num * bufsz <= 2 ^ 64 - 2 ^ 21) as Hsize by ulia. destruct (round_2mb_bounds _ Hsize) as [_ Hr].
  eapply wp_conseq; [apply memory_allocate_dma_fresh; [done|by eapply card_known_booted]|]. cbn beta.
  intros mem w2 [B2 [N2 D2] Hal Hpath _]. destruct (dma_allocated_bounds _ _ _ _ Hal) as (Hv0 & Hv1 & Hphy).
  set (P := fresh_pool mp mem num bufsz). pose proof (D2 _ _ (bl_reserved _ _ _ N1)) as Dpb.
  assert (pool_shape P) as Hps.
  { change (2 ^ 47) with 140737488355328 in *. change (2 ^ 53) with 9007199254740992 in *.
    split; cbn; unlayout; try ulia; [unfold disj in *; ulia|apply NoDup_seqZ|].
    apply Forall_forall. intros i Hi%elem_of_seqZ. lia. }
  assert (block w2 (p_addr P) (sizeof_mempool + 4 * p_num P)) as Hbs.
  { cbn. rewrite (Z.mul_comm 4). by eapply block_booted. }
  assert (block w2 (p_base P) (p_num P * p_bufsz P)) as Hbb by (eapply block_sub; [exact N2|cbn; lia|cbn; lia]).
  apply wp_bind. eapply wp_mono; [apply (init_mempool_spec P mem num bufsz mp w2 eq_refl Hps)| |intros ? ? []].
  { apply Hbs. }
  { apply Hbb. }
  cbn beta. intros _ w3 [Hok Hinv]. apply wp_ret. exists mem. cbn zeta. fold P.
  pose proof (ii_rest _ _ _ _ Hinv) as Hrest.
  pose proof (booted_agree _ _ _ Hrest (ii_agree _ _ _ _ Hinv)) as B3.
  assert (pool_apart (w_hw w) P) as Hnew.
  { intros b n Hx. pose proof (D1 b n Hx) as Dx. apply (booted_reserved _ _ _ _ _ _ B1), D2 in Hx. cbn.
    split; [unfold disj in *; lia|]. unfold disj in *; lia. }
  split; [|split; [|split; [|split; [exact Hnew|]]]].
  - split; [exact Hok|by eapply block_booted|by eapply block_booted].
  - replace (sizeof_mempool + num * 4) with (sizeof_mempool + num * 4 + 0 + 0) by lia.
    eapply booted_fresh; [eapply booted_trans; [exact B1|exact B2]|exact B3|].
    intros a b n Ha Hr' Hx. by apply (pool_apart_mem _ P b n a Hnew Hx Ha).
  - rewrite Hrest. cbn [w_hw set_mem]. eapply (rtc_l _ _ (w_hw w1)); [right; eexists; exact Hh1|by apply hosts_proc].
  - exists w1, w2. split; [exact Em|]. split; [exact Hal|]. rewrite Hrest. cbn [w_hw w_mem huge_pg_id set_mem].
    split; [symmetry; apply (ii_agree _ _ _ _ Hinv)|]. split; [done|]. split; [done|]. split; [exact Hok|].
    intros i Hi. by apply (ii_hdr _ _ _ _ Hinv i).
Qed.
End start.
