(* ===== verification/TxStart.v ===== *)
(** * Starting a transmit queue

    init_tx_queue and start_tx_queue of ixgbe.c establish the invariant that
    the transmit path keeps (TxRing.v): afterwards the queue structure, its
    descriptor ring and the card are an empty ring.  [TxStart] is what the
    driver relies on of a transmit queue of the card: the registers of the
    queue, and that a queue without work neither moves nor is given memory
    (82599 datasheet 4.6.8 and 8.2.3.9). *)
From S2P Require Import Prelude Mem Platform Memory Registers Device Ixgbe Ring TxRing MemoryProps DeviceProps IxgbeProps.
From S2P Require Import TxEngine PktGen Startup.

(** ** The registers of a transmit queue *)
Record txregs := TxRegs {
  tr_head : Z;
  tr_tail : Z;
  tr_lo : Z;     (* the ring's physical address, low and high half *)
  tr_hi : Z;
  tr_len : Z;    (* the ring's size in bytes *)
  tr_on : bool   (* the software has asked for the queue to be enabled *)
}.
Inductive txreg := Tdbal | Tdbah | Tdlen | Tdh | Tdt | Txdctl.
Definition txreg_at (x : txreg) (i : Z) : Z :=
  match x with
  | Tdbal => IXGBE_TDBAL i | Tdbah => IXGBE_TDBAH i | Tdlen => IXGBE_TDLEN i
  | Tdh => IXGBE_TDH i | Tdt => IXGBE_TDT i | Txdctl => IXGBE_TXDCTL i
  end.
Definition txreg_write (x : txreg) (v : Z) (r : txregs) : txregs :=
  let '(TxRegs hd tl lo hi len on) := r in
  match x with
  | Tdbal => TxRegs hd tl v hi len on
  | Tdbah => TxRegs hd tl lo v len on
  | Tdlen => TxRegs hd tl lo hi v on
  | Tdh => TxRegs v tl lo hi len on
  | Tdt => TxRegs hd v lo hi len on
  | Txdctl => TxRegs hd tl lo hi len (Z.testbit v 25)
  end.
Definition tr_base (r : txregs) : Z := tr_lo r + 2 ^ 32 * tr_hi r.
(** the registers of the whole transmit unit that init_tx sets *)
Definition tx_setup : list Z :=
  [IXGBE_HLREG0; IXGBE_DTXMXSZRQ; IXGBE_RTTDCS; IXGBE_DMATXCTL] ++ (IXGBE_TXPBSIZE <$> seqZ 0 8).

(** [bar] is where the card's registers are. *)
Class TxStart (H : Type) `{StartLaws H} (bar : Z) := {
  tx_regs : H -> Z -> txregs;
  (* DMATXCTL.TE: the transmit unit is enabled *)
  tx_dma_on : H -> bool;
  (* reads of TXDCTL until the queue says that it is enabled *)
  enable_latency : nat;
  (* an empty queue does not move *)
  regs_step : forall h h' i, proc_step h h' ->
    tr_head (tx_regs h i) = tr_tail (tx_regs h i) -> tx_regs h' i = tx_regs h i;
  regs_write : forall h i x v, 0 <= i < 128 -> 0 <= v < 2 ^ 32 ->
    tx_regs (mmio_write (bar + txreg_at x i) v h) i = txreg_write x v (tx_regs h i);
  (* such a write hands over descriptors only of a queue that is enabled and not empty *)
  regs_grants : forall h i x v a, 0 <= i < 128 -> grants h (bar + txreg_at x i) v a ->
    let r := txreg_write x v (tx_regs h i) in tr_on r = true /\ tr_head r <> tr_tail r;
  setup_write : forall h i r v, 0 <= i < 128 -> r ∈ tx_setup -> tx_regs (mmio_write (bar + r) v h) i = tx_regs h i;
  setup_grants : forall h r v a, r ∈ tx_setup -> ~ grants h (bar + r) v a;
  dma_on_step : forall h h', proc_step h h' -> tx_dma_on h' = tx_dma_on h;
  dma_on_write : forall h i x v, 0 <= i < 128 -> tx_dma_on (mmio_write (bar + txreg_at x i) v h) = tx_dma_on h;
  dma_on_setup : forall h r v, r ∈ tx_setup -> r <> IXGBE_DMATXCTL -> tx_dma_on (mmio_write (bar + r) v h) = tx_dma_on h;
  dma_on_set : forall h v, tx_dma_on (mmio_write (bar + IXGBE_DMATXCTL) v h) = Z.testbit v 0;
  (* the base and length registers tell the card where the descriptors are *)
  ring_known : forall h i v k, dma_page h v (tr_base (tx_regs h i)) -> 0 <= k ->
    sizeof_adv_tx_desc * (k + 1) <= tr_len (tx_regs h i) <= 2 ^ 21 -> desc_at h (ring_desc v k) txd_status;
  (* the queue has reported that it is enabled *)
  tx_ready : H -> Z -> Prop;
  ready_read : forall h i, 0 <= i < 128 -> Z.land (u32 (mmio_read (bar + IXGBE_TXDCTL i) h).1) IXGBE_TXDCTL_ENABLE = IXGBE_TXDCTL_ENABLE ->
    tx_ready (mmio_read (bar + IXGBE_TXDCTL i) h).2 i;
  ready_step : forall h h' i, proc_step h h' -> tx_ready h i -> tx_ready h' i;
  ready_setup : forall h i r v, 0 <= i < 128 -> r ∈ tx_setup -> tx_ready h i -> tx_ready (mmio_write (bar + r) v h) i;
  txdctl_off : forall h i, 0 <= i < 128 -> tr_on (tx_regs h i) = false ->
    Z.testbit (mmio_read (bar + IXGBE_TXDCTL i) h).1 25 = false;
  enables : forall h i v, 0 <= i < 128 -> Z.land v IXGBE_TXDCTL_ENABLE = IXGBE_TXDCTL_ENABLE ->
    exists k, (k <= enable_latency)%nat /\
      Z.land (poll_value (bar + IXGBE_TXDCTL i) 10000 k (mmio_write (bar + IXGBE_TXDCTL i) v h))
        IXGBE_TXDCTL_ENABLE = IXGBE_TXDCTL_ENABLE
}.
#[global] Arguments enable_latency {H _ _ _ _ _} bar {_}.

Lemma u32_lor_flags v f : 0 <= f < 2 ^ 32 -> Z.land (u32 (Z.lor v f)) f = f.
Proof.
  intros Hf. apply Z.bits_inj'. intros n Hn. rewrite Z.land_spec. unfold u32. destruct (decide (n < 32)).
  - rewrite Z.mod_pow2_bits_low, Z.lor_spec by lia. by destruct (Z.testbit v n), (Z.testbit f n).
  - rewrite <- (Z.mod_small f (2 ^ 32)) by done. rewrite !Z.mod_pow2_bits_high by lia. done.
Qed.

Lemma testbit_u32 v n : 0 <= n < 32 -> Z.testbit (u32 v) n = Z.testbit v n.
Proof. intros Hn. apply Z.mod_pow2_bits_low. lia. Qed.
(** the thresholds init_tx_queue sets leave the enable bit as it is *)
Lemma txdctl_setup_off v : Z.testbit v 25 = false ->
  Z.testbit (u32 (Z.lor (Z.lor (Z.lor (u32 v) (Z.land 36 0x7F)) (Z.shiftl (Z.land 8 0x7F) 8))
    (Z.shiftl (Z.land 4 0x7F) 16))) 25 = false.
Proof. intros Hv. by rewrite testbit_u32, !Z.lor_spec, testbit_u32, Hv. Qed.

(** the transmit path's invariant when the card only loses memory *)
Lemma tx_ok_follows {H} `{StartLaws H} (w w' : world H) P q :
  w_mem w' = w_mem w -> follows (w_hw w) (w_hw w') -> tx_ok w P q -> tx_ok w' P q.
Proof.
  intros Hm Hf [Hti Hcl].
  assert (w' = set_hw (w_hw w') (World (w_mem w) (w_hw w) (huge_pg_id w'))) as -> by (destruct w'; cbn in *; by rewrite Hm).
  split; [|exact Hcl]. apply tx_inv_hw; [|apply Hf|apply Hf]. by destruct Hti.
Qed.

Section queue.
Context {H : Type} `{TxStart H bar}.
Implicit Types (w : world H) (h : H) (P : pool).

(** the ring's size in bytes *)
Definition tx_ring_bytes : Z := NUM_TX_QUEUE_ENTRIES * sizeof_adv_tx_desc.

(** a disabled queue without work *)
Definition tx_idle h i : Prop := exists t lo hi len, tx_regs h i = TxRegs t t lo hi len false.

(** from [h] a state was reached in which queue [i] has the registers [r] *)
Record reaches i h (r : txregs) h' : Prop := {
  rc_follows : follows h h';
  rc_room : heap_room h' = heap_room h;
  rc_dma : tx_dma_on h' = tx_dma_on h;
  rc_regs : tx_regs h' i = r
}.
Lemma reaches_refl i h : reaches i h (tx_regs h i) h.
Proof. done. Qed.
Lemma reaches_trans i h1 h2 h3 r2 r3 : reaches i h1 r2 h2 -> reaches i h2 r3 h3 -> reaches i h1 r3 h3.
Proof. intros [F1 H1' D1 _] [F2 H2' D2 R2]. split; [by etransitivity|by rewrite H2'|by rewrite D2|done]. Qed.
Lemma booted_reaches F i r w w' : reaches i (w_hw w) r (w_hw w') -> regions (w_mem w') = regions (w_mem w) ->
  (forall a, ~ F a -> rd (w_mem w') a = rd (w_mem w) a) -> booted F 0 w w'.
Proof.
  intros [Hf Hr _ _] Hreg Hk. split; [by exists []| |exact Hf|rewrite Hr; lia]. intros b n a _ _ HF _. by apply Hk.
Qed.
Lemma reaches_hosts i h r h1 h2 : tr_head r = tr_tail r -> reaches i h r h1 -> rtc host_step h1 h2 -> reaches i h r h2.
Proof.
  intros Hq R Hs. eapply reaches_trans; [exact R|]. destruct R as [_ _ _ <-].
  induction Hs as [|h1 h2 h3 Hs _ IH]; [done|].
  assert (proc_step h1 h2) as Hp by (by left).
  assert (tx_regs h2 i = tx_regs h1 i) as E by (by apply regs_step). rewrite E in IH.
  eapply reaches_trans; [|by apply IH]. split; [by apply proc_follows|by apply room_step|by apply dma_on_step|exact E].
Qed.
Lemma reaches_read i h r h1 a : tr_head r = tr_tail r -> reaches i h r h1 -> reaches i h r (mmio_read a h1).2.
Proof. intros Hq R. eapply reaches_hosts; [done|exact R|]. apply rtc_once. left. right. by eexists. Qed.
Lemma reaches_write i h r h1 x v : 0 <= i < 128 -> reaches i h r h1 -> 0 <= v < 2 ^ 32 ->
  (tr_on (txreg_write x v r) = true -> tr_head (txreg_write x v r) = tr_tail (txreg_write x v r)) ->
  reaches i h (txreg_write x v r) (mmio_write (bar + txreg_at x i) v h1).
Proof.
  intros Hi R Hv Hq. eapply reaches_trans; [exact R|]. destruct R as [_ _ _ <-]. split.
  - apply write_follows. intros a Ha. apply regs_grants in Ha as [Hon Hne]; [|exact Hi]. by apply Hne, Hq.
  - apply room_write.
  - by apply dma_on_write.
  - by apply regs_write.
Qed.

Context (dev : ixy_device) (i : Z) (poll_fuel : nat).
Hypotheses (Hbar : addr dev = bar) (Hi : 0 <= i < 128).
Local Abbreviation queue := (tx_queue dev i).

(** what init_tx_queue writes besides the new ring *)
Definition tx_fields (a : Z) : Prop :=
  range (queue + txq_num_entries) 2 a \/ range (queue + txq_descriptors) 8 a.

(** the queue's registers describe the ring at [virt], and head and tail are [t] *)
Definition ring_programmed h (virt t : Z) (on : bool) : Prop := exists p, dma_page h virt p /\ 0 <= p < 2 ^ 64 /\
  tx_regs h i = TxRegs t t (p mod 2 ^ 32) (p / 2 ^ 32) tx_ring_bytes on.

Lemma programmed_desc h virt t on k : ring_programmed h virt t on -> 0 <= k < NUM_TX_QUEUE_ENTRIES ->
  desc_at h (ring_desc virt k) txd_status.
Proof.
  intros (p & Hp & Hb & E) Hk. apply (ring_known h i); [|lia|].
  - rewrite E. unfold tr_base. cbn [tr_lo tr_hi]. by rewrite Z.add_comm, <- Z.div_mod.
  - rewrite E. cbn [tr_len]. unfold tx_ring_bytes, NUM_TX_QUEUE_ENTRIES, sizeof_adv_tx_desc in *. lia.
Qed.

(** Queue [i] has the ring at [virt], mapped since the state [w]; besides the
    queue's two fields only bytes in [G] were written since. *)
Record tx_ring_set G w (virt : Z) w' : Prop := {
  rs_boot : exists d, booted (fun a => tx_fields a \/ G a) d w w';
  rs_block : block w' virt (2 ^ 21);
  rs_new : forall a n, reserved (w_hw w) a n -> disj virt (2 ^ 21) a n;
  rs_area : 0 < virt /\ virt + 2 ^ 21 < 2 ^ 47;
  rs_programmed : exists t, ring_programmed (w_hw w') virt t false;
  rs_num : ld 2 (w_mem w') (queue + txq_num_entries) = NUM_TX_QUEUE_ENTRIES;
  rs_descs : ld 8 (w_mem w') (queue + txq_descriptors) = virt
}.

(** the three writes that give the card the ring *)
Lemma reaches_base h p t lo hi len : tx_regs h i = TxRegs t t lo hi len false -> 0 <= p < 2 ^ 64 ->
  reaches i h (TxRegs t t (p mod 2 ^ 32) (p / 2 ^ 32) tx_ring_bytes false)
    (mmio_write (bar + IXGBE_TDLEN i) tx_ring_bytes (mmio_write (bar + IXGBE_TDBAH i) (u32 (p / 2 ^ 32))
      (mmio_write (bar + IXGBE_TDBAL i) (u32 (p mod 2 ^ 32)) h))).
Proof.
  intros E Hp. pose proof (Z.mod_pos_bound p (2 ^ 32) eq_refl) as Hlo. pose proof (Z.div_pos p (2 ^ 32) ltac:(lia) eq_refl) as Hhi.
  assert (p / 2 ^ 32 < 2 ^ 32) as Hhi2 by (apply Z.div_lt_upper_bound; ulia). rewrite !u32_small by lia.
  apply (reaches_write i _ (TxRegs t t (p mod 2 ^ 32) (p / 2 ^ 32) len false) _ Tdlen); [done| |done|done].
  apply (reaches_write i _ (TxRegs t t (p mod 2 ^ 32) hi len false) _ Tdbah); [done| |lia|done].
  apply (reaches_write i _ (TxRegs t t lo hi len false) _ Tdbal); [done| |done|done].
  rewrite <- E. apply reaches_refl.
Qed.
(** setting flags of TXDCTL, as bit 25 of the value written says *)
Lemma reaches_txdctl h0 h r v : reaches i h0 r h -> tr_head r = tr_tail r -> 0 <= v < 2 ^ 32 ->
  reaches i h0 (txreg_write Txdctl v r) (mmio_write (bar + IXGBE_TXDCTL i) v (mmio_read (bar + IXGBE_TXDCTL i) h).2).
Proof.
  intros R Hq Hv. apply (reaches_write i _ r _ Txdctl); [done|by apply reaches_read|done|]. by destruct r.
Qed.

(** the memory init_tx_queue leaves: the ring filled with ones, the queue's two fields *)
Definition ring_memory (virt : Z) (m : mem) : mem :=
  st 8 (queue + txq_descriptors) virt (st 2 (queue + txq_num_entries) NUM_TX_QUEUE_ENTRIES
    (fill (Z.to_nat tx_ring_bytes) virt (-1) m)).

(** with the ring at new memory and its address in the registers, the queue has a ring *)
Lemma ring_set_stored w w1 w' virt p t : block w queue sizeof_tx_queue ->
  booted nothing 0 w w1 -> new_block w virt (2 ^ 21) w1 -> 0 < virt /\ virt + 2 ^ 21 < 2 ^ 47 ->
  dma_page (w_hw w1) virt p -> 0 <= p < 2 ^ 64 -> w_mem w' = ring_memory virt (w_mem w1) ->
  reaches i (w_hw w1) (TxRegs t t (p mod 2 ^ 32) (p / 2 ^ 32) tx_ring_bytes false) (w_hw w') ->
  tx_ring_set nothing w virt w' /\ booted tx_fields 0 w w'.
Proof.
  intros Hq B1 [Hnb Hfresh] [Hv0 Hv1] Hpage Hp Hmem R. pose proof (Hfresh _ _ (bl_reserved _ _ _ Hq)) as Hlow.
  assert (booted (fun a => tx_fields a \/ range virt (2 ^ 21) a) 0 w1 w') as B'.
  { eapply booted_reaches; [exact R|rewrite Hmem; unfold ring_memory; by rewrite !regions_st, regions_fill|].
    intros a Ha. rewrite Hmem. unfold ring_memory, tx_fields, range in *. rewrite !rd_st_out by (unq; lia).
    rewrite rd_fill, decide_False; [done|]. unfold tx_ring_bytes, NUM_TX_QUEUE_ENTRIES, sizeof_adv_tx_desc. lia. }
  assert (booted tx_fields 0 w w') as B.
  { change 0 with (0 + 0). eapply booted_fresh; [eapply booted_mono; [|reflexivity|exact B1]; done|exact B'|].
    intros a b n [Ha|Ha] Hr Hx; [done|]. specialize (Hfresh b n Hx). unfold range, disj in *. lia. }
  split; [|exact B]. split.
  - exists 0. eapply booted_mono; [|reflexivity|exact B]. tauto.
  - exact (block_booted _ _ _ _ _ _ B' Hnb).
  - done.
  - done.
  - exists t, p. split; [|split; [exact Hp|apply R]]. by apply (fw_page _ _ (rc_follows _ _ _ _ R)).
  - rewrite Hmem. unfold ring_memory. rewrite ld_st_out by (unq; lia). by rewrite ld_st_eq.
  - rewrite Hmem. unfold ring_memory. rewrite ld_st_eq. apply Z.mod_small. change (8 * Z.of_nat 8) with 64. ulia.
Qed.

Lemma init_tx_queue_spec w : tx_idle (w_hw w) i -> card_known w -> block w queue sizeof_tx_queue ->
  wp (init_tx_queue dev i) (fun _ w' => exists virt, tx_ring_set nothing w virt w' /\
      booted (fun a => tx_fields a) 0 w w' /\ tx_dma_on (w_hw w') = tx_dma_on (w_hw w) /\
      regions (w_mem w') = (virt, 2 ^ 21) :: regions (w_mem w)) (fun f _ => alloc_failure f) w.
Proof.
  intros Hidle Hcard Hblk. unfold init_tx_queue. cbn zeta.
  change (u32 (NUM_TX_QUEUE_ENTRIES * sizeof_adv_tx_desc)) with tx_ring_bytes.
  apply wp_bind. eapply wp_conseq; [by apply memory_allocate_dma_fresh|]. cbn beta.
  intros mem w1 [B1 [Hnb Hfresh] Hal Hpath Hpage]. destruct (dma_allocated_bounds _ _ _ _ Hal) as (Hv0 & Hv1 & Hphy53).
  assert (0 <= phy mem < 2 ^ 64) as Hphy by ulia.
  change (round_2mb tx_ring_bytes) with (2 ^ 21) in *.
  destruct (phy_halves (phy mem) Hphy) as [-> ->].
  assert (forall m, regions m = regions (w_mem w1) -> mapped m (virt mem) tx_ring_bytes = true) as Mr.
  { intros m Hrm. rewrite (mapped_regions _ _ _ _ Hrm). eapply mapped_sub; [apply Hnb|lia|unfold tx_ring_bytes, NUM_TX_QUEUE_ENTRIES, sizeof_adv_tx_desc; lia]. }
  assert (forall m o n, regions m = regions (w_mem w1) -> 0 <= o -> o + n <= sizeof_tx_queue ->
    mapped m (queue + o) n = true) as Mq.
  { intros m o n Hrm ??. rewrite (mapped_regions _ _ _ _ Hrm). eapply booted_mapped; [exact B1|].
    eapply mapped_sub; [apply Hblk|lia|lia]. }
  apply wp_bind. unfold wp at 1, memset.
  rewrite (Mr _ eq_refl : mapped _ _ (Z.of_nat (Z.to_nat tx_ring_bytes)) = true).
  do 3 apply wp_bind, wp_mmio_set. cbn [w_hw set_hw set_mem w_mem].
  set (h3 := mmio_write _ _ _).
  apply wp_bind. eapply ok_wp; [apply get_reg32_eq|]. cbn [w_hw set_hw set_mem w_mem]. set (h4 := (mmio_read _ _).2).
  apply wp_bind, wp_mmio_set. cbn [w_hw set_hw set_mem w_mem]. set (h5 := mmio_write _ _ h4).
  apply wp_bind, wp_store.
  { cbn [w_mem set_mem set_hw]. apply Mq; [apply regions_fill|unq; lia|unq; lia]. }
  apply wp_store.
  { cbn [w_mem set_mem set_hw]. apply Mq; [by rewrite regions_st, regions_fill|unq; lia|unq; lia]. }
  destruct Hidle as (t & lo & hi & len & E0).
  set (r3 := TxRegs t t (phy mem mod 2 ^ 32) (phy mem / 2 ^ 32) tx_ring_bytes false).
  assert (reaches i (w_hw w) (TxRegs t t lo hi len false) (w_hw w1)) as R1.
  { eapply reaches_hosts, Hpath; [done|]. rewrite <- E0. apply reaches_refl. }
  assert (reaches i (w_hw w1) r3 h3) as R3.
  { unfold h3. rewrite Hbar. apply (reaches_base _ _ t lo hi len); [apply R1|exact Hphy]. }
  assert (reaches i (w_hw w1) r3 h5) as R5.
  { assert (Z.testbit (mmio_read (bar + IXGBE_TXDCTL i) h3).1 25 = false) as Hoff%txdctl_setup_off.
    { apply txdctl_off; [exact Hi|]. by rewrite (rc_regs _ _ _ _ R3). }
    unfold h5, h4. rewrite Hbar. match goal with |- reaches _ _ _ (mmio_write _ ?v _) =>
      pose proof (reaches_txdctl _ h3 r3 v R3 eq_refl (u32_range _)) as R5 end.
    cbn [txreg_write r3] in R5. rewrite Hoff in R5. exact R5. }
  match goal with |- exists _, tx_ring_set _ _ _ ?x /\ _ => set (w' := x) end.
  destruct (ring_set_stored w w1 w' (virt mem) (phy mem) t) as [Hset B]; try done.
  exists (virt mem). split; [exact Hset|]. split; [exact B|].
  change (w_hw w') with h5. split; [by rewrite (rc_dma _ _ _ _ R5), (rc_dma _ _ _ _ R1)|].
  change (w_mem w') with (ring_memory (virt mem) (w_mem w1)). unfold ring_memory. rewrite !regions_st, regions_fill. apply Hal.
Qed.

(** the queue is enabled with an empty ring, and has said so *)
Record queue_started (h0 h : H) (virt : Z) : Prop := {
  qs_follows : follows h0 h;
  qs_dma : tx_dma_on h = tx_dma_on h0;
  qs_ring : ring_programmed h virt 0 true;
  qs_ready : tx_ready h i
}.

Lemma start_tx_queue_spec virt t w : ring_programmed (w_hw w) virt t false ->
  mapped (w_mem w) (queue + txq_num_entries) 2 = true ->
  ld 2 (w_mem w) (queue + txq_num_entries) = NUM_TX_QUEUE_ENTRIES -> (enable_latency bar < poll_fuel)%nat ->
  wp (start_tx_queue poll_fuel dev i) (fun _ w' => w_mem w' = w_mem w /\ queue_started (w_hw w) (w_hw w') virt) never w.
Proof.
  intros (p & Hp & Hpb & E0) Hm Hn Hfuel. unfold start_tx_queue. cbn zeta. apply wp_bind, wp_load; [exact Hm|]. rewrite Hn.
  change (negb (Z.land NUM_TX_QUEUE_ENTRIES (NUM_TX_QUEUE_ENTRIES - 1) =? 0)) with false. cbn iota.
  do 2 apply wp_bind, wp_mmio_set. cbn [w_hw set_hw]. rewrite Hbar. change (u32 0) with 0. set (h2 := mmio_write _ _ (mmio_write _ _ _)).
  set (r := fun hd tl on => TxRegs hd tl (p mod 2 ^ 32) (p / 2 ^ 32) tx_ring_bytes on).
  assert (reaches i (w_hw w) (r 0 0 false) h2) as R2.
  { apply (reaches_write i _ (r 0 t false) _ Tdt); [done| |done|done].
    apply (reaches_write i _ (r t t false) _ Tdh); [done| |done|done]. by split. }
  apply wp_bind. unfold set_flags32. apply wp_bind. eapply ok_wp; [apply get_reg32_eq|]. cbn [w_hw set_hw].
  rewrite Hbar. set (v := u32 _). set (h3 := (mmio_read _ _).2).
  apply wp_mmio_set. cbn [w_hw set_hw]. rewrite Hbar. set (v' := u32 _). set (h4 := mmio_write _ _ h3).
  assert (Z.land v' IXGBE_TXDCTL_ENABLE = IXGBE_TXDCTL_ENABLE) as Hv' by (by apply u32_lor_flags).
  assert (reaches i (w_hw w) (r 0 0 true) h4) as R4.
  { pose proof (reaches_txdctl _ h2 _ v' R2 eq_refl (u32_range _)) as R4. cbn [txreg_write r] in R4.
    apply (f_equal (fun x => Z.testbit x 25)) in Hv'. rewrite Z.land_spec, andb_true_r in Hv'.
    change (Z.testbit IXGBE_TXDCTL_ENABLE 25) with true in Hv'. rewrite Hv' in R4. exact R4. }
  destruct (enables h3 i v' Hi Hv') as (k & Hk & Hpoll).
  eapply wp_conseq; [apply (wait_set_spec _ _ _ _ k); [lia|]|].
  { cbn [w_hw set_hw]. by rewrite Hbar. }
  cbn beta. cbn [w_hw w_mem set_hw]. intros _ w' [Hmem (h & Hpath & Hshow & Hlast)]. split; [done|]. rewrite Hbar in *.
  pose proof (reaches_hosts i _ (r 0 0 true) _ _ eq_refl R4 Hpath) as Rh.
  pose proof (reaches_read i _ (r 0 0 true) _ (bar + IXGBE_TXDCTL i) eq_refl Rh) as R'. rewrite <- Hlast in R'. split.
  - apply R'.
  - apply R'.
  - exists p. split; [by apply (fw_page _ _ (rc_follows _ _ _ _ R'))|split; [done|apply R']].
  - rewrite Hlast. by apply ready_read.
Qed.

(** ** An empty ring *)
Definition empty_ring (virt : Z) : txq := Txq queue virt NUM_TX_QUEUE_ENTRIES 0 [].

(** what a queue and a pool must be before the queue is started *)
Local Abbreviation qsize := (sizeof_tx_queue + 8 * NUM_TX_QUEUE_ENTRIES).
Record tx_blank w P : Prop := {
  tb_pool : pool_held w P;
  tb_queue : block w queue qsize;
  tb_zero : forall a, range queue qsize a -> rd (w_mem w) a = 0;
  tb_apart : disj queue qsize (p_addr P) (sizeof_mempool + 4 * p_num P);
  tb_apart_bufs : disj queue qsize (p_base P) (p_num P * p_bufsz P);
  tb_idle : tx_idle (w_hw w) i;
  tb_card : card_known w
}.
Ltac qnum := unfold tx_fields, range, disj, NUM_TX_QUEUE_ENTRIES in *; unq.

Lemma tx_queue_off_pool w P a : tx_blank w P -> range queue qsize a -> ~ pool_mem P a.
Proof.
  intros Hb Ha. pose proof (tb_apart _ _ Hb). pose proof (tb_apart_bufs _ _ Hb).
  unfold pool_mem, range, disj in *. lia.
Qed.

Section established.
Context (G : Z -> Prop) (w w' : world H) (P : pool) (virt : Z) (Hblank : tx_blank w P) (Hset : tx_ring_set G w virt w').
Hypothesis HG : forall a, G a -> ~ range queue qsize a /\ ~ pool_mem P a.

(** the queue's other fields are still 0 *)
Lemma queue_zero o n : 0 <= o -> o + Z.of_nat n <= qsize ->
  (o + Z.of_nat n <= txq_num_entries \/ txq_num_entries + 2 <= o) ->
  (o + Z.of_nat n <= txq_descriptors \/ txq_descriptors + 8 <= o) -> ld n (w_mem w') (queue + o) = 0.
Proof.
  intros A1 A2 A3 A4. apply ld_zero. intros a Ha. destruct (rs_boot _ _ _ _ Hset) as (d & B).
  assert (range queue qsize a) as Hqa by (unfold range in *; lia).
  rewrite (block_kept _ _ _ _ _ _ a B (tb_queue _ _ Hblank) Hqa); [by apply (tb_zero _ _ Hblank)|].
  intros [Hf|Hg]; [qnum; lia|]. by destruct (HG a Hg).
Qed.

Lemma pool_stays : pool_held w' P.
Proof.
  destruct (rs_boot _ _ _ _ Hset) as (d & B). eapply pool_held_booted; [exact B| |apply (tb_pool _ _ Hblank)].
  intros a [Ha|Ha]; [|by apply (HG a Ha)]. apply (tx_queue_off_pool w P a Hblank). qnum. lia.
Qed.

Lemma empty_desc k : 0 <= k < NUM_TX_QUEUE_ENTRIES -> q_desc (empty_ring virt) k = ring_desc virt k.
Proof. intros Hk. unfold q_desc, q_slot, slot. cbn [q_n q_clean q_descs empty_ring]. by rewrite Z.mod_small. Qed.

Lemma tx_ring_starts : tx_ok w' P (empty_ring virt).
Proof.
  destruct (rs_boot _ _ _ _ Hset) as (d & B). pose proof (rs_area _ _ _ _ Hset) as Hv. pose proof (rs_new _ _ _ _ Hset _ _ (bl_reserved _ _ _ (tb_queue _ _ Hblank))) as Hh.
  pose proof (tb_pool _ _ Hblank) as Hp. pose proof (pk_shape _ _ (ph_ok _ _ Hp)) as Hps.
  pose proof (rs_new _ _ _ _ Hset _ _ (bl_reserved _ _ _ (ph_bufs _ _ Hp))) as Hd.
  pose proof (rs_new _ _ _ _ Hset _ _ (bl_reserved _ _ _ (ph_struct _ _ Hp))) as Hds.
  pose proof (block_booted _ _ _ _ _ _ B (tb_queue _ _ Hblank)) as [_ Hqm Hqo]. pose proof (rs_block _ _ _ _ Hset) as [_ Hrm Hro].
  assert (q_ring (empty_ring virt) = 16384) as Hrg by done. assert (q_size (empty_ring virt) = qsize) as Hsz by done.
  split; [|apply queue_zero; qnum; lia]. split.
  - apply pool_stays.
  - split; [by exists 10|done|done|cbn; ulia|rewrite Hrg, Hsz; cbn [q_addr q_descs empty_ring]; qnum; lia].
  - split; [apply (rs_descs _ _ _ _ Hset)|apply (rs_num _ _ _ _ Hset)| |by intros].
    cbn [q_addr empty_ring]. rewrite queue_zero by (qnum; lia). done.
  - exact Hqm.
  - rewrite Hrg. eapply mapped_sub; [exact Hrm|cbn; lia|cbn; lia].
  - apply Forall_nil_2.
  - apply Hps.
  - split; rewrite ?Hsz, ?Hrg; cbn [q_addr q_descs empty_ring].
    + apply (tb_apart _ _ Hblank).
    + apply (tb_apart_bufs _ _ Hblank).
    + unfold disj in *. lia.
    + unfold disj in *. lia.
  - split.
    + intros a Ha Hx. by apply (pool_held_own w' P a pool_stays (pool_fp_mem P a Hps Hx)).
    + intros a Ha Hx. by apply (Hqo a).
    + intros k a Hk Ha. apply Hro. rewrite empty_desc in Ha by exact Hk. change (0 <= k < 1024) in Hk. unfold ring_desc in Ha. qnum. lia.
  - intros k Hk. rewrite empty_desc by exact Hk. destruct (rs_programmed _ _ _ _ Hset) as (t & Hpr). by eapply programmed_desc.
  - intros k Hk. unfold q_len in Hk. cbn in Hk. lia.
Qed.
End established.

Lemma start_spec w P : tx_blank w P -> (enable_latency bar < poll_fuel)%nat ->
  wp (init_tx_queue dev i ;; start_tx_queue poll_fuel dev i) (fun _ w' => exists virt,
      tx_ok w' P (empty_ring virt) /\ follows (w_hw w) (w_hw w'))
    (fun f _ => alloc_failure f) w.
Proof.
  intros Hb Hfuel. apply wp_bind. eapply wp_conseq; [apply init_tx_queue_spec|].
  - apply Hb.
  - apply Hb.
  - eapply block_sub; [apply (tb_queue _ _ Hb)|lia|unfold NUM_TX_QUEUE_ENTRIES; lia].
  - cbn beta. intros _ w1 (virt & Hset & B & _).
    pose proof (tx_ring_starts nothing w w1 P virt Hb Hset ltac:(by intros a [])) as Hok.
    destruct (rs_programmed _ _ _ _ Hset) as (t & Hp).
    eapply wp_mono; [apply (start_tx_queue_spec virt t); [done| |by apply Hset|done]| |done].
    + eapply mapped_sub; [eapply booted_mapped; [exact B|apply (tb_queue _ _ Hb)]|unq; lia|]. unfold NUM_TX_QUEUE_ENTRIES. unq. lia.
    + cbn beta. intros _ w2 [Hmem Hst]. exists virt. pose proof (qs_follows _ _ _ Hst) as Hf2.
      split; [|etransitivity; [apply (bo_follows _ _ _ _ B)|exact Hf2]]. by eapply tx_ok_follows.
Qed.
End queue.
