(* ===== verification/RxStart.v ===== *)
(** * Resetting the card and starting a receive queue

    The register programs of reset_and_init and the receive side's
    initialisation, as far as a program that only sends depends on them: they
    end, and what was set up before - packet pools, queue structures, the
    transmit unit - stays as it was.  [CardStart] is what the driver relies on of
    the rest of the card: a reset disables the transmit queue, the registers of
    the receive side are not the transmit side's, the states the driver polls for
    are reached (82599 datasheet 4.6.3, 4.6.7) and, on a link on which no packet
    arrives, the card writes to no receive buffer. *)
From S2P Require Import Prelude Mem Platform Memory Registers Device Ixgbe Ring TxRing RxRing RxFill MemoryProps DeviceProps IxgbeProps.
From S2P Require Import TxEngine PktGen Startup TxStart.

(** the registers written while the card starts, other than CTRL, DMATXCTL and
    those of the transmit queue *)
Definition other_regs : list Z :=
  [IXGBE_EIMC; IXGBE_AUTOC; IXGBE_RXCTRL; IXGBE_RDRXCTL; IXGBE_FCTRL; IXGBE_CTRL_EXT; IXGBE_SRRCTL 0; IXGBE_RDBAL 0;
   IXGBE_RDBAH 0; IXGBE_RDLEN 0; IXGBE_RDH 0; IXGBE_RDT 0; IXGBE_DCA_RXCTRL 0; IXGBE_RXDCTL 0] ++ (IXGBE_RXPBSIZE <$> seqZ 0 8).

Class CardStart (H : Type) (bar : Z) `{NicWriteback H, !HostLaws H, !StartLaws H, !TxStart H bar} := {
  other_write : forall h x v, x ∈ other_regs -> tx_regs (mmio_write (bar + x) v h) 0 = tx_regs h 0;
  other_dma : forall h x v, x ∈ other_regs -> tx_dma_on (mmio_write (bar + x) v h) = tx_dma_on h;
  other_ready : forall h x v, x ∈ other_regs -> tx_ready h 0 -> tx_ready (mmio_write (bar + x) v h) 0;
  (* nothing arrives *)
  other_grants : forall h x v a, x ∈ other_regs -> ~ grants h (bar + x) v a;
  reset_regs : forall h, tx_regs (mmio_write (bar + IXGBE_CTRL) IXGBE_CTRL_RST_MASK h) 0 = TxRegs 0 0 0 0 0 false;
  reset_grants : forall h a, ~ grants h (bar + IXGBE_CTRL) IXGBE_CTRL_RST_MASK a;
  (* the kernel maps the card's registers at [bar], once *)
  bar_mapped : forall h size fd, let p := (sys (Sys_mmap size PROT_RW MAP_SHARED fd 0) h).1 in p = -1 \/ p = bar;
  (* polls until the card is where the driver waits for it to be *)
  start_latency : nat;
  reset_ends : forall h, exists k, (k <= start_latency)%nat /\
    Z.land (poll_value (bar + IXGBE_CTRL) 10000 k h) IXGBE_CTRL_RST_MASK = 0;
  eeprom_read : forall h, exists k, (k <= start_latency)%nat /\
    Z.land (poll_value (bar + IXGBE_EEC) 10000 k h) IXGBE_EEC_ARD = IXGBE_EEC_ARD;
  dma_ready : forall h, exists k, (k <= start_latency)%nat /\
    Z.land (poll_value (bar + IXGBE_RDRXCTL) 10000 k h) IXGBE_RDRXCTL_DMAIDONE = IXGBE_RDRXCTL_DMAIDONE;
  rx_enables : forall h v, Z.land v IXGBE_RXDCTL_ENABLE = IXGBE_RXDCTL_ENABLE -> exists k, (k <= start_latency)%nat /\
    Z.land (poll_value (bar + IXGBE_RXDCTL 0) 10000 k (mmio_write (bar + IXGBE_RXDCTL 0) v h)) IXGBE_RXDCTL_ENABLE = IXGBE_RXDCTL_ENABLE
}.
#[global] Arguments start_latency {H} bar {_ _ _ _ _ _ _}.

Section card.
Context {H : Type} {bar : Z} `{CardStart H bar}.
Implicit Types (w : world H) (h : H) (F : Z -> Prop).

(** the transmit queue, when it has no work, and the transmit unit are as before *)
Record calm h h' : Prop := {
  cm_dma : tx_dma_on h' = tx_dma_on h;
  cm_ready : tx_ready h 0 -> tx_ready h' 0;
  cm_regs : tr_head (tx_regs h 0) = tr_tail (tx_regs h 0) -> tx_regs h' 0 = tx_regs h 0
}.
#[global] Instance calm_preorder : PreOrder calm.
Proof.
  split; [done|]. intros h1 h2 h3 [D1 Y1 R1] [D2 Y2 R2]. split; [by rewrite D2|auto|]. intros Hq. rewrite R2; [by apply R1|]. by rewrite R1.
Qed.
Lemma calm_proc h h' : proc_step h h' -> calm h h'.
Proof. intros Hs. split; [by apply dma_on_step|by apply ready_step|by apply regs_step]. Qed.
Lemma calm_hosts h h' : rtc host_step h h' -> calm h h'.
Proof. induction 1 as [|h1 h2 h3 Hs _ IH]; [done|]. etransitivity; [|exact IH]. apply calm_proc. by left. Qed.

(** memory outside [F] and the transmit side are kept *)
Definition still F (d : Z) w w' : Prop := booted F d w w' /\ calm (w_hw w) (w_hw w').
Lemma still_refl F w : still F 0 w w.
Proof. split; [apply booted_refl|done]. Qed.
Lemma still_seq F d1 d2 d w1 w2 w3 : d1 + d2 <= d -> still F d1 w1 w2 -> still F d2 w2 w3 -> still F d w1 w3.
Proof. intros Hd [B1 C1] [B2 C2]. split; [by eapply booted_seq|by etransitivity]. Qed.
Lemma still_mono F F' d w w' : (forall a, F a -> F' a) -> still F d w w' -> still F' d w w'.
Proof. intros HF [B C]. split; [|done]. eapply booted_mono; [exact HF|reflexivity|exact B]. Qed.
Lemma still_hosts F w w' : w_mem w' = w_mem w -> rtc host_step (w_hw w) (w_hw w') -> still F 0 w w'.
Proof. intros Hm Hs. split; [by apply booted_hosts|by apply calm_hosts]. Qed.
Lemma still_evolve F w w' : evolve F w w' -> still F 0 w w'.
Proof.
  intros Hev. split; [by apply booted_evolve|]. apply calm_hosts, hw_steps_host, (ch_hw _ _ _ (evolve_changes _ _ _ Hev)).
Qed.
Lemma still_fresh F G d1 d2 w1 w2 w3 : still F d1 w1 w2 -> still G d2 w2 w3 ->
  (forall a b n, G a -> range b n a -> reserved (w_hw w1) b n -> F a) -> still F (d1 + d2) w1 w3.
Proof. intros [B1 C1] [B2 C2] HG. split; [by eapply booted_fresh|by etransitivity]. Qed.

(** ** Programs that use registers only *)
Definition reg_prog {A} (c : M (world H) A) : Prop :=
  forall w, wp c (fun _ w' => w_mem w' = w_mem w /\ still nothing 0 w w') never w.

Lemma reg_ret {A} (a : A) : reg_prog (mret a).
Proof. intros w. apply wp_ret. split; [done|apply still_refl]. Qed.
Lemma reg_bind {A B} (c : M (world H) A) (k : A -> M (world H) B) :
  reg_prog c -> (forall a, reg_prog (k a)) -> reg_prog (c ≫= k).
Proof.
  intros Hc Hk w. apply wp_bind. eapply wp_conseq; [apply Hc|]. cbn beta. intros a w1 [M1 S1].
  eapply wp_conseq; [apply Hk|]. cbn beta. intros b w2 [M2 S2]. split; [by rewrite M2|by eapply (still_seq _ 0 0)].
Qed.
Lemma reg_for n lo body : (forall i, lo <= i < lo + Z.of_nat n -> reg_prog (body i)) -> reg_prog (for_loop n lo body).
Proof.
  revert lo. induction n as [|n IH]; intros lo Hb; cbn [for_loop]; [apply reg_ret|].
  apply reg_bind; [apply Hb; lia|]. intros _. apply IH. intros i Hi. apply Hb. lia.
Qed.
Lemma reg_hosts {A} (c : M (world H) A) :
  (forall w, wp c (fun _ w' => w_mem w' = w_mem w /\ rtc host_step (w_hw w) (w_hw w')) never w) -> reg_prog c.
Proof. intros Hc w. eapply wp_conseq; [apply Hc|]. cbn beta. intros a w1 [Hm Hs]. split; [done|by apply still_hosts]. Qed.
Lemma reg_get dev x : reg_prog (get_reg32 dev x).
Proof. apply reg_hosts. intros w. eapply ok_wp; [apply get_reg32_eq|]. split; [done|]. apply rtc_once, read_host. Qed.
Lemma reg_syscall c : (forall a n, c <> Sys_munmap a n) -> reg_prog (syscall_ c).
Proof.
  intros Hc. apply reg_hosts. intros w. apply wp_syscall. intros r h Hs. split; [done|]. cbn [w_hw set_hw].
  apply rtc_once. replace h with (sys c (w_hw w)).2 by (by rewrite Hs). by apply sys_host.
Qed.
Lemma calm_procs h h' : rtc proc_step h h' -> calm h h'.
Proof. induction 1 as [|h1 h2 h3 Hs _ IH]; [done|]. etransitivity; [|exact IH]. by apply calm_proc. Qed.
(** one more step of a longer run *)
Lemma wp_reg {A} (c : M (world H) A) F d w0 w Q E : reg_prog c -> still F d w0 w ->
  (forall a w', w_mem w' = w_mem w -> still F d w0 w' -> Q a w') -> wp c Q E w.
Proof.
  intros Hc Hs HQ. eapply wp_mono; [apply Hc| |intros ? ? []]. cbn beta. intros a w' [Hm S]. apply HQ; [done|].
  eapply (still_seq _ d 0); [lia|exact Hs|]. eapply still_mono, S. by intros b [].
Qed.
Lemma still_store F d w0 w n a v : still F d w0 w -> (forall b, range a (Z.of_nat n) b -> F b) ->
  still F d w0 (set_mem (st n a v (w_mem w)) w).
Proof. intros Hs HF. eapply (still_seq _ d 0); [lia|exact Hs|]. split; [by apply booted_store|done]. Qed.
Lemma still_fill F d w0 w n a v : still F d w0 w -> (forall b, range a (Z.of_nat n) b -> F b) ->
  still F d w0 (set_mem (fill n a v (w_mem w)) w).
Proof. intros Hs HF. eapply (still_seq _ d 0); [lia|exact Hs|]. split; [by apply booted_fill|done]. Qed.

Section regs.
Context (dev : ixy_device) (Hbar : addr dev = bar).

(** the registers whose writes leave the transmit queue alone *)
Definition calm_reg (x : Z) : Prop := x ∈ other_regs \/ (x ∈ tx_setup /\ x <> IXGBE_DMATXCTL).

Lemma calm_write h x v : calm_reg x -> calm h (mmio_write (bar + x) v h) /\ (forall a, ~ grants h (bar + x) v a).
Proof.
  intros [Hx|[Hx Hne]].
  - split; [|intros a; by apply other_grants]. split; [by apply other_dma|by apply other_ready|intros _; by apply other_write].
  - split; [|intros a; by apply setup_grants]. split; [by apply dma_on_setup|by apply ready_setup|intros _; by apply setup_write].
Qed.
Lemma reg_set x v : calm_reg x -> reg_prog (set_reg32 dev x v).
Proof.
  intros Hx w. apply wp_mmio_set. destruct (calm_write (w_hw w) x (u32 v) Hx) as [Hc Hg].
  split; [done|]. rewrite Hbar. split; [by apply booted_write|exact Hc].
Qed.
Lemma reg_set_flags x f : calm_reg x -> reg_prog (set_flags32 dev x f).
Proof. intros Hx. apply reg_bind; [apply reg_get|]. intros v. by apply reg_set. Qed.
Lemma reg_clear_flags x f : calm_reg x -> reg_prog (clear_flags32 dev x f).
Proof. intros Hx. apply reg_bind; [apply reg_get|]. intros v. by apply reg_set. Qed.
Lemma reg_wait_set fuel x mask k : (k < fuel)%nat ->
  (forall h, exists j, (j <= k)%nat /\ Z.land (poll_value (bar + x) 10000 j h) mask = mask) ->
  reg_prog (wait_set_reg32 fuel dev x mask).
Proof.
  intros Hk Hp w. destruct (Hp (w_hw w)) as (j & Hj & Hv).
  eapply wp_conseq; [apply (wait_set_spec fuel dev x mask j w); [lia|by rewrite Hbar]|]. cbn beta.
  intros _ w' [Hm (h & Hh & _ & Hl)]. split; [done|]. apply still_hosts; [done|]. rewrite Hl.
  eapply rtc_r; [exact Hh|apply read_host].
Qed.
Lemma reg_stats st : reg_prog (ixgbe_read_stats dev st).
Proof. unfold ixgbe_read_stats. do 6 (apply reg_bind; [apply reg_get|intros ?]). apply reg_ret. Qed.
Lemma poll_hosts a us n h : rtc host_step h (poll_state a us n h).
Proof.
  revert h. induction n as [|n IH]; intros h; cbn [poll_state]; [done|].
  eapply rtc_l; [apply (read_host a)|]. eapply rtc_l; [by apply (sys_host (Sys_usleep us))|]. apply IH.
Qed.
Lemma reg_wait_for_link : reg_prog (wait_for_link dev).
Proof.
  unfold wait_for_link. apply reg_bind.
  - apply reg_hosts. intros w. change 10000000 with (100000 * Z.of_nat 100).
    destruct (wait_for_link_loop_spec dev 100 102 w) as (n & _ & _ & _ & Hrun); [lia|lia|].
    eapply ok_wp; [exact Hrun|]. split; [done|]. cbn [w_hw set_hw]. eapply rtc_r; [apply poll_hosts|apply read_host].
  - intros _. apply reg_bind; [|intros _; apply reg_ret]. apply reg_bind; [apply reg_get|intros ?; apply reg_ret].
Qed.

(** ** The receive queue *)
Local Abbreviation queue := (rx_queue dev 0).
Definition rx_bytes : Z := sizeof_rx_queue + 8 * MAX_RX_QUEUE_ENTRIES.
Definition rx_struct (a : Z) : Prop := range queue rx_bytes a.
Ltac rnum := unfold rx_struct, rx_bytes, range, disj, MAX_RX_QUEUE_ENTRIES, NUM_RX_QUEUE_ENTRIES in *; unrq.

Lemma rx_calm x : x ∈ other_regs -> calm_reg x.
Proof. by left. Qed.
Ltac creg := first [apply rx_calm, (bool_decide_unpack _); vm_compute; exact I
  |right; split; [apply (bool_decide_unpack _); vm_compute; exact I|discriminate]].

(** the queue has a ring at [virt] *)
Record rx_ring_set w (virt : Z) w' : Prop := {
  xs_still : still rx_struct 0 w w';
  xs_block : block w' virt (2 ^ 21);
  xs_new : forall a n, reserved (w_hw w) a n -> disj virt (2 ^ 21) a n;
  xs_area : 0 < virt /\ virt + 2 ^ 21 < 2 ^ 47;
  xs_num : ld 2 (w_mem w') (queue + rxq_num_entries) = NUM_RX_QUEUE_ENTRIES;
  xs_descs : ld 8 (w_mem w') (queue + rxq_descriptors) = virt
}.

Lemma init_rx_queue_still w : block w queue rx_bytes -> card_known w ->
  wp (init_rx_queue dev 0) (fun _ w' => exists virt, rx_ring_set w virt w') (fun f _ => alloc_failure f) w.
Proof.
  intros Hblk Hcard. unfold init_rx_queue. cbn zeta.
  change (u32 (NUM_RX_QUEUE_ENTRIES * sizeof_adv_rx_desc)) with 16384.
  apply wp_bind. eapply (wp_reg _ nothing 0 w w); [apply reg_get|apply still_refl|]. intros v w1 _ S1.
  apply wp_bind. eapply wp_reg; [apply reg_set; creg|exact S1|]. intros _ w2 _ S2.
  apply wp_bind. eapply wp_reg; [apply reg_set_flags; creg|exact S2|]. intros _ w3 _ S3.
  apply wp_bind. eapply wp_conseq; [apply memory_allocate_dma_fresh; [done|eapply card_known_booted; [apply S3|done]]|]. cbn beta.
  intros mem w4 [B4 [Hnb Hnew] Hal Hpath _]. destruct (dma_allocated_bounds _ _ _ _ Hal) as (Hv0 & Hv1 & _). change (round_2mb 16384) with (2 ^ 21) in *.
  assert (still nothing 0 w w4) as S4 by (eapply (still_seq _ 0 0); [lia|exact S3|split; [exact B4|by apply calm_hosts]]).
  assert (forall a n, reserved (w_hw w) a n -> disj (virt mem) (2 ^ 21) a n) as Hnew'.
  { intros a n Hr. apply Hnew. eapply booted_reserved; [apply S3|exact Hr]. }
  pose proof (Hnew' _ _ (bl_reserved _ _ _ Hblk)) as Hlow.
  set (F := fun a => rx_struct a \/ range (virt mem) (2 ^ 21) a).
  apply wp_bind. unfold wp at 1, memset. change (Z.of_nat (Z.to_nat 16384)) with 16384.
  assert (mapped (w_mem w4) (virt mem) 16384 = true) as -> by (eapply mapped_sub; [apply Hnb|lia|lia]).
  pose proof (still_fill F 0 w4 w4 (Z.to_nat 16384) (virt mem) (-1) (still_refl _ _)) as S5.
  set (w5 := set_mem _ w4) in *. specialize (S5 ltac:(intros b Hb; right; unfold range in *; lia)).
  do 5 (apply wp_bind; eapply wp_reg; [apply reg_set; creg|exact S5|]; clear S5; intros _ ? _ S5).
  match type of S5 with still _ _ _ ?x => set (w6 := x) in * end. clearbody w6. clear w5.
  assert (block w6 queue rx_bytes) as Hq6.
  { eapply block_booted; [apply S5|]. eapply block_booted; [apply S4|exact Hblk]. }
  assert (forall m o n, regions m = regions (w_mem w6) -> 0 <= o -> o + n <= sizeof_rx_queue -> mapped m (queue + o) n = true) as Mq.
  { intros m o n Hm ??. rewrite (mapped_regions _ _ _ _ Hm). eapply mapped_sub; [apply Hq6|lia|rnum; lia]. }
  apply wp_bind, wp_store; [apply Mq; [done|unrq; lia|unrq; lia]|].
  apply wp_bind, wp_store; [apply Mq; [cbn; by rewrite regions_st|unrq; lia|unrq; lia]|].
  apply wp_store; [apply Mq; [cbn; by rewrite !regions_st|unrq; lia|unrq; lia]|].
  match goal with |- exists _, rx_ring_set _ _ ?x => set (w7 := x) end.
  assert (still F 0 w4 w7) as S7.
  { unfold w7. apply still_store; [apply still_store; [apply still_store; [exact S5|]|]|]; intros b Hb; left; rnum; lia. }
  exists (virt mem). split.
  - change 0 with (0 + 0). eapply still_fresh; [eapply still_mono, S4; by intros b []|exact S7|].
    intros a b n [Ha|Ha] Hr Hx; [done|]. specialize (Hnew' b n Hx). unfold range, disj in *. lia.
  - eapply block_booted; [apply S7|exact Hnb].
  - exact Hnew'.
  - done.
  - unfold w7. cbn [w_mem set_mem]. rewrite !ld_st_out by (unrq; lia). by rewrite ld_st_eq.
  - unfold w7. cbn [w_mem set_mem]. rewrite ld_st_eq. apply Z.mod_small. change (8 * Z.of_nat 8) with 64.
    ulia.
Qed.

(** before and after, registers are written *)
Lemma rx_ring_set_around w w1 virt w2 w3 : still nothing 0 w w1 -> rx_ring_set w1 virt w2 ->
  w_mem w3 = w_mem w2 -> still nothing 0 w2 w3 -> rx_ring_set w virt w3.
Proof.
  intros S1 [S2 Hb Hnew Ha Hn Hd] Hm S3. split; rewrite ?Hm; try done.
  - eapply (still_seq _ 0 0); [lia|eapply still_mono, S1; by intros b []|].
    eapply (still_seq _ 0 0); [lia|exact S2|eapply still_mono, S3; by intros b []].
  - eapply block_booted; [apply S3|exact Hb].
  - intros a n Hr. apply Hnew. eapply booted_reserved; [apply S1|exact Hr].
Qed.

(** init_rx for one queue *)
Lemma init_rx_still w : num_rx_queues dev = 1 -> block w queue rx_bytes -> card_known w ->
  wp (init_rx dev) (fun _ w' => exists virt, rx_ring_set w virt w') (fun f _ => alloc_failure f) w.
Proof.
  intros Hone Hblk Hcard. unfold init_rx. rewrite Hone. change (Z.to_nat 1) with 1%nat.
  apply wp_bind. eapply (wp_reg _ nothing 0 w w); [apply reg_clear_flags; creg|apply still_refl|]. intros _ ? _ S.
  apply wp_bind. eapply wp_reg; [apply reg_set; creg|exact S|]. clear S. intros _ ? _ S.
  apply wp_bind. eapply wp_reg; [apply (reg_for 7)|exact S|].
  { intros i Hi. apply reg_set, rx_calm, elem_of_app. right. apply list_elem_of_fmap_2, elem_of_seqZ. lia. }
  clear S. intros _ ? _ S.
  do 3 (apply wp_bind; eapply wp_reg; [apply reg_set_flags; creg|exact S|]; clear S; intros _ ? _ S).
  match type of S with still _ _ _ ?x => rename x into w1 end.
  cbn [for_loop]. do 2 apply wp_bind. eapply wp_conseq; [apply init_rx_queue_still|].
  - eapply block_booted; [apply S|exact Hblk].
  - eapply card_known_booted; [apply S|exact Hcard].
  - cbn beta. intros _ w2 (virt & Hset). apply wp_ret.
    apply wp_bind. eapply (wp_reg _ nothing 0 w2 w2); [apply reg_set_flags; creg|apply still_refl|]. intros _ w3 M3 S3.
    do 2 apply wp_bind. eapply wp_reg; [apply reg_clear_flags; creg|exact S3|]. intros _ w4 M4 S4. apply wp_ret.
    eapply wp_reg; [apply reg_set_flags; creg|exact S4|]. intros _ w5 M5 S5.
    exists virt. eapply rx_ring_set_around; [exact S|exact Hset|congruence|exact S5].
Qed.
(** start_rx_queue: the queue gets a pool of its own, and writes only to that
    pool, its ring and its structure *)
Definition rx_pool_bytes : Z := sizeof_mempool + 4096 * 4.

Lemma rx_fill_env w P virt : block w queue rx_bytes -> block w virt (2 ^ 21) -> pool_held w P -> card_known w ->
  disj virt (2 ^ 21) queue rx_bytes -> 0 < virt /\ virt + 2 ^ 21 < 2 ^ 47 ->
  disj queue rx_bytes (p_addr P) (sizeof_mempool + 4 * p_num P) -> disj queue rx_bytes (p_base P) (p_num P * p_bufsz P) ->
  disj virt (2 ^ 21) (p_addr P) (sizeof_mempool + 4 * p_num P) ->
  disj virt (2 ^ 21) (p_base P) (p_num P * p_bufsz P) ->
  ld 8 (w_mem w) (queue + rxq_descriptors) = virt -> ld 8 (w_mem w) (queue + rxq_mempool) = p_addr P ->
  fill_env w P (Rxq queue virt NUM_RX_QUEUE_ENTRIES 0 []).
Proof.
  intros [_ Hqm Hqo] [_ Hvm Hvo] Hp Hcard Hlow Hv Hqp Hqb Hvp Hvb Hd Hmp.
  pose proof Hp as [Hok _ _].
  assert (NUM_RX_QUEUE_ENTRIES = 1024) as En by done. assert (rx_bytes = sizeof_rx_queue + 32768) as Eb by done.
  split; unfold r_size, r_ring; cbn [r_n r_descs r_addr]; rewrite ?En.
  - by exists 10.
  - ulia.
  - rnum. lia.
  - split; unfold r_size, r_ring; cbn [r_n r_descs r_addr]; rewrite ?En; rnum; lia.
  - eapply mapped_sub; [exact Hqm|lia|rnum; lia].
  - eapply mapped_sub; [exact Hvm|lia|unfold sizeof_adv_rx_desc; lia].
  - intros a Ha Hx. apply (Hvo a); [|exact Ha]. rnum. lia.
  - intros a Ha Hx. apply (Hqo a); [|exact Ha]. rnum. lia.
  - intros a Ha Hx. by apply (pool_held_own w P a Hp (pool_fp_mem P a (pk_shape _ _ Hok) Hx)).
  - exact Hd.
  - exact Hmp.
Qed.

(** the slots are filled *)
Lemma rx_fill_still P virt w : fill_env w P (Rxq queue virt NUM_RX_QUEUE_ENTRIES 0 []) -> pool_ok (w_mem w) P ->
  NUM_RX_QUEUE_ENTRIES <= Z.of_nat (length (p_free P)) -> 0 <= p_num P ->
  wp (for_loop (Z.to_nat NUM_RX_QUEUE_ENTRIES) 0 (fill_rx_desc queue))
    (fun _ w' => still (fun a => rx_struct a \/ range virt (2 ^ 21) a \/ pool_mem P a) 0 w w') never w.
Proof.
  intros Henv Hok Hfree Hnum.
  eapply wp_mono; [apply (fill_loop_spec P (Rxq queue virt NUM_RX_QUEUE_ENTRIES 0 []) w Henv Hok)| |].
  2:{ cbn beta. intros f w' [_ Hl]. cbn [r_n] in Hl. lia. }
  cbn beta. intros _ w3 [_ Hev]. apply still_evolve. eapply evolve_mono, Hev.
  intros a (k & Hk & Hf). change (0 <= k < 1024) in Hk. destruct Hf as [Hf|[Hf|Hf]]; cbn [r_addr] in Hf.
  - right. right. left. unlayout. unfold range in *. lia.
  - right. left. unfold r_desc in Hf. cbn [r_descs] in Hf. unfold sizeof_adv_rx_desc, range in *. lia.
  - left. rnum. lia.
Qed.

(** the queue is enabled and its slots are handed over; nothing arrives in them *)
Lemma rx_enable_still fuel F w0 w : (start_latency bar < fuel)%nat -> still F 0 w0 w ->
  (forall w', still F 0 w0 w' -> mapped (w_mem w') (queue + rxq_num_entries) 2 = true) ->
  wp (set_flags32 dev (IXGBE_RXDCTL 0) IXGBE_RXDCTL_ENABLE ;;
      wait_set_reg32 fuel dev (IXGBE_RXDCTL 0) IXGBE_RXDCTL_ENABLE ;;
      set_reg32 dev (IXGBE_RDH 0) 0 ;;
      n ← load 2 (queue + rxq_num_entries);
      set_reg32 dev (IXGBE_RDT 0) (n - 1)) (fun _ w' => still F 0 w0 w') never w.
Proof.
  intros Hfuel S3 Mn. apply wp_bind. unfold set_flags32. apply wp_bind. eapply wp_reg; [apply reg_get|exact S3|]. intros v w4 _ S4.
  apply wp_mmio_set. set (v' := u32 _).
  assert (Z.land v' IXGBE_RXDCTL_ENABLE = IXGBE_RXDCTL_ENABLE) as Hv' by (by apply u32_lor_flags).
  destruct (calm_write (w_hw w4) (IXGBE_RXDCTL 0) v' ltac:(creg)) as [Hcalm Hg]. rewrite <- Hbar in Hcalm, Hg.
  assert (still F 0 w0 (set_hw (mmio_write (addr dev + IXGBE_RXDCTL 0) v' (w_hw w4)) w4)) as S5.
  { eapply (still_seq _ 0 0); [lia|exact S4|]. split; [by apply booted_write|exact Hcalm]. }
  destruct (rx_enables (w_hw w4) v' Hv') as (k & Hk & Hpoll). rewrite <- Hbar in Hpoll.
  apply wp_bind. eapply wp_conseq; [apply (wait_set_spec fuel dev _ _ k); [lia|exact Hpoll]|]. cbn beta.
  intros _ w6 [Hm6 (h & Hh & _ & Hl)].
  assert (still F 0 w0 w6) as S6.
  { eapply (still_seq _ 0 0); [lia|exact S5|]. apply still_hosts; [exact Hm6|]. rewrite Hl. eapply rtc_r; [exact Hh|apply read_host]. }
  apply wp_bind. eapply wp_reg; [apply reg_set; creg|exact S6|]. intros _ w7 _ S7.
  apply wp_bind, wp_load; [by apply Mn|]. eapply wp_reg; [apply reg_set; creg|exact S7|]. intros u w8 M8 S8. exact S8.
Qed.

Lemma start_rx_still fuel virt w : (start_latency bar < fuel)%nat -> block w queue rx_bytes -> block w virt (2 ^ 21) ->
  card_known w -> disj virt (2 ^ 21) queue rx_bytes -> 0 < virt /\ virt + 2 ^ 21 < 2 ^ 47 ->
  ld 2 (w_mem w) (queue + rxq_num_entries) = NUM_RX_QUEUE_ENTRIES ->
  ld 8 (w_mem w) (queue + rxq_descriptors) = virt -> rx_pool_bytes <= heap_room (w_hw w) ->
  wp (start_rx_queue fuel dev 0) (fun _ w' => still (fun a => rx_struct a \/ range virt (2 ^ 21) a) rx_pool_bytes w w')
    (fun f _ => alloc_failure f) w.
Proof.
  intros Hfuel Hq Hv Hcard Hlow Ha Hn Hd Hroom. unfold start_rx_queue. cbn zeta. apply wp_bind.
  eapply wp_conseq; [apply (mempool_spec 4096 2048 w); [done|done|done|exact Hcard|exact Hroom]|]. cbn beta.
  intros r w1 (mem & Hp & B1 & Hpath & Hnew & _). set (P := fresh_pool r mem 4096 (buf_size_of 2048)) in *.
  change r with (p_addr P). change (sizeof_mempool + 4096 * 4) with rx_pool_bytes in B1.
  assert (still nothing rx_pool_bytes w w1) as S1 by (split; [exact B1|by apply calm_procs]).
  pose proof (block_booted _ _ _ _ _ _ B1 Hq) as Hq1. pose proof (block_booted _ _ _ _ _ _ B1 Hv) as Hv1.
  assert (forall k o, 0 <= o -> o + Z.of_nat k <= sizeof_rx_queue -> ld k (w_mem w1) (queue + o) = ld k (w_mem w) (queue + o)) as L1.
  { intros k o ??. eapply block_ld; [exact B1|exact Hq|lia|rnum; lia|by intros c _ []]. }
  apply wp_bind, wp_store; [eapply mapped_sub; [apply Hq1|rnum; lia|rnum; lia]|].
  set (F := fun a => rx_struct a \/ range virt (2 ^ 21) a \/ pool_mem P a).
  assert (still rx_struct 0 w1 (set_mem (st 8 (queue + rxq_mempool) (p_addr P) (w_mem w1)) w1)) as S2.
  { apply still_store; [apply still_refl|]. intros b Hb. rnum. lia. }
  set (w2 := set_mem _ w1) in *. pose proof (bl_reserved _ _ _ Hq) as Rq. pose proof (bl_reserved _ _ _ Hv) as Rv.
  assert (pool_held w2 P) as Hp2.
  { eapply pool_held_booted; [apply S2| |exact Hp]. intros a Ha' Hpa. by apply (pool_apart_mem _ P _ _ a Hnew Rq Hpa). }
  set (q := Rxq queue virt NUM_RX_QUEUE_ENTRIES 0 []).
  assert (fill_env w2 P q) as Henv.
  { apply rx_fill_env; try done.
    - eapply block_booted; [apply S2|exact Hq1].
    - eapply block_booted; [apply S2|exact Hv1].
    - eapply card_known_booted; [apply S2|]. by eapply card_known_booted.
    - destruct (Hnew _ _ Rq) as [D _]. unfold disj in *. lia.
    - destruct (Hnew _ _ Rq) as [_ D]. unfold disj in *. lia.
    - destruct (Hnew _ _ Rv) as [D _]. unfold disj in *. lia.
    - destruct (Hnew _ _ Rv) as [_ D]. unfold disj in *. lia.
    - unfold w2. cbn [w_mem set_mem]. rewrite ld_st_out by (unrq; lia). rewrite L1 by (unrq; lia). exact Hd.
    - unfold w2. cbn [w_mem set_mem]. rewrite ld_st_eq. apply Z.mod_small. pose proof (ps_addr _ (pk_shape _ _ (ph_ok _ _ Hp))).
      change (8 * Z.of_nat 8) with 64. lia. }
  assert (ld 2 (w_mem w2) (queue + rxq_num_entries) = NUM_RX_QUEUE_ENTRIES) as Hn2.
  { unfold w2. cbn [w_mem set_mem]. rewrite ld_st_out by (unrq; lia). rewrite L1 by (unrq; lia). exact Hn. }
  assert (forall w', still F 0 w2 w' -> mapped (w_mem w') (queue + rxq_num_entries) 2 = true) as Mn.
  { intros w' S'. eapply booted_mapped; [apply S'|]. eapply booted_mapped; [apply S2|].
    eapply mapped_sub; [apply (bl_mapped _ _ _ Hq1)|rnum; lia|rnum; lia]. }
  apply wp_bind, wp_load; [apply Mn, still_refl|]. rewrite Hn2.
  change (negb (Z.land NUM_RX_QUEUE_ENTRIES (NUM_RX_QUEUE_ENTRIES - 1) =? 0)) with false. cbn iota.
  apply wp_bind. eapply wp_mono; [apply (rx_fill_still P virt w2 Henv (ph_ok _ _ Hp2)); done| |intros ? ? []]. cbn beta. intros _ w3 S3.
  eapply wp_mono; [by apply (rx_enable_still fuel F w2 w3)| |intros ? ? []]. cbn beta. intros _ w8 S8.
  assert (still F 0 w1 w8) as S18.
  { eapply (still_seq _ 0 0); [lia|eapply still_mono, S2|exact S8]. intros a Ha'. by left. }
  replace rx_pool_bytes with (rx_pool_bytes + 0) by lia. eapply still_fresh; [eapply still_mono, S1; by intros a []|exact S18|].
  intros a b n [Hx|[Hx|Hx]] Hr Hres; [by left|by right|]. by destruct (pool_apart_mem _ P b n a Hnew Hres Hx).
Qed.
End regs.
End card.
