(* ===== verification/PktStart.v ===== *)
(** * From a reset card to the transmit loop

    reset_and_init with one queue of each kind: after it the transmit queue runs
    and the state is the one in which the loop of ixy-pktgen starts.  [TxRun]
    joins the two views of the card's transmit queue: a queue that was programmed
    as [TxStart] says, in an enabled transmit unit, runs as [TxEngine] says. *)
From S2P Require Import Prelude Mem Platform Memory Registers IxgbeCpp Stats Apps Device Pci Ixgbe Ring TxRing RxRing.
From S2P Require Import MemoryProps DeviceProps IxgbeProps TxProps RxProps AppProps TxEngine PktGen Startup TxStart RxStart.

Class TxRun (H : Type) (bar : Z) `{NicWriteback H, !HostLaws H, !StartLaws H, !TxStart H bar,
    !TxEngine H (bar + IXGBE_TDT 0) NUM_TX_QUEUE_ENTRIES} : Prop := {
  starts_running : forall h v, let r := tx_regs h 0 in
    dma_page h v (tr_base r) -> tr_head r = 0 -> tr_tail r = 0 ->
    tr_len r = NUM_TX_QUEUE_ENTRIES * sizeof_adv_tx_desc -> tr_on r = true -> tx_ready h 0 -> tx_dma_on h = true ->
    te_runs h v /\ te_tail h = 0
}.

(** a pool whose buffers all hold the packet *)
Record pool_packets {H} `{StartLaws H} (w : world H) (P : pool) : Prop := {
  pp_held : pool_held w P;
  pp_bufsz : pb_data + PKT_SIZE <= p_bufsz P;
  pp_filled : forall i, 0 <= i < p_num P -> packet_filled (w_mem w) (entry P i)
}.
Lemma pool_packets_booted {H} `{StartLaws H} F d (w w' : world H) P : booted F d w w' ->
  (forall a, F a -> ~ pool_mem P a) -> pool_packets w P -> pool_packets w' P.
Proof.
  intros B HF [Hp Hsz Hf]. split; [by eapply pool_held_booted|exact Hsz|]. intros i Hi.
  eapply packet_filled_ext; [exact Hsz| |by apply Hf]. intros a Ha. symmetry.
  apply (client_in_pool P i a (pk_shape _ _ (ph_ok _ _ Hp)) Hi) in Ha.
  apply (pool_mem_kept F d w w' P a B Hp Ha). intros Hx. by apply (HF a).
Qed.

Section start.
Context {H : Type} {bar : Z} `{NicWriteback H, !HostLaws H, !StartLaws H, !TxStart H bar,
  !TxEngine H (bar + IXGBE_TDT 0) NUM_TX_QUEUE_ENTRIES, !CardStart H bar, !TxRun H bar}.
Implicit Types (w : world H) (h : H) (P : pool).
Context (dev : ixy_device) (Hbar : addr dev = bar) (Hrx : num_rx_queues dev = 1) (Htx : num_tx_queues dev = 1).
Local Abbreviation rxqueue := (rx_queue dev 0).
Local Abbreviation txqueue := (tx_queue dev 0).
Local Abbreviation qsize := (sizeof_tx_queue + 8 * NUM_TX_QUEUE_ENTRIES).
Ltac qnum := unfold rx_struct, tx_fields, range, disj, NUM_TX_QUEUE_ENTRIES in *; unq.
Ltac creg := first [apply rx_calm, (bool_decide_unpack _); vm_compute; exact I
  |right; split; [apply (bool_decide_unpack _); vm_compute; exact I|discriminate]].

(** the transmit queue's ring stays while other memory is written *)
Lemma tx_ring_set_then G d w1 virt w2 w3 : tx_ring_set dev 0 nothing w1 virt w2 -> block w2 txqueue qsize ->
  booted G d w2 w3 -> tx_regs (w_hw w3) 0 = tx_regs (w_hw w2) 0 -> (forall a, G a -> ~ range txqueue qsize a) ->
  tx_ring_set dev 0 G w1 virt w3.
Proof.
  intros [(d1 & B1) Hb Hnew Ha (t & p & Hp & Hpb & Hr) Hn Hd] Hq B HR HG.
  assert (forall n o, 0 <= o -> o + Z.of_nat n <= qsize -> ld n (w_mem w3) (txqueue + o) = ld n (w_mem w2) (txqueue + o)) as Hld.
  { intros n o ??. eapply block_ld; [exact B|exact Hq|lia|lia|]. intros c Hc Hg. apply (HG c Hg). unfold range in *. lia. }
  split; try done.
  - exists (d1 + d). eapply booted_trans; [eapply booted_mono, B1; [unfold nothing; tauto|lia]|].
    eapply booted_mono, B; [tauto|lia].
  - by eapply block_booted.
  - exists t, p. split; [by apply (bo_follows _ _ _ _ B)|split; [done|by rewrite HR]].
  - rewrite Hld by (qnum; lia). exact Hn.
  - rewrite Hld by (qnum; lia). exact Hd.
Qed.

Lemma tx_blank_still w w' P : still nothing 0 w w' -> tx_blank dev 0 w P -> tx_blank dev 0 w' P.
Proof.
  intros [B C] [B1 B2 B3 B4 B5 (t & lo & hi & len & E) B7]. split; try done.
  - eapply pool_held_booted; [exact B|by intros a []|done].
  - by eapply block_booted.
  - intros a Ha. rewrite (block_kept _ _ _ _ _ _ a B B2 Ha); [by apply B3|by intros []].
  - exists t, lo, hi, len. rewrite (cm_regs _ _ C); [done|by rewrite E].
  - by eapply card_known_booted.
Qed.

(** init_tx for one queue *)
Lemma init_tx_still w P : tx_blank dev 0 w P ->
  wp (init_tx dev) (fun _ w' => exists w1 virt, tx_blank dev 0 w1 P /\ still nothing 0 w w1 /\
      tx_ring_set dev 0 nothing w1 virt w' /\ booted (tx_fields dev 0) 0 w1 w' /\ tx_dma_on (w_hw w') = true /\
      regions (w_mem w') = (virt, 2 ^ 21) :: regions (w_mem w))
    (fun f _ => alloc_failure f) w.
Proof.
  intros Hb. unfold init_tx. rewrite Hrx. change (Z.to_nat 1) with 1%nat.
  apply wp_bind. eapply (wp_reg _ nothing 0 w w); [apply reg_set_flags; [done|creg]|apply still_refl|]. intros _ ? M0 S.
  apply wp_bind. eapply wp_reg; [apply reg_set; [done|creg]|exact S|]. clear S. intros _ ? M1 S.
  apply wp_bind. eapply wp_reg; [apply (reg_for 7)|exact S|].
  { intros i Hi. apply reg_set; [done|]. right. split; [|unfold IXGBE_TXPBSIZE, IXGBE_DMATXCTL; lia].
    apply elem_of_app. right. apply list_elem_of_fmap_2, elem_of_seqZ. lia. }
  clear S. intros _ ? M2 S.
  apply wp_bind. eapply wp_reg; [apply reg_set; [done|creg]|exact S|]. clear S. intros _ ? M3 S.
  apply wp_bind. eapply wp_reg; [apply reg_clear_flags; [done|creg]|exact S|]. clear S. intros _ w1 M4 S.
  pose proof (tx_blank_still _ _ _ S Hb) as Hb1. cbn [for_loop]. do 2 apply wp_bind.
  eapply wp_conseq; [apply (init_tx_queue_spec dev 0 Hbar ltac:(lia) w1)|].
  { apply Hb1. }
  { apply Hb1. }
  { eapply block_sub; [apply (tb_queue _ _ _ _ Hb1)|lia|unfold NUM_TX_QUEUE_ENTRIES; lia]. }
  cbn beta. intros _ w2 (virt & Hset & B2 & _ & Hreg). apply wp_ret, wp_mmio_set.
  assert (booted nothing 0 w2 (set_hw (mmio_write (addr dev + IXGBE_DMATXCTL) (u32 IXGBE_DMATXCTL_TE) (w_hw w2)) w2)) as B3.
  { apply booted_write. intros a. rewrite Hbar. apply setup_grants, (bool_decide_unpack _). vm_compute. exact I. }
  exists w1, virt. split; [exact Hb1|]. split; [exact S|]. split_and!.
  - eapply (tx_ring_set_then nothing 0 w1 virt w2); [exact Hset| |exact B3| |by intros a []].
    + eapply block_booted; [exact B2|apply (tb_queue _ _ _ _ Hb1)].
    + cbn [w_hw set_hw]. rewrite Hbar. apply setup_write; [lia|]. apply (bool_decide_unpack _). vm_compute. exact I.
  - eapply (booted_seq _ 0 0); [lia|exact B2|]. eapply booted_mono; [|reflexivity|exact B3]. by intros a [].
  - cbn [w_hw set_hw]. rewrite Hbar. by rewrite dma_on_set.
  - cbn [w_mem set_hw]. rewrite Hreg. do 2 f_equal. congruence.
Qed.

(** ** The card's reset and everything after it *)
Definition tx_bytes_all : Z := sizeof_tx_queue + 8 * MAX_TX_QUEUE_ENTRIES.

(** what ixgbe_init has allocated when it resets the card *)
Record boot_ready w P : Prop := {
  br_pool : pool_packets w P;
  br_rx : block w rxqueue rx_bytes;
  br_tx : block w txqueue tx_bytes_all;
  br_zero : forall a, range txqueue tx_bytes_all a -> rd (w_mem w) a = 0;
  br_queues : disj rxqueue rx_bytes txqueue tx_bytes_all;
  br_tx_pool : disj txqueue tx_bytes_all (p_addr P) (sizeof_mempool + 4 * p_num P);
  br_rx_pool : disj rxqueue rx_bytes (p_addr P) (sizeof_mempool + 4 * p_num P);
  br_tx_bufs : disj txqueue tx_bytes_all (p_base P) (p_num P * p_bufsz P);
  br_rx_bufs : disj rxqueue rx_bytes (p_base P) (p_num P * p_bufsz P);
  br_card : card_known w;
  br_room : rx_pool_bytes <= heap_room (w_hw w)
}.
Lemma boot_ready_booted w w' P : booted nothing 0 w w' -> boot_ready w P -> boot_ready w' P.
Proof.
  intros B [B1 B2 B3 B4 B5 B6 B7 B8 B9 B10 B11]. split; try done.
  - eapply pool_packets_booted; [exact B|by intros a []|done].
  - by eapply block_booted.
  - by eapply block_booted.
  - intros a Ha. rewrite (block_kept _ _ _ _ _ _ a B B3 Ha); [by apply B4|by intros []].
  - by eapply card_known_booted.
  - pose proof (bo_room _ _ _ _ B). lia.
Qed.
Lemma rx_off_pool w P a : boot_ready w P -> rx_struct dev a -> ~ pool_mem P a.
Proof.
  intros Hb Ha. pose proof (br_rx_pool _ _ Hb). pose proof (br_rx_bufs _ _ Hb).
  unfold pool_mem, rx_struct, range, disj in *. lia.
Qed.
Lemma boot_blank w w' P : boot_ready w P -> tx_idle (w_hw w') 0 -> booted (rx_struct dev) 0 w w' -> tx_blank dev 0 w' P.
Proof.
  intros Hb Hidle B. assert (qsize <= tx_bytes_all) as Hle by (unfold tx_bytes_all, MAX_TX_QUEUE_ENTRIES, NUM_TX_QUEUE_ENTRIES; lia).
  pose proof (br_queues _ _ Hb) as Hqq. split.
  - eapply pool_held_booted; [exact B| |apply (br_pool _ _ Hb)]. intros a. by apply (rx_off_pool w).
  - eapply block_booted; [exact B|]. eapply block_sub; [apply (br_tx _ _ Hb)|lia|lia].
  - intros a Ha. assert (range txqueue tx_bytes_all a) as Ha' by (unfold range in *; lia).
    rewrite (block_kept _ _ _ _ _ _ a B (br_tx _ _ Hb) Ha'); [by apply (br_zero _ _ Hb)|].
    unfold rx_struct, range, disj in *. lia.
  - pose proof (br_tx_pool _ _ Hb). unfold disj in *. lia.
  - pose proof (br_tx_bufs _ _ Hb). unfold disj in *. lia.
  - exact Hidle.
  - eapply card_known_booted; [exact B|apply (br_card _ _ Hb)].
Qed.

(** the transmit queue runs, empty, and every buffer of the pool holds the packet *)
Record tx_up w P (virt : Z) : Prop := {
  tu_ok : tx_ok w P (empty_ring dev 0 virt);
  tu_packets : pool_packets w P;
  tu_ring : ring_programmed 0 (w_hw w) virt 0 true;
  tu_ready : tx_ready (w_hw w) 0;
  tu_dma : tx_dma_on (w_hw w) = true
}.
Lemma tx_up_still w w' P virt : w_mem w' = w_mem w -> still nothing 0 w w' -> tx_up w P virt -> tx_up w' P virt.
Proof.
  intros Hm [B C] [U1 U2 (p & Hp & Hpb & Hr) U4 U5]. split.
  - eapply tx_ok_follows; [exact Hm|apply B|exact U1].
  - eapply pool_packets_booted; [exact B|by intros a []|exact U2].
  - exists p. split; [by apply (bo_follows _ _ _ _ B)|split; [done|]]. rewrite (cm_regs _ _ C); [done|by rewrite Hr].
  - by apply C.
  - by rewrite (cm_dma _ _ C).
Qed.

Context (poll_fuel : nat) (Htf : (enable_latency bar < poll_fuel)%nat) (Hsf : (start_latency bar < poll_fuel)%nat).

(** from the reset to the receive queue *)
Lemma reset_spec w P (k : M (world H) unit) Q E : boot_ready w P ->
  (forall w', boot_ready w' P -> tx_idle (w_hw w') 0 -> wp k Q E w') ->
  wp (set_reg32 dev IXGBE_EIMC 0x7FFFFFFF ;;
      set_reg32 dev IXGBE_CTRL IXGBE_CTRL_RST_MASK ;;
      wait_clear_reg32 poll_fuel dev IXGBE_CTRL IXGBE_CTRL_RST_MASK ;;
      _ ← syscall_ (Sys_usleep 10000);
      set_reg32 dev IXGBE_EIMC 0x7FFFFFFF ;;
      wait_set_reg32 poll_fuel dev IXGBE_EEC IXGBE_EEC_ARD ;;
      wait_set_reg32 poll_fuel dev IXGBE_RDRXCTL IXGBE_RDRXCTL_DMAIDONE ;;
      init_link dev ;;
      _ ← ixgbe_read_stats dev None; k) Q E w.
Proof.
  intros Hb HQ. apply wp_bind. eapply (wp_reg _ nothing 0 w w); [apply reg_set; [done|creg]|apply still_refl|]. intros _ w1 _ [B1 _].
  apply wp_bind, wp_mmio_set. change (u32 IXGBE_CTRL_RST_MASK) with IXGBE_CTRL_RST_MASK. rewrite Hbar.
  set (w2 := set_hw _ w1).
  assert (boot_ready w2 P) as Hb2.
  { eapply boot_ready_booted; [apply booted_write, reset_grants|]. by eapply boot_ready_booted. }
  assert (tx_idle (w_hw w2) 0) as Hi2 by (exists 0, 0, 0, 0; apply reset_regs).
  clearbody w2. clear w1 B1 Hb.
  apply wp_bind. eapply (wp_reg _ nothing 0 w2 w2); [|apply still_refl|].
  { apply reg_hosts. intros w3. destruct (reset_ends (w_hw w3)) as (j & Hj & Hv).
    apply (wait_clear_spec _ _ _ _ j); [lia|by rewrite Hbar]. }
  intros _ w3 _ S. apply wp_bind. eapply wp_reg; [by apply reg_syscall|exact S|]. clear S. intros _ w4 _ S.
  apply wp_bind. eapply wp_reg; [apply reg_set; [done|creg]|exact S|]. clear S. intros _ w5 _ S.
  apply wp_bind. eapply wp_reg; [eapply reg_wait_set; [done|exact Hsf|apply eeprom_read]|exact S|]. clear S. intros _ w6 _ S.
  apply wp_bind. eapply wp_reg; [eapply reg_wait_set; [done|exact Hsf|apply dma_ready]|exact S|]. clear S. intros _ w7 _ S.
  apply wp_bind. eapply wp_reg; [|exact S|].
  { unfold init_link. apply reg_bind; [apply reg_get|intros v]. apply reg_bind; [apply reg_set; [done|creg]|intros _].
    apply reg_bind; [apply reg_get|intros v2]. apply reg_bind; [apply reg_set; [done|creg]|intros _]. apply reg_set_flags; [done|creg]. }
  clear S. intros _ w8 _ S. apply wp_bind. eapply wp_reg; [apply reg_stats|exact S|]. clear S. intros _ w9 _ [B C].
  apply HQ; [by eapply boot_ready_booted|]. destruct Hi2 as (t & lo & hi & len & Hr).
  exists t, lo, hi, len. rewrite (cm_regs _ _ C); [done|by rewrite Hr].
Qed.

(** the queue is enabled *)
Lemma start_tx_up G w2 w4 P virt : tx_blank dev 0 w2 P -> tx_ring_set dev 0 G w2 virt w4 ->
  (forall a, G a -> ~ range txqueue qsize a /\ ~ pool_mem P a) -> pool_packets w4 P -> tx_dma_on (w_hw w4) = true ->
  wp (start_tx_queue poll_fuel dev 0) (fun _ w' => w_mem w' = w_mem w4 /\ follows (w_hw w4) (w_hw w') /\ tx_up w' P virt) never w4.
Proof.
  intros Hbl Hset HG Hpp Hdma. destruct (rs_programmed _ _ _ _ _ _ Hset) as (t & Hp). destruct (rs_boot _ _ _ _ _ _ Hset) as (d & B).
  pose proof (block_booted _ _ _ _ _ _ B (tb_queue _ _ _ _ Hbl)) as Hq.
  eapply wp_conseq; [apply (start_tx_queue_spec dev 0 poll_fuel Hbar ltac:(lia) virt t); [exact Hp| |by apply Hset|done]|].
  { eapply mapped_sub; [apply Hq|qnum; lia|qnum; lia]. }
  cbn beta. intros _ w5 [Hm [Qf Qd Qr Qy]]. split; [done|]. split; [done|].
  split.
  - eapply tx_ok_follows; [exact Hm|exact Qf|]. eapply (tx_ring_starts dev 0 G w2 w4); [exact Hbl|exact Hset|exact HG].
  - destruct Hpp as [[O1 [S1 S2 S3] [T1 T2 T3]] Hsz Hf]. split; [split| |]; rewrite ?Hm; try done.
    + split; [by apply Qf|by rewrite Hm|]. intros a Ha Hx. by apply (S3 a Ha), Qf.
    + split; [by apply Qf|by rewrite Hm|]. intros a Ha Hx. by apply (T3 a Ha), Qf.
  - exact Qr.
  - exact Qy.
  - by rewrite Qd.
Qed.

(** ** The two queues do not disturb each other *)
Definition rx_writes (rv a : Z) : Prop := rx_struct dev a \/ range rv (2 ^ 21) a.

Lemma rx_writes_apart w w1 rv P a : boot_ready w P -> rx_ring_set dev w rv w1 -> rx_writes rv a ->
  ~ range txqueue qsize a /\ ~ pool_mem P a.
Proof.
  intros Hb Hrs Ha. pose proof (pp_held _ _ (br_pool _ _ Hb)) as Hp. pose proof (xs_new _ _ _ _ Hrs) as Rnew.
  pose proof (Rnew _ _ (bl_reserved _ _ _ (ph_struct _ _ Hp))) as D1.
  pose proof (Rnew _ _ (bl_reserved _ _ _ (ph_bufs _ _ Hp))) as D2. pose proof (Rnew _ _ (bl_reserved _ _ _ (br_tx _ _ Hb))) as D3.
  pose proof (br_queues _ _ Hb) as D4.
  assert (qsize <= tx_bytes_all) as Hle by (unfold tx_bytes_all, MAX_TX_QUEUE_ENTRIES, NUM_TX_QUEUE_ENTRIES; lia).
  destruct Ha as [Ha|Ha].
  - split; [unfold rx_struct, range, disj in *; lia|]. by apply (rx_off_pool w).
  - unfold pool_mem, range, disj in *. lia.
Qed.

Lemma start_rx_after w w1 w3 rv P : boot_ready w P -> rx_ring_set dev w rv w1 -> booted (tx_fields dev 0) 0 w1 w3 ->
  wp (start_rx_queue poll_fuel dev 0) (fun _ w' => still (rx_writes rv) rx_pool_bytes w3 w') (fun f _ => alloc_failure f) w3.
Proof.
  intros Hb [[B1 _] Rb Rnew Ra Rn Rd] B3.
  assert (block w1 rxqueue rx_bytes) as Hq1 by (eapply block_booted; [exact B1|apply (br_rx _ _ Hb)]).
  assert (forall n o, 0 <= o -> o + Z.of_nat n <= rx_bytes -> ld n (w_mem w3) (rxqueue + o) = ld n (w_mem w1) (rxqueue + o)) as Hld.
  { intros n o ??. eapply block_ld; [exact B3|exact Hq1|lia|lia|]. intros c Hc Hf.
    assert (range txqueue tx_bytes_all c) as Ht by (unfold tx_bytes_all, MAX_TX_QUEUE_ENTRIES; qnum; lia).
    pose proof (br_queues _ _ Hb). clear Hf. unfold range, disj in *. lia. }
  apply (start_rx_still dev Hbar poll_fuel rv w3).
  - done.
  - by eapply block_booted.
  - by eapply block_booted.
  - eapply card_known_booted; [exact B3|]. eapply card_known_booted; [exact B1|apply Hb].
  - apply Rnew, (br_rx _ _ Hb).
  - done.
  - rewrite Hld by (unrq; unfold rx_bytes, MAX_RX_QUEUE_ENTRIES; unrq; lia). exact Rn.
  - rewrite Hld by (unrq; unfold rx_bytes, MAX_RX_QUEUE_ENTRIES; unrq; lia). exact Rd.
  - pose proof (bo_room _ _ _ _ B3). pose proof (bo_room _ _ _ _ B1). pose proof (br_room _ _ Hb). lia.
Qed.

Lemma reset_and_init_up w P : boot_ready w P ->
  wp (reset_and_init poll_fuel dev) (fun _ w' => exists virt, tx_up w' P virt) (fun f _ => alloc_failure f) w.
Proof.
  intros Hb0. unfold reset_and_init. rewrite Htx. apply (reset_spec w P); [exact Hb0|]. clear w Hb0. intros w Hb Hidle.
  apply wp_bind. eapply wp_conseq; [apply init_rx_still; [done|done|apply Hb|apply Hb]|]. cbn beta.
  intros _ w1 (rv & Hrs). pose proof (xs_still _ _ _ _ Hrs) as [B1 C1].
  assert (tx_idle (w_hw w1) 0) as Hidle1.
  { destruct Hidle as (t & lo & hi & len & Hr). exists t, lo, hi, len. rewrite (cm_regs _ _ C1); [done|by rewrite Hr]. }
  pose proof (boot_blank w w1 P Hb Hidle1 B1) as Hbl1.
  apply wp_bind. eapply wp_conseq; [by apply (init_tx_still w1 P)|]. cbn beta.
  intros _ w3 (w2 & virt & Hbl2 & S2 & Hset & B3 & Hdma & _).
  assert (booted (tx_fields dev 0) 0 w1 w3) as B13.
  { eapply (booted_seq _ 0 0); [lia|eapply booted_mono, S2; [by intros a []|lia]|exact B3]. }
  pose proof (fun a => rx_writes_apart w w1 rv P a Hb Hrs) as HG.
  rewrite Hrx. change (Z.to_nat 1) with 1%nat. cbn [for_loop]. do 2 apply wp_bind.
  eapply wp_conseq; [by apply (start_rx_after w w1 w3 rv P)|]. cbn beta. intros _ w4 [B4 C4]. apply wp_ret. do 2 apply wp_bind.
  eapply wp_mono; [apply (start_tx_up (rx_writes rv) w2 w4 P virt Hbl2)| |intros ? ? []].
  - eapply tx_ring_set_then; [exact Hset| |exact B4| |intros a Ha; by apply HG].
    + eapply block_booted; [exact B3|apply (tb_queue _ _ _ _ Hbl2)].
    + destruct (rs_programmed _ _ _ _ _ _ Hset) as (t & p & _ & _ & Hr). apply (cm_regs _ _ C4). by rewrite Hr.
  - exact HG.
  - eapply pool_packets_booted; [exact B4|intros a Ha; by apply HG|].
    eapply pool_packets_booted; [exact B13| |].
    { intros a Ha. apply (tx_queue_off_pool dev 0 w1 P a Hbl1). unfold NUM_TX_QUEUE_ENTRIES. qnum. lia. }
    eapply pool_packets_booted; [exact B1| |apply Hb]. intros a. by apply (rx_off_pool w).
  - by rewrite (cm_dma _ _ C4).
  - cbn beta. intros _ w5 (_ & _ & Hup). apply wp_ret. apply wp_bind.
    eapply (wp_reg _ nothing 0 w5 w5); [apply reg_set_flags; [done|creg]|apply still_refl|]. intros _ w6 M6 S6.
    eapply wp_reg; [apply reg_wait_for_link|exact S6|]. intros _ w7 M7 S7.
    exists virt. eapply tx_up_still; [|exact S7|exact Hup]. by rewrite M7.
Qed.
End start.
