(* ===== verification/PktMain.v ===== *)
(** * ixy-pktgen, from its first instruction on

    main of ixy-pktgen.c: init_mempool, ixgbe_init with everything it calls, the
    system call filter, the statistics and the transmit loop, composed from the
    components' own specifications.  The program ends early only for a reason
    named in [startup_failure]. *)
From S2P Require Import Prelude Mem Platform Memory Registers IxgbeCpp Stats Apps Device Pci Ixgbe Ring TxRing RxRing.
From S2P Require Import MemoryProps DeviceProps IxgbeProps TxProps RxProps AppProps TxEngine PktGen Startup TxStart RxStart PktStart.

(** a checked call failed, a page is not mapped, an assertion of pci.c does not
    hold, or the system call filter could not be installed *)
Definition startup_failure (f : failure) : Prop :=
  alloc_failure f \/ f ∈ Abort <$> ["assertion failed"; "Failed to init seccomp filter context"; "add rule"].
Lemma startup_alloc f : alloc_failure f -> startup_failure f.
Proof. by left. Qed.
Lemma startup_exit n : startup_failure (Exit n).
Proof. left. left. by exists n. Qed.

Section main.
Context {H : Type} {bar : Z} `{NicWriteback H, !HostLaws H, !StartLaws H, !TxStart H bar,
  !TxEngine H (bar + IXGBE_TDT 0) NUM_TX_QUEUE_ENTRIES, !CardStart H bar, !TxRun H bar}.
Implicit Types (w : world H) (h : H) (P : pool).
Context (NDEBUG : bool).

(** ** Programs that only call the kernel *)
Definition os_prog {A} (c : M (world H) A) (R : A -> Prop) : Prop :=
  forall w, wp c (fun a w' => R a /\ w_mem w' = w_mem w /\ rtc host_step (w_hw w) (w_hw w')) (fun f _ => startup_failure f) w.

Lemma os_ret {A} (a : A) (R : A -> Prop) : R a -> os_prog (mret a) R.
Proof. intros HR w. by apply wp_ret. Qed.
Lemma os_fail {A} f (R : A -> Prop) : startup_failure f -> os_prog (fail f) R.
Proof. intros Hf w. by apply wp_fail. Qed.
Lemma os_bind {A B} (c : M (world H) A) (k : A -> M (world H) B) (R : A -> Prop) (Q : B -> Prop) :
  os_prog c R -> (forall a, R a -> os_prog (k a) Q) -> os_prog (c ≫= k) Q.
Proof.
  intros Hc Hk w. apply wp_bind. eapply wp_conseq; [apply Hc|]. cbn beta. intros a w1 (HR & Hm & Hs).
  eapply wp_conseq; [by apply Hk|]. cbn beta. intros b w2 (HQ & Hm2 & Hs2). split; [done|]. split; [by rewrite Hm2|by etransitivity].
Qed.
Definition any {A} (a : A) : Prop := True.
Lemma os_call c : (forall a n, c <> Sys_munmap a n) -> os_prog (syscall_ c) (fun r => exists h, r = (sys c h).1).
Proof.
  intros Hc w. apply wp_syscall. intros r h Hs. split; [exists (w_hw w); by rewrite Hs|]. split; [done|]. cbn [w_hw set_hw].
  apply rtc_once. replace h with (sys c (w_hw w)).2 by (by rewrite Hs). by apply sys_host.
Qed.
Lemma os_check c : (forall a n, c <> Sys_munmap a n) ->
  os_prog (check_err (syscall_ c)) (fun r => r <> -1 /\ exists h, r = (sys c h).1).
Proof.
  intros Hc w. apply wp_check_syscall; [intros h _; apply startup_exit|]. intros r h Hs Hr.
  split; [split; [done|exists (w_hw w); by rewrite Hs]|]. split; [done|]. cbn [w_hw set_hw].
  apply rtc_once. replace h with (sys c (w_hw w)).2 by (by rewrite Hs). by apply sys_host.
Qed.
Lemma os_any {A} (c : M (world H) A) R : os_prog c R -> os_prog c any.
Proof. intros Hc w. eapply wp_conseq; [apply Hc|]. cbn beta. intros a w1 (_ & Hr). by split. Qed.
Lemma os_assert c : os_prog c any -> os_prog (assert_ NDEBUG c) any.
Proof.
  intros Hc. eapply os_bind; [exact Hc|]. intros b _. destruct (b || NDEBUG); [by apply os_ret|]. apply os_fail. right. left.
Qed.
Lemma os_lseek_is4 fd : os_prog (r ← syscall_ (Sys_lseek fd 4 SEEK_SET); mret (r =? 4)) any.
Proof. eapply os_bind; [by apply os_call|]. intros r _. by apply os_ret. Qed.

(** pci.c: the registers are mapped at [bar] *)
Lemma pci_map_spec pci : os_prog (pci_map_resource NDEBUG pci) (fun r => r = bar).
Proof.
  unfold pci_map_resource. eapply os_bind.
  { instantiate (1 := any). unfold remove_driver. eapply os_bind; [by apply os_call|]. intros fd _. destruct (fd =? -1); [by apply os_ret|].
    eapply os_bind; [by apply os_call|]. intros _ _. eapply os_bind; [by apply os_call|]. intros _ _. by apply os_ret. }
  intros _ _. eapply os_bind.
  { instantiate (1 := any). unfold enable_dma. eapply os_bind; [by apply os_check|]. intros fd _.
    eapply os_bind; [apply os_assert, os_lseek_is4|]. intros _ _.
    eapply os_bind.
    { instantiate (1 := any). intros w. unfold wp. destruct (sys_read fd 2 (w_hw w)) as [rv h] eqn:E. split; [done|]. split; [done|].
      apply rtc_once. right. right. exists fd, 2. by rewrite E. }
    intros [r dma] _. eapply os_bind; [by apply os_assert, os_ret|]. intros _ _.
    eapply os_bind; [apply os_assert, os_lseek_is4|]. intros _ _. apply os_assert.
    eapply os_bind; [by apply os_call|]. intros r2 _. by apply os_ret. }
  intros _ _. eapply os_bind; [by apply os_check|]. intros fd _. eapply os_bind; [by apply os_check|]. intros size _.
  intros w. eapply wp_conseq; [by apply os_check|]. cbn beta. intros p w1 ((Hp & h & Hh) & Hrest). split; [|exact Hrest].
  destruct (bar_mapped h size fd) as [Hx|Hx]; congruence.
Qed.

(** ** The program's own pool *)
Definition own_pool_bytes : Z := sizeof_mempool + NUM_BUFS * 4.

Lemma init_mempool_up w : card_known w -> own_pool_bytes <= heap_room (w_hw w) ->
  wp pktgen_init_mempool (fun r w' => exists P, p_addr P = r /\ pool_packets w' P /\ accounted P [] /\
      p_num P = NUM_BUFS /\ booted nothing own_pool_bytes w w') (fun f _ => startup_failure f) w.
Proof.
  intros Hcard Hroom. unfold pktgen_init_mempool. apply wp_bind.
  eapply wp_mono; [apply (mempool_spec NUM_BUFS 0 w); done| |intros f ? Hf; by apply startup_alloc]. cbn beta.
  intros r w1 (mem & Hp & B1 & _ & Hnew & _). set (P := fresh_pool r mem NUM_BUFS (buf_size_of 0)) in *.
  change r with (p_addr P). eapply wp_mono; [apply (prefill_spec P (Z.to_nat NUM_BUFS) w1 (ph_ok _ _ Hp)); done| |intros ? ? []].
  cbn beta zeta. intros r' w2 (-> & Hok2 & Hfill & Hw2 & Hag). exists (set_free (reverse (seqZ 0 (p_num P))) P).
  split; [reflexivity|]. split; [|split; [|split; [reflexivity|]]].
  - split; [by eapply (pool_held_agree P _ w1)|done|exact Hfill].
  - unfold accounted. cbn [app set_free p_free p_num]. apply reverse_Permutation.
  - replace own_pool_bytes with (own_pool_bytes + 0) by lia. eapply booted_fresh; [exact B1|by apply booted_agree|].
    intros a b n Ha Hr Hx. by apply (pool_apart_mem _ P b n a Hnew Hx Ha).
Qed.

(** ** ixgbe_init *)
Context (poll_fuel : nat) (Htf : (enable_latency bar < poll_fuel)%nat) (Hsf : (start_latency bar < poll_fuel)%nat).

Definition init_bytes (pci : string) : Z :=
  sizeof_ixy_device + (Z.of_nat (String.length pci) + 1) + rx_bytes + tx_bytes_all + rx_pool_bytes.

Lemma ixgbe_init_up w P pci : card_known w -> pool_packets w P -> init_bytes pci <= heap_room (w_hw w) ->
  wp (ixgbe_init NDEBUG poll_fuel pci 1 1) (fun dev w' => exists virt, tx_up dev w' P virt /\ addr dev = bar) (fun f _ => startup_failure f) w.
Proof.
  intros Hcard Hpp Hroom. unfold ixgbe_init, init_bytes in *.
  assert (0 < sizeof_ixy_device /\ 0 < rx_bytes /\ 0 < tx_bytes_all /\ 0 < rx_pool_bytes) as (N1 & N2 & N3 & N4) by (vm_compute; split_and!; reflexivity).
  assert (booted nothing 0 w w) as B by apply booted_refl.
  apply wp_bind. eapply wp_conseq; [by apply os_call|]. cbn beta. intros uid w1 (_ & M1 & S1).
  pose proof (booted_trans _ _ _ _ _ _ B (booted_hosts nothing _ _ M1 S1)) as B1. clear M1 S1 B.
  change (MAX_QUEUES <? 1) with false. cbn iota. pose proof (bo_room _ _ _ _ B1) as R1.
  apply wp_bind. eapply wp_mono; [apply (malloc_fresh sizeof_ixy_device); [lia|by eapply card_known_booted]| |intros ? ? []].
  cbn beta. intros da w2 (B2 & _). apply (booted_trans _ _ _ _ _ _ B1) in B2. clear B1 R1. pose proof (bo_room _ _ _ _ B2) as R2.
  apply wp_bind. eapply wp_mono; [apply (malloc_fresh (Z.of_nat (String.length pci) + 1)); [lia|by eapply card_known_booted]| |intros ? ? []].
  cbn beta. intros sa w3 (B3 & _). apply (booted_trans _ _ _ _ _ _ B2) in B3. clear B2 R2.
  apply wp_bind. eapply wp_conseq; [apply pci_map_spec|]. cbn beta. intros r w4 (-> & M4 & S4).
  pose proof (booted_trans _ _ _ _ _ _ B3 (booted_hosts nothing _ _ M4 S4)) as B4. clear B3 M4 S4. pose proof (bo_room _ _ _ _ B4) as R4.
  pose proof (card_known_booted _ _ _ _ B4 Hcard) as C4.
  pose proof (pool_packets_booted _ _ _ _ _ B4 ltac:(by intros a []) Hpp) as P4.
  apply wp_bind. eapply wp_mono; [apply (calloc_fresh 1 rx_bytes w4); [lia|exact C4]| |intros ? ? []].
  cbn beta. rewrite Z.mul_1_l. intros rxq w5 (B5 & [K5 D5] & Hrx0 & Hrx1 & Z5 & _).
  pose proof (card_known_booted _ _ _ _ B5 C4) as C5. pose proof (bo_room _ _ _ _ B5) as R5.
  pose proof (pool_packets_booted _ _ _ _ _ B5 ltac:(by intros a []) P4) as P5.
  apply wp_bind. eapply wp_mono; [apply (calloc_fresh 1 tx_bytes_all w5); [lia|exact C5]| |intros ? ? []].
  cbn beta. rewrite Z.mul_1_l. intros txq w6 (B6 & [K6 D6] & Htx0 & Htx1 & Z6 & _). pose proof (bo_room _ _ _ _ B6) as R6.
  cbn zeta. set (dev := IxyDevice _ _ _ _ _ _ _). apply wp_bind.
  eapply wp_mono; [apply (reset_and_init_up dev eq_refl eq_refl eq_refl poll_fuel Htf Hsf w6 P)| |intros f ? Hf; by apply startup_alloc].
  - assert (rx_queue dev 0 = rxq /\ tx_queue dev 0 = txq) as [Eq1 Eq2] by (unfold rx_queue, tx_queue; cbn; lia).
    pose proof (pp_held _ _ P4) as [_ Hs4 Hu4]. pose proof (pp_held _ _ P5) as [_ Hs5 Hu5].
    split; rewrite ?Eq1, ?Eq2; try done.
    + by eapply pool_packets_booted; [exact B6|intros a []|].
    + by eapply block_booted.
    + pose proof (D6 _ _ (bl_reserved _ _ _ K5)). unfold disj in *. lia.
    + apply D6, Hs5.
    + apply D5, Hs4.
    + apply D6, Hu5.
    + apply D5, Hu4.
    + by eapply card_known_booted.
    + lia.
  - cbn beta. intros _ w7 (virt & Hup). apply wp_ret. by exists virt.
Qed.

(** ** main *)
Lemma tx_up_inv dev w P virt : addr dev = bar -> tx_up dev w P virt -> accounted P [] -> NUM_TX_QUEUE_ENTRIES <= p_num P ->
  pg_inv dev w P (empty_ring dev 0 virt) [].
Proof.
  intros Hbar [U1 U2 (p & Hp & Hpb & Hr) U4 U5] Hacc Hnum. pose proof U2 as [Hh Hsz Hf].
  destruct (starts_running (w_hw w) virt) as [Hrun Htail]; try (rewrite Hr; done); try done.
  { rewrite Hr. unfold tr_base. cbn [tr_lo tr_hi]. by rewrite Z.add_comm, <- Z.div_mod. }
  split.
  - split; [by rewrite Hbar|done|done|exact Hnum|exact Hsz].
  - exact U1.
  - exact Hacc.
  - exact Hf.
  - intros i a Hi Ha Hc. by apply (pool_held_own w P a Hh (client_in_pool P i a (pk_shape _ _ (ph_ok _ _ Hh)) Hi Hc)).
  - exact Hrun.
  - rewrite Htail. done.
  - intros k Hk. unfold q_len in Hk. cbn in Hk. lia.
Qed.

Context (libseccomp : seccomp_call -> M (world H) Z) (Hsec : forall c, os_prog (libseccomp c) any).

Lemma seccomp_spec : os_prog (setup_seccomp libseccomp) any.
Proof.
  assert (forall name arg, os_prog (add_rule libseccomp name arg) any) as Hrule.
  { intros name arg. eapply os_bind; [apply Hsec|]. intros r _. destruct (r =? 0); [by apply os_ret|]. apply os_fail. right. do 2 right. left. }
  unfold setup_seccomp. eapply os_bind; [apply Hsec|]. intros ctx _.
  destruct (ctx =? NULL); [apply os_fail; right; right; left|].
  do 3 (eapply os_bind; [apply Hrule|]; intros _ _). eapply os_bind; [apply Hsec|]. intros r _.
  destruct (negb (r =? 0)); [apply os_fail; right; do 2 right; left|].
  eapply os_bind; [apply Hsec|]. intros r2 _. by apply os_ret.
Qed.

Lemma os_still {A} (c : M (world H) A) : os_prog c any ->
  forall w, wp c (fun _ w' => w_mem w' = w_mem w /\ still nothing 0 w w') (fun f _ => startup_failure f) w.
Proof. intros Hc w. eapply wp_conseq; [apply Hc|]. cbn beta. intros a w1 (_ & Hm & Hs). split; [done|by apply still_hosts]. Qed.

(** what the program takes from the heap *)
Definition pktgen_bytes (pci : string) : Z := own_pool_bytes + init_bytes pci.

(** a set-up of six programs, and what follows it *)
Lemma setup_then {A1 A2 A3 A4 B C} (c1 : M (world H) A1) (c2 : M (world H) A2) (c3 : M (world H) A3) (c4 : M (world H) unit)
    (c5 : A3 -> M (world H) A4) (f : A1 -> A2 -> A3 -> A4 -> A4 -> B) (k : B -> M (world H) C) w :
  ((a1 ← c1; a2 ← c2; a3 ← c3; c4 ;; a4 ← c5 a3; a5 ← c5 a3; mret (f a1 a2 a3 a4 a5)) ≫= k) w =
  (a1 ← c1; a2 ← c2; a3 ← c3; c4 ;; a4 ← c5 a3; a5 ← c5 a3; k (f a1 a2 a3 a4 a5)) w.
Proof.
  unfold mbind, M_bind. destruct (c1 w) as [a1 w1| |]; [|done..]. destruct (c2 w1) as [a2 w2| |]; [|done..].
  destruct (c3 w2) as [a3 w3| |]; [|done..]. destruct (c4 w3) as [a4 w4| |]; [|done..].
  destruct (c5 a3 w4) as [a5 w5| |]; [|done..]. by destruct (c5 a3 w5).
Qed.
Lemma wp_ran {A} (c : M (world H) A) Q E w : wp c Q E w -> wp c (fun a w' => c w = Ok a w' /\ Q a w') E w.
Proof. unfold wp. by destruct (c w). Qed.

(** the program, up to its loop *)
Lemma pktgen_setup_spec w pci {A} (k : ixy_device -> Z -> Z -> Device.device_stats -> Device.device_stats -> M (world H) A) Q E :
  card_known w -> pktgen_bytes pci <= heap_room (w_hw w) -> (forall f w', startup_failure f -> E f w') ->
  (forall w' dev P virt last st old, pg_inv dev w' P (empty_ring dev 0 virt) [] -> wp (k dev (p_addr P) last st old) Q E w') ->
  wp (mempool ← pktgen_init_mempool; last ← monotonic_time; dev ← ixgbe_init NDEBUG poll_fuel pci 1 1;
      setup_seccomp libseccomp ;; st ← stats_init (Some dev); old ← stats_init (Some dev); k dev mempool last st old) Q E w.
Proof.
  intros Hcard Hroom HE Hk. assert (0 <= init_bytes pci /\ 0 <= own_pool_bytes) as [N1 N2].
  { split; [|vm_compute; discriminate]. unfold init_bytes.
    assert (0 <= sizeof_ixy_device /\ 0 <= rx_bytes /\ 0 <= tx_bytes_all /\ 0 <= rx_pool_bytes) by (vm_compute; split_and!; discriminate). lia. }
  unfold pktgen_bytes in Hroom. apply wp_bind. eapply wp_mono; [apply init_mempool_up; [exact Hcard|lia]| |intros f ? Hf; by apply HE].
  cbn beta. intros r w1 (P & <- & Hpp & Hacc & Hnum & B1). apply wp_bind.
  eapply wp_mono; [apply os_still|  |intros f ? Hf; by apply HE].
  { unfold monotonic_time. eapply os_bind; [by apply os_call|]. intros t _. by apply os_ret. }
  cbn beta. intros last w2 [_ [B2 _]]. apply (booted_trans _ _ _ _ _ _ B1) in B2 as B12.
  apply wp_bind. eapply wp_mono; [apply (ixgbe_init_up w2 P pci)| |intros f ? Hf; by apply HE].
  { by eapply card_known_booted. }
  { by eapply pool_packets_booted; [exact B2|intros a []|]. }
  { pose proof (bo_room _ _ _ _ B12). lia. }
  cbn beta. intros dev w3 (virt & Hup3 & Hbar). apply wp_bind.
  eapply wp_mono; [apply (os_still _ seccomp_spec)| |intros f ? Hf; by apply HE]. cbn beta. intros _ w4 [M4 S4].
  pose proof (tx_up_still dev w3 w4 P virt M4 S4 Hup3) as Hup4.
  assert (forall d, reg_prog (stats_init (Some d))) as Hst.
  { intros d. unfold stats_init. apply reg_bind; [|intros ?; apply reg_ret]. apply reg_bind; [apply reg_stats|intros ?; apply reg_ret]. }
  apply wp_bind. eapply (wp_reg _ nothing 0 w4 w4); [apply Hst|apply still_refl|]. intros st w5 M5 S5.
  apply wp_bind. eapply wp_reg; [apply Hst|exact S5|]. intros old w6 M6 S6.
  apply (Hk w6 dev P virt), tx_up_inv; [done| |done|by rewrite Hnum].
  eapply tx_up_still; [|exact S6|exact Hup4]. by rewrite M6.
Qed.

(** What main does before its loop: the device, the pool and the state that the
    loop starts from. *)
Definition pktgen_setup (pci : string) : M (world H) (ixy_device * Z * pktgen_state) :=
  mempool ← pktgen_init_mempool; last ← monotonic_time; dev ← ixgbe_init NDEBUG poll_fuel pci 1 1;
  setup_seccomp libseccomp ;; st ← stats_init (Some dev); old ← stats_init (Some dev);
  mret (dev, mempool, PktgenState last st old 0 []).
Lemma pktgen_main_setup prog pci k w :
  pktgen_main NDEBUG poll_fuel libseccomp [prog; pci] k w =
  ('(dev, mempool, s0) ← pktgen_setup pci;
   s ← iterate k (pktgen_step poll_fuel dev mempool) s0; mret (Some s)) w.
Proof.
  symmetry. exact (setup_then _ _ _ _ (fun dev => stats_init (Some dev))
    (fun mempool last dev st old => (dev, mempool, PktgenState last st old 0 []))
    (fun '(dev, mempool, s0) => s ← iterate k (pktgen_step poll_fuel dev mempool) s0; mret (Some s)) w).
Qed.
Lemma setup_ran w pci : card_known w -> pktgen_bytes pci <= heap_room (w_hw w) ->
  wp (pktgen_setup pci) (fun r w' => pktgen_setup pci w = Ok r w' /\ exists P virt,
      pg_inv r.1.1 w' P (empty_ring r.1.1 0 virt) [] /\ r.1.2 = p_addr P /\ g_counter r.2 = 0)
    (fun f _ => startup_failure f) w.
Proof.
  intros Hcard Hroom. apply wp_ran. unfold pktgen_setup.
  apply (pktgen_setup_spec w pci (fun dev mempool last st old => mret (dev, mempool, PktgenState last st old 0 [])));
    [exact Hcard|exact Hroom|intros f _ Hf; exact Hf|].
  intros w' dev P virt last st old Hpg. apply wp_ret. by exists P, virt.
Qed.

Lemma pktgen_main_spec w prog pci k :
  card_known w -> pktgen_bytes pci <= heap_room (w_hw w) ->
  (latency (bar + IXGBE_TDT 0) NUM_TX_QUEUE_ENTRIES < poll_fuel)%nat ->
  wp (pktgen_main NDEBUG poll_fuel libseccomp [prog; pci] k) (fun r w' => exists s s0 dev w0 P0 virt P q sent,
      r = Some s /\ pktgen_main NDEBUG poll_fuel libseccomp [prog; pci] 0 w = Ok (Some s0) w0 /\
      pg_inv dev w0 P0 (empty_ring dev 0 virt) [] /\ turns dev w0 P0 (empty_ring dev 0 virt) sent w' P q /\
      length sent = k /\ pg_inv dev w' P q [] /\ u64 (g_counter s) = u64 (Z.of_nat k))
    (fun f _ => startup_failure f \/ f = Fault "double to uint32_t") w.
Proof.
  intros Hcard Hroom Hlat. unfold wp at 1. rewrite pktgen_main_setup. change (wp
    ('(dev, mempool, s0) ← pktgen_setup pci; s ← iterate k (pktgen_step poll_fuel dev mempool) s0; mret (Some s))
    (fun r w' => exists s s0 dev w0 P0 virt P q sent,
      r = Some s /\ pktgen_main NDEBUG poll_fuel libseccomp [prog; pci] 0 w = Ok (Some s0) w0 /\
      pg_inv dev w0 P0 (empty_ring dev 0 virt) [] /\ turns dev w0 P0 (empty_ring dev 0 virt) sent w' P q /\
      length sent = k /\ pg_inv dev w' P q [] /\ u64 (g_counter s) = u64 (Z.of_nat k))
    (fun f _ => startup_failure f \/ f = Fault "double to uint32_t") w).
  apply wp_bind. eapply wp_mono; [by apply setup_ran| |intros f ? ?; by left]. cbn beta.
  intros [[dev mp] s0] w0 (Hrun & P0 & virt & Hpg & Hmp & Hc0). cbn [fst snd] in *. subst mp. apply wp_bind.
  eapply wp_mono; [by apply (pktgen_turns_spec poll_fuel dev k s0 w0 P0 _ Hpg)| |intros f ? ->; by right]. cbn beta.
  intros s w' (P & q & sent & Hts & Hpg' & Hl & Hc). apply wp_ret. exists s, s0, dev, w0, P0, virt, P, q, sent.
  split; [done|]. split; [|by rewrite Hc0 in Hc]. rewrite pktgen_main_setup. unfold mbind at 1, M_bind at 1. by rewrite Hrun.
Qed.
End main.
