(* ===== verification/TxCard.v ===== *)
(** * An 82599 that transmits, and the host around it

    An executable card for one process on a link on which nothing arrives:
    registers that hold what is written to them, a reset, one transmit queue
    (queue 0, the engine of TxDevice.v) that sends while it is enabled; a kernel
    that maps new memory after the old, backs every page by the frame of the same
    number and maps the card's registers once; a heap below the mappings.  It is
    an instance of every interface of the library. *)
From S2P Require Import Prelude Mem Platform Trace Memory Registers IxgbeCpp Stats Apps Device Pci Ixgbe Ring TxRing.
From S2P Require Import MemoryProps DeviceProps IxgbeProps TxEngine TxDevice PktGen Startup TxStart RxStart PktStart.

Record txcard := TxCard {
  tc_regs : gmap Z Z;       (* but for head and tail of queue 0 *)
  tc_head : Z;
  tc_tail : Z;
  tc_wait : nat;
  tc_clock : Z;
  tc_heap : Z;              (* where the heap's free part begins *)
  tc_maps : Z;              (* where the kernel maps next *)
  tc_pci : option Z;        (* size of the mapping of the registers *)
  tc_off : Z                (* file position of the page map *)
}.
Definition tc_bar : Z := 2 ^ 46.
Definition tc_base : Z := 2 ^ 40.
Definition tc_delay : nat := 1.
Definition tc_tick : Z := 1000000.
Local Abbreviation tdt := (tc_bar + IXGBE_TDT 0).
Local Abbreviation engine := (txdev tdt NUM_TX_QUEUE_ENTRIES tc_delay).
#[export] Instance ring_num : RingLarge NUM_TX_QUEUE_ENTRIES.
Proof. by unfold RingLarge. Qed.

Definition tc_reg (h : txcard) (r : Z) : Z := default 0 (tc_regs h !! (tc_bar + r)).
Definition tc_on (h : txcard) : bool := Z.testbit (tc_reg h (IXGBE_TXDCTL 0)) 25.
Definition tc_te (h : txcard) : bool := Z.testbit (tc_reg h IXGBE_DMATXCTL) 0.
Definition tc_ring (h : txcard) : Z := tc_reg h (IXGBE_TDBAL 0) + 2 ^ 32 * tc_reg h (IXGBE_TDBAH 0).
Definition tc_queue (h : txcard) : engine := TxDev (tc_ring h) (tc_head h) (tc_tail h) (tc_wait h) (tc_clock h) tc_tick.

Definition tc_set_queue (hd tl : Z) (wt : nat) (h : txcard) : txcard :=
  TxCard (tc_regs h) hd tl wt (tc_clock h) (tc_heap h) (tc_maps h) (tc_pci h) (tc_off h).
Definition tc_write (r v : Z) (h : txcard) : txcard :=
  if r =? tc_bar + IXGBE_TDH 0 then tc_set_queue v (tc_tail h) (tc_wait h) h
  else if r =? tdt then tc_set_queue (tc_head h) v (tc_wait h) h
  else if (r =? tc_bar + IXGBE_CTRL) && (v =? IXGBE_CTRL_RST_MASK)
  then TxCard ∅ 0 0 (tc_wait h) (tc_clock h) (tc_heap h) (tc_maps h) (tc_pci h) (tc_off h)
  else TxCard (<[r := v]> (tc_regs h)) (tc_head h) (tc_tail h) (tc_wait h) (tc_clock h) (tc_heap h) (tc_maps h) (tc_pci h) (tc_off h).
Definition tc_value (r : Z) (h : txcard) : Z :=
  if r =? tc_bar + IXGBE_CTRL then 0
  else if r =? tc_bar + IXGBE_EEC then IXGBE_EEC_ARD
  else if r =? tc_bar + IXGBE_RDRXCTL then IXGBE_RDRXCTL_DMAIDONE
  else if r =? tc_bar + IXGBE_LINKS then Z.lor IXGBE_LINKS_UP IXGBE_LINKS_SPEED_10G_82599
  else default 0 (tc_regs h !! r).
Definition tc_dma (h : txcard) (m : mem) : txcard * list (Z * Z) :=
  if tc_on h && tc_te h
  then let '(q, ws) := td_dma (tc_queue h) m in (tc_set_queue (td_head q) (tc_tail h) (td_wait q) h, ws)
  else (h, []).

(** the mappings end here *)
Definition tc_top (h : txcard) : Z := Z.min tc_bar (Z.max tc_base (tc_maps h)).
Definition tc_host (hp mp : Z) (pci : option Z) (off : Z) (h : txcard) : txcard :=
  TxCard (tc_regs h) (tc_head h) (tc_tail h) (tc_wait h) (tc_clock h) hp mp pci off.
Definition tc_mmap (size flags : Z) (h : txcard) : Z * txcard :=
  if flags =? MAP_SHARED
  then match tc_pci h with
       | None => if (0 <=? size) && (size <=? 2 ^ 40)
                 then (tc_bar, tc_host (tc_heap h) (tc_maps h) (Some size) (tc_off h) h) else (-1, h)
       | Some _ => (-1, h)
       end
  else if (0 <=? size) && (tc_top h + size <=? tc_bar)
       then (tc_top h, tc_host (tc_heap h) (tc_top h + size) (tc_pci h) (tc_off h) h) else (-1, h).
Definition tc_sys (c : syscall) (h : txcard) : Z * txcard :=
  match c with
  | Sys_sysconf_pagesize => (4096, h)
  | Sys_open _ _ _ => (3, h)
  | Sys_lseek _ off _ => (off, tc_host (tc_heap h) (tc_maps h) (tc_pci h) off h)
  | Sys_mmap size _ flags _ _ => tc_mmap size flags h
  | Sys_write16 _ _ => (2, h)
  | Sys_clock_gettime => (tc_clock h, TxCard (tc_regs h) (tc_head h) (tc_tail h) (tc_wait h) (tc_clock h + tc_tick)
      (tc_heap h) (tc_maps h) (tc_pci h) (tc_off h))
  | _ => (0, h)
  end.
(** the frame number that backs a page *)
Definition tc_frame (page : Z) : Z := if (0 <=? page) && (page <? 2 ^ 40) then page else 0.
Definition tc_malloc (n : Z) (h : txcard) : Z * txcard :=
  if (0 <? tc_heap h) && (0 <=? n) && (tc_heap h + n <=? tc_base)
  then (tc_heap h, tc_host (tc_heap h + n) (tc_maps h) (tc_pci h) (tc_off h) h) else (0, h).
#[export] Instance tc_platform : Platform txcard := {|
  mmio_read r h := (tc_value r h, h); mmio_write := tc_write; dma := tc_dma; sys := tc_sys;
  sys_read _ n h := (n, tc_frame (tc_off h / 8), h); errno _ := 12; malloc := tc_malloc; heap_free _ h := h
|}.

(** ** What the card may write *)
Definition tc_owns (h : txcard) (a : Z) : Prop := tc_on h = true /\ td_owns (tc_queue h) a.
Definition tc_regs_own : list Z := [IXGBE_TDBAL 0; IXGBE_TDBAH 0; IXGBE_TDH 0; IXGBE_TXDCTL 0].
Definition tc_grants (h : txcard) (r v a : Z) : Prop :=
  if r =? tdt then tc_on h = true /\ grants (tc_queue h) tdt v a
  else r - tc_bar ∈ tc_regs_own /\ tc_owns (tc_write r v h) a.

Lemma tc_queue_tail h v : tc_queue (tc_write tdt v h) = mmio_write tdt v (tc_queue h) /\
  tc_on (tc_write tdt v h) = tc_on h /\ tc_te (tc_write tdt v h) = tc_te h.
Proof. split; [|done]. cbn. unfold td_write. by rewrite Z.eqb_refl. Qed.

(** a register keeps its value while another one is written, unless the card is reset *)
Lemma tc_reg_ne h r v x : tc_bar + x <> r -> (r <> tc_bar + IXGBE_CTRL \/ v <> IXGBE_CTRL_RST_MASK) ->
  tc_reg (tc_write r v h) x = tc_reg h x.
Proof.
  intros Hne Hc. unfold tc_write. destruct (r =? tc_bar + IXGBE_TDH 0); [done|]. destruct (r =? tdt); [done|].
  destruct (Z.eqb_spec r (tc_bar + IXGBE_CTRL)), (Z.eqb_spec v IXGBE_CTRL_RST_MASK); try tauto.
  all: unfold tc_reg; cbn [andb tc_regs]; by rewrite lookup_insert_ne.
Qed.
Lemma tc_reg_eq h r v x : tc_bar + x = r -> x <> IXGBE_TDH 0 -> x <> IXGBE_TDT 0 -> x <> IXGBE_CTRL ->
  tc_reg (tc_write r v h) x = v.
Proof.
  intros <- Hh Ht Hc. unfold tc_write. rewrite !(proj2 (Z.eqb_neq (tc_bar + x) _)) by lia.
  unfold tc_reg. cbn [andb tc_regs]. by rewrite lookup_insert_eq.
Qed.
Lemma tc_index_ne h r v : r <> tc_bar + IXGBE_TDH 0 -> r <> tdt -> (r <> tc_bar + IXGBE_CTRL \/ v <> IXGBE_CTRL_RST_MASK) ->
  tc_head (tc_write r v h) = tc_head h /\ tc_tail (tc_write r v h) = tc_tail h /\
  tc_wait (tc_write r v h) = tc_wait h /\ tc_clock (tc_write r v h) = tc_clock h.
Proof.
  intros Hh Ht Hc. unfold tc_write. rewrite !(proj2 (Z.eqb_neq r _)) by done.
  destruct (Z.eqb_spec r (tc_bar + IXGBE_CTRL)), (Z.eqb_spec v IXGBE_CTRL_RST_MASK); tauto.
Qed.
(** a write that is none of the queue's business *)
Lemma tc_queue_other h r v : (r <> tc_bar + IXGBE_CTRL \/ v <> IXGBE_CTRL_RST_MASK) -> r <> tdt ->
  r - tc_bar ∉ tc_regs_own -> tc_queue (tc_write r v h) = tc_queue h /\ tc_on (tc_write r v h) = tc_on h.
Proof.
  intros Hc Ht Hn. unfold tc_regs_own in Hn. rewrite !not_elem_of_cons in Hn. destruct Hn as (N1 & N2 & N3 & N4 & _).
  destruct (tc_index_ne h r v) as (E1 & E2 & E3 & E4); [lia|done|done|].
  unfold tc_queue, tc_on, tc_ring. rewrite E1, E2, E3, E4, !tc_reg_ne by (done || lia). done.
Qed.
Lemma tc_reset h : tc_regs (tc_write (tc_bar + IXGBE_CTRL) IXGBE_CTRL_RST_MASK h) = ∅ /\
  tc_head (tc_write (tc_bar + IXGBE_CTRL) IXGBE_CTRL_RST_MASK h) = 0 /\ tc_tail (tc_write (tc_bar + IXGBE_CTRL) IXGBE_CTRL_RST_MASK h) = 0.
Proof. done. Qed.

Lemma tc_dma_cases h m : tc_dma h m = (h, []) \/
  (tc_on h = true /\ tc_te h = true /\ (tc_dma h m).2 = (td_dma (tc_queue h) m).2 /\
   tc_queue (tc_dma h m).1 = (td_dma (tc_queue h) m).1).
Proof.
  unfold tc_dma. destruct (tc_on h) eqn:E1; [|by left]. destruct (tc_te h) eqn:E2; [|by left]. right. cbn [andb].
  unfold td_dma. destruct (td_count (tc_queue h) =? 0); [done|]. by destruct (Nat.min _ _).
Qed.
Lemma tc_dma_keeps h m : let h' := (tc_dma h m).1 in tc_regs h' = tc_regs h /\ tc_tail h' = tc_tail h /\
  (tc_head h = tc_tail h -> tc_head h' = tc_head h) /\ tc_heap h' = tc_heap h /\ tc_maps h' = tc_maps h /\ tc_pci h' = tc_pci h.
Proof.
  unfold tc_dma. destruct (tc_on h && tc_te h); [|done]. unfold td_dma.
  destruct (Z.eqb_spec (td_count (tc_queue h)) 0) as [|Hc]; [done|].
  assert (tc_head h <> tc_tail h) as Hne.
  { intros E. apply Hc. unfold td_count, tc_queue; cbn. by rewrite E, Z.sub_diag. }
  by destruct (Nat.min _ _).
Qed.

#[export] Program Instance tc_ownership : NicOwnership txcard := {| nic_owns := tc_owns; grants := tc_grants |}.
Next Obligation.
  intros h m a v Hin. cbn in Hin. destruct (tc_dma_cases h m) as [E|(Hon & _ & E & _)]; rewrite E in Hin; [by apply elem_of_nil in Hin|].
  split; [done|]. exact (dma_writes_owned (H:=engine) (tc_queue h) m a v Hin).
Qed.
Next Obligation.
  intros h m a. cbn. destruct (tc_dma_cases h m) as [->|(Hon & _ & _ & E)]; [done|]. intros [_ Ha].
  rewrite E in Ha. split; [done|]. by apply td_dma_own in Ha.
Qed.
Next Obligation. done. Qed.
Next Obligation.
  intros h r v a Hx. change (tc_owns (tc_write r v h) a) in Hx. destruct Hx as [Hon Ha].
  change (tc_owns h a \/ tc_grants h r v a). unfold tc_grants. destruct (Z.eqb_spec r tdt) as [->|Hr].
  - destruct (tc_queue_tail h v) as (E & Eon & _). rewrite E in Ha. rewrite Eon in Hon.
    destruct (@mmio_write_own engine td_platform td_ownership (tc_queue h) tdt v a Ha) as [Hx|Hx]; [by left|by right].
  - destruct (decide (r - tc_bar ∈ tc_regs_own)) as [Hin|Hn]; [right; by split|left].
    destruct (decide (r = tc_bar + IXGBE_CTRL /\ v = IXGBE_CTRL_RST_MASK)) as [[-> ->]|Hc]; [done|].
    destruct (tc_queue_other h r v) as [E Eon]; [|done|done|].
    + destruct (decide (r = tc_bar + IXGBE_CTRL)); [right|left]; tauto.
    + rewrite E in Ha. rewrite Eon in Hon. done.
Qed.
#[export] Program Instance tc_writeback : NicWriteback txcard := {| desc_at h d o := o = txd_status |}.
Next Obligation. done. Qed.
Next Obligation. done. Qed.
Next Obligation.
  intros h m d o a Hd H0 H1 Ha. cbn in *. destruct (tc_dma_cases h m) as [E|(Hon & _ & E2 & E1)].
  - rewrite E in H1. cbn in H1. congruence.
  - intros [_ Hx]. rewrite E2 in H1. rewrite E1 in Hx. by apply (@dma_writeback engine td_platform td_ownership td_writeback (tc_queue h) m d o a Hd H0 H1 Ha).
Qed.

(** ** The host *)
Lemma tc_frame_bound page : 0 <= tc_frame page < 2 ^ 40.
Proof. unfold tc_frame. destruct ((0 <=? page) && (page <? 2 ^ 40)) eqn:E; [|done]. apply andb_true_iff in E as [?%Z.leb_le ?%Z.ltb_lt]. lia. Qed.
Lemma tc_frame_read page : Z.land (u64 (tc_frame page)) 0x7fffffffffffff = tc_frame page.
Proof.
  pose proof (tc_frame_bound page) as Hb. rewrite u64_small by ulia.
  change 0x7fffffffffffff with (2 ^ 55 - 1). rewrite land_ones_mod by done. apply Z.mod_small. ulia.
Qed.
Lemma tc_top_bound h : tc_base <= tc_top h <= tc_bar.
Proof. unfold tc_top, tc_base, tc_bar. lia. Qed.

Lemma tc_mmap_cases size flags h : tc_mmap size flags h = (-1, h) \/
  (tc_pci h = None /\ 0 <= size <= 2 ^ 40 /\
   tc_mmap size flags h = (tc_bar, tc_host (tc_heap h) (tc_maps h) (Some size) (tc_off h) h)) \/
  (0 <= size /\ tc_top h + size <= tc_bar /\
   tc_mmap size flags h = (tc_top h, tc_host (tc_heap h) (tc_top h + size) (tc_pci h) (tc_off h) h)).
Proof.
  unfold tc_mmap. destruct (flags =? MAP_SHARED).
  - destruct (tc_pci h); [by left|]. destruct ((0 <=? size) && (size <=? 2 ^ 40)) eqn:E; [|by left].
    apply andb_true_iff in E as [?%Z.leb_le ?%Z.leb_le]. right. left. done.
  - destruct ((0 <=? size) && (tc_top h + size <=? tc_bar)) eqn:E; [|by left].
    apply andb_true_iff in E as [?%Z.leb_le ?%Z.leb_le]. right. right. done.
Qed.
Lemma tc_malloc_cases n h : tc_malloc n h = (0, h) \/
  (0 < tc_heap h /\ 0 <= n /\ tc_heap h + n <= tc_base /\
   tc_malloc n h = (tc_heap h, tc_host (tc_heap h + n) (tc_maps h) (tc_pci h) (tc_off h) h)).
Proof.
  unfold tc_malloc. destruct ((0 <? tc_heap h) && (0 <=? n) && (tc_heap h + n <=? tc_base)) eqn:E; [|by left].
  rewrite !andb_true_iff, Z.ltb_lt, !Z.leb_le in E. right. tauto.
Qed.

#[export] Program Instance tc_host_laws : HostLaws txcard := {}.
Next Obligation. done. Qed.
Next Obligation. intros fd h. cbn [sys_read tc_platform fst snd]. rewrite tc_frame_read. apply tc_frame_bound. Qed.
Next Obligation.
  intros size prot flags fd off h p. subst p. cbn [sys tc_platform tc_sys]. pose proof (tc_top_bound h) as Ht.
  unfold tc_base, tc_bar in *. destruct (tc_mmap_cases size flags h) as [->|[(_ & Hs & ->)|(Hs & He & ->)]]; cbn [fst]; [by left|right..].
  - unfold tc_bar. lia.
  - unfold tc_bar in He. lia.
Qed.
Next Obligation.
  intros n h p. subst p. cbn [malloc tc_platform]. destruct (tc_malloc_cases n h) as [->|(H0 & Hn & Hb & ->)]; [by left|right]. cbn [fst]. unfold tc_base in Hb. lia.
Qed.

(** what the process's own steps keep of the card and its memory *)
Record tc_kept (h h' : txcard) : Prop := {
  tk_regs : tc_regs h' = tc_regs h;
  tk_tail : tc_tail h' = tc_tail h;
  tk_heap : tc_heap h <= tc_heap h';
  tk_top : tc_top h <= tc_top h';
  tk_pci : forall s, tc_pci h = Some s -> tc_pci h' = Some s
}.
#[global] Instance tc_kept_refl : Reflexive tc_kept.
Proof. by intros h. Qed.
Lemma tc_sys_kept c h : tc_kept h (tc_sys c h).2 /\ tc_heap (tc_sys c h).2 = tc_heap h /\
  tc_head (tc_sys c h).2 = tc_head h /\ tc_wait (tc_sys c h).2 = tc_wait h.
Proof.
  destruct c; cbn [tc_sys snd]; try (split; [by split|done]).
  destruct (tc_mmap_cases size flags h) as [->|[(Hp & Hs & ->)|(Hs & He & ->)]]; cbn [snd]; [done|..]; (split; [split|]); try done.
  - cbn. by rewrite Hp.
  - pose proof (tc_top_bound h). unfold tc_top at 2. cbn [tc_maps tc_host]. lia.
Qed.
Lemma tc_malloc_kept n h : tc_kept h (tc_malloc n h).2 /\ tc_head (tc_malloc n h).2 = tc_head h.
Proof. destruct (tc_malloc_cases n h) as [->|(H0 & Hn & Hb & ->)]; [done|]. split; [|done]. split; cbn; try done. lia. Qed.
Lemma tc_hw_kept h h' : hw_step h h' -> tc_kept h h' /\ tc_heap h' = tc_heap h /\ (tc_head h = tc_tail h -> tc_head h' = tc_head h).
Proof.
  intros [[m ->]|[r ->]]; [|done]. cbn [dma tc_platform]. destruct (tc_dma_keeps h m) as (E1 & E2 & E3 & E4 & E5 & E6).
  split; [|done]. split; [done|done|lia| |by rewrite E6]. unfold tc_top. rewrite E5. lia.
Qed.
Lemma tc_step_kept h h' : proc_step h h' -> tc_kept h h' /\ (tc_head h = tc_tail h -> tc_head h' = tc_head h).
Proof.
  intros [[Hs|[(c & _ & ->)|(fd & n & ->)]]|(n & ->)].
  - apply tc_hw_kept in Hs. tauto.
  - destruct (tc_sys_kept c h) as (? & _ & ? & _). tauto.
  - done.
  - destruct (tc_malloc_kept n h) as [? ?]. tauto.
Qed.

Lemma tc_owns_step h h' a : proc_step h h' -> tc_owns h' a -> tc_owns h a.
Proof.
  intros [[Hs|[(c & _ & ->)|(fd & n & ->)]]|(n & ->)].
  - intros Hx. exact (hw_steps_own (H:=txcard) h h' a (rtc_once _ _ Hs) Hx).
  - destruct (tc_sys_kept c h) as ([E1 E2 _ _ _] & _ & E3 & E4). cbn [sys tc_platform]. unfold tc_owns, tc_on, tc_reg, td_owns, td_count, td_desc, tc_queue, tc_ring, tc_reg. cbn.
    by rewrite E1, E2, E3.
  - done.
  - destruct (tc_malloc_kept n h) as ([E1 E2 _ _ _] & E3). cbn [malloc tc_platform]. unfold tc_owns, tc_on, tc_reg, td_owns, td_count, td_desc, tc_queue, tc_ring, tc_reg. cbn.
    by rewrite E1, E2, E3.
Qed.

(** ** The state of the host that is in use *)
Definition tc_reserved (h : txcard) (a n : Z) : Prop :=
  a + n <= Z.min (tc_heap h) tc_base \/ (tc_base <= a /\ a + n <= tc_top h) \/
  (exists s, tc_pci h = Some s /\ tc_bar <= a /\ a + n <= tc_bar + s).
Lemma tc_kept_reserved h h' a n : tc_kept h h' -> tc_reserved h a n -> tc_reserved h' a n.
Proof.
  intros [_ _ Hh Ht Hp] [Hr|[Hr|(s & Hs & Hr)]]; [left|right; left|right; right]; [lia|lia|].
  exists s. split; [by apply Hp|exact Hr].
Qed.
Lemma tc_write_host r v h : tc_heap (tc_write r v h) = tc_heap h /\ tc_maps (tc_write r v h) = tc_maps h /\
  tc_pci (tc_write r v h) = tc_pci h /\ tc_off (tc_write r v h) = tc_off h.
Proof.
  unfold tc_write. destruct (r =? _); [done|]. destruct (r =? _); [done|]. by destruct (_ && _).
Qed.
Definition tc_room (h : txcard) : Z := if 0 <? tc_heap h then tc_base - tc_heap h else -1.
Definition tc_page (v p : Z) : Prop := p = v /\ 0 <= v < 2 ^ 52.

#[export] Program Instance tc_start_laws : StartLaws txcard := {|
  reserved := tc_reserved; heap_room := tc_room; dma_page h v p := tc_page v p
|}.
Next Obligation. apply tc_owns_step. Qed.
Next Obligation. done. Qed.
Next Obligation.
  intros h a n b k [Hr|[Hr|(s & Hs & Hr)]] ??; [left|right; left|right; right]; [lia|lia|]. exists s. split; [done|lia].
Qed.
Next Obligation. intros h h' a n Hs. apply tc_kept_reserved, tc_step_kept, Hs. Qed.
Next Obligation.
  intros h r v a n. destruct (tc_write_host r v h) as (E1 & E2 & E3 & _). cbn. unfold tc_reserved, tc_top. by rewrite E1, E2, E3.
Qed.
Next Obligation.
  intros h size prot flags fd off a n Hr p. subst p. cbn [sys tc_platform tc_sys].
  pose proof (tc_top_bound h) as Hb. unfold disj.
  destruct (tc_mmap_cases size flags h) as [->|[(Hp & Hs & ->)|(Hs & He & ->)]]; cbn [fst]; [by left|right..].
  - destruct Hr as [Hr|[Hr|(s & Es & _)]]; [unfold tc_base in *; lia|lia|congruence].
  - destruct Hr as [Hr|[Hr|(s & Es & Hr)]]; unfold tc_base in *; lia.
Qed.
Next Obligation.
  intros h size prot flags fd off r. subst r. cbn [sys tc_platform tc_sys]. pose proof (tc_top_bound h) as Hb.
  destruct (tc_mmap_cases size flags h) as [->|[(Hp & Hs & ->)|(Hs & He & ->)]]; cbn [fst snd]; intros Hne; [done|..].
  - right. right. exists size. split; [done|lia].
  - right. left. split; [lia|]. unfold tc_top in *. cbn [tc_maps tc_host]. lia.
Qed.
Next Obligation.
  intros h n a k Hr p. subst p. cbn [malloc tc_platform]. pose proof (tc_top_bound h) as Hb. unfold disj.
  destruct (tc_malloc_cases n h) as [->|(H0 & Hn & Hle & ->)]; cbn [fst]; [by left|right].
  destruct Hr as [Hr|[Hr|(s & Es & Hr)]]; unfold tc_base, tc_bar in *; lia.
Qed.
Next Obligation.
  intros h n. cbn [malloc tc_platform]. destruct (tc_malloc_cases n h) as [->|(H0 & Hn & Hle & ->)]; cbn [fst snd]; [done|].
  intros _. left. cbn [tc_heap tc_host]. lia.
Qed.
Next Obligation.
  intros h n Hn. cbn [malloc tc_platform]. unfold tc_room in *. destruct (Z.ltb_spec 0 (tc_heap h)) as [Hh|Hh]; [|lia].
  unfold tc_malloc. rewrite (proj2 (Z.ltb_lt 0 (tc_heap h)) Hh), (proj2 (Z.leb_le 0 n)), (proj2 (Z.leb_le _ tc_base)) by lia.
  cbn [andb fst snd tc_heap tc_host]. rewrite (proj2 (Z.ltb_lt 0 _)) by lia. unfold NULL. lia.
Qed.
Next Obligation.
  intros h h' Hs. unfold tc_room. assert (tc_heap h' = tc_heap h) as ->; [|done].
  destruct Hs as [Hs|[(c & _ & ->)|(fd & n & ->)]]; [by apply tc_hw_kept|by apply tc_sys_kept|done].
Qed.
Next Obligation. intros h r v. cbn. unfold tc_room. by rewrite (proj1 (tc_write_host r v h)). Qed.
Next Obligation. done. Qed.
Next Obligation. done. Qed.
Next Obligation.
  intros h v fd s n x h' Hv (h1 & _ & h2 & E2 & h3 & E3 & _) _ _ _ Hnz. cbn in E2, E3.
  injection E2 as _ <-. injection E3 as _ <- _. cbn in Hnz. cbn [tc_off tc_host] in *.
  assert (v / 4096 * 8 / 8 = v / 4096) as E by (apply Z.div_mul; lia). rewrite E in *.
  assert (0 <= v / 4096) as H0 by (apply Z.div_pos; lia).
  destruct (Z.ltb_spec (v / 4096) (2 ^ 40)) as [Hlt|Hge].
  2:{ exfalso. apply Hnz. unfold tc_frame. by rewrite (proj2 (Z.ltb_ge _ _) Hge), andb_false_r. }
  unfold tc_page, entry_phys. rewrite tc_frame_read. unfold tc_frame.
  rewrite (proj2 (Z.leb_le 0 _) H0), (proj2 (Z.ltb_lt _ (2 ^ 40)) Hlt). cbn [andb].
  pose proof (Z.div_mod v 4096). change (2 ^ 52) with (2 ^ 40 * 4096). set (P := 2 ^ 40) in *. clearbody P.
  pose proof (Z.mod_pos_bound v 4096). split; [|split]; lia.
Qed.

(** ** The transmit queue's registers *)
Definition tc_txregs (h : txcard) (i : Z) : txregs :=
  TxRegs (if i =? 0 then tc_head h else tc_reg h (IXGBE_TDH i)) (if i =? 0 then tc_tail h else tc_reg h (IXGBE_TDT i))
    (tc_reg h (IXGBE_TDBAL i)) (tc_reg h (IXGBE_TDBAH i)) (tc_reg h (IXGBE_TDLEN i)) (Z.testbit (tc_reg h (IXGBE_TXDCTL i)) 25).
Ltac far_apart := repeat match goal with |- context [?a =? ?b] => rewrite (proj2 (Z.eqb_neq a b)) by lia end; done.
Ltac txq_regs := unfold IXGBE_TDBAL, IXGBE_TDBAH, IXGBE_TDLEN, IXGBE_TDH, IXGBE_TDT, IXGBE_TXDCTL in *.

(** one write, but for a reset *)
Lemma tc_write_plain y v h : y <> IXGBE_CTRL -> tc_write (tc_bar + y) v h =
  if y =? IXGBE_TDH 0 then tc_set_queue v (tc_tail h) (tc_wait h) h
  else if y =? IXGBE_TDT 0 then tc_set_queue (tc_head h) v (tc_wait h) h
  else TxCard (<[tc_bar + y := v]> (tc_regs h)) (tc_head h) (tc_tail h) (tc_wait h) (tc_clock h) (tc_heap h) (tc_maps h) (tc_pci h) (tc_off h).
Proof.
  intros Hy. unfold tc_write.
  replace (tc_bar + y =? tc_bar + IXGBE_TDH 0) with (y =? IXGBE_TDH 0) by (destruct (Z.eqb_spec y (IXGBE_TDH 0)); symmetry; [apply Z.eqb_eq|apply Z.eqb_neq]; lia).
  replace (tc_bar + y =? tdt) with (y =? IXGBE_TDT 0) by (destruct (Z.eqb_spec y (IXGBE_TDT 0)); symmetry; [apply Z.eqb_eq|apply Z.eqb_neq]; lia).
  by rewrite (proj2 (Z.eqb_neq (tc_bar + y) (tc_bar + IXGBE_CTRL))) by lia.
Qed.
Lemma tc_reg_plain y v h x : y <> IXGBE_CTRL -> x <> IXGBE_TDH 0 -> x <> IXGBE_TDT 0 ->
  tc_reg (tc_write (tc_bar + y) v h) x = if x =? y then v else tc_reg h x.
Proof.
  intros Hy Hh Ht. destruct (Z.eqb_spec x y) as [<-|Hne].
  - by apply tc_reg_eq.
  - apply tc_reg_ne; [lia|]. left. lia.
Qed.
Lemma tc_head_plain y v h : y <> IXGBE_CTRL -> tc_head (tc_write (tc_bar + y) v h) = if y =? IXGBE_TDH 0 then v else tc_head h.
Proof. intros Hy. rewrite tc_write_plain by done. destruct (y =? _); [done|]. by destruct (y =? _). Qed.
Lemma tc_tail_plain y v h : y <> IXGBE_CTRL -> tc_tail (tc_write (tc_bar + y) v h) = if y =? IXGBE_TDT 0 then v else tc_tail h.
Proof.
  intros Hy. rewrite tc_write_plain by done. destruct (Z.eqb_spec y (IXGBE_TDH 0)) as [->|]; [done|]. by destruct (y =? _).
Qed.

Lemma tc_txregs_plain y v h i : y <> IXGBE_CTRL -> 0 <= i < 128 -> tc_txregs (tc_write (tc_bar + y) v h) i =
  TxRegs (if y =? IXGBE_TDH i then v else tr_head (tc_txregs h i)) (if y =? IXGBE_TDT i then v else tr_tail (tc_txregs h i))
    (if y =? IXGBE_TDBAL i then v else tr_lo (tc_txregs h i)) (if y =? IXGBE_TDBAH i then v else tr_hi (tc_txregs h i))
    (if y =? IXGBE_TDLEN i then v else tr_len (tc_txregs h i)) (if y =? IXGBE_TXDCTL i then Z.testbit v 25 else tr_on (tc_txregs h i)).
Proof.
  intros Hy Hi. unfold tc_txregs. cbn [tr_head tr_tail tr_lo tr_hi tr_len tr_on].
  rewrite tc_head_plain, tc_tail_plain by done. f_equal; try destruct (Z.eqb_spec i 0) as [->|Hne]; try done.
  all: rewrite tc_reg_plain by (done || (txq_regs; lia)); rewrite (Z.eqb_sym _ y); by destruct (y =? _).
Qed.

Lemma txreg_at_ne x i y j : 0 <= i < 128 -> 0 <= j < 128 -> txreg_at x i = txreg_at y j -> x = y /\ i = j.
Proof. intros Hi Hj. destruct x, y; unfold txreg_at; txq_regs; intros Hx; (split; [done || lia|lia]). Qed.
Lemma txreg_range x i : 0 <= i < 128 -> 0x6000 <= txreg_at x i < 0x8000.
Proof. intros Hi. destruct x; unfold txreg_at; txq_regs; lia. Qed.

Lemma tc_txregs_write h i x v : 0 <= i < 128 -> tc_txregs (tc_write (tc_bar + txreg_at x i) v h) i = txreg_write x v (tc_txregs h i).
Proof.
  intros Hi. pose proof (txreg_range x i Hi) as Hr. rewrite tc_txregs_plain by (done || (unfold IXGBE_CTRL; lia)).
  destruct (tc_txregs h i) as [hd tl lo hi len on]. destruct x; unfold txreg_at; txq_regs; cbn [txreg_write tr_head tr_tail tr_lo tr_hi tr_len tr_on];
    rewrite ?Z.eqb_refl; far_apart.
Qed.
(** the registers of other units *)
Lemma tc_txregs_far h i y v : 0 <= i < 128 -> y <> IXGBE_CTRL -> ~ 0x6000 <= y < 0x8000 ->
  tc_txregs (tc_write (tc_bar + y) v h) i = tc_txregs h i.
Proof.
  intros Hi Hy Hf. rewrite tc_txregs_plain by done. destruct (tc_txregs h i) as [hd tl lo hi len on]. cbn [tr_head tr_tail tr_lo tr_hi tr_len tr_on].
  txq_regs. far_apart.
Qed.
Lemma tc_te_far h y v : y <> IXGBE_CTRL -> tc_te (tc_write (tc_bar + y) v h) = if y =? IXGBE_DMATXCTL then Z.testbit v 0 else tc_te h.
Proof.
  intros Hy. unfold tc_te. rewrite tc_reg_plain by done. rewrite (Z.eqb_sym _ y). by destruct (y =? _).
Qed.
Lemma tc_owns_queue h a : tc_owns h a -> tr_on (tc_txregs h 0) = true /\ tr_head (tc_txregs h 0) <> tr_tail (tc_txregs h 0).
Proof.
  intros [Hon (i & Hi & _)]. split; [exact Hon|]. cbn. intros E. unfold td_count, tc_queue in Hi. cbn in Hi.
  rewrite E, Z.sub_diag in Hi. change (0 mod NUM_TX_QUEUE_ENTRIES) with 0 in Hi. lia.
Qed.
(** the card is given memory through these registers only *)
Lemma tc_grants_queue h y v a : y <> IXGBE_CTRL -> tc_grants h (tc_bar + y) v a ->
  (y = IXGBE_TDT 0 \/ y ∈ tc_regs_own) /\
  (let r := tc_txregs (tc_write (tc_bar + y) v h) 0 in tr_on r = true /\ tr_head r <> tr_tail r).
Proof.
  intros Hy. unfold tc_grants. destruct (Z.eqb_spec (tc_bar + y) tdt) as [E|Hne].
  - assert (y = IXGBE_TDT 0) as -> by lia. intros [Hon (i & Hi & _)]. split; [by left|].
    destruct (tc_queue_tail h v) as (Eq & Eon & _). split; [cbn; exact Hon|]. cbn. intros Hx.
    rewrite tc_head_plain, tc_tail_plain in Hx by done. change (tc_head h = v) in Hx.
    destruct Hi as [Hlo Hhi]. assert (td_count (td_write tdt v (tc_queue h)) = 0) as E0.
    { unfold td_write. rewrite Z.eqb_refl. unfold td_count. cbn [td_tail td_head tc_queue]. by rewrite Hx, Z.sub_diag. }
    pose proof (td_count_bound (Hn:=ring_num) (tc_queue h)). lia.
  - replace (tc_bar + y - tc_bar) with y by lia. intros [Hin Ho]. split; [by right|]. by eapply tc_owns_queue.
Qed.
Lemma tc_grants_far h y v a : y <> IXGBE_CTRL -> ~ 0x6000 <= y < 0x8000 -> ~ tc_grants h (tc_bar + y) v a.
Proof.
  intros Hy Hf Hg. apply tc_grants_queue in Hg as [Hin _]; [|done]. unfold tc_regs_own in Hin.
  rewrite !elem_of_cons, elem_of_nil in Hin. txq_regs. lia.
Qed.
Lemma tc_step_regs h h' i : proc_step h h' -> tr_head (tc_txregs h i) = tr_tail (tc_txregs h i) -> tc_txregs h' i = tc_txregs h i.
Proof.
  intros Hs Hq. destruct (tc_step_kept h h' Hs) as [[E1 E2 _ _ _] E3]. unfold tc_txregs, tc_reg in *. cbn [tr_head tr_tail] in Hq.
  rewrite E1, E2. destruct (i =? 0); [|done]. by rewrite E3.
Qed.
(** registers outside the transmit queues' block, and not CTRL *)
Definition far_reg (y : Z) : bool := negb (y =? IXGBE_CTRL) && ((y <? 0x6000) || (0x8000 <=? y)).
Lemma far_reg_spec l r : forallb far_reg l = true -> r ∈ l -> r <> IXGBE_CTRL /\ ~ 0x6000 <= r < 0x8000.
Proof.
  intros Hl Hr. rewrite forallb_forall in Hl. specialize (Hl r (proj1 (list_elem_of_In _ _) Hr)). unfold far_reg in Hl.
  rewrite andb_true_iff, orb_true_iff, negb_true_iff, Z.eqb_neq, Z.ltb_lt, Z.leb_le in Hl. lia.
Qed.
Lemma tx_setup_far r : r ∈ tx_setup -> r <> IXGBE_CTRL /\ ~ 0x6000 <= r < 0x8000.
Proof. apply far_reg_spec. reflexivity. Qed.
Lemma other_far r : r ∈ other_regs -> r <> IXGBE_CTRL /\ ~ 0x6000 <= r < 0x8000.
Proof. apply far_reg_spec. reflexivity. Qed.
Lemma other_not_dma r : r ∈ other_regs -> r <> IXGBE_DMATXCTL.
Proof.
  intros Hr. assert (forallb (fun x => negb (x =? IXGBE_DMATXCTL)) other_regs = true) as Hl by reflexivity.
  rewrite forallb_forall in Hl. specialize (Hl r (proj1 (list_elem_of_In _ _) Hr)). cbn beta in Hl.
  by rewrite negb_true_iff, Z.eqb_neq in Hl.
Qed.
Lemma tc_value_reg y h : far_reg y = false -> y <> IXGBE_CTRL -> tc_value (tc_bar + y) h = tc_reg h y.
Proof.
  intros Hf Hc. unfold far_reg in Hf. unfold tc_value. rewrite (proj2 (Z.eqb_neq y _) Hc) in Hf. cbn [negb andb] in Hf.
  rewrite orb_false_iff, Z.ltb_ge, Z.leb_gt in Hf. unfold IXGBE_CTRL, IXGBE_EEC, IXGBE_RDRXCTL, IXGBE_LINKS in *. far_apart.
Qed.
Lemma enable_mask v n : 0 <= n -> Z.land v (Z.shiftl 1 n) = Z.shiftl 1 n -> Z.testbit v n = true.
Proof.
  intros Hn Hv. apply (f_equal (fun x => Z.testbit x n)) in Hv. rewrite Z.land_spec, Z.shiftl_spec, Z.sub_diag in Hv by lia.
  by rewrite andb_true_r in Hv.
Qed.
Lemma enable_u32 v f : 0 <= f < 2 ^ 32 -> Z.land v f = f -> Z.land (u32 v) f = f.
Proof.
  intros Hf Hv. assert (Z.lor v f = v) as <-; [|by apply u32_lor_flags]. rewrite <- Hv at 1. apply Z.bits_inj'. intros n Hn.
  rewrite Z.lor_spec, Z.land_spec. by destruct (Z.testbit v n), (Z.testbit f n).
Qed.

Lemma txdctl_near i : 0 <= i < 128 -> far_reg (IXGBE_TXDCTL i) = false /\ IXGBE_TXDCTL i <> IXGBE_CTRL.
Proof. intros Hi. unfold far_reg, IXGBE_CTRL. txq_regs. split; [|lia]. apply andb_false_iff. right. apply orb_false_iff. rewrite Z.ltb_ge, Z.leb_gt. lia. Qed.

#[export] Program Instance tc_tx_start : TxStart txcard tc_bar := {|
  tx_regs := tc_txregs; tx_dma_on := tc_te; enable_latency := 0%nat;
  tx_ready h i := Z.testbit (tc_reg h (IXGBE_TXDCTL i)) 25 = true
|}.
Next Obligation. apply tc_step_regs. Qed.
Next Obligation. intros h i x v Hi _. by apply tc_txregs_write. Qed.
Next Obligation.
  intros h i x v a Hi Hg. pose proof (txreg_range x i Hi) as Hr. cbn zeta. rewrite <- tc_txregs_write by done.
  apply tc_grants_queue in Hg as [Hin Hres]; [|unfold IXGBE_CTRL; lia].
  assert (i = 0) as ->; [|exact Hres]. unfold tc_regs_own in Hin. rewrite !elem_of_cons, elem_of_nil in Hin.
  destruct x; unfold txreg_at in Hin; txq_regs; lia.
Qed.
Next Obligation. intros h i r v Hi Hr. apply tx_setup_far in Hr as [??]. by apply tc_txregs_far. Qed.
Next Obligation. intros h r v a Hr. apply tx_setup_far in Hr as [??]. by apply tc_grants_far. Qed.
Next Obligation. intros h h' Hs. destruct (tc_step_kept h h' Hs) as [[E _ _ _ _] _]. unfold tc_te, tc_reg. by rewrite E. Qed.
Next Obligation.
  intros h i x v Hi. pose proof (txreg_range x i Hi) as Hr. change (tc_te (tc_write (tc_bar + txreg_at x i) v h) = tc_te h).
  rewrite tc_te_far by (unfold IXGBE_CTRL; lia).
  unfold IXGBE_DMATXCTL. far_apart.
Qed.
Next Obligation. intros h r v Hr Hne. apply tx_setup_far in Hr as [??]. change (tc_te (tc_write (tc_bar + r) v h) = tc_te h).
  rewrite tc_te_far by done. by rewrite (proj2 (Z.eqb_neq _ _) Hne). Qed.
Next Obligation. intros h v. change (tc_te (tc_write (tc_bar + IXGBE_DMATXCTL) v h) = Z.testbit v 0). by rewrite tc_te_far. Qed.
Next Obligation. done. Qed.
Next Obligation.
  intros h i Hi Hv. cbn in Hv. cbn. rewrite tc_value_reg in Hv by (by apply txdctl_near).
  apply (enable_mask _ 25) in Hv; [|lia]. by rewrite testbit_u32 in Hv by lia.
Qed.
Next Obligation.
  intros h h' i Hs. destruct (tc_step_kept h h' Hs) as [[E _ _ _ _] _]. cbn. unfold tc_reg. by rewrite E.
Qed.
Next Obligation.
  intros h i r v Hi Hr Hon. pose proof (tx_setup_far r Hr) as [??].
  change (tr_on (tc_txregs (tc_write (tc_bar + r) v h) i) = true). by rewrite tc_txregs_far.
Qed.
Next Obligation.
  intros h i Hi Hoff. destruct (txdctl_near i Hi) as [Hf Hc].
  change (Z.testbit (tc_value (tc_bar + IXGBE_TXDCTL i) h) 25 = false). by rewrite tc_value_reg.
Qed.
Next Obligation.
  intros h i v Hi Hv. exists 0%nat. split; [lia|]. destruct (txdctl_near i Hi) as [Hf Hc].
  change (Z.land (u32 (tc_value (tc_bar + IXGBE_TXDCTL i) (tc_write (tc_bar + IXGBE_TXDCTL i) v h))) IXGBE_TXDCTL_ENABLE = IXGBE_TXDCTL_ENABLE).
  rewrite tc_value_reg, tc_reg_plain, Z.eqb_refl by (done || (txq_regs; lia)). by apply enable_u32.
Qed.

(** ** The queue as an engine *)
Definition tc_sends (h : txcard) (d : Z) (k : nat) : Prop := tc_on h = true /\ tc_te h = true /\ td_within (tc_queue h) d k.
Lemma tc_dma_on h m : tc_on (tc_dma h m).1 = tc_on h /\ tc_te (tc_dma h m).1 = tc_te h /\ tc_ring (tc_dma h m).1 = tc_ring h.
Proof. destruct (tc_dma_keeps h m) as (E & _). unfold tc_on, tc_te, tc_ring, tc_reg. by rewrite E. Qed.
Lemma tc_dma_runs h m : tc_on h = true -> tc_te h = true ->
  tc_queue (tc_dma h m).1 = (td_dma (tc_queue h) m).1 /\ (tc_dma h m).2 = (td_dma (tc_queue h) m).2.
Proof.
  intros E1 E2. unfold tc_dma. rewrite E1, E2. cbn [andb]. unfold td_dma.
  destruct (td_count (tc_queue h) =? 0); [done|]. by destruct (Nat.min _ _).
Qed.

#[export] Program Instance tc_engine : TxEngine txcard tdt NUM_TX_QUEUE_ENTRIES := {|
  te_tail := tc_tail; te_runs h r := tc_on h = true /\ tc_te h = true /\ r = tc_ring h;
  sends_within := tc_sends; latency := (Z.to_nat NUM_TX_QUEUE_ENTRIES * S tc_delay)%nat
|}.
Next Obligation. intros h h' [[m ->]|[r ->]]; [|done]. apply tc_dma_keeps. Qed.
Next Obligation. intros h v Hv. change (tc_tail (tc_write (tc_bar + IXGBE_TDT 0) v h) = v). by rewrite tc_tail_plain. Qed.
Next Obligation.
  intros h h' ring [[m ->]|[r ->]]; [|done]. cbn [dma tc_platform]. destruct (tc_dma_on h m) as (E1 & E2 & E3). by rewrite E1, E2, E3.
Qed.
Next Obligation.
  intros h v ring (E1 & E2 & ->). destruct (tc_queue_tail h v) as (E & Eon & Ete). cbn [mmio_write tc_platform].
  rewrite Eon, Ete. split; [done|split; [done|]]. apply (f_equal td_ring) in E. symmetry. exact E.
Qed.
Next Obligation.
  intros h ring a (_ & _ & ->) Ht Hg. change (tc_grants h tdt (slot NUM_TX_QUEUE_ENTRIES (tc_tail h) 1) a) in Hg.
  unfold tc_grants in Hg. rewrite Z.eqb_refl in Hg. exact (te_grants (tc_queue h) (tc_ring h) a eq_refl Ht (proj2 Hg)).
Qed.
Next Obligation. intros h d (_ & _ & Hs). exact (sends_positive (tc_queue h) d Hs). Qed.
Next Obligation.
  intros h d j k Hjk (E1 & E2 & Hs). split; [done|]. split; [done|]. exact (sends_mono (tc_queue h) d j k Hjk Hs).
Qed.
Next Obligation.
  intros h m d k (E1 & E2 & Hs). cbn [dma tc_platform]. destruct (tc_dma_runs h m E1 E2) as [Eq ->].
  destruct (td_within_dma (Hn:=ring_num) (tc_queue h) m d k Hs) as [Hd|Hd]; [by left|right].
  destruct (tc_dma_on h m) as (F1 & F2 & _). unfold tc_sends. by rewrite F1, F2, Eq.
Qed.
Next Obligation. done. Qed.
Next Obligation.
  intros h ring (E1 & E2 & ->) Ht Hfree h'. subst h'. set (v := slot _ _ _) in *.
  destruct (tc_queue_tail h v) as (Eq & Eon & Ete). change (mmio_write tdt v h) with (tc_write tdt v h).
  unfold tc_sends. rewrite Eq, Eon, Ete.
  destruct (sends_handover (TxEngine:=td_engine (Hn:=ring_num)) (tc_queue h) (tc_ring h) eq_refl Ht) as [Hx Hy].
  { intros a Ha Ho. apply (Hfree a Ha). by split. }
  split; [split_and!; [done|done|exact Hx]|]. intros d k (_ & _ & Hs). split_and!; [done|done|by apply Hy].
Qed.
Next Obligation. done. Qed.
Next Obligation. done. Qed.
Next Obligation. done. Qed.
Next Obligation. done. Qed.
Next Obligation. done. Qed.

#[export] Program Instance tc_card_start : CardStart txcard tc_bar := {| start_latency := 0%nat |}.
Next Obligation. intros h x v Hx. apply other_far in Hx as [??]. by apply tc_txregs_far. Qed.
Next Obligation.
  intros h x v Hx. pose proof (other_not_dma x Hx) as Hne. apply other_far in Hx as [??].
  change (tc_te (tc_write (tc_bar + x) v h) = tc_te h). rewrite tc_te_far by done. by rewrite (proj2 (Z.eqb_neq _ _) Hne).
Qed.
Next Obligation.
  intros h x v Hx Hon. apply other_far in Hx as [??].
  change (tr_on (tc_txregs (tc_write (tc_bar + x) v h) 0) = true). by rewrite tc_txregs_far.
Qed.
Next Obligation. intros h x v a Hx. apply other_far in Hx as [??]. by apply tc_grants_far. Qed.
Next Obligation. done. Qed.
Next Obligation.
  intros h a Hg. change (tc_grants h (tc_bar + IXGBE_CTRL) IXGBE_CTRL_RST_MASK a) in Hg. unfold tc_grants in Hg.
  change (tc_bar + IXGBE_CTRL =? tdt) with false in Hg. cbn iota in Hg. destruct Hg as [Hin _].
  unfold tc_regs_own in Hin. rewrite !elem_of_cons, elem_of_nil in Hin. txq_regs. unfold IXGBE_CTRL in Hin. lia.
Qed.
Next Obligation.
  intros h size fd p. subst p. cbn [sys tc_platform tc_sys]. unfold tc_mmap. rewrite Z.eqb_refl.
  destruct (tc_pci h); [by left|]. destruct (_ && _); [by right|by left].
Qed.
Next Obligation. intros h. exists 0%nat. by split. Qed.
Next Obligation. intros h. exists 0%nat. by split. Qed.
Next Obligation. intros h. exists 0%nat. by split. Qed.
Next Obligation.
  intros h v Hv. exists 0%nat. split; [done|].
  assert (tc_value (tc_bar + IXGBE_RXDCTL 0) (tc_write (tc_bar + IXGBE_RXDCTL 0) v h) = v) as E.
  { change (tc_reg (tc_write (tc_bar + IXGBE_RXDCTL 0) v h) (IXGBE_RXDCTL 0) = v). by rewrite tc_reg_plain, Z.eqb_refl. }
  unfold poll_value, poll_state. cbn [mmio_read mmio_write tc_platform fst]. rewrite E. by apply enable_u32.
Qed.

#[export] Instance tc_run : TxRun txcard tc_bar.
Proof.
  split. intros h v r [Hp _] _ Ht _ Hon Hr Hte. split; [|exact Ht]. split; [exact Hr|]. split; [exact Hte|].
  symmetry. exact Hp.
Qed.
