(* ===== verification/TxStartProps.v ===== *)
(** * A transmit queue, from its initialisation on

    The theorem about starting a transmit queue, applied on the card of
    TxCard.v. *)
From S2P Require Import Prelude Mem Platform Memory Registers IxgbeCpp Stats Apps Device Pci Ixgbe Ring TxRing Sim MemoryProps DeviceProps IxgbeProps TxProps.
From S2P Require Import TxEngine PktGen Startup TxStart RxStart PktStart TxCard.

(** C10: init_tx_queue followed by start_tx_queue makes a transmit queue that is
    ready to send.  From a queue structure as calloc left it, a packet buffer
    pool and a card whose queue is disabled and empty, and if the card enables a
    queue within the polls allowed: no access faults and the polling ends; the queue, the
    pool, the new descriptor ring and the card satisfy the invariant of the
    transmit path for an empty ring of 1024 descriptors; the card owns nothing
    it did not own before.  The only other end is an allocation failure. *)
Theorem tx_queue_starts_empty {H} `{TxStart H bar} dev i poll_fuel P (w : world H) :
  addr dev = bar -> 0 <= i < 128 -> tx_blank dev i w P -> (enable_latency bar < poll_fuel)%nat ->
  wp (init_tx_queue dev i ;; start_tx_queue poll_fuel dev i) (fun _ w' => exists ring,
      tx_ok w' P (Txq (tx_queue dev i) ring NUM_TX_QUEUE_ENTRIES 0 []) /\
      (forall a, nic_owns (w_hw w') a -> nic_owns (w_hw w) a))
    (fun f _ => alloc_failure f) w.
Proof.
  intros Hbar Hi Hb Hfuel. eapply wp_conseq; [by apply (start_spec dev i poll_fuel Hbar Hi w P)|].
  cbn beta. intros _ w' (ring & Hok & Hf). exists ring. split; [exact Hok|apply Hf].
Qed.

(** the pool of MemoryProps.v, a queue structure of zeros and a card after reset *)
Definition start_dev : ixy_device := IxyDevice "0000:03:00.0" "ixy-ixgbe" tc_bar 1 1 0x7000 0x8000.
Definition start_card : txcard := TxCard ∅ 0 0 0 5000000000 0x10000 (tc_base + 2 ^ 21) None 0.
Definition start_world : world txcard :=
  World (add_region 0x8000 (sizeof_tx_queue + 8 * NUM_TX_QUEUE_ENTRIES) (w_mem demo.2)) start_card 1.
Lemma start_queue_zero : forall_below 8208 (fun k => rd (w_mem start_world) (0x8000 + k) =? 0) = true.
Proof. vm_compute. reflexivity. Qed.
Lemma start_idle a : ~ nic_owns (w_hw start_world) a.
Proof. intros [Hon _]. by vm_compute in Hon. Qed.
Lemma start_world_blank : tx_blank start_dev 0 start_world demo_pool.
Proof.
  split.
  - split.
    + apply pool_okb_sound. vm_compute. reflexivity.
    + split; [left; vm_compute; discriminate|vm_compute; reflexivity|intros a _; apply start_idle].
    + split; [right; left; vm_compute; split; discriminate|vm_compute; reflexivity|intros a _; apply start_idle].
  - split; [left; vm_compute; discriminate|vm_compute; reflexivity|intros a _; apply start_idle].
  - intros a Ha. change (range 0x8000 8208 a) in Ha. unfold range in Ha.
    pose proof (forall_below_spec _ _ (a - 0x8000) start_queue_zero ltac:(lia)) as Hz. cbn beta in Hz.
    apply Z.eqb_eq in Hz. by replace (0x8000 + (a - 0x8000)) with a in Hz by lia.
  - right. vm_compute. discriminate.
  - left. vm_compute. discriminate.
  - exists 0, 0, 0, 0. vm_compute. reflexivity.
  - intros a Ha. by apply start_idle in Ha.
Qed.
Lemma tx_queue_starts_empty_witness :
  (exists Q E, wp (init_tx_queue start_dev 0 ;; start_tx_queue 1 start_dev 0) Q E start_world) /\
  match (init_tx_queue start_dev 0 ;; start_tx_queue 1 start_dev 0) start_world with
  | Ok _ w' => tx_regs (w_hw w') 0 = TxRegs 0 0 (2 ^ 21) 256 16384 true
  | _ => False
  end.
Proof.
  split; [|vm_compute; reflexivity]. eexists _, _.
  apply (tx_queue_starts_empty start_dev 0 1 demo_pool start_world); [reflexivity|by split|exact start_world_blank|exact (le_n 1)].
Defined.
