(* ===== verification/InitProps.v ===== *)
(** * What initialisation allocates, and what it leaves out

    memory_allocate_mempool and init_rx_queue on a kernel and a C library with the
    laws of Startup.v, and init_tx on a card with those of PktStart.v; applied on
    the machine of TxCard.v. *)
From S2P Require Import Prelude Mem Platform Trace Memory Registers IxgbeCpp Stats Apps Device Pci Ixgbe Ring TxRing RxRing.
From S2P Require Import MemoryProps DeviceProps IxgbeProps TxEngine TxDevice PktGen Startup TxStart RxStart PktStart TxCard TxStartProps.

(** ** Packet buffer pools *)

(** C14: memory_allocate_mempool, asked for at least one entry of 64 bytes to 4 GB
    (an entry size of 0 means 2048) with less than 4 GB in total, with room for
    the pool's structure on the heap and a card that owns no memory but what is in
    use: the structure is the block that malloc returned, the buffers are the
    region that memory_allocate_dma mapped for them, with the physical address it
    reported, and both are memory that was not in use; the pool is well formed,
    every entry is free, in order, and has length 0. It ends early only when a
    checked system call failed (exit with errno) or the kernel has no physical
    address for the region. *)
Theorem memory_allocate_mempool_ok {H} `{StartLaws H} num entry_size (w : world H) :
  let bufsz := buf_size_of entry_size in
  0 < num -> pb_data <= bufsz < 2 ^ 32 -> num * bufsz < 2 ^ 32 -> card_known w ->
  sizeof_mempool + num * 4 <= heap_room (w_hw w) ->
  wp (memory_allocate_mempool num entry_size) (fun r w' => exists mem,
      pool_allocated num bufsz w r mem w' /\ pool_apart (w_hw w) (fresh_pool r mem num bufsz))
    (fun f _ => (exists n, f = Exit n) \/
      f = Abort "failed to translate virtual address to physical address") w.
Proof.
  intros bufsz Hn Hb Ht Hc Hroom. eapply wp_conseq; [by apply mempool_spec|]. cbn beta.
  intros r w' (mem & _ & _ & _ & Hnew & Hal). by exists mem.
Qed.
Definition pool_card : txcard := TxCard ∅ 0 0 0 5000000000 0x1000 0 None 0.
Definition pool_world : world txcard := World (Mem ∅ []) pool_card 0.
Lemma memory_allocate_mempool_ok_witness : (exists Q E, wp (memory_allocate_mempool 4 0) Q E pool_world) /\
  (exists w', memory_allocate_mempool 4 0 pool_world = Ok 0x1000 w').
Proof.
  split; [|eexists; vm_compute; reflexivity]. eexists _, _. apply (memory_allocate_mempool_ok 4 0 pool_world).
  - reflexivity.
  - vm_compute. split; [discriminate|reflexivity].
  - reflexivity.
  - intros a [Hon _]. by vm_compute in Hon.
  - vm_compute. discriminate.
Defined.

(** ** Receive queues *)
Definition rx_ring_bytes : Z := NUM_RX_QUEUE_ENTRIES * sizeof_adv_rx_desc.

(** The register writes that describe a ring to the device, in order. *)
Definition program_ring {H} `{Platform H} (addr base_l base_h len head tail phy size : Z) (h : H) : H :=
  mmio_write (addr + tail) 0 (mmio_write (addr + head) 0 (mmio_write (addr + len) size
    (mmio_write (addr + base_h) (phy / 2 ^ 32) (mmio_write (addr + base_l) (phy mod 2 ^ 32) h)))).
(** a register is read, and [f] of its value written back *)
Definition modify_reg {H} `{Platform H} (a : Z) (f : Z -> Z) (h : H) : H :=
  let '(v, h1) := mmio_read a h in mmio_write a (u32 (f (u32 v))) h1.
(** one buffer per packet, and packets without a descriptor are dropped *)
Definition rx_configured {H} `{Platform H} (srrctl : Z) (h : H) : H :=
  modify_reg srrctl (fun v => Z.lor v IXGBE_SRRCTL_DROP_EN)
    (modify_reg srrctl (fun v => Z.lor (Z.land v (not32 IXGBE_SRRCTL_DESCTYPE_MASK)) IXGBE_SRRCTL_DESCTYPE_ADV_ONEBUF) h).

Section rx.
Context {H : Type} `{StartLaws H}.
Implicit Types (w : world H) (h : H).

Lemma modify_reg_reserved a f h b n : reserved h b n -> reserved (modify_reg a f h) b n.
Proof.
  intros Hr. unfold modify_reg. destruct (mmio_read a h) as [v h1] eqn:E. apply reserved_write.
  apply (reserved_step h); [left; replace h1 with (mmio_read a h).2 by (by rewrite E); by apply read_host|done].
Qed.
(** the queue's fields are those of the ring at [virt], full of ones *)
Record rx_queue_ready dev i (virt : Z) w' : Prop := {
  rr_num : ld 2 (w_mem w') (rx_queue dev i + rxq_num_entries) = NUM_RX_QUEUE_ENTRIES;
  rr_idx : ld 2 (w_mem w') (rx_queue dev i + rxq_rx_index) = 0;
  rr_descs : ld 8 (w_mem w') (rx_queue dev i + rxq_descriptors) = virt;
  rr_map : mapped (w_mem w') virt rx_ring_bytes = true;
  rr_fill : forall a, range virt rx_ring_bytes a -> rd (w_mem w') a = 255
}.
(** the stores into the queue and its ring *)
Definition rx_stored dev i (virt : Z) (m : mem) : mem :=
  st 8 (rx_queue dev i + rxq_descriptors) virt (st 2 (rx_queue dev i + rxq_rx_index) 0
    (st 2 (rx_queue dev i + rxq_num_entries) NUM_RX_QUEUE_ENTRIES (fill (Z.to_nat rx_ring_bytes) virt (-1) m))).
Lemma rx_stored_ready dev i virt m w' : w_mem w' = rx_stored dev i virt m -> 0 < virt < 2 ^ 47 ->
  mapped m virt rx_ring_bytes = true -> disj virt (2 ^ 21) (rx_queue dev i) sizeof_rx_queue -> rx_queue_ready dev i virt w'.
Proof.
  intros HF Hv Hm Hd. change (2 ^ 47) with 140737488355328 in Hv. split; rewrite HF; unfold rx_stored.
  - rewrite !ld_st_out by (unrq; lia). by rewrite ld_st_eq.
  - rewrite ld_st_out by (unrq; lia). by rewrite ld_st_eq.
  - rewrite ld_st_eq. apply Z.mod_small. change (8 * Z.of_nat 8) with 64. ulia.
  - rewrite (mapped_regions _ m); [exact Hm|]. by rewrite !regions_st, regions_fill.
  - intros a Ha. unfold rx_ring_bytes, NUM_RX_QUEUE_ENTRIES, sizeof_adv_rx_desc, range, disj in *.
    rewrite !rd_st_out by (unrq; lia). rewrite rd_fill, decide_True; [done|]. lia.
Qed.
End rx.

(** C31: init_rx_queue, for a queue whose structure is mapped and in use, first
    selects one buffer per packet and dropping in the queue's SRRCTL, keeping its
    other bits. Then, when it returns, it has allocated a DMA region as
    memory_allocate_dma does; the queue's structure says 1024 descriptors at that
    region's virtual address, index 0, and every byte of the ring is 0xFF; and its
    last five register writes are the low and the high half of that region's
    physical address, the ring's size in bytes, head 0 and tail 0, in the queue's
    own registers. It ends early only when the region could not be allocated. *)
Theorem init_rx_queue_programs_ring {H} `{StartLaws H} dev i (w : world H) :
  mapped (w_mem w) (rx_queue dev i) sizeof_rx_queue = true ->
  reserved (w_hw w) (rx_queue dev i) sizeof_rx_queue ->
  wp (init_rx_queue dev i) (fun _ w' => exists mem w1,
      dma_allocated rx_ring_bytes (set_hw (rx_configured (addr dev + IXGBE_SRRCTL i) (w_hw w)) w) mem w1 /\
      rx_queue_ready dev i (virt mem) w' /\
      w_hw w' = program_ring (addr dev) (IXGBE_RDBAL i) (IXGBE_RDBAH i) (IXGBE_RDLEN i)
        (IXGBE_RDH i) (IXGBE_RDT i) (phy mem) rx_ring_bytes (w_hw w1))
    (fun f _ => alloc_failure f) w.
Proof.
  intros Hm Hres. unfold init_rx_queue. cbn zeta.
  change (u32 (NUM_RX_QUEUE_ENTRIES * sizeof_adv_rx_desc)) with rx_ring_bytes.
  apply wp_bind. eapply ok_wp; [apply get_reg32_eq|]. apply wp_bind, wp_mmio_set.
  apply wp_bind. unfold set_flags32 at 1. apply wp_bind. eapply ok_wp; [apply get_reg32_eq|].
  apply wp_mmio_set. apply wp_bind. set (w0 := set_hw (mmio_write _ _ _) _).
  assert (w0 = set_hw (rx_configured (addr dev + IXGBE_SRRCTL i) (w_hw w)) w) as ->.
  { unfold w0, rx_configured, modify_reg. cbn [w_hw set_hw].
    destruct (mmio_read (addr dev + IXGBE_SRRCTL i) (w_hw w)) as [v h1]. cbn [fst snd].
    by destruct (mmio_read (addr dev + IXGBE_SRRCTL i) (mmio_write _ _ h1)) as [v2 h2]. }
  set (w0 := set_hw _ w). eapply wp_conseq; [by apply memory_allocate_dma_spec|].
  cbn beta. intros mem w1 Hal. destruct (dma_allocated_bounds _ _ _ _ Hal) as (Hv0 & Hv1 & Hp).
  destruct (dma_allocated_new _ _ _ _ Hal) as (_ & _ & Hnew).
  assert (reserved (w_hw w0) (rx_queue dev i) sizeof_rx_queue) as Hd%Hnew by (by do 2 apply modify_reg_reserved).
  pose proof (proj1 Hal) as Hreg. change (round_2mb rx_ring_bytes) with (2 ^ 21) in *.
  destruct (phy_halves (phy mem)) as [-> ->]; [ulia|].
  assert (mapped (w_mem w1) (virt mem) rx_ring_bytes = true) as Mr by (eapply mapped_head; [exact Hreg|done]).
  assert (forall m o n, regions m = regions (w_mem w1) -> 0 <= o -> o + n <= sizeof_rx_queue ->
    mapped m (rx_queue dev i + o) n = true) as Mq.
  { intros m o n Hrm ??. rewrite Hreg in Hrm. eapply mapped_sub; [by eapply mapped_grow|lia|lia]. }
  apply wp_bind. unfold wp at 1, memset. change (Z.of_nat (Z.to_nat rx_ring_bytes)) with rx_ring_bytes. rewrite Mr.
  do 5 apply wp_bind, wp_mmio_set. cbn [w_hw set_hw set_mem w_mem].
  do 2 (apply wp_bind, wp_store; [cbn [w_mem set_mem set_hw]; rewrite ?mapped_st;
    apply Mq; [by rewrite ?regions_st, ?regions_fill|unrq; lia|unrq; lia]|]).
  apply wp_store; [cbn [w_mem set_mem set_hw]; rewrite ?mapped_st;
    apply Mq; [by rewrite ?regions_st, ?regions_fill|unrq; lia|unrq; lia]|].
  exists mem, w1. split; [exact Hal|]. split; [by eapply rx_stored_ready; [reflexivity|ulia|exact Mr|exact Hd]|].
  unfold program_ring. cbn [w_hw set_mem set_hw]. pose proof (Z.mod_pos_bound (phy mem) (2 ^ 32) eq_refl).
  assert (0 <= phy mem / 2 ^ 32 < 2 ^ 32) by (split; [apply Z.div_pos; lia|apply Z.div_lt_upper_bound; ulia]).
  rewrite !(u32_small (_ mod _)), (u32_small (_ / _)) by lia. done.
Qed.
Definition rx_init_dev : ixy_device := IxyDevice "0000:03:00.0" "ixy-ixgbe" tc_bar 1 1 0x1000 0x2000.
Definition rx_init_world : world txcard :=
  World (add_region 0x1000 0x100 (Mem ∅ [])) (TxCard ∅ 0 0 0 5000000000 0x10000 0 None 0) 0.
Lemma init_rx_queue_programs_ring_witness : (exists Q E, wp (init_rx_queue rx_init_dev 0) Q E rx_init_world) /\
  match init_rx_queue rx_init_dev 0 rx_init_world with
  | Ok _ w' => tc_reg (w_hw w') (IXGBE_RDBAH 0) = 256 /\ tc_reg (w_hw w') (IXGBE_RDLEN 0) = 16384
  | _ => False
  end.
Proof.
  split; [|vm_compute; split; reflexivity]. eexists _, _. apply (init_rx_queue_programs_ring rx_init_dev 0 rx_init_world).
  - vm_compute. reflexivity.
  - left. vm_compute. discriminate.
Defined.

(** ** Transmit queues beyond the number of receive queues *)

(** sending on a queue whose structure is all zero *)
Lemma tx_packet_zero_queue {H} `{Platform H} dev i buf (w : world H) :
  (forall a, range (tx_queue dev i) (sizeof_tx_queue + 8) a -> rd (w_mem w) a = 0) ->
  mapped (w_mem w) (tx_queue dev i) (sizeof_tx_queue + 8) = true ->
  mapped (w_mem w) buf pb_data = true -> mapped (w_mem w) 0 8 = false ->
  wp (ixgbe_tx_packet dev i buf) (fun _ _ => False) (fun f _ => f = Fault "store") w.
Proof.
  intros Hz Hm Hb Hnull.
  assert (forall n o, 0 <= o -> o + Z.of_nat n <= sizeof_tx_queue + 8 ->
    ld n (w_mem w) (tx_queue dev i + o) = 0) as Hld.
  { intros n o ??. apply ld_zero. intros b Hr. apply Hz. unfold range. lia. }
  assert (forall m o n, regions m = regions (w_mem w) -> 0 <= o -> o + n <= sizeof_tx_queue + 8 ->
    mapped m (tx_queue dev i + o) n = true) as Mq.
  { intros m o n Hr ??. rewrite (mapped_regions _ _ _ _ Hr). eapply mapped_sub; [exact Hm|lia|lia]. }
  unfold ixgbe_tx_packet, tx_clean_up. unq.
  apply wp_bind, wp_bind, wp_load; [apply Mq; [done|lia|lia]|]. rewrite Hld by lia.
  apply wp_bind, wp_load; [apply Mq; [done|lia|lia]|]. rewrite Hld by lia.
  apply wp_bind. change clean_fuel with (S (Z.to_nat (2 ^ 16 - 1))). cbn [tx_clean]. rewrite Z.eqb_refl.
  apply wp_ret, wp_bind, wp_store; [apply Mq; [done|lia|lia]|]. apply wp_ret.
  apply wp_bind, wp_load; [cbn; rewrite mapped_st; apply Mq; [done|lia|lia]|].
  cbn [w_mem set_mem]. rewrite ld_st_out, Hld by lia. cbn [Z.eqb].
  change (inc_and_wrap_ring 0 0) with 1. cbn [Z.eqb].
  unfold tx_send. unq.
  replace (tx_queue dev i + 16 + 8 * 0) with (tx_queue dev i + 16) by lia.
  apply wp_bind, wp_store; [cbn; rewrite mapped_st; apply (Mq _ 16); [done|lia|lia]|].
  apply wp_bind, wp_load; [cbn; rewrite !mapped_st; apply Mq; [done|lia|lia]|].
  cbn [w_mem set_mem]. rewrite !ld_st_out, Hld by lia.
  apply wp_bind, wp_load; [cbn; rewrite !mapped_st; apply Mq; [done|lia|lia]|].
  cbn [w_mem set_mem]. rewrite !ld_st_out, Hld by lia. change (inc_and_wrap_ring 0 0) with 1.
  apply wp_bind, wp_store; [cbn; rewrite !mapped_st; apply Mq; [done|lia|lia]|].
  apply wp_bind, wp_load; [cbn; rewrite !mapped_st; apply Mq; [done|lia|lia]|].
  cbn [w_mem set_mem]. rewrite !ld_st_out, Hld by lia.
  apply wp_bind. unfold fill_tx_desc. apply wp_bind, wp_load.
  { cbn. rewrite !mapped_st. eapply mapped_sub; [exact Hb|unlayout; lia|unlayout; lia]. }
  apply wp_bind, wp_bind, wp_tick. intros w2 Hr2 _ _.
  assert (mapped (w_mem w2) 0 8 = false) as Hx.
  { rewrite (mapped_regions _ (w_mem w)); [done|]. rewrite Hr2. cbn. by rewrite !regions_st. }
  unfold wp, store. unq. change (mapped (w_mem w2) (0 + 0 * 16 + 0) (Z.of_nat 8)) with (mapped (w_mem w2) 0 8).
  by rewrite Hx.
Qed.

(** C29: init_tx configures a transmit queue for each receive queue, not for each
    transmit queue. On a device with one receive queue, when the memory of the
    transmit queues is as calloc left it, it leaves the structure of every further
    transmit queue all zero: sending a packet on such a queue makes the driver
    write its descriptor to address 0, a fault if nothing is mapped there. (The
    structures of up to 64 queues, 16 bytes each, lie within what calloc returned
    for one queue and its 1024 or more pointers.) The only other end is that
    init_tx could not allocate the first queue's ring. *)
Theorem init_tx_skips_tx_only_queues {H} {bar} `{CardStart H bar, !TxEngine H (bar + IXGBE_TDT 0) NUM_TX_QUEUE_ENTRIES, !TxRun H bar}
    dev i k P (w : world H) :
  addr dev = bar -> num_rx_queues dev = 1 -> 1 <= i < num_tx_queues dev -> num_tx_queues dev <= MAX_QUEUES ->
  tx_blank dev 0 w P -> 0 <= k < p_num P -> mapped (w_mem w) 0 8 = false ->
  wp (init_tx dev ;; ixgbe_tx_packet dev i (entry P k)) (fun _ _ => False)
    (fun f _ => f = Fault "store" \/ alloc_failure f) w.
Proof.
  intros Hbar Hrx Hi Hmax Hb Hk Hnull. unfold MAX_QUEUES in Hmax. apply wp_bind.
  eapply wp_mono; [by apply (init_tx_still dev Hbar Hrx w P)| |by right]. cbn beta.
  intros _ w' (w1 & virt & Hb1 & _ & Hset & B & _ & Hreg).
  assert (forall a, range (tx_queue dev i) (sizeof_tx_queue + 8) a ->
    range (tx_queue dev 0) (sizeof_tx_queue + 8 * NUM_TX_QUEUE_ENTRIES) a /\ ~ tx_fields dev 0 a) as Hin.
  { intros a. unfold tx_fields, NUM_TX_QUEUE_ENTRIES, range, tx_queue. unq. lia. }
  eapply wp_mono; [apply tx_packet_zero_queue|done|by left].
  - intros a [Ha Hf]%Hin. rewrite (block_kept _ _ _ _ _ _ a B (tb_queue _ _ _ _ Hb1) Ha Hf). by apply Hb1.
  - eapply mapped_sub; [eapply booted_mapped; [exact B|apply (tb_queue _ _ _ _ Hb1)]| |];
      unfold NUM_TX_QUEUE_ENTRIES, tx_queue; unq; lia.
  - pose proof (ph_ok _ _ (tb_pool _ _ _ _ Hb1)) as Hok. pose proof (pk_shape _ _ Hok) as Hs.
    eapply mapped_sub; [eapply booted_mapped; [exact B|apply (pk_map_bufs _ _ Hok)]| |];
      pose proof (entry_bound P k Hs Hk); pose proof (ps_bufsz _ Hs); lia.
  - unfold mapped in *. rewrite Hreg. cbn [existsb]. rewrite Hnull, orb_false_r.
    pose proof (proj1 (rs_area _ _ _ _ _ _ Hset)). unfold in_region. cbn [fst snd]. by rewrite (proj2 (Z.leb_gt _ _)).
Qed.

Lemma tx_blank_queue {H} `{TxStart H bar} dev dev' (w : world H) P : tx_queue dev 0 = tx_queue dev' 0 ->
  tx_blank dev 0 w P -> tx_blank dev' 0 w P.
Proof. intros E []. split; rewrite <- ?E; assumption. Qed.
(** the world of TxStartProps.v, with two transmit queues *)
Definition two_tx_dev : ixy_device := IxyDevice "0000:03:00.0" "ixy-ixgbe" tc_bar 1 2 0x7000 0x8000.
Lemma init_tx_skips_tx_only_queues_witness :
  wp (init_tx two_tx_dev ;; ixgbe_tx_packet two_tx_dev 1 (entry demo_pool 0)) (fun _ _ => False)
    (fun f _ => f = Fault "store" \/ alloc_failure f) start_world /\
  match (init_tx two_tx_dev ;; ixgbe_tx_packet two_tx_dev 1 (entry demo_pool 0)) start_world with
  | Err f _ => f = Fault "store"
  | _ => False
  end.
Proof.
  split; [|vm_compute; reflexivity].
  apply (init_tx_skips_tx_only_queues two_tx_dev 1 0 demo_pool start_world).
  - reflexivity.
  - reflexivity.
  - split; reflexivity || (vm_compute; discriminate).
  - vm_compute. discriminate.
  - apply (tx_blank_queue start_dev); [reflexivity|exact start_world_blank].
  - split; reflexivity || (vm_compute; discriminate).
  - vm_compute. reflexivity.
Defined.
