(* ===== verification/PktMainProps.v ===== *)
(** * The claim about ixy-pktgen

    ixy-pktgen from its first instruction, on the card of TxCard.v. *)
From S2P Require Import Prelude Mem Platform Memory Registers IxgbeCpp Stats Apps Device Pci Ixgbe Ring TxRing RxRing.
From S2P Require Import MemoryProps TxEngine PktGen TxDevice Startup TxStart RxStart PktStart PktMain TxCard.

(** C4: ixy-pktgen, from its first instruction on. On a machine whose heap has
    room for its structures, with a card that carries out what its datasheet says,
    owns at first no memory but what is in use and answers within the polls
    allowed, on a link on which nothing arrives, and with a libseccomp that only
    calls the kernel, main - the packet pool, the reset and initialisation of the
    card with one queue of each kind, the system call filter, the statistics, the
    transmit loop - accesses no memory wrongly, waits for nothing forever and
    sends. Before the first turn the transmit ring is empty and the loop's
    invariant holds. Each of the [k] turns takes the entry on top of the pool,
    which holds the template packet, offers it to the ring until the ring takes
    it, which fills the next descriptor with the buffer's address and 60 bytes and
    writes the tail register, and does nothing else but give back the oldest done
    packets, read the clock and read statistics ([turns]). So after [k] turns the
    card's tail register holds [k] modulo 1024, the size of the ring, and the
    packets that left the ring did so in the order in which they were queued. The
    program ends early only if a system call it checks fails, a page has no frame,
    an assertion of pci.c does not hold, the filter cannot be installed, or a rate
    does not fit uint32_t. *)
Theorem pktgen_main_sends {H} {bar} `{CardStart H bar, !TxEngine H (bar + IXGBE_TDT 0) NUM_TX_QUEUE_ENTRIES, !TxRun H bar}
    NDEBUG poll_fuel libseccomp prog pci k (w : world H) :
  (forall c, os_prog (libseccomp c) any) -> card_known w -> pktgen_bytes pci <= heap_room (w_hw w) ->
  (enable_latency bar < poll_fuel)%nat -> (start_latency bar < poll_fuel)%nat ->
  (latency (bar + IXGBE_TDT 0) NUM_TX_QUEUE_ENTRIES < poll_fuel)%nat ->
  wp (pktgen_main NDEBUG poll_fuel libseccomp [prog; pci] k) (fun r w' => exists s s0 dev w0 P0 virt P q sent freed,
      r = Some s /\ pktgen_main NDEBUG poll_fuel libseccomp [prog; pci] 0 w = Ok (Some s0) w0 /\
      pg_inv dev w0 P0 (empty_ring dev 0 virt) [] /\ turns dev w0 P0 (empty_ring dev 0 virt) sent w' P q /\
      length sent = k /\ te_tail (w_hw w') = Z.of_nat k mod NUM_TX_QUEUE_ENTRIES /\ sent = freed ++ q_fly q /\
      pg_inv dev w' P q [] /\ u64 (g_counter s) = u64 (Z.of_nat k))
    (fun f _ => startup_failure f \/ f = Fault "double to uint32_t") w.
Proof.
  intros Hsec Hcard Hroom He Hs Hl. eapply wp_conseq; [by apply pktgen_main_spec|]. cbn beta.
  intros r w' (s & s0 & dev & w0 & P0 & virt & P & q & sent & Hr & Hrun & Hpg & Hts & Hlen & Hpg' & Hc).
  destruct (turns_order _ _ _ _ _ _ _ _ Hts) as (_ & (freed & Hf) & _ & Htx).
  exists s, s0, dev, w0, P0, virt, P, q, sent, freed. split_and!; try done.
  rewrite (pg_tail _ _ _ _ _ Hpg'), Htx, <- Hlen. done.
Qed.

(** an empty memory, a card that was just switched on, and a filter library that
    installs what it is asked to *)
Definition main_seccomp (c : seccomp_call) : M (world txcard) Z := match c with Seccomp_init _ => mret 1 | _ => mret 0 end.
Definition main_card : txcard := TxCard ∅ 0 0 0 5000000000 0x10000 0 None 0.
Definition main_world : world txcard := World (Mem ∅ []) main_card 0.
Definition main_fuel : nat := Z.to_nat 2100.
Lemma pktgen_main_sends_witness : exists Q E,
  wp (pktgen_main false main_fuel main_seccomp ["ixy-pktgen"; "0000:03:00.0"]%string 3) Q E main_world.
Proof.
  eexists _, _. apply pktgen_main_sends.
  - intros []; by apply os_ret.
  - intros a [Hon _]. by vm_compute in Hon.
  - vm_compute. discriminate.
  - apply Nat.ltb_lt. reflexivity.
  - apply Nat.ltb_lt. reflexivity.
  - apply Nat.ltb_lt. reflexivity.
Defined.
