(* ===== verification/Alloc.v ===== *)
(** * The allocator interface and the null, malloc, stack and fallback allocators

    An allocator is a structure in memory that starts with [struct allocator]:
    an alignment and three function pointers.  A caller reads a pointer and
    calls through it; [Linker] gives the functions their addresses.  A
    [struct mem_blk] is passed by value, and a [struct mem_blk*] argument as
    the block it points to, the callee returning the block it leaves there. *)
From S2P Require Import Prelude Mem Platform Memory Spinlock.

Record mem_blk := MemBlk { ptr : Z; size : Z }.
#[export] Instance mem_blk_eq_dec : EqDecision mem_blk.
Proof. solve_decision. Defined.
Definition NULL_blk : mem_blk := MemBlk NULL 0.

(** ** Structures *)
Definition allocator : list field :=
  [f_u32 "alignment"; f_ptr "allocate"; f_ptr "deallocate"; f_ptr "owns"].
Definition f_vfs (name : string) : field := Field name (sizeof allocator) (struct_align allocator).
Definition null_allocator : list field := [f_vfs "vfs"].
Definition mallocator : list field := [f_vfs "vfs"].
Definition stack_allocator : list field :=
  [f_vfs "vfs"; f_ptr "parent"; f_ptr "base_addr"; f_u64 "base_addr_phy"; f_u32 "entry_size";
   f_u32 "num_entries"; f_u32 "free_stack_top"; f_flex "free_stack" 4].
Definition spinlock_stack_allocator : list field :=
  [f_vfs "vfs"; f_ptr "parent"; Field "lock" (sizeof rte_spinlock_t) (struct_align rte_spinlock_t);
   f_ptr "base_addr"; f_u64 "base_addr_phy"; f_u32 "entry_size"; f_u32 "num_entries";
   f_u32 "free_stack_top"; f_flex "free_stack" 4].
Definition fallback_allocator : list field := [f_vfs "self"; f_ptr "primary"; f_ptr "secondary"].
Definition dma_allocator : list field := [f_vfs "vfs"; f_ptr "base_addr"; f_u64 "base_addr_phy"].

Definition al_alignment : Z := Eval cbv in offsetof allocator "alignment".
Definition al_allocate : Z := Eval cbv in offsetof allocator "allocate".
Definition al_deallocate : Z := Eval cbv in offsetof allocator "deallocate".
Definition al_owns : Z := Eval cbv in offsetof allocator "owns".
Definition fb_primary : Z := Eval cbv in offsetof fallback_allocator "primary".
Definition fb_secondary : Z := Eval cbv in offsetof fallback_allocator "secondary".
Definition ss_lock : Z := Eval cbv in offsetof spinlock_stack_allocator "lock".

(** The two stack allocators have the same fields at different offsets. *)
Record stack_layout := StackLayout {
  k_parent : Z; k_base_addr : Z; k_entry_size : Z; k_num_entries : Z; k_free_stack_top : Z;
  k_free_stack : Z; k_sizeof : Z
}.
Definition layout_of (fs : list field) : stack_layout :=
  StackLayout (offsetof fs "parent") (offsetof fs "base_addr") (offsetof fs "entry_size")
    (offsetof fs "num_entries") (offsetof fs "free_stack_top") (offsetof fs "free_stack") (sizeof fs).
Definition sa_layout : stack_layout := Eval cbv in layout_of stack_allocator.
Definition ss_layout : stack_layout := Eval cbv in layout_of spinlock_stack_allocator.

(** container_of(a, type, member) of allocator_common.h *)
Definition container_of (a : Z) (type : list field) (member : string) : Z := a - offsetof type member.
(** the macros min and max of allocator_common.h *)
Definition min_ (x y : Z) : Z := if x <? y then x else y.
Definition max_ (x y : Z) : Z := if y <? x then x else y.

Section code.
Context {H : Type} `{Platform H}.
Local Abbreviation W := (world H).
(** whether NDEBUG is defined: without it a freed block is cleared *)
Context (NDEBUG : bool).

Definition clear_blk (blk : mem_blk) : mem_blk := if NDEBUG then blk else MemBlk NULL 0.

(** ** null_allocator.c *)
Definition null_allocator_allocate (a sz : Z) : M W mem_blk := mret (MemBlk NULL 0).
Definition null_allocator_deallocate (a : Z) (blk : mem_blk) : M W mem_blk :=
  if negb (ptr blk =? 0) || negb (size blk =? 0)
  then error "Attempting to free not NULL blk with null allocator"
  else mret blk.
Definition null_allocator_owns (a : Z) (blk : mem_blk) : M W bool := mret false.

(** ** mallocator.c *)
Definition mallocator_allocate (a sz : Z) : M W mem_blk := p ← malloc_ sz; mret (MemBlk p sz).
Definition mallocator_deallocate (a : Z) (blk : mem_blk) : M W mem_blk :=
  free_ (ptr blk) ;; mret (clear_blk blk).
Definition mallocator_owns (a : Z) (blk : mem_blk) : M W bool := mret true.

(** ** The statements the two stack allocators share *)
Section stack.
Context (L : stack_layout).

(** if (self->free_stack_top == 0 || size > self->entry_size) NULL else pop *)
Definition stack_pop (self sz : Z) : M W mem_blk :=
  top ← load 4 (self + k_free_stack_top L);
  if top =? 0 then mret (MemBlk NULL 0) else
  entry_size ← load 4 (self + k_entry_size L);
  if entry_size <? sz then mret (MemBlk NULL 0) else
  top ← load 4 (self + k_free_stack_top L);
  let top' := u32 (top - 1) in
  store 4 (self + k_free_stack_top L) top' ;;
  entry_id ← load 4 (self + k_free_stack L + 4 * top');
  base_addr ← load 8 (self + k_base_addr L);
  entry_size ← load 4 (self + k_entry_size L);
  mret (MemBlk (base_addr + u32 (entry_id * entry_size)) entry_size).

(** the checks of deallocate, which end in the entry's id *)
Definition stack_entry_id (self : Z) (blk : mem_blk) : M W Z :=
  entry_size ← load 4 (self + k_entry_size L);
  if negb (entry_size =? size blk) then error "Size of returned block does not match stack element size" else
  base_addr ← load 8 (self + k_base_addr L);
  entry_size ← load 4 (self + k_entry_size L);
  let entry_id := Z.quot (i64 (ptr blk - base_addr)) entry_size in
  num_entries ← load 4 (self + k_num_entries L);
  if (num_entries <? entry_id) || (entry_id <? 0) then error "Calculated entry id is outside of stack range"
  else mret entry_id.

(** self->free_stack[self->free_stack_top++] = (uint32_t) entry_id *)
Definition stack_push (self entry_id : Z) : M W unit :=
  top ← load 4 (self + k_free_stack_top L);
  store 4 (self + k_free_stack_top L) (u32 (top + 1)) ;;
  store 4 (self + k_free_stack L + 4 * top) (u32 entry_id).

Definition stack_owns (self : Z) (blk : mem_blk) : M W bool :=
  base_addr ← load 8 (self + k_base_addr L);
  if ptr blk <? base_addr then mret false else
  num_entries ← load 4 (self + k_num_entries L);
  entry_size ← load 4 (self + k_entry_size L);
  mret (ptr blk <? base_addr + u32 (num_entries * entry_size)).

(** the end of the constructors, once both allocations have succeeded *)
Definition stack_init (sa base num_entries entry_size : Z) : M W unit :=
  store 4 (sa + k_num_entries L) num_entries ;;
  store 4 (sa + k_entry_size L) entry_size ;;
  store 8 (sa + k_base_addr L) base ;;
  store 4 (sa + k_free_stack_top L) num_entries ;;
  for_loop (Z.to_nat num_entries) 0 (fun i => store 4 (sa + k_free_stack L + 4 * i) i).
End stack.

(** ** stack_allocator.c *)
Definition stack_allocator_allocate (a sz : Z) : M W mem_blk :=
  let self := container_of a stack_allocator "vfs" in
  stack_pop sa_layout self sz.

Definition stack_allocator_deallocate (a : Z) (blk : mem_blk) : M W mem_blk :=
  let self := container_of a stack_allocator "vfs" in
  entry_id ← stack_entry_id sa_layout self blk;
  stack_push sa_layout self entry_id ;;
  mret (clear_blk blk).

Definition stack_allocator_owns (a : Z) (blk : mem_blk) : M W bool :=
  let self := container_of a stack_allocator "vfs" in
  stack_owns sa_layout self blk.

(** ** spinlock_stack_allocator.c *)
Definition spinlock_allocate (fuel : nat) (a sz : Z) : M W mem_blk :=
  let self := container_of a spinlock_stack_allocator "vfs" in
  rte_spinlock_lock fuel (self + ss_lock) ;;
  blk ← stack_pop ss_layout self sz;
  rte_spinlock_unlock (self + ss_lock) ;;
  mret blk.

Definition spinlock_deallocate (fuel : nat) (a : Z) (blk : mem_blk) : M W mem_blk :=
  let self := container_of a spinlock_stack_allocator "vfs" in
  entry_id ← stack_entry_id ss_layout self blk;
  rte_spinlock_lock fuel (self + ss_lock) ;;
  stack_push ss_layout self entry_id ;;
  rte_spinlock_unlock (self + ss_lock) ;;
  mret (clear_blk blk).

Definition spinlock_owns (a : Z) (blk : mem_blk) : M W bool :=
  let self := container_of a spinlock_stack_allocator "vfs" in
  stack_owns ss_layout self blk.

(** ** fallback_allocator.c, given the calls through its two members *)
Definition fallback_allocator_allocate (allocate : Z -> Z -> M W mem_blk) (a sz : Z) : M W mem_blk :=
  let self := container_of a fallback_allocator "self" in
  primary ← load 8 (self + fb_primary);
  blk ← allocate primary sz;
  if ptr blk =? NULL then (secondary ← load 8 (self + fb_secondary); allocate secondary sz)
  else mret blk.

Definition fallback_allocator_deallocate (owns : Z -> mem_blk -> M W bool)
    (deallocate : Z -> mem_blk -> M W mem_blk) (a : Z) (blk : mem_blk) : M W mem_blk :=
  let self := container_of a fallback_allocator "self" in
  primary ← load 8 (self + fb_primary);
  b ← owns primary blk;
  if b : bool then deallocate primary blk
  else (secondary ← load 8 (self + fb_secondary); deallocate secondary blk).

Definition fallback_allocator_owns (owns : Z -> mem_blk -> M W bool) (a : Z) (blk : mem_blk) : M W bool :=
  let self := container_of a fallback_allocator "self" in
  primary ← load 8 (self + fb_primary);
  b ← owns primary blk;
  if b : bool then mret true else (secondary ← load 8 (self + fb_secondary); owns secondary blk).
End code.

Ltac unalloc := unfold al_alignment, al_allocate, al_deallocate, al_owns, fb_primary, fb_secondary,
  ss_lock, NULL in *.
