(* ===== verification/Layout.v ===== *)
(** * The structures of the program are laid out soundly

    [offsetof] and [sizeof] of Mem.v are what every access to a structure goes
    through.  For any list of fields with different names they give aligned
    fields inside the structure that do not overlap; this holds for all
    structures of the program. *)
From S2P Require Import Prelude Mem Platform Memory Spinlock Registers Ixgbe IxgbeCpp Alloc.

#[export] Instance field_eq_dec : EqDecision field.
Proof. solve_decision. Defined.
Definition field_ok (f : field) : Prop := 0 <= f_size f /\ 0 < f_align f.

Lemma align_up_ge a n : 0 < a -> n <= align_up a n.
Proof.
  intros Ha. unfold align_up. pose proof (Z.div_mod (n + a - 1) a). pose proof (Z.mod_pos_bound (n + a - 1) a). lia.
Qed.
Lemma align_up_mod a n : 0 < a -> align_up a n mod a = 0.
Proof. intros Ha. unfold align_up. by apply Z.mod_mul, Z.neq_sym, Z.lt_neq. Qed.

Lemma struct_end_ge fs o : Forall field_ok fs -> o <= struct_end o fs.
Proof.
  intros Hf. revert o. induction Hf as [|f fs [Hs Ha] _ IH]; intros o; cbn; [lia|].
  pose proof (align_up_ge (f_align f) o Ha). specialize (IH (align_up (f_align f) o + f_size f)). lia.
Qed.

(** field number [i] is at [oi] *)
Definition placed (o : Z) (fs : list field) (i : nat) (f : field) (oi : Z) : Prop :=
  fs !! i = Some f /\ offsets o fs !! i = Some (f_name f, oi).

Lemma placed_cons o g fs i f oi : placed o (g :: fs) i f oi ->
  (i = 0%nat /\ f = g /\ oi = align_up (f_align g) o) \/
  exists j, i = S j /\ placed (align_up (f_align g) o + f_size g) fs j f oi.
Proof.
  intros [Hf Ho]. destruct i as [|j]; cbn in *; [left; by simplify_eq|right; exists j; by split].
Qed.

Lemma placed_bounds fs o i f oi : Forall field_ok fs -> placed o fs i f oi ->
  o <= oi /\ oi mod f_align f = 0 /\ oi + f_size f <= struct_end o fs.
Proof.
  intros Hf. revert o i. induction Hf as [|g fs [Hs Ha] Hfs IH]; intros o i Hp; [by destruct Hp|].
  pose proof (align_up_ge (f_align g) o Ha) as Hge. cbn.
  destruct (placed_cons _ _ _ _ _ _ Hp) as [(-> & -> & ->)|(j & -> & Hj)].
  - split_and!; [done|by apply align_up_mod|by apply struct_end_ge].
  - apply IH in Hj as (? & ? & ?). split_and!; [lia|done|done].
Qed.

Lemma placed_order fs o i f oi j g oj : Forall field_ok fs -> placed o fs i f oi -> placed o fs j g oj ->
  (i < j)%nat -> oi + f_size f <= oj.
Proof.
  intros Hf. revert o i j. induction Hf as [|h fs [Hs Ha] Hfs IH]; intros o i j Hi Hj Hlt; [by destruct Hi|].
  destruct (placed_cons _ _ _ _ _ _ Hj) as [(-> & _)|(j' & -> & Hj')]; [lia|].
  destruct (placed_cons _ _ _ _ _ _ Hi) as [(-> & -> & ->)|(i' & -> & Hi')].
  - by apply (placed_bounds fs) in Hj' as (? & _).
  - eapply IH; [exact Hi'|exact Hj'|lia].
Qed.

Lemma placed_offsetof fs i f oi : NoDup (f_name <$> fs) -> placed 0 fs i f oi -> offsetof fs (f_name f) = oi.
Proof.
  intros Hn Hp. unfold offsetof. revert Hn Hp. generalize 0. revert i. induction fs as [|g fs IH]; intros i o Hn Hp; [by destruct Hp|].
  cbn in Hn. apply NoDup_cons in Hn as [Hg Hn]. cbn.
  destruct (placed_cons _ _ _ _ _ _ Hp) as [(-> & -> & ->)|(j & -> & Hj)]; [by rewrite String.eqb_refl|].
  assert (String.eqb (f_name f) (f_name g) = false) as ->; [|by eapply IH].
  apply String.eqb_neq. intros He. apply Hg. rewrite <- He. apply list_elem_of_fmap_2.
  destruct Hj as [Hj _]. by eapply list_elem_of_lookup_2.
Qed.

Lemma member_placed fs f : f ∈ fs -> exists i oi, placed 0 fs i f oi.
Proof.
  intros [i Hi]%list_elem_of_lookup. exists i. assert (exists oi, offsets 0 fs !! i = Some (f_name f, oi)) as [oi Ho].
  { revert Hi. generalize 0. revert i. induction fs as [|g fs IH]; intros i o Hi; [done|].
    destruct i as [|i]; cbn in *; [simplify_eq; by eexists|by apply IH]. }
  exists oi. by split.
Qed.

Record layout_sound (fs : list field) : Prop := {
  ls_size : sizeof fs mod struct_align fs = 0;
  ls_member f : f ∈ fs -> 0 <= offsetof fs (f_name f) /\ offsetof fs (f_name f) mod f_align f = 0 /\
    offsetof fs (f_name f) + f_size f <= sizeof fs;
  ls_disjoint f g : f ∈ fs -> g ∈ fs -> f_name f <> f_name g ->
    disj (offsetof fs (f_name f)) (f_size f) (offsetof fs (f_name g)) (f_size g)
}.

Lemma struct_align_pos fs : 1 <= struct_align fs.
Proof. unfold struct_align. induction fs; cbn; lia. Qed.

Lemma layout_of_fields fs : Forall field_ok fs -> NoDup (f_name <$> fs) -> layout_sound fs.
Proof.
  intros Hf Hn. pose proof (struct_align_pos fs) as Ha. split.
  - apply align_up_mod. lia.
  - intros f (i & oi & Hp)%member_placed. rewrite (placed_offsetof fs i f oi) by done.
    destruct (placed_bounds _ _ _ _ _ Hf Hp) as (? & ? & ?). split_and!; [lia|done|].
    etransitivity; [done|]. apply align_up_ge. lia.
  - intros f g (i & oi & Hi)%member_placed (j & oj & Hj)%member_placed Hne.
    rewrite (placed_offsetof fs i f oi), (placed_offsetof fs j g oj) by done. unfold disj.
    destruct (lt_eq_lt_dec i j) as [[Hlt| ->]|Hlt].
    + left. eapply placed_order; [done|exact Hi|exact Hj|done].
    + destruct Hi as [Hi _], Hj as [Hj _]. congruence.
    + right. eapply placed_order; [done|exact Hj|exact Hi|done].
Qed.

(** ** The structures of the program *)
Definition program_structs : list (list field) :=
  [pkt_buf; mempool; Ixgbe.ixgbe_rx_queue; Ixgbe.ixgbe_tx_queue; IxgbeCpp.ixgbe_rx_queue; IxgbeCpp.ixgbe_tx_queue;
   ixgbe_adv_tx_desc_read; ixgbe_adv_tx_desc_wb; ixgbe_adv_rx_desc_read; ixgbe_adv_rx_desc_wb;
   allocator; null_allocator; mallocator; stack_allocator; spinlock_stack_allocator; fallback_allocator; dma_allocator;
   rte_spinlock_t; rte_spinlock_recursive_t].

Lemma program_structs_fields fs : fs ∈ program_structs -> Forall field_ok fs /\ NoDup (f_name <$> fs).
Proof.
  intros Hin. assert (Forall (fun fs => Forall field_ok fs /\ NoDup (f_name <$> fs)) program_structs) as Hall.
  { repeat (apply Forall_cons_2 || apply Forall_nil_2); split;
      solve [repeat (apply Forall_cons_2 || apply Forall_nil_2); by split | by apply (bool_decide_unpack _); vm_compute]. }
  rewrite Forall_forall in Hall. by apply Hall.
Qed.

(** In every structure of the program each member is aligned, inside the
    structure and disjoint from the other members, and the size is a multiple of
    the alignment, so arrays of it are aligned too.  The read and write-back
    formats of a descriptor have the 16 bytes the hardware expects, the packet
    data starts 64-byte aligned right behind a one cache line header, and an
    allocator's embedded [vfs] is its first member: container_of is the identity. *)
Lemma structures_laid_out (fs : list field) : fs ∈ program_structs ->
  layout_sound fs /\
  (sizeof ixgbe_adv_rx_desc_read = 16 /\ sizeof ixgbe_adv_rx_desc_wb = 16 /\
   sizeof ixgbe_adv_tx_desc_read = 16 /\ sizeof ixgbe_adv_tx_desc_wb = 16) /\
  (offsetof pkt_buf "data" = 64 /\ sizeof pkt_buf = 64 /\ struct_align pkt_buf = 64) /\
  (forall a, container_of a stack_allocator "vfs" = a /\ container_of a spinlock_stack_allocator "vfs" = a /\
     container_of a fallback_allocator "self" = a /\ container_of a dma_allocator "vfs" = a /\
     container_of a null_allocator "vfs" = a /\ container_of a mallocator "vfs" = a).
Proof.
  intros Hin. destruct (program_structs_fields fs Hin) as [Hf Hn]. split; [by apply layout_of_fields|].
  split; [by split_and!; vm_compute|]. split; [by split_and!; vm_compute|].
  intros a. unfold container_of. split_and!; apply Z.sub_0_r.
Qed.
Lemma structures_laid_out_witness : layout_sound spinlock_stack_allocator.
Proof. apply structures_laid_out. apply (bool_decide_unpack _). by vm_compute. Defined.
