(* ===== verification/DmaAlloc.v ===== *)
(** * dma_allocator.c: whole huge pages, checked to be physically contiguous *)
From S2P Require Import Prelude Mem Platform Memory Alloc.

Section code.
Context {H : Type} `{Platform H}.
Local Abbreviation W := (world H).

(** [virt_to_phys] is the function of memory.c, copied with a debug message
    before its [error]. *)
Definition dma_virt_to_phys (virt : Z) : M W Z := virt_to_phys virt.

(** [for (i = virt_base; i < virt_base + size; i += pagesize)]; the fuel
    counts the pages. *)
Fixpoint phys_continuous_from (fuel : nat) (pagesize virt_base phys_base vend i : Z) : M W bool :=
  match fuel with
  | O => hang
  | S fuel' =>
      if i <? vend then
        phys ← dma_virt_to_phys i;
        let virt_diff := u64 (i - virt_base) in
        if negb (u64 (phys_base + virt_diff) =? phys) then mret false
        else phys_continuous_from fuel' pagesize virt_base phys_base vend (u64 (i + pagesize))
      else mret true
  end.

Definition is_phys_continuous (blk : mem_blk) : M W bool :=
  pagesize ← syscall_ Sys_sysconf_pagesize;
  let virt_base := ptr blk in
  if negb (virt_base mod pagesize =? 0) then error "memory block does not start at page boundary" else
  if size blk <? pagesize then error "memory block smaller than one page" else
  phys_base ← dma_virt_to_phys (ptr blk);
  phys_continuous_from (S (Z.to_nat ((size blk + pagesize - 1) / pagesize))) pagesize virt_base phys_base
    (u64 (virt_base + size blk)) virt_base.

(** touch every page: [for (i = virt_addr; i < virt_addr + size; i += 1u<<21)] *)
Fixpoint touch_from (fuel : nat) (vend i : Z) : M W unit :=
  match fuel with
  | O => hang
  | S fuel' =>
      if i <? vend then
        temp ← vload 1 i;
        vstore 1 i temp ;;
        touch_from fuel' vend (i + Z.shiftl 1 21)
      else mret tt
  end.

Definition dma_allocate (a size0 : Z) : M W mem_blk :=
  let sz := round_2mb size0 in
  id ← gets huge_pg_id;
  modify (fun w : W => World (w_mem w) (w_hw w) (u32 (huge_pg_id w + 1))) ;;
  pid ← syscall_ Sys_getpid;
  let path := huge_path pid id in
  fd ← check_err (syscall_ (Sys_open path (Z.lor O_CREAT O_RDWR) S_IRWXU));
  _ ← check_err (syscall_ (Sys_ftruncate fd sz));
  virt_addr ← mmap_huge sz fd;
  _ ← check_err (syscall_ (Sys_mlock virt_addr sz));
  _ ← syscall_ (Sys_close fd);
  _ ← syscall_ (Sys_unlink path);
  touch_from (S (Z.to_nat (Z.shiftr sz 21))) (virt_addr + sz) virt_addr ;;
  let blk := MemBlk virt_addr sz in
  b ← is_phys_continuous blk;
  if negb b then error "memory returned by mmap is not physically continuous, try rebooting to clear fragmentation"
  else mret blk.

(** munmap of a whole mapping: its pages are no longer accessible *)
Definition dma_deallocate (a : Z) (blk : mem_blk) : M W mem_blk :=
  _ ← check_err (syscall_ (Sys_munmap (ptr blk) (size blk)));
  modify (fun w => set_mem (drop_region (ptr blk) (w_mem w)) w) ;;
  mret blk.

Definition dma_owns (a : Z) (blk : mem_blk) : M W bool := mret true.
End code.
