(* ===== verification/Vfs.v ===== *)
(** * Calls through struct allocator, the constructors and the destructors

    [allocate], [deallocate] and [owns] are the calls [a->allocate(a, ...)]
    etc.: they read the function pointer from the structure and run the
    function that has this address.  A fallback allocator calls the ones it
    was built from, so the calls run on fuel: one unit per level of fallback
    allocators nested in each other. *)
From S2P Require Import Prelude Mem Platform Memory Spinlock Alloc DmaAlloc.

(** the implementations of the interface and its three functions *)
Inductive impl := Null | Malloc | Stack | Spinlock_stack | Fallback | Dma.
Inductive slot := Allocate | Deallocate | Owns.
#[export] Instance impl_eq_dec : EqDecision impl.
Proof. solve_decision. Defined.
Definition impls : list impl := [Null; Malloc; Stack; Spinlock_stack; Fallback; Dma].

(** Where the linker put the functions and the static objects. *)
Class Linker := {
  fn_addr : impl -> slot -> Z;
  fn_addr_inj : forall s i j, fn_addr i s = fn_addr j s -> i = j;
  fn_addr_range : forall i s, 0 < fn_addr i s < 2 ^ 64;
  null_allocator_t : Z;
  mallocator_t : Z;
  dma_allocator_t : Z
}.

Definition alignment_of (i : impl) : Z := match i with Dma => 4096 | _ => 1 end.

Section code.
Context {LK : Linker}.

Definition impl_at (s : slot) (f : Z) : option impl :=
  find (fun i => fn_addr i s =? f) impls.

Lemma impl_at_fn s i : impl_at s (fn_addr i s) = Some i.
Proof.
  unfold impl_at. assert (i ∈ impls) as Hin by (destruct i; unfold impls; set_solver).
  clear -Hin. revert Hin. induction impls as [|j l IH]; intros Hin; [by apply elem_of_nil in Hin|].
  cbn. destruct (Z.eqb_spec (fn_addr j s) (fn_addr i s)) as [He|Hne].
  - apply fn_addr_inj in He. by subst.
  - apply IH. apply elem_of_cons in Hin as [->|]; done.
Qed.

Context {H : Type} `{Platform H}.
Local Abbreviation W := (world H).
Context (NDEBUG : bool) (spin : nat).

(** a->allocate(a, size) *)
Fixpoint allocate (fuel : nat) (a sz : Z) : M W mem_blk :=
  match fuel with
  | O => hang
  | S fuel' =>
      f ← load 8 (a + al_allocate);
      match impl_at Allocate f with
      | Some Null => null_allocator_allocate a sz
      | Some Malloc => mallocator_allocate a sz
      | Some Stack => stack_allocator_allocate a sz
      | Some Spinlock_stack => spinlock_allocate spin a sz
      | Some Fallback => fallback_allocator_allocate (allocate fuel') a sz
      | Some Dma => dma_allocate a sz
      | None => fail (Fault "call")
      end
  end.

(** a->owns(a, &blk) *)
Fixpoint owns (fuel : nat) (a : Z) (blk : mem_blk) : M W bool :=
  match fuel with
  | O => hang
  | S fuel' =>
      f ← load 8 (a + al_owns);
      match impl_at Owns f with
      | Some Null => null_allocator_owns a blk
      | Some Malloc => mallocator_owns a blk
      | Some Stack => stack_allocator_owns a blk
      | Some Spinlock_stack => spinlock_owns a blk
      | Some Fallback => fallback_allocator_owns (owns fuel') a blk
      | Some Dma => dma_owns a blk
      | None => fail (Fault "call")
      end
  end.

(** a->deallocate(a, &blk) *)
Fixpoint deallocate (fuel : nat) (a : Z) (blk : mem_blk) : M W mem_blk :=
  match fuel with
  | O => hang
  | S fuel' =>
      f ← load 8 (a + al_deallocate);
      match impl_at Deallocate f with
      | Some Null => null_allocator_deallocate a blk
      | Some Malloc => mallocator_deallocate NDEBUG a blk
      | Some Stack => stack_allocator_deallocate NDEBUG a blk
      | Some Spinlock_stack => spinlock_deallocate NDEBUG spin a blk
      | Some Fallback => fallback_allocator_deallocate (owns fuel') (deallocate fuel') a blk
      | Some Dma => dma_deallocate a blk
      | None => fail (Fault "call")
      end
  end.

(** ** Constructors and destructors *)

(** the structure [struct allocator a = {alignment, ...}] copied to [p] *)
Definition put_vfs (p alignment : Z) (i : impl) : M W unit :=
  store 4 (p + al_alignment) alignment ;;
  store 8 (p + al_allocate) (fn_addr i Allocate) ;;
  store 8 (p + al_deallocate) (fn_addr i Deallocate) ;;
  store 8 (p + al_owns) (fn_addr i Owns).

(** memcpy(&dst->vfs, src, sizeof(struct allocator)); the padding after the
    alignment is not modelled *)
Definition copy_vfs (dst src : Z) : M W unit :=
  v ← load 4 (src + al_alignment); store 4 (dst + al_alignment) v ;;
  v ← load 8 (src + al_allocate); store 8 (dst + al_allocate) v ;;
  v ← load 8 (src + al_deallocate); store 8 (dst + al_deallocate) v ;;
  v ← load 8 (src + al_owns); store 8 (dst + al_owns) v.

(** what the constructors of the stateless allocators do; malloc's result is
    not checked *)
Definition new_copy (type : list field) (static : Z) : M W Z :=
  p ← malloc_ (sizeof type);
  copy_vfs p static ;; mret p.
Definition null_allocator_new : M W Z := new_copy null_allocator null_allocator_t.
Definition mallocator_new : M W Z := new_copy mallocator mallocator_t.
Definition dma_allocator_new : M W Z := new_copy dma_allocator dma_allocator_t.
Definition null_allocator_free (a : Z) : M W unit := free_ (container_of a null_allocator "vfs").
Definition mallocator_free (a : Z) : M W unit := free_ (container_of a mallocator "vfs").
Definition dma_allocator_free (a : Z) : M W unit := free_ (container_of a dma_allocator "vfs").

Definition stack_allocator_new (fuel : nat) (num_entries entry_size0 parent : Z) : M W Z :=
  let entry_size := if entry_size0 =? 0 then 2048 else entry_size0 in
  sa ← malloc_ (sizeof stack_allocator + 4 * num_entries);
  if sa =? 0 then mret NULL else
  put_vfs sa 1 Stack ;;
  store 8 (sa + k_parent sa_layout) parent ;;
  mem ← allocate fuel parent (u32 (num_entries * entry_size));
  if ptr mem =? 0 then (free_ sa ;; mret NULL) else
  stack_init sa_layout sa (ptr mem) num_entries entry_size ;;
  mret sa.

(** the block [{self->base_addr, self->num_entries * self->entry_size}] given
    back to the parent *)
Definition stack_give_back (L : stack_layout) (fuel : nat) (self : Z) : M W unit :=
  base_addr ← load 8 (self + k_base_addr L);
  num_entries ← load 4 (self + k_num_entries L);
  entry_size ← load 4 (self + k_entry_size L);
  parent ← load 8 (self + k_parent L);
  _ ← deallocate fuel parent (MemBlk base_addr (u32 (num_entries * entry_size)));
  mret tt.

Definition stack_allocator_free (fuel : nat) (a : Z) : M W unit :=
  let self := container_of a stack_allocator "vfs" in
  stack_give_back sa_layout fuel self ;;
  free_ self.

Definition spinlock_stack_allocator_new (fuel : nat) (num_entries entry_size0 parent : Z) : M W Z :=
  let entry_size := if entry_size0 =? 0 then 2048 else entry_size0 in
  sa ← malloc_ (sizeof spinlock_stack_allocator + 4 * num_entries);
  if sa =? 0 then mret NULL else
  put_vfs sa 1 Spinlock_stack ;;
  store 8 (sa + k_parent ss_layout) parent ;;
  rte_spinlock_init (sa + ss_lock) ;;
  mem ← allocate fuel parent (u32 (num_entries * entry_size));
  if ptr mem =? 0 then (free_ sa ;; mret NULL) else
  stack_init ss_layout sa (ptr mem) num_entries entry_size ;;
  mret sa.

Definition spinlock_stack_allocator_free (fuel : nat) (a : Z) : M W unit :=
  let self := container_of a spinlock_stack_allocator "vfs" in
  rte_spinlock_lock spin (self + ss_lock) ;;
  stack_give_back ss_layout fuel self ;;
  rte_spinlock_unlock (self + ss_lock) ;;
  free_ self.

Definition fallback_allocator_new (primary secondary : Z) : M W Z :=
  a1 ← load 4 (primary + al_alignment);
  a2 ← load 4 (secondary + al_alignment);
  fb ← malloc_ (sizeof fallback_allocator);
  put_vfs fb (min_ a1 a2) Fallback ;;
  store 8 (fb + fb_primary) primary ;;
  store 8 (fb + fb_secondary) secondary ;;
  mret fb.
Definition fallback_allocator_free (a : Z) : M W unit := free_ (container_of a fallback_allocator "self").

(** ** allocator-example.c *)
Definition fails_if (b : bool) (msg : string) : M W unit := if b then error msg else mret tt.

Definition example_mallocator (fuel : nat) : M W unit :=
  blk ← allocate fuel mallocator_t 1024;
  _ ← deallocate fuel mallocator_t blk; mret tt.

(** [n] allocations of 64 bytes; the last block *)
Fixpoint example_drain (fuel n : nat) (a : Z) (blk : mem_blk) : M W mem_blk :=
  match n with
  | O => mret blk
  | S n' =>
      blk ← allocate fuel a 64;
      fails_if (ptr blk =? NULL) "stack allocation failed" ;;
      example_drain fuel n' a blk
  end.

Definition example_stack (fuel : nat) : M W unit :=
  a ← stack_allocator_new fuel 1024 64 mallocator_t;
  blk ← allocate fuel a 128;
  fails_if (negb (ptr blk =? NULL)) "mem blk larger than element size" ;;
  blk ← example_drain fuel 1024 a blk;
  _ ← deallocate fuel a blk;
  blk ← allocate fuel a 64;
  fails_if (ptr blk =? NULL) "stack should have one slot left" ;;
  blk ← allocate fuel a 64;
  fails_if (negb (ptr blk =? NULL)) "stack should be empty" ;;
  stack_allocator_free fuel a.

Definition example_fallback (fuel : nat) : M W unit :=
  a ← fallback_allocator_new null_allocator_t mallocator_t;
  blk ← allocate fuel a 64;
  fails_if (ptr blk =? NULL) "Should have fallen back to malloc" ;;
  _ ← deallocate fuel a blk;
  fallback_allocator_free a.

Definition example_spinlock (fuel : nat) : M W unit :=
  a ← spinlock_stack_allocator_new fuel 10 8 mallocator_t;
  blk ← allocate fuel a 8;
  fails_if (ptr blk =? NULL) "stack should have one slot left" ;;
  b ← owns fuel a blk;
  fails_if (negb b) "stack must own allocated block" ;;
  _ ← deallocate fuel a blk;
  spinlock_stack_allocator_free fuel a.

(** each block is also printed *)
Fixpoint example_dma (fuel : nat) (sizes : list Z) : M W unit :=
  match sizes with
  | [] => mret tt
  | sz :: sizes' =>
      blk ← allocate fuel dma_allocator_t sz;
      _ ← deallocate fuel dma_allocator_t blk;
      example_dma fuel sizes'
  end.

Definition allocator_example_main (fuel : nat) : M W unit :=
  example_mallocator fuel ;; example_stack fuel ;; example_fallback fuel ;; example_spinlock fuel ;;
  example_dma fuel [4096; 4 * 1024 * 1024; 8 * 1024 * 1024].
End code.
