(* ===== verification/StackSpec.v ===== *)
(** * The stack allocators: representation and specifications

    Both stack allocators keep a stack of free entry ids behind a header; the
    layout says where.  [stk] is the abstract allocator, [stk_rep] its
    representation in memory and [stk_wf] the facts that hold as long as
    clients only give back what they got.  [pop], [push] and the id
    computation are specified on every branch over [stk_rep] alone. *)
From S2P Require Import Prelude Mem Platform Memory Spinlock Alloc.

Class LayoutOk (L : stack_layout) : Prop := {
  lo_parent : sizeof allocator <= k_parent L /\ k_parent L + 8 <= k_base_addr L;
  lo_base : k_base_addr L + 8 <= k_entry_size L;
  lo_esz : k_entry_size L + 4 <= k_num_entries L;
  lo_num : k_num_entries L + 4 <= k_free_stack_top L;
  lo_top : k_free_stack_top L + 4 <= k_free_stack L;
  lo_stack : k_free_stack L + 4 <= k_sizeof L
}.
#[export] Instance sa_layout_ok : LayoutOk sa_layout.
Proof. by split; vm_compute. Qed.
#[export] Instance ss_layout_ok : LayoutOk ss_layout.
Proof. by split; vm_compute. Qed.

Record stk := Stk { k_self : Z; k_base : Z; k_esz : Z; k_num : Z; k_free : list Z }.
Definition set_kfree (l : list Z) (S : stk) : stk := Stk (k_self S) (k_base S) (k_esz S) (k_num S) l.
Definition k_entry (S : stk) (i : Z) : mem_blk := MemBlk (k_base S + i * k_esz S) (k_esz S).
(** size of the allocator's own block: header and free stack *)
Definition k_len (L : stack_layout) (S : stk) : Z := k_sizeof L + 4 * k_num S.

Record stk_rep (L : stack_layout) (m : mem) (S : stk) : Prop := {
  sr_map : mapped m (k_self S) (k_len L S) = true;
  sr_esz : 0 < k_esz S < 2 ^ 32;
  sr_num : 0 <= k_num S < 2 ^ 32;
  sr_len : Z.of_nat (length (k_free S)) <= k_num S + 1;
  sr_base : ld 8 m (k_self S + k_base_addr L) = k_base S;
  sr_esz_ld : ld 4 m (k_self S + k_entry_size L) = k_esz S;
  sr_num_ld : ld 4 m (k_self S + k_num_entries L) = k_num S;
  sr_top : ld 4 m (k_self S + k_free_stack_top L) = Z.of_nat (length (k_free S)) mod 2 ^ 32;
  sr_free : forall k i, k_free S !! k = Some i -> ld 4 m (k_self S + k_free_stack L + 4 * Z.of_nat k) = i
}.

Record stk_wf (S : stk) : Prop := {
  sw_total : k_num S * k_esz S < 2 ^ 32;
  sw_base : 0 < k_base S /\ k_base S + k_num S * k_esz S < 2 ^ 63;
  sw_nodup : NoDup (k_free S);
  sw_bound : Forall (fun i => 0 <= i < k_num S) (k_free S)
}.

(** the bytes the representation depends on: base_addr and what follows *)
Definition stk_fp (L : stack_layout) (S : stk) (a : Z) : Prop :=
  range (k_self S + k_base_addr L) (k_len L S - k_base_addr L) a.

Section rep.
Context (L : stack_layout) `{!LayoutOk L}.
Implicit Types (m : mem) (S : stk).

Ltac layout := destruct LayoutOk0 as [[? ?] ? ? ? ? ?]; change (sizeof allocator) with 32 in *.

Lemma stk_rep_frame m m' S :
  (forall a, stk_fp L S a -> rd m a = rd m' a) -> mapped m' (k_self S) (k_len L S) = true ->
  stk_rep L m S -> stk_rep L m' S.
Proof.
  intros Hrd Hm' [Hm He Hn Hl Hb Hes Hnu Ht Hf]. layout.
  assert (forall n o, k_base_addr L <= o -> o + Z.of_nat n <= k_len L S ->
    ld n m' (k_self S + o) = ld n m (k_self S + o)) as Hld.
  { intros. symmetry. apply ld_ext. intros. apply Hrd. unfold stk_fp, range. lia. }
  unfold k_len in *. split; try done; try (rewrite Hld by lia; done).
  intros k i Hk. rewrite <- Z.add_assoc, Hld.
  - rewrite Z.add_assoc. by apply Hf.
  - lia.
  - apply lookup_lt_Some in Hk. lia.
Qed.

Lemma stk_rep_below S m l :
  stk_rep L m S -> (forall k i, l !! k = Some i -> k_free S !! k = Some i) -> (length l <= length (k_free S))%nat ->
  stk_rep L (st 4 (k_self S + k_free_stack_top L) (Z.of_nat (length l)) m) (set_kfree l S).
Proof.
  intros [Hm He Hn Hl Hb Hes Hnu Ht Hf] Hsub Hlen. layout.
  split; cbn; try (rewrite ?mapped_st; done); try (rewrite ld_st_out by lia; done).
  - lia.
  - by rewrite ld_st_eq.
  - intros k i Hk. rewrite ld_st_out by lia. by apply Hf, Hsub.
Qed.

(** the memory after a push *)
Definition pushed S (id : Z) m : mem :=
  st 4 (k_self S + k_free_stack L + 4 * Z.of_nat (length (k_free S))) id
    (st 4 (k_self S + k_free_stack_top L) (u32 (Z.of_nat (length (k_free S)) + 1)) m).

Lemma stk_rep_push S m id :
  stk_rep L m S -> Z.of_nat (length (k_free S)) <= k_num S -> 0 <= id < 2 ^ 32 ->
  stk_rep L (pushed S id m) (set_kfree (k_free S ++ [id]) S).
Proof.
  intros [Hm He Hn Hl Hb Hes Hnu Ht Hf] Hroom Hid. layout. unfold pushed, k_len in *.
  split; cbn; try (rewrite ?mapped_st; done); try (rewrite !ld_st_out by lia; done).
  - rewrite length_app; cbn. lia.
  - rewrite ld_st_out, ld_st_eq by lia. rewrite length_app; cbn.
    change (8 * Z.of_nat 4) with 32. unfold u32. rewrite Z.mod_mod by done. f_equal. lia.
  - intros k i [Hk|[Hk Hi]]%lookup_app_Some.
    + apply lookup_lt_Some in Hk as Hlt. rewrite !ld_st_out by lia. by apply Hf.
    + apply list_lookup_singleton_Some in Hi as [Hk0 <-].
      replace k with (length (k_free S)) by lia. rewrite ld_st_eq. by apply Z.mod_small.
Qed.
End rep.

Section specs.
Context {H : Type} `{Platform H}.
Context (L : stack_layout) `{!LayoutOk L}.
Implicit Types (w : world H) (S : stk).

Ltac layout := destruct LayoutOk0 as [[? ?] ? ? ? ? ?]; change (sizeof allocator) with 32 in *.

Lemma stk_field w S n o : stk_rep L (w_mem w) S -> 0 <= o -> o + Z.of_nat n <= k_len L S ->
  mapped (w_mem w) (k_self S + o) (Z.of_nat n) = true.
Proof. intros Hr ? ?. eapply mapped_sub; [exact (sr_map _ _ _ Hr)|lia|lia]. Qed.

(** The entry on top of the stack is taken off it; its offset is computed in 32 bits. *)
Lemma stack_pop_raw S sz w :
  stk_rep L (w_mem w) S -> Z.of_nat (length (k_free S)) < 2 ^ 32 ->
  wp (stack_pop L (k_self S) sz) (fun b w' =>
    match last (k_free S) with
    | Some i =>
        if k_esz S <? sz then b = NULL_blk /\ w' = w
        else let l := removelast (k_free S) in
          b = MemBlk (k_base S + u32 (i * k_esz S)) (k_esz S) /\ stk_rep L (w_mem w') (set_kfree l S) /\
          w' = set_mem (st 4 (k_self S + k_free_stack_top L) (Z.of_nat (length l)) (w_mem w)) w
    | None => b = NULL_blk /\ w' = w
    end) never w.
Proof.
  intros Hr Hlen32. pose proof Hr as [Hm He Hn Hl Hb Hes Hnu Ht Hf]. pose proof LayoutOk0 as [[? ?] ? ? ? ? ?].
  change (sizeof allocator) with 32 in *. rewrite Z.mod_small in Ht by lia.
  unfold stack_pop. apply wp_bind, wp_load; [apply (stk_field w S 4); [done|lia|unfold k_len; lia]|].
  rewrite Ht. destruct (k_free S) as [|x l _] eqn:E using rev_ind; [by apply wp_ret|].
  rewrite last_snoc, removelast_last. rewrite length_app in *. cbn [length] in *.
  rewrite (proj2 (Z.eqb_neq _ _)) by lia.
  apply wp_bind, wp_load; [apply (stk_field w S 4); [done|lia|unfold k_len; lia]|]. rewrite Hes.
  destruct (k_esz S <? sz); [by apply wp_ret|].
  apply wp_bind, wp_load; [apply (stk_field w S 4); [done|lia|unfold k_len; lia]|]. rewrite Ht.
  replace (u32 _) with (Z.of_nat (length l)) by (rewrite u32_small by lia; lia).
  apply wp_bind, wp_store; [apply (stk_field w S 4); [done|lia|unfold k_len; lia]|].
  set (w1 := set_mem _ w).
  assert (stk_rep L (w_mem w1) (set_kfree l S)) as Hr1.
  { apply stk_rep_below; [done|done| |].
    - intros k i Hk. rewrite E. by apply lookup_app_l_Some.
    - rewrite E, length_app. lia. }
  apply wp_bind, wp_load.
  { rewrite <- Z.add_assoc. apply (stk_field w1 (set_kfree l S) 4); [done|lia|unfold k_len; cbn; lia]. }
  assert (ld 4 (w_mem w1) (k_self S + k_free_stack L + 4 * Z.of_nat (length l)) = x) as ->.
  { unfold w1; cbn. rewrite ld_st_out by lia. apply Hf. by rewrite lookup_app_r, Nat.sub_diag by lia. }
  assert (ld 8 (w_mem w1) (k_self S + k_base_addr L) = k_base S) as Hb1 by apply Hr1.
  assert (ld 4 (w_mem w1) (k_self S + k_entry_size L) = k_esz S) as Hes1 by apply Hr1.
  apply wp_bind, wp_load; [apply (stk_field w1 (set_kfree l S) 8); [done|lia|unfold k_len; cbn; lia]|].
  rewrite Hb1.
  apply wp_bind, wp_load; [apply (stk_field w1 (set_kfree l S) 4); [done|lia|unfold k_len; cbn; lia]|].
  rewrite Hes1. apply wp_ret. split; [done|]. by split.
Qed.

(** The stack is not taken to be well formed: popping an id outside the range
    gives the block that follows the entries. *)
Lemma stack_pop_spec S sz w :
  stk_rep L (w_mem w) S -> Forall (fun i => 0 <= i /\ i * k_esz S < 2 ^ 32) (k_free S) ->
  Z.of_nat (length (k_free S)) < 2 ^ 32 ->
  wp (stack_pop L (k_self S) sz) (fun b w' =>
    match last (k_free S) with
    | Some i =>
        if k_esz S <? sz then b = NULL_blk /\ w' = w
        else let l := removelast (k_free S) in
          b = k_entry S i /\ stk_rep L (w_mem w') (set_kfree l S) /\
          w' = set_mem (st 4 (k_self S + k_free_stack_top L) (Z.of_nat (length l)) (w_mem w)) w
    | None => b = NULL_blk /\ w' = w
    end) never w.
Proof.
  intros Hr Hids Hlen. eapply wp_conseq; [by apply stack_pop_raw|]. cbn beta. intros b w'.
  destruct (last (k_free S)) as [i|] eqn:El; [|done]. destruct (k_esz S <? sz); [done|]. intros [-> Hw].
  split; [|exact Hw]. apply last_Some_elem_of in El. rewrite Forall_forall in Hids. destruct (Hids i El).
  pose proof (sr_esz _ _ _ Hr). by rewrite u32_small by nia.
Qed.

Lemma stack_push_spec S id w :
  stk_rep L (w_mem w) S -> Z.of_nat (length (k_free S)) <= k_num S -> Z.of_nat (length (k_free S)) < 2 ^ 32 ->
  0 <= id < 2 ^ 32 ->
  wp (stack_push L (k_self S) id) (fun _ w' =>
    stk_rep L (w_mem w') (set_kfree (k_free S ++ [id]) S) /\ w' = set_mem (pushed L S id (w_mem w)) w) never w.
Proof.
  intros Hr Hroom Hl32 Hid. pose proof Hr as [Hm He Hn Hl Hb Hes Hnu Ht Hf].
  pose proof LayoutOk0 as [[? ?] ? ? ? ? ?]. change (sizeof allocator) with 32 in *.
  rewrite Z.mod_small in Ht by lia. unfold stack_push.
  apply wp_bind, wp_load; [apply (stk_field w S 4); [done|lia|unfold k_len; lia]|]. rewrite Ht.
  apply wp_bind, wp_store; [apply (stk_field w S 4); [done|lia|unfold k_len; lia]|].
  rewrite (u32_small id) by done. apply wp_store; cbn.
  { rewrite mapped_st, <- Z.add_assoc. apply (stk_field w S 4); [done|lia|unfold k_len; lia]. }
  split; [|done]. by apply stk_rep_push.
Qed.

Definition id_of S (b : mem_blk) : Z := Z.quot (ptr b - k_base S) (k_esz S).

Lemma stack_entry_id_spec S b w (Q : Z -> world H -> Prop) (E : failure -> world H -> Prop) :
  stk_rep L (w_mem w) S -> - 2 ^ 63 <= ptr b - k_base S < 2 ^ 63 ->
  (size b <> k_esz S -> E (Abort "Size of returned block does not match stack element size") w) ->
  (size b = k_esz S -> ~ (0 <= id_of S b <= k_num S) ->
     E (Abort "Calculated entry id is outside of stack range") w) ->
  (size b = k_esz S -> 0 <= id_of S b <= k_num S -> Q (id_of S b) w) ->
  wp (stack_entry_id L (k_self S) b) Q E w.
Proof.
  intros Hr Hd HE1 HE2 HQ. pose proof Hr as [Hm He Hn Hl Hb Hes Hnu Ht Hf].
  pose proof LayoutOk0 as [[? ?] ? ? ? ? ?]. change (sizeof allocator) with 32 in *. unfold stack_entry_id.
  apply wp_bind, wp_load; [apply (stk_field w S 4); [done|lia|unfold k_len; lia]|]. rewrite Hes.
  destruct (Z.eqb_spec (k_esz S) (size b)) as [Hsz|Hsz]; cbn; [|apply wp_fail, HE1; congruence].
  apply wp_bind, wp_load; [apply (stk_field w S 8); [done|lia|unfold k_len; lia]|]. rewrite Hb.
  apply wp_bind, wp_load; [apply (stk_field w S 4); [done|lia|unfold k_len; lia]|]. rewrite Hes.
  apply wp_bind, wp_load; [apply (stk_field w S 4); [done|lia|unfold k_len; lia]|]. rewrite Hnu.
  assert (i64 (ptr b - k_base S) = ptr b - k_base S) as ->.
  { unfold i64, u64. zify_pre. change (2 ^ 63) with 9223372036854775808 in *.
    destruct (Z.ltb_spec ((ptr b - k_base S) mod 18446744073709551616) 9223372036854775808) as [Hlt|Hge];
      destruct (decide (0 <= ptr b - k_base S)).
    - apply Z.mod_small. lia.
    - rewrite <- (Z.mod_add _ 1) in * by done. rewrite Z.mod_small in * by lia. lia.
    - rewrite Z.mod_small in * by lia. lia.
    - rewrite <- (Z.mod_add _ 1) in * by done. rewrite Z.mod_small in * by lia. lia. }
  fold (id_of S b). destruct (Z.ltb_spec (k_num S) (id_of S b)); cbn; [apply wp_fail, HE2; [done|lia]|].
  destruct (Z.ltb_spec (id_of S b) 0); [apply wp_fail, HE2; [done|lia]|]. apply wp_ret, HQ; [done|lia].
Qed.

Lemma stack_owns_spec S b w :
  stk_rep L (w_mem w) S -> k_num S * k_esz S < 2 ^ 32 ->
  wp (stack_owns L (k_self S) b) (fun r w' => w' = w /\
    r = bool_decide (k_base S <= ptr b < k_base S + k_num S * k_esz S)) never w.
Proof.
  intros Hr Ht32. pose proof Hr as [Hm He Hn Hl Hb Hes Hnu Ht Hf].
  pose proof LayoutOk0 as [[? ?] ? ? ? ? ?]. change (sizeof allocator) with 32 in *. unfold stack_owns.
  apply wp_bind, wp_load; [apply (stk_field w S 8); [done|lia|unfold k_len; lia]|]. rewrite Hb.
  destruct (Z.ltb_spec (ptr b) (k_base S)).
  { apply wp_ret. split; [done|]. symmetry. apply bool_decide_false. lia. }
  apply wp_bind, wp_load; [apply (stk_field w S 4); [done|lia|unfold k_len; lia]|]. rewrite Hnu.
  apply wp_bind, wp_load; [apply (stk_field w S 4); [done|lia|unfold k_len; lia]|]. rewrite Hes.
  apply wp_ret. split; [done|]. rewrite u32_small by nia.
  destruct (Z.ltb_spec (ptr b) (k_base S + k_num S * k_esz S)); symmetry;
    [apply bool_decide_true; lia|apply bool_decide_false; lia].
Qed.

(** *** Under the invariant of well-behaved clients

    [ids] are the entries handed out. *)
Record stk_params S : Prop := {
  sp_num : 0 <= k_num S;
  sp_esz : 0 < k_esz S;
  sp_total : k_num S * k_esz S < 2 ^ 32;
  sp_base : 0 < k_base S /\ k_base S + k_num S * k_esz S < 2 ^ 63
}.
Definition k_accounted S (ids : list Z) : Prop := ids ++ k_free S ≡ₚ seqZ 0 (k_num S).

Lemma k_accounted_bound S ids i : k_accounted S ids -> i ∈ ids \/ i ∈ k_free S -> 0 <= i < k_num S.
Proof.
  intros Ha Hi. assert (i ∈ seqZ 0 (k_num S)) as Hx; [|apply elem_of_seqZ in Hx; lia].
  unfold k_accounted in Ha. rewrite <- Ha. by apply elem_of_app.
Qed.
Lemma k_accounted_nodup S ids : k_accounted S ids -> NoDup (ids ++ k_free S).
Proof. unfold k_accounted. intros ->. apply NoDup_seqZ. Qed.
Lemma k_accounted_length S ids : 0 <= k_num S -> k_accounted S ids ->
  Z.of_nat (length ids) + Z.of_nat (length (k_free S)) = k_num S.
Proof.
  unfold k_accounted. intros Hn Ha%Permutation_length. rewrite length_app, length_seqZ in Ha. lia.
Qed.
Lemma k_accounted_ids S ids : stk_params S -> k_accounted S ids ->
  Forall (fun i => 0 <= i /\ i * k_esz S < 2 ^ 32) (k_free S).
Proof.
  intros [] Ha. apply Forall_forall. intros i Hi.
  pose proof (k_accounted_bound S ids i Ha (or_intror Hi)). nia.
Qed.

Lemma stack_pop_ok S ids sz w :
  stk_params S -> stk_rep L (w_mem w) S -> k_accounted S ids ->
  wp (stack_pop L (k_self S) sz) (fun b w' => w' = set_mem (w_mem w') w /\
    agree_off (stk_fp L S) (w_mem w) (w_mem w') /\
    exists free' ids', stk_rep L (w_mem w') (set_kfree free' S) /\ k_accounted (set_kfree free' S) ids' /\
      ((ptr b = NULL /\ ids' = ids) \/
       (exists i, b = k_entry S i /\ 0 <= i < k_num S /\ sz <= k_esz S /\ ids' = i :: ids))) never w.
Proof.
  intros Hp Hr Ha. pose proof (k_accounted_length S ids (sp_num _ Hp) Ha) as Hlen.
  pose proof (sr_num _ _ _ Hr) as Hn. destruct w as [m h g].
  eapply wp_conseq; [apply stack_pop_spec; [done|by eapply k_accounted_ids|lia]|]. cbn beta. intros b w' Hb.
  assert (set_kfree (k_free S) S = S) as HS by (by destruct S).
  destruct (k_free S) as [|i l _] eqn:E using rev_ind.
  { cbn in Hb. destruct Hb as [-> ->]. split_and!; [done|apply agree_off_refl|]. exists [], ids.
    rewrite HS. split_and!; [done|done|by left]. }
  rewrite last_snoc, removelast_last in Hb. destruct (Z.ltb_spec (k_esz S) sz) as [|Hsz].
  { destruct Hb as [-> ->]. split_and!; [done|apply agree_off_refl|]. exists (l ++ [i]), ids.
    rewrite HS. split_and!; [done|done|by left]. }
  destruct Hb as (-> & Hr' & ->). split_and!; [done| |].
  { cbn. apply agree_off_st. intros x Hx. unfold stk_fp, range, k_len. layout. lia. }
  exists l, (i :: ids). split_and!; [done| |].
  - unfold k_accounted in *. cbn. rewrite <- Ha, E, app_assoc.
    by rewrite (Permutation_app_comm (ids ++ l)).
  - right. exists i. split_and!; try done; apply (k_accounted_bound S ids i Ha); right; rewrite E;
      apply elem_of_app; right; by left.
Qed.

Lemma stack_entry_id_ok S i w (Q : Z -> world H -> Prop) E :
  stk_params S -> stk_rep L (w_mem w) S -> 0 <= i < k_num S -> Q i w ->
  wp (stack_entry_id L (k_self S) (k_entry S i)) Q E w.
Proof.
  intros [] Hr Hi HQ.
  assert (ptr (k_entry S i) - k_base S = i * k_esz S) as Hd by (cbn; lia).
  assert (id_of S (k_entry S i) = i) as Hid by (unfold id_of; rewrite Hd; apply Z.quot_mul; lia).
  apply (stack_entry_id_spec S); [done|rewrite Hd; nia| |rewrite Hid; lia|rewrite Hid; done]. cbn. done.
Qed.

Lemma stack_push_ok S i ids w :
  stk_params S -> stk_rep L (w_mem w) S -> k_accounted S (i :: ids) ->
  wp (stack_push L (k_self S) i) (fun _ w' => w' = set_mem (w_mem w') w /\
    agree_off (stk_fp L S) (w_mem w) (w_mem w') /\
    exists free', stk_rep L (w_mem w') (set_kfree free' S) /\ k_accounted (set_kfree free' S) ids) never w.
Proof.
  intros Hp Hr Ha. pose proof (k_accounted_length S _ (sp_num _ Hp) Ha) as Hlen. cbn [length] in Hlen.
  pose proof (sr_num _ _ _ Hr) as Hn. pose proof (k_accounted_bound S _ i Ha) as Hi.
  assert (0 <= i < k_num S) as Hi' by (apply Hi; left; by left).
  eapply wp_conseq; [apply stack_push_spec; [done|lia|lia|lia]|]. cbn beta. intros _ w' [Hr' ->].
  split_and!; [done| |].
  - cbn. unfold pushed. layout. etransitivity; apply agree_off_st; intros x Hx; unfold stk_fp, range, k_len; lia.
  - exists (k_free S ++ [i]). split; [done|]. unfold k_accounted in *. cbn. rewrite <- Ha, app_assoc.
    by rewrite (Permutation_app_comm (ids ++ _)).
Qed.
End specs.
