(* ===== verification/AllocLaws.v ===== *)
(** * What an allocator promises

    [HeapLaws] is the documented behaviour of malloc and free: blocks never
    overlap what is mapped.  [AllocatorLaws] is the contract of one object
    behind [struct allocator]: an invariant over the live blocks and the
    regions of memory the object holds, the bytes that are its own, and what
    its three functions do.  Implementations discharge it (AllocInst.v);
    fallback allocators and clients are verified against it alone. *)
From S2P Require Import Prelude Mem Platform Memory Spinlock Alloc DmaAlloc Vfs.

(** ** Separate regions *)
Definition apart (r r' : Z * Z) : Prop := r.1 <> r'.1 /\ disj r.1 r.2 r'.1 r'.2.
Fixpoint sep (R : list (Z * Z)) : Prop :=
  match R with
  | [] => True
  | r :: R' => Forall (apart r) R' /\ sep R'
  end.

Lemma apart_sym r r' : apart r r' -> apart r' r.
Proof. unfold apart, disj. intros [? ?]. split; [congruence|tauto]. Qed.

Lemma sep_app R1 R2 :
  sep (R1 ++ R2) <-> sep R1 /\ sep R2 /\ (forall r1 r2, r1 ∈ R1 -> r2 ∈ R2 -> apart r1 r2).
Proof.
  induction R1 as [|r R1 IH]; cbn.
  - split; [|tauto]. intros Hs. split_and!; [done|done|]. intros ? ? Hr. by apply elem_of_nil in Hr.
  - rewrite IH, Forall_app. rewrite !(Forall_forall (apart r)). split.
    + intros ([? Hr] & ? & ? & Hx). split_and!; try done. intros r1 r2 [->|?]%elem_of_cons ?; auto.
    + intros ([? ?] & ? & Hx). split_and!; try done.
      * intros x Hx2. apply Hx; [apply elem_of_cons; by left|done].
      * intros r1 r2 ? ?. apply Hx; [apply elem_of_cons; by right|done].
Qed.

#[export] Instance sep_proper : Proper ((≡ₚ) ==> iff) sep.
Proof.
  assert (forall R R', R ≡ₚ R' -> sep R -> sep R') as Hp.
  { induction 1 as [|x R R' HR IH|x y R|R1 R2 R3 _ IH1 _ IH2]; cbn; [done| | |tauto].
    - intros [Hf Hs]. split; [by rewrite <- HR|auto].
    - intros (Hx & Hy & Hs). apply Forall_cons in Hx as [Hxy Hx].
      split_and!; [apply Forall_cons; split; [by apply apart_sym|done]|done|done]. }
  intros R R' HR. split; by apply Hp.
Qed.

(** a block, and where it lies *)
Definition blk_region (b : mem_blk) : Z * Z := (ptr b, size b).
Definition inside (b : mem_blk) (r : Z * Z) : Prop :=
  0 <= size b /\ r.1 <= ptr b /\ ptr b + size b <= r.1 + r.2 /\ (ptr b = r.1 \/ ptr b < r.1 + r.2).

Lemma inside_apart b1 b2 r1 r2 :
  inside b1 r1 -> inside b2 r2 -> apart r1 r2 -> apart (blk_region b1) (blk_region b2).
Proof. unfold inside, apart, disj, blk_region; cbn. lia. Qed.

Lemma mapped_elem m (r : Z * Z) a n :
  r ∈ regions m -> r.1 <= a -> a + n <= r.1 + r.2 -> mapped m a n = true.
Proof.
  intros Hr ? ?. unfold mapped. apply existsb_exists. exists r. split; [by apply list_elem_of_In|].
  unfold in_region. lia.
Qed.

(** ** The heap *)
Class HeapLaws (H : Type) `{Platform H} := {
  heap_ok : list (Z * Z) -> H -> Prop;
  heap_sep : forall R h, heap_ok R h -> sep R;
  heap_perm : forall R R' h, R ≡ₚ R' -> heap_ok R h -> heap_ok R' h;
  malloc_law : forall R h n, heap_ok R h -> 0 <= n ->
    let '(p, h') := malloc n h in
    (p = 0 /\ heap_ok R h') \/ (0 < p /\ p + n < 2 ^ 47 /\ heap_ok ((p, n) :: R) h');
  free_law : forall R h p n, heap_ok ((p, n) :: R) h -> heap_ok R (heap_free p h)
}.

Section laws.
Context {LK : Linker} {H : Type} {PF : Platform H} {HL : @HeapLaws H PF}.
Context (NDEBUG : bool) (spin : nat).
Implicit Types (w : world H) (m : mem) (b : mem_blk) (R F : list (Z * Z)).

Definition world_ok w : Prop := heap_ok (regions (w_mem w)) (w_hw w).

(** only the allocator's own bytes change *)
Definition quiet (priv : Z -> Prop) w w' : Prop :=
  forall x, ~ priv x -> rd (w_mem w') x = rd (w_mem w) x.

Lemma quiet_refl priv w : quiet priv w w.
Proof. done. Qed.
Lemma quiet_trans priv w1 w2 w3 : quiet priv w1 w2 -> quiet priv w2 w3 -> quiet priv w1 w3.
Proof. intros H1 H2 x Hx. by rewrite H2, H1. Qed.
Lemma quiet_mono (priv priv' : Z -> Prop) w w' :
  (forall x, priv x -> priv' x) -> quiet priv w w' -> quiet priv' w w'.
Proof. intros Hp Hq x Hx. apply Hq. auto. Qed.

Lemma malloc_spec n w :
  world_ok w -> 0 <= n ->
  wp (malloc_ n) (fun p w' => (forall x, rd (w_mem w') x = rd (w_mem w) x) /\ world_ok w' /\
    ((p = 0 /\ regions (w_mem w') = regions (w_mem w)) \/
     (0 < p /\ p + n < 2 ^ 47 /\ regions (w_mem w') = (p, n) :: regions (w_mem w)))) never w.
Proof.
  intros Hw Hn. unfold wp, malloc_. pose proof (malloc_law _ _ n Hw Hn) as Hl.
  destruct (malloc n (w_hw w)) as [p h']. destruct Hl as [[-> Hl]|(Hp & ? & Hl)].
  - cbn. split_and!; [done|done|by left].
  - rewrite (proj2 (Z.eqb_neq p 0)) by lia. split_and!; [done|done|by right].
Qed.

Lemma free_spec p n R w :
  world_ok w -> p <> 0 -> regions (w_mem w) ≡ₚ (p, n) :: R ->
  wp (free_ p) (fun _ w' => (forall x, rd (w_mem w') x = rd (w_mem w) x) /\ world_ok w' /\
    regions (w_mem w') ≡ₚ R) never w.
Proof.
  intros Hw Hp HR. unfold wp, free_. rewrite (proj2 (Z.eqb_neq p 0)) by done.
  rewrite (proj2 (existsb_exists _ _)).
  2:{ exists (p, n). split; [|by apply Z.eqb_refl]. apply list_elem_of_In. rewrite HR. by left. }
  assert (regions (drop_region p (w_mem w)) ≡ₚ R) as HR'.
  { cbn. rewrite HR. rewrite filter_cons_False by (cbn; tauto).
    pose proof (heap_sep _ _ Hw) as Hs. rewrite HR in Hs. destruct Hs as [Hs _]. clear -Hs.
    induction R as [|r R IH]; [done|]. apply Forall_cons in Hs as [[Hr _] Hs].
    rewrite filter_cons_True by (cbn in *; congruence). by rewrite IH. }
  split_and!; [done| |done]. eapply heap_perm; [symmetry; exact HR'|]. cbn.
  eapply free_law. by eapply heap_perm.
Qed.

(** ** The contract *)

(** the world holds what the invariant [inv] of the live blocks [L] needs, and
    [F] besides *)
Definition alive (inv : list mem_blk -> list (Z * Z) -> mem -> Prop) (L : list mem_blk) F w : Prop :=
  world_ok w /\ exists R, inv L R (w_mem w) /\ regions (w_mem w) ≡ₚ R ++ F.

Class AllocatorLaws (fuel : nat) (a : Z) := {
  al_inv : list mem_blk -> list (Z * Z) -> mem -> Prop;
  al_priv : Z -> Prop;
  al_perm : forall L L' R R' m, L ≡ₚ L' -> R ≡ₚ R' -> al_inv L R m -> al_inv L' R' m;
  al_local : forall L R m m', al_inv L R m -> (forall x, al_priv x -> rd m' x = rd m x) ->
    R ⊆ regions m' -> al_inv L R m';
  al_priv_held : forall L R m x, al_inv L R m -> al_priv x -> exists r, r ∈ R /\ range r.1 r.2 x;
  al_blocks : forall L R m, al_inv L R m -> sep R ->
    sep (blk_region <$> L) /\
    forall b, b ∈ L -> ptr b <> NULL /\ (exists r, r ∈ R /\ inside b r) /\
      forall x, range (ptr b) (size b) x -> ~ al_priv x;
  al_allocate_ok : forall L F n w, alive al_inv L F w -> 0 <= n ->
    wp (allocate spin fuel a n) (fun b w' => quiet al_priv w w' /\
      ((ptr b = NULL /\ alive al_inv L F w') \/
       (ptr b <> NULL /\ n <= size b /\ alive al_inv (b :: L) F w'))) never w;
  al_deallocate_ok : forall L F b w, alive al_inv (b :: L) F w ->
    wp (deallocate NDEBUG spin fuel a b) (fun _ w' => quiet al_priv w w' /\ alive al_inv L F w') never w;
  al_owns_ok : forall L F b w, alive al_inv (b :: L) F w ->
    wp (owns fuel a b) (fun r w' => w' = w /\ r = true) never w
}.

(** An allocator that can tell its own blocks from those of others. *)
Class Discriminates (fuel : nat) (a : Z) `{!AllocatorLaws fuel a} : Prop :=
  owns_foreign : forall L F b r w, alive al_inv L F w -> r ∈ F -> inside b r ->
    wp (owns fuel a b) (fun r w' => w' = w /\ r = false) never w.

(** An operation leaves the bytes of the frame alone. *)
Lemma quiet_outside q {fuel} {LQ : AllocatorLaws fuel q} L F w w' r x :
  alive (al_inv (a:=q)) L F w -> quiet (al_priv (a:=q)) w w' -> r ∈ F -> range r.1 r.2 x ->
  rd (w_mem w') x = rd (w_mem w) x.
Proof.
  intros (Hw & R & Hi & Hreg) Hq Hr Hx. apply Hq. intros Hpx.
  pose proof (heap_sep _ _ Hw) as Hs. rewrite Hreg in Hs. apply sep_app in Hs as (_ & _ & Hs).
  destruct (al_priv_held _ _ _ _ Hi Hpx) as (r1 & Hr1 & Hrx).
  destruct (Hs r1 r Hr1 Hr) as [_ Hd]. eapply disj_range; [exact Hd|exact Hrx|exact Hx].
Qed.

(** ** Clients, against the contract

    A client allocates, frees and writes into its blocks in any order. *)
Inductive alloc_op := A_alloc (n : Z) | A_free (k : nat) | A_write (k : nat) (off v : Z).

Fixpoint run_allocator (fuel : nat) (a : Z) (ops : list alloc_op) (live : list mem_blk) :
    M (world H) (list mem_blk) :=
  match ops with
  | [] => mret live
  | A_alloc n :: ops' =>
      b ← allocate spin fuel a (Z.abs n);
      run_allocator fuel a ops' (if ptr b =? NULL then live else b :: live)
  | A_free k :: ops' =>
      match live !! k with
      | Some b => _ ← deallocate NDEBUG spin fuel a b; run_allocator fuel a ops' (delete k live)
      | None => run_allocator fuel a ops' live
      end
  | A_write k off v :: ops' =>
      match live !! k with
      | Some b =>
          (if (0 <=? off) && (off <? size b) then store 1 (ptr b + off) v else mret tt) ;;
          run_allocator fuel a ops' live
      | None => run_allocator fuel a ops' live
      end
  end.

Context (fuel : nat) (a : Z) {AL : AllocatorLaws fuel a}.

Lemma alive_perm L L' F F' w : L ≡ₚ L' -> F ≡ₚ F' -> alive al_inv L F w -> alive al_inv L' F' w.
Proof.
  intros HL' HF (Hw & R & Hi & HR). split; [done|]. exists R.
  split; [by eapply al_perm|]. by rewrite <- HF.
Qed.

(** a client's store into a live block *)
Lemma alive_store L F b x v w :
  alive al_inv L F w -> b ∈ L -> range (ptr b) (size b) x ->
  mapped (w_mem w) x 1 = true /\ alive al_inv L F (set_mem (st 1 x v (w_mem w)) w) /\
  forall r, r ∈ F -> ~ range r.1 r.2 x.
Proof.
  intros (Hw & R & Hi & HR) Hb Hx. pose proof (heap_sep _ _ Hw) as Hs. rewrite HR in Hs.
  apply sep_app in Hs as (Hs & _ & HsF). destruct (al_blocks _ _ _ Hi Hs) as [_ Hbl].
  destruct (Hbl b Hb) as (_ & (r & Hr & Hin) & Hpr). split_and!.
  - eapply (mapped_elem _ r); [rewrite HR; apply elem_of_app; by left| |];
      unfold inside, range in *; lia.
  - split; [unfold world_ok in *; cbn; by rewrite regions_st|]. exists R. cbn. rewrite regions_st.
    split; [|done]. eapply al_local; [exact Hi| |].
    + intros y Hy. apply rd_st_out. intros Hyx. assert (y = x) as -> by lia. by eapply Hpr.
    + rewrite regions_st. intros r' Hr'. rewrite HR. apply elem_of_app. by left.
  - intros r' Hr' Hx'. destruct (HsF r r' Hr Hr') as [_ Hd]. unfold inside, disj, range in *. lia.
Qed.

(** the bytes of the frame are the same *)
Definition frame_kept F w w' : Prop :=
  forall r x, r ∈ F -> range r.1 r.2 x -> rd (w_mem w') x = rd (w_mem w) x.
Lemma frame_kept_trans F w1 w2 w3 : frame_kept F w1 w2 -> frame_kept F w2 w3 -> frame_kept F w1 w3.
Proof. intros H12 H23 r x Hr Hx. by rewrite (H23 r x), (H12 r x). Qed.

Lemma run_allocator_spec ops L F w :
  alive al_inv L F w ->
  wp (run_allocator fuel a ops L) (fun L' w' => alive al_inv L' F w' /\ frame_kept F w w') never w.
Proof.
  revert L w. induction ops as [|[n|k|k off v] ops IH]; intros L w Hal; cbn [run_allocator].
  - by apply wp_ret.
  - assert (forall L1 w1, quiet al_priv w w1 -> alive al_inv L1 F w1 ->
      wp (run_allocator fuel a ops L1) (fun L' w' => alive al_inv L' F w' /\ frame_kept F w w') never w1) as Hgo.
    { intros L1 w1 Hq Hal1. eapply wp_conseq; [by apply IH|]. intros L' w' [Hal' Hk]. split; [done|].
      eapply frame_kept_trans, Hk. intros r x Hr Hx. by eapply quiet_outside. }
    apply wp_bind. eapply wp_conseq; [apply al_allocate_ok; [exact Hal|lia]|].
    cbn beta. intros b w' [Hq [[Hb Hal']|(Hb & _ & Hal')]].
    + rewrite (proj2 (Z.eqb_eq _ _) Hb). by apply Hgo.
    + rewrite (proj2 (Z.eqb_neq _ _) Hb). by apply Hgo.
  - destruct (L !! k) as [b|] eqn:Hk; [|by apply IH]. apply wp_bind.
    assert (alive al_inv (b :: delete k L) F w) as Hal2.
    { eapply alive_perm; [|reflexivity|exact Hal]. by apply delete_Permutation. }
    eapply wp_conseq; [apply (al_deallocate_ok (delete k L) F); exact Hal2|].
    cbn beta. intros _ w' [Hq Hal']. eapply wp_conseq; [by apply IH|]. intros L' w2 [Hal3 Hkp].
    split; [done|]. eapply frame_kept_trans, Hkp. intros r x Hr Hx. by eapply quiet_outside.
  - destruct (L !! k) as [b|] eqn:Hk; [|by apply IH]. apply wp_bind.
    assert (b ∈ L) as Hb by (by eapply list_elem_of_lookup_2).
    destruct (Z.leb_spec 0 off), (Z.ltb_spec off (size b)); cbn; try (apply wp_ret; by apply IH).
    destruct (alive_store L F b (ptr b + off) v w Hal Hb) as (Hm & Hal' & Hf); [unfold range; lia|].
    apply wp_store; [done|]. eapply wp_conseq; [by apply IH|]. intros L' w2 [Hal3 Hkp].
    split; [done|]. eapply frame_kept_trans, Hkp. intros r x Hr Hx. cbn. apply rd_st_out.
    intros Hxe. assert (x = ptr b + off) as -> by lia. by eapply Hf.
Qed.
End laws.
#[global] Arguments al_inv {_ _ _ _ _ _ _} a {_} _ _ _ : rename.
#[global] Arguments al_priv {_ _ _ _ _ _ _} a {_} _ : rename.
#[global] Arguments al_perm {_ _ _ _ _ _ _ _ _} L L' R R' m _ _ _ : rename.
#[global] Arguments al_local {_ _ _ _ _ _ _ _ _} L R m m' _ _ _ : rename.
#[global] Arguments al_priv_held {_ _ _ _ _ _ _ _ _} L R m x _ _ : rename.
#[global] Arguments al_blocks {_ _ _ _ _ _ _ _ _} L R m _ _ : rename.
#[global] Arguments al_allocate_ok {_ _ _ _ _ _ _ _ _} L F n w _ _ : rename.
#[global] Arguments al_deallocate_ok {_ _ _ _ _ _ _ _ _} L F b w _ : rename.
#[global] Arguments al_owns_ok {_ _ _ _ _ _ _ _ _} L F b w _ : rename.
#[global] Arguments owns_foreign {_ _ _ _ _ _ _ _ _ _} L F b r w _ _ _ : rename.
