(* ===== verification/AllocInst.v ===== *)
(** * The null, malloc, stack and fallback allocators keep the contract *)
From S2P Require Import Prelude Mem Platform Memory Spinlock Alloc DmaAlloc Vfs StackSpec AllocLaws.

Section vfs.
Context {LK : Linker} {H : Type} {PF : Platform H} {HL : @HeapLaws H PF}.
Context (NDEBUG : bool) (spin : nat).
Implicit Types (w : world H) (m : mem).

(** ** The structure every allocator starts with *)
Record vfs_at (m : mem) (a : Z) (i : impl) : Prop := {
  va_allocate : ld 8 m (a + al_allocate) = fn_addr i Allocate;
  va_deallocate : ld 8 m (a + al_deallocate) = fn_addr i Deallocate;
  va_owns : ld 8 m (a + al_owns) = fn_addr i Owns
}.

Lemma vfs_at_ext m m' a i :
  (forall x, range a 32 x -> rd m' x = rd m x) -> vfs_at m a i -> vfs_at m' a i.
Proof.
  intros Hrd [H1 H2 H3]. split; [rewrite <- H1|rewrite <- H2|rewrite <- H3]; apply ld_ext; intros x Hx;
    apply Hrd; unalloc; unfold range; lia.
Qed.

Lemma allocate_call i n a sz w :
  mapped (w_mem w) a 32 = true -> vfs_at (w_mem w) a i ->
  allocate spin (S n) a sz w =
    match i with
    | Null => null_allocator_allocate a sz
    | Malloc => mallocator_allocate a sz
    | Stack => stack_allocator_allocate a sz
    | Spinlock_stack => spinlock_allocate spin a sz
    | Fallback => fallback_allocator_allocate (allocate spin n) a sz
    | Dma => dma_allocate a sz
    end w.
Proof.
  intros Hm [Hv _ _]. cbn [allocate]. unfold mbind at 1, M_bind at 1. unfold load at 1.
  rewrite (mapped_sub _ a 32) by (done || unalloc; lia). rewrite Hv, impl_at_fn. by destruct i.
Qed.

Lemma deallocate_call i n a b w :
  mapped (w_mem w) a 32 = true -> vfs_at (w_mem w) a i ->
  deallocate NDEBUG spin (S n) a b w =
    match i with
    | Null => null_allocator_deallocate a b
    | Malloc => mallocator_deallocate NDEBUG a b
    | Stack => stack_allocator_deallocate NDEBUG a b
    | Spinlock_stack => spinlock_deallocate NDEBUG spin a b
    | Fallback => fallback_allocator_deallocate (owns n) (deallocate NDEBUG spin n) a b
    | Dma => dma_deallocate a b
    end w.
Proof.
  intros Hm [_ Hv _]. cbn [deallocate]. unfold mbind at 1, M_bind at 1. unfold load at 1.
  rewrite (mapped_sub _ a 32) by (done || unalloc; lia). rewrite Hv, impl_at_fn. by destruct i.
Qed.

Lemma owns_call i n a b w :
  mapped (w_mem w) a 32 = true -> vfs_at (w_mem w) a i ->
  owns (S n) a b w =
    match i with
    | Null => null_allocator_owns a b
    | Malloc => mallocator_owns a b
    | Stack => stack_allocator_owns a b
    | Spinlock_stack => spinlock_owns a b
    | Fallback => fallback_allocator_owns (owns n) a b
    | Dma => dma_owns a b
    end w.
Proof.
  intros Hm [_ _ Hv]. cbn [owns]. unfold mbind at 1, M_bind at 1. unfold load at 1.
  rewrite (mapped_sub _ a 32) by (done || unalloc; lia). rewrite Hv, impl_at_fn. by destruct i.
Qed.

Lemma wp_eq {S A} (c c' : M S A) Q E s : c s = c' s -> wp c' Q E s -> wp c Q E s.
Proof. unfold wp. by intros ->. Qed.

(** container_of of a member at offset 0 *)
Lemma container_of_0 a type member : offsetof type member = 0 -> container_of a type member = a.
Proof. unfold container_of. intros ->. lia. Qed.

Lemma held_mapped R F w r a n : regions (w_mem w) ≡ₚ R ++ F -> r ∈ R -> r.1 <= a -> a + n <= r.1 + r.2 ->
  mapped (w_mem w) a n = true.
Proof. intros HR Hr. apply mapped_elem. rewrite HR. apply elem_of_app. by left. Qed.

(** ** The null allocator *)
Definition null_inv (a : Z) (L : list mem_blk) (R : list (Z * Z)) (m : mem) : Prop :=
  L = [] /\ R ≡ₚ [(a, 32)] /\ vfs_at m a Null.

Lemma null_mapped a L F w : alive (null_inv a) L F w ->
  L = [] /\ mapped (w_mem w) a 32 = true /\ vfs_at (w_mem w) a Null.
Proof.
  intros (_ & R & (HL0 & HR & Hv) & Hreg). split_and!; [done| |done].
  eapply (held_mapped R F w (a, 32)); [done| | |]; cbn; [|lia|lia]. rewrite HR. by left.
Qed.

Program Definition null_laws n a : AllocatorLaws NDEBUG spin (S n) a := {|
  al_inv := null_inv a; al_priv x := range a 32 x
|}.
Next Obligation.
  intros n a L L' R R' m HLL HRR (-> & HR & Hv). apply Permutation_nil_l in HLL. split_and!; [done| |done].
  by rewrite <- HRR.
Qed.
Next Obligation.
  intros n a L R m m' (-> & HR & Hv) Hrd _. split_and!; [done|done|]. by eapply vfs_at_ext.
Qed.
Next Obligation.
  intros n a L R m x (_ & HR & _) Hx. exists (a, 32). split; [rewrite HR; by left|done].
Qed.
Next Obligation.
  intros n a L R m (-> & _) _. split; [done|]. intros b Hb. by apply elem_of_nil in Hb.
Qed.
Next Obligation.
  intros n a L F sz w Hal _. destruct (null_mapped a L F w Hal) as (_ & Hm & Hv).
  eapply wp_eq; [by apply (allocate_call Null)|]. apply wp_ret. split; [done|]. by left.
Qed.
Next Obligation. intros n a L F b w Hal. by destruct (null_mapped a _ F w Hal). Qed.
Next Obligation. intros n a L F b w Hal. by destruct (null_mapped a _ F w Hal). Qed.

Lemma null_discriminates n a : Discriminates NDEBUG spin (S n) a (AllocatorLaws0 := null_laws n a).
Proof.
  intros L F b r w Hal Hr Hb. destruct (null_mapped a L F w Hal) as (_ & Hm & Hv).
  eapply wp_eq; [by apply (owns_call Null)|]. by apply wp_ret.
Qed.

(** ** The mallocator: each live block is a region of its own *)
Definition malloc_inv (a : Z) (L : list mem_blk) (R : list (Z * Z)) (m : mem) : Prop :=
  R ≡ₚ (a, 32) :: (blk_region <$> L) /\ Forall (fun b => ptr b <> NULL /\ 0 <= size b) L /\ vfs_at m a Malloc.

Lemma malloc_mapped a L F w : alive (malloc_inv a) L F w ->
  mapped (w_mem w) a 32 = true /\ vfs_at (w_mem w) a Malloc.
Proof.
  intros (_ & R & (HR & _ & Hv) & Hreg). split; [|done].
  eapply (held_mapped R F w (a, 32)); [done| | |]; cbn; [|lia|lia]. rewrite HR. by left.
Qed.

Program Definition malloc_laws n a : AllocatorLaws NDEBUG spin (S n) a := {|
  al_inv := malloc_inv a; al_priv x := range a 32 x
|}.
Next Obligation.
  intros n a L L' R R' m HLL HRR (HR & Hb & Hv). split_and!; [|by rewrite <- HLL|done].
  by rewrite <- HRR, <- HLL.
Qed.
Next Obligation.
  intros n a L R m m' (HR & Hb & Hv) Hrd _. split_and!; [done|done|]. by eapply vfs_at_ext.
Qed.
Next Obligation.
  intros n a L R m x (HR & _) Hx. exists (a, 32). split; [rewrite HR; by left|done].
Qed.
Next Obligation.
  intros n a L R m (HR & Hb & _) Hs. rewrite HR in Hs. destruct Hs as [Hf Hs]. split; [done|].
  intros b Hin. rewrite Forall_forall in Hb. destruct (Hb b Hin) as [Hn Hsz]. split; [done|].
  assert (blk_region b ∈ blk_region <$> L) as Hin' by (by apply list_elem_of_fmap_2).
  split.
  - exists (blk_region b). split; [rewrite HR; by right|]. unfold inside, blk_region; cbn. lia.
  - rewrite Forall_forall in Hf. specialize (Hf _ Hin'). unfold apart, disj, blk_region in Hf; cbn in Hf.
    unfold range. lia.
Qed.
Next Obligation.
  intros n a L F sz w Hal Hsz. destruct (malloc_mapped a L F w Hal) as (Hm & Hv).
  destruct Hal as (Hw & R & (HR & Hb & _) & Hreg).
  eapply wp_eq; [by apply (allocate_call Malloc)|]. apply wp_bind.
  eapply wp_conseq; [by apply malloc_spec|]. cbn beta. intros p w' (Hrd & Hw' & Hp). apply wp_ret.
  split; [by intros x _|]. destruct Hp as [[-> Hreg']|(Hp & _ & Hreg')].
  - left. split; [done|]. split; [done|]. exists R. rewrite Hreg'. split; [|done].
    split_and!; [done|done|]. eapply vfs_at_ext; [|exact Hv]. auto.
  - right. cbn. split; [unfold NULL; lia|]. split; [lia|]. split; [done|]. exists ((p, sz) :: R).
    rewrite Hreg', Hreg. split; [|done]. split_and!.
    + rewrite HR. cbn. apply Permutation_swap.
    + apply Forall_cons. cbn. unfold NULL. split; [lia|done].
    + eapply vfs_at_ext; [|exact Hv]. auto.
Qed.
Next Obligation.
  intros n a L F b w Hal. destruct (malloc_mapped a _ F w Hal) as (Hm & Hv).
  destruct Hal as (Hw & R & (HR & Hb & _) & Hreg). apply Forall_cons in Hb as [[Hn _] Hb].
  eapply wp_eq; [by apply (deallocate_call Malloc)|]. apply wp_bind.
  eapply wp_conseq; [apply (free_spec (ptr b) (size b) (((a, 32) :: (blk_region <$> L)) ++ F)); [done|done|]|].
  - rewrite Hreg, HR. cbn. apply Permutation_swap.
  - cbn beta. intros _ w' (Hrd & Hw' & Hreg'). apply wp_ret. split; [by intros x _|]. split; [done|].
    eexists. split; [|exact Hreg']. split_and!; [done|done|]. eapply vfs_at_ext; [|exact Hv]. auto.
Qed.
Next Obligation.
  intros n a L F b w Hal. destruct (malloc_mapped a _ F w Hal) as (Hm & Hv).
  eapply wp_eq; [by apply (owns_call Malloc)|]. by apply wp_ret.
Qed.
End vfs.
