(* ===== verification/StackInst.v ===== *)
(** * The two stack allocators and the fallback allocator keep the contract *)
From S2P Require Import Prelude Mem Platform Memory Spinlock Alloc DmaAlloc Vfs StackSpec AllocLaws AllocInst.

Section stacks.
Context {LK : Linker} {H : Type} {PF : Platform H} {HL : @HeapLaws H PF}.
Context (NDEBUG : bool) (spin : nat).
Implicit Types (w : world H) (m : mem).

(** ** What the two stack allocators have in common *)
Section common.
Context (L : stack_layout) `{!LayoutOk L} (i : impl).
(** further fields between the vfs and base_addr: the lock *)
Context (extra : Z -> mem -> Prop).
Hypothesis extra_local : forall a m m',
  (forall x, range a (k_base_addr L) x -> rd m' x = rd m x) -> extra a m -> extra a m'.

Definition stack_inv (a base esz num : Z) (Lv : list mem_blk) (R : list (Z * Z)) (m : mem) : Prop :=
  exists free ids, let S := Stk a base esz num free in
    stk_params S /\ k_accounted S ids /\ Lv ≡ₚ (k_entry S <$> ids) /\
    R ≡ₚ [(a, k_len L S); (base, num * esz)] /\ stk_rep L m S /\ vfs_at m a i /\ extra a m.

Ltac layout := destruct LayoutOk0 as [[? ?] ? ? ? ? ?]; change (sizeof allocator) with 32 in *.

Variables (a base esz num : Z).
Local Abbreviation inv := (stack_inv a base esz num).
Local Abbreviation priv := (range a (k_sizeof L + 4 * num)).

Lemma stack_inv_perm Lv Lv' R R' m : Lv ≡ₚ Lv' -> R ≡ₚ R' -> inv Lv R m -> inv Lv' R' m.
Proof.
  intros HL1 HR (free & ids & Hp & Ha & HLv & HRR & Hrest). exists free, ids. cbn zeta.
  split_and!; try done; try tauto; [by rewrite <- HL1|by rewrite <- HR].
Qed.

Lemma stack_inv_local Lv R m m' : inv Lv R m -> (forall x, priv x -> rd m' x = rd m x) ->
  R ⊆ regions m' -> inv Lv R m'.
Proof.
  intros (free & ids & Hp & Ha & HLv & HRR & Hr & Hv & Hx) Hrd Hreg. exists free, ids. cbn zeta.
  pose proof (sp_num _ Hp) as Hn. cbn in Hn. layout.
  split_and!; try done.
  - eapply stk_rep_frame; [split; done| | |exact Hr].
    + intros x Hfp. symmetry. apply Hrd. unfold stk_fp, range, k_len in *. cbn in *. lia.
    + apply (mapped_elem _ (a, k_len L (Stk a base esz num free))); cbn; [|lia|lia].
      apply Hreg. rewrite HRR. by left.
  - eapply vfs_at_ext; [|exact Hv]. intros x Hx2. apply Hrd. unfold range in *. lia.
  - eapply extra_local; [|exact Hx]. intros x Hx2. apply Hrd. unfold range in *. lia.
Qed.

Lemma stack_inv_priv Lv R m x : inv Lv R m -> priv x -> exists r, r ∈ R /\ range r.1 r.2 x.
Proof.
  intros (free & ids & _ & _ & _ & HRR & _) Hx.
  exists (a, k_sizeof L + 4 * num). split; [rewrite HRR; by left|done].
Qed.

Lemma k_entries_sep (S : stk) ids : 0 < k_esz S -> NoDup ids -> sep (blk_region <$> (k_entry S <$> ids)).
Proof.
  intros He. induction 1 as [|j ids Hj _ IH]; cbn; [done|]. split; [|done].
  apply Forall_forall. intros r (b & -> & (k & -> & Hk)%list_elem_of_fmap)%list_elem_of_fmap.
  assert (j <> k) by (intros ->; done). unfold apart, disj, blk_region, k_entry; cbn. nia.
Qed.

Lemma stack_inv_blocks Lv R m : inv Lv R m -> sep R ->
  sep (blk_region <$> Lv) /\
  forall b, b ∈ Lv -> ptr b <> NULL /\ (exists r, r ∈ R /\ inside b r) /\
    forall x, range (ptr b) (size b) x -> ~ priv x.
Proof.
  intros (free & ids & Hp & Ha & HLv & HRR & _) Hs. destruct Hp as [Hn He Ht Hb]; cbn in *.
  split.
  - rewrite HLv. apply k_entries_sep; [done|]. apply k_accounted_nodup, NoDup_app in Ha. tauto.
  - intros b Hin. rewrite HLv in Hin. apply list_elem_of_fmap in Hin as (j & -> & Hj).
    assert (0 <= j < num) as Hj' by exact (k_accounted_bound _ _ j Ha (or_introl Hj)).
    rewrite HRR in Hs. destruct Hs as [Hs _]. apply Forall_cons in Hs as [[_ Hs] _].
    unfold disj, k_len in Hs. cbn in Hs. unfold k_entry; cbn. split_and!.
    + unfold NULL. nia.
    + exists (base, num * esz). split; [rewrite HRR; right; by left|]. unfold inside; cbn. nia.
    + unfold range. intros x Hx. nia.
Qed.

(** a world that holds the invariant, opened *)
Lemma stack_alive_open Lv F w : alive inv Lv F w ->
  mapped (w_mem w) a 32 = true /\ vfs_at (w_mem w) a i /\ extra a (w_mem w) /\
  mapped (w_mem w) a (k_base_addr L) = true /\
  exists free ids, let S := Stk a base esz num free in
    stk_params S /\ k_accounted S ids /\ Lv ≡ₚ (k_entry S <$> ids) /\ stk_rep L (w_mem w) S.
Proof.
  intros (_ & R & (free & ids & Hp & Ha & HLv & HRR & Hr & Hv & Hx) & _).
  pose proof (sp_num _ Hp) as Hn. cbn in Hn. pose proof (sr_map _ _ _ Hr) as Hm. unfold k_len in Hm. cbn in Hm.
  layout. split_and!; try done; try (eapply mapped_sub; [exact Hm|lia|lia]). by exists free, ids.
Qed.

(** closing it again after operations on the stack's fields *)
Lemma stack_alive_close Lv Lv' F w m' free' ids' :
  let S' := Stk a base esz num free' in
  alive inv Lv F w -> agree_off priv (w_mem w) m' ->
  vfs_at m' a i -> extra a m' -> stk_rep L m' S' -> k_accounted S' ids' -> Lv' ≡ₚ (k_entry S' <$> ids') ->
  quiet priv w (set_mem m' w) /\ alive inv Lv' F (set_mem m' w).
Proof.
  intros S' (Hw & R & (free & ids & Hp & _ & _ & HRR & _) & Hreg) [Hrg Hag] Hv Hx Hr Ha HLv.
  split; [intros x Hx2; symmetry; by apply Hag|]. split.
  - unfold world_ok in *. cbn. by rewrite <- Hrg.
  - exists R. cbn. rewrite <- Hrg. split; [|done]. exists free', ids'. cbn zeta. split_and!; try done.
    by destruct Hp.
Qed.

Lemma stack_fp_priv S x : k_self S = a -> k_num S = num -> stk_fp L S x -> priv x.
Proof. intros HS Hn. unfold stk_fp, range, k_len. rewrite HS, Hn. layout. lia. Qed.

Lemma stack_head_off S m m' x : k_self S = a -> agree_off (stk_fp L S) m m' ->
  range a (k_base_addr L) x -> rd m' x = rd m x.
Proof. intros HS [_ Hag] Hx. symmetry. apply Hag. unfold stk_fp, range in *. rewrite HS. lia. Qed.

Lemma stack_alive_close_fp Lv Lv' F free w w' free' ids' :
  alive inv Lv F w -> agree_off (stk_fp L (Stk a base esz num free)) (w_mem w) (w_mem w') ->
  vfs_at (w_mem w) a i -> extra a (w_mem w) ->
  stk_rep L (w_mem w') (Stk a base esz num free') -> k_accounted (Stk a base esz num free') ids' ->
  Lv' ≡ₚ (k_entry (Stk a base esz num free') <$> ids') ->
  quiet priv w (set_mem (w_mem w') w) /\ alive inv Lv' F (set_mem (w_mem w') w).
Proof.
  intros Hal Hag Hv Hx ???. eapply stack_alive_close; try done.
  - eapply agree_off_mono, Hag. intros x. by apply stack_fp_priv.
  - eapply vfs_at_ext; [|exact Hv]. intros x Hx2. eapply stack_head_off; [|exact Hag|]; [done|].
    layout. unfold range in *. lia.
  - eapply extra_local; [|exact Hx]. intros x Hx2. eapply stack_head_off; [|exact Hag|exact Hx2]. done.
Qed.

Lemma stack_owns_ok Lv F b w : alive inv (b :: Lv) F w ->
  wp (stack_owns L a b) (fun r w' => w' = w /\ r = true) never w.
Proof.
  intros Hal. destruct (stack_alive_open _ _ _ Hal) as (_ & _ & _ & _ & free & ids & Hp & Ha & HLv & Hr).
  assert (b ∈ (k_entry (Stk a base esz num free) <$> ids)) as Hb by (rewrite <- HLv; by left).
  apply list_elem_of_fmap in Hb as (j & -> & Hj).
  assert (0 <= j < num) as Hj' by exact (k_accounted_bound _ _ j Ha (or_introl Hj)).
  pose proof (sp_total _ Hp) as Ht. pose proof (sp_esz _ Hp) as He.
  eapply wp_conseq; [apply (stack_owns_spec L (Stk a base esz num free)); done|].
  cbn beta. intros r w' [-> ->]. split; [done|]. apply bool_decide_true. cbn in *. nia.
Qed.

Lemma stack_owns_foreign Lv F b r w : alive inv Lv F w -> r ∈ F -> inside b r ->
  wp (stack_owns L a b) (fun o w' => w' = w /\ o = false) never w.
Proof.
  intros Hal Hr Hb. destruct (stack_alive_open _ _ _ Hal) as (_ & _ & _ & _ & free & ids & Hp & Ha & HLv & Hrep).
  destruct Hal as (Hw & R & (free2 & ids2 & _ & _ & _ & HRR & _) & Hreg).
  pose proof (heap_sep _ _ Hw) as Hs. rewrite Hreg in Hs. apply sep_app in Hs as (_ & _ & Hs).
  specialize (Hs (base, num * esz) r). destruct Hs as [Hne Hd]; [rewrite HRR; right; by left|done|].
  pose proof (sp_total _ Hp) as Ht.
  eapply wp_conseq; [apply (stack_owns_spec L (Stk a base esz num free)); done|].
  cbn beta. intros o w' [-> ->]. split; [done|]. apply bool_decide_false.
  unfold inside, disj in *. cbn in *. lia.
Qed.

(** pop and push keep the invariant *)
Lemma stack_pop_alive Lv F sz w : alive inv Lv F w ->
  wp (stack_pop L a sz) (fun b w' => quiet priv w w' /\
    ((ptr b = NULL /\ alive inv Lv F w') \/ (ptr b <> NULL /\ sz <= size b /\ alive inv (b :: Lv) F w')))
    never w.
Proof.
  intros Hal. destruct (stack_alive_open _ _ _ Hal) as (_ & Hv & Hx & _ & free & ids & Hp & Ha & HLv & Hr).
  set (S := Stk a base esz num free) in *.
  eapply wp_conseq; [by apply (stack_pop_ok L S ids)|]. cbn beta.
  intros b w' (Hw' & Hag & free' & ids' & Hr' & Ha' & Hcase). rewrite Hw'.
  assert (forall Lv', Lv' ≡ₚ (k_entry (set_kfree free' S) <$> ids') ->
    quiet priv w (set_mem (w_mem w') w) /\ alive inv Lv' F (set_mem (w_mem w') w)) as Hclose.
  { intros Lv' HLv'. by eapply stack_alive_close_fp. }
  destruct Hcase as [[Hb ->]|(j & -> & Hj & Hsz & ->)].
  - destruct (Hclose Lv HLv) as [Hq Hal']. split; [done|]. by left.
  - destruct (Hclose (k_entry S j :: Lv)) as [Hq Hal']; [cbn; by rewrite HLv|]. split; [done|]. right.
    pose proof (sp_base _ Hp). pose proof (sp_esz _ Hp). unfold NULL. cbn in *. split; [nia|]. done.
Qed.

(** the id of a live block, which is left in the stack by push *)
Lemma stack_entry_id_alive Lv F b w (Q : Z -> world H -> Prop) E : alive inv (b :: Lv) F w ->
  (forall j, b = MemBlk (base + j * esz) esz -> Q j w) -> wp (stack_entry_id L a b) Q E w.
Proof.
  intros Hal HQ. destruct (stack_alive_open _ _ _ Hal) as (_ & _ & _ & _ & free & ids & Hp & Ha & HLv & Hr).
  assert (b ∈ (k_entry (Stk a base esz num free) <$> ids)) as Hb by (rewrite <- HLv; by left).
  apply list_elem_of_fmap in Hb as (j & -> & Hj).
  apply (stack_entry_id_ok L (Stk a base esz num free)); [done|done| |by apply HQ].
  exact (k_accounted_bound _ _ j Ha (or_introl Hj)).
Qed.

Lemma stack_push_alive Lv F j w : alive inv (MemBlk (base + j * esz) esz :: Lv) F w ->
  wp (stack_push L a j) (fun _ w' => quiet priv w w' /\ alive inv Lv F w') never w.
Proof.
  intros Hal. destruct (stack_alive_open _ _ _ Hal) as (_ & Hv & Hx & _ & free & ids & Hp & Ha & HLv & Hr).
  set (S := Stk a base esz num free) in *.
  assert (MemBlk (base + j * esz) esz ∈ (k_entry S <$> ids)) as Hb by (rewrite <- HLv; by left).
  apply list_elem_of_fmap in Hb as (j' & Hj' & Hin). pose proof (sp_esz _ Hp) as He.
  injection Hj' as Hj'. cbn in He, Hj'. assert (j' = j) as -> by nia.
  apply list_elem_of_split in Hin as (ids1 & ids2 & Hids).
  assert (ids ≡ₚ j :: (ids1 ++ ids2)) as Hperm by (rewrite Hids; symmetry; apply Permutation_middle).
  eapply wp_conseq; [apply (stack_push_ok L S j (ids1 ++ ids2)); [done|done|]|].
  { unfold k_accounted in *. by rewrite <- Hperm. }
  cbn beta. intros _ w' (Hw' & Hag & free' & Hr' & Ha'). rewrite Hw'.
  eapply stack_alive_close_fp; try done. rewrite Hperm in HLv. cbn in HLv. by apply Permutation_cons_inv in HLv.
Qed.
End common.

(** ** stack_allocator.c *)
Definition parent_is (par a : Z) (m : mem) : Prop := ld 8 m (a + k_parent sa_layout) = par.
Lemma parent_is_local par a m m' :
  (forall x, range a (k_base_addr sa_layout) x -> rd m' x = rd m x) -> parent_is par a m -> parent_is par a m'.
Proof.
  unfold parent_is. intros Hrd <-. apply ld_ext. intros x Hx. apply Hrd. unfold range; cbn in *. lia.
Qed.

(** the allocator's own block and its entries *)
Definition stack_laws_inv (par a base esz num : Z) := stack_inv sa_layout Stack (parent_is par) a base esz num.

Program Definition stack_laws n par a base esz num : AllocatorLaws NDEBUG spin (S n) a := {|
  al_inv := stack_laws_inv par a base esz num; al_priv := range a (k_sizeof sa_layout + 4 * num)
|}.
Next Obligation. intros n par a base esz num L L' R R' m. apply stack_inv_perm. Qed.
Next Obligation. intros n par a base esz num L R m m'. apply (stack_inv_local _ _ _ (parent_is_local par)). Qed.
Next Obligation. intros n par a base esz num L R m x. apply stack_inv_priv. Qed.
Next Obligation. intros n par a base esz num L R m. apply stack_inv_blocks. Qed.
Next Obligation.
  intros n par a base esz num L F sz w Hal _. destruct (stack_alive_open _ _ _ _ _ _ _ _ _ _ Hal) as (Hm & Hv & _).
  eapply wp_eq; [by apply (allocate_call spin Stack)|]. unfold stack_allocator_allocate.
  rewrite container_of_0 by done. apply (stack_pop_alive sa_layout Stack (parent_is par) (parent_is_local par)). exact Hal.
Qed.
Next Obligation.
  intros n par a base esz num L F b w Hal. destruct (stack_alive_open _ _ _ _ _ _ _ _ _ _ Hal) as (Hm & Hv & _).
  eapply wp_eq; [by apply (deallocate_call NDEBUG spin Stack)|]. unfold stack_allocator_deallocate.
  rewrite container_of_0 by done. apply wp_bind. eapply stack_entry_id_alive; [apply _|exact Hal|].
  intros j ->. apply wp_bind. eapply wp_conseq; [apply (stack_push_alive sa_layout Stack (parent_is par) (parent_is_local par)); exact Hal|].
  cbn beta. intros _ w' Hw'. by apply wp_ret.
Qed.
Next Obligation.
  intros n par a base esz num L F b w Hal. destruct (stack_alive_open _ _ _ _ _ _ _ _ _ _ Hal) as (Hm & Hv & _).
  eapply wp_eq; [by apply (owns_call Stack)|]. unfold stack_allocator_owns.
  rewrite container_of_0 by done. eapply stack_owns_ok; [apply _|exact Hal].
Qed.

Lemma stack_discriminates n par a base esz num :
  Discriminates NDEBUG spin (S n) a (AllocatorLaws0 := stack_laws n par a base esz num).
Proof.
  intros L F b r w Hal Hr Hb. destruct (stack_alive_open _ _ _ _ _ _ _ _ _ _ Hal) as (Hm & Hv & _).
  eapply wp_eq; [by apply (owns_call Stack)|]. unfold stack_allocator_owns.
  rewrite container_of_0 by done. eapply stack_owns_foreign; [apply _|exact Hal|exact Hr|exact Hb].
Qed.

(** ** spinlock_stack_allocator.c, run by one thread at a time *)
Definition lock_is (v par a : Z) (m : mem) : Prop :=
  ld 4 m (a + ss_lock) = v /\ ld 8 m (a + k_parent ss_layout) = par.
Lemma lock_is_local v par a m m' :
  (forall x, range a (k_base_addr ss_layout) x -> rd m' x = rd m x) -> lock_is v par a m -> lock_is v par a m'.
Proof.
  unfold lock_is. intros Hrd [<- <-]. split; apply ld_ext; intros x Hx; apply Hrd; unalloc; unfold range; cbn in *; lia.
Qed.
Definition spinlock_inv (v par a base esz num : Z) := stack_inv ss_layout Spinlock_stack (lock_is v par) a base esz num.

Lemma lock_set v v' par a base esz num L F w : 0 <= v' < 2 ^ 32 -> alive (spinlock_inv v par a base esz num) L F w ->
  let w' := set_mem (st 4 (a + ss_lock) v' (w_mem w)) w in
  mapped (w_mem w) (a + ss_lock) 4 = true /\
  quiet (range a (k_sizeof ss_layout + 4 * num)) w w' /\ alive (spinlock_inv v' par a base esz num) L F w'.
Proof.
  intros Hv' (Hw & R & (free & ids & Hp & Ha & HLv & HRR & Hr & Hv & Hx) & Hreg) w'.
  pose proof (sp_num _ Hp) as Hn. pose proof (sr_map _ _ _ Hr) as Hm. unfold k_len in Hm. cbn in Hn, Hm.
  split_and!.
  - eapply mapped_sub; [exact Hm| |]; unalloc; lia.
  - intros x Hx2. unfold w'; cbn. apply rd_st_out. unalloc. unfold range in Hx2. cbn in Hx2. lia.
  - split; [unfold world_ok in *; cbn; by rewrite regions_st|]. exists R. unfold w'; cbn. rewrite regions_st.
    split; [|done]. exists free, ids. cbn zeta. split_and!; try done.
    + eapply stk_rep_frame; [apply _| | |exact Hr].
      * intros x Hfp. symmetry. apply rd_st_out. unfold stk_fp, range in Hfp. unalloc. cbn in Hfp. lia.
      * rewrite mapped_st. exact Hm.
    + eapply vfs_at_ext; [|exact Hv]. intros x Hx2. apply rd_st_out. unalloc. unfold range in Hx2. lia.
    + destruct Hx as [_ Hx]. split; [rewrite ld_st_eq; by apply Z.mod_small|].
      rewrite ld_st_out by (unalloc; cbn; lia). done.
Qed.

Lemma spin_acquire par a base esz num L F w : (0 < spin)%nat -> alive (spinlock_inv 0 par a base esz num) L F w ->
  wp (rte_spinlock_lock spin (a + ss_lock)) (fun _ w' =>
    quiet (range a (k_sizeof ss_layout + 4 * num)) w w' /\ alive (spinlock_inv 1 par a base esz num) L F w') never w.
Proof.
  intros Hs Hal. destruct (lock_set 0 1 par a base esz num L F w) as (Hm & Hq & Hal'); [done|done|].
  destruct (stack_alive_open _ _ _ _ _ _ _ _ _ _ Hal) as (_ & _ & Hx & _).
  eapply wp_conseq; [apply rte_spinlock_lock_spec; [done|done|by destruct Hx]|]. cbn beta. by intros _ w' ->.
Qed.
Lemma spin_release par a base esz num L F w : alive (spinlock_inv 1 par a base esz num) L F w ->
  wp (rte_spinlock_unlock (a + ss_lock)) (fun _ w' =>
    quiet (range a (k_sizeof ss_layout + 4 * num)) w w' /\ alive (spinlock_inv 0 par a base esz num) L F w') never w.
Proof.
  intros Hal. destruct (lock_set 1 0 par a base esz num L F w) as (Hm & Hq & Hal'); [done|done|].
  eapply wp_conseq; [by apply rte_spinlock_unlock_spec|]. cbn beta. by intros _ w' ->.
Qed.

Program Definition spinlock_laws (Hspin : (0 < spin)%nat) n par a base esz num : AllocatorLaws NDEBUG spin (S n) a := {|
  al_inv := spinlock_inv 0 par a base esz num; al_priv := range a (k_sizeof ss_layout + 4 * num)
|}.
Next Obligation. intros Hs n par a base esz num L L' R R' m. apply stack_inv_perm. Qed.
Next Obligation. intros Hs n par a base esz num L R m m'. apply (stack_inv_local _ _ _ (lock_is_local 0 par)). Qed.
Next Obligation. intros Hs n par a base esz num L R m x. apply stack_inv_priv. Qed.
Next Obligation. intros Hs n par a base esz num L R m. apply stack_inv_blocks. Qed.
Next Obligation.
  intros Hs n par a base esz num L F sz w Hal _. destruct (stack_alive_open _ _ _ _ _ _ _ _ _ _ Hal) as (Hm & Hv & _).
  eapply wp_eq; [by apply (allocate_call spin Spinlock_stack)|]. unfold spinlock_allocate.
  rewrite container_of_0 by done. apply wp_bind.
  eapply wp_conseq; [by apply spin_acquire|]. cbn beta. intros _ w1 [Hq1 Hal1]. apply wp_bind.
  eapply wp_conseq; [apply (stack_pop_alive ss_layout Spinlock_stack (lock_is 1 par) (lock_is_local 1 par)); exact Hal1|].
  cbn beta. intros b w2 [Hq2 Hcase]. apply wp_bind.
  destruct Hcase as [[Hb Hal2]|(Hb & Hsz & Hal2)];
    (eapply wp_conseq; [apply spin_release; exact Hal2|]); cbn beta; intros _ w3 [Hq3 Hal3]; apply wp_ret;
    (split; [eauto using quiet_trans|]); [by left|by right].
Qed.
Next Obligation.
  intros Hs n par a base esz num L F b w Hal. destruct (stack_alive_open _ _ _ _ _ _ _ _ _ _ Hal) as (Hm & Hv & _).
  eapply wp_eq; [by apply (deallocate_call NDEBUG spin Spinlock_stack)|]. unfold spinlock_deallocate.
  rewrite container_of_0 by done. apply wp_bind. eapply stack_entry_id_alive; [apply _|exact Hal|].
  intros j ->. apply wp_bind. eapply wp_conseq; [by apply spin_acquire|]. cbn beta. intros _ w1 [Hq1 Hal1].
  apply wp_bind. eapply wp_conseq; [apply (stack_push_alive ss_layout Spinlock_stack (lock_is 1 par) (lock_is_local 1 par)); exact Hal1|].
  cbn beta. intros _ w2 [Hq2 Hal2]. apply wp_bind. eapply wp_conseq; [apply spin_release; exact Hal2|].
  cbn beta. intros _ w3 [Hq3 Hal3]. apply wp_ret. eauto using quiet_trans.
Qed.
Next Obligation.
  intros Hs n par a base esz num L F b w Hal. destruct (stack_alive_open _ _ _ _ _ _ _ _ _ _ Hal) as (Hm & Hv & _).
  eapply wp_eq; [by apply (owns_call Spinlock_stack)|]. unfold spinlock_owns.
  rewrite container_of_0 by done. eapply stack_owns_ok; [apply _|exact Hal].
Qed.
End stacks.
