(* ===== verification/FallbackInst.v ===== *)
(** * fallback_allocator.c, verified against the contract of its two members

    The proof knows nothing of the members but [AllocatorLaws], and that the
    primary can tell its blocks from others ([Discriminates]). *)
From S2P Require Import Prelude Mem Platform Memory Spinlock Alloc DmaAlloc Vfs AllocLaws AllocInst.

Definition sizeof_fallback : Z := Eval cbv in sizeof fallback_allocator.

Section fallback.
Context {LK : Linker} {H : Type} {PF : Platform H} {HL : @HeapLaws H PF}.
Context (NDEBUG : bool) (spin : nat).
Context (n : nat) (p s : Z) {LP : AllocatorLaws NDEBUG spin n p} {LS : AllocatorLaws NDEBUG spin n s}.
Context {DP : Discriminates NDEBUG spin n p}.
Implicit Types (w : world H) (m : mem) (L : list mem_blk) (R F : list (Z * Z)).

Definition fb_fields (m : mem) (a : Z) : Prop :=
  vfs_at m a Fallback /\ ld 8 m (a + fb_primary) = p /\ ld 8 m (a + fb_secondary) = s.

Lemma fb_fields_ext m m' a :
  (forall x, range a sizeof_fallback x -> rd m' x = rd m x) -> fb_fields m a -> fb_fields m' a.
Proof.
  intros Hrd (Hv & Hp & Hs). unfold sizeof_fallback in Hrd. split_and!.
  - eapply vfs_at_ext; [|exact Hv]. intros x Hx. apply Hrd. unfold range in *. lia.
  - rewrite <- Hp. apply ld_ext. intros x Hx. apply Hrd. unalloc. unfold range. lia.
  - rewrite <- Hs. apply ld_ext. intros x Hx. apply Hrd. unalloc. unfold range. lia.
Qed.

Definition fallback_inv (a : Z) L R m : Prop :=
  exists L1 L2 R1 R2, L ≡ₚ L1 ++ L2 /\ R ≡ₚ (a, sizeof_fallback) :: R1 ++ R2 /\
    al_inv p L1 R1 m /\ al_inv s L2 R2 m /\ fb_fields m a.
Definition fallback_priv (a x : Z) : Prop := al_priv p x \/ al_priv s x \/ range a sizeof_fallback x.

(** The invariant, opened: what each member holds. *)
Record fb_parts (a : Z) L1 L2 R1 R2 F w : Prop := {
  fp_world : world_ok w;
  fp_primary : al_inv p L1 R1 (w_mem w);
  fp_secondary : al_inv s L2 R2 (w_mem w);
  fp_fields : fb_fields (w_mem w) a;
  fp_regions : regions (w_mem w) ≡ₚ (a, sizeof_fallback) :: R1 ++ R2 ++ F
}.

Lemma fallback_open a L F w : alive (fallback_inv a) L F w ->
  exists L1 L2 R1 R2, L ≡ₚ L1 ++ L2 /\ fb_parts a L1 L2 R1 R2 F w.
Proof.
  intros (Hw & R & (L1 & L2 & R1 & R2 & HLs & HR & Hi1 & Hi2 & Hf) & Hreg). exists L1, L2, R1, R2. split; [done|].
  split; try done. rewrite Hreg, HR. cbn. by rewrite <- app_assoc.
Qed.
Lemma fallback_close a L L1 L2 R1 R2 F w : L ≡ₚ L1 ++ L2 -> fb_parts a L1 L2 R1 R2 F w ->
  alive (fallback_inv a) L F w.
Proof.
  intros HLs [Hw Hi1 Hi2 Hf Hreg]. split; [done|]. exists ((a, sizeof_fallback) :: R1 ++ R2).
  split; [by exists L1, L2, R1, R2|]. rewrite Hreg. cbn. by rewrite <- app_assoc.
Qed.

Lemma parts_mapped a L1 L2 R1 R2 F w : fb_parts a L1 L2 R1 R2 F w ->
  mapped (w_mem w) a sizeof_fallback = true.
Proof.
  intros [_ _ _ _ Hreg]. eapply (mapped_elem _ (a, sizeof_fallback)); cbn; [rewrite Hreg; by left|lia|lia].
Qed.

Lemma parts_primary a L1 L2 R1 R2 F w : fb_parts a L1 L2 R1 R2 F w ->
  alive (al_inv p) L1 ((a, sizeof_fallback) :: R2 ++ F) w.
Proof. intros [Hw Hi1 _ _ Hreg]. split; [done|]. exists R1. split; [done|]. by rewrite Hreg, Permutation_middle. Qed.
Lemma parts_secondary a L1 L2 R1 R2 F w : fb_parts a L1 L2 R1 R2 F w ->
  alive (al_inv s) L2 ((a, sizeof_fallback) :: R1 ++ F) w.
Proof.
  intros [Hw _ Hi2 _ Hreg]. split; [done|]. exists R2. split; [done|]. rewrite Hreg.
  rewrite (app_assoc R1), (Permutation_app_comm R1 R2), <- app_assoc. by rewrite Permutation_middle.
Qed.

(** Framing: an operation of one object leaves what another holds alone. *)
Lemma other_kept q o {LQ : AllocatorLaws NDEBUG spin n q} {LO : AllocatorLaws NDEBUG spin n o} L L' F w w' Lo Ro :
  alive (al_inv q) L F w -> quiet (al_priv q) w w' -> alive (al_inv q) L' F w' ->
  Ro ⊆ F -> al_inv o Lo Ro (w_mem w) -> al_inv o Lo Ro (w_mem w').
Proof.
  intros Hal Hq (_ & R' & _ & Hreg') HF Hi. eapply al_local; [exact Hi| |].
  - intros x Hx. destruct (al_priv_held _ _ _ _ Hi Hx) as (r & Hr & Hrx).
    eapply (quiet_outside NDEBUG spin q); [exact Hal|exact Hq|by apply HF|exact Hrx].
  - rewrite Hreg'. set_solver.
Qed.

Lemma fields_kept q {LQ : AllocatorLaws NDEBUG spin n q} a L F w w' :
  alive (al_inv q) L ((a, sizeof_fallback) :: F) w -> quiet (al_priv q) w w' ->
  fb_fields (w_mem w) a -> fb_fields (w_mem w') a.
Proof.
  intros Hal Hq. apply fb_fields_ext. intros x Hx.
  eapply (quiet_outside NDEBUG spin q _ _ w w' (a, sizeof_fallback)); [exact Hal|exact Hq|by left|exact Hx].
Qed.

Lemma primary_step a L1 L1' L2 R1 R2 F w w' : fb_parts a L1 L2 R1 R2 F w ->
  quiet (al_priv p) w w' -> alive (al_inv p) L1' ((a, sizeof_fallback) :: R2 ++ F) w' ->
  quiet (fallback_priv a) w w' /\ exists R1', fb_parts a L1' L2 R1' R2 F w'.
Proof.
  intros Hp Hq Hal'. pose proof (parts_primary _ _ _ _ _ _ _ Hp) as Hal. split.
  { eapply quiet_mono, Hq. by left. }
  pose proof Hal' as (Hw' & R1' & Hi' & Hreg'). exists R1'. destruct Hp as [Hw Hi1 Hi2 Hf Hreg]. split; try done.
  - eapply (other_kept p s); [exact Hal|exact Hq|exact Hal'| |exact Hi2]. set_solver.
  - eapply (fields_kept p); [exact Hal|exact Hq|exact Hf].
  - by rewrite Hreg', <- Permutation_middle.
Qed.

Lemma secondary_step a L1 L2 L2' R1 R2 F w w' : fb_parts a L1 L2 R1 R2 F w ->
  quiet (al_priv s) w w' -> alive (al_inv s) L2' ((a, sizeof_fallback) :: R1 ++ F) w' ->
  quiet (fallback_priv a) w w' /\ exists R2', fb_parts a L1 L2' R1 R2' F w'.
Proof.
  intros Hp Hq Hal'. pose proof (parts_secondary _ _ _ _ _ _ _ Hp) as Hal. split.
  { eapply quiet_mono, Hq. by right; left. }
  pose proof Hal' as (Hw' & R2' & Hi' & Hreg'). exists R2'. destruct Hp as [Hw Hi1 Hi2 Hf Hreg]. split; try done.
  - eapply (other_kept s p); [exact Hal|exact Hq|exact Hal'| |exact Hi1]. set_solver.
  - eapply (fields_kept s); [exact Hal|exact Hq|exact Hf].
  - rewrite Hreg', <- Permutation_middle. by rewrite !(app_assoc _ _ F), (Permutation_app_comm R1 R2').
Qed.

Lemma fallback_load_member a L1 L2 R1 R2 F w o v (Q : Z -> world H -> Prop) E :
  fb_parts a L1 L2 R1 R2 F w -> (o = fb_primary /\ v = p \/ o = fb_secondary /\ v = s) ->
  Q v w -> wp (load 8 (a + o)) Q E w.
Proof.
  intros Hp Ho HQ. pose proof (parts_mapped _ _ _ _ _ _ _ Hp) as Hm. destruct Hp as [_ _ _ (_ & Hf1 & Hf2) _].
  destruct Ho as [[-> ->]|[-> ->]];
    (apply wp_load; [eapply mapped_sub; [exact Hm| |]; unalloc; unfold sizeof_fallback; lia|]); congruence.
Qed.

Lemma fallback_allocate_ok a L F sz w : alive (fallback_inv a) L F w -> 0 <= sz ->
  wp (fallback_allocator_allocate (allocate spin n) a sz) (fun b w' => quiet (fallback_priv a) w w' /\
    ((ptr b = NULL /\ alive (fallback_inv a) L F w') \/
     (ptr b <> NULL /\ sz <= size b /\ alive (fallback_inv a) (b :: L) F w'))) never w.
Proof.
  intros Hal Hsz. destruct (fallback_open a L F w Hal) as (L1 & L2 & R1 & R2 & HLs & Hp).
  unfold fallback_allocator_allocate. rewrite container_of_0 by done.
  apply wp_bind. eapply fallback_load_member; [exact Hp|by left|].
  apply wp_bind. eapply wp_conseq; [eapply (al_allocate_ok L1); [by eapply parts_primary|done]|].
  cbn beta. intros b w1 [Hq1 [[Hb Hal1]|(Hb & Hsb & Hal1)]];
    destruct (primary_step _ _ _ _ _ _ _ _ _ Hp Hq1 Hal1) as (Hqf & R1' & Hp1).
  - rewrite (proj2 (Z.eqb_eq _ _) Hb). apply wp_bind. eapply fallback_load_member; [exact Hp1|by right|].
    eapply wp_conseq; [eapply (al_allocate_ok L2); [by eapply parts_secondary|done]|].
    cbn beta. intros b2 w2 [Hq2 [[Hb2 Hal2]|(Hb2 & Hsb2 & Hal2)]];
      destruct (secondary_step _ _ _ _ _ _ _ _ _ Hp1 Hq2 Hal2) as (Hqf2 & R2' & Hp2);
      (split; [eauto using quiet_trans|]).
    + left. split; [done|]. by eapply fallback_close.
    + right. split; [done|]. split; [done|]. eapply fallback_close; [|exact Hp2].
      rewrite HLs. apply Permutation_middle.
  - rewrite (proj2 (Z.eqb_neq _ _) Hb). apply wp_ret. split; [done|]. right. split; [done|]. split; [done|].
    eapply fallback_close; [|exact Hp1]. by rewrite HLs.
Qed.

(** a block is one of the primary's or, for which the primary says no, one of
    the secondary's *)
Lemma fallback_owns_primary a b L F w (Q : bool -> world H -> Prop) E : alive (fallback_inv a) (b :: L) F w ->
  (forall L1 L2 R1 R2, L ≡ₚ L1 ++ L2 -> fb_parts a (b :: L1) L2 R1 R2 F w -> Q true w) ->
  (forall L1 L2 R1 R2, L ≡ₚ L1 ++ L2 -> fb_parts a L1 (b :: L2) R1 R2 F w -> Q false w) ->
  wp (owns n p b) Q E w.
Proof.
  intros Hal HQ1 HQ2. destruct (fallback_open a _ F w Hal) as (L1 & L2 & R1 & R2 & HLs & Hp).
  assert (b ∈ L1 ++ L2) as Hb by (rewrite <- HLs; by left). apply elem_of_app in Hb as [Hb|Hb];
    apply elem_of_Permutation in Hb as [K HK].
  - assert (L ≡ₚ K ++ L2) as HL' by (rewrite HK in HLs; by apply Permutation_cons_inv in HLs).
    assert (fb_parts a (b :: K) L2 R1 R2 F w) as Hp'.
    { destruct Hp. split; try done. by eapply al_perm. }
    eapply wp_mono; [eapply (al_owns_ok K); by eapply parts_primary| |intros ? ? []].
    cbn beta. intros r w' [-> ->]. by eapply HQ1.
  - assert (L ≡ₚ L1 ++ K) as HL'.
    { rewrite HK in HLs. rewrite <- Permutation_middle in HLs. by apply Permutation_cons_inv in HLs. }
    assert (fb_parts a L1 (b :: K) R1 R2 F w) as Hp'.
    { destruct Hp. split; try done. by eapply al_perm. }
    pose proof (heap_sep _ _ (fp_world _ _ _ _ _ _ _ Hp')) as Hs. rewrite (fp_regions _ _ _ _ _ _ _ Hp') in Hs.
    destruct Hs as [_ Hs]. apply sep_app in Hs as (_ & Hs & _). apply sep_app in Hs as (Hs & _).
    destruct (al_blocks _ _ _ (fp_secondary _ _ _ _ _ _ _ Hp') Hs) as [_ Hbl].
    destruct (Hbl b) as (_ & (r & Hr & Hin) & _); [by left|].
    eapply wp_mono; [eapply (owns_foreign L1 _ b r); [by eapply parts_primary| |exact Hin]| |intros ? ? []].
    + right. apply elem_of_app. by left.
    + cbn beta. intros o w' [-> ->]. by eapply HQ2.
Qed.

Lemma fallback_deallocate_ok a L F b w : alive (fallback_inv a) (b :: L) F w ->
  wp (fallback_allocator_deallocate (owns n) (deallocate NDEBUG spin n) a b) (fun _ w' =>
    quiet (fallback_priv a) w w' /\ alive (fallback_inv a) L F w') never w.
Proof.
  intros Hal. destruct (fallback_open a _ F w Hal) as (L1' & L2' & R1' & R2' & _ & Hp').
  unfold fallback_allocator_deallocate. rewrite container_of_0 by done.
  apply wp_bind. eapply fallback_load_member; [exact Hp'|by left|].
  apply wp_bind. eapply fallback_owns_primary; [exact Hal| |]; intros L1 L2 R1 R2 HLs Hp.
  - eapply wp_conseq; [eapply (al_deallocate_ok L1); by eapply parts_primary|].
    cbn beta. intros _ w1 [Hq Hal1].
    destruct (primary_step _ _ _ _ _ _ _ _ _ Hp Hq Hal1) as (Hqf & R1'' & Hp1).
    split; [done|]. by eapply fallback_close.
  - apply wp_bind. eapply fallback_load_member; [exact Hp|by right|].
    eapply wp_conseq; [eapply (al_deallocate_ok L2); by eapply parts_secondary|].
    cbn beta. intros _ w1 [Hq Hal1].
    destruct (secondary_step _ _ _ _ _ _ _ _ _ Hp Hq Hal1) as (Hqf & R2'' & Hp1).
    split; [done|]. by eapply fallback_close.
Qed.

Lemma fallback_owns_ok a L F b w : alive (fallback_inv a) (b :: L) F w ->
  wp (fallback_allocator_owns (owns n) a b) (fun r w' => w' = w /\ r = true) never w.
Proof.
  intros Hal. destruct (fallback_open a _ F w Hal) as (L1' & L2' & R1' & R2' & _ & Hp').
  unfold fallback_allocator_owns. rewrite container_of_0 by done.
  apply wp_bind. eapply fallback_load_member; [exact Hp'|by left|].
  apply wp_bind. eapply fallback_owns_primary; [exact Hal| |]; intros L1 L2 R1 R2 HLs Hp; [by apply wp_ret|].
  apply wp_bind. eapply fallback_load_member; [exact Hp|by right|].
  eapply (al_owns_ok L2). by eapply parts_secondary.
Qed.

Lemma fallback_call_ready a L F w : alive (fallback_inv a) L F w ->
  mapped (w_mem w) a 32 = true /\ vfs_at (w_mem w) a Fallback.
Proof.
  intros Hal. destruct (fallback_open a _ F w Hal) as (L1 & L2 & R1 & R2 & _ & Hp).
  pose proof (parts_mapped _ _ _ _ _ _ _ Hp) as Hm. split.
  - eapply mapped_sub; [exact Hm| |]; unfold sizeof_fallback; lia.
  - by destruct Hp as [_ _ _ (? & _) _].
Qed.

Lemma fallback_blocks a L R m : fallback_inv a L R m -> sep R ->
  sep (blk_region <$> L) /\
  forall b, b ∈ L -> ptr b <> NULL /\ (exists r, r ∈ R /\ inside b r) /\
    forall x, range (ptr b) (size b) x -> ~ fallback_priv a x.
Proof.
  intros (L1 & L2 & R1 & R2 & HLs & HR & Hi1 & Hi2 & _) Hs. rewrite HR in Hs.
  destruct Hs as [Hf Hs]. rewrite Forall_forall in Hf. apply sep_app in Hs as (Hs1 & Hs2 & H12).
  destruct (al_blocks _ _ _ Hi1 Hs1) as [Hsep1 Hb1]. destruct (al_blocks _ _ _ Hi2 Hs2) as [Hsep2 Hb2].
  assert (forall x b r r', inside b r -> apart r' r -> range (ptr b) (size b) x -> ~ range r'.1 r'.2 x) as Hout.
  { intros x b r r' Hin [_ Hd] Hx Hx'. unfold inside, disj, range in *. lia. }
  split.
  - rewrite HLs, fmap_app. apply sep_app. split_and!; [done|done|].
    intros ? ? (b1 & -> & Hin1)%list_elem_of_fmap (b2 & -> & Hin2)%list_elem_of_fmap.
    destruct (Hb1 b1 Hin1) as (_ & (r1 & Hr1 & Hi) & _). destruct (Hb2 b2 Hin2) as (_ & (r2 & Hr2 & Hi') & _).
    eapply inside_apart; eauto.
  - intros b Hb. rewrite HLs in Hb. apply elem_of_app in Hb as [Hb|Hb].
    + destruct (Hb1 b Hb) as (Hn & (r & Hr & Hin) & Hpr). split; [done|]. split.
      { exists r. split; [rewrite HR; right; apply elem_of_app; by left|done]. }
      intros x Hx [Hx1|[Hx2|Hx3]]; [by eapply Hpr| |].
      * destruct (al_priv_held _ _ _ _ Hi2 Hx2) as (r2 & Hr2 & Hrx).
        eapply (Hout x b r r2); [done|apply apart_sym; auto|done|done].
      * eapply (Hout x b r (a, sizeof_fallback)); [done| |done|done]. apply Hf, elem_of_app. by left.
    + destruct (Hb2 b Hb) as (Hn & (r & Hr & Hin) & Hpr). split; [done|]. split.
      { exists r. split; [rewrite HR; right; apply elem_of_app; by right|done]. }
      intros x Hx [Hx1|[Hx2|Hx3]]; [|by eapply Hpr|].
      * destruct (al_priv_held _ _ _ _ Hi1 Hx1) as (r1 & Hr1 & Hrx).
        eapply (Hout x b r r1); [done|auto|done|done].
      * eapply (Hout x b r (a, sizeof_fallback)); [done| |done|done]. apply Hf, elem_of_app. by right.
Qed.

Program Definition fallback_laws a : AllocatorLaws NDEBUG spin (S n) a := {|
  al_inv := fallback_inv a; al_priv := fallback_priv a
|}.
Next Obligation.
  intros a L L' R R' m HL' HR' (L1 & L2 & R1 & R2 & HLs & HR & Hrest). exists L1, L2, R1, R2.
  split; [by rewrite <- HL'|]. split; [by rewrite <- HR'|done].
Qed.
Next Obligation.
  intros a L R m m' (L1 & L2 & R1 & R2 & HLs & HR & Hi1 & Hi2 & Hf) Hrd Hreg. exists L1, L2, R1, R2.
  rewrite HR in Hreg. split_and!; try done.
  - eapply al_local; [exact Hi1|intros x Hx; apply Hrd; by left|]. set_solver.
  - eapply al_local; [exact Hi2|intros x Hx; apply Hrd; by right; left|]. set_solver.
  - eapply fb_fields_ext; [|exact Hf]. intros x Hx. apply Hrd. by right; right.
Qed.
Next Obligation.
  intros a L R m x (L1 & L2 & R1 & R2 & HLs & HR & Hi1 & Hi2 & _) [Hx|[Hx|Hx]].
  - destruct (al_priv_held _ _ _ _ Hi1 Hx) as (r & Hr & Hrx). exists r. split; [rewrite HR|done]. set_solver.
  - destruct (al_priv_held _ _ _ _ Hi2 Hx) as (r & Hr & Hrx). exists r. split; [rewrite HR|done]. set_solver.
  - exists (a, sizeof_fallback). split; [rewrite HR; by left|done].
Qed.
Next Obligation. intros a L R m. apply fallback_blocks. Qed.
Next Obligation.
  intros a L F sz w Hal Hsz. destruct (fallback_call_ready a L F w Hal) as [Hm Hv].
  eapply wp_eq; [by apply (allocate_call spin Fallback)|]. by apply fallback_allocate_ok.
Qed.
Next Obligation.
  intros a L F b w Hal. destruct (fallback_call_ready a _ F w Hal) as [Hm Hv].
  eapply wp_eq; [by apply (deallocate_call NDEBUG spin Fallback)|]. by apply fallback_deallocate_ok.
Qed.
Next Obligation.
  intros a L F b w Hal. destruct (fallback_call_ready a _ F w Hal) as [Hm Hv].
  eapply wp_eq; [by apply (owns_call Fallback)|]. by eapply fallback_owns_ok.
Qed.
End fallback.
