(* ===== verification/NewInst.v ===== *)
(** * The constructors establish the contract, the destructors give everything back *)
From S2P Require Import Prelude Mem Platform Memory Spinlock Alloc DmaAlloc Vfs StackSpec AllocLaws AllocInst StackInst FallbackInst.

Section init.
Context {LK : Linker} {H : Type} {PF : Platform H} {HL : @HeapLaws H PF}.
Implicit Types (w : world H) (m : mem).

(** ** put_vfs *)
Lemma put_vfs_spec a al i w :
  mapped (w_mem w) a 32 = true ->
  wp (put_vfs a al i) (fun _ w' => w' = set_mem (w_mem w') w /\
    agree_off (range a 32) (w_mem w) (w_mem w') /\ vfs_at (w_mem w') a i) never w.
Proof.
  intros Hm. unfold put_vfs.
  assert (forall o n, 0 <= o -> o + n <= 32 -> mapped (w_mem w) (a + o) n = true) as Mo.
  { intros. eapply mapped_sub; [exact Hm|lia|lia]. }
  do 3 (apply wp_bind, wp_store; cbn; [rewrite ?mapped_st; apply Mo; unalloc; lia|]).
  apply wp_store; cbn; [rewrite ?mapped_st; apply Mo; unalloc; lia|]. split_and!.
  - by destruct w.
  - unalloc. repeat (etransitivity; [|apply agree_off_st; unfold range; lia]). done.
  - pose proof (fun s => fn_addr_range i s) as Hr.
    split; unalloc; rewrite ?ld_st_out by lia; rewrite ld_st_eq; apply Z.mod_small;
      change (8 * Z.of_nat 8) with 64; pose proof (Hr Allocate); pose proof (Hr Deallocate);
      pose proof (Hr Owns); lia.
Qed.

(** ** stack_init *)
Section stack.
Context (L : stack_layout) `{!LayoutOk L}.
Ltac layout := destruct LayoutOk0 as [[? ?] ? ? ? ? ?]; change (sizeof allocator) with 32 in *.

Definition full_stack (a base esz num : Z) : stk := Stk a base esz num (seqZ 0 num).

Record stack_init_inv (S : stk) w0 (n : Z) w : Prop := {
  si_rest : w = set_mem (w_mem w) w0;
  si_agree : agree_off (stk_fp L S) (w_mem w0) (w_mem w);
  si_base : ld 8 (w_mem w) (k_self S + k_base_addr L) = k_base S;
  si_esz : ld 4 (w_mem w) (k_self S + k_entry_size L) = k_esz S;
  si_num : ld 4 (w_mem w) (k_self S + k_num_entries L) = k_num S;
  si_top : ld 4 (w_mem w) (k_self S + k_free_stack_top L) = k_num S;
  si_stack : forall k, 0 <= k < n -> ld 4 (w_mem w) (k_self S + k_free_stack L + 4 * k) = k
}.

Lemma stack_init_step S w0 i w :
  mapped (w_mem w0) (k_self S) (k_len L S) = true -> 0 <= i < k_num S -> k_num S < 2 ^ 32 ->
  stack_init_inv S w0 i w ->
  wp (store 4 (k_self S + k_free_stack L + 4 * i) i) (fun _ => stack_init_inv S w0 (i + 1)) never w.
Proof.
  intros Hm Hi Hn [Hrest Hag Hb He Hnu Ht Hs]. rewrite (agree_off_mapped _ _ _ _ _ Hag) in Hm. layout.
  unfold k_len in *. apply wp_store; [eapply mapped_sub; [exact Hm|lia|lia]|]. split; cbn.
  - by rewrite Hrest.
  - etransitivity; [exact Hag|]. apply agree_off_st. unfold stk_fp, range, k_len. lia.
  - by rewrite ld_st_out by lia.
  - by rewrite ld_st_out by lia.
  - by rewrite ld_st_out by lia.
  - by rewrite ld_st_out by lia.
  - intros k Hk. destruct (decide (k = i)) as [->|].
    + rewrite ld_st_eq. apply Z.mod_small. lia.
    + rewrite ld_st_out by lia. apply Hs. lia.
Qed.

Lemma stack_init_spec a base esz num w :
  let S := full_stack a base esz num in
  0 <= num < 2 ^ 32 -> 0 < esz < 2 ^ 32 -> 0 <= base < 2 ^ 64 -> mapped (w_mem w) a (k_len L S) = true ->
  wp (stack_init L a base num esz) (fun _ w' => w' = set_mem (w_mem w') w /\
    agree_off (stk_fp L S) (w_mem w) (w_mem w') /\ stk_rep L (w_mem w') S) never w.
Proof.
  intros S [Hn Hn32] [He He32] Hb Hm. unfold stack_init.
  assert (forall m, regions m = regions (w_mem w) -> forall o k, 0 <= o -> o + k <= k_len L S ->
    mapped m (a + o) k = true) as Mo.
  { intros m Hreg o k ? ?. rewrite (mapped_regions _ (w_mem w)) by done. eapply mapped_sub; [exact Hm|lia|lia]. }
  pose proof LayoutOk0 as [[? ?] ? ? ? ? ?]. change (sizeof allocator) with 32 in *.
  do 4 (apply wp_bind, wp_store; cbn; [rewrite ?mapped_st; apply Mo; [done|lia|unfold k_len; cbn; lia]|]).
  set (w1 := set_mem _ _).
  eapply wp_conseq.
  { apply (wp_for _ (stack_init_inv S w)).
    - split; cbn; [done| | | | | |intros; lia]; rewrite ?ld_st_out, ?ld_st_eq by lia; try (apply Z.mod_small; lia).
      unfold stk_fp, k_len. cbn.
      repeat (etransitivity; [|apply agree_off_st; unfold range; lia]). done.
    - intros i w' Hi. rewrite Z2Nat.id in Hi by lia. apply (stack_init_step S w i w'); [done|cbn; lia|done]. }
  cbn beta. intros _ w' Hinv. rewrite Z2Nat.id, Z.add_0_l in Hinv by lia.
  destruct Hinv as [Hrest Hag Hb' He' Hnu Htop Hs]. split_and!; [rewrite Hrest; by destruct w|done|].
  split; try done; cbn.
  - by rewrite <- (agree_off_mapped _ _ _ _ _ Hag).
  - rewrite length_seqZ. lia.
  - cbn in Htop. rewrite Htop, length_seqZ, Z2Nat.id by lia. by rewrite Z.mod_small.
  - intros k i Hk. apply lookup_seqZ in Hk as [-> Hk]. cbn in Hs. rewrite Hs by lia. lia.
Qed.
End stack.

(** ** stack_allocator_new with a mallocator as parent *)
Context (NDEBUG : bool) (spin : nat).

(** a mallocator ready for use, everything else in [F] *)
Definition mallocator_ready (par : Z) F w : Prop := alive (malloc_inv par) [] F w.

Definition entry_size_of (entry_size : Z) : Z := if entry_size =? 0 then 2048 else entry_size.

(** The state between the two allocations: the new block [sa] is the caller's,
    besides the mallocator. *)
Lemma ready_malloc par F n w : mallocator_ready par F w -> 0 <= n ->
  wp (malloc_ n) (fun p w' =>
    (p = 0 /\ mallocator_ready par F w') \/
    (0 < p /\ p + n < 2 ^ 47 /\ mallocator_ready par ((p, n) :: F) w')) never w.
Proof.
  intros (Hw & R & (HR & Hb & Hv) & Hreg) Hn.
  eapply wp_conseq; [by apply malloc_spec|]. cbn beta. intros p w' (Hrd & Hw' & Hp).
  assert (vfs_at (w_mem w') par Malloc) as Hv' by (eapply vfs_at_ext; [|exact Hv]; auto).
  destruct Hp as [[-> Hreg']|(Hp & Hp47 & Hreg')]; [left|right]; split_and!; try done.
  - split; [done|]. exists R. by rewrite Hreg'.
  - split; [done|]. exists R. split; [done|]. rewrite Hreg', Hreg. apply Permutation_middle.
Qed.

Lemma alive_perm_malloc par Lv F F' w : F ≡ₚ F' -> alive (malloc_inv par) Lv F w -> alive (malloc_inv par) Lv F' w.
Proof. intros HF (Hw & R & Hi & Hreg). split; [done|]. exists R. split; [done|]. by rewrite <- HF. Qed.

(** changes in regions of the frame keep the mallocator *)
Lemma ready_frame par Lv r F w m' : alive (malloc_inv par) Lv (r :: F) w ->
  agree_off (range r.1 r.2) (w_mem w) m' -> alive (malloc_inv par) Lv (r :: F) (set_mem m' w).
Proof.
  intros (Hw & R & (HR & Hb & Hv) & Hreg) [Hrg Hag]. split.
  - unfold world_ok in *. cbn. by rewrite <- Hrg.
  - exists R. cbn. rewrite <- Hrg. split; [|done]. split_and!; try done.
    eapply vfs_at_ext; [|exact Hv]. intros x Hx. symmetry. apply Hag. intros Hx2.
    pose proof (heap_sep _ _ Hw) as Hs. rewrite Hreg in Hs. apply sep_app in Hs as (_ & _ & Hs).
    destruct (Hs (par, 32) r) as [_ Hd]; [rewrite HR; by left|by left|].
    eapply disj_range; [exact Hd|exact Hx|exact Hx2].
Qed.

(** what the two constructors do once their structure is filled in *)
Definition new_tail (L : stack_layout) (fuel : nat) (sa num esz par : Z) : M (world H) Z :=
  mem ← allocate spin fuel par (u32 (num * esz));
  if ptr mem =? 0 then (free_ sa ;; mret NULL) else
  stack_init L sa (ptr mem) num esz ;; mret sa.

(** the bytes of a region of the frame are the same after an allocation *)
Lemma mallocator_allocate_frame k par F n w r : mallocator_ready par F w -> 0 <= n -> r ∈ F ->
  wp (allocate spin (S k) par n) (fun b w' => (forall x, range r.1 r.2 x -> rd (w_mem w') x = rd (w_mem w) x) /\
    ((ptr b = 0 /\ mallocator_ready par F w') \/
     (0 < ptr b /\ ptr b + n < 2 ^ 47 /\ mallocator_ready par ((ptr b, n) :: F) w'))) never w.
Proof.
  intros Hr Hn HrF. destruct (malloc_mapped par [] F w Hr) as (Hm & Hv).
  eapply wp_eq; [by apply (allocate_call spin Malloc)|].
  destruct Hr as (Hw & R & (HR & Hb & _) & Hreg). apply wp_bind.
  eapply wp_conseq; [by apply malloc_spec|]. cbn beta. intros p w' (Hrd & Hw' & Hp). apply wp_ret.
  split; [auto|]. assert (vfs_at (w_mem w') par Malloc) as Hv' by (eapply vfs_at_ext; [|exact Hv]; auto).
  destruct Hp as [[-> Hreg']|(Hp & Hp47 & Hreg')]; [left|right]; cbn; split_and!; try done;
    (split; [done|]); exists R; (split; [done|]).
  - by rewrite Hreg'.
  - rewrite Hreg', Hreg. apply Permutation_middle.
Qed.

Section tail.
Context (L : stack_layout) `{!LayoutOk L} (i : impl) (extra : Z -> mem -> Prop).
Hypothesis extra_local : forall a m m',
  (forall x, range a (k_base_addr L) x -> rd m' x = rd m x) -> extra a m -> extra a m'.
Ltac layout := destruct LayoutOk0 as [[? ?] ? ? ? ? ?]; change (sizeof allocator) with 32 in *.

(** the structure at [sa] is filled in and its storage, of the size that the
    32-bit product gives, is at [base] *)
Record filled_in (par sa base esz num : Z) F w : Prop := {
  fm_ready : mallocator_ready par ((sa, k_sizeof L + 4 * num) :: (base, u32 (num * esz)) :: F) w;
  fm_base : 0 < base /\ base + u32 (num * esz) < 2 ^ 47;
  fm_rep : stk_rep L (w_mem w) (full_stack sa base esz num);
  fm_vfs : vfs_at (w_mem w) sa i;
  fm_extra : extra sa (w_mem w)
}.

Lemma new_tail_raw k sa num esz par F w :
  let len := k_sizeof L + 4 * num in
  mallocator_ready par ((sa, len) :: F) w -> 0 < sa -> 0 <= num < 2 ^ 32 -> 0 < esz < 2 ^ 32 ->
  vfs_at (w_mem w) sa i -> extra sa (w_mem w) ->
  wp (new_tail L (S k) sa num esz par) (fun r w' =>
    (r = NULL /\ mallocator_ready par F w') \/
    (r = sa /\ exists base, filled_in par sa base esz num F w')) never w.
Proof.
  intros len Hr Hsa Hn He Hv Hx. unfold new_tail. apply wp_bind.
  pose proof (Z.mod_pos_bound (num * esz) (2 ^ 32) eq_refl) as Hu. fold (u32 (num * esz)) in Hu.
  eapply wp_conseq; [eapply (mallocator_allocate_frame k par _ _ _ (sa, len)); [exact Hr|lia|by left]|].
  cbn beta. cbn [fst snd]. intros b w1 [Hrd [[Hb Hr1]|(Hb & Hb47 & Hr1)]].
  - rewrite Hb. cbn. apply wp_bind. destruct Hr1 as (Hw & R & (HR & Hbs & Hvp) & Hreg).
    eapply wp_conseq; [apply (free_spec sa len (R ++ F)); [done|lia|]|].
    { rewrite Hreg. symmetry. apply Permutation_middle. }
    cbn beta. intros _ w2 (Hrd2 & Hw2 & Hreg2). apply wp_ret. left. split; [done|]. split; [done|].
    exists R. split; [|done]. split_and!; [done|done|]. eapply vfs_at_ext; [|exact Hvp]. intros x _. apply Hrd2.
  - rewrite (proj2 (Z.eqb_neq _ _)) by lia. apply wp_bind.
    pose proof Hr1 as (Hw & R & (HR & Hbs & Hvp) & Hreg).
    eapply wp_conseq; [apply (stack_init_spec L sa (ptr b) esz num); [lia|lia|lia|]|].
    { apply (mapped_elem _ (sa, len)); cbn; [rewrite Hreg; apply elem_of_app; right; right; by left| |]; unfold len, k_len; cbn; lia. }
    cbn beta. intros _ w2 (Hw2 & Hag & Hrep). apply wp_ret. right. split; [done|]. exists (ptr b).
    assert (agree_off (range sa len) (w_mem w1) (w_mem w2)) as Hag2.
    { eapply agree_off_mono, Hag. intros x. unfold stk_fp, range, k_len, len. cbn. clear -LayoutOk0. layout. lia. }
    assert (forall x, range sa (k_base_addr L) x -> rd (w_mem w2) x = rd (w_mem w) x) as Hhead.
    { intros x Hx2. rewrite <- Hrd by (unfold range, len in *; clear -LayoutOk0 Hx2 Hn; layout; lia).
      destruct Hag as [_ Hag]. symmetry. apply Hag. unfold stk_fp, range in *. cbn. lia. }
    split; [|by split|exact Hrep| |].
    + rewrite Hw2. apply ready_frame; [|done]. eapply alive_perm_malloc; [|exact Hr1]. apply Permutation_swap.
    + eapply vfs_at_ext; [|exact Hv]. intros x Hx2. apply Hhead. unfold range in *. clear -LayoutOk0 Hx2. layout. lia.
    + eapply extra_local; [|exact Hx]. exact Hhead.
Qed.

(** when the product does not wrap around, the allocator is one of those of StackInst.v *)
Lemma filled_in_alive par sa base esz num F w : 0 <= num -> 0 < esz -> num * esz < 2 ^ 32 ->
  filled_in par sa base esz num F w ->
  alive (stack_inv L i extra sa base esz num) [] ((par, 32) :: F) w /\ vfs_at (w_mem w) par Malloc.
Proof.
  intros Hn He Ht [(Hok & R & (HR & _ & Hvp) & Hreg) Hb Hrep Hv Hx]. rewrite u32_small in * by nia.
  split; [|exact Hvp]. split; [done|]. exists [(sa, k_sizeof L + 4 * num); (base, num * esz)]. split.
  - exists (seqZ 0 num), []. cbn zeta. split_and!; try done; [split; cbn; lia|by unfold k_accounted].
  - rewrite Hreg, HR. apply (Permutation_middle [(sa, k_sizeof L + 4 * num); (base, num * esz)]).
Qed.
End tail.

(** *** stack_allocator_new and spinlock_stack_allocator_new *)

(** the layouts' sizes are those of the structures *)
Lemma sizeof_stack num : sizeof stack_allocator + 4 * num = k_sizeof sa_layout + 4 * num.
Proof. done. Qed.
Lemma sizeof_spinlock num : sizeof spinlock_stack_allocator + 4 * num = k_sizeof ss_layout + 4 * num.
Proof. done. Qed.

Lemma ready_mapped par F w sa n a k : mallocator_ready par ((sa, n) :: F) w -> sa <= a -> a + k <= sa + n ->
  mapped (w_mem w) a k = true.
Proof.
  intros (_ & R & _ & Hreg) ? ?. apply (mapped_elem _ (sa, n)); [|done|done]. rewrite Hreg.
  apply elem_of_app. right. by left.
Qed.

Lemma entry_size_bound es : 0 <= es < 2 ^ 32 -> 0 < entry_size_of es < 2 ^ 32.
Proof. unfold entry_size_of. destruct (Z.eqb_spec es 0); lia. Qed.

Lemma stack_allocator_new_raw k num es par F w :
  let esz := entry_size_of es in
  mallocator_ready par F w -> 0 <= par < 2 ^ 64 -> 0 <= num < 2 ^ 32 -> 0 <= es < 2 ^ 32 ->
  wp (stack_allocator_new spin (S k) num es par) (fun r w' =>
    (r = NULL /\ mallocator_ready par F w') \/
    (0 < r /\ exists base, filled_in sa_layout Stack (parent_is par) par r base esz num F w')) never w.
Proof.
  intros esz Hr Hpar Hn Hes. unfold stack_allocator_new. cbn zeta. fold (entry_size_of es). fold esz.
  assert (0 < esz < 2 ^ 32) as He by by apply entry_size_bound.
  rewrite sizeof_stack. apply wp_bind. eapply wp_conseq; [apply ready_malloc; [exact Hr|cbn; lia]|].
  cbn beta. intros sa w1 [[-> Hr1]|(Hsa & _ & Hr1)]; [apply wp_ret; by left|].
  rewrite (proj2 (Z.eqb_neq sa 0)) by lia. apply wp_bind.
  eapply wp_conseq; [apply put_vfs_spec; eapply ready_mapped; [exact Hr1|lia|cbn; lia]|].
  cbn beta. intros _ w2 (Hw2 & Hag & Hv). apply wp_bind. rewrite Hw2 in *. clear Hw2.
  assert (mapped (w_mem w2) sa (k_sizeof sa_layout) = true) as Hm2.
  { rewrite <- (agree_off_mapped _ _ _ _ _ Hag). eapply ready_mapped; [exact Hr1|lia|lia]. }
  apply wp_store; [eapply mapped_sub; [exact Hm2|cbn; lia|cbn; lia]|]. cbn [w_mem set_mem].
  set (m3 := st 8 _ _ _). eapply wp_conseq; [apply (new_tail_raw sa_layout Stack (parent_is par) (parent_is_local par) k sa num esz par F); try done|].
  - change (set_mem m3 _) with (set_mem m3 w1). apply ready_frame; [done|]. cbn [fst snd].
    etransitivity; [eapply agree_off_mono, Hag|].
    + unfold range. cbn. lia.
    + unfold m3. apply agree_off_st. unfold range. cbn. lia.
  - eapply vfs_at_ext; [|exact Hv]. intros x Hx. unfold m3. cbn. apply rd_st_out. unfold range in Hx. cbn. lia.
  - unfold parent_is, m3. cbn [w_mem set_mem]. rewrite ld_st_eq. by apply Z.mod_small.
  - cbn beta. intros r w' [[-> ?]|[-> ?]]; [by left|by right].
Qed.
Lemma stack_allocator_new_spec k num es par F w :
  let esz := entry_size_of es in
  mallocator_ready par F w -> 0 <= par < 2 ^ 64 -> 0 <= num < 2 ^ 32 -> 0 <= es < 2 ^ 32 -> num * esz < 2 ^ 32 ->
  wp (stack_allocator_new spin (S k) num es par) (fun r w' =>
    (r = NULL /\ mallocator_ready par F w') \/
    (0 < r /\ exists base, alive (stack_laws_inv par r base esz num) [] ((par, 32) :: F) w' /\
       vfs_at (w_mem w') par Malloc)) never w.
Proof.
  intros esz Hr Hpar Hn Hes Ht. eapply wp_conseq; [by apply stack_allocator_new_raw|]. cbn beta.
  intros r w' [?|(Hr0 & base & Hf)]; [by left|right]. split; [done|]. exists base.
  apply (filled_in_alive sa_layout) in Hf; [done|lia|by apply entry_size_bound|done].
Qed.

Lemma spinlock_new_spec k num es par F w :
  let esz := entry_size_of es in
  mallocator_ready par F w -> 0 <= par < 2 ^ 64 -> 0 <= num < 2 ^ 32 -> 0 <= es < 2 ^ 32 -> num * esz < 2 ^ 32 ->
  wp (spinlock_stack_allocator_new spin (S k) num es par) (fun r w' =>
    (r = NULL /\ mallocator_ready par F w') \/
    (0 < r /\ exists base, alive (spinlock_inv 0 par r base esz num) [] ((par, 32) :: F) w' /\
       vfs_at (w_mem w') par Malloc)) never w.
Proof.
  intros esz Hr Hpar Hn Hes Ht. unfold spinlock_stack_allocator_new. cbn zeta. fold (entry_size_of es). fold esz.
  assert (0 < esz < 2 ^ 32) as He by by apply entry_size_bound.
  rewrite sizeof_spinlock. apply wp_bind. eapply wp_conseq; [apply ready_malloc; [exact Hr|cbn; lia]|].
  cbn beta. intros sa w1 [[-> Hr1]|(Hsa & _ & Hr1)]; [apply wp_ret; by left|].
  rewrite (proj2 (Z.eqb_neq sa 0)) by lia. apply wp_bind.
  eapply wp_conseq; [apply put_vfs_spec; eapply ready_mapped; [exact Hr1|lia|cbn; lia]|].
  cbn beta. intros _ w2 (Hw2 & Hag & Hv). apply wp_bind. rewrite Hw2 in *. clear Hw2.
  assert (mapped (w_mem w2) sa (k_sizeof ss_layout) = true) as Hm2.
  { rewrite <- (agree_off_mapped _ _ _ _ _ Hag). eapply ready_mapped; [exact Hr1|lia|lia]. }
  apply wp_store; [eapply mapped_sub; [exact Hm2|cbn; lia|cbn; lia]|]. cbn [w_mem set_mem].
  apply wp_bind, wp_store; cbn [w_mem set_mem].
  { rewrite mapped_st. eapply mapped_sub; [exact Hm2| |]; unspin; unalloc; cbn; lia. }
  set (m3 := st 4 _ _ _).
  eapply wp_conseq; [apply (new_tail_raw ss_layout Spinlock_stack (lock_is 0 par) (lock_is_local 0 par) k sa num esz par F); try done|].
  - change (set_mem m3 _) with (set_mem m3 w1). apply ready_frame; [done|]. cbn [fst snd].
    unfold m3. unspin. unalloc. cbn [k_sizeof k_parent ss_layout].
    etransitivity; [eapply agree_off_mono, Hag|].
    + unfold range. cbn. lia.
    + etransitivity; apply agree_off_st; unfold range; cbn; lia.
  - eapply vfs_at_ext; [|exact Hv]. intros x Hx. unfold m3. unspin. unalloc. cbn.
    rewrite !rd_st_out; [done| |]; unfold range in Hx; lia.
  - unfold lock_is, m3. unspin. unalloc. cbn [w_mem set_mem]. rewrite Z.add_0_r. rewrite ld_st_eq.
    split; [done|]. rewrite ld_st_out by (cbn; lia). rewrite ld_st_eq. by apply Z.mod_small.
  - cbn beta. intros r w' [[-> ?]|[-> (base & Hf)]]; [by left|right]. split; [done|]. exists base.
    by apply (filled_in_alive ss_layout) in Hf; [|lia|lia|].
Qed.

(** ** The destructors *)
Lemma ready_free par r n F w : r <> 0 -> mallocator_ready par ((r, n) :: F) w ->
  wp (free_ r) (fun _ w' => mallocator_ready par F w') never w.
Proof.
  intros Hr (Hw & R & (HR & Hb & Hv) & Hreg).
  eapply wp_conseq; [apply (free_spec r n (R ++ F)); [done|done|]|].
  { rewrite Hreg. symmetry. apply Permutation_middle. }
  cbn beta. intros _ w' (Hrd & Hw' & Hreg'). split; [done|]. exists R. split; [|done].
  split_and!; [done|done|]. eapply vfs_at_ext; [|exact Hv]. auto.
Qed.

Lemma stack_give_back_spec (L : stack_layout) `{!LayoutOk L} i extra par r base esz num Lv F w k :
  alive (stack_inv L i extra r base esz num) Lv ((par, 32) :: F) w ->
  vfs_at (w_mem w) par Malloc -> ld 8 (w_mem w) (r + k_parent L) = par ->
  wp (stack_give_back NDEBUG spin L (S k) r) (fun _ w' =>
    mallocator_ready par ((r, k_sizeof L + 4 * num) :: F) w') never w.
Proof.
  intros (Hw & R & (free & ids & Hp & Ha & HLv & HRR & Hr & Hv & Hx) & Hreg) Hvp Hpar.
  pose proof (sp_num _ Hp) as Hn. pose proof (sp_esz _ Hp) as He. pose proof (sp_total _ Hp) as Ht.
  pose proof (sp_base _ Hp) as Hb. cbn in Hn, He, Ht, Hb.
  pose proof (sr_map _ _ _ Hr) as Hm. unfold k_len in Hm. cbn in Hm.
  pose proof LayoutOk0 as [[? ?] ? ? ? ? ?]. change (sizeof allocator) with 32 in *.
  assert (ld 8 (w_mem w) (r + k_base_addr L) = base) as Hlb by apply Hr.
  assert (ld 4 (w_mem w) (r + k_num_entries L) = num) as Hln by apply Hr.
  assert (ld 4 (w_mem w) (r + k_entry_size L) = esz) as Hle by apply Hr.
  unfold stack_give_back.
  apply wp_bind, wp_load; [eapply mapped_sub; [exact Hm|lia|lia]|]. rewrite Hlb.
  apply wp_bind, wp_load; [eapply mapped_sub; [exact Hm|lia|lia]|]. rewrite Hln.
  apply wp_bind, wp_load; [eapply mapped_sub; [exact Hm|lia|lia]|]. rewrite Hle.
  apply wp_bind, wp_load; [eapply mapped_sub; [exact Hm|lia|lia]|]. rewrite Hpar.
  rewrite u32_small by nia.
  set (blk := MemBlk base (num * esz)).
  assert (alive (malloc_inv par) [blk] ((r, k_sizeof L + 4 * num) :: F) w) as Hal.
  { split; [done|]. exists [(par, 32); (base, num * esz)]. split.
    - split_and!; [done|apply Forall_cons; cbn; unfold NULL; split; [nia|done]|done].
    - rewrite Hreg, HRR. cbn. exact (Permutation_app_tail F (Permutation_rev [(r, k_len L (Stk r base esz num free)); (base, num * esz); (par, 32)])). }
  apply wp_bind. pose proof (al_deallocate_ok (AllocatorLaws := malloc_laws NDEBUG spin k par) [] _ blk w Hal) as Hd.
  eapply wp_conseq; [exact Hd|]. cbn beta. intros _ w' [_ Hal']. by apply wp_ret.
Qed.

Lemma stack_allocator_free_spec par r base esz num Lv F w k : r <> 0 ->
  alive (stack_laws_inv par r base esz num) Lv ((par, 32) :: F) w -> vfs_at (w_mem w) par Malloc ->
  wp (stack_allocator_free NDEBUG spin (S k) r) (fun _ w' => mallocator_ready par F w') never w.
Proof.
  intros Hr0 Hal Hvp. unfold stack_allocator_free. rewrite container_of_0 by done. apply wp_bind.
  destruct (stack_alive_open _ _ _ _ _ _ _ _ _ _ Hal) as (_ & _ & Hx & _).
  eapply wp_conseq; [eapply (stack_give_back_spec sa_layout); [exact Hal|exact Hvp|exact Hx]|].
  cbn beta. intros _ w' Hr. by eapply ready_free.
Qed.

Lemma spinlock_free_spec par r base esz num Lv F w k : r <> 0 -> (0 < spin)%nat ->
  alive (spinlock_inv 0 par r base esz num) Lv ((par, 32) :: F) w -> vfs_at (w_mem w) par Malloc ->
  wp (spinlock_stack_allocator_free NDEBUG spin (S k) r) (fun _ w' => mallocator_ready par F w') never w.
Proof.
  intros Hr0 Hsp Hal Hvp. unfold spinlock_stack_allocator_free. rewrite container_of_0 by done. apply wp_bind.
  assert (forall x, range par 32 x -> ~ range r (k_sizeof ss_layout + 4 * num) x) as Hdj.
  { pose proof Hal as (Hw & R & (free & ids & _ & _ & _ & HRR & _) & Hreg).
    pose proof (heap_sep _ _ Hw) as Hs. rewrite Hreg in Hs. apply sep_app in Hs as (_ & _ & Hs).
    destruct (Hs (r, k_sizeof ss_layout + 4 * num) (par, 32)) as [_ Hd]; [rewrite HRR; by left|by left|].
    intros x Hx Hx2. eapply disj_range; [exact Hd|exact Hx2|exact Hx]. }
  eapply wp_conseq; [by apply spin_acquire|]. cbn beta. intros _ w1 [Hq1 Hal1].
  destruct (stack_alive_open _ _ _ _ _ _ _ _ _ _ Hal1) as (_ & _ & [_ Hx] & _).
  assert (0 <= num) as Hn.
  { destruct Hal1 as (_ & R & (free & ids & Hp & _) & _). exact (sp_num _ Hp). }
  apply wp_bind. eapply wp_conseq; [eapply (stack_give_back_spec ss_layout); [exact Hal1| |exact Hx]|].
  { eapply vfs_at_ext; [|exact Hvp]. intros x Hx2. apply Hq1. by apply Hdj. }
  cbn beta. intros _ w2 Hr2. apply wp_bind. unfold rte_spinlock_unlock, sync_lock_release. apply wp_store.
  { eapply ready_mapped; [exact Hr2| |]; unspin; unalloc; cbn; lia. }
  eapply ready_free; [exact Hr0|]. apply ready_frame; [exact Hr2|]. apply agree_off_st.
  unspin. unalloc. unfold range. cbn. lia.
Qed.

(** ** Fallback allocators *)
Lemma fallback_new_spec n p s {LP : AllocatorLaws NDEBUG spin n p} {LS : AllocatorLaws NDEBUG spin n s} L1 L2 R1 R2 F w :
  world_ok w -> al_inv p L1 R1 (w_mem w) -> al_inv s L2 R2 (w_mem w) -> regions (w_mem w) ≡ₚ R1 ++ R2 ++ F ->
  mapped (w_mem w) p 32 = true -> mapped (w_mem w) s 32 = true -> 0 <= p < 2 ^ 64 -> 0 <= s < 2 ^ 64 ->
  (malloc sizeof_fallback (w_hw w)).1 <> NULL ->
  wp (fallback_allocator_new p s) (fun r w' =>
    0 < r /\ alive (fallback_inv NDEBUG spin n p s r) (L1 ++ L2) F w') never w.
Proof.
  intros Hw Hi1 Hi2 Hreg Hm1 Hm2 Hp Hs Hnn. unfold fallback_allocator_new.
  apply wp_bind, wp_load; [eapply mapped_sub; [exact Hm1|unalloc; lia|unalloc; lia]|].
  apply wp_bind, wp_load; [eapply mapped_sub; [exact Hm2|unalloc; lia|unalloc; lia]|].
  set (al := min_ _ _). change (sizeof fallback_allocator) with sizeof_fallback.
  apply wp_bind. assert (0 <= sizeof_fallback) as Hsz by done. pose proof (malloc_spec sizeof_fallback w Hw Hsz) as Hmal. unfold wp in Hmal |- * at 1.
  destruct (malloc_ sizeof_fallback w) as [fb w1|e w1|] eqn:Em; [|exfalso; exact Hmal..].
  destruct Hmal as (Hrd & Hw1 & Hcase).
  destruct Hcase as [[-> _]|(Hfb & _ & Hreg1)].
  { exfalso. unfold malloc_ in Em. destruct (malloc sizeof_fallback (w_hw w)) as [q h']. cbn in Hnn.
    injection Em as Hq _. done. }
  assert (mapped (w_mem w1) fb sizeof_fallback = true) as Hmf.
  { apply (mapped_elem _ (fb, sizeof_fallback)); cbn; [rewrite Hreg1; by left|lia|lia]. }
  apply wp_bind. eapply wp_conseq; [apply put_vfs_spec; eapply mapped_sub; [exact Hmf|lia|unfold sizeof_fallback; lia]|].
  cbn beta. intros _ w2 (Hw2 & Hag & Hv). rewrite Hw2. clear Hw2.
  rewrite (agree_off_mapped _ _ _ _ _ Hag) in Hmf.
  apply wp_bind, wp_store; [eapply mapped_sub; [exact Hmf| |]; unalloc; unfold sizeof_fallback; lia|]. cbn [w_mem set_mem].
  apply wp_bind, wp_store; cbn [w_mem set_mem].
  { rewrite mapped_st. eapply mapped_sub; [exact Hmf| |]; unalloc; unfold sizeof_fallback; lia. }
  apply wp_ret. set (m3 := st 8 _ _ _). set (w3 := set_mem _ _).
  assert (agree_off (range fb sizeof_fallback) (w_mem w1) m3) as Hag3.
  { etransitivity; [eapply agree_off_mono, Hag; unfold range, sizeof_fallback; lia|]. unfold m3. unalloc.
    etransitivity; apply agree_off_st; unfold range, sizeof_fallback; lia. }
  assert (regions m3 ≡ₚ (fb, sizeof_fallback) :: R1 ++ R2 ++ F) as Hreg3.
  { destruct Hag3 as [<- _]. by rewrite Hreg1, Hreg. }
  assert (forall r, r ∈ R1 ++ R2 -> forall x, range r.1 r.2 x -> rd m3 x = rd (w_mem w) x) as Hkeep.
  { intros r Hr x Hx. rewrite <- Hrd. destruct Hag3 as [_ Hag3]. symmetry. apply Hag3. intros Hx2.
    pose proof (heap_sep _ _ Hw1) as Hsep. rewrite Hreg1, Hreg, app_assoc in Hsep. destruct Hsep as [Hsep _].
    rewrite Forall_forall in Hsep. destruct (Hsep r) as [_ Hd]; [apply elem_of_app; by left|].
    eapply disj_range; [exact Hd|exact Hx2|exact Hx]. }
  split; [done|]. split; [unfold world_ok, w3; cbn; destruct Hag3 as [<- _]; done|].
  exists ((fb, sizeof_fallback) :: R1 ++ R2). split.
  - exists L1, L2, R1, R2. split; [done|]. split; [done|]. split_and!.
    + eapply al_local; [exact Hi1| |cbn; rewrite Hreg3; set_solver].
      intros x Hx. destruct (al_priv_held _ _ _ _ Hi1 Hx) as (r & Hr & Hrx). eapply Hkeep; [|exact Hrx]. set_solver.
    + eapply al_local; [exact Hi2| |cbn; rewrite Hreg3; set_solver].
      intros x Hx. destruct (al_priv_held _ _ _ _ Hi2 Hx) as (r & Hr & Hrx). eapply Hkeep; [|exact Hrx]. set_solver.
    + cbn [w_mem set_mem w3]. unfold m3, fb_fields. unalloc. split_and!.
      * eapply vfs_at_ext; [|exact Hv]. intros x Hx. cbn. rewrite !rd_st_out; [done| |]; unfold range in Hx; lia.
      * rewrite ld_st_out, ld_st_eq by lia. by apply Z.mod_small.
      * rewrite ld_st_eq. by apply Z.mod_small.
  - cbn [w_mem set_mem w3]. rewrite Hreg3. cbn. by rewrite <- app_assoc.
Qed.
End init.
