(* ===== verification/AllocSim.v ===== *)
(** * The scripted machine with a linked program

    The heap of the scripted machine keeps [HeapLaws]; [demo_linker] places the
    allocator functions and the three static allocator objects, whose
    initialisers [statics] puts into memory. *)
From S2P Require Import Prelude Mem Platform Memory Spinlock Alloc DmaAlloc Vfs AllocLaws AllocInst Sim.

Definition sim_heap_ok (R : list (Z * Z)) (h : sim) : Prop :=
  sep R /\ Forall (fun r => (r.1 < s_brk h /\ r.1 + r.2 <= s_brk h) \/ 2 ^ 40 <= r.1) R.

#[export] Program Instance sim_heap : HeapLaws sim := {| heap_ok := sim_heap_ok |}.
Next Obligation. by intros R h [? _]. Qed.
Next Obligation. intros R R' h HR [Hs Hf]. split; by rewrite <- HR. Qed.
Next Obligation.
  intros R h n [Hs Hf] Hn. cbn. unfold sim_malloc.
  pose proof (Z.div_mod (n + 63) 64) as Hd. pose proof (Z.mod_pos_bound (n + 63) 64) as Hm.
  assert (forall h', s_brk h <= s_brk h' -> sim_heap_ok R h') as Hup.
  { intros h' Hle. split; [done|]. eapply Forall_impl; [exact Hf|]. cbn. intros r. lia. }
  destruct ((0 <? s_brk h) && (s_brk h + n <? 2 ^ 40)) eqn:E.
  - right. apply andb_true_iff in E as [E1%Z.ltb_lt E2%Z.ltb_lt]. split; [done|]. split; [lia|].
    split; cbn; [|apply Forall_cons; split; [cbn; lia|]].
    + split; [|done]. eapply Forall_impl; [exact Hf|]. unfold apart, disj. cbn. intros r. lia.
    + eapply Forall_impl; [exact Hf|]. cbn. intros r. lia.
  - left. split; [done|]. apply Hup. cbn. lia.
Qed.
Next Obligation.
  intros R h p n [[_ Hs] Hf]. apply Forall_cons in Hf as [_ Hf]. by split.
Qed.

(** ** A linked program *)
Definition impl_index (i : impl) : Z :=
  match i with Null => 0 | Malloc => 1 | Stack => 2 | Spinlock_stack => 3 | Fallback => 4 | Dma => 5 end.
Definition slot_index (s : slot) : Z := match s with Allocate => 0 | Deallocate => 1 | Owns => 2 end.
#[export] Program Instance demo_linker : Linker := {|
  fn_addr i s := 0x1000 + 0x100 * impl_index i + 0x10 * slot_index s;
  null_allocator_t := 0x4000; mallocator_t := 0x4020; dma_allocator_t := 0x4040
|}.
Next Obligation. intros s i j. destruct i, j; cbn; intros ?; try done; lia. Qed.
Next Obligation. intros i s. destruct i, s; cbn; lia. Qed.

(** [struct allocator x = {alignment, allocate, deallocate, owns};] *)
Definition static_vfs (p : Z) (i : impl) (m : mem) : mem :=
  st 8 (p + al_owns) (fn_addr i Owns) (st 8 (p + al_deallocate) (fn_addr i Deallocate)
    (st 8 (p + al_allocate) (fn_addr i Allocate) (st 4 (p + al_alignment) (alignment_of i) (add_region p 32 m)))).
Definition statics : mem :=
  static_vfs dma_allocator_t Dma (static_vfs mallocator_t Malloc (static_vfs null_allocator_t Null (Mem ∅ []))).

(** the kernel's answers for an allocation of [n] contiguous 4 KB pages by
    dma_allocator.c and its release *)
Definition dma_answers (n : nat) : list Z := [1; 3; 0; 0x10000000000; 0; 0; 0] ++ concat (repeat [4; 0; 0] (S n)) ++ [0].
Definition dma_frames (n : nat) : list (Z * Z) :=
  (8, 0x8000000000012300) :: map (fun k => (8, 0x8000000000012300 + Z.of_nat k)) (seq 0 n).
Definition alloc_sim : sim :=
  Sim [] [] ∅ [] (dma_answers 512 ++ dma_answers 1024 ++ dma_answers 2048)
    (dma_frames 512 ++ dma_frames 1024 ++ dma_frames 2048) 0x10000.
Definition alloc_world : world sim := World statics alloc_sim 0.
(** the same without any kernel answers *)
Definition plain_world : world sim := World statics (Sim [] [] ∅ [] [] [] 0x10000) 0.
