(* ===== verification/AllocProps.v ===== *)
(** * Properties of the allocators *)
From S2P Require Import Prelude Mem Platform Memory Spinlock Alloc DmaAlloc Vfs StackSpec AllocLaws AllocInst StackInst.
From S2P Require Import FallbackInst NewInst Sim AllocSim.

Section facts.
Context {LK : Linker} {H : Type} {PF : Platform H}.
Context (NDEBUG : bool) (spin : nat).
Implicit Types (w : world H).

(** ids that the code computes addresses from without wrapping *)
Definition ids_small (S : stk) : Prop :=
  Forall (fun i => 0 <= i /\ i * k_esz S < 2 ^ 32) (k_free S) /\ Z.of_nat (length (k_free S)) < 2 ^ 32.

Lemma sa_self a : container_of a stack_allocator "vfs" = a.
Proof. by apply container_of_0. Qed.

Lemma sa_push_spec S b w (E : failure -> world H -> Prop) :
  stk_rep sa_layout (w_mem w) S -> - 2 ^ 63 <= ptr b - k_base S < 2 ^ 63 ->
  Z.of_nat (length (k_free S)) <= k_num S ->
  (size b <> k_esz S -> E (Abort "Size of returned block does not match stack element size") w) ->
  (size b = k_esz S -> ~ (0 <= id_of S b <= k_num S) -> E (Abort "Calculated entry id is outside of stack range") w) ->
  wp (stack_allocator_deallocate NDEBUG (k_self S) b) (fun b' w' =>
    size b = k_esz S /\ 0 <= id_of S b <= k_num S /\ b' = clear_blk NDEBUG b /\
    stk_rep sa_layout (w_mem w') (set_kfree (k_free S ++ [id_of S b]) S) /\
    w' = set_mem (pushed sa_layout S (id_of S b) (w_mem w)) w) E w.
Proof.
  intros Hr Hd Hroom HE1 HE2. pose proof (sr_num _ _ _ Hr) as Hn.
  unfold stack_allocator_deallocate. rewrite sa_self. apply wp_bind.
  apply (stack_entry_id_spec sa_layout S); [done|done|done|done|]. intros Hsz Hid. apply wp_bind.
  eapply wp_mono; [apply (stack_push_spec sa_layout S (id_of S b)); [done|lia|lia|lia]| |intros ? ? []].
  cbn beta. intros _ w' [Hr' ->]. apply wp_ret. done.
Qed.
End facts.

(** ** Deciding the representation on a concrete memory *)
Definition stk_repb (L : stack_layout) (m : mem) (S : stk) : bool :=
  mapped m (k_self S) (k_len L S) && (0 <? k_esz S) && (k_esz S <? 2 ^ 32) && (0 <=? k_num S) && (k_num S <? 2 ^ 32) &&
  (Z.of_nat (length (k_free S)) <=? k_num S + 1) &&
  (ld 8 m (k_self S + k_base_addr L) =? k_base S) && (ld 4 m (k_self S + k_entry_size L) =? k_esz S) &&
  (ld 4 m (k_self S + k_num_entries L) =? k_num S) &&
  (ld 4 m (k_self S + k_free_stack_top L) =? Z.of_nat (length (k_free S)) mod 2 ^ 32) &&
  forallb (fun '(k, i) => ld 4 m (k_self S + k_free_stack L + 4 * Z.of_nat k) =? i) (imap pair (k_free S)).

Lemma stk_repb_sound L m S : stk_repb L m S = true -> stk_rep L m S.
Proof.
  unfold stk_repb. rewrite !andb_true_iff, !Z.leb_le, !Z.ltb_lt, !Z.eqb_eq.
  intros ((((((((((Hm & He1) & He2) & Hn1) & Hn2) & Hl) & Hb) & He) & Hn) & Ht) & Hf). split; try done.
  intros k i Hk. rewrite forallb_forall in Hf. apply Z.eqb_eq, (Hf (k, i)), list_elem_of_In, list_elem_of_lookup.
  exists k. by rewrite list_lookup_imap, Hk.
Qed.

(** ** An allocator of four entries, made by running the code *)
Definition run_alloc {A} (c : M (world sim) A) (w : world sim) (d : A) : A * world sim :=
  match c w with Ok a w' => (a, w') | Err _ w' => (d, w') | Hang => (d, w) end.
Definition demo_stack : Z * world sim :=
  Eval vm_compute in run_alloc (stack_allocator_new 1 1 4 64 mallocator_t) plain_world 0.
Definition demo_stk : stk := Stk 0x10000 0x10080 64 4 [0; 1; 2; 3].
Example demo_stack_ok : demo_stack.1 = k_self demo_stk /\ stk_rep sa_layout (w_mem demo_stack.2) demo_stk.
Proof. split; [done|]. apply stk_repb_sound. by vm_compute. Defined.
Definition demo_stack1 : mem_blk * world sim :=
  Eval vm_compute in run_alloc (stack_allocator_allocate 0x10000 64) demo_stack.2 NULL_blk.

(** ** The properties *)

(** C23: stack_allocator_allocate on any consistent allocator: with an empty free
    stack or a request above the entry size it returns the NULL block and changes
    nothing; otherwise it returns the entry on top of the stack, with the full
    entry size, and stores only the new stack height. *)
Theorem stack_allocate_refines {H} `{Platform H} (S : stk) sz (w : world H) :
  stk_rep sa_layout (w_mem w) S -> ids_small S ->
  wp (stack_allocator_allocate (k_self S) sz) (fun b w' =>
    match last (k_free S) with
    | Some i =>
        if k_esz S <? sz then b = MemBlk NULL 0 /\ w' = w
        else let l := removelast (k_free S) in
          k_free S = l ++ [i] /\ b = MemBlk (k_base S + i * k_esz S) (k_esz S) /\
          stk_rep sa_layout (w_mem w') (set_kfree l S) /\
          w' = set_mem (st 4 (k_self S + k_free_stack_top sa_layout) (Z.of_nat (length l)) (w_mem w)) w
    | None => b = MemBlk NULL 0 /\ w' = w
    end) never w.
Proof.
  intros Hr [Hids Hlen]. unfold stack_allocator_allocate. rewrite sa_self.
  eapply wp_conseq; [by apply (stack_pop_spec sa_layout S)|]. cbn beta. intros b w' Hb.
  destruct (k_free S) as [|i l _] using rev_ind; [done|].
  rewrite last_snoc, removelast_last in *. destruct (k_esz S <? sz); [done|]. by split.
Qed.

Lemma stack_allocate_refines_witness : exists Q : mem_blk -> world sim -> Prop,
  wp (stack_allocator_allocate 0x10000 64) Q never demo_stack.2.
Proof.
  eexists. apply (stack_allocate_refines demo_stk 64 demo_stack.2).
  - apply stk_repb_sound. by vm_compute.
  - split; [|done]. repeat apply Forall_cons_2; done || apply Forall_nil_2.
Defined.

(** C24: stack_allocator_deallocate on every branch: a block of another size
    aborts; so does one whose id, the truncated quotient of its distance from the
    base by the entry size, is negative or above the number of entries; otherwise
    exactly that id is pushed, and the caller's block is cleared unless NDEBUG is
    defined.  Nothing else in memory changes. *)
Theorem stack_deallocate_checks {H} `{Platform H} NDEBUG (S : stk) b (w : world H) :
  stk_rep sa_layout (w_mem w) S -> - 2 ^ 63 <= ptr b - k_base S < 2 ^ 63 ->
  Z.of_nat (length (k_free S)) <= k_num S ->
  let id := Z.quot (ptr b - k_base S) (k_esz S) in
  wp (stack_allocator_deallocate NDEBUG (k_self S) b) (fun b' w' =>
      size b = k_esz S /\ 0 <= id <= k_num S /\ b' = (if NDEBUG then b else MemBlk NULL 0) /\
      stk_rep sa_layout (w_mem w') (set_kfree (k_free S ++ [id]) S) /\
      w' = set_mem (pushed sa_layout S id (w_mem w)) w)
    (fun f w' => w' = w /\
      ((size b <> k_esz S /\ f = Abort "Size of returned block does not match stack element size") \/
       (size b = k_esz S /\ ~ (0 <= id <= k_num S) /\ f = Abort "Calculated entry id is outside of stack range"))) w.
Proof. intros Hr Hd Hroom id. apply sa_push_spec; auto. Qed.

Lemma stack_deallocate_checks_witness : exists (Q : mem_blk -> world sim -> Prop) E,
  wp (stack_allocator_deallocate false 0x10000 (MemBlk 0x10140 64)) Q E demo_stack1.2.
Proof.
  eexists _, _. apply (stack_deallocate_checks false (set_kfree [0; 1; 2] demo_stk) (MemBlk 0x10140 64) demo_stack1.2).
  - apply stk_repb_sound. by vm_compute.
  - done.
  - done.
Defined.

(** C25: the range check of stack_allocator_deallocate lets the block right after
    the last entry through (it compares with [>] where [>=] is meant).  Freeing
    that block, which the allocator does not own, succeeds, and the next
    allocation hands it out: memory past the end of the allocator's block. *)
Theorem stack_deallocate_accepts_one_past_end {H} `{Platform H} NDEBUG (S : stk) sz (w : world H) :
  stk_rep sa_layout (w_mem w) S -> stk_wf S -> Z.of_nat (length (k_free S)) < k_num S -> sz <= k_esz S ->
  let bad := MemBlk (k_base S + k_num S * k_esz S) (k_esz S) in
  wp (_ ← stack_allocator_deallocate NDEBUG (k_self S) bad; stack_allocator_allocate (k_self S) sz)
    (fun b w' => b = bad) never w /\
  wp (stack_allocator_owns (k_self S) bad) (fun r w' => r = false /\ w' = w) never w.
Proof.
  intros Hr [Ht [Hb0 Hb] Hnd Hbd] Hlen Hsz bad. pose proof (sr_num _ _ _ Hr) as Hn. pose proof (sr_esz _ _ _ Hr) as He.
  assert (id_of S bad = k_num S) as Hid.
  { unfold id_of, bad. cbn [ptr]. replace (_ - _) with (k_num S * k_esz S) by lia. apply Z.quot_mul. lia. }
  split.
  - apply wp_bind. eapply wp_conseq; [apply sa_push_spec; [done| |lia| |]; rewrite ?Hid; cbn; try lia; done|].
    cbn beta. rewrite Hid. intros b' w1 (_ & _ & _ & Hr1 & Hw1). unfold stack_allocator_allocate. rewrite sa_self.
    set (S1 := set_kfree _ S) in Hr1.
    eapply wp_conseq; [apply (stack_pop_spec sa_layout S1 sz w1 Hr1)|].
    + apply Forall_app. split; [|apply Forall_cons; split; [cbn; lia|done]].
      eapply Forall_impl; [exact Hbd|]. cbn. intros i Hi. nia.
    + cbn. rewrite length_app. cbn. lia.
    + cbn beta. unfold S1 at 1. cbn [k_free set_kfree]. rewrite last_snoc. cbn [k_esz S1 set_kfree].
      rewrite (proj2 (Z.ltb_ge _ _)) by lia. by intros b w2 (-> & _).
  - unfold stack_allocator_owns. rewrite sa_self.
    eapply wp_conseq; [by apply (stack_owns_spec sa_layout S)|]. cbn beta. intros r w' [-> ->]. split; [|done].
    apply bool_decide_false. cbn. lia.
Qed.
Lemma stack_deallocate_accepts_one_past_end_witness :
  wp (_ ← stack_allocator_deallocate false 0x10000 (MemBlk 0x10180 64); stack_allocator_allocate 0x10000 64)
    (fun b _ => b = MemBlk 0x10180 64) never demo_stack1.2 /\
  wp (stack_allocator_owns 0x10000 (MemBlk 0x10180 64)) (fun r w' => r = false /\ w' = demo_stack1.2) never demo_stack1.2.
Proof.
  apply (stack_deallocate_accepts_one_past_end false (set_kfree [0; 1; 2] demo_stk) 64 demo_stack1.2).
  - apply stk_repb_sound. by vm_compute.
  - split; [done|done| |by repeat apply Forall_cons_2].
    by apply (bool_decide_unpack _).
  - done.
  - done.
Defined.

(** ** Whole lives of allocators

    A client that creates an allocator, uses it and destroys it; [use] is the
    whole program. *)
Section lifecycle.
Context {LK : Linker} {H : Type} {PF : Platform H} {HL : @HeapLaws H PF}.
Context (NDEBUG : bool) (spin : nat).

Definition use_stack (num es par : Z) (ops : list alloc_op) : M (world H) (list mem_blk) :=
  a ← stack_allocator_new spin 1 num es par;
  if a =? NULL then mret [] else
  live ← run_allocator NDEBUG spin 1 a ops [];
  stack_allocator_free NDEBUG spin 1 a ;; mret live.

Definition use_spinlock_stack (num es par : Z) (ops : list alloc_op) : M (world H) (list mem_blk) :=
  a ← spinlock_stack_allocator_new spin 1 num es par;
  if a =? NULL then mret [] else
  live ← run_allocator NDEBUG spin 1 a ops [];
  spinlock_stack_allocator_free NDEBUG spin 1 a ;; mret live.

Fixpoint free_all (fuel : nat) (a : Z) (l : list mem_blk) : M (world H) unit :=
  match l with
  | [] => mret tt
  | b :: l' => _ ← deallocate NDEBUG spin fuel a b; free_all fuel a l'
  end.
(** a fallback allocator over [primary] and [secondary] *)
Definition use_fallback (fuel : nat) (primary secondary : Z) (ops : list alloc_op) : M (world H) (list mem_blk) :=
  a ← fallback_allocator_new primary secondary;
  live ← run_allocator NDEBUG spin (S fuel) a ops [];
  free_all (S fuel) a live ;;
  fallback_allocator_free a ;; mret live.

(** What a client of entries of [esz] bytes may rely on. *)
Definition separate_blocks (esz : Z) (l : list mem_blk) : Prop :=
  sep (blk_region <$> l) /\ Forall (fun b => ptr b <> NULL /\ size b = esz) l.

Lemma stack_alive_blocks L `{!LayoutOk L} i extra a base esz num Lv F (w : world H) :
  alive (stack_inv L i extra a base esz num) Lv F w -> separate_blocks esz Lv.
Proof.
  intros (Hw & R & Hi & Hreg). pose proof (heap_sep _ _ Hw) as Hs. rewrite Hreg in Hs. apply sep_app in Hs as (Hs & _).
  destruct (stack_inv_blocks L i extra a base esz num Lv R _ Hi Hs) as [Hsep Hb]. split; [done|].
  apply Forall_forall. intros b Hin. split; [by apply Hb|].
  destruct Hi as (free & ids & _ & _ & HLv & _). rewrite HLv in Hin.
  apply list_elem_of_fmap in Hin as (j & -> & _). done.
Qed.

Lemma vfs_frame par F (w w' : world H) : vfs_at (w_mem w) par Malloc ->
  frame_kept ((par, 32) :: F) w w' -> vfs_at (w_mem w') par Malloc.
Proof. intros Hv Hk. eapply vfs_at_ext; [|exact Hv]. intros x Hx. apply (Hk (par, 32)); [by left|done]. Qed.

Lemma free_all_spec fuel a {AL : AllocatorLaws NDEBUG spin fuel a} L F (w : world H) :
  alive (al_inv a) L F w ->
  wp (free_all fuel a L) (fun _ w' => alive (al_inv a) [] F w' /\ frame_kept F w w') never w.
Proof.
  revert w. induction L as [|b L IH]; intros w Hal; cbn [free_all]; [by apply wp_ret|].
  apply wp_bind. eapply wp_conseq; [by apply (al_deallocate_ok L F)|]. cbn beta. intros _ w1 [Hq Hal1].
  eapply wp_conseq; [by apply IH|]. cbn beta. intros _ w2 [Hal2 Hk]. split; [done|].
  eapply frame_kept_trans, Hk. intros r x Hr Hx. by eapply quiet_outside.
Qed.

Lemma alive_blocks fuel a {AL : AllocatorLaws NDEBUG spin fuel a} L F (w : world H) : alive (al_inv a) L F w ->
  sep (blk_region <$> L) /\ Forall (fun b => ptr b <> NULL) L.
Proof.
  intros (Hw & R & Hi & Hreg). pose proof (heap_sep _ _ Hw) as Hs. rewrite Hreg in Hs. apply sep_app in Hs as (Hs & _).
  destruct (al_blocks _ _ _ Hi Hs) as [Hsep Hb]. split; [done|]. apply Forall_forall. intros b Hin. by apply Hb.
Qed.

(** a fallback allocator over any two allocators that keep the contract *)
Lemma use_fallback_spec n p s {LP : AllocatorLaws NDEBUG spin n p} {LS : AllocatorLaws NDEBUG spin n s}
    {DP : Discriminates NDEBUG spin n p} ops R1 R2 F (w : world H) :
  world_ok w -> al_inv p [] R1 (w_mem w) -> al_inv s [] R2 (w_mem w) -> regions (w_mem w) ≡ₚ R1 ++ R2 ++ F ->
  mapped (w_mem w) p 32 = true -> mapped (w_mem w) s 32 = true -> 0 <= p < 2 ^ 64 -> 0 <= s < 2 ^ 64 ->
  (malloc sizeof_fallback (w_hw w)).1 <> NULL ->
  wp (use_fallback n p s ops) (fun live w' => world_ok w' /\
    sep (blk_region <$> live) /\ Forall (fun b => ptr b <> NULL) live /\
    exists R1' R2', al_inv p [] R1' (w_mem w') /\ al_inv s [] R2' (w_mem w') /\
      regions (w_mem w') ≡ₚ R1' ++ R2' ++ F) never w.
Proof.
  intros Hw Hi1 Hi2 Hreg Hm1 Hm2 Hp Hs Hn. unfold use_fallback. apply wp_bind.
  pose proof (fallback_new_spec NDEBUG spin n p s [] [] R1 R2 F w Hw Hi1 Hi2 Hreg Hm1 Hm2 Hp Hs Hn) as Hnew.
  eapply wp_conseq; [exact Hnew|]. cbn beta. cbn [app]. intros a w1 [Ha Hal1]. apply wp_bind.
  pose proof (run_allocator_spec NDEBUG spin (S n) a (AL := fallback_laws NDEBUG spin n p s a) ops [] F w1 Hal1) as Hrun.
  eapply wp_conseq; [exact Hrun|]. cbn beta. intros live w2 [Hal2 _].
  destruct (alive_blocks (S n) a (AL := fallback_laws NDEBUG spin n p s a) live F w2 Hal2) as [Hsep Hnn]. apply wp_bind.
  pose proof (free_all_spec (S n) a (AL := fallback_laws NDEBUG spin n p s a) live F w2 Hal2) as Hfree.
  eapply wp_conseq; [exact Hfree|]. cbn beta. intros _ w3 [Hal3 _]. apply wp_bind.
  destruct (fallback_open _ _ _ _ _ _ _ _ _ Hal3) as (L1 & L2 & R1' & R2' & HLs & [Hw3 Hi1' Hi2' _ Hreg']).
  symmetry in HLs. apply Permutation_nil_r, app_eq_nil in HLs as [-> ->].
  unfold fallback_allocator_free. rewrite container_of_0 by done.
  eapply wp_conseq; [apply (free_spec a sizeof_fallback (R1' ++ R2' ++ F)); [done|lia|done]|].
  cbn beta. intros _ w4 (Hrd & Hw4 & Hreg4). apply wp_ret. split_and!; [done|done|done|].
  exists R1', R2'. split_and!; [| |done].
  - eapply al_local; [exact Hi1'|auto|rewrite Hreg4; set_solver].
  - eapply al_local; [exact Hi2'|auto|rewrite Hreg4; set_solver].
Qed.
End lifecycle.

Definition demo_ops : list alloc_op :=
  [A_alloc 64; A_alloc 5; A_write 0 63 255; A_alloc 65; A_free 1; A_alloc 8; A_alloc 8; A_alloc 8].
(** the static objects other than the mallocator *)
Definition other_statics : list (Z * Z) := [(0x4040, 32); (0x4000, 32)].
Definition vfs_atb (m : mem) (a : Z) (i : impl) : bool :=
  (ld 8 m (a + al_allocate) =? fn_addr i Allocate) && (ld 8 m (a + al_deallocate) =? fn_addr i Deallocate) &&
  (ld 8 m (a + al_owns) =? fn_addr i Owns).
Lemma vfs_atb_sound m a i : vfs_atb m a i = true -> vfs_at m a i.
Proof. unfold vfs_atb. rewrite !andb_true_iff, !Z.eqb_eq. intros [[? ?] ?]. done. Qed.
Lemma plain_world_ok : world_ok plain_world.
Proof.
  split.
  - cbn. repeat first [apply Forall_cons_2|apply Forall_nil_2|split]; unfold disj; cbn; lia.
  - cbn. repeat apply Forall_cons_2; cbn; try lia. apply Forall_nil_2.
Qed.
Lemma plain_world_ready : mallocator_ready mallocator_t other_statics plain_world.
Proof.
  split; [apply plain_world_ok|]. exists [(mallocator_t, 32)]. split.
  - split_and!; [done|by apply Forall_nil_2|]. apply vfs_atb_sound. by vm_compute.
  - cbn. apply (Permutation_swap (0x4020, 32) (0x4040, 32)).
Qed.

(** C9: a client that makes a stack allocator (or a spinlock one), whose number of
    entries times entry size (2048 for 0) is below 2^32, on top of a mallocator
    ready for use, allocates, frees and writes into its blocks in any order and
    destroys it: no call faults, aborts or spins, the blocks it holds at the end
    are distinct, never overlap and have the entry size, and afterwards exactly
    the memory that was mapped before is still mapped, also when the constructor
    ran out of memory. *)
Theorem stack_allocator_lifecycle {LK : Linker} {H} `{HeapLaws H} NDEBUG spin num es par ops F (w : world H) :
  mallocator_ready par F w -> (0 < spin)%nat ->
  0 <= par < 2 ^ 64 -> 0 <= num < 2 ^ 32 -> 0 <= es < 2 ^ 32 -> num * entry_size_of es < 2 ^ 32 ->
  wp (use_stack NDEBUG spin num es par ops) (fun live w' => mallocator_ready par F w' /\
    regions (w_mem w') ≡ₚ regions (w_mem w) /\ separate_blocks (entry_size_of es) live) never w /\
  wp (use_spinlock_stack NDEBUG spin num es par ops) (fun live w' => mallocator_ready par F w' /\
    regions (w_mem w') ≡ₚ regions (w_mem w) /\ separate_blocks (entry_size_of es) live) never w.
Proof.
  intros Hr Hsp Hpar Hn Hes Ht.
  assert (forall w', mallocator_ready par F w' -> regions (w_mem w') ≡ₚ regions (w_mem w)) as Hback.
  { intros w' (_ & R' & (HR' & _) & ->). destruct Hr as (_ & R & (HR & _) & ->). by rewrite HR', HR. }
  split.
  - unfold use_stack. apply wp_bind. eapply wp_conseq; [by apply stack_allocator_new_spec|].
    cbn beta. intros a w1 [[-> Hr1]|(Ha & base & Hal1 & Hv1)]; [apply wp_ret; by split_and!; auto|].
    rewrite (proj2 (Z.eqb_neq _ _)) by (unfold NULL; lia). apply wp_bind.
    eapply wp_conseq; [by apply (run_allocator_spec _ _ 1 a (AL := stack_laws NDEBUG spin 0 par a base (entry_size_of es) num))|].
    cbn beta. intros live w2 [Hal2 Hk]. apply wp_bind.
    eapply wp_conseq; [eapply stack_allocator_free_spec; [lia|exact Hal2|eapply vfs_frame; [exact Hv1|exact Hk]]|].
    cbn beta. intros _ w3 Hr3. apply wp_ret. split_and!; auto. eapply (stack_alive_blocks sa_layout Stack (parent_is par)), Hal2.
  - unfold use_spinlock_stack. apply wp_bind. eapply wp_conseq; [by apply spinlock_new_spec|].
    cbn beta. intros a w1 [[-> Hr1]|(Ha & base & Hal1 & Hv1)]; [apply wp_ret; by split_and!; auto|].
    rewrite (proj2 (Z.eqb_neq _ _)) by (unfold NULL; lia). apply wp_bind.
    eapply wp_conseq; [by apply (run_allocator_spec _ _ 1 a (AL := spinlock_laws NDEBUG spin Hsp 0 par a base (entry_size_of es) num))|].
    cbn beta. intros live w2 [Hal2 Hk]. apply wp_bind.
    eapply wp_conseq; [eapply spinlock_free_spec; [lia|done|exact Hal2|eapply vfs_frame; [exact Hv1|exact Hk]]|].
    cbn beta. intros _ w3 Hr3. apply wp_ret. split_and!; auto. eapply (stack_alive_blocks ss_layout Spinlock_stack (lock_is 0 par)), Hal2.
Qed.
Lemma stack_allocator_lifecycle_witness : exists Q1 Q2 : list mem_blk -> world sim -> Prop,
  wp (use_stack true 1 3 64 mallocator_t demo_ops) Q1 never plain_world /\
  wp (use_spinlock_stack true 1 3 64 mallocator_t demo_ops) Q2 never plain_world.
Proof.
  eexists _, _. apply (stack_allocator_lifecycle true 1 3 64 mallocator_t demo_ops other_statics plain_world);
    try done; [apply plain_world_ready|lia].
Defined.

(** ** When the number of bytes does not fit 32 bits *)
Section overflow.
Context {LK : Linker} {H : Type} `{HeapLaws H} (spin : nat).
Implicit Types (w : world H).

(** [n] allocations of [sz] bytes; the last block *)
Fixpoint drain (n : nat) (a sz : Z) (blk : mem_blk) : M (world H) mem_blk :=
  match n with O => mret blk | S n' => blk ← allocate spin 1 a sz; drain n' a sz blk end.

(** a stack allocator that still has the entries below [k] *)
Record holding a base esz num k w : Prop := {
  ho_rep : stk_rep sa_layout (w_mem w) (Stk a base esz num (seqZ 0 k));
  ho_vfs : vfs_at (w_mem w) a Stack
}.

Lemma holding_pop a base esz num k sz w : holding a base esz num k w -> 0 < k <= num -> sz <= esz ->
  wp (allocate spin 1 a sz) (fun b w' => b = MemBlk (base + u32 ((k - 1) * esz)) esz /\
    holding a base esz num (k - 1) w' /\ regions (w_mem w') = regions (w_mem w)) never w.
Proof.
  intros [Hr Hv] Hk Hsz. assert (seqZ 0 k = seqZ 0 (k - 1) ++ [k - 1]) as Hseq.
  { replace k with (Z.of_nat (S (Z.to_nat (k - 1)))) at 1 by lia. rewrite seqZ_S, Z2Nat.id by lia. done. }
  assert (mapped (w_mem w) a 32 = true) as Hm.
  { eapply mapped_sub; [exact (sr_map _ _ _ Hr)|cbn; lia|]. pose proof (sr_num _ _ _ Hr) as Hn. cbn in *. unfold k_len. cbn. lia. }
  eapply wp_eq; [by apply (allocate_call spin Stack)|]. unfold stack_allocator_allocate. rewrite container_of_0 by done.
  pose proof (sr_num _ _ _ Hr) as Hn. cbn in Hn.
  eapply wp_conseq; [apply (stack_pop_raw sa_layout _ sz w Hr); cbn; rewrite length_seqZ; lia|].
  cbn [k_free k_esz k_self k_base set_kfree]. rewrite Hseq, last_snoc, removelast_last, (proj2 (Z.ltb_ge _ _)) by done.
  cbn beta zeta. intros b w' (-> & Hr' & Hw'). split; [done|]. split; [|by rewrite Hw'; cbn; rewrite regions_st].
  split; [exact Hr'|]. eapply vfs_at_ext; [|exact Hv]. intros x Hx. rewrite Hw'. cbn [w_mem set_mem].
  apply rd_st_out. unfold range in Hx. cbn. lia.
Qed.

Lemma drain_spec n a base esz num k sz blk w : holding a base esz num k w -> (0 < n)%nat -> Z.of_nat n <= k <= num -> sz <= esz ->
  wp (drain n a sz blk) (fun b w' => b = MemBlk (base + u32 ((k - Z.of_nat n) * esz)) esz /\
    regions (w_mem w') = regions (w_mem w)) never w.
Proof.
  revert k blk w. induction n as [|n IH]; intros k blk w Hh Hn Hk Hsz; [lia|]. cbn [drain]. apply wp_bind.
  eapply wp_conseq; [apply (holding_pop a base esz num k sz w Hh); lia|]. cbn beta. intros b w1 (Hb & Hh1 & Hr1).
  destruct n as [|n]; [apply wp_ret; split; [|exact Hr1]; by rewrite Hb|].
  eapply wp_conseq; [apply (IH (k - 1) b w1 Hh1); lia|]. cbn beta. intros b' w2 [-> Hr2].
  split; [|by rewrite Hr2]. do 3 f_equal. lia.
Qed.

Lemma wrapped_end num esz : 0 < esz < 2 ^ 32 -> 2 ^ 32 <= num * esz ->
  let storage := u32 (num * esz) in
  storage / esz + 1 <= num /\ storage < u32 ((num - (storage / esz + 1)) * esz) + esz.
Proof.
  intros He Ht storage. pose proof (Z.mod_pos_bound (num * esz) (2 ^ 32) eq_refl) as Hs. fold (u32 (num * esz)) in Hs. fold storage in Hs.
  pose proof (Z.div_mod (num * esz) (2 ^ 32) ltac:(lia)) as Hq. fold (u32 (num * esz)) in Hq. fold storage in Hq.
  pose proof (Z.div_mod storage esz ltac:(lia)) as Hd. pose proof (Z.mod_pos_bound storage esz ltac:(lia)) as Hm.
  set (j := storage / esz) in *. set (c := num * esz / 2 ^ 32) in *.
  assert (0 < c) as Hc by nia. split; [nia|].
  assert (u32 ((num - (j + 1)) * esz) = 2 ^ 32 + storage - (j + 1) * esz) as ->; [|nia].
  unfold u32. symmetry. apply (Z.mod_unique_pos _ _ (c - 1)); nia.
Qed.
End overflow.

(** C26: stack_allocator_new multiplies the number of entries by the entry size
    (2048 for 0) in uint32_t and does not notice a wrap-around. When the product
    does not fit, the storage that the parent is asked for is the product modulo
    2^32, while every entry is on the free stack: after as many allocations (of at
    most the entry size) as fit into the storage the next one hands out a block
    that reaches past its end. Both allocations of the constructor are described
    by the memory that is then mapped; without memory it returns NULL. *)
Theorem stack_allocator_new_overflows {LK : Linker} {H} `{HeapLaws H} spin num es sz par F (w : world H) :
  mallocator_ready par F w -> 0 <= par < 2 ^ 64 -> 0 <= num < 2 ^ 32 -> 0 <= es < 2 ^ 32 -> sz <= entry_size_of es ->
  2 ^ 32 <= num * entry_size_of es ->
  let storage := u32 (num * entry_size_of es) in
  wp (a ← stack_allocator_new spin 1 num es par;
      if a =? NULL then mret None
      else blk ← drain spin (Z.to_nat (storage / entry_size_of es + 1)) a sz NULL_blk; mret (Some (a, blk)))
    (fun r w' => match r with
      | None => mallocator_ready par F w'
      | Some (a, blk) => exists base,
          regions (w_mem w') ≡ₚ (a, sizeof stack_allocator + 4 * num) :: (base, storage) :: regions (w_mem w) /\
          base <= ptr blk /\ size blk = entry_size_of es /\ base + storage < ptr blk + size blk
      end) never w.
Proof.
  intros Hr Hpar Hn Hes Hsz Ht storage. pose proof (entry_size_bound es Hes) as He.
  destruct (wrapped_end num (entry_size_of es) He Ht) as [Hj Hend]. fold storage in Hj, Hend.
  pose proof (Z.mod_pos_bound (num * entry_size_of es) (2 ^ 32) eq_refl) as Hs. fold (u32 (num * entry_size_of es)) in Hs. fold storage in Hs.
  pose proof (Z.div_pos storage (entry_size_of es) ltac:(lia) ltac:(lia)) as Hj0.
  apply wp_bind. eapply wp_conseq; [by apply stack_allocator_new_raw|]. cbn beta.
  intros a w1 [[-> Hr1]|(Ha & base & [Hr1 Hb Hrep Hv _])]; [by apply wp_ret|].
  rewrite (proj2 (Z.eqb_neq _ _)) by (unfold NULL; lia). apply wp_bind.
  eapply wp_conseq; [apply (drain_spec spin _ a base (entry_size_of es) num num); [by split|lia|lia|done]|]. cbn beta.
  intros b w2 [-> Hreg]. apply wp_ret. exists base. cbn [ptr size]. rewrite Z2Nat.id by lia. split_and!;
    [|pose proof (Z.mod_pos_bound ((num - (storage / entry_size_of es + 1)) * entry_size_of es) (2 ^ 32) eq_refl); unfold u32; lia|done|lia].
  rewrite Hreg. destruct Hr as (_ & R & (HR & _) & ->). destruct Hr1 as (_ & R1 & (HR1 & _) & ->). rewrite HR, HR1.
  apply (Permutation_middle [(a, sizeof stack_allocator + 4 * num); (base, storage)]).
Qed.
Lemma stack_allocator_new_overflows_witness : exists Q : option (Z * mem_blk) -> world sim -> Prop,
  wp (a ← stack_allocator_new 1 1 65537 65536 mallocator_t;
      if a =? NULL then mret None
      else blk ← drain 1 (Z.to_nat (65536 / 65536 + 1)) a 64 NULL_blk; mret (Some (a, blk))) Q never plain_world.
Proof.
  eexists. apply (stack_allocator_new_overflows 1 65537 65536 64 mallocator_t other_statics plain_world);
    [apply plain_world_ready|done|done|done|done|done].
Defined.

(** C20: a fallback allocator over a stack allocator and, when that is empty or
    the request too large for its entries, the mallocator: whatever a client
    allocates, writes and frees through it, no call faults or aborts, the blocks
    it holds never overlap, each goes back to the allocator it came from (the
    stack is full and the heap as before once all are freed), and destroying the
    fallback allocator leaves both members usable. *)
Theorem fallback_lifecycle {LK : Linker} {H} `{HeapLaws H} NDEBUG spin par q st base esz num ops F (w : world H) :
  alive (stack_laws_inv q st base esz num) [] ((par, 32) :: F) w -> vfs_at (w_mem w) par Malloc ->
  0 <= par < 2 ^ 64 -> 0 <= st < 2 ^ 64 -> (malloc sizeof_fallback (w_hw w)).1 <> NULL ->
  wp (use_fallback NDEBUG spin 1 st par ops) (fun live w' =>
    sep (blk_region <$> live) /\ Forall (fun b => ptr b <> NULL) live /\
    regions (w_mem w') ≡ₚ regions (w_mem w) /\
    alive (stack_laws_inv q st base esz num) [] ((par, 32) :: F) w' /\ vfs_at (w_mem w') par Malloc) never w.
Proof.
  intros Hal Hv Hpar Hst Hn. destruct (stack_alive_open _ _ _ _ _ _ _ _ _ _ Hal) as (Hm1 & _).
  pose proof Hal as (Hw & R & Hi & Hreg).
  assert (mapped (w_mem w) par 32 = true) as Hm2.
  { apply (mapped_elem _ (par, 32)); cbn; [|lia|lia]. rewrite Hreg. set_solver. }
  assert (malloc_inv par [] [(par, 32)] (w_mem w)) as Hi2 by (split_and!; [done|by apply Forall_nil_2|done]).
  eapply wp_conseq; [apply (use_fallback_spec NDEBUG spin 1 st par (LP := stack_laws NDEBUG spin 0 q st base esz num)
    (LS := malloc_laws NDEBUG spin 0 par) (DP := stack_discriminates NDEBUG spin 0 q st base esz num) ops R [(par, 32)] F);
    [done|exact Hi|exact Hi2|done|done|done|done|done|done]|].
  cbn beta. intros live w' (Hw' & Hsep & Hnn & R1 & R2 & Hi1' & (HR2 & _ & Hv') & Hreg').
  assert (forall R0 m, stack_laws_inv q st base esz num [] R0 m ->
    R0 ≡ₚ [(st, k_sizeof sa_layout + 4 * num); (base, num * esz)]) as HR0.
  { intros R0 m (free & ids & _ & _ & _ & HRR & _). exact HRR. }
  assert (regions (w_mem w') ≡ₚ R1 ++ (par, 32) :: F) as Hreg2 by (by rewrite Hreg', HR2).
  split_and!; try done.
  - rewrite Hreg2, Hreg. by rewrite (HR0 _ _ Hi), (HR0 _ _ Hi1').
  - split; [done|]. by exists R1.
Qed.
Lemma demo_stack_alive : alive (stack_laws_inv mallocator_t 0x10000 0x10080 64 4) []
  ((mallocator_t, 32) :: other_statics) demo_stack.2.
Proof.
  split.
  - split; cbn.
    + repeat first [apply Forall_cons_2|apply Forall_nil_2|split]; unfold disj; cbn; lia.
    + repeat apply Forall_cons_2; cbn; try lia. apply Forall_nil_2.
  - exists [(0x10000, 88); (0x10080, 256)]. split.
    + exists [0; 1; 2; 3], []. cbn zeta. split_and!.
      * by split.
      * by vm_compute.
      * done.
      * done.
      * apply stk_repb_sound. by vm_compute.
      * apply vfs_atb_sound. by vm_compute.
      * by vm_compute.
    + cbn. rewrite (Permutation_swap (0x10080, 256)). do 2 apply perm_skip. apply Permutation_swap.
Qed.
Lemma fallback_lifecycle_witness : exists Q : list mem_blk -> world sim -> Prop,
  wp (use_fallback false 1 1 0x10000 mallocator_t demo_ops) Q never demo_stack.2.
Proof.
  eexists. apply (fallback_lifecycle false 1 mallocator_t mallocator_t 0x10000 0x10080 64 4 demo_ops other_statics demo_stack.2).
  - apply demo_stack_alive.
  - apply vfs_atb_sound. by vm_compute.
  - done.
  - done.
  - done.
Defined.
