(* ===== verification/DmaProps.v ===== *)
(** * Properties of dma_allocator.c and of the allocator example

    A block is accepted exactly when its pages are physically consecutive.  The
    allocator example is run on one machine, as a check of the model. *)
From S2P Require Import Prelude Mem Platform Memory Spinlock Alloc DmaAlloc Vfs AllocLaws Sim AllocSim MemoryProps.

Section dma.
Context {H : Type} `{HostLaws H}.
Implicit Types (w : world H).

Lemma wp_eqn {S A} (c : M S A) (Q : A -> S -> Prop) E s :
  wp c Q E s -> wp c (fun a s' => c s = Ok a s' /\ Q a s') E s.
Proof. unfold wp. by destruct (c s). Qed.

(** the kernel's translations of [n] pages from address [i] on, in sequence *)
Fixpoint pages_phys (n : nat) (i : Z) : M (world H) (list Z) :=
  match n with
  | O => mret []
  | S n' => p ← dma_virt_to_phys i; l ← pages_phys n' (i + 4096); mret (p :: l)
  end.

Definition consecutive (phys : Z) (n : nat) : list Z := map (fun k => phys + 4096 * Z.of_nat k) (seq 0 n).
Lemma consecutive_S phys n : consecutive phys (S n) = phys :: consecutive (phys + 4096) n.
Proof.
  unfold consecutive. cbn [seq map]. f_equal; [lia|]. rewrite <- seq_shift, map_map.
  apply map_ext. intros k. lia.
Qed.

(** [n] pages are left *)
Lemma phys_continuous_from_spec fuel n vb pb vend i w :
  (n < fuel)%nat -> vb <= i -> 0 <= vb -> vend <= 2 ^ 62 -> vend <= i + 4096 * Z.of_nat n < vend + 4096 ->
  0 <= pb < 2 ^ 52 ->
  wp (phys_continuous_from fuel 4096 vb pb vend i) (fun b w' => w_mem w' = w_mem w /\ same_map w w' /\
      if b : bool then pages_phys n i w = Ok (consecutive (pb + (i - vb)) n) w'
      else exists k p, (k < n)%nat /\ p <> pb + (i - vb) + 4096 * Z.of_nat k /\
        pages_phys (S k) i w = Ok (consecutive (pb + (i - vb)) k ++ [p]) w')
    (fun f _ => alloc_failure f) w.
Proof.
  revert n i w. induction fuel as [|fuel IH]; intros n i w Hf Hi Hvb Hv Hn Hpb; [lia|].
  cbn [phys_continuous_from]. destruct (Z.ltb_spec i vend) as [Hlt|Hge].
  2:{ assert (n = 0%nat) as -> by lia. apply wp_ret. done. }
  destruct n as [|n]; [lia|].
  assert (0 <= i < 2 ^ 62) as Hi2 by lia. change (2 ^ 62) with 4611686018427387904 in *.
  change (2 ^ 52) with 4503599627370496 in *.
  apply wp_bind. unfold dma_virt_to_phys at 1.
  eapply wp_conseq; [apply wp_eqn, virt_to_phys_spec; ulia|]. cbn beta.
  intros p w1 (Eq & Hm1 & Hs1 & _). rewrite (u64_small (i - vb)) by ulia. rewrite u64_small by ulia.
  destruct (Z.eqb_spec (pb + (i - vb)) p) as [Hp|Hp]; cbn [negb].
  - rewrite (u64_small (i + 4096)) by ulia.
    eapply wp_conseq; [apply (IH n (i + 4096) w1); lia|]. cbn beta.
    intros b w2 (Hm2 & [Hr2 Hg2] & Hb). destruct Hs1 as [Hr1 Hg1].
    split; [congruence|]. split; [split; congruence|].
    replace (pb + (i + 4096 - vb)) with (pb + (i - vb) + 4096) in Hb by lia. destruct b.
    + cbn [pages_phys]. unfold mbind, M_bind. unfold dma_virt_to_phys at 1. rewrite Eq, Hb.
      rewrite consecutive_S, Hp. done.
    + destruct Hb as (k & q & Hk & Hq & Hpg). exists (S k), q. split; [lia|]. split; [lia|].
      change (pages_phys (S (S k)) i) with (p ← dma_virt_to_phys i; l ← pages_phys (S k) (i + 4096); mret (p :: l)).
      unfold mbind, M_bind. unfold dma_virt_to_phys at 1. rewrite Eq, Hpg. rewrite consecutive_S, Hp. done.
  - apply wp_ret. split; [done|]. split; [done|]. exists 0%nat, p. split; [lia|]. split; [lia|].
    cbn [pages_phys]. unfold mbind, M_bind. unfold dma_virt_to_phys at 1. by rewrite Eq.
Qed.

(** number of pages of a block *)
Definition num_pages (size : Z) : nat := Z.to_nat ((size + 4095) / 4096).

Definition dma_failure (f : failure) : Prop :=
  alloc_failure f \/ f = Abort "memory block does not start at page boundary" \/
  f = Abort "memory block smaller than one page" \/
  f = Abort "memory returned by mmap is not physically continuous, try rebooting to clear fragmentation".

Lemma is_phys_continuous_spec b w :
  0 < ptr b -> ptr b + size b <= 2 ^ 62 -> 0 <= size b ->
  wp (is_phys_continuous b) (fun r w' => w_mem w' = w_mem w /\ same_map w w' /\
      ptr b mod 4096 = 0 /\ 4096 <= size b /\
      exists phys w1 w2, dma_virt_to_phys (ptr b) w1 = Ok phys w2 /\
        if r : bool then pages_phys (num_pages (size b)) (ptr b) w2 = Ok (consecutive phys (num_pages (size b))) w'
        else exists k p, (k < num_pages (size b))%nat /\ p <> phys + 4096 * Z.of_nat k /\
          pages_phys (S k) (ptr b) w2 = Ok (consecutive phys k ++ [p]) w')
    (fun f _ => alloc_failure f \/
      (f = Abort "memory block does not start at page boundary" /\ ptr b mod 4096 <> 0) \/
      (f = Abort "memory block smaller than one page" /\ size b < 4096)) w.
Proof.
  intros Hp Hs Hs0. change (2 ^ 62) with 4611686018427387904 in *. unfold is_phys_continuous.
  apply wp_bind, wp_syscall. intros ps h1 Hps.
  assert (ps = 4096) as -> by (rewrite <- (page_size_4k (w_hw w)), Hps; done).
  destruct (Z.eqb_spec (ptr b mod 4096) 0) as [Hal|Hal]; cbn [negb]; [|apply wp_fail; auto].
  destruct (Z.ltb_spec (size b) 4096) as [Hsm|Hsm]; [apply wp_fail; auto|].
  apply wp_bind. unfold dma_virt_to_phys at 1.
  eapply wp_mono; [apply wp_eqn, virt_to_phys_spec; ulia| |by auto]. cbn beta.
  intros phys w2 (Eq & Hm2 & Hs2 & frame & Hfr & Hphys).
  assert (0 <= phys < 2 ^ 52) as Hph.
  { change (2 ^ 52) with 4503599627370496. change (2 ^ 40) with 1099511627776 in Hfr. lia. }
  pose proof (Z.div_mod (size b + 4095) 4096) as Hd. pose proof (Z.mod_pos_bound (size b + 4095) 4096) as Hm.
  replace (size b + 4096 - 1) with (size b + 4095) by lia. fold (num_pages (size b)).
  assert (Z.of_nat (num_pages (size b)) = (size b + 4095) / 4096) as Hnp by (unfold num_pages; rewrite Z2Nat.id; lia).
  rewrite u64_small by ulia.
  eapply wp_mono; [apply (phys_continuous_from_spec _ (num_pages (size b))); try lia|  |by auto].
  cbn beta. intros r w3 (Hm3 & [Hr3 Hg3] & Hr). destruct Hs2 as [Hr2 Hg2]. cbn in Hm2, Hr2, Hg2.
  split; [congruence|]. split; [split; congruence|]. split; [done|]. split; [done|].
  replace (phys + (ptr b - ptr b)) with phys in Hr by lia. eauto 10.
Qed.

(** touching every 2 MB page of the new mapping *)
Lemma touch_from_spec fuel n vend i w :
  (n < fuel)%nat -> vend = i + 2 ^ 21 * Z.of_nat n -> mapped (w_mem w) i (2 ^ 21 * Z.of_nat n) = true ->
  wp (touch_from fuel vend i) (fun _ w' => same_map w w') never w.
Proof.
  revert n i w. induction fuel as [|fuel IH]; intros n i w Hf Hv Hm; [lia|]. cbn [touch_from].
  destruct (Z.ltb_spec i vend) as [Hlt|Hge]; [|by apply wp_ret].
  destruct n as [|n]; [lia|]. change (Z.shiftl 1 21) with (2 ^ 21). change (2 ^ 21) with 2097152 in *.
  assert (forall m, regions m = regions (w_mem w) -> mapped m i 1 = true) as Hm1.
  { intros m Hr. rewrite (mapped_regions _ (w_mem w)) by done. eapply mapped_sub; [exact Hm|lia|lia]. }
  apply wp_bind, wp_bind, wp_tick. intros w1 Hr1 Hg1 _. apply wp_load; [by apply Hm1|].
  apply wp_bind, wp_bind, wp_tick. intros w2 Hr2 Hg2 _. apply wp_store; [apply Hm1; congruence|].
  eapply wp_conseq; [apply (IH n); [lia|lia|]|].
  - cbn. rewrite mapped_st, (mapped_regions _ (w_mem w)) by congruence. eapply mapped_sub; [exact Hm|lia|lia].
  - cbn beta. intros _ w3 [Hr3 Hg3]. cbn in Hr3, Hg3. rewrite regions_st in Hr3. split; congruence.
Qed.

Lemma dma_allocate_spec a sz w :
  0 < sz <= 2 ^ 61 ->
  wp (dma_allocate a sz) (fun b w' =>
      size b = round_2mb sz /\ regions (w_mem w') = (ptr b, size b) :: regions (w_mem w) /\
      ptr b mod 4096 = 0 /\ huge_pg_id w' = u32 (huge_pg_id w + 1) /\
      exists phys w1 w2, dma_virt_to_phys (ptr b) w1 = Ok phys w2 /\
        pages_phys (num_pages (size b)) (ptr b) w2 = Ok (consecutive phys (num_pages (size b))) w')
    (fun f _ => dma_failure f) w.
Proof.
  intros Hs. change (2 ^ 61) with 2305843009213693952 in Hs.
  destruct (round_2mb_bounds sz) as [[m Hdiv] Hr]; [ulia|]. change (2 ^ 21) with 2097152 in *.
  assert (forall n, dma_failure (Exit n)) as Hexit by (left; left; eauto).
  unfold dma_allocate. apply wp_bind, wp_gets, wp_bind, wp_modify, wp_bind, wp_syscall.
  intros pid h1 _. apply wp_bind, wp_check_syscall; [auto|]. intros fd h2 _ _.
  apply wp_bind, wp_check_syscall; [auto|]. intros r3 h3 _ _.
  apply wp_bind, wp_bind, wp_check_syscall; [auto|]. intros p h4 Hmm Hp.
  pose proof (mmap_area (round_2mb sz) PROT_RW (Z.lor MAP_SHARED MAP_HUGETLB) fd 0 h3) as Ha.
  cbn in Hmm. rewrite Hmm in Ha. cbn in Ha. destruct Ha as [|[Hlo Hhi]]; [done|].
  change (2 ^ 47) with 140737488355328 in Hhi.
  apply wp_bind, wp_modify, wp_ret, wp_bind, wp_check_syscall; [auto|]. intros r5 h5 _ _.
  apply wp_bind, wp_syscall. intros r6 h6 _. apply wp_bind, wp_syscall. intros r7 h7 _.
  set (w7 := set_hw h7 _).
  assert (regions (w_mem w7) = (p, round_2mb sz) :: regions (w_mem w)) as Hr7 by done.
  assert (huge_pg_id w7 = u32 (huge_pg_id w + 1)) as Hg7 by done. clearbody w7.
  apply wp_bind. rewrite Z.shiftr_div_pow2 by done. change (2 ^ 21) with 2097152.
  assert (round_2mb sz / 2097152 = m) as Hm by (rewrite Hdiv; by apply Z.div_mul).
  eapply wp_mono; [apply (touch_from_spec _ (Z.to_nat m))| |intros ? ? []].
  { rewrite Hm. lia. }
  { change (2 ^ 21) with 2097152. lia. }
  { eapply mapped_head; [exact Hr7|]. change (2 ^ 21) with 2097152. lia. }
  cbn beta. intros _ w8 [Hr8 Hg8]. apply wp_bind.
  eapply wp_mono; [apply is_phys_continuous_spec; cbn; try (change (2 ^ 62) with 4611686018427387904); lia| |].
  - cbn beta. cbn [ptr size]. intros b w9 (_ & [Hr9 Hg9] & Hal & _ & phys & w1 & w2 & Eq & Hb). destruct b.
    + apply wp_ret. cbn [ptr size]. split_and!; [done|congruence|done|congruence|eauto 6].
    + apply wp_fail. unfold dma_failure. auto.
  - cbn beta. intros f _ [Hf|[[-> _]|[-> _]]]; unfold dma_failure; auto.
Qed.
End dma.

(** C19: dma_allocator's allocate rounds the request up to whole 2 MB pages and
    returns exactly that mapping, page aligned; it has then asked the kernel for
    the physical address of the block and of each of its 4 KB pages, in this
    order, and the answers were consecutive.  It never loops forever; it ends
    early only by exit(errno) of a checked call or by one of its four aborts. *)
Theorem dma_allocate_contiguous {H} `{HostLaws H} a sz (w : world H) :
  0 < sz <= 2 ^ 61 ->
  wp (dma_allocate a sz) (fun b w' =>
      size b = round_2mb sz /\ sz <= size b < sz + 2 ^ 21 /\ mapped (w_mem w') (ptr b) (size b) = true /\
      ptr b mod 4096 = 0 /\ huge_pg_id w' = u32 (huge_pg_id w + 1) /\
      exists phys w1 w2, dma_virt_to_phys (ptr b) w1 = Ok phys w2 /\
        pages_phys (num_pages (size b)) (ptr b) w2 = Ok (consecutive phys (num_pages (size b))) w')
    (fun f _ => dma_failure f) w.
Proof.
  intros Hs. eapply wp_conseq; [by apply dma_allocate_spec|]. cbn beta.
  intros b w' (Hsz & Hreg & Hal & Hg & Hph). split_and!; try done.
  - rewrite Hsz. change (2 ^ 61) with 2305843009213693952 in Hs. apply round_2mb_bounds. ulia.
  - rewrite Hsz. change (2 ^ 61) with 2305843009213693952 in Hs. apply round_2mb_bounds. ulia.
  - eapply mapped_head; [exact Hreg|lia].
Qed.
Lemma dma_allocate_contiguous_witness : exists (Q : mem_blk -> world sim -> Prop) E,
  wp (dma_allocate dma_allocator_t 4096) Q E alloc_world /\
  (exists w', dma_allocate dma_allocator_t 4096 alloc_world = Ok (MemBlk 0x10000000000 (2 ^ 21)) w').
Proof.
  eexists _, _. split; [apply (dma_allocate_contiguous dma_allocator_t 4096 alloc_world); by vm_compute|].
  eexists. by vm_compute.
Defined.

(** C36: is_phys_continuous is right about every block of addresses between 1 and
    2^62, on a kernel with pages of 4 KB: it answers true exactly when the
    kernel's translations of all its pages are consecutive from the translation of
    its address, and false at the first page that breaks the sequence, without
    asking about later ones. It aborts exactly for a block that is not page
    aligned or smaller than a page, besides failing translations. *)
Theorem is_phys_continuous_decides {H} `{HostLaws H} b (w : world H) :
  0 < ptr b -> ptr b + size b <= 2 ^ 62 -> 0 <= size b ->
  wp (is_phys_continuous b) (fun r w' => w_mem w' = w_mem w /\
      ptr b mod 4096 = 0 /\ 4096 <= size b /\
      exists phys w1 w2, dma_virt_to_phys (ptr b) w1 = Ok phys w2 /\
        if r : bool then pages_phys (num_pages (size b)) (ptr b) w2 = Ok (consecutive phys (num_pages (size b))) w'
        else exists k p, (k < num_pages (size b))%nat /\ p <> phys + 4096 * Z.of_nat k /\
          pages_phys (S k) (ptr b) w2 = Ok (consecutive phys k ++ [p]) w')
    (fun f _ => alloc_failure f \/
      (f = Abort "memory block does not start at page boundary" /\ ptr b mod 4096 <> 0) \/
      (f = Abort "memory block smaller than one page" /\ size b < 4096)) w.
Proof.
  intros Hp Hs H0s. eapply wp_conseq; [by apply is_phys_continuous_spec|]. cbn beta.
  intros r w' (Hm & _ & Hrest). done.
Qed.
Lemma is_phys_continuous_decides_witness : exists (Q : bool -> world sim -> Prop) E,
  let w := World (Mem ∅ []) (Sim [] [] ∅ [] [] [(8, 0x8000000000000011); (8, 0x8000000000000011); (8, 0x8000000000000013)] 1) 0 in
  wp (is_phys_continuous (MemBlk 0x20000 0x3000)) Q E w /\
  (exists w', is_phys_continuous (MemBlk 0x20000 0x3000) w = Ok false w').
Proof.
  eexists _, _. cbn zeta. split; [apply (is_phys_continuous_decides (MemBlk 0x20000 0x3000)); by vm_compute|].
  eexists. by vm_compute.
Defined.

Definition example_ends : bool :=
  match allocator_example_main false 1 2 alloc_world with
  | Ok _ w' => bool_decide (regions (w_mem w') = regions statics)
  | _ => false
  end.
Lemma example_ends_true : example_ends = true.
Proof. by vm_compute. Qed.

(** The allocator example runs to its end on a machine whose heap and huge
    pages suffice: none of its checks fails, and at the end only the three static allocator objects are mapped, so everything it
    allocated was given back. *)
Example allocator_example_runs :
  exists w', allocator_example_main false 1 2 alloc_world = Ok tt w' /\ regions (w_mem w') = regions statics.
Proof.
  pose proof example_ends_true as He. unfold example_ends in He.
  destruct (allocator_example_main false 1 2 alloc_world) as [[] w'|f w'|]; [|done|done].
  exists w'. split; [done|]. by apply bool_decide_eq_true in He.
Qed.
