(* ===== verification/SpinThreads.v ===== *)
(** * Threads on one spinlock stack allocator

    Any number of threads run allocate and deallocate of
    spinlock_stack_allocator.c on the same allocator, and write into the blocks
    they hold.  A state is the shared memory and the threads, a thread its
    program counter inside the two functions, the operations it has still to
    do and the blocks it holds.  One step of one thread makes one access to a
    word that some thread writes: the lock (test-and-set, the read of the inner
    spin loop, the release), the stack height, a slot of the stack, a client
    byte.  Fields that nobody writes (entry_size, base_addr, num_entries) are
    read together with the access that follows.  A schedule is the list of the
    threads that take the next step, in an interleaving semantics; a step that
    faults or aborts ends the run with [None]. *)
From S2P Require Import Prelude Mem Platform Memory Spinlock Alloc StackSpec.

(** what a thread does once it has the lock *)
Inductive locked_op := L_alloc (sz : Z) | L_dealloc (id : Z).
Inductive pc :=
  | Idle
  | At_lock (k : locked_op)              (* about to test-and-set *)
  | Spin (k : locked_op)                 (* while (sl->locked) *)
  | A_test (sz : Z)                      (* if (top == 0 || size > entry_size) *)
  | A_dec                                (* --top: the read *)
  | A_store (t : Z)                      (* --top: the write *)
  | A_slot (t : Z)                       (* entry_id = free_stack[t] *)
  | A_ret (b : mem_blk)                  (* unlock and return *)
  | D_top (id : Z)                       (* top++: the read *)
  | D_store (id t : Z)                   (* top++: the write *)
  | D_slot (id t : Z)                    (* free_stack[t] = id *)
  | D_ret.                               (* unlock and return *)
Inductive thread_op := T_alloc (sz : Z) | T_free (k : nat) | T_write (k : nat) (off v : Z).
Record thread := Thread { t_pc : pc; t_ops : list thread_op; t_held : list mem_blk }.
Record tstate := TState { t_mem : mem; t_threads : list thread }.

Section code.
Local Abbreviation L := ss_layout.
Variable self : Z.

Definition rdm (n : nat) (m : mem) (a : Z) : option Z :=
  if mapped m a (Z.of_nat n) then Some (ld n m a) else None.
Definition wrm (n : nat) (a v : Z) (m : mem) : option mem :=
  if mapped m a (Z.of_nat n) then Some (st n a v m) else None.

Definition enter (k : locked_op) : pc :=
  match k with L_alloc sz => A_test sz | L_dealloc id => D_top id end.

(** the checks of deallocate, before it takes the lock; [None] is abort() *)
Definition checked_id (m : mem) (b : mem_blk) : option Z :=
  entry_size ← rdm 4 m (self + k_entry_size L);
  if negb (entry_size =? size b) then None else
  base_addr ← rdm 8 m (self + k_base_addr L);
  num_entries ← rdm 4 m (self + k_num_entries L);
  let id := Z.quot (i64 (ptr b - base_addr)) entry_size in
  if (num_entries <? id) || (id <? 0) then None else Some id.

(** beginning of the next operation *)
Definition start_op (m : mem) (ops : list thread_op) (held : list mem_blk) : option (mem * thread) :=
  match ops with
  | [] => Some (m, Thread Idle [] held)
  | T_alloc sz :: ops' => Some (m, Thread (At_lock (L_alloc sz)) ops' held)
  | T_free k :: ops' =>
      match held !! k with
      | Some b => id ← checked_id m b; Some (m, Thread (At_lock (L_dealloc id)) ops' (delete k held))
      | None => Some (m, Thread Idle ops' held)
      end
  | T_write k off v :: ops' =>
      match held !! k with
      | Some b =>
          m' ← (if (0 <=? off) && (off <? size b) then wrm 1 (ptr b + off) v m else Some m);
          Some (m', Thread Idle ops' held)
      | None => Some (m, Thread Idle ops' held)
      end
  end.

Definition tstep (m : mem) (t : thread) : option (mem * thread) :=
  let goto m p := Some (m, Thread p (t_ops t) (t_held t)) in
  match t_pc t with
  | Idle => start_op m (t_ops t) (t_held t)
  | At_lock k =>
      old ← rdm 4 m (self + ss_lock);
      m' ← wrm 4 (self + ss_lock) 1 m;
      goto m' (if old =? 0 then enter k else Spin k)
  | Spin k => l ← rdm 4 m (self + ss_lock); goto m (if l =? 0 then At_lock k else Spin k)
  | A_test sz =>
      top ← rdm 4 m (self + k_free_stack_top L);
      entry_size ← rdm 4 m (self + k_entry_size L);
      goto m (if (top =? 0) || (entry_size <? sz) then A_ret (MemBlk NULL 0) else A_dec)
  | A_dec => top ← rdm 4 m (self + k_free_stack_top L); goto m (A_store (u32 (top - 1)))
  | A_store top' => m' ← wrm 4 (self + k_free_stack_top L) top' m; goto m' (A_slot top')
  | A_slot top' =>
      entry_id ← rdm 4 m (self + k_free_stack L + 4 * top');
      base_addr ← rdm 8 m (self + k_base_addr L);
      entry_size ← rdm 4 m (self + k_entry_size L);
      goto m (A_ret (MemBlk (base_addr + u32 (entry_id * entry_size)) entry_size))
  | A_ret b =>
      m' ← wrm 4 (self + ss_lock) 0 m;
      Some (m', Thread Idle (t_ops t) (if ptr b =? NULL then t_held t else b :: t_held t))
  | D_top id => top ← rdm 4 m (self + k_free_stack_top L); goto m (D_store id top)
  | D_store id top => m' ← wrm 4 (self + k_free_stack_top L) (u32 (top + 1)) m; goto m' (D_slot id top)
  | D_slot id top => m' ← wrm 4 (self + k_free_stack L + 4 * top) (u32 id) m; goto m' D_ret
  | D_ret => m' ← wrm 4 (self + ss_lock) 0 m; goto m' Idle
  end.

Definition step_thread (i : nat) (s : tstate) : option tstate :=
  match t_threads s !! i with
  | Some t => '(m, t') ← tstep (t_mem s) t; Some (TState m (<[i := t']> (t_threads s)))
  | None => Some s
  end.
Fixpoint run_schedule (sched : list nat) (s : tstate) : option tstate :=
  match sched with
  | [] => Some s
  | i :: sched' => s' ← step_thread i s; run_schedule sched' s'
  end.
End code.

(** between taking and releasing the lock *)
Definition critical (p : pc) : bool :=
  match p with Idle | At_lock _ | Spin _ => false | _ => true end.

(** ** The invariant *)
Section inv.
Context (S0 : stk).
Local Abbreviation L := ss_layout.
Local Abbreviation self := (k_self S0).
Local Abbreviation lock := (self + ss_lock).
Local Abbreviation slot n := (self + k_free_stack L + 4 * n).
Implicit Types (m : mem) (free : list Z).

(** entries on their way between the stack and a client *)
Definition flight m free (p : pc) (f : list Z) : Prop :=
  match p with
  | At_lock (L_dealloc id) | Spin (L_dealloc id) | D_top id => f = [id]
  | D_store id t => f = [id] /\ t = Z.of_nat (length free)
  | A_dec => f = [] /\ free <> []
  | A_store t => f = [] /\ free <> [] /\ t = Z.of_nat (length free) - 1
  | A_slot t => t = Z.of_nat (length free) /\ f = [ld 4 m (slot t)]
  | A_ret b => (ptr b = NULL /\ f = []) \/ exists i, f = [i] /\ b = k_entry S0 i
  | D_slot id t => f = [] /\ exists l, free = l ++ [id] /\ t = Z.of_nat (length l)
  | _ => f = []
  end.

(** the stack in memory, while the thread at [p] has the lock *)
Definition stack_at m free (p : pc) : Prop :=
  match p with
  | D_slot id t => stk_rep L (st 4 (slot t) id m) (set_kfree free S0)
  | _ => stk_rep L m (set_kfree free S0)
  end.

(** [g] are the entries thread [t] holds or has in flight *)
Definition owns_entries m free (t : thread) (g : list Z) : Prop :=
  exists ids f, t_held t = k_entry S0 <$> ids /\ flight m free (t_pc t) f /\ g = ids ++ f.

Definition holder_is (ts : list thread) (c : option nat) : Prop :=
  forall i t, ts !! i = Some t -> critical (t_pc t) = true <-> c = Some i.

Record tinv (s : tstate) : Prop := {
  ti_params : stk_params S0;
  ti_disj : disj self (k_len L S0) (k_base S0) (k_num S0 * k_esz S0);
  ti_map : mapped (t_mem s) (k_base S0) (k_num S0 * k_esz S0) = true;
  ti_state : exists c free gs,
    holder_is (t_threads s) c /\
    ld 4 (t_mem s) lock = (if c is Some _ then 1 else 0) /\
    match c with
    | Some i => exists t, t_threads s !! i = Some t /\ stack_at (t_mem s) free (t_pc t)
    | None => stk_rep L (t_mem s) (set_kfree free S0)
    end /\
    Forall2 (owns_entries (t_mem s) free) (t_threads s) gs /\
    concat gs ++ free ≡ₚ seqZ 0 (k_num S0)
}.
End inv.

(** ** Preservation *)
Lemma concat_insert {A} (gs : list (list A)) i g g' : gs !! i = Some g ->
  exists rest, concat gs ≡ₚ g ++ rest /\ concat (<[i := g']> gs) ≡ₚ g' ++ rest.
Proof.
  intros Hi. exists (concat (take i gs ++ drop (S i) gs)). split.
  - rewrite <- (take_drop_middle gs i g Hi) at 1. rewrite !concat_app. cbn. by rewrite Permutation_app_swap_app.
  - rewrite insert_take_drop by (by eapply lookup_lt_Some). rewrite !concat_app. cbn.
    by rewrite Permutation_app_swap_app.
Qed.

Section preservation.
Context (S0 : stk).
Local Abbreviation L := ss_layout.
Local Abbreviation self := (k_self S0).
Local Abbreviation lock := (self + ss_lock).
Implicit Types (m : mem) (free : list Z) (t : thread).

Lemma flight_frame m m' free free' p f :
  0 <= k_num S0 -> Z.of_nat (length free) <= k_num S0 ->
  (critical p = true -> free' = free /\ forall x, stk_fp L S0 x -> rd m' x = rd m x) ->
  flight S0 m free p f -> flight S0 m' free' p f.
Proof.
  intros Hn Hl Hc. destruct p; cbn in *; try (destruct Hc as [-> Hrd]; [done|]); try done.
  intros [Ht ->]. split; [done|]. f_equal. symmetry. apply ld_ext. intros x Hx. apply Hrd.
  unfold stk_fp, range, k_len. cbn in *. lia.
Qed.

Lemma owns_frame m m' free free' t g :
  0 <= k_num S0 -> Z.of_nat (length free) <= k_num S0 ->
  (critical (t_pc t) = true -> free' = free /\ forall x, stk_fp L S0 x -> rd m' x = rd m x) ->
  owns_entries S0 m free t g -> owns_entries S0 m' free' t g.
Proof. intros Hn Hl Hc (ids & f & Hh & Hf & ->). exists ids, f. split_and!; try done. by eapply flight_frame. Qed.

(** the step of one thread, as the invariant sees it *)
Lemma tinv_update s i t t' m' c free gs g c' free' g' :
  tinv S0 s -> holder_is (t_threads s) c ->
  Forall2 (owns_entries S0 (t_mem s) free) (t_threads s) gs ->
  concat gs ++ free ≡ₚ seqZ 0 (k_num S0) ->
  t_threads s !! i = Some t -> gs !! i = Some g ->
  regions m' = regions (t_mem s) ->
  (c <> Some i -> c <> None -> free' = free /\ forall x, stk_fp L S0 x -> rd m' x = rd (t_mem s) x) ->
  owns_entries S0 m' free' t' g' -> g' ++ free' ≡ₚ g ++ free ->
  (critical (t_pc t') = true <-> c' = Some i) -> (forall j, j <> i -> c' = Some j <-> c = Some j) ->
  ld 4 m' lock = (if c' is Some _ then 1 else 0) ->
  match c' with
  | Some j => exists tj, <[i := t']> (t_threads s) !! j = Some tj /\ stack_at S0 m' free' (t_pc tj)
  | None => stk_rep L m' (set_kfree free' S0)
  end ->
  tinv S0 (TState m' (<[i := t']> (t_threads s))).
Proof.
  intros [Hp Hd Hm _] Hh Hall Hperm Hi Hg Hreg Hfr Hown Hp' Hc Hcj Hlk Hst.
  split; cbn; [done|done|by rewrite (mapped_regions _ (t_mem s))|].
  assert (Z.of_nat (length free) <= k_num S0) as Hlen.
  { apply Permutation_length in Hperm. rewrite length_app, length_seqZ in Hperm. pose proof (sp_num _ Hp). lia. }
  exists c', free', (<[i := g']> gs). split_and!.
  - intros j tj Hj. destruct (decide (j = i)) as [->|Hne].
    + rewrite list_lookup_insert_eq in Hj by (by eapply lookup_lt_Some). by injection Hj as <-.
    + rewrite list_lookup_insert_ne in Hj by done. rewrite (Hh j tj Hj). by rewrite Hcj.
  - done.
  - done.
  - apply Forall2_same_length_lookup. split.
    { rewrite !length_insert. by eapply Forall2_length. }
    intros j tj gj Hj Hgj. destruct (decide (j = i)) as [->|Hne].
    + rewrite list_lookup_insert_eq in Hj by (by eapply lookup_lt_Some).
      rewrite list_lookup_insert_eq in Hgj by (by eapply lookup_lt_Some).
      injection Hj as <-. by injection Hgj as <-.
    + rewrite list_lookup_insert_ne in Hj by done. rewrite list_lookup_insert_ne in Hgj by done.
      eapply owns_frame; [apply Hp|exact Hlen| |].
      * intros Hcr. pose proof (proj1 (Hh j tj Hj) Hcr) as Hcc. apply Hfr; congruence.
      * eapply Forall2_lookup_lr; [exact Hall|exact Hj|exact Hgj].
  - destruct (concat_insert gs i g g' Hg) as (rest & H1 & H2). rewrite H2, <- Hperm, H1.
    rewrite <- !app_assoc, (Permutation_app_comm rest), (Permutation_app_comm rest), !app_assoc. by rewrite Hp'.
Qed.

(** *** What every step may read *)
Record fields_ok m : Prop := {
  fo_map : mapped m self (k_len L S0) = true;
  fo_base : ld 8 m (self + k_base_addr L) = k_base S0;
  fo_esz : ld 4 m (self + k_entry_size L) = k_esz S0;
  fo_num : ld 4 m (self + k_num_entries L) = k_num S0;
  fo_bound : 0 <= k_num S0 < 2 ^ 32 /\ 0 < k_esz S0 < 2 ^ 32
}.
Lemma rep_fields m free : stk_rep L m (set_kfree free S0) -> fields_ok m.
Proof. intros []. by split. Qed.

Lemma slot_fields m free id n : 0 <= n -> stk_rep L (st 4 (self + k_free_stack L + 4 * n) id m) (set_kfree free S0) ->
  fields_ok m.
Proof.
  intros Hn Hr. pose proof (rep_fields _ _ Hr) as [Hm Hb He Hnu Hbd]. rewrite mapped_st in Hm.
  rewrite ld_st_out in Hb, He, Hnu by (cbn; lia). done.
Qed.

Lemma fields_rdm m n o : fields_ok m -> 0 <= o -> o + Z.of_nat n <= k_len L S0 ->
  rdm n m (self + o) = Some (ld n m (self + o)).
Proof. intros [Hm _ _ _ _] ? ?. unfold rdm. by rewrite (mapped_sub _ self (k_len L S0)) by (done || lia). Qed.
Lemma fields_wrm m n o v : fields_ok m -> 0 <= o -> o + Z.of_nat n <= k_len L S0 ->
  wrm n (self + o) v m = Some (st n (self + o) v m).
Proof. intros [Hm _ _ _ _] ? ?. unfold wrm. by rewrite (mapped_sub _ self (k_len L S0)) by (done || lia). Qed.

Lemma stack_at_fields m free p f : stack_at S0 m free p -> flight S0 m free p f -> fields_ok m.
Proof.
  intros Hst Hf. destruct p; cbn in Hst; try by eapply rep_fields.
  destruct Hf as (_ & l & _ & ->). eapply slot_fields; [|exact Hst]. lia.
Qed.

(** changes outside the stack's bytes *)
Lemma stack_at_frame m m' free p : (forall x, stk_fp L S0 x -> rd m' x = rd m x) -> regions m' = regions m ->
  stack_at S0 m free p -> stack_at S0 m' free p.
Proof.
  intros Hrd Hreg Hst.
  assert (forall n n' (Hn : forall x, stk_fp L S0 x -> rd n' x = rd n x) (Hr : regions n' = regions n),
    stk_rep L n (set_kfree free S0) -> stk_rep L n' (set_kfree free S0)) as Hgo.
  { intros n n' Hn Hr Hrep. eapply stk_rep_frame; [apply _| | |exact Hrep].
    - intros x Hx. symmetry. by apply Hn.
    - rewrite (mapped_regions _ n) by done. apply Hrep. }
  destruct p; cbn in *; try by eapply Hgo.
  eapply Hgo; [| |exact Hst].
  - intros x Hx. rewrite !rd_st. case_decide; [done|by apply Hrd].
  - by rewrite !regions_st.
Qed.

Lemma lock_off_fp v m x : stk_fp L S0 x -> rd (st 4 lock v m) x = rd m x.
Proof. intros Hx. apply rd_st_out. unfold stk_fp, range in Hx. unalloc. cbn in Hx. lia. Qed.

Lemma client_off_fp m b off v i0 x : disj self (k_len L S0) (k_base S0) (k_num S0 * k_esz S0) ->
  0 <= i0 < k_num S0 -> b = k_entry S0 i0 -> 0 <= off < size b -> 0 <= k_esz S0 ->
  range self (k_len L S0) x -> rd (st 1 (ptr b + off) v m) x = rd m x.
Proof.
  intros Hd Hi -> Hoff He Hx. apply rd_st_out. unfold disj, range in *. cbn in *. nia.
Qed.

(** the invariant, opened at thread [i] *)
Lemma tinv_open s i t : tinv S0 s -> t_threads s !! i = Some t ->
  exists c free gs ids f, holder_is (t_threads s) c /\
    ld 4 (t_mem s) lock = (if c is Some _ then 1 else 0) /\
    match c with
    | Some j => exists tj, t_threads s !! j = Some tj /\ stack_at S0 (t_mem s) free (t_pc tj)
    | None => stk_rep L (t_mem s) (set_kfree free S0)
    end /\
    Forall2 (owns_entries S0 (t_mem s) free) (t_threads s) gs /\
    concat gs ++ free ≡ₚ seqZ 0 (k_num S0) /\
    gs !! i = Some (ids ++ f) /\ t_held t = k_entry S0 <$> ids /\ flight S0 (t_mem s) free (t_pc t) f /\
    fields_ok (t_mem s) /\ Forall (fun j => 0 <= j < k_num S0) (ids ++ f ++ free).
Proof.
  intros [Hp Hd Hm (c & free & gs & Hh & Hlk & Hst & Hall & Hperm)] Hi.
  destruct (Forall2_lookup_l _ _ _ _ _ Hall Hi) as (g & Hg & (ids & f & Hheld & Hf & ->)).
  exists c, free, gs, ids, f. split_and!; try done.
  - destruct c as [j|]; [|by eapply rep_fields]. destruct Hst as (tj & Hj & Hst).
    destruct (Forall2_lookup_l _ _ _ _ _ Hall Hj) as (gj & _ & (idsj & fj & _ & Hfj & _)).
    by eapply stack_at_fields.
  - destruct (concat_insert gs i _ [] Hg) as (rest & H1 & _). rewrite H1 in Hperm.
    apply Forall_forall. intros x Hx. assert (x ∈ seqZ 0 (k_num S0)) as Hs.
    { rewrite <- Hperm, !elem_of_app. rewrite !elem_of_app in Hx. tauto. }
    apply elem_of_seqZ in Hs. lia.
Qed.

(** the thread that has the lock sees the stack *)
Lemma holder_stack s i t c free : holder_is (t_threads s) c -> t_threads s !! i = Some t ->
  critical (t_pc t) = true ->
  match c with
  | Some j => exists tj, t_threads s !! j = Some tj /\ stack_at S0 (t_mem s) free (t_pc tj)
  | None => stk_rep L (t_mem s) (set_kfree free S0)
  end -> c = Some i /\ stack_at S0 (t_mem s) free (t_pc t).
Proof.
  intros Hh Hi Hcr Hst. apply (Hh i t Hi) in Hcr as ->. split; [done|].
  destruct Hst as (tj & Hj & Hst). congruence.
Qed.

(** *** The steps *)
Definition steps_to s i t : Prop :=
  exists m' t', tstep self (t_mem s) t = Some (m', t') /\ tinv S0 (TState m' (<[i := t']> (t_threads s))).

(** a step that changes no entry's place and leaves the stack's bytes alone *)
Lemma steps_quiet s i t c free gs ids f m' t' c' :
  tinv S0 s -> t_threads s !! i = Some t ->
  holder_is (t_threads s) c ->
  match c with
  | Some j => exists tj, t_threads s !! j = Some tj /\ stack_at S0 (t_mem s) free (t_pc tj)
  | None => stk_rep L (t_mem s) (set_kfree free S0)
  end ->
  Forall2 (owns_entries S0 (t_mem s) free) (t_threads s) gs -> concat gs ++ free ≡ₚ seqZ 0 (k_num S0) ->
  gs !! i = Some (ids ++ f) ->
  tstep self (t_mem s) t = Some (m', t') -> critical (t_pc t) = false ->
  (forall x, stk_fp L S0 x -> rd m' x = rd (t_mem s) x) -> regions m' = regions (t_mem s) ->
  ld 4 m' lock = (if c' is Some _ then 1 else 0) ->
  (c' = c /\ critical (t_pc t') = false \/
   c = None /\ c' = Some i /\ critical (t_pc t') = true /\ (stk_rep L m' (set_kfree free S0) -> stack_at S0 m' free (t_pc t'))) ->
  (exists ids' f', t_held t' = k_entry S0 <$> ids' /\ flight S0 m' free (t_pc t') f' /\ ids' ++ f' ≡ₚ ids ++ f) ->
  steps_to s i t.
Proof.
  intros Hinv Hi Hh Hst Hall Hperm Hg Hstep Hncr Hrd Hreg Hlk Hc (ids' & f' & Hheld & Hf & Hp).
  exists m', t'. split; [done|].
  assert (c <> Some i) as Hci. { intros ->. pose proof (proj2 (Hh i t Hi) eq_refl). congruence. }
  eapply (tinv_update s i t t' m' c free gs (ids ++ f) c' free (ids' ++ f')); try done.
  - by exists ids', f'.
  - by rewrite Hp.
  - destruct Hc as [[-> Hcr]|(-> & -> & Hcr & _)]; rewrite Hcr; [|done]. by split.
  - intros j Hj. destruct Hc as [[-> _]|(-> & -> & _)]; [done|]. split; congruence.
  - destruct Hc as [[-> _]|(-> & -> & _ & Hat)].
    + destruct c as [j|].
      * destruct Hst as (tj & Hj & Hsj). exists tj. rewrite list_lookup_insert_ne by congruence.
        split; [done|]. by eapply stack_at_frame.
      * by apply (stack_at_frame (t_mem s) m' free Idle).
    + exists t'. rewrite list_lookup_insert_eq by (by eapply lookup_lt_Some). split; [done|].
      apply Hat. by apply (stack_at_frame (t_mem s) m' free Idle).
Qed.

(** a step of the thread that has the lock *)
Lemma steps_holder s i t free gs ids f m' t' free' :
  tinv S0 s -> t_threads s !! i = Some t -> holder_is (t_threads s) (Some i) ->
  Forall2 (owns_entries S0 (t_mem s) free) (t_threads s) gs -> concat gs ++ free ≡ₚ seqZ 0 (k_num S0) ->
  gs !! i = Some (ids ++ f) ->
  tstep self (t_mem s) t = Some (m', t') -> regions m' = regions (t_mem s) ->
  (if critical (t_pc t') then ld 4 m' lock = 1 /\ stack_at S0 m' free' (t_pc t')
   else ld 4 m' lock = 0 /\ stk_rep L m' (set_kfree free' S0)) ->
  (exists ids' f', t_held t' = k_entry S0 <$> ids' /\ flight S0 m' free' (t_pc t') f' /\
     ids' ++ f' ++ free' ≡ₚ ids ++ f ++ free) ->
  steps_to s i t.
Proof.
  intros Hinv Hi Hh Hall Hperm Hg Hstep Hreg Hst (ids' & f' & Hheld & Hf & Hp).
  exists m', t'. split; [done|].
  eapply (tinv_update s i t t' m' (Some i) free gs (ids ++ f) (if critical (t_pc t') then Some i else None)
    free' (ids' ++ f')); try done.
  - by exists ids', f'.
  - by rewrite <- !app_assoc.
  - by destruct (critical (t_pc t')).
  - intros j Hj. destruct (critical (t_pc t')); [done|]. split; congruence.
  - destruct (critical (t_pc t')); apply Hst.
  - destruct (critical (t_pc t')); [|apply Hst]. exists t'.
    rewrite list_lookup_insert_eq by (by eapply lookup_lt_Some). split; [done|apply Hst].
Qed.

Ltac field := unfold k_len; unalloc; cbn; lia.

Lemma step_lock s i t k : tinv S0 s -> t_threads s !! i = Some t -> t_pc t = At_lock k -> steps_to s i t.
Proof.
  intros Hinv Hi Hpc. destruct (tinv_open s i t Hinv Hi)
    as (c & free & gs & ids & f & Hh & Hlk & Hst & Hall & Hperm & Hg & Hheld & Hf & Hfo & _).
  pose proof (sp_num _ (ti_params _ _ Hinv)) as Hn.
  eapply (steps_quiet s i t c free gs ids f (st 4 lock 1 (t_mem s))
    (Thread (if c is Some _ then Spin k else enter k) (t_ops t) (t_held t)) (if c is Some j then Some j else Some i));
    try done.
  - unfold tstep. rewrite Hpc. rewrite fields_rdm by (done || field). cbn [mbind option_bind].
    rewrite fields_wrm by (done || field). cbn [mbind option_bind]. rewrite Hlk. by destruct c.
  - by rewrite Hpc.
  - intros x Hx. by apply lock_off_fp.
  - rewrite ld_st_eq. by destruct c.
  - destruct c; [by left|right]. split_and!; [done|done|by destruct k|by destruct k].
  - exists ids, f. split; [done|]. split; [|done]. rewrite Hpc in Hf. by destruct c, k.
Qed.

Lemma step_spin s i t k : tinv S0 s -> t_threads s !! i = Some t -> t_pc t = Spin k -> steps_to s i t.
Proof.
  intros Hinv Hi Hpc. destruct (tinv_open s i t Hinv Hi)
    as (c & free & gs & ids & f & Hh & Hlk & Hst & Hall & Hperm & Hg & Hheld & Hf & Hfo & _).
  pose proof (sp_num _ (ti_params _ _ Hinv)) as Hn.
  eapply (steps_quiet s i t c free gs ids f (t_mem s)
    (Thread (if c is Some _ then Spin k else At_lock k) (t_ops t) (t_held t)) c); try done.
  - unfold tstep. rewrite Hpc. rewrite fields_rdm by (done || field). cbn [mbind option_bind].
    rewrite Hlk. by destruct c.
  - by rewrite Hpc.
  - left. split; [done|]. by destruct c.
  - exists ids, f. split; [done|]. split; [|done]. rewrite Hpc in Hf. by destruct c, k.
Qed.

Lemma checked_id_ok m i0 : stk_params S0 -> fields_ok m -> 0 <= i0 < k_num S0 ->
  checked_id self m (k_entry S0 i0) = Some i0.
Proof.
  intros [Hn He Ht Hb] Hfo Hi. unfold checked_id.
  rewrite (fields_rdm m 4 (k_entry_size L)) by (done || field).
  rewrite (fields_rdm m 8 (k_base_addr L)) by (done || field).
  rewrite (fields_rdm m 4 (k_num_entries L)) by (done || field).
  cbn [mbind option_bind]. rewrite (fo_esz _ Hfo), (fo_base _ Hfo), (fo_num _ Hfo). cbn [size k_entry].
  rewrite Z.eqb_refl. cbn [negb].
  cbn [ptr k_entry].
  assert (i64 (k_base S0 + i0 * k_esz S0 - k_base S0) = i0 * k_esz S0) as ->.
  { unfold i64. replace (k_base S0 + i0 * k_esz S0 - k_base S0) with (i0 * k_esz S0) by lia.
    assert (0 <= i0 * k_esz S0 < 2 ^ 32) as Hx by nia.
    rewrite u64_small by ulia. rewrite (proj2 (Z.ltb_lt _ _)) by (change (2 ^ 63) with 9223372036854775808; ulia). done. }
  rewrite Z.quot_mul by lia. rewrite (proj2 (Z.ltb_ge _ _)) by lia. by rewrite (proj2 (Z.ltb_ge _ _)) by lia.
Qed.

Lemma step_start s i t : tinv S0 s -> t_threads s !! i = Some t -> t_pc t = Idle -> steps_to s i t.
Proof.
  intros Hinv Hi Hpc. destruct (tinv_open s i t Hinv Hi)
    as (c & free & gs & ids & f & Hh & Hlk & Hst & Hall & Hperm & Hg & Hheld & Hf & Hfo & Hbd).
  pose proof Hinv as [Hp Hd Hm _]. assert (f = []) as -> by (by rewrite Hpc in Hf).
  assert (forall m' t', tstep self (t_mem s) t = Some (m', t') -> critical (t_pc t') = false ->
    (forall x, range self (k_len L S0) x -> rd m' x = rd (t_mem s) x) -> regions m' = regions (t_mem s) ->
    (exists ids' f', t_held t' = k_entry S0 <$> ids' /\ flight S0 m' free (t_pc t') f' /\ ids' ++ f' ≡ₚ ids) ->
    steps_to s i t) as Hgo.
  { intros m' t' Hs Hcr Hrd Hreg (ids' & f' & ? & ? & ?).
    assert (0 <= k_num S0) as Hn by apply Hp.
    eapply (steps_quiet s i t c free gs ids [] m' t' c); try done.
    - by rewrite Hpc.
    - intros x Hx. apply Hrd. unfold stk_fp, range in *. cbn in *. lia.
    - rewrite <- Hlk. apply ld_ext. intros x Hx. apply Hrd. unfold range. unfold k_len. unalloc. cbn in *. lia.
    - by left.
    - exists ids', f'. by rewrite app_nil_r. }
  rewrite app_nil_l in Hbd. unfold tstep in Hgo. rewrite Hpc in Hgo. unfold start_op in Hgo.
  destruct (t_ops t) as [|[sz|k|k off v] ops]; cbn [start_op] in Hgo.
  - apply (Hgo (t_mem s) (Thread Idle [] (t_held t))); try done. exists ids, []. by rewrite app_nil_r.
  - apply (Hgo (t_mem s) (Thread (At_lock (L_alloc sz)) ops (t_held t))); try done. exists ids, []. by rewrite app_nil_r.
  - rewrite Hheld, list_lookup_fmap in Hgo. destruct (ids !! k) as [i0|] eqn:Hk; cbn in Hgo.
    + rewrite Forall_app in Hbd. destruct Hbd as [Hbd _]. rewrite Forall_lookup in Hbd.
      rewrite checked_id_ok in Hgo by (done || by eapply Hbd). cbn [mbind option_bind] in Hgo.
      eapply Hgo; [done|done|done|done|]. exists (delete k ids), [i0]. cbn. split_and!; [|done|].
      * by rewrite list_fmap_delete.
      * rewrite Permutation_app_comm. cbn. symmetry. by apply delete_Permutation.
    + eapply Hgo; [done|done|done|done|]. exists ids, []. by rewrite app_nil_r.
  - rewrite Hheld, list_lookup_fmap in Hgo. destruct (ids !! k) as [i0|] eqn:Hk; cbn -[wrm] in Hgo.
    2:{ eapply Hgo; [done|done|done|done|]. exists ids, []. by rewrite app_nil_r. }
    rewrite Forall_app in Hbd. destruct Hbd as [Hbd _]. rewrite Forall_lookup in Hbd. specialize (Hbd _ _ Hk).
    destruct Hp as [Hn He Ht Hb].
    destruct (Z.leb_spec 0 off); cbn -[wrm] in Hgo.
    2:{ eapply Hgo; [done|done|done|done|]. exists ids, []. by rewrite app_nil_r. }
    destruct (Z.ltb_spec off (k_esz S0)); cbn -[wrm] in Hgo.
    2:{ eapply Hgo; [done|done|done|done|]. exists ids, []. by rewrite app_nil_r. }
    unfold wrm in Hgo. rewrite (mapped_sub _ (k_base S0) (k_num S0 * k_esz S0)) in Hgo by (done || nia).
    cbn in Hgo. eapply Hgo; [done|done| |by rewrite regions_st|exists ids, []; by rewrite app_nil_r].
    intros x Hx. eapply (client_off_fp _ (k_entry S0 i0)); [done|done|done|cbn; lia|lia|done].
Qed.

(** the state the lock's holder is in *)
Record holding s i t free gs ids f : Prop := {
  hd_inv : tinv S0 s;
  hd_thread : t_threads s !! i = Some t;
  hd_holder : holder_is (t_threads s) (Some i);
  hd_lock : ld 4 (t_mem s) lock = 1;
  hd_stack : stack_at S0 (t_mem s) free (t_pc t);
  hd_owns : Forall2 (owns_entries S0 (t_mem s) free) (t_threads s) gs;
  hd_perm : concat gs ++ free ≡ₚ seqZ 0 (k_num S0);
  hd_entries : gs !! i = Some (ids ++ f);
  hd_held : t_held t = k_entry S0 <$> ids;
  hd_flight : flight S0 (t_mem s) free (t_pc t) f;
  hd_fields : fields_ok (t_mem s);
  hd_bound : Forall (fun j => 0 <= j < k_num S0) (ids ++ f ++ free);
  hd_length : Z.of_nat (length (ids ++ f ++ free)) <= k_num S0
}.
Lemma holding_open s i t : tinv S0 s -> t_threads s !! i = Some t -> critical (t_pc t) = true ->
  exists free gs ids f, holding s i t free gs ids f.
Proof.
  intros Hinv Hi Hcr. destruct (tinv_open s i t Hinv Hi)
    as (c & free & gs & ids & f & Hh & Hlk & Hst & Hall & Hperm & Hg & Hheld & Hf & Hfo & Hbd).
  destruct (holder_stack s i t c free Hh Hi Hcr Hst) as [-> Hat]. exists free, gs, ids, f. split; try done.
  destruct (concat_insert gs i _ [] Hg) as (rest & H1 & _). rewrite H1 in Hperm.
  apply Permutation_length in Hperm. rewrite length_seqZ, !length_app in Hperm.
  pose proof (sp_num _ (ti_params _ _ Hinv)). rewrite !length_app. lia.
Qed.

Lemma holder_goes s i t free gs ids f m' t' free' : holding s i t free gs ids f ->
  tstep self (t_mem s) t = Some (m', t') -> regions m' = regions (t_mem s) ->
  (if critical (t_pc t') then ld 4 m' lock = 1 /\ stack_at S0 m' free' (t_pc t')
   else ld 4 m' lock = 0 /\ stk_rep L m' (set_kfree free' S0)) ->
  (exists ids' f', t_held t' = k_entry S0 <$> ids' /\ flight S0 m' free' (t_pc t') f' /\
     ids' ++ f' ++ free' ≡ₚ ids ++ f ++ free) ->
  steps_to s i t.
Proof. intros []. by eapply steps_holder. Qed.

Lemma held_top m free : stk_rep L m (set_kfree free S0) -> Z.of_nat (length free) <= k_num S0 ->
  ld 4 m (self + k_free_stack_top L) = Z.of_nat (length free).
Proof.
  intros Hr Hl. transitivity (Z.of_nat (length free) mod 2 ^ 32); [exact (sr_top _ _ _ Hr)|]. apply Z.mod_small.
  pose proof (sr_num _ _ _ Hr) as Hn. cbn in Hn. lia.
Qed.

(** the outcomes of the two steps that decide what allocate returns *)
Lemma test_result s i t sz free gs ids f : holding s i t free gs ids f -> t_pc t = A_test sz -> 0 <= k_num S0 ->
  f = [] /\ tstep self (t_mem s) t = Some (t_mem s, Thread
    (if decide (free = [] \/ k_esz S0 < sz) then A_ret (MemBlk NULL 0) else A_dec) (t_ops t) (t_held t)).
Proof.
  intros [_ _ _ _ Hst _ _ _ _ Hf Hfo _ Hlen] Hpc Hn. rewrite !length_app in Hlen. rewrite Hpc in Hst, Hf.
  cbn in Hst, Hf. split; [done|]. pose proof (held_top _ _ Hst ltac:(lia)) as Htop.
  unfold tstep. rewrite Hpc, !fields_rdm by (done || field). cbn [mbind option_bind].
  rewrite Htop, (fo_esz _ Hfo). case_decide as Hz.
  - destruct Hz as [->|Hz]; [done|]. by rewrite (proj2 (Z.ltb_lt _ _) Hz), orb_true_r.
  - rewrite (proj2 (Z.ltb_ge _ _)) by lia. rewrite (proj2 (Z.eqb_neq _ _)); [done|]. destruct free; [tauto|cbn; lia].
Qed.

Lemma slot_result s i t top free gs ids f : tinv S0 s -> holding s i t free gs ids f -> t_pc t = A_slot top ->
  exists x, f = [x] /\ 0 <= x < k_num S0 /\
    tstep self (t_mem s) t = Some (t_mem s, Thread (A_ret (k_entry S0 x)) (t_ops t) (t_held t)).
Proof.
  intros Hinv [_ _ _ _ Hst _ _ _ _ Hf Hfo Hbd Hlen] Hpc. destruct (ti_params _ _ Hinv) as [Hn He Ht Hb].
  rewrite !length_app in Hlen. rewrite Hpc in Hst, Hf. destruct Hf as [-> Hfe]. cbn in Hst. set (x := ld 4 _ _) in Hfe.
  assert (0 <= x < k_num S0) as Hx. { rewrite Forall_forall in Hbd. apply Hbd. subst f. set_solver. }
  exists x. split; [done|]. split; [done|]. subst f. cbn [length] in Hlen.
  assert (rdm 4 (t_mem s) (self + k_free_stack L + 4 * Z.of_nat (length free)) = Some x) as Hrx.
  { unfold rdm. rewrite (mapped_sub _ self (k_len L S0)); [done|apply Hfo|cbn; lia|field]. }
  unfold tstep. rewrite Hpc, Hrx. cbn [mbind option_bind].
  rewrite !fields_rdm by (done || field). cbn [mbind option_bind]. rewrite (fo_base _ Hfo), (fo_esz _ Hfo).
  by rewrite u32_small by nia.
Qed.

Lemma step_alloc_read s i t : tinv S0 s -> t_threads s !! i = Some t ->
  (exists sz, t_pc t = A_test sz) \/ t_pc t = A_dec -> steps_to s i t.
Proof.
  intros Hinv Hi Hpc. destruct (holding_open s i t Hinv Hi) as (free & gs & ids & f & Hd).
  { by destruct Hpc as [[sz ->]| ->]. }
  pose proof Hd as [_ _ _ Hlk Hst _ _ _ Hheld Hf Hfo _ Hlen].
  pose proof (sp_num _ (ti_params _ _ Hinv)) as Hn. rewrite !length_app in Hlen.
  destruct Hpc as [[sz Hpc]|Hpc].
  - destruct (test_result s i t sz free gs ids f Hd Hpc Hn) as [-> Hs]. rewrite Hpc in Hst. cbn in Hst.
    case_decide as Hz; eapply (holder_goes _ _ _ _ _ _ _ _ _ free Hd Hs); [done|done| |done|done|].
    + exists ids, []. split_and!; [done|by left|done].
    + exists ids, []. split_and!; [done|split; [done|tauto]|done].
  - rewrite Hpc in Hst, Hf. cbn in Hst, Hf. pose proof (held_top _ _ Hst ltac:(lia)) as Htop.
    destruct Hf as [-> Hne].
    eapply (holder_goes _ _ _ _ _ _ _ (t_mem s) (Thread (A_store (Z.of_nat (length free) - 1)) (t_ops t) (t_held t)) free Hd);
      try done.
    + unfold tstep. rewrite Hpc, fields_rdm by (done || field). cbn [mbind option_bind]. rewrite Htop.
      destruct (fo_bound _ Hfo) as [Hb _]. destruct free; [done|]. rewrite u32_small by (cbn in *; lia). done.
    + by exists ids, [].
Qed.

Lemma step_alloc_store s i t top : tinv S0 s -> t_threads s !! i = Some t -> t_pc t = A_store top -> steps_to s i t.
Proof.
  intros Hinv Hi Hpc. destruct (holding_open s i t Hinv Hi) as (free & gs & ids & f & Hd); [by rewrite Hpc|].
  pose proof Hd as [_ _ _ Hlk Hst _ _ _ Hheld Hf Hfo _ Hlen].
  pose proof (sp_num _ (ti_params _ _ Hinv)) as Hn. rewrite !length_app in Hlen.
  rewrite Hpc in Hst, Hf. destruct Hf as (-> & Hne & ->). cbn in Hst.
  destruct free as [|x l _] using rev_ind; [done|]. clear Hne. rewrite length_app in *. cbn [length] in *.
  replace (Z.of_nat (length l + 1) - 1) with (Z.of_nat (length l)) in * by lia.
  eapply (holder_goes _ _ _ _ _ _ _ (st 4 (self + k_free_stack_top L) (Z.of_nat (length l)) (t_mem s))
    (Thread (A_slot (Z.of_nat (length l))) (t_ops t) (t_held t)) l Hd).
  - unfold tstep. rewrite Hpc, fields_wrm by (done || field). done.
  - apply regions_st.
  - cbn [t_pc critical]. split; [rewrite ld_st_out by field; done|].
    change (set_kfree l S0) with (set_kfree l (set_kfree (l ++ [x]) S0)).
    apply (stk_rep_below L (set_kfree (l ++ [x]) S0)); [done| |cbn; rewrite length_app; lia].
    intros k j Hk. cbn. by apply lookup_app_l_Some.
  - exists ids, [x]. split_and!; [done| |].
    + cbn. split; [done|]. f_equal. rewrite ld_st_out by lia. symmetry.
      apply (sr_free _ _ _ Hst). cbn. by rewrite lookup_app_r, Nat.sub_diag by lia.
    + cbn [app]. by rewrite (Permutation_app_comm l [x]).
Qed.

Lemma step_alloc_slot s i t top : tinv S0 s -> t_threads s !! i = Some t -> t_pc t = A_slot top -> steps_to s i t.
Proof.
  intros Hinv Hi Hpc. destruct (holding_open s i t Hinv Hi) as (free & gs & ids & f & Hd); [by rewrite Hpc|].
  pose proof Hd as [_ _ _ Hlk Hst _ _ _ Hheld _ _ _ _]. rewrite Hpc in Hst. cbn in Hst.
  destruct (slot_result s i t top free gs ids f Hinv Hd Hpc) as (x & -> & Hx & Hs).
  eapply (holder_goes _ _ _ _ _ _ _ _ _ free Hd Hs); [done|done|].
  exists ids, [x]. split_and!; [done|right; by exists x|done].
Qed.

Lemma release_rep m free : fields_ok m -> 0 <= k_num S0 -> stk_rep L m (set_kfree free S0) ->
  ld 4 (st 4 lock 0 m) lock = 0 /\ stk_rep L (st 4 lock 0 m) (set_kfree free S0).
Proof.
  intros Hfo Hn Hr. split; [by rewrite ld_st_eq|].
  apply (stack_at_frame m _ free Idle); [|apply regions_st|done]. intros x Hx. by apply lock_off_fp.
Qed.

Lemma step_return s i t : tinv S0 s -> t_threads s !! i = Some t ->
  (exists b, t_pc t = A_ret b) \/ t_pc t = D_ret -> steps_to s i t.
Proof.
  intros Hinv Hi Hpc. destruct (holding_open s i t Hinv Hi) as (free & gs & ids & f & Hd).
  { by destruct Hpc as [[b ->]| ->]. }
  pose proof Hd as [_ _ _ Hlk Hst _ _ _ Hheld Hf Hfo Hbd _]. destruct (ti_params _ _ Hinv) as [Hn He Ht Hb].
  assert (stk_rep L (t_mem s) (set_kfree free S0)) as Hr by (by destruct Hpc as [[b Hpc]|Hpc]; rewrite Hpc in Hst).
  destruct Hpc as [[b Hpc]|Hpc].
  - eapply (holder_goes _ _ _ _ _ _ _ (st 4 lock 0 (t_mem s))
      (Thread Idle (t_ops t) (if ptr b =? NULL then t_held t else b :: t_held t)) free Hd).
    + unfold tstep. rewrite Hpc, fields_wrm by (done || field). done.
    + apply regions_st.
    + by apply release_rep.
    + rewrite Hpc in Hf. cbn. destruct Hf as [[Hb0 ->]|(x & -> & ->)].
      * rewrite (proj2 (Z.eqb_eq _ _) Hb0). by exists ids, [].
      * rewrite (proj2 (Z.eqb_neq _ _)).
        { exists (x :: ids), []. split_and!; [by rewrite Hheld|done|]. cbn. apply Permutation_middle. }
        assert (0 <= x < k_num S0) as Hx. { rewrite Forall_forall in Hbd. apply Hbd. set_solver. }
        unfold NULL. cbn. nia.
  - eapply (holder_goes _ _ _ _ _ _ _ (st 4 lock 0 (t_mem s)) (Thread Idle (t_ops t) (t_held t)) free Hd).
    + unfold tstep. rewrite Hpc, fields_wrm by (done || field). done.
    + apply regions_st.
    + by apply release_rep.
    + rewrite Hpc in Hf. cbn in Hf. subst f. by exists ids, [].
Qed.

Lemma step_dealloc s i t id : tinv S0 s -> t_threads s !! i = Some t ->
  t_pc t = D_top id \/ (exists top, t_pc t = D_store id top \/ t_pc t = D_slot id top) -> steps_to s i t.
Proof.
  intros Hinv Hi Hpc. destruct (holding_open s i t Hinv Hi) as (free & gs & ids & f & Hd).
  { by destruct Hpc as [->|(top & [->| ->])]. }
  pose proof Hd as [_ _ _ Hlk Hst _ _ _ Hheld Hf Hfo Hbd Hlen]. destruct (ti_params _ _ Hinv) as [Hn He Ht Hb].
  rewrite !length_app in Hlen. destruct (fo_bound _ Hfo) as [Hn32 _].
  destruct Hpc as [Hpc|(top & [Hpc|Hpc])]; rewrite Hpc in Hst, Hf; cbn in Hst, Hf.
  - subst f. cbn [length] in Hlen. pose proof (held_top _ _ Hst ltac:(lia)) as Htop.
    eapply (holder_goes _ _ _ _ _ _ _ (t_mem s) (Thread (D_store id (Z.of_nat (length free))) (t_ops t) (t_held t)) free Hd);
      try done.
    + unfold tstep. rewrite Hpc, fields_rdm by (done || field). cbn [mbind option_bind]. by rewrite Htop.
    + by exists ids, [id].
  - destruct Hf as [-> ->]. cbn [length] in Hlen.
    assert (0 <= id < k_num S0) as Hx. { rewrite Forall_forall in Hbd. apply Hbd. set_solver. }
    eapply (holder_goes _ _ _ _ _ _ _
      (st 4 (self + k_free_stack_top L) (u32 (Z.of_nat (length free) + 1)) (t_mem s))
      (Thread (D_slot id (Z.of_nat (length free))) (t_ops t) (t_held t)) (free ++ [id]) Hd).
    + unfold tstep. rewrite Hpc, fields_wrm by (done || field). done.
    + apply regions_st.
    + cbn [t_pc critical]. split; [rewrite ld_st_out by field; done|].
      change (set_kfree (free ++ [id]) S0) with (set_kfree (k_free (set_kfree free S0) ++ [id]) (set_kfree free S0)).
      apply (stk_rep_push L (set_kfree free S0)); [done|cbn; lia|lia].
    + exists ids, []. split_and!; [done|split; [done|by exists free]|].
      cbn [app]. by rewrite (Permutation_app_comm free [id]).
  - destruct Hf as (-> & l & -> & ->). rewrite length_app in Hlen. cbn [length] in Hlen.
    assert (0 <= id < k_num S0) as Hx. { rewrite Forall_forall in Hbd. apply Hbd. set_solver. }
    eapply (holder_goes _ _ _ _ _ _ _ (st 4 (self + k_free_stack L + 4 * Z.of_nat (length l)) id (t_mem s))
      (Thread D_ret (t_ops t) (t_held t)) (l ++ [id]) Hd).
    + unfold tstep. rewrite Hpc. unfold wrm. rewrite (mapped_sub _ self (k_len L S0)); [|apply Hfo|cbn; lia|field].
      rewrite u32_small by lia. done.
    + apply regions_st.
    + cbn [t_pc critical]. split; [rewrite ld_st_out by field; done|done].
    + by exists ids, [].
Qed.

(** every step of every thread succeeds and keeps the invariant *)
Lemma tstep_ok s i t : tinv S0 s -> t_threads s !! i = Some t -> steps_to s i t.
Proof.
  intros Hinv Hi. destruct (t_pc t) eqn:Hpc; eauto 10 using step_start, step_lock, step_spin, step_alloc_read,
    step_alloc_store, step_alloc_slot, step_return, step_dealloc.
Qed.

Lemma run_schedule_ok sched s : tinv S0 s -> exists s', run_schedule self sched s = Some s' /\ tinv S0 s'.
Proof.
  revert s. induction sched as [|i sched IH]; intros s Hinv; cbn [run_schedule]; [by exists s|].
  unfold step_thread. destruct (t_threads s !! i) as [t|] eqn:Hi; cbn [mbind option_bind]; [|by apply IH].
  destruct (tstep_ok s i t Hinv Hi) as (m' & t' & -> & Hinv'). cbn [mbind option_bind]. by apply IH.
Qed.
End preservation.
