(* ===== verification/SpinProps.v ===== *)
(** * Properties of the spinlocks and of the spinlock stack allocator *)
From S2P Require Import Prelude Mem Platform Memory Spinlock Alloc StackSpec DmaAlloc Vfs AllocLaws AllocInst StackInst.
From S2P Require Import SpinThreads Sim AllocSim AllocProps.

Section threads.
Context (S0 : stk).
Local Abbreviation L := ss_layout.
Local Abbreviation self := (k_self S0).
Local Abbreviation lock := (self + ss_lock).

(** a new allocator and threads that have not begun *)
Record fresh_threads (s : tstate) : Prop := {
  ft_params : stk_params S0;
  ft_disj : disj self (k_len L S0) (k_base S0) (k_num S0 * k_esz S0);
  ft_map : mapped (t_mem s) (k_base S0) (k_num S0 * k_esz S0) = true;
  ft_rep : stk_rep L (t_mem s) S0;
  ft_all : k_free S0 ≡ₚ seqZ 0 (k_num S0);
  ft_lock : ld 4 (t_mem s) lock = 0;
  ft_idle : Forall (fun t => t_pc t = Idle /\ t_held t = []) (t_threads s)
}.

Lemma fresh_inv s : fresh_threads s -> tinv S0 s.
Proof.
  intros [Hp Hd Hm Hr Ha Hl Hi]. split; try done.
  exists None, (k_free S0), (map (fun _ => []) (t_threads s)). split_and!.
  - intros i t Ht. rewrite Forall_lookup in Hi. destruct (Hi i t Ht) as [-> _]. done.
  - done.
  - by destruct S0.
  - apply Forall2_fmap_r, Forall_Forall2_diag. eapply Forall_impl; [exact Hi|].
    intros t [Hpc Hh]. exists [], []. rewrite Hpc, Hh. done.
  - rewrite <- Ha. assert (forall A (l : list A), concat (map (fun _ => [] : list Z) l) = []) as ->; [|done].
    intros A l. induction l; done.
Qed.

Lemma inv_exclusive s i j t u : tinv S0 s -> t_threads s !! i = Some t -> t_threads s !! j = Some u ->
  critical (t_pc t) = true -> critical (t_pc u) = true -> i = j.
Proof.
  intros [_ _ _ (c & free & gs & Hh & _)] Hi Hj Ht Hu.
  apply (Hh i t Hi) in Ht. apply (Hh j u Hj) in Hu. congruence.
Qed.

(** the blocks all threads hold *)
Definition all_held (s : tstate) : list mem_blk := concat (t_held <$> t_threads s).

Lemma owned_ids m free ts gs : Forall2 (owns_entries S0 m free) ts gs ->
  exists idss rest, concat (t_held <$> ts) = k_entry S0 <$> idss /\ concat gs ≡ₚ idss ++ rest.
Proof.
  induction 1 as [|t g ts gs (ids & f & Hh & _ & ->) _ (idss & rest & Hc & Hg)].
  - by exists [], [].
  - exists (ids ++ idss), (f ++ rest). cbn. rewrite Hh, Hc, fmap_app. split; [done|].
    rewrite Hg, <- !app_assoc. apply Permutation_app_head. by rewrite Permutation_app_swap_app.
Qed.

Lemma inv_blocks s : tinv S0 s ->
  sep (blk_region <$> all_held s) /\
  Forall (fun b => exists i, 0 <= i < k_num S0 /\ b = k_entry S0 i) (all_held s).
Proof.
  intros [Hp Hd Hm (c & free & gs & _ & _ & _ & Hall & Hperm)].
  destruct (owned_ids _ _ _ _ Hall) as (ids & rest & Hh & Hg). unfold all_held. rewrite Hh.
  rewrite Hg, <- app_assoc in Hperm. assert (NoDup (ids ++ rest ++ free)) as Hnd by (rewrite Hperm; apply NoDup_seqZ).
  split.
  - apply k_entries_sep; [apply Hp|]. by apply NoDup_app in Hnd as [? _].
  - apply Forall_fmap, Forall_forall. intros i Hi. exists i. split; [|done].
    assert (i ∈ seqZ 0 (k_num S0)) as Hs by (rewrite <- Hperm; apply elem_of_app; by left).
    apply elem_of_seqZ in Hs. lia.
Qed.

(** ** Progress *)
Definition rank (p : pc) : nat :=
  match p with
  | Idle | At_lock _ | Spin _ => 0
  | A_test _ => 5 | A_dec => 4 | A_store _ => 3 | A_slot _ => 2 | A_ret _ => 1
  | D_top _ => 4 | D_store _ _ => 3 | D_slot _ _ => 2 | D_ret => 1
  end.

Lemma tstep_rank m t m' t' : tstep self m t = Some (m', t') -> critical (t_pc t) = true ->
  (rank (t_pc t') < rank (t_pc t))%nat /\ (critical (t_pc t') = true \/ t_pc t' = Idle).
Proof.
  unfold tstep. intros Hs Hc. destruct (t_pc t); try done; cbn [mbind option_bind] in Hs;
    repeat match type of Hs with
    | context [rdm ?n ?m ?a] => destruct (rdm n m a); cbn [option_bind] in Hs; [|done]
    | context [wrm ?n ?a ?v ?m] => destruct (wrm n a v m); cbn [option_bind] in Hs; [|done]
    end; injection Hs as <- <-; cbn; try (split; [lia|auto]).
  destruct ((z =? 0) || (z0 <? sz)); cbn; split; auto; lia.
Qed.

Lemma holder_releases n s i t : tinv S0 s -> t_threads s !! i = Some t -> (rank (t_pc t) <= n)%nat ->
  critical (t_pc t) = true ->
  exists k s' t', (k <= n)%nat /\ run_schedule self (repeat i k) s = Some s' /\ tinv S0 s' /\
    t_threads s' !! i = Some t' /\ t_pc t' = Idle.
Proof.
  revert s t. induction n as [|n IH]; intros s t Hinv Hi Hr Hc.
  { destruct (t_pc t); cbn in *; done || lia. }
  destruct (tstep_ok S0 s i t Hinv Hi) as (m' & t' & Hs & Hinv').
  destruct (tstep_rank _ _ _ _ Hs Hc) as [Hlt Hcase].
  assert (t_threads (TState m' (<[i := t']> (t_threads s))) !! i = Some t') as Hi'.
  { cbn. apply list_lookup_insert_eq. by eapply lookup_lt_Some. }
  assert (step_thread self i s = Some (TState m' (<[i := t']> (t_threads s)))) as Hstep.
  { unfold step_thread. rewrite Hi. cbn [mbind option_bind]. by rewrite Hs. }
  destruct Hcase as [Hc'|Hidle].
  - destruct (IH _ t' Hinv' Hi') as (k & s' & t2 & Hk & Hrun & Hrest); [lia|done|].
    exists (S k), s', t2. split; [lia|]. split; [|done]. cbn [repeat run_schedule]. rewrite Hstep. done.
  - exists 1%nat, (TState m' (<[i := t']> (t_threads s))), t'. split; [lia|].
    cbn [repeat run_schedule]. rewrite Hstep. done.
Qed.
End threads.

(** C8: any number of threads that allocate from, free to and write into one
    spinlock stack allocator: under every interleaving no step faults or aborts,
    at most one thread is between taking and releasing the lock, and the blocks
    all threads hold together are entries of the allocator that never overlap: no
    block is handed to two threads. *)
Theorem spinlock_threads_exclusive (S0 : stk) s sched :
  fresh_threads S0 s ->
  exists s', run_schedule (k_self S0) sched s = Some s' /\
    (forall i j t u, t_threads s' !! i = Some t -> t_threads s' !! j = Some u ->
       critical (t_pc t) = true -> critical (t_pc u) = true -> i = j) /\
    sep (blk_region <$> all_held s') /\
    Forall (fun b => exists i, 0 <= i < k_num S0 /\ b = k_entry S0 i) (all_held s').
Proof.
  intros Hf. destruct (run_schedule_ok S0 sched s (fresh_inv S0 s Hf)) as (s' & Hrun & Hinv).
  exists s'. split; [done|]. split; [|by apply inv_blocks]. intros. by eapply inv_exclusive.
Qed.

Definition demo_spin : Z * world sim :=
  Eval vm_compute in run_alloc (spinlock_stack_allocator_new 1 1 3 64 mallocator_t) plain_world 0.
Definition demo_spin_stk : stk := Stk 0x10000 0x10080 64 3 [0; 1; 2].
(** two threads as in the test mt_concurrent_alloc_free, and one that writes *)
Definition demo_threads : tstate :=
  TState (w_mem demo_spin.2)
    [Thread Idle [T_alloc 5; T_free 0; T_alloc 5; T_free 0] [];
     Thread Idle [T_alloc 5; T_free 0; T_alloc 5; T_free 0] [];
     Thread Idle [T_alloc 64; T_write 0 63 7; T_alloc 65] []].
Definition demo_schedule : list nat := concat (repeat [0; 1; 2; 1]%nat 12).
Lemma demo_threads_fresh : fresh_threads demo_spin_stk demo_threads.
Proof.
  split.
  - by split.
  - by vm_compute; left.
  - by vm_compute.
  - apply stk_repb_sound. by vm_compute.
  - done.
  - by vm_compute.
  - repeat apply Forall_cons_2; done || apply Forall_nil_2.
Qed.
Lemma spinlock_threads_exclusive_witness : exists s', run_schedule 0x10000 demo_schedule demo_threads = Some s' /\
  sep (blk_region <$> all_held s').
Proof.
  destruct (spinlock_threads_exclusive demo_spin_stk demo_threads demo_schedule demo_threads_fresh)
    as (s' & Hr & _ & Hs & _). exact (ex_intro _ s' (conj Hr Hs)).
Defined.

(** C22: the spinlock cannot be stuck: in every reachable state a thread that has
    the lock gives it back after at most five of its own steps, whatever it was
    doing, and when no thread has the lock, a thread that is about to test and
    set it has it after that one step. *)
Theorem spinlock_released (S0 : stk) s sched s1 i t :
  fresh_threads S0 s -> run_schedule (k_self S0) sched s = Some s1 -> t_threads s1 !! i = Some t ->
  (critical (t_pc t) = true -> exists k s2 t2, (k <= 5)%nat /\
     run_schedule (k_self S0) (repeat i k) s1 = Some s2 /\ t_threads s2 !! i = Some t2 /\ t_pc t2 = Idle) /\
  (forall k, t_pc t = At_lock k -> (forall j u, t_threads s1 !! j = Some u -> critical (t_pc u) = false) ->
     exists s2 t2, step_thread (k_self S0) i s1 = Some s2 /\ t_threads s2 !! i = Some t2 /\ t_pc t2 = enter k).
Proof.
  intros Hf Hrun Hi. destruct (run_schedule_ok S0 sched s (fresh_inv S0 s Hf)) as (s1' & Hrun' & Hinv).
  assert (s1' = s1) as -> by congruence. split.
  - intros Hc. destruct (holder_releases S0 5 s1 i t Hinv Hi) as (k & s2 & t2 & Hk & Hr & _ & Hi2 & Hp2); [|done|eauto 8].
    destruct (t_pc t); cbn; lia.
  - intros k Hpc Hno.
    destruct (tinv_open S0 s1 i t Hinv Hi) as (c & free & gs & ids & f & Hh & Hlk & Hst & _ & _ & _ & _ & _ & Hfo & _).
    pose proof (sp_num _ (ti_params _ _ Hinv)) as Hn.
    destruct c as [j|].
    { destruct Hst as (tj & Hj & _). pose proof (proj2 (Hh j tj Hj) eq_refl) as Hcr. by rewrite (Hno j tj Hj) in Hcr. }
    eexists _, _. split.
    + unfold step_thread. rewrite Hi. cbn [mbind option_bind]. unfold tstep. rewrite Hpc.
      rewrite fields_rdm by (done || (unfold k_len; unalloc; cbn; lia)). cbn [mbind option_bind].
      rewrite fields_wrm by (done || (unfold k_len; unalloc; cbn; lia)). cbn [mbind option_bind]. rewrite Hlk. reflexivity.
    + cbn [t_threads]. rewrite list_lookup_insert_eq by (by eapply lookup_lt_Some). done.
Qed.
(** thread 0 has just taken the lock, thread 1 spins *)
Definition demo_contended : tstate :=
  Eval vm_compute in default demo_threads (run_schedule 0x10000 [0; 1; 0; 1]%nat demo_threads).
Definition demo_holder : thread :=
  Eval vm_compute in default (Thread Idle [] []) (t_threads demo_contended !! 0%nat).
Lemma spinlock_released_witness :
  exists k s2 t2, (k <= 5)%nat /\ run_schedule 0x10000 (repeat 0%nat k) demo_contended = Some s2 /\
    t_threads s2 !! 0%nat = Some t2 /\ t_pc t2 = Idle.
Proof.
  assert (run_schedule 0x10000 [0; 1; 0; 1]%nat demo_threads = Some demo_contended) as Hr by (by vm_compute).
  assert (t_threads demo_contended !! 0%nat = Some demo_holder) as Hi by (by vm_compute).
  exact (proj1 (spinlock_released demo_spin_stk demo_threads [0; 1; 0; 1]%nat demo_contended 0%nat demo_holder
    demo_threads_fresh Hr Hi) eq_refl).
Defined.

(** ** The threads run the code *)
Section sequential.
Context {H : Type} `{Platform H}.
Context (S0 : stk) (NDEBUG : bool) (spin : nat).
Local Abbreviation L := ss_layout.
Local Abbreviation self := (k_self S0).
Implicit Types w : world H.

(** seven steps of a thread that is alone and has one operation to do *)
Definition alone (m : mem) (op : thread_op) (held : list mem_blk) : option tstate :=
  run_schedule self (repeat 0%nat 7) (TState m [Thread Idle [op] held]).
Definition returned (m : mem) (held : list mem_blk) : tstate := TState m [Thread Idle [] held].

Lemma run_S m t n : run_schedule self (repeat 0%nat (S n)) (TState m [t]) =
  '(m', t') ← tstep self m t; run_schedule self (repeat 0%nat n) (TState m' [t']).
Proof. cbn [repeat run_schedule]. unfold step_thread. cbn [t_threads lookup list_lookup t_mem]. by destruct (tstep self m t) as [[m' t']|]. Qed.

Lemma load_eq n a w : mapped (w_mem w) a (Z.of_nat n) = true -> load n a w = Ok (ld n (w_mem w) a) w.
Proof. unfold load. by intros ->. Qed.
Lemma store_eq n a v w : mapped (w_mem w) a (Z.of_nat n) = true ->
  store n a v w = Ok tt (set_mem (st n a v (w_mem w)) w).
Proof. unfold store. by intros ->. Qed.
Lemma rdm_eq n m a : mapped m a (Z.of_nat n) = true -> rdm n m a = Some (ld n m a).
Proof. unfold rdm. by intros ->. Qed.
Lemma wrm_eq n a v m : mapped m a (Z.of_nat n) = true -> wrm n a v m = Some (st n a v m).
Proof. unfold wrm. by intros ->. Qed.

Lemma bind_eq {A B} (c : M (world H) A) (k : A -> M (world H) B) w a w' : c w = Ok a w' -> (c ≫= k) w = k a w'.
Proof. unfold mbind, M_bind. by intros ->. Qed.

Context (w : world H).
Context (Hp : stk_params S0) (Hr : stk_rep L (w_mem w) S0).
Context (Hlock : ld 4 (w_mem w) (self + ss_lock) = 0).
Context (Hroom : Z.of_nat (length (k_free S0)) <= k_num S0).
Implicit Types (v : world H).

(** memories with the allocator's regions and a stack height in range *)
Definition same_shape (m : mem) : Prop :=
  regions m = regions (w_mem w) /\ 0 <= ld 4 m (self + k_free_stack_top L) <= k_num S0.
Lemma self_mapped m n a : regions m = regions (w_mem w) -> self <= a -> a + Z.of_nat n <= self + k_len L S0 ->
  mapped m a (Z.of_nat n) = true.
Proof.
  intros Hreg ? ?. rewrite (mapped_regions _ (w_mem w)) by done.
  eapply mapped_sub; [exact (sr_map _ _ _ Hr)|lia|lia].
Qed.
Ltac in_self := apply self_mapped;
  [cbn [w_mem set_mem]; rewrite ?regions_st; done | |];
  pose proof (sp_num _ Hp); unfold k_len; unalloc; cbn in *; lia.
Ltac code_step := erewrite bind_eq by (first [apply load_eq | apply store_eq]; in_self); cbn beta.
Ltac thread_step := rewrite run_S; unfold tstep at 1; cbn [t_pc t_ops t_held enter start_op];
  rewrite ?rdm_eq by in_self; cbn [mbind option_bind]; rewrite ?wrm_eq by in_self; cbn [mbind option_bind].

Lemma wp_eq_ok {A} (c : M (world H) A) a v v' : wp c (fun x y => x = a /\ y = v') never v -> c v = Ok a v'.
Proof. unfold wp. destruct (c v); try done. by intros [-> ->]. Qed.
Lemma shape0 : same_shape (w_mem w).
Proof.
  split; [done|]. rewrite (sr_top _ _ _ Hr). pose proof (sr_num _ _ _ Hr). rewrite Z.mod_small by lia. lia.
Qed.
Lemma shape_locked : same_shape (st 4 (self + ss_lock) 1 (w_mem w)).
Proof. split; [apply regions_st|]. rewrite ld_st_out by (unalloc; cbn; lia). apply shape0. Qed.

Definition popped (sz : Z) (m : mem) : mem_blk * mem :=
  let top := ld 4 m (self + k_free_stack_top L) in
  if (top =? 0) || (ld 4 m (self + k_entry_size L) <? sz) then (MemBlk NULL 0, m) else
  let m' := st 4 (self + k_free_stack_top L) (u32 (top - 1)) m in
  (MemBlk (ld 8 m' (self + k_base_addr L) +
     u32 (ld 4 m' (self + k_free_stack L + 4 * u32 (top - 1)) * ld 4 m' (self + k_entry_size L)))
     (ld 4 m' (self + k_entry_size L)), m').

Lemma pop_eq sz v : same_shape (w_mem v) ->
  stack_pop L self sz v = Ok (popped sz (w_mem v)).1 (set_mem (popped sz (w_mem v)).2 v).
Proof.
  intros [Hreg Htop]. pose proof (sr_num _ _ _ Hr) as Hn. unfold stack_pop, popped. code_step.
  assert (v = set_mem (w_mem v) v) as Hv by (by destruct v).
  destruct (Z.eqb_spec (ld 4 (w_mem v) (self + k_free_stack_top L)) 0); cbn [orb fst snd]; [by rewrite <- Hv|].
  code_step. destruct (_ <? sz); cbn [fst snd]; [by rewrite <- Hv|].
  assert (u32 (ld 4 (w_mem v) (self + k_free_stack_top L) - 1) = ld 4 (w_mem v) (self + k_free_stack_top L) - 1) as Hu
    by (apply u32_small; lia).
  repeat code_step. rewrite Hu in *. 
  repeat code_step. done.
Qed.

Lemma entry_id_eq b v : same_shape (w_mem v) ->
  match checked_id self (w_mem v) b with
  | Some id => stack_entry_id L self b v = Ok id v
  | None => exists msg, stack_entry_id L self b v = Err (Abort msg) v
  end.
Proof.
  intros [Hreg _]. unfold stack_entry_id, checked_id. rewrite !rdm_eq by in_self. cbn [mbind option_bind]. code_step.
  destruct (negb _); [by eexists|]. repeat code_step. destruct (_ || _); [by eexists|done].
Qed.

Definition with_pushed (id : Z) (m : mem) : mem :=
  let top := ld 4 m (self + k_free_stack_top L) in
  st 4 (self + k_free_stack L + 4 * top) (u32 id) (st 4 (self + k_free_stack_top L) (u32 (top + 1)) m).
Lemma push_eq id v : same_shape (w_mem v) ->
  stack_push L self id v = Ok tt (set_mem (with_pushed id (w_mem v)) v).
Proof.
  intros [Hreg Htop]. unfold stack_push, with_pushed. repeat code_step. by rewrite store_eq by in_self.
Qed.

Lemma run_idle m held n : run_schedule self (repeat 0%nat n) (TState m [Thread Idle [] held]) = Some (returned m held).
Proof. induction n as [|n IH]; [done|]. by rewrite run_S. Qed.

Lemma unlock_eq v : regions (w_mem v) = regions (w_mem w) ->
  rte_spinlock_unlock (self + ss_lock) v = Ok tt (set_mem (st 4 (self + ss_lock) 0 (w_mem v)) v).
Proof. intros Hreg. unfold rte_spinlock_unlock, sync_lock_release. unspin. by rewrite Z.add_0_r, store_eq by in_self. Qed.
Lemma lock_eq fuel : (0 < fuel)%nat ->
  rte_spinlock_lock fuel (self + ss_lock) w = Ok tt (set_mem (st 4 (self + ss_lock) 1 (w_mem w)) w).
Proof.
  intros Hf. assert (mapped (w_mem w) (self + ss_lock) (Z.of_nat 4) = true) as Hm by in_self.
  apply wp_eq_ok. eapply wp_conseq; [by apply rte_spinlock_lock_spec|]. by intros [] ? ->.
Qed.

(** a thread that is alone, after it has taken the lock *)
Lemma alone_pop sz m ops held : same_shape m ->
  exists n, (n <= 4)%nat /\ forall k,
  run_schedule self (repeat 0%nat (n + k)) (TState m [Thread (A_test sz) ops held]) =
  let '(b, m') := popped sz m in
  run_schedule self (repeat 0%nat k) (TState m' [Thread (A_ret b) ops held]).
Proof.
  intros [Hreg Htop]. pose proof (sr_num _ _ _ Hr) as Hn. unfold popped.
  destruct (_ || _) eqn:E; [exists 1%nat|exists 4%nat]; (split; [lia|]); intros k; cbn [Nat.add]; thread_step; rewrite E.
  - done.
  - do 2 thread_step.
    assert (u32 (ld 4 m (self + k_free_stack_top L) - 1) = ld 4 m (self + k_free_stack_top L) - 1) as Hu
      by (apply u32_small; apply orb_false_iff in E as [E%Z.eqb_neq _]; lia).
    rewrite Hu in *. thread_step. done.
Qed.

Lemma popped_shape sz m : regions m = regions (w_mem w) -> regions (popped sz m).2 = regions (w_mem w).
Proof. intros Hreg. unfold popped. destruct (_ || _); [done|]. cbn [snd]. by rewrite regions_st. Qed.

Lemma alone_allocate fuel sz held : (0 < fuel)%nat ->
  exists b w', spinlock_allocate fuel self sz w = Ok b w' /\ w' = set_mem (w_mem w') w /\
    alone (w_mem w) (T_alloc sz) held = Some (returned (w_mem w') (if ptr b =? NULL then held else b :: held)).
Proof.
  intros Hf. pose proof shape_locked as Hsh. set (m1 := st 4 (self + ss_lock) 1 (w_mem w)) in *.
  pose proof (popped_shape sz m1 (proj1 Hsh)) as Hreg. pose proof (pop_eq sz (set_mem m1 w) Hsh) as Hpop.
  cbn [w_mem set_mem] in Hpop.
  destruct (alone_pop sz m1 [] held Hsh) as (n & Hn & Hrun).
  destruct (popped sz m1) as [b m2]. cbn [fst snd] in *.
  exists b, (set_mem (st 4 (self + ss_lock) 0 m2) w). split_and!; [| done |].
  - unfold spinlock_allocate, container_of. change (offsetof spinlock_stack_allocator "vfs") with 0. rewrite Z.sub_0_r.
    erewrite bind_eq by (by apply lock_eq). fold m1. erewrite bind_eq by exact Hpop.
    by erewrite bind_eq by (by apply unlock_eq).
  - unfold alone. do 2 thread_step. fold m1. rewrite Hlock. cbn [enter Z.eqb].
    replace 5%nat with (n + S (4 - n))%nat by lia. rewrite Hrun. thread_step. by rewrite run_idle.
Qed.

Lemma alone_deallocate fuel k b held : (0 < fuel)%nat -> held !! k = Some b ->
  match checked_id self (w_mem w) b with
  | Some id => exists w', spinlock_deallocate NDEBUG fuel self b w = Ok (clear_blk NDEBUG b) w' /\
      w' = set_mem (w_mem w') w /\ alone (w_mem w) (T_free k) held = Some (returned (w_mem w') (delete k held))
  | None => (exists msg, spinlock_deallocate NDEBUG fuel self b w = Err (Abort msg) w) /\
      alone (w_mem w) (T_free k) held = None
  end.
Proof.
  intros Hf Hk. pose proof (entry_id_eq b w shape0) as Hid. pose proof shape_locked as Hsh.
  destruct (checked_id self (w_mem w) b) as [id|] eqn:Hc.
  all: unfold spinlock_deallocate, container_of; change (offsetof spinlock_stack_allocator "vfs") with 0; rewrite Z.sub_0_r.
  all: unfold alone; rewrite run_S; unfold tstep at 1; cbn [t_pc t_ops t_held start_op]; rewrite Hk, Hc.
  2:{ split; [|done]. destruct Hid as (msg & Hid). exists msg. unfold mbind at 1, M_bind. by rewrite Hid. }
  set (m1 := st 4 (self + ss_lock) 1 (w_mem w)) in *. destruct Hsh as [Hreg1 Htop].
  pose proof (push_eq id (set_mem m1 w) (conj Hreg1 Htop)) as Hpush. cbn [w_mem set_mem] in Hpush.
  assert (regions (with_pushed id m1) = regions (w_mem w)) as Hreg2 by (unfold with_pushed; by rewrite !regions_st).
  exists (set_mem (st 4 (self + ss_lock) 0 (with_pushed id m1)) w). split_and!; [|done|].
  - erewrite bind_eq by exact Hid. erewrite bind_eq by (by apply lock_eq). fold m1. erewrite bind_eq by exact Hpush.
    by erewrite bind_eq by (by apply unlock_eq).
  - cbn [mbind option_bind]. thread_step. fold m1. rewrite Hlock. cbn [enter Z.eqb].
    do 4 thread_step. done.
Qed.
End sequential.

(** C21: the threads run the code: while nobody has the lock, the steps of one
    thread alone do to memory exactly what the functions spinlock_allocate and
    spinlock_deallocate do and return the same block, and where deallocate aborts
    the thread's run ends. *)
Theorem spinlock_threads_run_code {H : Type} `{Platform H} (S0 : stk) (NDEBUG : bool) (w : world H) fuel held :
  stk_params S0 -> stk_rep ss_layout (w_mem w) S0 -> ld 4 (w_mem w) (k_self S0 + ss_lock) = 0 ->
  Z.of_nat (length (k_free S0)) <= k_num S0 -> (0 < fuel)%nat ->
  (forall sz, exists b w', spinlock_allocate fuel (k_self S0) sz w = Ok b w' /\ w' = set_mem (w_mem w') w /\
     alone S0 (w_mem w) (T_alloc sz) held =
       Some (returned (w_mem w') (if ptr b =? NULL then held else b :: held))) /\
  (forall k b, held !! k = Some b ->
     match spinlock_deallocate NDEBUG fuel (k_self S0) b w with
     | Ok c w' => c = clear_blk NDEBUG b /\ w' = set_mem (w_mem w') w /\
         alone S0 (w_mem w) (T_free k) held = Some (returned (w_mem w') (delete k held))
     | Err (Abort _) w' => w' = w /\ alone S0 (w_mem w) (T_free k) held = None
     | _ => False
     end).
Proof.
  intros Hp Hr Hl Hroom Hf. split; [intros sz; by apply alone_allocate|]. intros k b Hk.
  pose proof (alone_deallocate S0 NDEBUG w Hp Hr Hl Hroom fuel k b held Hf Hk) as Hd.
  destruct (checked_id _ _ b).
  - by destruct Hd as (w' & -> & ? & ?).
  - by destruct Hd as [[msg ->] ?].
Qed.
Lemma spinlock_threads_run_code_witness : exists b w', spinlock_allocate 1 0x10000 64 demo_spin.2 = Ok b w' /\
  alone demo_spin_stk (w_mem demo_spin.2) (T_alloc 64) [] =
    Some (returned (w_mem w') (if ptr b =? NULL then [] else [b])).
Proof.
  destruct (proj1 (spinlock_threads_run_code demo_spin_stk true demo_spin.2 1 []
    (ft_params _ _ demo_threads_fresh) (ft_rep _ _ demo_threads_fresh) (ft_lock _ _ demo_threads_fresh)
    ltac:(cbn; lia) ltac:(lia)) 64) as (b & w' & Ha & _ & Hr).
  exact (ex_intro _ b (ex_intro _ w' (conj Ha Hr))).
Defined.
