(* ===== verification/SpinWorkers.v ===== *)
(** * Threads that allocate and give back, over and over

    The threads of mt_concurrent_alloc_free (allocator/tests/
    spinlock_stack_allocator.cpp) on the model of SpinThreads.v: each repeats
    an allocation and the release of the block it got.  [workers_inv] adds to
    the allocator's invariant where each thread is in its round; no allocation
    fails as long as there are no more threads than entries, every run can be
    continued until all threads are done, and then the allocator is full. *)
From S2P Require Import Prelude Mem Platform Memory Spinlock Alloc StackSpec SpinThreads SpinProps.

(** [n] rounds of [blk = a->allocate(a, sz); a->deallocate(a, &blk)] *)
Fixpoint worker_ops (sz : Z) (n : nat) : list thread_op :=
  match n with O => [] | S n' => T_alloc sz :: T_free 0 :: worker_ops sz n' end.
Definition worker (sz : Z) (n : nat) : thread := Thread Idle (worker_ops sz n) [].

Definition finished (t : thread) : bool :=
  match t with Thread Idle [] _ => true | _ => false end.
(** allocate returns NULL to this thread: deallocate, which it calls with the
    block, will abort, for the size 0 is no entry's *)
Definition alloc_failed (t : thread) : bool :=
  match t_pc t with A_ret b => ptr b =? NULL | _ => false end.
Definition step_worker (self : Z) (i : nat) (s : tstate) : option tstate :=
  match t_threads s !! i with
  | Some t => if alloc_failed t then None else step_thread self i s
  | None => Some s
  end.
Fixpoint run_workers (self : Z) (sched : list nat) (s : tstate) : option tstate :=
  match sched with
  | [] => Some s
  | i :: sched' => s' ← step_worker self i s; run_workers self sched' s'
  end.

Lemma run_workers_app self l1 l2 s :
  run_workers self (l1 ++ l2) s = (s' ← run_workers self l1 s; run_workers self l2 s').
Proof.
  revert s. induction l1 as [|i l1 IH]; intros s; [done|]. cbn [app run_workers].
  destruct (step_worker self i s); cbn [mbind option_bind]; [apply IH|done].
Qed.

(** ** What is left to do: an upper bound on the steps of a thread that nobody
    disturbs *)
Definition pc_weight (p : pc) : nat :=
  match p with Spin _ => 8 | At_lock _ => 7 | p => rank p end.
Definition to_do (t : thread) : nat := 16 * length (t_ops t) + pc_weight (t_pc t).
#[global] Arguments to_do : simpl never.
Definition all_to_do (s : tstate) : nat := sum_list_with to_do (t_threads s).

Lemma to_do_finished t : to_do t = 0%nat <-> finished t = true.
Proof.
  destruct t as [p ops held]. unfold to_do. cbn [t_ops t_pc]. split.
  - intros Hz. destruct ops; [|cbn in Hz; lia]. destruct p; cbn in Hz; done || lia.
  - destruct p, ops; done.
Qed.

Lemma sum_insert (ts : list thread) i t t' : ts !! i = Some t ->
  (sum_list_with to_do (<[i := t']> ts) + to_do t = sum_list_with to_do ts + to_do t')%nat.
Proof.
  revert i. induction ts as [|u ts IH]; intros [|i] Hi; [done|done| |].
  - injection Hi as ->. cbn. lia.
  - specialize (IH i Hi). change (<[S i := t']> (u :: ts)) with (u :: <[i := t']> ts). cbn [sum_list_with]. lia.
Qed.
Lemma sum_zero (ts : list thread) : sum_list_with to_do ts = 0%nat -> Forall (fun t => finished t = true) ts.
Proof.
  induction ts as [|t ts IH]; cbn [sum_list_with]; intros Hz; [by left|].
  apply Nat.eq_add_0 in Hz as [? Hz]. apply Forall_cons. split; [by apply to_do_finished|by apply IH].
Qed.
Lemma unfinished (ts : list thread) : sum_list_with to_do ts <> 0%nat ->
  exists i t, ts !! i = Some t /\ finished t = false.
Proof.
  induction ts as [|t ts IH]; [done|]. cbn. intros Hz. destruct (finished t) eqn:Hf; [|by exists 0%nat, t].
  apply to_do_finished in Hf. destruct IH as (i & u & Hi & ?); [lia|]. by exists (S i), u.
Qed.

Section workers.
Context (S0 : stk) (sz : Z).
Local Abbreviation L := ss_layout.
Local Abbreviation self := (k_self S0).
Local Abbreviation lock := (self + ss_lock).
Implicit Types (s : tstate) (t : thread) (m : mem).

(** ** Progress *)
Lemma locked_weight k : (pc_weight (enter k) < 7)%nat.
Proof. destruct k; cbn; lia. Qed.

(** a step that is not a wait leaves less to do *)
Lemma tstep_to_do m t m' t' : tstep self m t = Some (m', t') -> finished t = false ->
  critical (t_pc t) = true \/ ld 4 m lock = 0 -> (to_do t' < to_do t)%nat.
Proof.
  intros Hs Hf Hor. destruct (critical (t_pc t)) eqn:Hc.
  - destruct (tstep_rank S0 _ _ _ _ Hs Hc) as [Hlt Hcase].
    assert (t_ops t' = t_ops t) as Ho.
    { unfold tstep in Hs. destruct (t_pc t); try done; cbn [mbind option_bind] in Hs;
        repeat match type of Hs with
        | context [rdm ?n ?m ?a] => destruct (rdm n m a); cbn [option_bind] in Hs; [|done]
        | context [wrm ?n ?a ?v ?m] => destruct (wrm n a v m); cbn [option_bind] in Hs; [|done]
        end; by injection Hs as <- <-. }
    unfold to_do. rewrite Ho. assert (forall p, critical p = true \/ p = Idle -> pc_weight p = rank p) as Hw.
    { intros [] [|]; done. }
    rewrite !Hw by tauto. lia.
  - destruct Hor as [|Hl]; [done|]. unfold tstep in Hs. destruct (t_pc t) eqn:Hpc; try done.
    + unfold start_op in Hs. destruct t as [p [|[]] held]; cbn in *; subst p; [done| | |].
      * injection Hs as <- <-. unfold to_do. cbn. lia.
      * destruct (held !! k); [|injection Hs as <- <-; unfold to_do; cbn; lia].
        destruct (checked_id self m m0); [|done]. injection Hs as <- <-. unfold to_do. cbn. lia.
      * destruct (held !! k); [|injection Hs as <- <-; unfold to_do; cbn; lia].
        destruct (if _ : bool then _ else _); [|done]. injection Hs as <- <-. unfold to_do. cbn. lia.
    + unfold rdm, wrm in Hs. destruct (mapped _ _ _); [|done]. cbn [mbind option_bind] in Hs.
      cbn [mbind option_bind] in Hs. rewrite Hl in Hs. injection Hs as <- <-.
      unfold to_do. rewrite Hpc. cbn [t_pc t_ops Z.eqb pc_weight]. pose proof (locked_weight k). lia.
    + unfold rdm in Hs. destruct (mapped _ _ _); [|done]. cbn [mbind option_bind] in Hs. rewrite Hl in Hs.
      injection Hs as <- <-. unfold to_do. rewrite Hpc. cbn. lia.
Qed.

(** unless all are done some thread can take a step that is not a wait *)
Lemma some_can_go s : tinv S0 s -> all_to_do s <> 0%nat ->
  exists i t, t_threads s !! i = Some t /\ finished t = false /\ (critical (t_pc t) = true \/ ld 4 (t_mem s) lock = 0).
Proof.
  intros [_ _ _ (c & free & gs & Hh & Hlk & Hst & _)] Hz. destruct c as [j|].
  - destruct Hst as (t & Hj & _). exists j, t. pose proof (proj2 (Hh j t Hj) eq_refl) as Hc.
    split_and!; [done| |by left]. by destruct t as [[] ? ?].
  - destruct (unfinished (t_threads s) Hz) as (i & t & Hi & Hf). by exists i, t; eauto.
Qed.

(** ** Where a worker is in its round *)
Definition allocating (p : pc) : bool :=
  match p with
  | At_lock (L_alloc n) | Spin (L_alloc n) | A_test n => n =? sz
  | A_dec | A_store _ | A_slot _ => true
  | A_ret b => negb (ptr b =? NULL)
  | _ => false
  end.
Definition releasing (p : pc) : bool :=
  match p with
  | At_lock (L_dealloc _) | Spin (L_dealloc _) | D_top _ | D_store _ _ | D_slot _ _ | D_ret => true
  | _ => false
  end.
Inductive working : thread -> Prop :=
  | W_next n : working (worker sz n)
  | W_alloc p n : allocating p = true -> working (Thread p (T_free 0 :: worker_ops sz n) [])
  | W_holds b n : working (Thread Idle (T_free 0 :: worker_ops sz n) [b])
  | W_free p n : releasing p = true -> working (Thread p (worker_ops sz n) []).

Record workers_inv s : Prop := {
  wk_inv : tinv S0 s;
  wk_working : Forall working (t_threads s);
  wk_enough : Z.of_nat (length (t_threads s)) <= k_num S0;
  wk_fits : sz <= k_esz S0
}.

(** a worker owns at most one entry, and none before it has taken one *)
Lemma working_owns m free t g : working t -> owns_entries S0 m free t g -> (length g <= 1)%nat /\
  (t_pc t = A_test sz -> g = []).
Proof.
  intros Hw (ids & f & Hheld & Hf & ->).
  assert (length (t_held t) = length ids) as Hl by (by rewrite Hheld, length_fmap).
  rewrite length_app. destruct Hw as [n|p n Hp|b n|p n Hp]; unfold worker in *; cbn [t_pc t_held length] in *.
  - cbn in Hf. subst f. cbn. split; [lia|done].
  - destruct ids; [|done]. cbn [length Nat.add app]. destruct p; try done; cbn in Hf; try destruct k; try done;
      try (subst f; cbn; split; [lia|done]); try (destruct Hf as [-> _]; cbn; split; [lia|done]).
    + destruct Hf as [_ ->]. cbn. split; [lia|done].
    + destruct Hf as [[_ ->]|(x & -> & _)]; cbn; split; lia || done.
  - cbn in Hf. subst f. cbn. split; [lia|done].
  - destruct ids; [|done]. cbn [length Nat.add app]. destruct p; try done; cbn in Hf; try destruct k; try done;
      try (subst f; cbn; split; [lia|done]); destruct Hf as [-> _]; cbn; split; lia || done.
Qed.

(** a worker that tests whether the stack is empty finds it is not *)
Lemma stack_not_empty s i t free gs ids f : workers_inv s -> holding S0 s i t free gs ids f ->
  t_pc t = A_test sz -> free <> [].
Proof.
  intros [Hinv Hall Hn _] Hd Hpc ->. pose proof (hd_owns _ _ _ _ _ _ _ _ Hd) as Hown.
  pose proof (hd_perm _ _ _ _ _ _ _ _ Hd) as Hperm. pose proof (sp_num _ (ti_params _ _ Hinv)) as Hn0.
  rewrite app_nil_r in Hperm. apply Permutation_length in Hperm. rewrite length_seqZ in Hperm.
  assert (Forall (fun g => length g <= 1)%nat gs) as Hle.
  { apply Forall_lookup. intros j g Hg. destruct (Forall2_lookup_r _ _ _ _ _ Hown Hg) as (u & Hu & Ho).
    apply (working_owns (t_mem s) [] u g); [by eapply Forall_lookup|done]. }
  pose proof (Forall2_length _ _ _ Hown) as Hlen.
  pose proof (hd_entries _ _ _ _ _ _ _ _ Hd) as Hg.
  destruct (Forall2_lookup_r _ _ _ _ _ Hown Hg) as (u & Hu & Ho). rewrite (hd_thread _ _ _ _ _ _ _ _ Hd) in Hu.
  injection Hu as <-. destruct (working_owns (t_mem s) [] t _ (proj1 (Forall_lookup _ _) Hall i t (hd_thread _ _ _ _ _ _ _ _ Hd)) Ho) as [_ Hnil].
  rewrite (Hnil Hpc) in Hg.
  assert (length (concat gs) < length gs)%nat as Hlt; [|lia].
  clear -Hle Hg. revert i Hg. induction Hle as [|g gs Hgl Hle IH]; intros [|i] Hg; try done.
  - injection Hg as ->. cbn. clear IH Hgl. induction Hle; cbn; [lia|]. rewrite length_app. lia.
  - cbn. rewrite length_app. specialize (IH i Hg). lia.
Qed.

Lemma step_working s i t m' t' : workers_inv s -> t_threads s !! i = Some t ->
  tstep self (t_mem s) t = Some (m', t') -> working t'.
Proof.
  intros Hwk Hi Hs. pose proof Hwk as [Hinv Hall Hn Hfit].
  pose proof (proj1 (Forall_lookup _ _) Hall i t Hi) as Hw. destruct Hw as [[|n]|p n Hp|b n|p n Hp].
  - injection Hs as _ <-. apply (W_next 0).
  - injection Hs as _ <-. apply (W_alloc (At_lock (L_alloc sz)) n). apply Z.eqb_refl.
  - destruct p; try done; cbn [allocating] in Hp; try (destruct k; try done; apply Z.eqb_eq in Hp as ->).
    + unfold tstep in Hs. cbn [t_pc t_ops t_held] in Hs. destruct (rdm _ _ _); [|done]. cbn [mbind option_bind] in Hs.
      destruct (wrm _ _ _ _); [|done]. injection Hs as _ <-. apply W_alloc. destruct (_ =? 0); apply Z.eqb_refl.
    + unfold tstep in Hs. cbn [t_pc t_ops t_held] in Hs. destruct (rdm _ _ _); [|done]. injection Hs as _ <-.
      apply W_alloc. destruct (_ =? 0); apply Z.eqb_refl.
    + apply Z.eqb_eq in Hp as ->. destruct (holding_open S0 s i _ Hinv Hi eq_refl) as (free & gs & ids & f & Hd).
      destruct (test_result S0 s i _ sz free gs ids f Hd eq_refl (sp_num _ (ti_params _ _ Hinv))) as [_ Hr].
      rewrite decide_False in Hr.
      2:{ intros [Hz|Hz]; [by apply (stack_not_empty s i _ free gs ids f Hwk Hd)|lia]. }
      cbn [t_ops t_held] in Hr. assert (t' = Thread A_dec (T_free 0 :: worker_ops sz n) []) as -> by congruence. by apply W_alloc.
    + unfold tstep in Hs. cbn [t_pc t_ops t_held] in Hs. destruct (rdm _ _ _); [|done]. injection Hs as _ <-. by apply W_alloc.
    + unfold tstep in Hs. cbn [t_pc t_ops t_held] in Hs. destruct (wrm _ _ _ _); [|done]. injection Hs as _ <-. by apply W_alloc.
    + destruct (holding_open S0 s i _ Hinv Hi eq_refl) as (free & gs & ids & f & Hd).
      destruct (slot_result S0 s i _ t free gs ids f Hinv Hd eq_refl) as (x & -> & Hx & Hr).
      cbn [t_ops t_held] in Hr. assert (t' = Thread (A_ret (k_entry S0 x)) (T_free 0 :: worker_ops sz n) []) as -> by congruence. apply W_alloc.
      cbn. destruct (ti_params _ _ Hinv) as [_ He _ [Hb _]]. apply negb_true_iff, Z.eqb_neq. unfold NULL. nia.
    + unfold tstep in Hs. cbn [t_pc t_ops t_held] in Hs. destruct (wrm _ _ _ _); [|done]. injection Hs as _ <-.
      apply negb_true_iff in Hp. rewrite Hp. apply W_holds.
  - unfold tstep in Hs. cbn [t_pc t_ops t_held start_op lookup list_lookup] in Hs.
    destruct (checked_id _ _ _); [|done]. injection Hs as _ <-. by apply W_free.
  - destruct p; try done; cbn [releasing] in Hp; try (destruct k; try done);
      unfold tstep in Hs; cbn [t_pc t_ops t_held mbind option_bind] in Hs.
    all: repeat match type of Hs with
      | context [rdm ?n ?m ?a] => destruct (rdm n m a); cbn [option_bind] in Hs; [|done]
      | context [wrm ?n ?a ?v ?m] => destruct (wrm n a v m); cbn [option_bind] in Hs; [|done]
      end; injection Hs as _ <-; try (by apply W_free); try (apply W_free; by destruct (_ =? 0)).
    apply W_next.
Qed.

(** the bytes the threads write: the lock, and the stack's *)
Definition spin_fp (x : Z) : Prop := range lock 4 x \/ stk_fp L S0 x.
Ltac in_header := unfold k_len; unalloc; cbn; lia.
Lemma step_frame s i t m' t' : workers_inv s -> t_threads s !! i = Some t ->
  tstep self (t_mem s) t = Some (m', t') -> agree_off spin_fp (t_mem s) m'.
Proof.
  intros Hwk Hi Hs. pose proof Hwk as [Hinv Hall _ _]. pose proof (sp_num _ (ti_params _ _ Hinv)) as Hn.
  assert (forall n a v, wrm n a v (t_mem s) = Some m' -> 
    (a = lock /\ n = 4%nat) \/ (self + k_base_addr L <= a /\ a + Z.of_nat n <= self + k_len L S0) ->
    agree_off spin_fp (t_mem s) m') as Hgo.
  { unfold wrm. intros n a v Hw Hin. destruct (mapped _ _ _); [|done]. injection Hw as <-. apply agree_off_st.
    intros x Hx. unfold spin_fp, stk_fp, range in *. destruct Hin as [[-> ->]|Hin]; [left; lia|right; lia]. }
  pose proof (proj1 (Forall_lookup _ _) Hall i t Hi) as Hw. unfold tstep in Hs.
  destruct (t_pc t) eqn:Hpc; cbn [mbind option_bind] in Hs;
    repeat match type of Hs with
    | context [rdm ?n ?m ?a] => destruct (rdm n m a); cbn [option_bind] in Hs; [|done]
    | context [wrm ?n ?a ?v ?m] => destruct (wrm n a v m) eqn:Hwr; cbn [option_bind] in Hs; [|done]
    end; try (injection Hs as <- <-; first [done | eapply Hgo; [exact Hwr|first [by left|right; in_header]]]).
  - assert (m' = t_mem s) as ->; [|done].
    destruct Hw as [[|n]|p n Hp|b n|p n Hp]; cbn [t_pc] in Hpc; try (subst p; done);
      cbn [t_ops t_held worker worker_ops start_op lookup list_lookup] in Hs; try congruence.
    destruct (checked_id _ _ _); [|done]. cbn [mbind option_bind] in Hs. congruence.
  - destruct (holding_open S0 s i t Hinv Hi) as (free & gs & ids & f & Hd); [by rewrite Hpc|].
    pose proof (hd_flight _ _ _ _ _ _ _ _ Hd) as Hf. pose proof (hd_length _ _ _ _ _ _ _ _ Hd) as Hlen.
    rewrite Hpc in Hf. destruct Hf as (_ & l & -> & ->). rewrite !length_app in Hlen. cbn [length] in Hlen.
    injection Hs as <- <-. eapply Hgo; [exact Hwr|first [by left|right; in_header]].
Qed.

Lemma working_not_failed t : working t -> alloc_failed t = false.
Proof.
  destruct 1 as [n|p n Hp|b n|p n Hp]; try done; destruct p; try done. unfold alloc_failed. by apply negb_true_iff in Hp.
Qed.

(** ** The runs *)
Lemma step_worker_ok s i t : workers_inv s -> t_threads s !! i = Some t ->
  exists m' t', tstep self (t_mem s) t = Some (m', t') /\
    step_worker self i s = Some (TState m' (<[i := t']> (t_threads s))) /\
    workers_inv (TState m' (<[i := t']> (t_threads s))) /\
    agree_off spin_fp (t_mem s) m'.
Proof.
  intros Hwk Hi. pose proof Hwk as [Hinv Hall Hn Hfit].
  destruct (tstep_ok S0 s i t Hinv Hi) as (m' & t' & Hs & Hinv'). exists m', t'. split_and!; [done| | |by eapply step_frame].
  - unfold step_worker, step_thread. rewrite Hi, working_not_failed by (by eapply Forall_lookup). by rewrite Hs.
  - split; [done| |cbn; by rewrite length_insert|done]. apply Forall_insert; [done|]. by eapply step_working.
Qed.

Lemma run_workers_ok sched s : workers_inv s ->
  exists s', run_workers self sched s = Some s' /\ workers_inv s' /\
    agree_off spin_fp (t_mem s) (t_mem s').
Proof.
  revert s. induction sched as [|i sched IH]; intros s Hwk; cbn [run_workers]; [by exists s|].
  destruct (t_threads s !! i) as [t|] eqn:Hi.
  - destruct (step_worker_ok s i t Hwk Hi) as (m' & t' & _ & -> & Hwk' & Hag). cbn [mbind option_bind].
    destruct (IH _ Hwk') as (s' & Hr & Hw' & Hag'). exists s'. split_and!; [done|done|]. by etransitivity.
  - unfold step_worker. rewrite Hi. cbn [mbind option_bind]. by apply IH.
Qed.

(** every run can be continued until all threads are done *)
Lemma workers_can_finish n s : (all_to_do s <= n)%nat -> workers_inv s ->
  exists sched s', run_workers self sched s = Some s' /\ Forall (fun t => finished t = true) (t_threads s').
Proof.
  revert s. induction n as [|n IH]; intros s Hn Hwk.
  { exists [], s. split; [done|]. apply sum_zero. unfold all_to_do in Hn. lia. }
  destruct (decide (all_to_do s = 0%nat)) as [Hz|Hz].
  { exists [], s. split; [done|]. by apply sum_zero. }
  destruct (some_can_go s (wk_inv s Hwk) Hz) as (i & t & Hi & Hf & Hgo).
  destruct (step_worker_ok s i t Hwk Hi) as (m' & t' & Hs & Hstep & Hwk' & _).
  pose proof (tstep_to_do _ _ _ _ Hs Hf Hgo) as Hlt. pose proof (sum_insert (t_threads s) i t t' Hi) as Hsum.
  destruct (IH (TState m' (<[i := t']> (t_threads s)))) as (sched & s' & Hr & Hfin);
    [unfold all_to_do in *; cbn [t_threads]; lia|done|].
  exists (i :: sched), s'. split; [|done]. cbn [run_workers]. by rewrite Hstep.
Qed.

(** once all are done the lock is free and so is every entry *)
Lemma workers_done s : workers_inv s -> Forall (fun t => finished t = true) (t_threads s) ->
  exists free, free ≡ₚ seqZ 0 (k_num S0) /\ ld 4 (t_mem s) lock = 0 /\ stk_rep L (t_mem s) (set_kfree free S0).
Proof.
  intros [[Hp Hd Hm (c & free & gs & Hh & Hlk & Hst & Hown & Hperm)] Hall _ _] Hfin.
  exists free. destruct c as [j|].
  { destruct Hst as (t & Hj & _). pose proof (proj2 (Hh j t Hj) eq_refl) as Hc.
    pose proof (proj1 (Forall_lookup _ _) Hfin j t Hj) as Hf. by destruct t as [[] ? ?]. }
  split_and!; [|done|done]. assert (concat gs = []) as Hnil; [|by rewrite Hnil in Hperm].
  clear -Hown Hall Hfin. induction Hown as [|t g ts gs (ids & f & Hheld & Hf & ->) _ IH]; [done|].
  apply Forall_cons in Hall as [Hw Hall]. apply Forall_cons in Hfin as [Hft Hfin]. cbn [concat]. rewrite IH by done.
  destruct Hw as [[|n]|p n Hp|b n|p n Hp]; try done.
  - cbn in Hheld, Hf. by destruct ids; subst f.
  - by destruct p.
  - by destruct p, n.
Qed.

Lemma workers_fresh s k n : fresh_threads S0 s -> t_threads s = repeat (worker sz n) k -> Z.of_nat k <= k_num S0 ->
  sz <= k_esz S0 -> workers_inv s.
Proof.
  intros Hf Ht Hk Hsz. split; [by apply fresh_inv| |by rewrite Ht, repeat_length|done].
  rewrite Ht. clear. induction k; cbn; constructor; [apply W_next|done].
Qed.
End workers.
