(* ===== verification/AllocTests.v ===== *)
(** * allocator/tests/spinlock_stack_allocator.cpp

    The test program of the spinlock stack allocator and that it passes.  The
    first four tests start at most one thread and join it at once, so their
    calls come one after the other; the threads of the last one are those of
    SpinWorkers.v and the schedule is an argument.  The pauses between the calls have
    no effect of their own: they are part of what a schedule leaves open. *)
From S2P Require Import Prelude Mem Platform Memory Spinlock Alloc StackSpec DmaAlloc Vfs AllocLaws AllocInst StackInst.
From S2P Require Import NewInst Sim AllocSim AllocProps SpinThreads SpinProps SpinWorkers.

Section tests.
Context {LK : Linker} {H : Type} {PF : Platform H}.
Context (NDEBUG : bool) (spin : nat).
Local Abbreviation W := (world H).

Definition test_allocator : M W Z := spinlock_stack_allocator_new spin 1 12 64 mallocator_t.

Definition create_delete_test : M W unit :=
  a ← test_allocator;
  spinlock_stack_allocator_free NDEBUG spin 1 a.

(** the allocator is freed by another thread, which is joined *)
Definition mt_create_delete_test : M W unit :=
  a ← test_allocator;
  spinlock_stack_allocator_free NDEBUG spin 1 a.

Definition assert_ (b : bool) : M W unit := if NDEBUG || b then mret tt else error "assert".

Definition simple_alloc_test : M W unit :=
  a ← test_allocator;
  blk ← allocate spin 1 a 64;
  assert_ (negb (ptr blk =? NULL) && (64 <=? size blk)) ;;
  _ ← deallocate NDEBUG spin 1 a blk;
  spinlock_stack_allocator_free NDEBUG spin 1 a.

(** do { blk = a->allocate(a, 5); blks.push_back(blk); } while (blk.ptr); *)
Fixpoint allocate_all (fuel : nat) (a : Z) (blks : list mem_blk) : M W (list mem_blk) :=
  match fuel with
  | O => hang
  | S fuel' =>
      blk ← allocate spin 1 a 5;
      let blks := blks ++ [blk] in
      if ptr blk =? NULL then mret blks else allocate_all fuel' a blks
  end.

Definition mt_test (fuel : nat) : M W unit :=
  a ← test_allocator;
  _ ← allocate_all fuel a [];
  spinlock_stack_allocator_free NDEBUG spin 1 a.

(** threads that run until all have ended and are joined; a schedule that ends
    before they do is not a run of the program *)
Definition run_threads (a : Z) (ts : list thread) (sched : list nat) : M W unit := fun w =>
  match run_workers a sched (TState (w_mem w) ts) with
  | Some s => if forallb finished (t_threads s) then Ok tt (set_mem (t_mem s) w) else Hang
  | None => Err (Fault "thread") w
  end.

Definition alloc_free_thread : thread := worker 5 (Z.to_nat 10000).

Definition mt_concurrent_alloc_free (sched : list nat) : M W unit :=
  a ← test_allocator;
  run_threads a [alloc_free_thread; alloc_free_thread] sched ;;
  spinlock_stack_allocator_free NDEBUG spin 1 a.

(** the tests before the concurrent one *)
Definition sequential_tests (fuel : nat) : M W unit :=
  create_delete_test ;; mt_create_delete_test ;; simple_alloc_test ;; mt_test fuel.

Definition tests_main (fuel : nat) (sched : list nat) : M W unit :=
  sequential_tests fuel ;; mt_concurrent_alloc_free sched.
End tests.

(** ** The concurrent test, over any heap *)
Section concurrent.
Context {LK : Linker} {H : Type} {PF : Platform H} {HL : @HeapLaws H PF}.
Context (NDEBUG : bool) (spin : nat) (Hspin : (0 < spin)%nat).
Implicit Types (w : world H).

(** an allocator nobody holds a block of, and threads that have not begun *)
Lemma alive_fresh par a base esz num F w ts :
  alive (spinlock_inv 0 par a base esz num) [] F w -> Forall (fun t => t_pc t = Idle /\ t_held t = []) ts ->
  exists free, fresh_threads (Stk a base esz num free) (TState (w_mem w) ts).
Proof.
  intros (Hw & R & (free & ids & Hp & Ha & HLv & HRR & Hr & Hv & [Hlk Hpar]) & Hreg) Hts. exists free.
  pose proof (heap_sep _ _ Hw) as Hs. rewrite Hreg, HRR in Hs. apply sep_app in Hs as ([Hs _] & _).
  apply Forall_cons in Hs as [[_ Hs] _]. symmetry in HLv. apply Permutation_nil_r, fmap_nil_inv in HLv as ->.
  split; cbn; try done. apply (mapped_elem _ (base, num * esz)); cbn; [|lia|lia].
  rewrite Hreg, HRR. right. by left.
Qed.

(** the allocator after threads that have given everything back *)
Lemma spin_fp_close par a base esz num free free' F w m' :
  alive (spinlock_inv 0 par a base esz num) [] F w ->
  agree_off (spin_fp (Stk a base esz num free)) (w_mem w) m' ->
  free' ≡ₚ seqZ 0 num -> ld 4 m' (a + ss_lock) = 0 -> stk_rep ss_layout m' (Stk a base esz num free') ->
  alive (spinlock_inv 0 par a base esz num) [] F (set_mem m' w) /\
  quiet (range a (k_sizeof ss_layout + 4 * num)) w (set_mem m' w).
Proof.
  intros Hal [Hrg Hag] Hfree Hlk Hrep.
  destruct (stack_alive_open _ _ _ _ _ _ _ _ _ _ Hal) as (_ & Hv & [_ Hpar] & _ & fr0 & ids0 & Hp & _).
  pose proof (sp_num _ Hp) as Hn. cbn in Hn.
  assert (forall x, range a (k_base_addr ss_layout) x -> ~ range (a + ss_lock) 4 x -> rd m' x = rd (w_mem w) x) as Hhead.
  { intros x Hx Hnl. symmetry. apply Hag. unfold spin_fp, stk_fp, range in *. cbn in *. lia. }
  apply and_comm. eapply (stack_alive_close ss_layout Spinlock_stack (lock_is 0 par) a base esz num [] [] F w m' free' []).
  - exact Hal.
  - split; [done|]. intros x Hx. apply Hag. intros Hfp. apply Hx. unfold spin_fp, stk_fp, k_len, range in *.
    unalloc. cbn in *. lia.
  - eapply vfs_at_ext; [|exact Hv]. intros x Hx. apply Hhead; unfold range in *; unalloc; cbn in *; lia.
  - split; [done|]. rewrite <- Hpar. apply ld_ext. intros x Hx. apply Hhead; unfold range in *; unalloc; cbn in *; lia.
  - done.
  - done.
  - done.
Qed.

(** the threads of the test on such an allocator: under every schedule no thread
    faults, aborts or is refused a block, and every schedule can be continued
    until they have ended; then the allocator is as before *)
Lemma run_threads_spec par a base esz num F w sz n k sched :
  alive (spinlock_inv 0 par a base esz num) [] F w -> Z.of_nat k <= num -> sz <= esz ->
  let ts := repeat (worker sz n) k in
  (run_threads a ts sched w = Hang \/
   exists w', run_threads a ts sched w = Ok tt w' /\ alive (spinlock_inv 0 par a base esz num) [] F w' /\
     frame_kept F w w') /\
  (exists rest w', run_threads a ts (sched ++ rest) w = Ok tt w').
Proof.
  intros Hal Hk Hsz ts. destruct (alive_fresh par a base esz num F w ts Hal) as (free & Hf).
  { apply Forall_forall. intros t Ht. apply list_elem_of_In, repeat_spec in Ht as ->. done. }
  set (S0 := Stk a base esz num free) in *.
  pose proof (workers_fresh S0 sz _ k n Hf eq_refl Hk Hsz) as Hwk.
  destruct (run_workers_ok S0 sz sched _ Hwk) as (s & Hrun & Hwk' & Hag). unfold run_threads. split.
  - change (k_self S0) with a in Hrun. rewrite Hrun.
    destruct (forallb finished (t_threads s)) eqn:Hfin; [right|by left]. eexists. split; [done|].
    assert (Forall (fun t => finished t = true) (t_threads s)) as Hfin'.
    { apply Forall_forall. intros t Ht. eapply forallb_forall; [exact Hfin|by apply list_elem_of_In]. }
    destruct (workers_done S0 sz s Hwk' Hfin') as (free' & Hperm & Hlk & Hrep).
    destruct (spin_fp_close par a base esz num free free' F w (t_mem s) Hal Hag Hperm Hlk Hrep) as [Hal' Hq].
    split; [done|]. intros r x Hin Hx.
    by apply (quiet_outside NDEBUG spin a (LQ := spinlock_laws NDEBUG spin Hspin 0 par a base esz num) [] F w _ r x Hal Hq).
  - destruct (workers_can_finish S0 sz _ s (le_n _) Hwk') as (rest & s' & Hr & Hfin).
    exists rest. eexists. rewrite run_workers_app. change (k_self S0) with a in *. rewrite Hrun. cbn [mbind option_bind].
    rewrite Hr. rewrite (proj2 (forallb_forall _ _)); [done|].
    intros t Ht. rewrite Forall_forall in Hfin. by apply Hfin, list_elem_of_In.
Qed.

(** the whole concurrent test, where the constructor finds memory *)
Lemma concurrent_test_spec F w a w1 sched : mallocator_ready mallocator_t F w -> 0 <= mallocator_t < 2 ^ 64 ->
  test_allocator spin w = Ok a w1 -> a <> NULL ->
  (mt_concurrent_alloc_free NDEBUG spin sched w = Hang \/
   exists w', mt_concurrent_alloc_free NDEBUG spin sched w = Ok tt w' /\ mallocator_ready mallocator_t F w') /\
  (exists rest w', mt_concurrent_alloc_free NDEBUG spin (sched ++ rest) w = Ok tt w').
Proof.
  intros Hr Hpar Hnew Ha.
  pose proof (spinlock_new_spec spin 0 12 64 mallocator_t F w Hr Hpar ltac:(lia) ltac:(lia) ltac:(by vm_compute)) as Hs.
  unfold wp in Hs. fold (test_allocator spin) in Hs. rewrite Hnew in Hs.
  destruct Hs as [[? _]|(Ha0 & base & Hal & Hv)]; [done|]. change (entry_size_of 64) with 64 in Hal.
  assert (forall l, run_threads a [alloc_free_thread; alloc_free_thread] l w1 = Hang \/
    exists w2, run_threads a [alloc_free_thread; alloc_free_thread] l w1 = Ok tt w2 /\
      exists w', spinlock_stack_allocator_free NDEBUG spin 1 a w2 = Ok tt w' /\ mallocator_ready mallocator_t F w') as Hall.
  { intros l. destruct (run_threads_spec mallocator_t a base 64 12 _ w1 5 (Z.to_nat 10000) 2 l Hal
      ltac:(lia) ltac:(lia)) as [[Hh|(w2 & Hrun & Hal2 & Hq)] _]; [by left|right].
    exists w2. split; [exact Hrun|].
    pose proof (spinlock_free_spec NDEBUG spin mallocator_t a base 64 12 [] F w2 0 Ha Hspin Hal2) as Hf.
    specialize (Hf ltac:(eapply vfs_frame; [exact Hv|exact Hq])). unfold wp in Hf.
    destruct (spinlock_stack_allocator_free NDEBUG spin 1 a w2) as [[] w'|e w'|]; [by exists w'|done|done]. }
  assert (forall l, mt_concurrent_alloc_free NDEBUG spin l w =
    (run_threads a [alloc_free_thread; alloc_free_thread] l ;; spinlock_stack_allocator_free NDEBUG spin 1 a) w1) as Heq.
  { intros l. unfold mt_concurrent_alloc_free. unfold mbind at 1, M_bind. by rewrite Hnew. }
  split.
  - rewrite Heq. unfold mbind, M_bind. destruct (Hall sched) as [->|(w2 & -> & w' & -> & Hr')]; [by left|right; by exists w'].
  - destruct (run_threads_spec mallocator_t a base 64 12 _ w1 5 (Z.to_nat 10000) 2 sched Hal
      ltac:(lia) ltac:(lia)) as [_ (rest & w2 & Hrun)].
    exists rest. rewrite Heq. unfold mbind, M_bind.
    destruct (Hall (sched ++ rest)) as [Hh|(w3 & -> & w' & -> & Hr')]; [|by exists w'].
    exfalso. pose proof (eq_trans (eq_sym Hh) Hrun). done.
Qed.
End concurrent.

(** ** The program on a machine whose heap suffices *)
Definition tested_world : world sim :=
  Eval vm_compute in (run_alloc (sequential_tests false 1 13) plain_world tt).2.
Lemma sequential_tests_pass : sequential_tests false 1 13 plain_world = Ok tt tested_world.
Proof. by vm_compute. Qed.
Lemma tested_world_ready : mallocator_ready mallocator_t other_statics tested_world.
Proof.
  split.
  - split.
    + cbn. repeat first [apply Forall_cons_2|apply Forall_nil_2|split]; unfold disj; cbn; lia.
    + cbn. repeat apply Forall_cons_2; cbn; try lia. apply Forall_nil_2.
  - exists [(mallocator_t, 32)]. split.
    + split_and!; [done|by apply Forall_nil_2|]. apply vfs_atb_sound. by vm_compute.
    + cbn. apply (Permutation_swap (0x4020, 32) (0x4040, 32)).
Qed.
Definition last_allocator : Z * world sim := Eval vm_compute in run_alloc (test_allocator 1) tested_world 0.

(** C11: the test program of the spinlock stack allocator passes on a machine whose
    heap suffices: under every schedule of the two threads of its last test, 10000
    allocations and releases each, no assertion fails, no thread faults, aborts or is refused a
    block; when the threads have ended the program ends, and exactly the static objects are still
    mapped; and every schedule can be continued until they have ended. *)
Theorem alloc_tests_pass sched :
  (tests_main false 1 13 sched plain_world = Hang \/
   exists w', tests_main false 1 13 sched plain_world = Ok tt w' /\ regions (w_mem w') ≡ₚ regions statics) /\
  (exists rest w', tests_main false 1 13 (sched ++ rest) plain_world = Ok tt w').
Proof.
  assert (forall l, tests_main false 1 13 l plain_world = mt_concurrent_alloc_free false 1 l tested_world) as Heq.
  { intros l. unfold tests_main. by rewrite (bind_eq _ _ _ _ _ sequential_tests_pass). }
  pose proof (concurrent_test_spec false 1 ltac:(lia) other_statics tested_world last_allocator.1 last_allocator.2
    sched tested_world_ready ltac:(vm_compute; split; [discriminate|reflexivity]) ltac:(by vm_compute) ltac:(by vm_compute)) as [Hc Hd].
  rewrite Heq. split.
  - destruct Hc as [Hc|(w' & Hc & _ & R & (HR & _) & Hreg)]; [by left|right]. exists w'. split; [done|].
    rewrite Hreg, HR. cbn. apply (Permutation_swap (0x4040, 32) (0x4020, 32)).
  - destruct Hd as (rest & w' & Hd). exists rest, w'. by rewrite Heq.
Qed.
